(* ===== verification/_CoqProject ===== *)
-Q . S2P
Prelude.v
GoStrings.v
GoStrconv.v
FastTemplate.v
Utils.v
Config.v
GoNet.v
MetaTypes.v
GoHttp.v
GoPath.v
Samples.v
MetaClient.v
MetaChange.v
Metadata.v
Provider.v
Grouping.v
Store.v
StoreZone.v
Reconcile.v
Sync.v
StorePublished.v
PlatformApi.v
Main.v
Route53.v
ServiceRun.v
Cloudflare.v
DNSimple.v
OVH.v
PointHQ.v
PowerDNS.v
RFC2136.v
DigitalOcean.v
AliDNS.v
Gandi.v
Infoblox.v
