(* ===== verification/Prelude.v ===== *)
(** * External DNS Sync: a verification development

    The program under [src/] keeps the DNS records of an environment in step
    with its running containers: it reads services, containers and hosts from
    a metadata service, derives the records that should exist, compares them
    with the zone at a DNS provider, and removes, adds and updates what
    differs.  An ownership ("state") record, a TXT record in the zone, lists
    the names that the environment has published; only those are ever removed.

    ** How the program is modelled

    A function of the source is a definition of the same name, with a prefix
    of the component where several files use one name ([cf_AddRecord] is
    [CloudflareProvider.AddRecord]).  Pure functions are functions.  Code with
    effects is a program [prog W A := W -> outcome A * W] over a world [W]; it
    returns, panics, or ends the process, and what it did before stays done.
    A pair of a value and an error is a [result]: an error is its text, which
    the code prints, wraps and (Infoblox) searches.  The world of a provider
    is a pair of the provider object and of everything outside.

    What is not under [src/] (the SDKs of the providers, HTTP, JSON, URLs,
    the clock, Unicode tables beyond ASCII) is a class of operations, a
    parameter of the definitions.  A theorem that needs the behaviour of such
    a package takes a class of laws that states its documentation
    ([Route53Laws], [CloudflareLaws], [DigitalOceanLaws], [AlidnsLaws],
    [GandiLaws], [OvhLaws]); each has an instance over a small service in memory, in a
    module [Example_...] at the end of the file, and the witnesses run there.

    ** The parts

    - Foundations.  This file: results, errors, the monad, generic lemmas.
      [GoStrings], [GoStrconv], [GoNet], [GoHttp], [GoPath]: what the program
      uses of Go's standard library.  [Samples]: concrete parameters.
    - [FastTemplate] (the vendored template engine), [Utils] (utils/utils.go:
      records, names, the ownership record) and [Config] (config/config.go).
    - [MetaTypes] and [MetaClient] (internal/metadata): the client of the
      metadata service and the wait at start-up; [MetaChange], the wait for
      changes.  [Metadata] (metadata/metadata.go): the scan that yields the desired
      records, a map from names to records, and the ownership record.
    - [Provider] (providers/provider.go): the interface of a provider, a class
      [Provider W], the registry, and the contract [ProviderContract], which
      says over an abstract zone (a map from name and type to values and TTL)
      what listing, adding, updating and removing do.
    - [Reconcile] (external-dns.go): the reconciliation, proved against the
      contract: which steps it takes, in which order.  [Sync] has its
      theorems.
    - The providers.  [Route53], [DigitalOcean] and [AliDNS] implement the
      contract over the laws of their services (instances [route53_contract],
      [digitalocean_contract], [alidns_contract]), so that the theorems of
      [Sync] hold for them.  [Cloudflare], [DNSimple], [OVH], [PointHQ],
      [PowerDNS], [RFC2136], [Gandi] and [Infoblox] model the other files of
      providers/.  [Grouping] is the listing loop that six of them share.
      [Store] is the interface of services with one value per record, with
      what the loops over such records do; [StoreZone] says what they do to
      the zone, clause by clause of the contract, and [StorePublished] follows
      the path from the scan to the values in such a store.
    - [PlatformApi] (internal/platformapi, platform_client.go, logsafe): the
      client of the control plane, whose requests carry credentials.
    - [Main] (main.go, healthcheck.go): start-up, the polling loop, the health
      endpoint.  Start-up reads the configured TTL back after the provider's
      [Init], which at DigitalOcean assigns it ([digitalocean_started]).
      [ServiceRun] runs the loop over the Route 53 provider.

    ** What is proved

    - Reconciliation ([Sync]): a run refines the specification [target] of the
      zone, on success completely and on failure but for one record set, and
      it fails only when a call that the contract allows did ([sync_err]); it
      is idempotent; records that are not owned are never touched, over any
      sequence of runs; the ownership record is written last; withdrawn names
      are removed; the upgrade from the older format; and the order of the
      operations does not depend on the order of Go's maps.
    - The desired records ([Metadata]): exactly the addresses of the eligible
      containers; well-formedness; refresh of the environment; default names.
    - The loop ([Main]): in a stable environment, where the calls that the
      contract allows succeed, the zone is the desired one within 61 iterations
      from any state of the loop; over Route 53 in [ServiceRun].
    - Route 53: complete listing over any pages, changes to the whole zone,
      the round trip of a record, and what start-up has checked of the keys,
      the endpoint, the attempts and the zone.
    - The whole path from the scan to the records that a service holds, in
      terms of the service: [route53_published], [digitalocean_published],
      [alidns_published].
    - Other providers: replacement of a record set at Cloudflare, atomicity at
      Gandi, what is stored, what is served and which errors are reported at
      OVH, complete listings at
      DigitalOcean and AliDNS, names and TTLs at AliDNS, names at DNSimple, the
      listings of PowerDNS and RFC 2136, and at Infoblox the containment of the
      secret file, additions and pages.
    - Clients: requests with credentials go to the scheme, host and port of
      the configured URL only ([PlatformApi]); bounded responses and attempts
      ([MetaClient]); every change of the version reported, and only changes
      ([MetaChange]).
    - Names and configuration ([Utils], [Config]): a template has one parse
      ([parsed]), and its expansion is the one of that parse; labels; the
      variables of the environment.

    Some theorems state what the code does where that is probably not what it
    means to do: the TTLs of [group_spec], the mixed records of
    [pdns_GetRecords_by_name], the overwritten pages of
    [ib_SendRequest_pages], the values not sent of [ib_AddRecord_spec], the
    partial transfers of [rfc_GetRecords_spec], the refresh that fails
    unnoticed of [ovh_UpdateRecord_served], the apex name of
    [relative_name_roundtrip], the alias of [route53_changes], and the panic
    of [Example_gandi.single_label_root].

    ** Bounds and fuel

    Integers are unbounded: the program adds TTLs, counters, times and lengths
    that stay far below 2^63; parsed numbers have the bounds of their Go types
    ([ParseInt], [ParseUint]).  A loop over pages takes its fuel from the
    outside ([list_fuel], [do_fuel], [ali_fuel], [ib_fuel]); the laws make it
    larger than the number of records, and the theorems show that the loops
    end before it is used up, for any larger fuel too.  The wait at start-up
    ends after five attempts for any fuel of at least five ([backoff_fuel] is
    64).  The template engine has fuel for every byte ([reset_loop_fuel]).
    The polling loop and the wait for changes do not end: [polls n] is [n]
    iterations, and [OnChange] has a number of rounds, with fuel for the
    requests of each; [n] rounds with fuel [S n] make at least [n] requests.

    ** Limits

    - Maps of Go are finite maps; where their order is visible, theorems hold
      for every order or (in [flatten]) one order is fixed and nothing is said
      about it.
    - Log output, the parsing of the command line, the HTTP server of the
      health endpoint with its router, and the registration calls of the
      packages' [init] functions are not modelled: they are input and output
      only.  The flags are a record ([flags]), and the server is a value that
      [startHealthCheck] hands over.
    - The health endpoint runs beside the loop; their steps are not
      interleaved, since it changes no variable of the loop.
    - No other writer is assumed to change the zone during a run.
    - The other providers have no instance of [ProviderContract].  The listings
      of Cloudflare, DNSimple, Gandi, Infoblox, OVH and PointHQ lose TTLs, those
      of PowerDNS mix types and those of RFC 2136 can be partial, so the
      contract, which demands a faithful listing, does not hold for them. *)

From stdpp Require Export base gmap strings list sorting fin_maps numbers.
From Stdlib Require Strings.Ascii.
Export Stdlib.Strings.Ascii (ascii(..), N_of_ascii, ascii_of_N).
Export (notations) Stdlib.Strings.Ascii.

(** ** Results, errors and effects of Go code *)

Declare Scope go_scope.
Delimit Scope go_scope with go.
Open Scope go_scope.

(** A Go [error] value is represented by the text its [Error()] method
    returns: the code only tests errors against [nil], wraps them into longer
    texts and (Infoblox) searches that text. *)
Abbreviation error := string (only parsing).

(** The pair [(T, error)] of a function whose [T] is only read when the error
    is [nil]. *)
Inductive result (A : Type) : Type :=
  | Ok (a : A)
  | Err (e : error).
Arguments Ok {A} a.
Arguments Err {A} e.

(** How a call ends: it returns, it panics, or the process exits
    ([logrus.Fatalf], which calls [os.Exit(1)]). *)
Inductive outcome (A : Type) : Type :=
  | Returns (a : A)
  | Panics (msg : string)
  | Exits (msg : string).
Arguments Returns {A} a.
Arguments Panics {A} msg.
Arguments Exits {A} msg.

#[export] Instance result_eq_dec `{EqDecision A} : EqDecision (result A).
Proof. solve_decision. Defined.
#[export] Instance outcome_eq_dec `{EqDecision A} : EqDecision (outcome A).
Proof. solve_decision. Defined.

#[export] Instance outcome_ret : MRet outcome := λ A a, Returns a.
#[export] Instance outcome_bind : MBind outcome := λ A B f o,
  match o with
  | Returns a => f a
  | Panics m => Panics m
  | Exits m => Exits m
  end.

(** Code with effects on a world [W]. *)
Definition prog (W A : Type) : Type := W → outcome A * W.

#[export] Instance prog_ret W : MRet (prog W) := λ A a w, (Returns a, w).
#[export] Instance prog_bind W : MBind (prog W) := λ A B f m w,
  match m w with
  | (Returns a, w') => f a w'
  | (Panics e, w') => (Panics e, w')
  | (Exits e, w') => (Exits e, w')
  end.

(** An object with fields of type [S] in a world of type [V]: calls to the
    world, and reads and writes of the object. *)
Definition outer {S V A} (m : prog V A) : prog (S * V) A := λ w,
  let '(r, v) := m (snd w) in (r, (fst w, v)).
Definition get_state {S V} : prog (S * V) S := λ w, (Returns (fst w), w).
Definition modify_state {S V} (f : S → S) : prog (S * V) unit := λ w,
  (Returns tt, (f (fst w), snd w)).

(** A pure computation that may crash, run in a world it does not touch. *)
Definition lift {W A} (o : outcome A) : prog W A := λ w, (o, w).

(** [if err != nil { return wrap(err) }] *)
Definition try_bind {W A B} (wrap : error → error) (m : prog W (result A))
    (k : A → prog W (result B)) : prog W (result B) :=
  r ← m;
  match r with
  | Ok a => k a
  | Err e => mret (Err (wrap e))
  end.

Notation "'let!' x := m 'in' k" := (try_bind id m (λ x, k))
  (at level 10, x pattern, m at level 99, k at level 200,
   format "'[v' 'let!'  x  :=  m  'in'  '/' k ']'") : go_scope.
Notation "'let!' x := m 'wrap' f 'in' k" := (try_bind f m (λ x, k))
  (at level 10, x pattern, m at level 99, f at level 99, k at level 200,
   format "'[v' 'let!'  x  :=  m  'wrap'  f  'in'  '/' k ']'") : go_scope.

(** ** Sorting with a Go [less] function

    [sort.Slice(keys, less)] is modelled by insertion sort.  On keys where
    [less] is a strict total order, every sorting algorithm (and every order
    in which the keys were collected from a Go map) gives the same slice:
    [isort_unique]. *)

Section isort.
Context {A : Type} (less : A → A → bool).

Fixpoint insert_sorted (x : A) (l : list A) : list A :=
  match l with
  | [] => [x]
  | y :: l' => if less x y then x :: l else y :: insert_sorted x l'
  end.

Definition isort (l : list A) : list A := foldr insert_sorted [] l.

(** [less] is a strict total order on the elements that satisfy [P]. *)
Record strict_order_on (P : A → Prop) : Prop := {
  less_irrefl x : P x → less x x = false;
  less_trans x y z :
    P x → P y → P z → less x y = true → less y z = true → less x z = true;
  less_total x y : P x → P y → x ≠ y → less x y = true ∨ less y x = true;
}.

Notation sorted := (StronglySorted (λ x y, less x y = true)).

Lemma insert_sorted_perm x l : insert_sorted x l ≡ₚ x :: l.
Proof.
  induction l as [|y l IH]; simpl; [done|]. destruct (less x y); [done|].
  rewrite IH. apply Permutation_swap.
Qed.

Lemma isort_perm l : isort l ≡ₚ l.
Proof. induction l; simpl; [done|]. by rewrite insert_sorted_perm, IHl. Qed.

Lemma elem_of_isort x l : x ∈ isort l ↔ x ∈ l.
Proof. by rewrite isort_perm. Qed.

Lemma isort_NoDup l : NoDup l → NoDup (isort l).
Proof. by rewrite isort_perm. Qed.

Context (P : A → Prop) (Hless : strict_order_on P).

Lemma insert_sorted_sorted x l :
  P x → Forall P l → x ∉ l → sorted l → sorted (insert_sorted x l).
Proof.
  intros Hx HP Hn Hl. induction Hl as [|y l Hl IH Hy]; simpl.
  { repeat constructor. }
  apply list.Forall_cons in HP as [HPy HPl]. apply not_elem_of_cons in Hn as [Hxy Hn].
  destruct (less x y) eqn:Hlt.
  - constructor; [by constructor|]. constructor; [done|].
    rewrite list.Forall_forall in *. intros z Hz. apply (less_trans P Hless x y z); auto.
  - constructor; [by apply IH|]. rewrite list.Forall_forall in *. intros z.
    rewrite insert_sorted_perm. intros [->|Hz]%elem_of_cons; [|eauto].
    destruct (less_total P Hless x y); [done..|congruence|done].
Qed.

Lemma isort_sorted l : Forall P l → NoDup l → sorted (isort l).
Proof.
  intros HP Hl. induction Hl as [|x l Hx Hl IH]; simpl; [constructor|].
  apply list.Forall_cons in HP as [? HP].
  apply insert_sorted_sorted; [done| | |auto]; by rewrite isort_perm.
Qed.

Lemma sorted_unique l1 l2 :
  Forall P l1 → sorted l1 → sorted l2 → l1 ≡ₚ l2 → l1 = l2.
Proof.
  intros HP ?? Hperm. eapply StronglySorted_unique_strong; [|done..].
  intros x y Hx Hy Hxy Hyx. exfalso. rewrite <-Hperm in Hy.
  rewrite list.Forall_forall in HP. pose proof (less_irrefl P Hless x (HP x Hx)).
  pose proof (less_trans P Hless x y x (HP x Hx) (HP y Hy) (HP x Hx) Hxy Hyx).
  congruence.
Qed.

(** Any sorted rearrangement of the keys is the one the model computes. *)
Lemma isort_unique l l' :
  Forall P l → NoDup l → l' ≡ₚ l → sorted l' → l' = isort l.
Proof.
  intros HP Hl Hperm Hs. apply sorted_unique.
  - by rewrite Hperm.
  - done.
  - by apply isort_sorted.
  - by rewrite isort_perm.
Qed.

(** The order of collection does not matter. *)
Lemma isort_perm_eq l l' :
  Forall P l → NoDup l → l ≡ₚ l' → isort l = isort l'.
Proof.
  intros HP Hl Hp. apply isort_unique.
  - by rewrite <-Hp.
  - by rewrite <-Hp.
  - by rewrite isort_perm.
  - by apply isort_sorted.
Qed.
End isort.

(** Settle a decidable statement about closed terms by evaluation. *)
Ltac eval_decide := refine (bool_decide_unpack _ _); vm_compute; exact I.

(** ** Lists and options *)

Lemma NoDup_fmap_elem {A B} (f : A → B) l x y :
  NoDup (f <$> l) → x ∈ l → y ∈ l → f x = f y → x = y.
Proof.
  intros Hnd [i Hi]%list_elem_of_lookup [j Hj]%list_elem_of_lookup Heq.
  assert (i = j) as ->; [|congruence].
  apply (NoDup_lookup (f <$> l) i j (f x)); [done|..]; rewrite list_lookup_fmap, ?Hi, ?Hj; [done|].
  simpl. by rewrite Heq.
Qed.

(** Distinct images of the elements that [omap] keeps. *)
Lemma NoDup_omap_images {A B C} (f : A → option B) (g : B → C) (h : A → C) l :
  NoDup (h <$> l) → (∀ a b, a ∈ l → f a = Some b → g b = h a) → NoDup (g <$> omap f l).
Proof.
  intros Hl Hf. induction l as [|a l IH]; simpl; [constructor|].
  rewrite fmap_cons in Hl. apply list.NoDup_cons in Hl as [Ha Hl].
  assert (NoDup (g <$> omap f l)) as Hnd
    by (apply IH; [done|]; intros; apply Hf; [by right|done]).
  destruct (f a) as [b|] eqn:Hb; [|done]. simpl. constructor; [|done].
  rewrite (Hf a b) by (by left || done).
  rewrite list_elem_of_fmap. intros (b' & Hbb & Hin).
  apply list_elem_of_omap in Hin as (a' & Ha' & Hfa'). apply Ha.
  rewrite Hbb, (Hf a' b') by (by right || done). apply list_elem_of_fmap. eauto.
Qed.

Lemma omap_cons_Some {A B} (f : A → option B) a b (l : list A) :
  f a = Some b → omap f (a :: l) = b :: omap f l.
Proof. intros Hf. cbn. by rewrite Hf. Qed.
Lemma omap_cons_None {A B} (f : A → option B) a (l : list A) :
  f a = None → omap f (a :: l) = omap f l.
Proof. intros Hf. cbn. by rewrite Hf. Qed.
Lemma omap_fmap_Some {A B C} (f : B → option C) (g : A → B) (h : A → C) (l : list A) :
  (∀ a, f (g a) = Some (h a)) → omap f (g <$> l) = h <$> l.
Proof. intros Hf. induction l as [|a l IH]; [done|]. cbn. rewrite Hf. by f_equal. Qed.

(** The page [n] of a list, counted from zero. *)
Definition slice {A} (size n : nat) (l : list A) : list A := take size (drop (size * n) l).

Definition last_page {A} (size n : nat) (l : list A) : Prop := (length l ≤ size * S n)%nat.

Lemma slice_step {A} size n (l : list A) :
  take (size * n) l ++ slice size n l = take (size * S n) l.
Proof.
  unfold slice. rewrite take_drop_commute.
  replace (size * n + size)%nat with (size * S n)%nat by lia.
  rewrite <-(take_drop (size * n) (take (size * S n) l)) at 2.
  by rewrite take_take, Nat.min_l by lia.
Qed.

Lemma slice_last {A} size n (l : list A) : last_page size n l → take (size * S n) l = l.
Proof. apply take_ge. Qed.

Lemma slice_nonempty {A} size n (l : list A) :
  (0 < size)%nat → ¬ last_page size n l → slice size n l ≠ [].
Proof.
  unfold last_page, slice. intros Hs Hn Hnil. apply (f_equal length) in Hnil.
  rewrite length_take, length_drop in Hnil. simpl in Hnil. lia.
Qed.

Lemma filter_all {A} (P : A → Prop) `{∀ x, Decision (P x)} (l : list A) :
  Forall P l → filter P l = l.
Proof. induction 1; [done|]. rewrite filter_cons, decide_True by done. by f_equal. Qed.
Lemma filter_none {A} (P : A → Prop) `{∀ x, Decision (P x)} (l : list A) :
  Forall (λ x, ¬ P x) l → filter P l = [].
Proof. induction 1; [done|]. by rewrite filter_cons, decide_False. Qed.
Lemma Forall_filter {A} (P : A → Prop) `{∀ x, Decision (P x)} (l : list A) :
  Forall P (filter P l).
Proof. apply list.Forall_forall. by intros x [? _]%list_elem_of_filter. Qed.

Lemma fmap_bind {A B C} (f : B → C) (g : A → list B) (l : list A) :
  f <$> (l ≫= g) = l ≫= λ a, f <$> g a.
Proof. induction l as [|a l IH]; [done|]. cbn. by rewrite fmap_app, IH. Qed.

Lemma NoDup_fmap_omap {A B C} (f : A → option B) (g : B → C) (h : A → C) l :
  NoDup l → (∀ a b, a ∈ l → f a = Some b → g b = h a) →
  (∀ a a', h a = h a' → a = a') → NoDup (g <$> omap f l).
Proof.
  intros Hl Hf Hh. apply (NoDup_omap_images f g h); [|done].
  apply NoDup_fmap_2; [|done]. intros a a'. apply Hh.
Qed.

(** Building sorted lists. *)
Lemma StronglySorted_app_2 {A} (R : relation A) l1 l2 :
  StronglySorted R l1 → StronglySorted R l2 → (∀ x y, x ∈ l1 → y ∈ l2 → R x y) →
  StronglySorted R (l1 ++ l2).
Proof.
  intros H1 H2 Hc. induction H1 as [|x l1 H1 IH Hx]; simpl; [done|]. constructor.
  - apply IH. intros. apply Hc; [by right|done].
  - apply Forall_app. split; [done|]. apply list.Forall_forall. intros y Hy.
    apply Hc; [by left|done].
Qed.

Lemma StronglySorted_weaken {A} (R S : relation A) l :
  (∀ x y, x ∈ l → y ∈ l → R x y → S x y) → StronglySorted R l → StronglySorted S l.
Proof.
  intros HRS Hl. induction Hl as [|x l Hl IH Hx]; constructor.
  - apply IH. intros y z ??. apply HRS; by right.
  - rewrite list.Forall_forall in *. intros y Hy. apply HRS; [by left|by right|auto].
Qed.

Lemma StronglySorted_omap {A B} (R : relation A) (S : relation B) (f : A → option B) l :
  (∀ a a' b b', a ∈ l → a' ∈ l → R a a' → f a = Some b → f a' = Some b' → S b b') →
  StronglySorted R l → StronglySorted S (omap f l).
Proof.
  intros Hf Hl. induction Hl as [|a l Hl IH Ha]; simpl; [constructor|].
  assert (StronglySorted S (omap f l)) as Hs.
  { apply IH. intros a1 a2 b1 b2 ??. apply Hf; by right. }
  destruct (f a) as [b|] eqn:Hb; [|done]. constructor; [done|].
  apply list.Forall_forall. intros b' (a' & Ha' & Hb')%list_elem_of_omap.
  rewrite list.Forall_forall in Ha. apply (Hf a a' b b'); [by left|by right|auto..].
Qed.

Lemma option_union_l {A} (x : option A) : None ∪ x = x.
Proof. by destruct x. Qed.
Lemma option_union_Some {A} (a : A) x : Some a ∪ x = Some a.
Proof. by destruct x. Qed.
Lemma option_union_r {A} (x : option A) : x ∪ None = x.
Proof. by destruct x. Qed.

(** ** Reasoning about effectful code *)

Section prog_facts.
Context {W : Type}.

Lemma prog_bind_eq {A B} (m : prog W A) (k : A → prog W B) w :
  (m ≫= k) w =
  match m w with
  | (Returns a, w') => k a w'
  | (Panics e, w') => (Panics e, w')
  | (Exits e, w') => (Exits e, w')
  end.
Proof. done. Qed.

(** Continuations that agree everywhere make equal programs. *)
Lemma prog_bind_ext {A B} (m : prog W A) (k1 k2 : A → prog W B) w :
  (∀ a w', k1 a w' = k2 a w') → (m ≫= k1) w = (m ≫= k2) w.
Proof. intros Hk. rewrite !prog_bind_eq. destruct (m w) as [[a| |] w']; auto. Qed.

Lemma prog_bind_assoc {A B C} (m : prog W A) (f : A → prog W B) (g : B → prog W C) w :
  ((m ≫= f) ≫= g) w = (m ≫= (λ a, f a ≫= g)) w.
Proof. rewrite !prog_bind_eq. by destruct (m w) as [[a| |] w']. Qed.

Lemma prog_bind_returns {A B} (m : prog W A) (k : A → prog W B) w b w' :
  (m ≫= k) w = (Returns b, w') ↔
  ∃ a w1, m w = (Returns a, w1) ∧ k a w1 = (Returns b, w').
Proof.
  rewrite prog_bind_eq. split.
  - destruct (m w) as [[a| |] w1]; naive_solver.
  - by intros (a & w1 & -> & ?).
Qed.

Lemma try_bind_eq {A B} f (m : prog W (result A)) (k : A → prog W (result B)) w :
  try_bind f m k w =
  match m w with
  | (Returns (Ok a), w') => k a w'
  | (Returns (Err e), w') => (Returns (Err (f e)), w')
  | (Panics e, w') => (Panics e, w')
  | (Exits e, w') => (Exits e, w')
  end.
Proof.
  unfold try_bind. rewrite prog_bind_eq. by destruct (m w) as [[[a|e]| |] w'].
Qed.

Lemma try_bind_ok {A B} f (m : prog W (result A)) (k : A → prog W (result B)) w b w' :
  try_bind f m k w = (Returns (Ok b), w') ↔
  ∃ a w1, m w = (Returns (Ok a), w1) ∧ k a w1 = (Returns (Ok b), w').
Proof.
  rewrite try_bind_eq. split.
  - destruct (m w) as [[[a|e]| |] w1]; naive_solver.
  - by intros (a & w1 & -> & ?).
Qed.

Lemma try_bind_assoc {A B C} (m : prog W (result A)) (k : A → prog W (result B))
    (k' : B → prog W (result C)) w :
  (let! a := m in let! b := k a in k' b) w = (let! b := let! a := m in k a in k' b) w.
Proof.
  rewrite !try_bind_eq. destruct (m w) as [[[a|e]| |] w']; try done. by rewrite try_bind_eq.
Qed.
End prog_facts.

(** Run the next step of an effectful function: case analysis on how the call
    at the head of the program ends. *)
Ltac prog_step H :=
  match goal with
  | |- context [(?m ≫= ?k) ?w] =>
      rewrite (prog_bind_eq m k w); destruct (m w) as [[?| |] ?] eqn:H
  | |- context [try_bind ?f ?m ?k ?w] =>
      rewrite (try_bind_eq f m k w); destruct (m w) as [[[?|?]| |] ?] eqn:H
  end.
Tactic Notation "prog_step" "as" ident(H) := prog_step H.

(** ** Loops

    [for _, x := range l { st = body(x, st) }] with effects: the state is
    threaded through the iterations, and a panic or exit ends the loop. *)
Fixpoint range {W A S} (l : list A) (body : A → S → prog W S) (st : S) : prog W S :=
  match l with
  | [] => mret st
  | x :: l => st' ← body x st; range l body st'
  end.

Section range_facts.
Context {W A S : Type} (body : A → S → prog W S).

Lemma range_cons x l st w :
  range (x :: l) body st w =
  match body x st w with
  | (Returns st', w') => range l body st' w'
  | (Panics e, w') => (Panics e, w')
  | (Exits e, w') => (Exits e, w')
  end.
Proof. done. Qed.

(** An invariant that tells which elements have been visited. *)
Lemma range_visited (I : list A → S → W → Prop) seen l st w st' w' :
  (∀ seen x s v s' v', x ∈ l → I seen s v → body x s v = (Returns s', v') →
     I (seen ++ [x]) s' v') →
  I seen st w → range l body st w = (Returns st', w') → I (seen ++ l) st' w'.
Proof.
  revert seen st w. induction l as [|x l IH]; intros seen st w Hstep HI.
  { intros [= <- <-]. by rewrite app_nil_r. }
  rewrite range_cons. destruct (body x st w) as [[s| |] v] eqn:Hb; try done.
  intros Hr. replace (seen ++ x :: l) with ((seen ++ [x]) ++ l) by by rewrite <-app_assoc.
  eapply IH; [|by eapply Hstep; [left| |]|done].
  intros; eapply Hstep; [by right|done..].
Qed.

(** A loop whose body always returns and reads the world without changing it:
    so does the loop, and its result is the same in every world. *)
Lemma range_pure (I : S → Prop) l st :
  (∀ x s, x ∈ l → I s → ∃ s', (∀ w, body x s w = (Returns s', w)) ∧ I s') →
  I st → ∃ st', (∀ w, range l body st w = (Returns st', w)) ∧ I st'.
Proof.
  revert st. induction l as [|x l IH]; intros st Hstep HI; [by eexists|].
  destruct (Hstep x st) as (s & Hb & HI'); [by left|done|].
  destruct (IH s) as (st' & Hr & ?); [|done|].
  - intros; by apply Hstep; [right|].
  - exists st'. split; [|done]. intros w. by rewrite range_cons, Hb.
Qed.

(** An invariant of the body is an invariant of the loop. *)
Lemma range_invariant (I : S → W → Prop) l st w st' w' :
  (∀ x s v s' v', x ∈ l → I s v → body x s v = (Returns s', v') → I s' v') →
  I st w → range l body st w = (Returns st', w') → I st' w'.
Proof.
  intros Hstep HI Hr.
  apply (range_visited (λ _, I) [] l st w st' w'); [|done..]. naive_solver.
Qed.
End range_facts.

(** [for _, x := range l { if err := body(x); err != nil { return err } }]:
    the first error ends the loop. *)
Fixpoint each {W A} (l : list A) (body : A → prog W (result unit)) : prog W (result unit) :=
  match l with
  | [] => mret (Ok tt)
  | x :: l => let! _ := body x in each l body
  end.

(** Field access through a pointer. *)
Definition nil_dereference : string := "invalid memory address or nil pointer dereference".

Definition deref {W A B} (p : option A) (k : A → prog W B) : prog W B :=
  match p with
  | Some a => k a
  | None => lift (Panics nil_dereference)
  end.

Section each_facts.
Context {W A : Type} (body : A → prog W (result unit)).

Lemma each_cons x l w :
  each (x :: l) body w =
  match body x w with
  | (Returns (Ok _), w') => each l body w'
  | (Returns (Err e), w') => (Returns (Err e), w')
  | (Panics e, w') => (Panics e, w')
  | (Exits e, w') => (Exits e, w')
  end.
Proof. apply try_bind_eq. Qed.

(** A loop whose body returns: an invariant that tells which elements have
    been visited holds where the loop stops, at the end or at an error. *)
Lemma each_visited (I : list A → W → Prop) (E : W → Prop) seen l w :
  (∀ seen x v, x ∈ l → I seen v → ∃ r v', body x v = (Returns r, v') ∧
     match r with Ok _ => I (seen ++ [x]) v' | Err _ => E v' end) →
  I seen w →
  ∃ r w', each l body w = (Returns r, w') ∧
    match r with Ok _ => I (seen ++ l) w' | Err _ => E w' end.
Proof.
  revert seen w. induction l as [|x l IH]; intros seen w Hstep HI.
  { eexists _, w. split; [done|]. by rewrite app_nil_r. }
  rewrite each_cons. destruct (Hstep seen x w) as (r & v & -> & Hr); [by left|done|].
  destruct r as [u|e]; [|by eexists _, v].
  replace (seen ++ x :: l) with ((seen ++ [x]) ++ l) by by rewrite <-app_assoc.
  apply IH; [|done]. intros; apply Hstep; [by right|done].
Qed.
End each_facts.
