(* ===== verification/GoStrings.v ===== *)
(** * Go strings

    The parts of the Go language and of the packages [strings], [bytes] and
    [unicode/utf8] that the program uses, on byte strings.  A Go [string] is a
    sequence of bytes, which is what [string] (a list of 8-bit [ascii]) is;
    [len] is [String.length] and counts bytes. *)

From S2P Require Import Prelude.

(** ** Bytes *)

Definition byte_of (c : ascii) : Z := Z.of_N (N_of_ascii c).
Definition of_byte (z : Z) : ascii := ascii_of_N (Z.to_N z).

Definition in_range (lo hi : ascii) (c : ascii) : bool :=
  (byte_of lo <=? byte_of c)%Z && (byte_of c <=? byte_of hi)%Z.

Definition is_upper : ascii → bool := in_range "A" "Z".
Definition is_lower : ascii → bool := in_range "a" "z".
Definition is_digit : ascii → bool := in_range "0" "9".
(** [c < utf8.RuneSelf] *)
Definition is_ascii (c : ascii) : bool := (byte_of c <? 128)%Z.

(** ** Slicing: [s[:n]] and [s[n:]] for [n <= len(s)] *)

Fixpoint str_take (n : nat) (s : string) : string :=
  match n, s with
  | S n, String c s => String c (str_take n s)
  | _, _ => ""
  end.

Fixpoint str_drop (n : nat) (s : string) : string :=
  match n, s with
  | O, _ => s
  | S n, String _ s => str_drop n s
  | S _, EmptyString => ""
  end.

(** [s[i]] *)
Definition str_at (s : string) (i : nat) : option ascii := String.get i s.

(** Every byte of [s] satisfies [p]. *)
Fixpoint str_all (p : ascii → bool) (s : string) : bool :=
  match s with
  | EmptyString => true
  | String c s => p c && str_all p s
  end.

Fixpoint str_map (f : ascii → ascii) (s : string) : string :=
  match s with
  | EmptyString => ""
  | String c s => String (f c) (str_map f s)
  end.

(** ** Package strings *)

Definition HasPrefix (s prefix : string) : bool := String.prefix prefix s.

#[global] Arguments HasPrefix : simpl never.

(** [len(s) >= len(suffix) && s[len(s)-len(suffix):] == suffix] *)
Definition HasSuffix (s suffix : string) : bool :=
  (String.length suffix <=? String.length s)%nat &&
  bool_decide (str_drop (String.length s - String.length suffix) s = suffix).

Definition TrimPrefix (s prefix : string) : string :=
  if HasPrefix s prefix then str_drop (String.length prefix) s else s.

Definition TrimSuffix (s suffix : string) : string :=
  if HasSuffix s suffix then str_take (String.length s - String.length suffix) s
  else s.

(** [strings.Index], [bytes.Index]: the first position of [sub] in [s]. *)
Fixpoint Index (s sub : string) : option nat :=
  if HasPrefix s sub then Some O
  else match s with
       | EmptyString => None
       | String _ s' => S <$> Index s' sub
       end.

Definition Contains (s sub : string) : bool :=
  if Index s sub is Some _ then true else false.

Definition Join (elems : list string) (sep : string) : string :=
  String.concat sep elems.

(** [strings.Split] for a separator of one byte. *)
Fixpoint Split (s : string) (sep : ascii) : list string :=
  match s with
  | EmptyString => [""]
  | String c s' =>
      if bool_decide (c = sep) then "" :: Split s' sep
      else match Split s' sep with
           | [] => [String c ""]
           | w :: ws => String c w :: ws
           end
  end.

(** [strings.TrimLeft], [strings.TrimRight] and [strings.Trim] for a cutset of
    one ASCII byte. *)
Fixpoint TrimLeft (s : string) (cut : ascii) : string :=
  match s with
  | EmptyString => ""
  | String c s' => if bool_decide (c = cut) then TrimLeft s' cut else s
  end.

Fixpoint TrimRight (s : string) (cut : ascii) : string :=
  match s with
  | EmptyString => ""
  | String c s' =>
      let t := TrimRight s' cut in
      if bool_decide (c = cut) && bool_decide (t = "") then "" else String c t
  end.

Definition Trim (s : string) (cut : ascii) : string :=
  TrimRight (TrimLeft s cut) cut.

(** [strings.ReplaceAll(s, old, new)] for an [old] of one byte. *)
Fixpoint ReplaceAll (s : string) (old : ascii) (new : string) : string :=
  match s with
  | EmptyString => ""
  | String c s' =>
      if bool_decide (c = old) then new +:+ ReplaceAll s' old new
      else String c (ReplaceAll s' old new)
  end.

(** [strings.ContainsAny(s, chars)] for ASCII [chars]. *)
Definition ContainsAny (s : string) (chars : list ascii) : bool :=
  negb (str_all (λ c, bool_decide (c ∉ chars)) s).

(** The UTF-8 encodings of the runes with [unicode.IsSpace]. *)
Definition bytes (l : list Z) : string := String.string_of_list_ascii (of_byte <$> l).

Definition space_encodings : list string :=
  [bytes [9]; bytes [10]; bytes [11]; bytes [12]; bytes [13]; bytes [32];
   bytes [0xC2; 0x85]; bytes [0xC2; 0xA0]; bytes [0xE1; 0x9A; 0x80]]%Z ++
  ((λ b, bytes [0xE2; 0x80; b]) <$>
    [0x80; 0x81; 0x82; 0x83; 0x84; 0x85; 0x86; 0x87; 0x88; 0x89; 0x8A;
     0xA8; 0xA9; 0xAF])%Z ++
  [bytes [0xE2; 0x81; 0x9F]; bytes [0xE3; 0x80; 0x80]]%Z.

(** [strings.TrimSpace]: strip encodings of space runes from the left, then
    from the right.  Each pass shortens the string, so [len(s)] passes are
    enough. *)
Fixpoint trim_left_space (fuel : nat) (s : string) : string :=
  match fuel, list_find (λ e, HasPrefix s e) space_encodings with
  | S fuel, Some (_, e) => trim_left_space fuel (TrimPrefix s e)
  | _, _ => s
  end.

Fixpoint trim_right_space (fuel : nat) (s : string) : string :=
  match fuel, list_find (λ e, HasSuffix s e) space_encodings with
  | S fuel, Some (_, e) => trim_right_space fuel (TrimSuffix s e)
  | _, _ => s
  end.

Definition TrimSpace (s : string) : string :=
  let t := trim_left_space (String.length s) s in
  trim_right_space (String.length t) t.

(** The Unicode tables of the Go runtime enter at two places: case mapping and
    quoting of strings that hold a byte above 0x7F.  They are operations the
    model is parametric in. *)
Class GoUnicode := {
  (** [strings.Map(unicode.ToLower, s)] *)
  unicode_to_lower : string → string;
  (** [strconv.Quote(s)] *)
  unicode_quote : string → string;
}.

Definition lower_byte (c : ascii) : ascii :=
  if is_upper c then of_byte (byte_of c + 32) else c.

(** [strings.ToLower]: the ASCII path of the library, else the rune path. *)
Definition ToLower `{GoUnicode} (s : string) : string :=
  if str_all is_ascii s then str_map lower_byte s else unicode_to_lower s.

(** [strconv.Quote], the verb [%q]: the ASCII path, else the rune path. *)
Definition hex_digit (n : Z) : ascii :=
  if (n <? 10)%Z then of_byte (n + 48) else of_byte (n + 87).

Definition quote_byte (c : ascii) : string :=
  let n := byte_of c in
  if (n =? 34)%Z || (n =? 92)%Z then String "092" (String c "")
  else if (n =? 7)%Z then "\a"
  else if (n =? 8)%Z then "\b"
  else if (n =? 12)%Z then "\f"
  else if (n =? 10)%Z then "\n"
  else if (n =? 13)%Z then "\r"
  else if (n =? 9)%Z then "\t"
  else if (n =? 11)%Z then "\v"
  else if (n <? 32)%Z || (n =? 127)%Z then
    "\x" +:+ String (hex_digit (n / 16)) (String (hex_digit (n mod 16)) "")
  else String c "".

Fixpoint quote_bytes (s : string) : string :=
  match s with
  | EmptyString => ""
  | String c s => quote_byte c +:+ quote_bytes s
  end.

Definition dquote : ascii := "034".
Definition dquotes : string := String dquote "".

Definition Quote `{GoUnicode} (s : string) : string :=
  if str_all is_ascii s then dquotes +:+ quote_bytes s +:+ dquotes
  else unicode_quote s.

(** ** Append, slices and lengths *)

Lemma str_app_cons c s t : String c s +:+ t = String c (s +:+ t).
Proof. done. Qed.
Lemma str_app_nil t : "" +:+ t = t.
Proof. done. Qed.

#[export] Instance str_app_assoc : Assoc (=) String.append.
Proof.
  intros s1 s2 s3. induction s1 as [|c s1 IH]; [done|].
  rewrite !str_app_cons. by f_equal.
Qed.
#[export] Instance str_app_left_id : LeftId (=) "" String.append.
Proof. done. Qed.
#[export] Instance str_app_right_id : RightId (=) "" String.append.
Proof. intros s. induction s; [done|]. rewrite str_app_cons. by f_equal. Qed.

Lemma str_length_app s t :
  String.length (s +:+ t) = (String.length s + String.length t)%nat.
Proof. induction s; [done|]. rewrite str_app_cons. f_equal/=; auto. Qed.

Create Rewrite HintDb gostr.
#[export] Hint Rewrite str_app_cons str_app_nil : gostr.

(** Normalise appends: [String.append] does not reduce by [simpl]. *)
Ltac str_simpl := simpl in *; autorewrite with gostr in *; simpl in *.

Lemma str_take_drop n s : str_take n s +:+ str_drop n s = s.
Proof. revert s. induction n; intros [|c s]; try done. str_simpl. by f_equal. Qed.

Lemma str_take_app s t : str_take (String.length s) (s +:+ t) = s.
Proof. induction s; [by destruct t|]. str_simpl. by f_equal. Qed.

Lemma str_drop_app s t : str_drop (String.length s) (s +:+ t) = t.
Proof. induction s; by str_simpl. Qed.

Lemma str_take_length n s :
  String.length (str_take n s) = (n `min` String.length s)%nat.
Proof. revert s. induction n; intros [|c s]; f_equal/=; auto. Qed.

Lemma str_drop_length n s :
  String.length (str_drop n s) = (String.length s - n)%nat.
Proof. revert s. induction n; intros [|c s]; simpl; auto. Qed.

Lemma str_app_eq_length_r p q s t :
  p +:+ s = q +:+ t → String.length s = String.length t → p = q ∧ s = t.
Proof.
  revert q. induction p as [|c p IH]; intros [|d q]; simpl; intros Heq Hlen.
  - done.
  - rewrite str_app_nil in Heq. subst s. simpl in Hlen.
    rewrite str_length_app in Hlen. lia.
  - rewrite str_app_nil in Heq. subst t. simpl in Hlen.
    rewrite str_length_app in Hlen. lia.
  - rewrite !str_app_cons in Heq. simplify_eq. by destruct (IH q) as [-> ->].
Qed.

Lemma str_app_inv_r p q s : p +:+ s = q +:+ s → p = q.
Proof. intros H. by apply str_app_eq_length_r in H as [-> _]. Qed.

Lemma str_app_nil_inv s t : s +:+ t = "" → s = "" ∧ t = "".
Proof. destruct s; [auto|done]. Qed.

(** ** Prefixes, suffixes and substrings *)

Lemma HasPrefix_spec s p : HasPrefix s p = true ↔ ∃ t, s = p +:+ t.
Proof.
  unfold HasPrefix. revert s. induction p as [|c p IH]; intros s; simpl.
  { split; eauto. by destruct s. }
  destruct s as [|d s]; simpl.
  { split; [done|]. by intros [t ?]. }
  destruct (Stdlib.Strings.Ascii.ascii_dec c d); simplify_eq/=.
  - rewrite IH. split; intros [t Ht]; exists t; rewrite ?str_app_cons in *; congruence.
  - split; [done|]. intros [t Ht]. rewrite str_app_cons in Ht. congruence.
Qed.

Lemma HasSuffix_spec s x : HasSuffix s x = true ↔ ∃ t, s = t +:+ x.
Proof.
  unfold HasSuffix. rewrite andb_true_iff, Nat.leb_le, bool_decide_eq_true.
  split.
  - intros [Hle Hd]. exists (str_take (String.length s - String.length x) s).
    rewrite <-Hd at 2. by rewrite str_take_drop.
  - intros [t ->]. rewrite str_length_app.
    replace (String.length t + String.length x - String.length x)%nat
      with (String.length t) by lia.
    rewrite str_drop_app. split; [lia|done].
Qed.

Lemma HasPrefix_app p t : HasPrefix (p +:+ t) p = true.
Proof. apply HasPrefix_spec. eauto. Qed.
Lemma HasSuffix_app t x : HasSuffix (t +:+ x) x = true.
Proof. apply HasSuffix_spec. eauto. Qed.

Lemma HasPrefix_length s p :
  HasPrefix s p = true → (String.length p ≤ String.length s)%nat.
Proof. intros [t ->]%HasPrefix_spec. rewrite str_length_app. lia. Qed.

Lemma TrimPrefix_app p t : TrimPrefix (p +:+ t) p = t.
Proof. unfold TrimPrefix. by rewrite HasPrefix_app, str_drop_app. Qed.

Lemma TrimSuffix_app t x : TrimSuffix (t +:+ x) x = t.
Proof.
  unfold TrimSuffix. rewrite HasSuffix_app, str_length_app.
  replace (String.length t + String.length x - String.length x)%nat
    with (String.length t) by lia.
  apply str_take_app.
Qed.

Lemma TrimSuffix_id s x : HasSuffix s x = false → TrimSuffix s x = s.
Proof. unfold TrimSuffix. by intros ->. Qed.
Lemma TrimPrefix_id s x : HasPrefix s x = false → TrimPrefix s x = s.
Proof. unfold TrimPrefix. by intros ->. Qed.

Lemma Index_Some s sub n :
  Index s sub = Some n →
  s = str_take n s +:+ sub +:+ str_drop (n + String.length sub) s.
Proof.
  revert n. induction s as [|c s IH]; intros n; simpl;
    destruct (HasPrefix _ sub) eqn:Hp; intros Hn; simplify_eq/=.
  - apply HasPrefix_spec in Hp as [t Ht].
    symmetry in Ht. by apply str_app_nil_inv in Ht as [-> ->].
  - apply HasPrefix_spec in Hp as [t Ht]. rewrite Ht, str_drop_app. done.
  - destruct (Index s sub) as [m|] eqn:Hm; simplify_eq/=.
    rewrite str_app_cons. f_equal. by apply IH.
Qed.

Lemma Index_lt s sub n :
  Index s sub = Some n → (n + String.length sub ≤ String.length s)%nat.
Proof.
  revert n. induction s as [|c s IH]; intros n; simpl;
    destruct (HasPrefix _ sub) eqn:Hp; intros Hn; simplify_eq/=.
  - apply HasPrefix_length in Hp. simpl in Hp. lia.
  - apply HasPrefix_length in Hp. simpl in Hp. lia.
  - destruct (Index s sub) as [m|] eqn:Hm; simplify_eq/=.
    specialize (IH m eq_refl). lia.
Qed.

(** The occurrence found is the first one. *)
Lemma Index_first s sub n p t :
  Index s sub = Some n → s = p +:+ sub +:+ t → (n ≤ String.length p)%nat.
Proof.
  revert n p. induction s as [|c s IH]; intros n p; simpl;
    destruct (HasPrefix _ sub) eqn:Hp; intros Hn Hs; simplify_eq/=; try lia.
  destruct (Index s sub) as [m|] eqn:Hm; simplify_eq/=.
  destruct p as [|d p]; simpl in *.
  - rewrite (left_id_L "" _) in Hs. rewrite Hs, HasPrefix_app in Hp. done.
  - rewrite str_app_cons in Hs. simplify_eq. apply le_n_S. eauto.
Qed.

Lemma Index_None s sub : Index s sub = None ↔ ∀ p t, s ≠ p +:+ sub +:+ t.
Proof.
  induction s as [|c s IH]; simpl; destruct (HasPrefix _ sub) eqn:Hp.
  - apply HasPrefix_spec in Hp as [t Ht]. split; [done|]. intros H.
    by destruct (H "" t).
  - split; [|done]. intros _ p t Ht. symmetry in Ht.
    apply str_app_nil_inv in Ht as [_ Ht].
    rewrite <-Ht, HasPrefix_app in Hp. done.
  - apply HasPrefix_spec in Hp as [t Ht]. split; [done|]. intros H.
    by destruct (H "" t).
  - rewrite fmap_None, IH. split.
    + intros H [|d p] t Ht.
      * rewrite (left_id_L "" _) in Ht. by rewrite Ht, HasPrefix_app in Hp.
      * rewrite str_app_cons in Ht. simplify_eq. by destruct (H p t).
    + intros H p t ->. by destruct (H (String c p) t).
Qed.

(** [x] occurs in [s] followed by [x] at the end only: what is before the first
    occurrence of [x]. *)
Definition before_first (x s : string) : Prop := ∀ p q, s +:+ x = p +:+ x +:+ q → q = "".

Lemma str_app_prefix p r u s :
  p +:+ r = u +:+ s → (String.length p ≤ String.length u)%nat → ∃ q, u = p +:+ q.
Proof.
  revert u. induction p as [|c p IH]; intros u Heq Hle; [by exists u|].
  destruct u as [|d u]; simpl in Hle; [lia|]. rewrite !str_app_cons in Heq.
  injection Heq as <- Heq. destruct (IH u Heq) as [q ->]; [lia|]. by exists q.
Qed.

Lemma Index_before_first t x s :
  Index (t +:+ x +:+ s) x = Some (String.length t) ↔ before_first x t.
Proof.
  split.
  - intros Hi p q Heq. apply (Index_first _ _ _ p (q +:+ s)) in Hi.
    2:{ rewrite (str_app_assoc t x s), Heq. by rewrite <-(str_app_assoc p), <-(str_app_assoc x). }
    apply (f_equal String.length) in Heq. rewrite !str_length_app in Heq.
    destruct q; [done|]. simpl in Heq. lia.
  - intros Hb. destruct (Index (t +:+ x +:+ s) x) as [n|] eqn:Hi.
    2:{ exfalso. exact (proj1 (Index_None _ _) Hi t s eq_refl). }
    pose proof (Index_first _ _ _ t s Hi eq_refl) as Hn. pose proof (Index_lt _ _ _ Hi) as Hlt.
    apply Index_Some in Hi. set (u := str_take n _) in Hi.
    assert (String.length u = n) as Hu.
    { unfold u. rewrite str_take_length, str_length_app. lia. }
    rewrite (str_app_assoc t), (str_app_assoc u) in Hi. symmetry in Hi.
    apply str_app_prefix in Hi as [q Hq]; [|rewrite !str_length_app; lia].
    rewrite <-(str_app_assoc u) in Hq. rewrite (Hb _ _ Hq), (str_app_right_id x) in Hq.
    apply str_app_inv_r in Hq. f_equal. by rewrite Hq.
Qed.

(** ** Byte classes *)

(** Exhaustive reasoning about one byte: all 256 cases, by evaluation. *)
Ltac byte_cases c :=
  destruct c as [[] [] [] [] [] [] [] []]; vm_compute; try done.

Lemma str_all_app p s t : str_all p (s +:+ t) = str_all p s && str_all p t.
Proof. induction s; str_simpl; [done|]. rewrite IHs. by rewrite andb_assoc. Qed.

Lemma str_all_impl (p q : ascii → bool) s :
  (∀ c, p c = true → q c = true) → str_all p s = true → str_all q s = true.
Proof.
  intros Hpq. induction s as [|c s IH]; simpl; [done|].
  rewrite !andb_true_iff. intros [??]. auto.
Qed.

Lemma str_all_map p f s : str_all p (str_map f s) = str_all (λ c, p (f c)) s.
Proof. induction s; simpl; [done|]. by f_equal. Qed.

Lemma str_all_ext (p q : ascii → bool) s :
  (∀ c, p c = q c) → str_all p s = str_all q s.
Proof. intros H. induction s; simpl; [done|]. by rewrite H, IHs. Qed.

Lemma str_map_app f s t : str_map f (s +:+ t) = str_map f s +:+ str_map f t.
Proof. induction s; str_simpl; [done|]. by rewrite IHs. Qed.

Lemma str_map_id f s :
  str_all (λ c, bool_decide (f c = c)) s = true → str_map f s = s.
Proof.
  induction s; simpl; [done|]. rewrite andb_true_iff, bool_decide_eq_true.
  intros [-> ?]. by rewrite IHs.
Qed.

Lemma str_map_length f s : String.length (str_map f s) = String.length s.
Proof. induction s; f_equal/=; auto. Qed.

Lemma lower_byte_idemp c : lower_byte (lower_byte c) = lower_byte c.
Proof. byte_cases c. Qed.
Lemma lower_byte_not_upper c : is_upper (lower_byte c) = false.
Proof. byte_cases c. Qed.
Lemma lower_byte_ascii c : is_ascii (lower_byte c) = is_ascii c.
Proof. byte_cases c. Qed.
Lemma not_upper_lower_byte c : is_upper c = false → lower_byte c = c.
Proof. unfold lower_byte. by intros ->. Qed.

Section to_lower.
Context `{GoUnicode}.

Lemma ToLower_ascii s :
  str_all is_ascii s = true → ToLower s = str_map lower_byte s.
Proof. unfold ToLower. by intros ->. Qed.

Lemma ToLower_is_ascii s :
  str_all is_ascii s = true → str_all is_ascii (ToLower s) = true.
Proof.
  intros Hs. rewrite ToLower_ascii, str_all_map by done.
  rewrite <-Hs. apply str_all_ext, lower_byte_ascii.
Qed.

Lemma ToLower_not_upper s :
  str_all is_ascii s = true →
  str_all (λ c, negb (is_upper c)) (ToLower s) = true.
Proof.
  intros Hs. rewrite ToLower_ascii, str_all_map by done.
  clear. induction s; simpl; [done|]. by rewrite lower_byte_not_upper.
Qed.

Lemma ToLower_id s :
  str_all is_ascii s = true → str_all (λ c, negb (is_upper c)) s = true →
  ToLower s = s.
Proof.
  intros Ha Hu. rewrite ToLower_ascii by done. apply str_map_id.
  revert Hu. apply str_all_impl. intros c Hc.
  apply bool_decide_eq_true, not_upper_lower_byte.
  by destruct (is_upper c).
Qed.

Lemma ToLower_app s t :
  str_all is_ascii s = true → str_all is_ascii t = true →
  ToLower (s +:+ t) = ToLower s +:+ ToLower t.
Proof.
  intros Hs Ht. rewrite !ToLower_ascii; try done.
  - apply str_map_app.
  - by rewrite str_all_app, Hs, Ht.
Qed.
End to_lower.

(** ** Trimming one byte *)

Definition starts_with (c : ascii) (s : string) : bool :=
  if s is String d _ then bool_decide (d = c) else false.
Fixpoint ends_with (c : ascii) (s : string) : bool :=
  match s with
  | EmptyString => false
  | String d EmptyString => bool_decide (d = c)
  | String _ s => ends_with c s
  end.

Lemma TrimLeft_no_start s c : starts_with c (TrimLeft s c) = false.
Proof.
  induction s as [|d s IH]; simpl; [done|]. case_bool_decide; [done|].
  simpl. by apply bool_decide_eq_false.
Qed.

Lemma TrimLeft_id s c : starts_with c s = false → TrimLeft s c = s.
Proof. destruct s as [|d s]; simpl; [done|]. by intros ->. Qed.

Lemma ends_with_cons c d s :
  s ≠ "" → ends_with c (String d s) = ends_with c s.
Proof. by destruct s. Qed.

Lemma ends_with_app c s t : t ≠ "" → ends_with c (s +:+ t) = ends_with c t.
Proof.
  intros Ht. induction s as [|d s IH]; [done|]. rewrite str_app_cons, ends_with_cons; [done|].
  destruct s; [done|]. by rewrite str_app_cons.
Qed.

Lemma TrimRight_cons s c d :
  TrimRight (String d s) c =
  if bool_decide (d = c) && bool_decide (TrimRight s c = "") then ""
  else String d (TrimRight s c).
Proof. done. Qed.

Lemma TrimRight_no_end s c : ends_with c (TrimRight s c) = false.
Proof.
  induction s as [|d s IH]; simpl; [done|].
  destruct (TrimRight s c) as [|e t]; simpl in *.
  - rewrite andb_true_r. by case_bool_decide; simpl; [|apply bool_decide_eq_false].
  - rewrite andb_false_r. done.
Qed.

Lemma TrimRight_id s c : ends_with c s = false → TrimRight s c = s.
Proof.
  induction s as [|d s IH]; [done|]. destruct s as [|e s]; intros H.
  - simpl in *. by rewrite H.
  - rewrite ends_with_cons in H by done.
    rewrite TrimRight_cons, IH by done.
    rewrite (bool_decide_eq_false_2 (String e s = "")) by done.
    by rewrite andb_false_r.
Qed.

Lemma TrimRight_starts s c d :
  starts_with d s = false → starts_with d (TrimRight s c) = false.
Proof. destruct s as [|e s]; simpl; [done|]. by case_match. Qed.

Lemma Trim_no_start s c : starts_with c (Trim s c) = false.
Proof. apply TrimRight_starts, TrimLeft_no_start. Qed.
Lemma Trim_no_end s c : ends_with c (Trim s c) = false.
Proof. apply TrimRight_no_end. Qed.
Lemma Trim_id s c :
  starts_with c s = false → ends_with c s = false → Trim s c = s.
Proof. intros ??. unfold Trim. by rewrite TrimLeft_id, TrimRight_id. Qed.

Lemma TrimRight_snoc s c : TrimRight (s +:+ String c "") c = TrimRight s c.
Proof.
  induction s as [|d s IH]; [|rewrite str_app_cons; simpl; by rewrite IH].
  simpl. by rewrite !bool_decide_eq_true_2.
Qed.

(** Quotes around a text without quotes at its ends come off again. *)
Lemma Trim_quoted s c :
  starts_with c s = false → ends_with c s = false →
  Trim (String c (s +:+ String c "")) c = s.
Proof.
  intros Hs He. unfold Trim. simpl. rewrite bool_decide_eq_true_2 by done.
  destruct s as [|d s].
  - simpl. by rewrite bool_decide_eq_true_2.
  - rewrite TrimLeft_id by done. by rewrite TrimRight_snoc, TrimRight_id.
Qed.

(** No quote at either end. *)
Definition bare (s : string) : bool :=
  negb (starts_with dquote s) && negb (ends_with dquote s).

Lemma Trim_quotes s : Trim (dquotes +:+ s +:+ dquotes) dquote = s ↔ bare s = true.
Proof.
  unfold bare. rewrite andb_true_iff, !negb_true_iff. split.
  - intros <-. split; [apply Trim_no_start|apply Trim_no_end].
  - intros [??]. by apply Trim_quoted.
Qed.

(** A string that starts with no space rune is not blank. *)
Lemma trim_right_space_start n c s :
  Forall (λ e, starts_with c e = false) space_encodings →
  trim_right_space n (String c s) ≠ "".
Proof.
  intros Hc. revert s. induction n as [|n IH]; [done|]. intros s. cbn [trim_right_space].
  destruct (list_find _ _) as [[i e]|] eqn:He; [|done].
  apply list_find_Some in He as (He & Hs & _). apply Is_true_true, HasSuffix_spec in Hs as [t Ht].
  rewrite Ht, TrimSuffix_app. destruct t as [|d t].
  - apply list_elem_of_lookup_2 in He. rewrite list.Forall_forall in Hc. apply Hc in He.
    destruct e as [|d e]; [done|]. injection Ht as <- _. simpl in He.
    by rewrite bool_decide_eq_true_2 in He.
  - injection Ht as <- _. apply IH.
Qed.

Lemma TrimSpace_start c s :
  Forall (λ e, starts_with c e = false) space_encodings → TrimSpace (String c s) ≠ "".
Proof.
  intros Hc. unfold TrimSpace.
  assert (trim_left_space (String.length (String c s)) (String c s) = String c s) as ->;
    [|by apply trim_right_space_start].
  cbn [String.length trim_left_space]. destruct (list_find _ _) as [[i e]|] eqn:He; [|done].
  apply list_find_Some in He as (He & Hs & _). apply list_elem_of_lookup_2 in He.
  apply Is_true_true, HasPrefix_spec in Hs as [t Ht].
  assert (Forall (λ e, e ≠ "") space_encodings) as Hne by (repeat constructor; done).
  rewrite list.Forall_forall in Hc, Hne. destruct e as [|d e]; [by apply Hne in He|].
  injection Ht as <- _. apply Hc in He. simpl in He. by rewrite bool_decide_eq_true_2 in He.
Qed.

Lemma str_all_TrimLeft p s c : str_all p s = true → str_all p (TrimLeft s c) = true.
Proof.
  induction s as [|d s IH]; simpl; [done|]. intros [??]%andb_true_iff.
  case_match; [auto|]. simpl. by apply andb_true_iff.
Qed.
Lemma str_all_TrimRight p s c :
  str_all p s = true → str_all p (TrimRight s c) = true.
Proof.
  induction s as [|d s IH]; simpl; [done|]. intros [??]%andb_true_iff.
  case_match; [done|]. simpl. apply andb_true_iff; auto.
Qed.
Lemma str_all_Trim p s c : str_all p s = true → str_all p (Trim s c) = true.
Proof. intros. by apply str_all_TrimRight, str_all_TrimLeft. Qed.

(** ** The order of Go strings: [a < b] *)

Lemma str_compare_refl (a : string) : String.compare a a = Eq.
Proof.
  induction a as [|c a IH]; simpl; [done|].
  unfold Stdlib.Strings.Ascii.compare. by rewrite N.compare_refl.
Qed.

Definition str_lt (a b : string) : bool := String.ltb a b.

Lemma str_lt_le a b : str_lt a b = true ↔ (a ≤ b)%string ∧ a ≠ b.
Proof.
  unfold str_lt, String.ltb, String.le, String.leb.
  destruct (String.compare a b) eqn:Hc.
  - apply String.compare_eq_iff in Hc. split; [done|]. by intros [_ ?].
  - split; [|done]. intros _. split; [done|]. intros <-.
    by rewrite str_compare_refl in Hc.
  - split; [done|]. by intros [? _].
Qed.

Lemma str_lt_strict P : strict_order_on str_lt P.
Proof.
  split.
  - intros x _. destruct (str_lt x x) eqn:H; [|done].
    by apply str_lt_le in H as [_ ?].
  - intros x y z _ _ _ [Hxy Hne]%str_lt_le [Hyz Hne']%str_lt_le.
    apply str_lt_le. split; [by trans y|]. intros <-.
    by destruct Hne; apply (anti_symm (≤)%string).
  - intros x y _ _ Hne. rewrite !str_lt_le.
    destruct (total (≤)%string x y); auto.
Qed.
