(* ===== verification/GoStrconv.v ===== *)
(** * Package strconv: decimal integers

    [FormatInt(n, 10)] (also the verb [%d]), [ParseUint], [ParseInt] and
    [Atoi] in base 10, with the bit size and the two kinds of failure of the
    library, and the round trip between printing and parsing. *)

From S2P Require Import Prelude GoStrings.
Local Open Scope Z_scope.

(** ** Printing *)

Definition digit_char (d : N) : ascii := ascii_of_N (48 + d).

(** [n] has at most [fuel] digits. *)
Fixpoint format_digits (fuel : nat) (n : N) (acc : string) : string :=
  match fuel with
  | O => acc
  | S fuel =>
      if (n <? 10)%N then String (digit_char n) acc
      else format_digits fuel (n / 10) (String (digit_char (n mod 10)) acc)
  end.

(** A number has at most as many decimal as binary digits. *)
Definition format_fuel (n : N) : nat := S (N.to_nat (N.log2 n)).

Definition FormatInt (z : Z) : string :=
  if z <? 0 then "-" +:+ format_digits (format_fuel (Z.to_N (- z))) (Z.to_N (- z)) ""
  else format_digits (format_fuel (Z.to_N z)) (Z.to_N z) "".

(** ** Parsing *)

(** [ErrSyntax] and [ErrRange]. *)
Inductive num_error := ErrSyntax | ErrRange.

Definition digit_value (c : ascii) : option Z :=
  if is_digit c then Some (byte_of c - 48) else None.

(** The loop of [ParseUint] with [maxVal = 1<<bitSize - 1]: a digit that
    takes the value past [maxVal] ends the loop with a range error, before
    the rest of the text is looked at. *)
Fixpoint parse_uint_loop (maxVal : Z) (n : Z) (s : string) : Z * option num_error :=
  match s with
  | EmptyString => (n, None)
  | String c s =>
      match digit_value c with
      | None => (0, Some ErrSyntax)
      | Some d =>
          if maxVal <? n * 10 + d then (maxVal, Some ErrRange)
          else parse_uint_loop maxVal (n * 10 + d) s
      end
  end.

Definition ParseUint (s : string) (bitSize : Z) : Z * option num_error :=
  if bool_decide (s = "") then (0, Some ErrSyntax)
  else parse_uint_loop (2 ^ bitSize - 1) 0 s.

(** [s[0]] is a sign: pick it off. *)
Definition parse_sign (s : string) : bool * string :=
  match s with
  | String c s' =>
      if bool_decide (c = "+"%char) then (false, s')
      else if bool_decide (c = "-"%char) then (true, s')
      else (false, s)
  | EmptyString => (false, s)
  end.

Definition ParseInt (s : string) (bitSize : Z) : Z * option num_error :=
  if bool_decide (s = "") then (0, Some ErrSyntax)
  else
    let '(neg, s) := parse_sign s in
    match ParseUint s bitSize with
    | (_, Some ErrSyntax) => (0, Some ErrSyntax)
    | (un, _) =>
        let cutoff := 2 ^ (bitSize - 1) in
        if negb neg && (cutoff <=? un) then (cutoff - 1, Some ErrRange)
        else if neg && (cutoff <? un) then (- cutoff, Some ErrRange)
        else (if neg : bool then - un else un, None)
    end.

(** [int] is 64 bits wide. *)
Definition Atoi (s : string) : Z * option num_error := ParseInt s 64.

(** ** Round trip *)

Lemma digit_char_value d : (d < 10)%N → digit_value (digit_char d) = Some (Z.of_N d).
Proof.
  intros Hd. assert (d ∈ [0;1;2;3;4;5;6;7;8;9]%N) as Hin.
  { rewrite !elem_of_cons. lia. }
  repeat (apply elem_of_cons in Hin as [->|Hin]; [done|]).
  by apply elem_of_nil in Hin.
Qed.

Lemma div_10_lt_pow2 n k : (n < 2 ^ N.succ k → 10 ≤ n → n / 10 < 2 ^ k)%N.
Proof.
  rewrite N.pow_succ_r'. intros Hn H10. apply N.Div0.div_lt_upper_bound. lia.
Qed.

Lemma parse_format_digits maxVal fuel n acc :
  (0 < fuel)%nat → (n < 2 ^ N.of_nat fuel)%N → Z.of_N n ≤ maxVal →
  parse_uint_loop maxVal 0 (format_digits fuel n acc)
  = parse_uint_loop maxVal (Z.of_N n) acc.
Proof.
  revert n acc. induction fuel as [|fuel IH]; intros n acc Hf Hn Hmax; [lia|].
  simpl. destruct (N.ltb_spec n 10) as [Hlt|Hge].
  - simpl. rewrite digit_char_value by done.
    destruct (Z.ltb_spec maxVal (0 * 10 + Z.of_N n)); [lia|]. f_equal; lia.
  - rewrite Nat2N.inj_succ in Hn. pose proof (div_10_lt_pow2 n _ Hn Hge) as Hdiv.
    pose proof (N.div_mod' n 10) as Hdm.
    pose proof (N.mod_lt n 10 ltac:(done)) as Hmod.
    set (q := (n / 10)%N) in *. set (r := (n mod 10)%N) in *.
    rewrite IH; [|destruct fuel; simpl in Hdiv; lia|done|lia].
    simpl. rewrite digit_char_value by done.
    replace (Z.of_N q * 10 + Z.of_N r) with (Z.of_N n) by lia.
    by destruct (Z.ltb_spec maxVal (Z.of_N n)); [lia|].
Qed.

Lemma format_fuel_enough n : (n < 2 ^ N.of_nat (format_fuel n))%N.
Proof.
  unfold format_fuel. rewrite Nat2N.inj_succ, N2Nat.id.
  destruct (decide (n = 0)%N) as [->|Hn]; [done|]. apply N.log2_spec. lia.
Qed.

Lemma format_digits_nonempty fuel n acc :
  (0 < fuel)%nat ∨ acc ≠ "" → format_digits fuel n acc ≠ "".
Proof.
  revert n acc. induction fuel as [|fuel IH]; intros n acc; simpl.
  - intros [?|?]; [lia|done].
  - intros _. case_match; [done|]. apply IH. by right.
Qed.

Lemma format_digits_all_digits fuel n acc :
  str_all is_digit acc = true →
  str_all is_digit (format_digits fuel n acc) = true.
Proof.
  revert n acc. induction fuel as [|fuel IH]; intros n acc Hacc; simpl; [done|].
  assert (∀ d, (d < 10)%N → is_digit (digit_char d) = true) as Hdig.
  { intros d Hd. pose proof (digit_char_value d Hd) as Hv.
    unfold digit_value in Hv. by destruct (is_digit _). }
  destruct (N.ltb_spec n 10).
  - simpl. by rewrite Hdig.
  - apply IH. simpl. rewrite Hdig; [done|]. by apply N.mod_lt.
Qed.

Lemma parse_sign_digits s :
  str_all is_digit s = true → parse_sign s = (false, s).
Proof.
  destruct s as [|c s]; [done|]. simpl. intros [Hc _]%andb_true_iff.
  revert Hc. byte_cases c.
Qed.

(** Every non-negative number below [2^(bitSize-1)] survives printing and
    parsing. *)
Lemma ParseInt_FormatInt n bitSize :
  0 < bitSize → 0 ≤ n < 2 ^ (bitSize - 1) →
  ParseInt (FormatInt n) bitSize = (n, None).
Proof.
  intros Hb [Hn Hlt]. unfold FormatInt. destruct (Z.ltb_spec n 0); [lia|].
  set (s := format_digits _ _ _).
  assert (s ≠ "") as Hs by (apply format_digits_nonempty; left; apply Nat.lt_0_succ).
  unfold ParseInt. rewrite bool_decide_eq_false_2 by done.
  rewrite parse_sign_digits by by apply format_digits_all_digits.
  unfold ParseUint. rewrite bool_decide_eq_false_2 by done.
  assert (2 ^ bitSize = 2 * 2 ^ (bitSize - 1)) as Hpow.
  { rewrite <-Z.pow_succ_r by lia. f_equal. lia. }
  unfold s. rewrite parse_format_digits.
  - simpl. rewrite Z2N.id by done. destruct (Z.leb_spec (2 ^ (bitSize - 1)) n); [lia|done].
  - apply Nat.lt_0_succ.
  - apply format_fuel_enough.
  - rewrite Z2N.id by done. lia.
Qed.

Lemma FormatInt_inj m n : 0 ≤ m → 0 ≤ n → FormatInt m = FormatInt n → m = n.
Proof.
  intros Hm Hn Heq. set (bits := Z.max m n + 2).
  assert (Z.max m n + 1 < 2 ^ (bits - 1)) as Hlt.
  { replace (bits - 1) with (Z.max m n + 1) by (unfold bits; lia). apply Z.pow_gt_lin_r; lia. }
  pose proof (ParseInt_FormatInt m bits) as Pm. pose proof (ParseInt_FormatInt n bits) as Pn.
  rewrite Heq in Pm. rewrite Pn in Pm by lia. specialize (Pm ltac:(lia) ltac:(lia)). by injection Pm.
Qed.

Lemma digit_value_bounds c d : digit_value c = Some d → 0 ≤ d < 10.
Proof.
  unfold digit_value, is_digit, in_range.
  change (byte_of "0") with 48. change (byte_of "9") with 57.
  destruct (Z.leb_spec 48 (byte_of c)), (Z.leb_spec (byte_of c) 57);
    intros [= <-]; lia.
Qed.

Lemma parse_uint_loop_nonneg maxVal n s m e :
  0 ≤ maxVal → 0 ≤ n → parse_uint_loop maxVal n s = (m, e) → 0 ≤ m.
Proof.
  intros Hmax. revert n. induction s as [|c s IH]; simpl; intros n Hn ?; simplify_eq.
  - done.
  - destruct (digit_value c) as [d|] eqn:Hd; simplify_eq; [|lia].
    apply digit_value_bounds in Hd. case_match; simplify_eq; [done|].
    eapply (IH (n * 10 + d)); [lia|done].
Qed.

(** What [ParseInt] returns without an error fits the bit size. *)
Lemma ParseInt_bounds s bitSize n :
  0 < bitSize → ParseInt s bitSize = (n, None) →
  - 2 ^ (bitSize - 1) ≤ n < 2 ^ (bitSize - 1).
Proof.
  intros Hb. unfold ParseInt. case_bool_decide; [done|].
  destruct (parse_sign s) as [neg s'].
  assert (0 < 2 ^ (bitSize - 1)) as Hpos by (apply Z.pow_pos_nonneg; lia).
  assert (0 < 2 ^ bitSize) as Hpos' by (apply Z.pow_pos_nonneg; lia).
  assert (∀ un e, ParseUint s' bitSize = (un, e) → 0 ≤ un) as Hnn.
  { unfold ParseUint. case_bool_decide; [naive_solver lia|].
    intros un e. apply parse_uint_loop_nonneg; lia. }
  destruct (ParseUint s' bitSize) as [un e]. specialize (Hnn un e eq_refl).
  destruct (Z.leb_spec (2 ^ (bitSize - 1)) un), (Z.ltb_spec (2 ^ (bitSize - 1)) un),
    e as [[]|], neg; intros [= <-]; lia.
Qed.
