(* ===== verification/FastTemplate.v ===== *)
(** * The vendored template engine

    [src/vendor/github.com/valyala/fasttemplate/template.go]: parsing a
    template into alternating texts and tags ([Template.Reset]) and executing
    it with a tag function ([Template.ExecuteFunc],
    [Template.ExecuteFuncString]).  The byte buffers and their pool are not
    modelled: a writer is the string written to it so far. *)

From S2P Require Import Prelude GoStrings.

Record Template := mkTemplate {
  template : string;
  startTag : string;
  endTag : string;
  texts : list string;
  tags : list string;
}.

(** The loop of [Reset] over the rest [s] of the template.  An iteration
    consumes a start tag, so [S (len s)] iterations are enough
    ([reset_loop_fuel]). *)
Fixpoint reset_loop (fuel : nat) (template a b s : string)
    (texts tags : list string) `{GoUnicode} : result (list string * list string) :=
  match fuel with
  | O => Ok (texts ++ [s], tags)
  | S fuel =>
      match Index s a with
      | None => Ok (texts ++ [s], tags)
      | Some n =>
          let texts := texts ++ [str_take n s] in
          let s := str_drop (n + String.length a) s in
          match Index s b with
          | None => Err ("Cannot find end tag=" +:+ Quote b +:+ " in the template="
                         +:+ Quote template +:+ " starting from " +:+ Quote s)
          | Some n =>
              let tags := tags ++ [str_take n s] in
              reset_loop fuel template a b (str_drop (n + String.length b) s) texts tags
          end
      end
  end.

(** [NewTemplate], with [Reset] on a zero [Template]. *)
Definition Reset `{GoUnicode} (template startTag endTag : string)
    : outcome (result Template) :=
  if bool_decide (startTag = "") then Panics "startTag cannot be empty"
  else if bool_decide (endTag = "") then Panics "endTag cannot be empty"
  else if negb (Contains template startTag) then
    Returns (Ok (mkTemplate template startTag endTag [] []))
  else
    match reset_loop (S (String.length template)) template startTag endTag template [] [] with
    | Ok (texts, tags) => Returns (Ok (mkTemplate template startTag endTag texts tags))
    | Err e => Returns (Err e)
    end.

Definition NewTemplate `{GoUnicode} := Reset.

(** A [TagFunc] as the text it writes for a tag, or its error. *)
Definition TagFunc : Type := string → result string.

(** The loop [for i := 0; i < n; i++] with [n = len(t.texts) - 1] and the
    final write of [t.texts[n]]. *)
Fixpoint execute_loop (f : TagFunc) (texts tags : list string) : outcome (result string) :=
  match texts with
  | [] => Returns (Ok "")
  | [t] => Returns (Ok t)
  | t :: texts =>
      match tags with
      | [] => Panics "index out of range"
      | tag :: tags =>
          match f tag with
          | Err e => Returns (Err e)
          | Ok v =>
              r ← execute_loop f texts tags;
              Returns (match r with Ok w => Ok (t +:+ v +:+ w) | Err e => Err e end)
          end
      end
  end.

Definition ExecuteFunc (t : Template) (f : TagFunc) : outcome (result string) :=
  match texts t with
  | [] => Returns (Ok (template t))
  | _ => execute_loop f (texts t) (tags t)
  end.

Definition ExecuteFuncString (t : Template) (f : TagFunc) : outcome string :=
  r ← ExecuteFunc t f;
  match r with
  | Ok s => Returns s
  | Err e => Panics ("unexpected error: " +:+ e)
  end.

(** ** Properties *)

(** The template a list of texts and tags stands for. *)
Fixpoint unparse (a b : string) (texts tags : list string) : string :=
  match texts with
  | [] => ""
  | t :: texts =>
      match tags with
      | [] => t
      | g :: tags => t +:+ a +:+ g +:+ b +:+ unparse a b texts tags
      end
  end.

(** What parsing means: a template is cut at the first start tag, then at the
    first end tag after it, and so on; there are texts only where no start tag
    is left. *)
Inductive parsed (a b : string) : string → list string → list string → Prop :=
  | parsed_text s : Index s a = None → parsed a b s [s] []
  | parsed_tag t g s ts gs :
      before_first a t → before_first b g → parsed a b s ts gs →
      parsed a b (t +:+ a +:+ g +:+ b +:+ s) (t :: ts) (g :: gs).

Section facts.
Context `{GoUnicode} (tmpl a b : string).

(** The accumulators only collect. *)
Lemma reset_loop_acc fuel s ts gs :
  reset_loop fuel tmpl a b s ts gs =
  match reset_loop fuel tmpl a b s [] [] with
  | Ok (ts', gs') => Ok (ts ++ ts', gs ++ gs')
  | Err e => Err e
  end.
Proof.
  revert s ts gs. induction fuel as [|fuel IH]; intros s ts gs; simpl.
  { by rewrite app_nil_r. }
  destruct (Index s a) as [n|]; [|by rewrite app_nil_r].
  destruct (Index _ b) as [m|]; [|done].
  rewrite (IH _ (ts ++ _)), (IH _ [_]).
  destruct (reset_loop _ _ _ _ _ [] []) as [[ts' gs']|]; [|done].
  by rewrite <-!(assoc_L (++)).
Qed.

Lemma reset_loop_S fuel s :
  reset_loop (S fuel) tmpl a b s [] [] =
  match Index s a with
  | None => Ok ([s], [])
  | Some n =>
      let s' := str_drop (n + String.length a) s in
      match Index s' b with
      | None => Err ("Cannot find end tag=" +:+ Quote b +:+ " in the template="
                     +:+ Quote tmpl +:+ " starting from " +:+ Quote s')
      | Some m =>
          match reset_loop fuel tmpl a b (str_drop (m + String.length b) s') [] [] with
          | Ok (ts', gs') => Ok (str_take n s :: ts', str_take m s' :: gs')
          | Err e => Err e
          end
      end
  end.
Proof.
  simpl. destruct (Index s a) as [n|]; [|done].
  destruct (Index _ b) as [m|]; [|done]. by rewrite reset_loop_acc.
Qed.

(** More iterations than bytes change nothing. *)
Lemma reset_loop_fuel fuel1 fuel2 s :
  a ≠ "" → (String.length s < fuel1)%nat → (String.length s < fuel2)%nat →
  reset_loop fuel1 tmpl a b s [] [] = reset_loop fuel2 tmpl a b s [] [].
Proof.
  intros Ha. revert fuel2 s. induction fuel1 as [|fuel1 IH]; intros fuel2 s H1 H2; [lia|].
  destruct fuel2 as [|fuel2]; [lia|]. rewrite !reset_loop_S.
  destruct (Index s a) as [n|] eqn:Hn; [|done]. cbv zeta.
  destruct (Index _ b) as [m|] eqn:Hm; [|done].
  apply Index_lt in Hn.
  assert (0 < String.length a)%nat by (destruct a; simpl; [done|lia]).
  rewrite (IH fuel2); [done|..]; rewrite !str_drop_length; lia.
Qed.

(** The loop finds the parse of the template, and fails if there is none. *)
Lemma reset_loop_parsed fuel s ts gs :
  (String.length s < fuel)%nat → a ≠ "" →
  reset_loop fuel tmpl a b s [] [] = Ok (ts, gs) ↔ parsed a b s ts gs.
Proof.
  intros Hf Ha. assert (0 < String.length a)%nat as Hpos by (destruct a; simpl; [done|lia]).
  split.
  - revert s ts gs Hf. induction fuel as [|fuel IH]; intros s ts gs Hf; [lia|].
    rewrite reset_loop_S. destruct (Index s a) as [n|] eqn:Hn; [|by intros [= <- <-]; constructor].
    cbv zeta. set (s' := str_drop _ s). destruct (Index s' b) as [k|] eqn:Hm; [|done].
    destruct (reset_loop _ _ _ _ _ [] []) as [[ts' gs']|] eqn:Hr; [|done].
    intros [= <- <-]. apply Index_lt in Hn as Hlt, Hm as Hlt'.
    apply IH in Hr; [|unfold s'; rewrite !str_drop_length; lia].
    apply Index_Some in Hn as Hs, Hm as Hs'. fold s' in Hs.
    assert (String.length (str_take n s) = n ∧ String.length (str_take k s') = k) as [Hln Hlk]
      by (rewrite !str_take_length; lia).
    set (t := str_take n s) in *. set (g := str_take k s') in *. set (rest := str_drop _ s') in *.
    clearbody t g rest s'. subst s' s n k.
    constructor; [by eapply Index_before_first|by eapply Index_before_first|done].
  - intros Hp. revert fuel Hf. induction Hp as [s Hn|t g s ts gs Ht Hg Hp IH]; intros fuel Hf;
      (destruct fuel as [|fuel]; [lia|]); rewrite reset_loop_S; [by rewrite Hn|].
    apply (Index_before_first _ _ (g +:+ b +:+ s)) in Ht. apply (Index_before_first _ _ s) in Hg.
    rewrite Ht. cbv zeta.
    assert (∀ t x s, str_drop (String.length t + String.length x) (t +:+ x +:+ s) = s) as Hdrop.
    { intros t0 x s0. rewrite <-str_length_app, (assoc_L String.append). apply str_drop_app. }
    rewrite Hdrop, Hg, Hdrop, !str_take_app, IH; [done|]. rewrite !str_length_app in Hf. lia.
Qed.

Lemma parsed_unique s ts gs ts' gs' :
  a ≠ "" → parsed a b s ts gs → parsed a b s ts' gs' → ts = ts' ∧ gs = gs'.
Proof.
  intros Ha Hp Hp'. apply (reset_loop_parsed (S (String.length s))) in Hp, Hp'; try done; try lia.
  rewrite Hp in Hp'. by injection Hp'.
Qed.

Lemma parsed_length s ts gs : parsed a b s ts gs → length ts = S (length gs).
Proof. induction 1; simpl; lia. Qed.

Lemma execute_loop_cons f t t' ts g gs :
  execute_loop f (t :: t' :: ts) (g :: gs) =
  match f g with
  | Err e => Returns (Err e)
  | Ok v => r ← execute_loop f (t' :: ts) gs;
            Returns (match r with Ok w => Ok (t +:+ v +:+ w) | Err e => Err e end)
  end.
Proof. done. Qed.

(** A template fails to parse only if a start tag has no end tag. *)
Lemma reset_loop_err fuel s e :
  reset_loop fuel tmpl a b s [] [] = Err e →
  ∃ p q, s = p +:+ a +:+ q ∧ Index q b = None.
Proof.
  revert s. induction fuel as [|fuel IH]; intros s; [done|].
  rewrite reset_loop_S. destruct (Index s a) as [n|] eqn:Hn; [|done].
  apply Index_Some in Hn. cbv zeta.
  destruct (Index _ b) as [m|] eqn:Hm; [|by eauto].
  destruct (reset_loop _ _ _ _ _ [] []) as [[??]|] eqn:Hr; [done|].
  intros [= ->]. destruct (IH _ Hr) as (p & q & Hpq & Hq).
  apply Index_Some in Hm. rewrite Hpq in Hm.
  exists (str_take n s +:+ a +:+ str_take m (str_drop (n + String.length a) s)
          +:+ b +:+ p), q.
  split; [|done]. rewrite Hn at 1. rewrite Hm at 1.
  by rewrite <-!(assoc_L String.append).
Qed.

(** Executing with a tag function that succeeds on every tag. *)
Lemma execute_loop_ok f v ts gs :
  length ts = S (length gs) → (∀ g, g ∈ gs → f g = Ok (v g)) →
  execute_loop f ts gs = Returns (Ok (unparse "" "" ts (v <$> gs))).
Proof.
  revert gs. induction ts as [|t ts IH]; intros gs Hlen Hf; [done|].
  destruct ts as [|t' ts], gs as [|g gs]; try done.
  rewrite execute_loop_cons, (Hf g) by set_solver.
  rewrite IH; [done|by simpl in *; lia|set_solver].
Qed.

(** Executing with a tag function that fails on some tag. *)
Lemma execute_loop_err f ts gs g e :
  length ts = S (length gs) → g ∈ gs → f g = Err e →
  ∃ e', execute_loop f ts gs = Returns (Err e').
Proof.
  revert gs. induction ts as [|t ts IH]; intros gs Hlen Hg Hf; [done|].
  destruct ts as [|t' ts], gs as [|g' gs]; try done; [by apply elem_of_nil in Hg|].
  rewrite execute_loop_cons. destruct (f g') eqn:Hg'; [|by eexists].
  apply elem_of_cons in Hg as [->|Hg]; [congruence|].
  destruct (IH gs) as [e' ->]; [by simpl in *; lia|done..|]. by eexists.
Qed.
End facts.
