(* ===== verification/Utils.v ===== *)
(** * Records and names

    [src/utils/utils.go]: the record types shared by every component, the
    conversion between names and fully qualified names, the name of a service
    from the configured template, and the ownership ("state") record. *)

From S2P Require Import Prelude GoStrings GoStrconv FastTemplate.

Record DnsRecord := mkDnsRecord {
  Fqdn_ : string;
  Records : list string;
  Type_ : string;
  TTL : Z;
}.

Record MetadataDnsRecord := mkMetadataDnsRecord {
  ServiceName : string;
  StackName : string;
  DnsRecord_ : DnsRecord;
}.

#[export] Instance DnsRecord_eq_dec : EqDecision DnsRecord.
Proof. solve_decision. Defined.
#[export] Instance MetadataDnsRecord_eq_dec : EqDecision MetadataDnsRecord.
Proof. solve_decision. Defined.

(** ** Names *)

Definition dot : ascii := ".".

(** [Fqdn]: add the trailing dot unless the name is empty or has it. *)
Definition Fqdn (name : string) : string :=
  let n := String.length name in
  if (n =? 0)%nat || bool_decide (str_at name (n - 1) = Some dot) then name
  else name +:+ ".".

(** [UnFqdn]: drop one trailing dot. *)
Definition UnFqdn (name : string) : string :=
  let n := String.length name in
  if negb (n =? 0)%nat && bool_decide (str_at name (n - 1) = Some dot)
  then str_take (n - 1) name
  else name.

(** ** Labels *)

(** The class [[a-zA-Z0-9-]] of the first regular expression. *)
Definition label_char (c : ascii) : bool :=
  is_lower c || is_upper c || is_digit c || bool_decide (c = "-"%char).

(** The width of the rune the regexp engine reads at the start of a non-empty
    string: [utf8.DecodeRuneInString], whose invalid encodings have width 1. *)
Definition cont_byte (lo hi : Z) (c : option ascii) : bool :=
  if c is Some c then (lo <=? byte_of c)%Z && (byte_of c <=? hi)%Z else false.

#[global] Arguments cont_byte : simpl never.

(** The size of the encoding a lead byte announces and the range of its
    second byte; [None] for the bytes that cannot lead. *)
Definition lead_byte (b : Z) : option (nat * Z * Z) :=
  (if b <? 0x80 then Some (1%nat, 0, 0)
   else if b <? 0xC2 then None
   else if b <=? 0xDF then Some (2%nat, 0x80, 0xBF)
   else if b =? 0xE0 then Some (3%nat, 0xA0, 0xBF)
   else if b =? 0xED then Some (3%nat, 0x80, 0x9F)
   else if b <=? 0xEF then Some (3%nat, 0x80, 0xBF)
   else if b =? 0xF0 then Some (4%nat, 0x90, 0xBF)
   else if b <=? 0xF3 then Some (4%nat, 0x80, 0xBF)
   else if b =? 0xF4 then Some (4%nat, 0x80, 0x8F)
   else None)%Z.

Definition rune_width (s : string) : nat :=
  match s with
  | EmptyString => 0
  | String c _ =>
      match lead_byte (byte_of c) with
      | None => 1
      | Some (size, lo, hi) =>
          if (size =? 1)%nat then 1
          else if negb (cont_byte lo hi (str_at s 1)) then 1
          else if (size =? 2)%nat then 2
          else if negb (cont_byte 0x80 0xBF (str_at s 2)) then 1
          else if (size =? 3)%nat then 3
          else if negb (cont_byte 0x80 0xBF (str_at s 3)) then 1
          else 4
      end
  end.

(** [re.ReplaceAllString(label, "-")] for [[^a-zA-Z0-9-]]: one dash for every
    rune outside the class.  [skip] counts the bytes of the current rune that
    are already replaced. *)
Fixpoint replace_disallowed (skip : nat) (s : string) : string :=
  match s with
  | EmptyString => ""
  | String c s' =>
      match skip with
      | S skip => replace_disallowed skip s'
      | O =>
          if label_char c then String c (replace_disallowed 0 s')
          else String "-" (replace_disallowed (rune_width s - 1) s')
      end
  end.

(** [dashes.ReplaceAllString(label, "-")] for [[-]+]: a run of dashes becomes
    one dash.  [in_run] tells that the byte before was a dash. *)
Fixpoint collapse_dashes (in_run : bool) (s : string) : string :=
  match s with
  | EmptyString => ""
  | String c s =>
      if bool_decide (c = "-"%char) then
        if in_run then collapse_dashes true s
        else String "-" (collapse_dashes true s)
      else String c (collapse_dashes false s)
  end.

Definition sanitizeLabel (label : string) : string :=
  let label := replace_disallowed 0 label in
  let label := collapse_dashes false label in
  Trim label "-".

Section names.
Context `{GoUnicode}.

(** The tag function of [FqdnFromTemplate]. *)
Definition fqdn_tag (serviceName stackName environmentName : string) : TagFunc :=
  λ tag,
    if bool_decide (tag = "service_name") then Ok (sanitizeLabel serviceName)
    else if bool_decide (tag = "stack_name") then Ok (sanitizeLabel stackName)
    else if bool_decide (tag = "environment_name") then
      Ok (sanitizeLabel environmentName)
    else Err ("invalid placeholder '" +:+ Quote tag +:+ "' in fqdn template").

(** A template with an unterminated placeholder ends the process; an unknown
    placeholder panics. *)
Definition FqdnFromTemplate
    (template serviceName stackName environmentName rootDomainName : string)
    : outcome string :=
  r ← NewTemplate template "%{{" "}}";
  match r with
  | Err err => Exits ("error while parsing fqdn template: " +:+ err)
  | Ok t =>
      fqdn ← ExecuteFuncString t (fqdn_tag serviceName stackName environmentName);
      let labels := [fqdn; rootDomainName] in
      Returns (ToLower (Join labels "."))
  end.

(** ** The state record *)

Definition StateFqdn (environmentUUID rootDomainName : string) : string :=
  let fqdn := "external-dns-" +:+ environmentUUID +:+ "." +:+ rootDomainName in
  ToLower fqdn.
End names.

(** The entries are collected from a Go map and then sorted
    ([sort.Strings]). *)
Definition StateRecord (fqdn : string) (ttl : Z) (entries : gset string) : DnsRecord :=
  let records := isort str_lt (elements entries) in
  mkDnsRecord fqdn records "TXT" ttl.

(** ** Properties of names *)

Lemma str_at_last name c : str_at (name +:+ String c "") (String.length name) = Some c.
Proof. induction name; str_simpl; auto. Qed.

Lemma str_at_last_inv name n c :
  String.length name = S n → str_at name n = Some c →
  name = str_take n name +:+ String c "".
Proof.
  revert n. induction name as [|d name IH]; intros n; simpl; [done|].
  intros [= <-]. destruct name as [|e name].
  - intros [= ->]. done.
  - intros Hat. simpl in *. rewrite str_app_cons. f_equal. by apply IH.
Qed.

(** A name with a trailing dot, as a shape. *)
Lemma Fqdn_cases name :
  (Fqdn name = name ∧ (name = "" ∨ ∃ s, name = s +:+ ".")) ∨
  (Fqdn name = name +:+ "." ∧ name ≠ "" ∧ ∀ s, name ≠ s +:+ ".").
Proof.
  unfold Fqdn. destruct (String.length name) as [|n] eqn:Hn.
  { left. destruct name; simpl; auto. done. }
  simpl. rewrite Nat.sub_0_r. case_bool_decide as Hd.
  - left. split; [done|]. right. exists (str_take n name).
    by apply str_at_last_inv.
  - right. split; [done|]. split; [by intros ->|]. intros s ->. apply Hd.
    rewrite str_length_app in Hn. simpl in Hn.
    assert (n = String.length s) as -> by lia. apply str_at_last.
Qed.

Lemma Fqdn_dot s : Fqdn (s +:+ ".") = s +:+ ".".
Proof.
  destruct (Fqdn_cases (s +:+ ".")) as [[H _]|(_ & _ & H)]; [done|].
  by destruct (H s).
Qed.

Lemma UnFqdn_dot s : UnFqdn (s +:+ ".") = s.
Proof.
  unfold UnFqdn. rewrite str_length_app. simpl (String.length ".").
  rewrite Nat.add_sub. change dot with "."%char. rewrite str_at_last.
  rewrite bool_decide_eq_true_2 by done.
  replace (String.length s + 1 =? 0)%nat with false
    by (symmetry; apply Nat.eqb_neq; lia).
  apply str_take_app.
Qed.

Lemma UnFqdn_no_dot s : (∀ t, s ≠ t +:+ ".") → UnFqdn s = s.
Proof.
  intros Hs. unfold UnFqdn. case_match eqn:Hc; [|done]. exfalso.
  apply andb_true_iff in Hc as [H0 Hd]. apply negb_true_iff, Nat.eqb_neq in H0.
  apply bool_decide_eq_true in Hd. apply (Hs (str_take (String.length s - 1) s)).
  apply (str_at_last_inv _ _ dot); [lia|done].
Qed.

(** ** Properties of labels *)

(** The first [k] bytes exist and lie outside the label class. *)
Fixpoint disallowed_prefix (k : nat) (s : string) : Prop :=
  match k, s with
  | O, _ => True
  | S k, String c s => label_char c = false ∧ disallowed_prefix k s
  | S _, EmptyString => False
  end.

Lemma high_byte_disallowed c : (128 <= byte_of c)%Z → label_char c = false.
Proof. byte_cases c; intros []; done. Qed.

Lemma cont_byte_spec lo hi s i :
  (128 <= lo)%Z → cont_byte lo hi (str_at s i) = true →
  ∃ c, str_at s i = Some c ∧ label_char c = false.
Proof.
  intros Hlo. destruct (str_at s i) as [c|]; simpl; [|done].
  intros [H1%Z.leb_le _]%andb_true_iff. exists c. split; [done|].
  apply high_byte_disallowed. lia.
Qed.

Lemma lead_byte_lo b size lo hi :
  lead_byte b = Some (size, lo, hi) → size ≠ 1%nat → (128 <= lo)%Z.
Proof. unfold lead_byte. intros. repeat case_match; simplify_eq; lia. Qed.

(** The bytes of a rune after the first lie outside the label class. *)
Lemma rune_width_disallowed c s :
  disallowed_prefix (rune_width (String c s) - 1) s.
Proof.
  unfold rune_width. destruct (lead_byte _) as [[[size lo] hi]|] eqn:Hl; [|done].
  destruct (size =? 1)%nat eqn:Hsz; [done|]. apply Nat.eqb_neq in Hsz.
  pose proof (lead_byte_lo _ _ _ _ Hl Hsz) as Hlo.
  destruct (cont_byte lo hi _) eqn:H1; [|done].
  apply cont_byte_spec in H1 as (c1 & H1 & Hc1); [|done].
  destruct s as [|d1 s]; [done|]. injection H1 as ->.
  destruct (size =? 2)%nat; [done|].
  destruct (cont_byte _ _ (str_at _ 2)) eqn:H2; [|done].
  apply cont_byte_spec in H2 as (c2 & H2 & Hc2); [|lia].
  destruct s as [|d2 s]; [done|]. injection H2 as ->.
  destruct (size =? 3)%nat; [done|].
  destruct (cont_byte _ _ (str_at _ 3)) eqn:H3; [|done].
  apply cont_byte_spec in H3 as (c3 & H3 & Hc3); [|lia].
  destruct s as [|d3 s]; [done|]. injection H3 as ->. done.
Qed.

Lemma replace_disallowed_cons c s :
  replace_disallowed 0 (String c s) =
  if label_char c then String c (replace_disallowed 0 s)
  else String "-" (replace_disallowed (rune_width (String c s) - 1) s).
Proof. done. Qed.

(** The byte-wise reading of the first regular expression. *)
Definition dash_byte (c : ascii) : ascii := if label_char c then c else "-".

Lemma collapse_replace s :
  (∀ b, collapse_dashes b (replace_disallowed 0 s)
        = collapse_dashes b (str_map dash_byte s)) ∧
  (∀ k, disallowed_prefix k s →
        collapse_dashes true (replace_disallowed k s)
        = collapse_dashes true (str_map dash_byte s)).
Proof.
  induction s as [|c s [IH1 IH2]]; [by split; intros; [|destruct k]|].
  assert (∀ b, collapse_dashes b (replace_disallowed 0 (String c s))
    = collapse_dashes b (str_map dash_byte (String c s))) as H0.
  { intros b. rewrite replace_disallowed_cons. simpl str_map. unfold dash_byte at 1.
    pose proof (rune_width_disallowed c s) as Hp.
    generalize (rune_width (String c s) - 1)%nat, Hp. intros k Hk.
    destruct (label_char c) eqn:Hc; simpl; repeat case_match;
      rewrite ?IH1, ?(IH2 _ Hk); done. }
  split; [done|]. intros [|k] Hk; [done|]. destruct Hk as [Hc Hk].
  assert (dash_byte c = "-"%char) as Hd by (unfold dash_byte; by rewrite Hc).
  simpl. by rewrite IH2, Hd.
Qed.

Lemma sanitizeLabel_bytewise_aux label :
  sanitizeLabel label = Trim (collapse_dashes false (str_map dash_byte label)) "-".
Proof. unfold sanitizeLabel. by rewrite (proj1 (collapse_replace label)). Qed.

(** No two dashes in a row. *)
Fixpoint no_double_dash (s : string) : bool :=
  match s with
  | EmptyString => true
  | String c s => negb (bool_decide (c = "-"%char) && starts_with "-" s) && no_double_dash s
  end.

Lemma str_all_collapse p b s :
  str_all p s = true → str_all p (collapse_dashes b s) = true.
Proof.
  revert b. induction s as [|c s IH]; intros b; simpl; [done|].
  intros [Hc Hs]%andb_true_iff. repeat case_match; simpl; auto;
    apply andb_true_iff; split; auto. case_bool_decide; by subst.
Qed.

Lemma collapse_starts s :
  starts_with "-" (collapse_dashes true s) = false.
Proof.
  induction s as [|c s IH]; simpl; [done|]. case_bool_decide; [done|].
  simpl. by apply bool_decide_eq_false.
Qed.

Lemma collapse_no_double b s : no_double_dash (collapse_dashes b s) = true.
Proof.
  revert b. induction s as [|c s IH]; intros b; simpl; [done|].
  case_bool_decide.
  - destruct b; [done|]. simpl. by rewrite collapse_starts, IH.
  - simpl. rewrite bool_decide_eq_false_2 by done. simpl. apply IH.
Qed.

Lemma no_double_TrimLeft s c :
  no_double_dash s = true → no_double_dash (TrimLeft s c) = true.
Proof.
  induction s as [|d s IH]; simpl; [done|]. intros [? Hs]%andb_true_iff.
  case_match; [auto|]. simpl. by apply andb_true_iff.
Qed.

Lemma no_double_TrimRight s c :
  no_double_dash s = true → no_double_dash (TrimRight s c) = true.
Proof.
  induction s as [|d s IH]; simpl; [done|]. intros [Hd Hs]%andb_true_iff.
  case_match; [done|]. simpl. apply andb_true_iff. split; [|auto].
  apply negb_true_iff in Hd. apply negb_true_iff.
  apply andb_false_iff in Hd as [->|Hd]; [done|].
  by rewrite (TrimRight_starts _ _ _ Hd), andb_false_r.
Qed.

Lemma collapse_id b s :
  no_double_dash s = true → (b = true → starts_with "-" s = false) →
  collapse_dashes b s = s.
Proof.
  revert b. induction s as [|c s IH]; intros b; simpl; [done|].
  intros [Hc Hs]%andb_true_iff Hb. case_bool_decide as Hd; subst.
  - destruct b; [by specialize (Hb eq_refl)|]. rewrite IH; [done..|].
    intros _. by destruct (starts_with "-" s).
  - by rewrite IH.
Qed.

Lemma dash_byte_label s :
  str_all label_char (str_map dash_byte s) = true.
Proof.
  rewrite str_all_map. induction s as [|c s IH]; simpl; [done|].
  rewrite IH, andb_true_r. unfold dash_byte. destruct (label_char c) eqn:E; done.
Qed.

Lemma label_char_ascii c : label_char c = true → is_ascii c = true.
Proof. byte_cases c. Qed.

(** The shape of a sanitized label. *)
Definition wf_label (s : string) : Prop :=
  str_all label_char s = true ∧ no_double_dash s = true ∧
  starts_with "-" s = false ∧ ends_with "-" s = false.

Lemma sanitizeLabel_wf_aux label : wf_label (sanitizeLabel label).
Proof.
  rewrite sanitizeLabel_bytewise_aux. repeat split.
  - apply str_all_Trim, str_all_collapse, dash_byte_label.
  - apply no_double_TrimRight, no_double_TrimLeft, collapse_no_double.
  - apply Trim_no_start.
  - apply Trim_no_end.
Qed.

Lemma sanitizeLabel_id_aux label : wf_label label → sanitizeLabel label = label.
Proof.
  intros (Hc & Hd & Hs & He). rewrite sanitizeLabel_bytewise_aux.
  rewrite str_map_id, collapse_id, Trim_id; try done.
  revert Hc. apply str_all_impl. intros c Hc. apply bool_decide_eq_true.
  unfold dash_byte. by rewrite Hc.
Qed.

(** ** The name of a service *)

Section fqdn.
Context `{GoUnicode} (svc stack env : string).

(** The placeholders of a name template and what they stand for. *)
Definition known_tag (tag : string) : Prop :=
  tag = "service_name" ∨ tag = "stack_name" ∨ tag = "environment_name".

Definition tag_label (tag : string) : string :=
  if bool_decide (tag = "service_name") then sanitizeLabel svc
  else if bool_decide (tag = "stack_name") then sanitizeLabel stack
  else sanitizeLabel env.

#[export] Instance known_tag_dec tag : Decision (known_tag tag).
Proof. unfold known_tag. apply _. Defined.

Lemma fqdn_tag_known tag :
  known_tag tag → fqdn_tag svc stack env tag = Ok (tag_label tag).
Proof. by intros [->|[->| ->]]. Qed.

Lemma fqdn_tag_unknown tag :
  ¬ known_tag tag → ∃ e, fqdn_tag svc stack env tag = Err e.
Proof.
  unfold known_tag, fqdn_tag. intros Hk.
  rewrite !bool_decide_eq_false_2 by naive_solver. by eexists.
Qed.

Lemma tag_label_wf tag : wf_label (tag_label tag).
Proof. unfold tag_label. repeat case_match; apply sanitizeLabel_wf_aux. Qed.

(** How a name template is cut at its placeholders. *)
Definition template_parse : string → list string → list string → Prop := parsed "%{{" "}}".

(** Parsing a name template: its parse, or an unterminated placeholder. *)
Lemma NewTemplate_cases t :
  (∃ T ts gs, NewTemplate t "%{{" "}}" = Returns (Ok T) ∧ template_parse t ts gs ∧
     ∀ f, ExecuteFunc T f = execute_loop f ts gs) ∨
  (∃ e p q, NewTemplate t "%{{" "}}" = Returns (Err e) ∧ (∀ ts gs, ¬ template_parse t ts gs) ∧
     t = p +:+ "%{{" +:+ q ∧ Index q "}}" = None).
Proof.
  unfold NewTemplate, Reset. rewrite !bool_decide_eq_false_2 by done.
  destruct (Contains t "%{{") eqn:Hc; simpl negb; cbv iota.
  - destruct (reset_loop _ t "%{{" "}}" t [] []) as [[ts gs]|e] eqn:Hr.
    + left. apply reset_loop_parsed in Hr; [|lia|done].
      eexists _, ts, gs. do 2 (split; [done|]). apply parsed_length in Hr.
      intros f. unfold ExecuteFunc. simpl. by destruct ts.
    + right. pose proof (reset_loop_err _ _ _ _ _ _ Hr) as (p & q & ? & ?).
      exists e, p, q. split; [done|]. split; [|done]. intros ts gs Hp.
      eapply reset_loop_parsed in Hp; [|apply Nat.lt_succ_diag_r|done]. by rewrite Hr in Hp.
  - left. eexists _, [t], []. split; [done|]. split; [|done]. constructor.
    unfold Contains in Hc. by destruct (Index t "%{{").
Qed.
End fqdn.

(** ** The component's theorems *)

(** [Fqdn] and [UnFqdn] invert each other: a name that has no trailing dot
    comes back from its fully qualified form, [Fqdn] changes nothing when
    applied twice, and a non-root fully qualified name is rebuilt from its
    relative form. *)
Theorem Fqdn_UnFqdn_roundtrip (name : string) :
  Fqdn (Fqdn name) = Fqdn name ∧
  (HasSuffix name "." = false → UnFqdn (Fqdn name) = name) ∧
  (∀ s, name = s +:+ "." → s ≠ "" → HasSuffix s "." = false →
        Fqdn (UnFqdn name) = name).
Proof.
  assert (∀ s t, HasSuffix s "." = false → s ≠ t +:+ ".") as Hdot.
  { intros s t Hs ->. by rewrite HasSuffix_app in Hs. }
  split; [|split].
  - destruct (Fqdn_cases name) as [[H _]|(H & _)]; rewrite H; [done|apply Fqdn_dot].
  - intros Hn. destruct (Fqdn_cases name) as [[-> [->|[s ->]]]|(-> & _)].
    + done.
    + by rewrite HasSuffix_app in Hn.
    + apply UnFqdn_dot.
  - intros s -> Hs Hn. rewrite UnFqdn_dot.
    destruct (Fqdn_cases s) as [[_ [->|[t ->]]]|(-> & _)]; try done.
    by rewrite HasSuffix_app in Hn.
Qed.

Lemma Fqdn_UnFqdn_roundtrip_witness :
  UnFqdn (Fqdn "api.example.com") = "api.example.com" ∧
  Fqdn (UnFqdn "api.example.com.") = "api.example.com.".
Proof.
  split.
  - by apply (Fqdn_UnFqdn_roundtrip "api.example.com").
  - by apply (Fqdn_UnFqdn_roundtrip "api.example.com.") with "api.example.com".
Defined.

(** [C25] [sanitizeLabel] yields letters, digits and single dashes, with no dash
    at either end; it leaves such a label alone, so it is idempotent; and
    although the regular expression replaces runes (of one to four bytes), the
    result is the one of replacing every byte outside the class. *)
Theorem sanitizeLabel_spec (label : string) :
  wf_label (sanitizeLabel label) ∧
  sanitizeLabel (sanitizeLabel label) = sanitizeLabel label ∧
  (wf_label label ↔ sanitizeLabel label = label) ∧
  sanitizeLabel label = Trim (collapse_dashes false (str_map dash_byte label)) "-".
Proof.
  pose proof (sanitizeLabel_wf_aux label) as Hwf. split; [done|]. split.
  { by apply sanitizeLabel_id_aux. }
  split; [|apply sanitizeLabel_bytewise_aux].
  split; [apply sanitizeLabel_id_aux|]. by intros <-.
Qed.

(** [C23] Every branch of [FqdnFromTemplate].  A template has at most one parse:
    it is cut at the first start tag, then at the first end tag after it, and
    so on ([parsed], [parsed_unique]).  The function returns for the parse with
    known placeholders only, and then the name is the texts with the sanitized
    labels in place of the placeholders, a dot and the root domain, in lower
    case; it panics for a parse with an unknown placeholder; the process exits
    for a template without a parse, one that has an unterminated placeholder. *)
Theorem FqdnFromTemplate_outcomes `{GoUnicode} (t svc stack env root : string) :
  (∀ ts gs ts' gs', template_parse t ts gs → template_parse t ts' gs' → ts = ts' ∧ gs = gs') ∧
  match FqdnFromTemplate t svc stack env root with
  | Returns f =>
      ∃ ts gs, template_parse t ts gs ∧ Forall known_tag gs ∧
        f = ToLower (unparse "" "" ts (tag_label svc stack env <$> gs) +:+ "." +:+ root)
  | Panics _ => ∃ ts gs tag, template_parse t ts gs ∧ tag ∈ gs ∧ ¬ known_tag tag
  | Exits _ =>
      (∀ ts gs, ¬ template_parse t ts gs) ∧
      ∃ p q, t = p +:+ "%{{" +:+ q ∧ Index q "}}" = None
  end.
Proof.
  split; [by intros ts gs ts' gs'; apply parsed_unique|]. unfold FqdnFromTemplate.
  destruct (NewTemplate_cases t) as [(T & ts & gs & -> & Hp & HT)|(e & p & q & -> & Hn & ? & ?)];
    simpl; [|by eauto].
  apply parsed_length in Hp as Hlen. unfold ExecuteFuncString. rewrite HT.
  destruct (decide (Forall known_tag gs)) as [Hk|Hk].
  - rewrite (execute_loop_ok _ (tag_label svc stack env)); [simpl; by eauto 10|done|].
    intros g Hg. apply fqdn_tag_known. rewrite list.Forall_forall in Hk. auto.
  - apply not_Forall_Exists, list.Exists_exists in Hk as (tag & Htag & Hk); [|apply _].
    destruct (fqdn_tag_unknown svc stack env tag Hk) as [e He].
    destruct (execute_loop_err _ ts gs tag e Hlen Htag He) as [e' ->]. simpl.
    by exists ts, gs, tag.
Qed.

Lemma StateRecord_elem fqdn ttl entries x :
  x ∈ Records (StateRecord fqdn ttl entries) ↔ x ∈ entries.
Proof. simpl. by rewrite elem_of_isort, elem_of_elements. Qed.

Lemma StateRecord_empty fqdn ttl entries :
  entries ≠ ∅ → Records (StateRecord fqdn ttl entries) ≠ [].
Proof.
  intros Hne Hnil. apply Hne. apply set_eq. intros x.
  rewrite <-(StateRecord_elem fqdn ttl), Hnil. set_solver.
Qed.

Lemma StateRecord_facts fqdn ttl entries :
  let r := StateRecord fqdn ttl entries in
  NoDup (Records r) ∧ StronglySorted (λ x y, str_lt x y = true) (Records r) ∧
  (∀ x, x ∈ Records r ↔ x ∈ entries).
Proof.
  pose proof (str_lt_strict (λ _, True)) as Ho. split; [|split].
  - apply isort_NoDup, NoDup_elements.
  - apply (isort_sorted _ _ Ho); [by apply list.Forall_true|apply NoDup_elements].
  - apply StateRecord_elem.
Qed.

(** [C26] The state record lists each entry once, in increasing order, whatever
    the order in which the Go map yields its keys: any sorted rearrangement of
    any enumeration of the entries is the same list. *)
Theorem StateRecord_canonical (fqdn : string) (ttl : Z) (entries : gset string) :
  let r := StateRecord fqdn ttl entries in
  Fqdn_ r = fqdn ∧ Type_ r = "TXT" ∧ TTL r = ttl ∧
  NoDup (Records r) ∧ StronglySorted (λ x y, str_lt x y = true) (Records r) ∧
  (∀ x, x ∈ Records r ↔ x ∈ entries) ∧
  (∀ keys sorted, NoDup keys → (∀ x, x ∈ keys ↔ x ∈ entries) → sorted ≡ₚ keys →
     StronglySorted (λ x y, str_lt x y = true) sorted → sorted = Records r).
Proof.
  pose proof (str_lt_strict (λ _, True)) as Ho.
  assert (∀ l : list string, Forall (λ _, True) l) as HT by (intros; by apply list.Forall_true).
  destruct (StateRecord_facts fqdn ttl entries) as (? & ? & ?).
  repeat (split; [done|]). intros keys sorted Hk Helem Hp Hs.
  apply (isort_unique _ _ Ho); [done|apply NoDup_elements| |done].
  rewrite Hp. apply NoDup_Permutation; [done|apply NoDup_elements|].
  intros x. by rewrite Helem, elem_of_elements.
Qed.

(** ** Well-formed sets of desired records

    What the metadata component promises about the map it hands to the
    reconciler: keys are the names of their records, the state name carries a
    TXT record and every other name an A record, no record is empty, and the
    state record is there and lists the other names. *)
Record wf_desired (stateFqdn : string) (D : gmap string MetadataDnsRecord) : Prop := {
  wf_key k r : D !! k = Some r → Fqdn_ (DnsRecord_ r) = k;
  wf_state r : D !! stateFqdn = Some r → Type_ (DnsRecord_ r) = "TXT";
  wf_address k r : k ≠ stateFqdn → D !! k = Some r → Type_ (DnsRecord_ r) = "A";
  wf_values k r : D !! k = Some r → Records (DnsRecord_ r) ≠ [];
  wf_has_state k : k ∈ dom D → stateFqdn ∈ dom D;
  wf_listed r k : D !! stateFqdn = Some r → k ≠ stateFqdn →
    k ∈ Records (DnsRecord_ r) ↔ k ∈ dom D;
}.
