(* ===== verification/Config.v ===== *)
(** * Configuration

    [src/config/config.go]: the settings read from the process environment.
    The environment is a function from names to values, the empty string
    standing for an unset variable as [os.Getenv] has it. *)

From S2P Require Import Prelude GoStrings GoStrconv FastTemplate Utils.
Local Open Scope Z_scope.

Definition defaultNameTemplate : string :=
  "%{{service_name}}.%{{stack_name}}.%{{environment_name}}".

Record Config := mkConfig {
  RootDomainName : string;
  cfgTTL : Z;
  PlatformURL : string;
  PlatformAccessKey : string;
  PlatformSecretKey : string;
  NameTemplate : string;
  MetadataURL : string;
  HealthAddress : string;
}.

(** [config.TTL = ttl] *)
Definition with_TTL (cfg : Config) (ttl : Z) : Config :=
  mkConfig (RootDomainName cfg) ttl (PlatformURL cfg) (PlatformAccessKey cfg)
    (PlatformSecretKey cfg) (NameTemplate cfg) (MetadataURL cfg) (HealthAddress cfg).

Section environment.
Context (Getenv : string → string).

(** A missing required variable ends the process. *)
Definition getEnv (name : string) : outcome string :=
  let envVar := Getenv name in
  if (String.length envVar =? 0)%nat then
    Exits ("Environment variable '" +:+ name +:+ "' is not set")
  else Returns envVar.

Definition getOptionalEnv (name fallback : string) : string :=
  let value := Getenv name in
  if negb (bool_decide (value = "")) then value else fallback.

(** [strconv.ParseInt(TTLEnv, 10, 32)], with 300 for anything that is not a
    positive 32-bit number. *)
Definition parseTTL (TTLEnv : string) : Z :=
  match ParseInt TTLEnv 32 with
  | (_, Some _) => 300
  | (parsedTTL, None) => if parsedTTL <=? 0 then 300 else parsedTTL
  end.

Definition SetFromEnvironment : outcome Config :=
  platformURL ← getEnv "PLATFORM_URL";
  platformAccessKey ← getEnv "PLATFORM_ACCESS_KEY";
  platformSecretKey ← getEnv "PLATFORM_SECRET_KEY";
  rootDomain ← getEnv "ROOT_DOMAIN";
  let rootDomainName := Fqdn rootDomain in
  let metadataURL := getOptionalEnv "METADATA_URL" "http://metadata/2015-12-19" in
  let healthAddress := getOptionalEnv "HEALTH_ADDRESS" ":10000" in
  let nameTemplate := Getenv "NAME_TEMPLATE" in
  let nameTemplate :=
    if (String.length nameTemplate =? 0)%nat then defaultNameTemplate
    else nameTemplate in
  let ttl := parseTTL (Getenv "TTL") in
  mret (mkConfig rootDomainName ttl platformURL platformAccessKey
          platformSecretKey nameTemplate metadataURL healthAddress).
End environment.

(** ** Properties *)

(** The variables without which the process does not start. *)
Definition required_env : list string :=
  ["PLATFORM_URL"; "PLATFORM_ACCESS_KEY"; "PLATFORM_SECRET_KEY"; "ROOT_DOMAIN"].

Lemma getEnv_cases env name :
  (env name ≠ "" ∧ getEnv env name = Returns (env name)) ∨
  (env name = "" ∧ ∃ msg, getEnv env name = Exits msg).
Proof. unfold getEnv. destruct (env name); simpl; eauto. Qed.

Lemma parseTTL_bounds s : 0 < parseTTL s < 2 ^ 31.
Proof.
  unfold parseTTL. destruct (ParseInt s 32) as [n [e|]] eqn:Hn; [done|].
  apply ParseInt_bounds in Hn; [|done]. destruct (Z.leb_spec n 0); [done|].
  simpl in Hn. lia.
Qed.

Lemma parseTTL_FormatInt n : 0 < n < 2 ^ 31 → parseTTL (FormatInt n) = n.
Proof.
  intros Hn. unfold parseTTL. rewrite ParseInt_FormatInt by (simpl; lia).
  destruct (Z.leb_spec n 0); lia.
Qed.

Lemma Fqdn_suffix s : s ≠ "" → HasSuffix (Fqdn s) "." = true.
Proof.
  intros Hs. destruct (Fqdn_cases s) as [[-> [->|[t ->]]]|(-> & _)]; [done|..];
    apply HasSuffix_app.
Qed.

(** [C27] The settings the rest of the program relies on.  Start-up succeeds
    exactly when the four required variables are set, and exits otherwise; the
    root domain it stores has its trailing dot, the name template is not empty,
    and the TTL is positive and below [2^31]: the number given when it is the
    decimal form of such a number, 300 when it does not parse or is not
    positive. *)
Theorem SetFromEnvironment_spec (env : string → string) :
  match SetFromEnvironment env with
  | Returns cfg =>
      (∀ name, name ∈ required_env → env name ≠ "") ∧
      RootDomainName cfg = Fqdn (env "ROOT_DOMAIN") ∧
      HasSuffix (RootDomainName cfg) "." = true ∧
      NameTemplate cfg ≠ "" ∧
      (env "NAME_TEMPLATE" = "" → NameTemplate cfg = defaultNameTemplate) ∧
      0 < cfgTTL cfg < 2 ^ 31 ∧
      (∀ n, 0 < n < 2 ^ 31 → env "TTL" = FormatInt n → cfgTTL cfg = n) ∧
      (∀ n e, ParseInt (env "TTL") 32 = (n, e) → e ≠ None ∨ n ≤ 0 → cfgTTL cfg = 300)
  | Exits _ => ∃ name, name ∈ required_env ∧ env name = ""
  | Panics _ => False
  end.
Proof.
  unfold SetFromEnvironment.
  destruct (getEnv_cases env "PLATFORM_URL") as [[? ->]|[? [? ->]]];
    simpl; [|eexists; split; [|done]; unfold required_env; set_solver].
  destruct (getEnv_cases env "PLATFORM_ACCESS_KEY") as [[? ->]|[? [? ->]]];
    simpl; [|eexists; split; [|done]; unfold required_env; set_solver].
  destruct (getEnv_cases env "PLATFORM_SECRET_KEY") as [[? ->]|[? [? ->]]];
    simpl; [|eexists; split; [|done]; unfold required_env; set_solver].
  destruct (getEnv_cases env "ROOT_DOMAIN") as [[? ->]|[? [? ->]]];
    simpl; [|eexists; split; [|done]; unfold required_env; set_solver].
  split.
  { intros name Hn. unfold required_env in Hn.
    rewrite !elem_of_cons, elem_of_nil in Hn.
    by destruct Hn as [->|[->|[->|[->|[]]]]]. }
  split; [done|].
  split; [by apply Fqdn_suffix|].
  split; [by destruct (env "NAME_TEMPLATE")|].
  split; [by intros ->|]. split; [apply parseTTL_bounds|].
  split; [intros n ? ->; by apply parseTTL_FormatInt|].
  intros n e He. unfold parseTTL. rewrite He. destruct e; [done|].
  intros [?|?]; [done|]. by destruct (Z.leb_spec n 0); [|lia].
Qed.
