(* ===== verification/GoNet.v ===== *)
(** * Package net: addresses

    [net.ParseIP] as the metadata component uses it: the text is an address
    when [netip.ParseAddr] accepts it and it has no zone.  The IPv4 and IPv6
    parsers are modelled in full, with the bytes they return. *)

From S2P Require Import Prelude GoStrings GoStrconv.
Local Open Scope Z_scope.

(** ** IPv4: [parseIPv4Fields]

    The state of the loop: the value and the number of digits of the current
    octet, the octets read so far ([fields], its length is [pos]), and whether
    the byte before was a dot or the start of the text. *)
Fixpoint ipv4_loop (val : Z) (digLen : nat) (fields : list Z) (after_dot : bool)
    (s : string) : option (list Z) :=
  match s with
  | EmptyString =>
      if (length fields <? 3)%nat then None else Some (fields ++ [val])
  | String c s' =>
      match digit_value c with
      | Some d =>
          if (digLen =? 1)%nat && (val =? 0) then None
          else if 255 <? val * 10 + d then None
          else ipv4_loop (val * 10 + d) (S digLen) fields false s'
      | None =>
          if bool_decide (c = "."%char) then
            if after_dot || bool_decide (s' = "") then None
            else if (length fields =? 3)%nat then None
            else ipv4_loop 0 0 (fields ++ [val]) true s'
          else None
      end
  end.

Definition parseIPv4 (s : string) : option (list Z) := ipv4_loop 0 0 [] true s.

(** ** IPv6 *)

Definition hex_value (c : ascii) : option Z :=
  if is_digit c then Some (byte_of c - 48)
  else if in_range "a" "f" c then Some (byte_of c - 87)
  else if in_range "A" "F" c then Some (byte_of c - 55)
  else None.

(** The inner loop: the value and length of the hexadecimal number at the
    start of [s], [None] for a fifth digit. *)
Fixpoint hex_group (acc : Z) (off : nat) (s : string) : option (Z * nat) :=
  match s with
  | String c s' =>
      match hex_value c with
      | Some d => if (3 <? off)%nat then None else hex_group (acc * 16 + d) (S off) s'
      | None => Some (acc, off)
      end
  | EmptyString => Some (acc, off)
  end.

(** The outer loop [for i < 16]: it appends two bytes per group, so eight
    iterations reach [i = 16].  It returns the bytes, the position of the
    ellipsis and the text left. *)
Fixpoint ipv6_loop (fuel : nat) (ip : list Z) (ellipsis : option nat) (s : string)
    : option (list Z * option nat * string) :=
  match fuel with
  | O => Some (ip, ellipsis, s)
  | S fuel =>
      let i := length ip in
      match hex_group 0 0 s with
      | None => None
      | Some (acc, off) =>
          if (off =? 0)%nat then None
          else if bool_decide (str_at s off = Some "."%char) then
            if bool_decide (ellipsis = None) && negb (i =? 12)%nat then None
            else if (16 <? i + 4)%nat then None
            else
              ip4 ← parseIPv4 s;
              Some (ip ++ ip4, ellipsis, "")
          else
            let ip := ip ++ [acc / 256; acc mod 256] in
            match str_drop off s with
            | EmptyString => Some (ip, ellipsis, "")
            | String c s =>
                if negb (bool_decide (c = ":"%char)) then None
                else
                  match s with
                  | EmptyString => None
                  | String c' s' =>
                      if bool_decide (c' = ":"%char) then
                        if ellipsis is Some _ then None
                        else if bool_decide (s' = "") then Some (ip, Some (length ip), "")
                        else ipv6_loop fuel ip (Some (length ip)) s'
                      else ipv6_loop fuel ip ellipsis s
                  end
            end
      end
  end.

(** [if i < 16] expand the ellipsis. *)
Definition expand_ellipsis (ip : list Z) (ellipsis : option nat) : option (list Z) :=
  if (length ip <? 16)%nat then
    e ← ellipsis;
    Some (take e ip ++ replicate (16 - length ip) 0 ++ drop e ip)
  else if ellipsis is Some _ then None else Some ip.

(** The text has no zone: [net.ParseIP] refuses an address with one. *)
Definition parseIPv6 (s : string) : option (list Z) :=
  let run ellipsis s :=
    r ← ipv6_loop 8 [] ellipsis s;
    let '(ip, ellipsis, rest) := r in
    if bool_decide (rest = "") then expand_ellipsis ip ellipsis else None in
  match s with
  | String ":" (String ":" s') =>
      if bool_decide (s' = "") then Some (replicate 16 0) else run (Some 0%nat) s'
  | _ => run None s
  end.

(** [netip.ParseAddr] without zones: the first of [.], [:] and [%] decides. *)
Fixpoint address_family (s : string) : option ascii :=
  match s with
  | EmptyString => None
  | String c s =>
      if bool_decide (c ∈ ["."%char; ":"%char; "%"%char]) then Some c
      else address_family s
  end.

Definition ParseIP (s : string) : option (list Z) :=
  match address_family s with
  | Some "."%char => parseIPv4 s
  | Some ":"%char => if Contains s "%" then None else parseIPv6 s
  | _ => None
  end.

(** [net.JoinHostPort] *)
Definition JoinHostPort (host port : string) : string :=
  if Contains host ":" then "[" +:+ host +:+ "]:" +:+ port
  else host +:+ ":" +:+ port.

(** Hosts with a colon are bracketed, so the joined text determines both
    parts when the ports have no colon of their own. *)
Lemma last_colon_inj (s t p q : string) :
  Contains p ":" = false → Contains q ":" = false →
  s +:+ ":" +:+ p = t +:+ ":" +:+ q → s = t ∧ p = q.
Proof.
  assert (∀ a b c, a = b +:+ ":" +:+ c → Contains a ":" = true) as Hin.
  { intros a b c ->. unfold Contains. destruct (Index _ _) eqn:Hi; [done|].
    rewrite Index_None in Hi. by destruct (Hi b c). }
  intros Hp Hq. revert t. induction s as [|c s IH]; intros [|d t] Heq.
  - split; [done|]. by injection Heq.
  - injection Heq as _ Heq. apply (Hin p) in Heq. by rewrite Hp in Heq.
  - injection Heq as _ Heq. symmetry in Heq. apply (Hin q) in Heq. by rewrite Hq in Heq.
  - injection Heq as -> Heq. destruct (IH t Heq) as [-> ->]. done.
Qed.

Lemma JoinHostPort_inj (h h' p p' : string) :
  Contains p ":" = false → Contains p' ":" = false →
  JoinHostPort h p = JoinHostPort h' p' → h = h' ∧ p = p'.
Proof.
  intros Hp Hp'. unfold JoinHostPort.
  assert (∀ x, Contains x ":" = true → Contains ("[" +:+ x +:+ "]") ":" = true) as Hb.
  { intros x. unfold Contains. destruct (Index x ":") eqn:Hx; [intros _|done].
    apply Index_Some in Hx. revert Hx. generalize (str_take n x), (str_drop (n + String.length ":") x).
    intros a b Hx. destruct (Index ("[" +:+ _) ":") eqn:Hi; [done|].
    rewrite Index_None in Hi. destruct (Hi ("[" +:+ a) (b +:+ "]")).
    rewrite Hx, <-(str_app_assoc "[" a), <-(str_app_assoc a). by rewrite <-(str_app_assoc ":"). }
  assert (∀ x y, "[" +:+ x +:+ "]:" +:+ y = ("[" +:+ x +:+ "]") +:+ ":" +:+ y) as Hbr.
  { intros x y. by rewrite <-(str_app_assoc "["), <-(str_app_assoc x). }
  destruct (Contains h ":") eqn:Hh, (Contains h' ":") eqn:Hh'; rewrite ?Hbr; intros Heq;
    apply last_colon_inj in Heq as [Heq ->]; try done.
  - rewrite !str_app_cons, !str_app_nil in Heq. injection Heq as Heq.
    by apply str_app_inv_r in Heq.
  - apply Hb in Hh. rewrite Heq, Hh' in Hh. done.
  - apply Hb in Hh'. rewrite <-Heq, Hh in Hh'. done.
Qed.
