(* ===== verification/MetaTypes.v ===== *)
(** * Types of the metadata service

    [src/internal/metadata/types.go]: the JSON documents of the environment
    metadata service.  A field [F] of the Go type [T] is the projection
    [T_F]. *)

From S2P Require Import Prelude.
From Stdlib Require Import Floats.SpecFloat.

(** A decoded JSON value of the Go type [interface{}]; a number is a
    [float64]. *)
Inductive iface : Type :=
  | INil
  | IBool (b : bool)
  | IFloat (f : spec_float)
  | IString (s : string)
  | ISlice (l : list iface)
  | IMap (l : list (string * iface)).

Record HealthCheck := mkHealthCheck {
  HealthCheck_HealthyThreshold : Z;
  HealthCheck_Interval : Z;
  HealthCheck_Port : Z;
  HealthCheck_RequestLine : string;
  HealthCheck_ResponseTimeout : Z;
  HealthCheck_UnhealthyThreshold : Z;
}.

Record Container := mkContainer {
  Container_Name : string;
  Container_PrimaryIp : string;
  Container_PrimaryMacAddress : string;
  Container_Ips : list string;
  Container_Ports : list string;
  Container_ServiceName : string;
  Container_ServiceIndex : string;
  Container_StackName : string;
  Container_Labels : gmap string string;
  Container_CreateIndex : Z;
  Container_HostUUID : string;
  Container_UUID : string;
  Container_State : string;
  Container_HealthState : string;
  Container_ExternalId : string;
  Container_StartCount : Z;
  Container_MemoryReservation : Z;
  Container_MilliCPUReservation : Z;
  Container_Dns : list string;
  Container_DnsSearch : list string;
  Container_HealthCheckHosts : list string;
  Container_NetworkFromContainerUUID : string;
  Container_NetworkUUID : string;
  Container_Links : gmap string string;
  Container_System : bool;
  Container_EnvironmentUUID : string;
  Container_HealthCheck : HealthCheck;
}.

Record PortRule := mkPortRule {
  PortRule_SourcePort : Z;
  PortRule_Protocol : string;
  PortRule_Path : string;
  PortRule_Hostname : string;
  PortRule_Service : string;
  PortRule_TargetPort : Z;
  PortRule_Priority : Z;
  PortRule_BackendName : string;
  PortRule_Selector : string;
  PortRule_Container : string;
}.

Record LBStickinessPolicy := mkLBStickinessPolicy {
  LBStickinessPolicy_Name : string;
  LBStickinessPolicy_Cookie : string;
  LBStickinessPolicy_Domain : string;
  LBStickinessPolicy_Indirect : bool;
  LBStickinessPolicy_Nocache : bool;
  LBStickinessPolicy_Postonly : bool;
  LBStickinessPolicy_Mode : string;
}.

Record LBConfig := mkLBConfig {
  LBConfig_Certs : list string;
  LBConfig_DefaultCert : string;
  LBConfig_PortRules : list PortRule;
  LBConfig_Config : string;
  LBConfig_StickinessPolicy : LBStickinessPolicy;
}.

Record Service := mkService {
  Service_Scale : Z;
  Service_Name : string;
  Service_StackName : string;
  Service_StackUUID : string;
  Service_Kind : string;
  Service_Hostname : string;
  Service_Vip : string;
  Service_CreateIndex : Z;
  Service_UUID : string;
  Service_ExternalIps : list string;
  Service_Sidekicks : list string;
  Service_Containers : list Container;
  Service_Ports : list string;
  Service_Labels : gmap string string;
  Service_Links : gmap string string;
  Service_Metadata : gmap string iface;
  Service_Token : string;
  Service_Fqdn : string;
  Service_HealthCheck : HealthCheck;
  Service_PrimaryServiceName : string;
  Service_LBConfig : LBConfig;
  Service_EnvironmentUUID : string;
  Service_State : string;
  Service_System : bool;
}.

Record Stack := mkStack {
  Stack_EnvironmentName : string;
  Stack_EnvironmentUUID : string;
  Stack_Name : string;
  Stack_UUID : string;
  Stack_Services : list Service;
  Stack_System : bool;
}.

Record NetworkPolicyRuleBetween := mkNetworkPolicyRuleBetween {
  NetworkPolicyRuleBetween_Selector : string;
  NetworkPolicyRuleBetween_GroupBy : string;
}.

Record NetworkPolicyRuleMember := mkNetworkPolicyRuleMember {
  NetworkPolicyRuleMember_Selector : string;
}.

Record NetworkPolicyRule := mkNetworkPolicyRule {
  NetworkPolicyRule_From : option NetworkPolicyRuleMember;
  NetworkPolicyRule_To : option NetworkPolicyRuleMember;
  NetworkPolicyRule_Ports : list string;
  NetworkPolicyRule_Within : string;
  NetworkPolicyRule_Between : option NetworkPolicyRuleBetween;
  NetworkPolicyRule_Action : string;
}.

Record Network := mkNetwork {
  Network_Name : string;
  Network_UUID : string;
  Network_Metadata : gmap string iface;
  Network_HostPorts : bool;
  Network_Default : bool;
  Network_Policy : list NetworkPolicyRule;
  Network_DefaultPolicyAction : string;
}.

Record Host := mkHost {
  Host_Name : string;
  Host_AgentIP : string;
  Host_HostId : Z;
  Host_Labels : gmap string string;
  Host_UUID : string;
  Host_Hostname : string;
  Host_Memory : Z;
  Host_MilliCPU : Z;
  Host_LocalStorageMb : Z;
  Host_EnvironmentUUID : string;
}.

(** Zero values, as [var host Host] declares them. *)
Definition zeroHealthCheck : HealthCheck := mkHealthCheck 0 0 0 "" 0 0.

Definition zeroHost : Host := mkHost "" "" 0 ∅ "" "" 0 0 0 "".

Definition zeroContainer : Container :=
  mkContainer "" "" "" [] [] "" "" "" ∅ 0 "" "" "" "" "" 0 0 0 [] [] [] "" "" ∅
    false "" zeroHealthCheck.

Definition zeroLBConfig : LBConfig :=
  mkLBConfig [] "" [] "" (mkLBStickinessPolicy "" "" "" false false false "").

Definition zeroService : Service :=
  mkService 0 "" "" "" "" "" "" 0 "" [] [] [] [] ∅ ∅ ∅ "" "" zeroHealthCheck ""
    zeroLBConfig "" "" false.
