(* ===== verification/GoHttp.v ===== *)
(** * Packages net/url, net/http, io, encoding/json and time

    What the program relies on of the packages behind its network calls.  The
    operations that leave the process (performing a request, sleeping, reading
    the clock) and the two large parsers ([url.Parse], [json.Unmarshal]) are
    classes: the model is parametric in them.  The small functions on their
    results ([URL.Hostname], [URL.Port], [io.ReadAll] of a limited reader) are
    definitions. *)

From S2P Require Import Prelude GoStrings.
Local Open Scope Z_scope.

(** ** net/url *)

Record URL := mkURL {
  URL_Scheme : string;
  URL_Opaque : string;
  URL_User : option string;
  URL_Host : string;
  URL_Path : string;
  URL_RawPath : string;
  URL_ForceQuery : bool;
  URL_RawQuery : string;
  URL_Fragment : string;
}.

Class GoURL := {
  url_Parse : string → result URL;
  url_String : URL → string;
}.

(** The position of the last [c] in [s]. *)
Fixpoint LastIndexByte (s : string) (c : ascii) : option nat :=
  match s with
  | EmptyString => None
  | String d s =>
      match LastIndexByte s c with
      | Some n => Some (S n)
      | None => if bool_decide (d = c) then Some O else None
      end
  end.

Definition validOptionalPort (port : string) : bool :=
  match port with
  | EmptyString => true
  | String c port => bool_decide (c = ":"%char) && str_all is_digit port
  end.

Definition splitHostPort (hostPort : string) : string * string :=
  let '(host, port) :=
    match LastIndexByte hostPort ":" with
    | Some colon =>
        if validOptionalPort (str_drop colon hostPort)
        then (str_take colon hostPort, str_drop (S colon) hostPort)
        else (hostPort, "")
    | None => (hostPort, "")
    end in
  if HasPrefix host "[" && HasSuffix host "]"
  then (str_take (String.length host - 2) (str_drop 1 host), port)
  else (host, port).

Definition Hostname (u : URL) : string := fst (splitHostPort (URL_Host u)).
Definition Port (u : URL) : string := snd (splitHostPort (URL_Host u)).

(** ** net/http and io *)

(** A response body: the bytes the server sends and the error that ends the
    transfer, if any. *)
Record Body := mkBody { body_data : string; body_error : option error }.

Record Request := mkRequest {
  req_Method : string;
  req_URL : string;
  req_Header : list (string * string);
  req_Body : option string;
}.

Record Response := mkResponse {
  resp_StatusCode : Z;
  resp_Status : string;
  resp_Body : Body;
}.

(** [io.ReadAll(io.LimitReader(body, n))]: at most [n] bytes; an error that
    comes after [n] bytes is never seen. *)
Definition ReadAllLimited (b : Body) (n : Z) : result string :=
  if Z.of_nat (String.length (body_data b)) <? n then
    match body_error b with
    | Some e => Err e
    | None => Ok (body_data b)
    end
  else Ok (str_take (Z.to_nat n) (body_data b)).

Class Http (W : Type) := {
  (** Does [http.NewRequest] accept this URL? *)
  http_NewRequest : string → result unit;
  (** [client.Do], which does not follow redirects. *)
  http_Do : Request → prog W (result Response);
}.

(** ** encoding/json *)

Class JsonUnmarshal (A : Type) := json_Unmarshal : string → result A.

(** ** time *)

Definition Second : Z := 1000000000.
Definition Minute : Z := 60 * Second.

Class Clock (W : Type) := {
  (** nanoseconds on the monotonic clock *)
  time_Now : prog W Z;
  time_Sleep : Z → prog W unit;
}.

(** ** Properties *)

Lemma ReadAllLimited_length b n s :
  0 ≤ n → ReadAllLimited b n = Ok s → Z.of_nat (String.length s) ≤ n.
Proof.
  intros Hn. unfold ReadAllLimited. destruct (Z.ltb_spec (Z.of_nat (String.length (body_data b))) n).
  - destruct (body_error b); [done|]. intros [= <-]. lia.
  - intros [= <-]. rewrite str_take_length. lia.
Qed.

(** A port is made of digits, so it holds no colon. *)
Lemma validOptionalPort_digits s :
  validOptionalPort s = true → str_all is_digit (str_drop 1 s) = true.
Proof. destruct s; [done|]. simpl. by intros [_ ?]%andb_true_iff. Qed.

Lemma Port_digits (u : URL) : str_all is_digit (Port u) = true.
Proof.
  assert (∀ n s, str_drop (S n) s = str_drop 1 (str_drop n s)) as Hdrop.
  { induction n as [|n IH]; intros [|c s]; try done. simpl. apply IH. }
  unfold Port, splitHostPort. destruct (LastIndexByte _ _) as [n|].
  - destruct (validOptionalPort _) eqn:Hv; [|by destruct (_ && _)].
    apply validOptionalPort_digits in Hv. rewrite <-Hdrop in Hv. by destruct (_ && _).
  - by destruct (_ && _).
Qed.

Lemma digits_no_colon s : str_all is_digit s = true → Contains s ":" = false.
Proof.
  intros Hs. unfold Contains. destruct (Index s ":") eqn:Hi; [|done].
  apply Index_Some in Hi. rewrite Hi, !str_all_app in Hs.
  by apply andb_true_iff in Hs as [_ Hs].
Qed.

(** A body that was read completely. *)
Lemma ReadAllLimited_complete b n s :
  0 ≤ n → ReadAllLimited b (n + 1) = Ok s → Z.of_nat (String.length s) ≤ n →
  s = body_data b ∧ body_error b = None.
Proof.
  intros Hn. unfold ReadAllLimited.
  destruct (Z.ltb_spec (Z.of_nat (String.length (body_data b))) (n + 1)).
  - destruct (body_error b); [done|]. by intros [= <-].
  - intros [= <-]. rewrite str_take_length. lia.
Qed.
