(* ===== verification/GoPath.v ===== *)
(** * Package path/filepath

    The functions that [readSecretFileFromRoot] uses, for Unix paths: the
    elements of a path are the parts between slashes. *)

From S2P Require Import Prelude GoStrings.

Definition slash : ascii := "/".
Definition no_slash (s : string) : bool := str_all (λ c, negb (bool_decide (c = slash))) s.

Definition IsAbs (path : string) : bool := HasPrefix path "/".

(** [filepath.Clean]: one element of the path, with the elements kept so far in
    reverse. *)
Definition clean_step (rooted : bool) (kept : list string) (part : string) : list string :=
  if bool_decide (part = "") || bool_decide (part = ".") then kept
  else if bool_decide (part = "..") then
    match kept with
    | [] => if rooted then [] else [".."]
    | last :: kept' => if bool_decide (last = "..") then ".." :: kept else kept'
    end
  else part :: kept.

Definition clean_parts (path : string) : list string :=
  reverse (foldl (clean_step (IsAbs path)) [] (Split path slash)).

Definition Clean (path : string) : string :=
  if IsAbs path then "/" +:+ Join (clean_parts path) "/"
  else
    match clean_parts path with
    | [] => "."
    | parts => Join parts "/"
    end.

Definition IsLocal (path : string) : bool :=
  if IsAbs path || bool_decide (path = "") then false
  else
    let hasDots := existsb (λ part, bool_decide (part = ".") || bool_decide (part = ".."))
                     (Split path slash) in
    let path := if hasDots then Clean path else path in
    negb (bool_decide (path = "..") || HasPrefix path "../").

(** The elements of a clean path. *)
Definition elements_of (path : string) : list string :=
  filter (λ part, part ≠ "") (Split path slash).

(** What is left of two lists after their common beginning. *)
Fixpoint strip_common (l1 l2 : list string) : list string * list string :=
  match l1, l2 with
  | x :: l1', y :: l2' => if bool_decide (x = y) then strip_common l1' l2' else (l1, l2)
  | _, _ => (l1, l2)
  end.

(** [filepath.Rel] *)
Definition Rel (basepath targpath : string) : result string :=
  let base := Clean basepath in
  let targ := Clean targpath in
  if bool_decide (targ = base) then Ok "."
  else
    let base := if bool_decide (base = ".") then "" else base in
    let failed := Err ("Rel: can't make " +:+ targpath +:+ " relative to " +:+ basepath) in
    if negb (bool_decide (IsAbs base = IsAbs targ)) then failed
    else
      let '(bs, ts) := strip_common (elements_of base) (elements_of targ) in
      match bs with
      | ".." :: _ => failed
      | _ => Ok (Join (replicate (length bs) ".." ++ ts) "/")
      end.

(** ** Properties *)

(** A name of a file or directory. *)
Definition is_name (part : string) : Prop :=
  part ≠ "" ∧ part ≠ "." ∧ part ≠ ".." ∧ no_slash part = true.

Lemma no_slash_cons c s : c ≠ slash → no_slash s = true → no_slash (String c s) = true.
Proof. intros Hc Hs. unfold no_slash in *. simpl. by rewrite bool_decide_eq_false_2. Qed.

Lemma Split_no_slash s : Forall (λ part, no_slash part = true) (Split s slash).
Proof.
  induction s as [|c s IH]; simpl; [by repeat constructor|].
  case_bool_decide as Hc; [by constructor|].
  destruct (Split s slash) as [|w ws].
  - constructor; [by apply no_slash_cons|done].
  - apply list.Forall_cons in IH as [Hw Hws]. constructor; [by apply no_slash_cons|done].
Qed.

Lemma Split_word s : no_slash s = true → Split s slash = [s].
Proof.
  induction s as [|c s IH]; [done|]. unfold no_slash. simpl. intros [Hc Hs]%andb_true_iff.
  apply negb_true_iff in Hc. rewrite Hc. by rewrite IH.
Qed.

Lemma Split_slash s : Split ("/" +:+ s) slash = "" :: Split s slash.
Proof. done. Qed.

Lemma Split_word_app s t :
  no_slash s = true → Split (s +:+ String slash t) slash = s :: Split t slash.
Proof.
  induction s as [|c s IH].
  { intros _. rewrite str_app_nil. done. }
  rewrite str_app_cons. unfold no_slash. simpl. intros [Hc Hs]%andb_true_iff.
  apply negb_true_iff in Hc. rewrite Hc. by rewrite IH.
Qed.

Lemma Split_Join parts :
  parts ≠ [] → Forall (λ part, no_slash part = true) parts → Split (Join parts "/") slash = parts.
Proof.
  intros Hne HF. induction HF as [|p parts Hp HF IH]; [done|].
  destruct parts as [|q parts]; [by apply Split_word|].
  change (Join (p :: q :: parts) "/") with (p +:+ String slash (Join (q :: parts) "/")).
  rewrite Split_word_app by done. by rewrite IH.
Qed.

(** What is kept while cleaning: names, above [..]s if the path is relative. *)
Definition kept_ok (rooted : bool) (kept : list string) : Prop :=
  ∃ names n, kept = names ++ replicate n ".." ∧ Forall is_name names ∧ (rooted = true → n = 0).

Lemma clean_step_ok rooted kept part :
  no_slash part = true → kept_ok rooted kept → kept_ok rooted (clean_step rooted kept part).
Proof.
  intros Hp (names & n & -> & Hnames & Hn). unfold clean_step.
  destruct (decide (part = "" ∨ part = ".")) as [Hd|Hd].
  { rewrite (proj2 (orb_true_iff _ _)) by (rewrite !bool_decide_eq_true; done).
    by exists names, n. }
  rewrite !(bool_decide_eq_false_2 (part = _)) by naive_solver. simpl.
  case_bool_decide as Hdd.
  - destruct names as [|x names]; simpl.
    + destruct n as [|n]; simpl.
      * destruct rooted; [by exists [], 0|]. by exists [], 1.
      * exists [], (S (S n)). split; [done|]. split; [done|]. intros Hr. by specialize (Hn Hr).
    + apply list.Forall_cons in Hnames as [Hx Hnames].
      rewrite bool_decide_eq_false_2 by apply Hx. by exists names, n.
  - exists (part :: names), n. split; [done|]. split; [|done]. constructor; [|done].
    unfold is_name. naive_solver.
Qed.

Lemma clean_parts_ok path :
  ∃ n names, clean_parts path = replicate n ".." ++ names ∧ Forall is_name names ∧
    (IsAbs path = true → n = 0).
Proof.
  assert (kept_ok (IsAbs path) (foldl (clean_step (IsAbs path)) [] (Split path slash))) as Hk.
  { pose proof (Split_no_slash path) as HF.
    assert (kept_ok (IsAbs path) []) as H0 by (by exists [], 0).
    revert H0. generalize (@nil string) as kept.
    induction HF as [|p parts Hp HF IH]; intros kept Hk; [done|]. simpl.
    apply IH. by apply clean_step_ok. }
  destruct Hk as (names & n & Hk & Hnames & Hn). exists n, (reverse names).
  unfold clean_parts. rewrite Hk, reverse_app, reverse_replicate. split; [done|].
  split; [by apply list.Forall_reverse|done].
Qed.

Lemma clean_names rooted names kept :
  Forall is_name names → foldl (clean_step rooted) kept names = reverse names ++ kept.
Proof.
  intros Hnames. revert kept. induction Hnames as [|x names Hx Hnames IH]; intros kept; [done|].
  assert (clean_step rooted kept x = x :: kept) as Hstep.
  { destruct Hx as (He & Hd & Hdd & _). unfold clean_step. by rewrite !bool_decide_eq_false_2. }
  cbn [foldl]. by rewrite Hstep, IH, reverse_cons, <-app_assoc.
Qed.

(** Clean elements stay as they are. *)
Lemma clean_again n names :
  Forall is_name names →
  reverse (foldl (clean_step false) [] (replicate n ".." ++ names)) = replicate n ".." ++ names.
Proof.
  intros Hnames. rewrite foldl_app.
  assert (∀ k, foldl (clean_step false) (replicate k "..") (replicate n "..")
    = replicate (n + k) "..") as Hup.
  { induction n as [|n IH]; intros k; [done|]. cbn [replicate foldl].
    assert (clean_step false (replicate k "..") ".." = replicate (S k) "..") as -> by (by destruct k).
    rewrite IH. by rewrite Nat.add_succ_r. }
  specialize (Hup 0). cbn [replicate] in Hup. rewrite Hup, Nat.add_0_r.
  rewrite clean_names by done.
  by rewrite reverse_app, reverse_involutive, reverse_replicate.
Qed.

Lemma dotdot_no_slash n names :
  Forall is_name names → Forall (λ part, no_slash part = true) (replicate n ".." ++ names).
Proof.
  intros Hnames. apply list.Forall_app. split.
  - by apply list.Forall_replicate.
  - eapply list.Forall_impl; [exact Hnames|]. by intros x (_ & _ & _ & ?).
Qed.

(** A local path of clean elements does not go up. *)
Lemma IsLocal_names n names path :
  Forall is_name names → path = Join (replicate n ".." ++ names) "/" → IsLocal path = true →
  Split path slash = names ∧ names ≠ [].
Proof.
  intros Hnames Hpath Hlocal. unfold IsLocal in Hlocal.
  destruct (IsAbs path) eqn:Habs; [done|].
  destruct (decide (path = "")) as [|Hne]; [by rewrite bool_decide_eq_true_2 in Hlocal|].
  rewrite (bool_decide_eq_false_2 (path = "")) in Hlocal by done. cbn [orb] in Hlocal.
  assert (replicate n ".." ++ names ≠ []) as Hparts by (intros Hnil; rewrite Hnil in Hpath; done).
  assert (Split path slash = replicate n ".." ++ names) as Hsplit.
  { rewrite Hpath. apply Split_Join; [done|]. by apply dotdot_no_slash. }
  rewrite Hsplit in *. destruct n as [|n]; [done|]. exfalso.
  assert (Clean path = path) as Hclean.
  { unfold Clean. rewrite Habs. unfold clean_parts. rewrite Habs, Hsplit, clean_again by done.
    rewrite Hpath. by destruct (replicate _ _ ++ _). }
  assert (existsb (λ part, bool_decide (part = ".") || bool_decide (part = ".."))
    (replicate (S n) ".." ++ names) = true) as Hdots by done.
  rewrite Hdots, Hclean in Hlocal.
  apply negb_true_iff, orb_false_iff in Hlocal as [Hdd Hpre].
  apply bool_decide_eq_false in Hdd. cbn [replicate app] in Hpath.
  destruct (replicate n ".." ++ names) as [|q parts]; [by apply Hdd|].
  change (Join (".." :: q :: parts) "/") with ("../" +:+ Join (q :: parts) "/") in Hpath.
  by rewrite Hpath, HasPrefix_app in Hpre.
Qed.

Lemma elements_of_Clean path :
  IsAbs path = true → elements_of (Clean path) = clean_parts path ∧ Forall is_name (clean_parts path).
Proof.
  intros Habs. destruct (clean_parts_ok path) as (n & names & Hc & Hnames & Hn).
  rewrite (Hn Habs) in Hc. simpl in Hc. rewrite Hc. split; [|done].
  unfold elements_of, Clean. rewrite Habs, Hc, Split_slash, filter_cons, decide_False by naive_solver.
  destruct names as [|x names]; [done|]. rewrite Split_Join; [|done|].
  - apply filter_all. eapply list.Forall_impl; [exact Hnames|]. by intros y (? & _).
  - exact (dotdot_no_slash 0 _ Hnames).
Qed.

Lemma Clean_abs path : IsAbs path = true → IsAbs (Clean path) = true.
Proof. intros Habs. unfold Clean. rewrite Habs. apply (HasPrefix_app "/"). Qed.

Lemma Clean_Clean path : IsAbs path = true → Clean (Clean path) = Clean path.
Proof.
  intros Habs. destruct (elements_of_Clean path Habs) as [He Hnames].
  pose proof (Clean_abs path Habs) as Habs'.
  unfold Clean at 1. rewrite Habs'. unfold Clean at 2. rewrite Habs. do 2 f_equal.
  unfold clean_parts at 1. rewrite Habs'. unfold Clean. rewrite Habs, Split_slash.
  cbn [foldl]. change (clean_step true [] "") with (@nil string).
  destruct (clean_parts path) as [|x names] eqn:Hp; [done|].
  rewrite Split_Join; [|done|exact (dotdot_no_slash 0 _ Hnames)].
  by rewrite clean_names, app_nil_r, reverse_involutive.
Qed.

Lemma strip_common_spec l1 l2 l1' l2' :
  strip_common l1 l2 = (l1', l2') → ∃ l, l1 = l ++ l1' ∧ l2 = l ++ l2'.
Proof.
  revert l2. induction l1 as [|x l1 IH]; intros l2; [intros [= <- <-]; by exists []|].
  destruct l2 as [|y l2]; [intros [= <- <-]; by exists []|]. simpl.
  case_bool_decide as Hxy; [|intros [= <- <-]; by exists []].
  intros (l & -> & ->)%IH. subst y. by exists (x :: l).
Qed.

Lemma Join_app l1 l2 :
  l1 ≠ [] → l2 ≠ [] → Join (l1 ++ l2) "/" = Join l1 "/" +:+ "/" +:+ Join l2 "/".
Proof.
  intros H1 H2. induction l1 as [|x l1 IH]; [done|]. destruct l1 as [|y l1].
  - by destruct l2.
  - change (Join ((x :: y :: l1) ++ l2) "/") with (x +:+ "/" +:+ Join ((y :: l1) ++ l2) "/").
    change (Join (x :: y :: l1) "/") with (x +:+ "/" +:+ Join (y :: l1) "/").
    rewrite IH by done. by rewrite <-!(assoc_L String.append).
Qed.
