(* ===== verification/Samples.v ===== *)
(** * Concrete parameters

    The classes that stand for packages outside the repository, instantiated
    by small concrete functions.  They are used only to evaluate the model on
    concrete inputs: no theorem is about them. *)

From S2P Require Import Prelude GoStrings GoHttp MetaTypes.
Local Open Scope Z_scope.

Module Samples.

(** Case mapping and quoting beyond ASCII, left alone. *)
Definition ascii_unicode : GoUnicode := {|
  unicode_to_lower := id;
  unicode_quote := id;
|}.

(** A clock that stands still, in any world. *)
Definition frozen_clock W : Clock W := {|
  time_Now := mret 0;
  time_Sleep := λ _, mret tt;
|}.

(** A container that serves [port] on the host [host]. *)
Definition container (service stack host state : string) (ports : list string) : Container :=
  mkContainer (service +:+ "-1") "" "" [] ports service "" stack ∅ 0 host "" state "healthy" ""
    0 0 0 [] [] [] "" "" ∅ false "" zeroHealthCheck.

Definition service (name stack : string) (labels : gmap string string)
    (containers : list Container) : Service :=
  mkService 1 name stack "" "service" "" "" 0 "" [] [] containers [] labels ∅ ∅ "" ""
    zeroHealthCheck "" zeroLBConfig "" "active" false.

Definition host (uuid ip : string) (labels : gmap string string) : Host :=
  mkHost uuid ip 0 labels uuid uuid 0 0 0 "".

Definition stack (environment uuid : string) : Stack :=
  mkStack environment uuid "" "" [] false.

(** A network that answers a request by a function of it. *)
Definition fixed_http W (answer : Request → result Response) : Http W := {|
  http_NewRequest := λ _, Ok tt;
  http_Do := λ req, mret (answer req);
|}.

(** Documents that all decode to the same value, and one-element lists. *)
Definition fixed_json {A} (a : A) : JsonUnmarshal A := λ _, Ok a.
Definition singleton_json A (J : JsonUnmarshal A) : JsonUnmarshal (list A) :=
  λ s, match J s with Ok a => Ok [a] | Err e => Err e end.

(** Identifiers that are not in use. *)
Definition fresh_name (ids : list string) : string := String "x" (foldr (λ id acc, id +:+ acc) "" ids).
Definition fresh_number (ids : list Z) : Z := 1 + foldr Z.max 0 ids.

Lemma fresh_name_fresh ids : fresh_name ids ∉ ids.
Proof.
  assert (∀ s, s ∈ ids → (String.length s ≤ String.length (foldr (λ id acc, id +:+ acc) "" ids))%nat) as Hle.
  { intros s Hs. induction ids as [|id ids IH]; [set_solver|].
    cbn [foldr]. rewrite str_length_app. apply elem_of_cons in Hs as [->|Hs]; [lia|].
    specialize (IH Hs). lia. }
  intros Hin. apply Hle in Hin. unfold fresh_name in Hin. simpl in Hin. lia.
Qed.

Lemma fresh_number_fresh ids : fresh_number ids ∉ ids.
Proof.
  assert (∀ n, n ∈ ids → n ≤ foldr Z.max 0 ids) as Hle.
  { intros n Hn. induction ids as [|id ids IH]; [set_solver|]. simpl.
    apply elem_of_cons in Hn as [->|Hn]; [lia|]. specialize (IH Hn). lia. }
  intros Hin%Hle. unfold fresh_number in Hin. lia.
Qed.

Lemma fresh_number_pos ids : 0 < fresh_number ids.
Proof. unfold fresh_number. assert (0 ≤ foldr Z.max 0 ids); [|lia]. induction ids; simpl; lia. Qed.
End Samples.
