(* ===== verification/MetaClient.v ===== *)
(** * The metadata service client

    [src/internal/metadata/metadata.go] and [utils.go]: the [Client] interface
    of the metadata service, its HTTP implementation [client], and the wait for
    the service at start-up. *)

From S2P Require Import Prelude GoStrings GoStrconv GoHttp MetaTypes Samples.
Local Open Scope Z_scope.

(** ** The interface

    The operations the rest of the program calls on a metadata service reached
    from a world [W]. *)
Class Client (W : Type) := {
  GetVersion : prog W (result string);
  GetSelfStack : prog W (result Stack);
  GetServices : prog W (result (list Service));
  GetHost : string → prog W (result Host);
}.

(** ** The HTTP client *)

Definition maxResponseSize : Z := 4 * 2 ^ 20.

Record client := mkClient { client_url : string; client_ip : string }.

Definition newClient (url ip : string) : client := mkClient (TrimRight url "/") ip.

Definition NewClient (url : string) : client :=
  let ip := "" in
  newClient url ip.

Section http_client.
Context {W : Type} `{Http W} `{Clock W}.
Context `{JsonUnmarshal Host} `{JsonUnmarshal Container} `{JsonUnmarshal Service}
  `{JsonUnmarshal Stack} `{JsonUnmarshal Network} `{JsonUnmarshal string}.
Context `{∀ A, JsonUnmarshal A → JsonUnmarshal (list A)}.

Definition SendRequest (m : client) (path : string) : prog W (result string) :=
  match http_NewRequest (client_url m +:+ path) with
  | Err err => mret (Err ("create metadata request: " +:+ err))
  | Ok _ =>
      let req := mkRequest "GET" (client_url m +:+ path)
        (("Accept", "application/json") ::
         (if negb (bool_decide (client_ip m = "")) then [("X-Forwarded-For", client_ip m)]
          else [])) None in
      let! resp := http_Do req in
      if negb (resp_StatusCode resp =? 200) then
        mret (Err ("Error " +:+ FormatInt (resp_StatusCode resp) +:+ " accessing "
                   +:+ path +:+ " path"))
      else
        match ReadAllLimited (resp_Body resp) (maxResponseSize + 1) with
        | Err err => mret (Err err)
        | Ok body =>
            if maxResponseSize <? Z.of_nat (String.length body) then
              mret (Err ("metadata response exceeds " +:+ FormatInt maxResponseSize
                         +:+ " bytes"))
            else mret (Ok body)
        end
  end.

(** The shape shared by the getters: request, then decode. *)
Definition get_json {A} `{JsonUnmarshal A} (m : client) (path : string)
    : prog W (result A) :=
  let! resp := SendRequest m path in
  mret (json_Unmarshal resp).

Definition client_GetVersion (m : client) : prog W (result string) :=
  let! resp := SendRequest m "/version" in
  mret (Ok resp).

Definition GetSelfHost (m : client) : prog W (result Host) := get_json m "/self/host".

Definition GetSelfContainer (m : client) : prog W (result Container) :=
  get_json m "/self/container".

Definition GetSelfServiceByName (m : client) (name : string) : prog W (result Service) :=
  get_json m ("/self/stack/services/" +:+ name).

Definition GetSelfService (m : client) : prog W (result Service) :=
  get_json m "/self/service".

Definition client_GetSelfStack (m : client) : prog W (result Stack) :=
  get_json m "/self/stack".

Definition client_GetServices (m : client) : prog W (result (list Service)) :=
  get_json m "/services".

Definition GetStacks (m : client) : prog W (result (list Stack)) := get_json m "/stacks".

Definition GetContainers (m : client) : prog W (result (list Container)) :=
  get_json m "/containers".

Definition GetServiceContainers (m : client) (serviceName stackName : string)
    : prog W (result (list Container)) :=
  let! containers := GetContainers m in
  mret (Ok (filter (λ c, Container_StackName c = stackName ∧
                         Container_ServiceName c = serviceName) containers)).

Definition GetHosts (m : client) : prog W (result (list Host)) := get_json m "/hosts".

(** The first host with the identifier. *)
Fixpoint find_host (hosts : list Host) (UUID : string) : option Host :=
  match hosts with
  | [] => None
  | host :: hosts =>
      if bool_decide (Host_UUID host = UUID) then Some host else find_host hosts UUID
  end.

Definition client_GetHost (m : client) (UUID : string) : prog W (result Host) :=
  let! hosts := GetHosts m in
  match find_host hosts UUID with
  | Some host => mret (Ok host)
  | None => mret (Err ("could not find host by UUID " +:+ UUID))
  end.

Definition GetNetworks (m : client) : prog W (result (list Network)) :=
  get_json m "/networks".

(** [client] implements the interface. *)
Definition client_Client (m : client) : Client W := {|
  GetVersion := client_GetVersion m;
  GetSelfStack := client_GetSelfStack m;
  GetServices := client_GetServices m;
  GetHost := client_GetHost m;
|}.
End http_client.

(** ** Waiting for the service *)

(** [for i := first; i < maxTime; i *= 2]: call, and sleep [i] after a
    failure; the last error is returned when the time is used up.  [fuel]
    bounds the number of doublings. *)
Fixpoint backoff {W A} `{Clock W} (fuel : nat) (call : prog W (result A))
    (i maxTime : Z) (last : error) : prog W (result A) :=
  match fuel with
  | O => mret (Err last)
  | S fuel =>
      if i <? maxTime then
        r ← call;
        match r with
        | Err err => time_Sleep i;; backoff fuel call (i * 2) maxTime err
        | Ok a => mret (Ok a)
        end
      else mret (Err last)
  end.

(** Enough for any [int64] number of nanoseconds. *)
Definition backoff_fuel : nat := 64.

Section construction.
Context {W : Type} `{Clock W} `{GoURL}.

(** [testConnection] *)
Definition testConnection (mdClient : Client W) : prog W (result unit) :=
  let maxTime := 20 * Second in
  let! _ := backoff backoff_fuel GetVersion (1 * Second) maxTime "" in
  mret (Ok tt).

Definition validateBaseURL (rawURL : string) : result unit :=
  match url_Parse rawURL with
  | Err err => Err ("parse metadata URL: " +:+ err)
  | Ok parsed =>
      if negb (bool_decide (URL_Scheme parsed = "http")) &&
         negb (bool_decide (URL_Scheme parsed = "https")) then
        Err "metadata URL must use http or https"
      else if bool_decide (URL_Host parsed = "") then
        Err "metadata URL must include a host"
      else if negb (bool_decide (URL_User parsed = None)) ||
              negb (bool_decide (URL_RawQuery parsed = "")) ||
              negb (bool_decide (URL_Fragment parsed = "")) then
        Err "metadata URL must not contain user information, a query, or a fragment"
      else Ok tt
  end.

Context `{Http W}.
Context `{JsonUnmarshal Host} `{JsonUnmarshal Service} `{JsonUnmarshal Stack}.
Context `{∀ A, JsonUnmarshal A → JsonUnmarshal (list A)}.

Definition NewClientWithIPAndWait (url ip : string) : prog W (result client) :=
  match validateBaseURL url with
  | Err err => mret (Err err)
  | Ok _ =>
      let client := newClient url ip in
      let! _ := testConnection (client_Client client) in
      mret (Ok client)
  end.

Definition NewClientAndWait (url : string) : prog W (result client) :=
  NewClientWithIPAndWait url "".
End construction.

(** ** Properties *)

(** The loop over an explicit list of delays. *)
Fixpoint retry {W A} `{Clock W} (call : prog W (result A)) (delays : list Z)
    (last : error) : prog W (result A) :=
  match delays with
  | [] => mret (Err last)
  | d :: delays =>
      r ← call;
      match r with
      | Err err => time_Sleep d;; retry call delays err
      | Ok a => mret (Ok a)
      end
  end.

(** The delays of a loop that starts at [i]. *)
Fixpoint delays_from (fuel : nat) (i maxTime : Z) : list Z :=
  match fuel with
  | O => []
  | S fuel => if i <? maxTime then i :: delays_from fuel (i * 2) maxTime else []
  end.

Lemma backoff_retry {W A} `{Clock W} fuel (call : prog W (result A)) i maxTime last w :
  backoff fuel call i maxTime last w = retry call (delays_from fuel i maxTime) last w.
Proof.
  revert i last w. induction fuel as [|fuel IH]; intros i last w; simpl; [done|].
  destruct (i <? maxTime); [|done]. apply prog_bind_ext. intros [a|err] w'; [done|].
  apply prog_bind_ext. intros _ w''. apply IH.
Qed.

Lemma delays_from_fuel fuel1 fuel2 i maxTime :
  0 < i → maxTime ≤ i * 2 ^ Z.of_nat fuel1 → maxTime ≤ i * 2 ^ Z.of_nat fuel2 →
  delays_from fuel1 i maxTime = delays_from fuel2 i maxTime.
Proof.
  revert fuel2 i. induction fuel1 as [|fuel1 IH]; intros [|fuel2] i Hi H1 H2; simpl; try done.
  - destruct (Z.ltb_spec i maxTime); [|done]. simpl in H1. lia.
  - destruct (Z.ltb_spec i maxTime); [|done]. simpl in H2. lia.
  - rewrite !Nat2Z.inj_succ, !Z.pow_succ_r in * by lia.
    rewrite (IH fuel2); [done|lia..].
Qed.

(** [C28] Waiting for the metadata service is bounded, and the bound does not
    come from the fuel: at start-up the version is requested at most five
    times, with pauses of 1, 2, 4, 8 and 16 seconds after failures; the first
    answer ends the wait and the last error is the one reported. *)
Theorem testConnection_attempts {W} `{Clock W} (mdClient : Client W) (w : W) :
  testConnection mdClient w =
  (let! _ := retry GetVersion [1 * Second; 2 * Second; 4 * Second; 8 * Second; 16 * Second] ""
   in mret (Ok tt)) w ∧
  (∀ fuel last, (5 ≤ fuel)%nat →
     backoff fuel (GetVersion (Client:=mdClient)) (1 * Second) (20 * Second) last w =
     retry GetVersion [1 * Second; 2 * Second; 4 * Second; 8 * Second; 16 * Second] last w).
Proof.
  assert (∀ fuel, (5 ≤ fuel)%nat → delays_from fuel (1 * Second) (20 * Second) =
    [1 * Second; 2 * Second; 4 * Second; 8 * Second; 16 * Second]) as Hd.
  { intros fuel Hf. rewrite (delays_from_fuel fuel 5); [done..| |done].
    transitivity (1 * Second * 2 ^ 5); [done|].
    apply Z.mul_le_mono_nonneg_l; [done|]. apply Z.pow_le_mono_r; lia. }
  split.
  - unfold testConnection. rewrite !try_bind_eq, backoff_retry, Hd; [done|].
    unfold backoff_fuel. lia.
  - intros fuel last Hf. by rewrite backoff_retry, Hd.
Qed.

Section facts.
Context {W : Type} `{Http W}.
Context `{JsonUnmarshal Host} `{JsonUnmarshal Service} `{JsonUnmarshal Stack}.
Context `{∀ A, JsonUnmarshal A → JsonUnmarshal (list A)}.

(** [C29] A metadata response is used only if its status is 200 and its body
    has at most 4 MiB; every request is a GET below the base URL that asks for
    JSON; and no request is made when the URL is refused. *)
Theorem SendRequest_spec (m : client) (path : string) (w w' : W) (r : result string) :
  SendRequest m path w = (Returns r, w') →
  match r with
  | Ok body =>
      Z.of_nat (String.length body) ≤ maxResponseSize ∧
      ∃ req resp, http_Do req w = (Returns (Ok resp), w') ∧
        req_Method req = "GET" ∧ req_URL req = client_url m +:+ path ∧
        ("Accept", "application/json") ∈ req_Header req ∧
        resp_StatusCode resp = 200 ∧ body = body_data (resp_Body resp) ∧
        body_error (resp_Body resp) = None
  | Err _ =>
      (w' = w ∧ ∃ e, http_NewRequest (client_url m +:+ path) = Err e) ∨
      (∃ req resp, http_Do req w = (Returns resp, w') ∧
         req_URL req = client_url m +:+ path)
  end.
Proof.
  unfold SendRequest. destruct (http_NewRequest _) as [u|e] eqn:Hn.
  2:{ intros [= <- <-]. left. eauto. }
  rewrite try_bind_eq. set (req := mkRequest _ _ _ _).
  destruct (http_Do req w) as [[[resp|e]| |] w1] eqn:Hdo; try done.
  2:{ intros [= <- <-]. right. by eexists req, _. }
  destruct (Z.eqb_spec (resp_StatusCode resp) 200) as [Hst|]; simpl.
  2:{ intros [= <- <-]. right. by eexists req, _. }
  unfold ReadAllLimited. set (data := body_data (resp_Body resp)).
  destruct (Z.ltb_spec (Z.of_nat (String.length data)) (maxResponseSize + 1)) as [Hlt|Hge].
  - destruct (body_error (resp_Body resp)) eqn:He.
    { intros [= <- <-]. right. by eexists req, _. }
    destruct (Z.ltb_spec maxResponseSize (Z.of_nat (String.length data))); [lia|].
    intros [= <- <-]. split; [lia|]. exists req, resp. set_solver.
  - rewrite str_take_length.
    destruct (Z.ltb_spec maxResponseSize
      (Z.of_nat (Z.to_nat (maxResponseSize + 1) `min` String.length data))) as [|Hle].
    + intros [= <- <-]. right. by eexists req, _.
    + rewrite Nat2Z.inj_min, Z2Nat.id in Hle by done. lia.
Qed.

(** Looking up a host asks for the list of hosts and returns the first
    one with the identifier; it fails if the list cannot be read or has no such
    host, and never returns a host with another identifier. *)
Lemma client_GetHost_spec (m : client) (UUID : string) (w w' : W) (r : result Host) :
  client_GetHost m UUID w = (Returns r, w') →
  match r with
  | Ok host =>
      Host_UUID host = UUID ∧
      ∃ before after, GetHosts m w = (Returns (Ok (before ++ host :: after)), w') ∧
        Forall (λ h, Host_UUID h ≠ UUID) before
  | Err _ =>
      (∃ e, GetHosts m w = (Returns (Err e), w')) ∨
      (∃ hosts, GetHosts m w = (Returns (Ok hosts), w') ∧
         Forall (λ h, Host_UUID h ≠ UUID) hosts)
  end.
Proof.
  unfold client_GetHost. rewrite try_bind_eq.
  destruct (GetHosts m w) as [[[hosts|e]| |] w1]; try done; [|intros [= <- <-]; eauto].
  assert (match find_host hosts UUID with
    | Some h => Host_UUID h = UUID ∧ ∃ before after, hosts = before ++ h :: after ∧
                  Forall (λ h, Host_UUID h ≠ UUID) before
    | None => Forall (λ h, Host_UUID h ≠ UUID) hosts
    end) as Hfind.
  { induction hosts as [|h hosts IH]; simpl; [constructor|]. case_bool_decide.
    - split; [done|]. by exists [], hosts.
    - destruct (find_host hosts UUID); [|by constructor].
      destruct IH as (? & before & after & -> & ?). split; [done|].
      exists (h :: before), after. split; [done|]. by constructor. }
  destruct (find_host hosts UUID) as [h|]; intros [= <- <-]; [|by eauto].
  destruct Hfind as (? & before & after & -> & ?). eauto.
Qed.
End facts.

(** ** A metadata service with one host *)
Module Example_service.

Definition http : Http unit :=
  Samples.fixed_http unit (λ req,
    if bool_decide (req_URL req = "http://metadata/latest/hosts")
    then Ok (mkResponse 200 "200 OK" (mkBody "[]" None))
    else Ok (mkResponse 404 "404 Not Found" (mkBody "" None))).
Definition host : JsonUnmarshal Host := Samples.fixed_json (Samples.host "h1" "198.51.100.1" ∅).
Definition lists : ∀ A, JsonUnmarshal A → JsonUnmarshal (list A) := Samples.singleton_json.
Existing Instances http host lists.

Definition m : client := newClient "http://metadata/latest/" "".

Lemma SendRequest_spec_witness :
  SendRequest m "/hosts" tt = (Returns (Ok "[]"), tt) ∧
  Z.of_nat (String.length "[]") ≤ maxResponseSize.
Proof.
  assert (SendRequest m "/hosts" tt = (Returns (Ok "[]"), tt)) as Hr by (vm_compute; reflexivity).
  split; [exact Hr|]. apply (SendRequest_spec m "/hosts" tt tt (Ok "[]") Hr).
Defined.

Lemma client_GetHost_spec_witness :
  client_GetHost m "h1" tt = (Returns (Ok (Samples.host "h1" "198.51.100.1" ∅)), tt) ∧
  Host_UUID (Samples.host "h1" "198.51.100.1" ∅) = "h1".
Proof.
  assert (client_GetHost m "h1" tt =
    (Returns (Ok (Samples.host "h1" "198.51.100.1" ∅)), tt)) as Hr by (vm_compute; reflexivity).
  split; [exact Hr|].
  apply (client_GetHost_spec m "h1" tt tt (Ok (Samples.host "h1" "198.51.100.1" ∅)) Hr).
Defined.
End Example_service.
