(* ===== verification/MetaChange.v ===== *)
(** * Waiting for changes of the metadata

    [src/internal/metadata/change.go]: the long poll for the version of the
    metadata, and the callback it calls for every change.  The loops have no
    bound of their own; the model runs [fuel] rounds and returns [None] when a
    loop is still running. *)

From S2P Require Import Prelude GoStrings GoStrconv GoHttp MetaTypes Samples MetaClient.
Local Open Scope Z_scope.

Section change.
Context {W : Type} `{Http W} `{Clock W} `{JsonUnmarshal (option string)}.
(** [err.(timeout)] and [t.Timeout()] *)
Context (is_timeout : error → bool).

(** [json.Unmarshal(resp, &version)]; the document [null] leaves the variable
    alone. *)
Definition decode_version (resp version : string) : result string :=
  match json_Unmarshal resp with
  | Ok v => Ok (default version v)
  | Err err => Err err
  end.

Fixpoint waitVersion (fuel : nat) (m : client) (maxWait : Z) (version : string)
    : prog W (option (result string)) :=
  match fuel with
  | O => mret None
  | S fuel =>
      r ← SendRequest m ("/version?wait=true&value=" +:+ version +:+ "&maxWait="
                         +:+ FormatInt maxWait);
      match r with
      | Err err => if is_timeout err then waitVersion fuel m maxWait version
                   else mret (Some (Err err))
      | Ok resp => mret (Some (decode_version resp version))
      end
  end.

Fixpoint onChangeFromVersionWithError (fuel : nat) (m : client) (version : string)
    (intervalSeconds : Z) (do_ : string → prog W unit) : prog W (option error) :=
  match fuel with
  | O => mret None
  | S fuel =>
      r ← waitVersion fuel m intervalSeconds version;
      match r with
      | None => mret None
      | Some (Err err) => mret (Some err)
      | Some (Ok newVersion) =>
          if bool_decide (version = newVersion) then
            onChangeFromVersionWithError fuel m version intervalSeconds do_
          else
            do_ newVersion;;
            onChangeFromVersionWithError fuel m newVersion intervalSeconds do_
      end
  end.

Definition OnChangeWithError (fuel : nat) (m : client) (intervalSeconds : Z)
    (do_ : string → prog W unit) : prog W (option error) :=
  onChangeFromVersionWithError fuel m "init" intervalSeconds do_.
End change.

(** [OnChange] keeps a variable [version] that its closure assigns. *)
Section resume.
Context {W : Type} `{Http W} `{Clock W} `{JsonUnmarshal (option string)}.
Context (is_timeout : error → bool) (fuel : nat) (m : client) (intervalSeconds : Z)
  (do_ : string → prog W unit).

#[local] Instance captured_Http : Http (string * W) := {|
  http_NewRequest := http_NewRequest;
  http_Do req := outer (http_Do req);
|}.

Definition updateVersionAndDo (v : string) : prog (string * W) unit :=
  modify_state (λ _, v);;
  version ← get_state;
  outer (do_ version).

(** The first [rounds] iterations of the loop. *)
Fixpoint OnChange_loop (rounds : nat) : prog (string * W) unit :=
  match rounds with
  | O => mret tt
  | S rounds =>
      version ← get_state;
      r ← onChangeFromVersionWithError is_timeout fuel m version intervalSeconds updateVersionAndDo;
      match r with
      | None => mret tt
      | Some _ =>
          outer (time_Sleep (intervalSeconds * Second));;
          OnChange_loop rounds
      end
  end.

Definition OnChange (rounds : nat) : prog W unit := λ w,
  let '(r, (_, w')) := OnChange_loop rounds ("init", w) in (r, w').
End resume.

(** ** Specification

    What the watcher makes of the answers of the service: a complete answer
    with status 200 of at most 4 MiB that decodes to a version makes that
    version the current one; anything else leaves the version alone. *)
Section specification.
Context `{JsonUnmarshal (option string)}.

Definition answer (x : result Response) : option string :=
  match x with
  | Ok (mkResponse code _ (mkBody data None)) =>
      if (code =? 200) && (Z.of_nat (String.length data) <=? maxResponseSize) then Some data
      else None
  | _ => None
  end.

Definition next (version : string) (x : result Response) : string :=
  match answer x with
  | Some data => match json_Unmarshal data with Ok (Some v) => v | _ => version end
  | None => version
  end.

(** The polls: each asks for what follows the version current at the time. *)
Fixpoint asks (version : string) (answers : list (result Response))
    : list (string * result Response) :=
  match answers with
  | [] => []
  | x :: answers => (version, x) :: asks (next version x) answers
  end.

(** The versions to report: every one that differs from the current one. *)
Fixpoint tracks (version : string) (answers : list (result Response)) : list string :=
  match answers with
  | [] => []
  | x :: answers =>
      if bool_decide (next version x = version) then tracks version answers
      else next version x :: tracks (next version x) answers
  end.

Definition current (version : string) (answers : list (result Response)) : string :=
  foldl next version answers.

Lemma asks_app version l1 l2 :
  asks version (l1 ++ l2) = asks version l1 ++ asks (current version l1) l2.
Proof. revert version. induction l1 as [|x l1 IH]; intros version; [done|]. simpl. by rewrite IH. Qed.

Lemma tracks_app version l1 l2 :
  tracks version (l1 ++ l2) = tracks version l1 ++ tracks (current version l1) l2.
Proof.
  revert version. induction l1 as [|x l1 IH]; intros version; [done|]. simpl. rewrite !IH.
  by case_bool_decide as Hx; [rewrite Hx|].
Qed.

(** Each version differs from the one before. *)
Fixpoint changes (v : string) (l : list string) : Prop :=
  match l with
  | [] => True
  | v' :: l => v' ≠ v ∧ changes v' l
  end.

Lemma tracks_changes version answers : changes version (tracks version answers).
Proof.
  revert version. induction answers as [|x l IH]; intros version; [done|]. simpl.
  case_bool_decide; [apply IH|by split; [|apply IH]].
Qed.
End specification.

(** [ReadAllLimited] with one byte more than the limit finds the bodies that
    [answer] accepts. *)
Lemma ReadAllLimited_answer b :
  match ReadAllLimited b (maxResponseSize + 1) with
  | Ok data => if maxResponseSize <? Z.of_nat (String.length data) then None else Some data
  | Err _ => None
  end = answer (Ok (mkResponse 200 "" b)).
Proof.
  destruct b as [data e]. unfold ReadAllLimited, answer. simpl body_data. simpl body_error.
  destruct (Z.ltb_spec (Z.of_nat (String.length data)) (maxResponseSize + 1)).
  - destruct e; [done|]. destruct (Z.ltb_spec maxResponseSize (Z.of_nat (String.length data))),
      (Z.leb_spec (Z.of_nat (String.length data)) maxResponseSize); done || lia.
  - rewrite str_take_length, (proj2 (Z.ltb_lt _ _)) by (unfold maxResponseSize in *; lia).
    destruct e; [done|]. destruct (Z.leb_spec (Z.of_nat (String.length data)) maxResponseSize);
      [lia|done].
Qed.

(** ** Properties *)

Section reports.
Context {W : Type} `{Http W} `{Clock W} `{JsonUnmarshal (option string)}.
Context (is_timeout : error → bool) (m : client) (intervalSeconds : Z)
  (do_ : string → prog W unit).

(** A request for the version that follows [version]. *)
Definition version_request (version : string) : Request :=
  let url := client_url m +:+ "/version?wait=true&value=" +:+ version +:+ "&maxWait="
             +:+ FormatInt intervalSeconds in
  mkRequest "GET" url
    (("Accept", "application/json") ::
     (if negb (bool_decide (client_ip m = "")) then [("X-Forwarded-For", client_ip m)] else []))
    None.

(** The versions that were reported, which only [do_] adds to, and the polls
    that the service answered, with the version each asked about. *)
Context (reported : W → list string) (polls : W → list (string * result Response)).
Context (Hdo : ∀ v w r w', do_ v w = (r, w') →
  reported w' = reported w ++ [v] ∧ polls w' = polls w).
Context (Hhttp : ∀ version w r w', http_Do (version_request version) w = (r, w') →
  reported w' = reported w ∧
  polls w' = polls w ++ match r with Returns x => [(version, x)] | _ => [] end).
Context (Hsleep : ∀ d w r w', time_Sleep d w = (r, w') →
  reported w' = reported w ∧ polls w' = polls w).

(** From one state to another, having heard [answers]. *)
Definition hears (answers : list (result Response)) (s s' : string * W) : Prop :=
  fst s' = current (fst s) answers ∧
  polls (snd s') = polls (snd s) ++ asks (fst s) answers ∧
  reported (snd s') = reported (snd s) ++ tracks (fst s) answers.

Lemma hears_nil s s' :
  fst s' = fst s → polls (snd s') = polls (snd s) → reported (snd s') = reported (snd s) →
  hears [] s s'.
Proof. intros Hv Hp Hr. unfold hears. simpl. by rewrite !app_nil_r. Qed.

Lemma hears_app l1 l2 s1 s2 s3 : hears l1 s1 s2 → hears l2 s2 s3 → hears (l1 ++ l2) s1 s3.
Proof.
  intros (Hv1 & Hp1 & Hr1) (Hv2 & Hp2 & Hr2). unfold hears, current.
  rewrite asks_app, tracks_app, foldl_app, Hv2, Hp2, Hr2, Hv1, Hp1, Hr1.
  by rewrite !(assoc_L (++)).
Qed.

(** The URLs are accepted. *)
Definition accepts : Prop := ∀ url, http_NewRequest (W:=W) url = Ok tt.

(** A request that leaves the version and the reports to its caller. *)
Definition polled (version : string) (answers : list (result Response)) (s s' : string * W) : Prop :=
  fst s' = fst s ∧ reported (snd s') = reported (snd s) ∧
  polls (snd s') = polls (snd s) ++ ((version,.) <$> answers).

Lemma SendRequest_polled version s r s' :
  SendRequest (H:=captured_Http) m ("/version?wait=true&value=" +:+ version +:+ "&maxWait="
    +:+ FormatInt intervalSeconds) s = (r, s') →
  ∃ answers, polled version answers s s' ∧
    match r with
    | Returns (Ok body) => ∃ x, answers = [x] ∧ answer x = Some body
    | Returns (Err _) => answers = [] ∨ ∃ x, answers = [x] ∧ answer x = None
    | _ => answers = []
    end ∧ (accepts → ∀ o, r = Returns o → answers ≠ []).
Proof.
  unfold SendRequest.
  assert (polled version [] s s) as Hnil by (unfold polled; simpl; by rewrite app_nil_r).
  cbn [http_NewRequest captured_Http].
  destruct (http_NewRequest _) as [[]|e] eqn:Hnew;
    [|intros [= <- <-]; exists []; split; [done|]; split; [by left|];
      intros Ha; by rewrite Ha in Hnew].
  rewrite try_bind_eq. cbn [http_Do captured_Http]. unfold outer.
  fold (version_request version).
  destruct (http_Do (version_request version) (snd s)) as [o w1] eqn:Hd.
  apply Hhttp in Hd as [Hr Hp].
  destruct o as [[[code status body]|e]|e|e];
    try by (intros [= <- <-]; exists []; unfold polled; simpl; rewrite app_nil_r in *).
  - cbn [resp_StatusCode resp_Body].
    assert (polled version [Ok (mkResponse code status body)] s (fst s, w1)) as Hone by done.
    destruct (Z.eqb_spec code 200) as [->|Hcode]; cbn [negb].
    + pose proof (ReadAllLimited_answer body) as Ha.
      assert (answer (Ok (mkResponse 200 status body)) = answer (Ok (mkResponse 200 "" body)))
        as Hst by done. rewrite <-Ha in Hst.
      destruct (ReadAllLimited _ _) as [data|e];
        [|intros [= <- <-]; eexists; split; [exact Hone|]; split; [right; by eexists|done]].
      destruct (_ <? _); intros [= <- <-]; (eexists; split; [exact Hone|]);
        (split; [|done]); [right|]; by eexists.
    + intros [= <- <-]. eexists. split; [exact Hone|]. split; [|done]. right.
      eexists. split; [done|]. unfold answer. destruct body as [data [e|]]; [done|].
      by rewrite (proj2 (Z.eqb_neq _ _)) by done.
  - intros [= <- <-]. exists [Err e]. split; [done|]. split; [right; by eexists|done].
Qed.

(** Answers after which the version is the same. *)
Definition stays (version : string) (answers : list (result Response)) : Prop :=
  Forall (λ x, next version x = version) answers.

Lemma answer_None_stays version x : answer x = None → stays version [x].
Proof. intros Hx. constructor; [|constructor]. unfold next. by rewrite Hx. Qed.

Lemma stays_specification version answers :
  stays version answers →
  current version answers = version ∧ asks version answers = (version,.) <$> answers ∧
  tracks version answers = [].
Proof.
  intros Hst. unfold current. induction Hst as [|x l Hx _ (IH1 & IH2 & IH3)]; [done|].
  simpl. rewrite Hx, IH2. by rewrite bool_decide_eq_true_2.
Qed.

Lemma stays_hears version answers s s' :
  stays version answers → fst s = version → polled version answers s s' → hears answers s s'.
Proof.
  intros Hst Hv (Hv' & Hr & Hp). unfold hears. rewrite Hv.
  destruct (stays_specification _ _ Hst) as (-> & -> & ->).
  by rewrite app_nil_r, Hr, Hp, Hv', Hv.
Qed.

Lemma polled_app version l1 l2 s1 s2 s3 :
  polled version l1 s1 s2 → polled version l2 s2 s3 → polled version (l1 ++ l2) s1 s3.
Proof.
  intros (Hv1 & Hr1 & Hp1) (Hv2 & Hr2 & Hp2). unfold polled.
  by rewrite fmap_app, Hv2, Hr2, Hp2, Hp1, (assoc_L (++)).
Qed.

Lemma waitVersion_polled fuel version s r s' :
  waitVersion (H:=captured_Http) is_timeout fuel m intervalSeconds version s = (r, s') →
  ∃ answers, polled version answers s s' ∧
    match r with
    | Returns (Some (Ok v)) =>
        ∃ init x, answers = init ++ [x] ∧ stays version init ∧ next version x = v
    | _ => stays version answers
    end ∧
    (accepts → match r with
               | Returns None => length answers = fuel
               | Returns _ => answers ≠ []
               | _ => True
               end).
Proof.
  revert s. induction fuel as [|fuel IH]; intros s.
  { intros [= <- <-]. exists []. unfold polled. rewrite app_nil_r. by repeat constructor. }
  cbn [waitVersion]. rewrite prog_bind_eq.
  destruct (SendRequest m _ s) as [o s1] eqn:Hr.
  apply SendRequest_polled in Hr as (l & Hl & Ho & Hn). destruct o as [[body|e]|e|e].
  - destruct Ho as (x & -> & Hx). intros [= <- <-]. exists [x]. split; [done|].
    unfold decode_version. split; [|by destruct (json_Unmarshal body)].
    unfold stays. destruct (json_Unmarshal body) as [v|e] eqn:Hj.
    + exists [], x. split; [done|]. split; [constructor|]. unfold next. rewrite Hx, Hj.
      by destruct v.
    + constructor; [|constructor]. unfold next. by rewrite Hx, Hj.
  - assert (stays version l) as Hst.
    { destruct Ho as [-> |(x & -> & Hx)]; [constructor|by apply answer_None_stays]. }
    destruct (is_timeout e).
    + intros (l2 & Hl2 & H2 & Hn2)%IH. exists (l ++ l2). split; [by eapply polled_app|].
      split.
      * destruct r as [[[v|e']|]|e'|e']; try by apply Forall_app.
        destruct H2 as (init & x & -> & Hi & Hx). exists (l ++ init), x.
        rewrite (assoc_L (++)). split; [done|]. by split; [apply Forall_app|].
      * intros Ha. specialize (Hn Ha _ eq_refl). specialize (Hn2 Ha).
        rewrite length_app. destruct r as [[o2|]|e'|e']; try done.
        -- intros [-> _]%app_eq_nil. done.
        -- destruct Ho as [-> |(x & -> & _)]; [done|]. simpl. by rewrite Hn2.
    + intros [= <- <-]. exists l. split; [done|]. split; [done|]. intros Ha. by eapply Hn.
  - subst l. intros [= <- <-]. exists []. split; [done|]. by split; [constructor|].
  - subst l. intros [= <- <-]. exists []. split; [done|]. by split; [constructor|].
Qed.

Lemma updateVersionAndDo_runs v s r s' :
  updateVersionAndDo do_ v s = (r, s') →
  fst s' = v ∧ reported (snd s') = reported (snd s) ++ [v] ∧ polls (snd s') = polls (snd s).
Proof.
  unfold updateVersionAndDo. rewrite prog_bind_eq. unfold modify_state. rewrite prog_bind_eq.
  unfold get_state, outer. cbn [fst snd]. destruct (do_ v (snd s)) as [o w1] eqn:Hd.
  apply Hdo in Hd as [Hr Hp]. by intros [= _ <-].
Qed.

(** One more answer, after [init], with a version to report or not. *)
Lemma hears_same version init x s s' :
  polled version (init ++ [x]) s s' → stays version init → fst s = version →
  next version x = version → hears (init ++ [x]) s s'.
Proof.
  intros Hp Hi Hv Hx. eapply stays_hears; [|done..]. apply Forall_app. split; [done|].
  by repeat constructor.
Qed.

Lemma hears_change version init x s s1 r s' :
  polled version (init ++ [x]) s s1 → stays version init → fst s = version →
  next version x ≠ version → updateVersionAndDo do_ (next version x) s1 = (r, s') →
  hears (init ++ [x]) s s'.
Proof.
  intros (Hv1 & Hr1 & Hp1) Hi Hv Hx (Hv2 & Hr2 & Hp2)%updateVersionAndDo_runs.
  destruct (stays_specification _ _ Hi) as (Hc & Ha & Ht). unfold hears, current.
  unfold current in Hc. rewrite foldl_app, asks_app, tracks_app, Hv. unfold current.
  rewrite Hc, Ha, Ht, Hv2, Hr2, Hp2, Hr1, Hp1. simpl.
  rewrite bool_decide_eq_false_2 by done. by rewrite fmap_app.
Qed.

Lemma onChange_hears fuel version s r s' :
  onChangeFromVersionWithError (H:=captured_Http) is_timeout fuel m version intervalSeconds
    (updateVersionAndDo do_) s = (r, s') →
  fst s = version →
  ∃ answers, hears answers s s' ∧
    (accepts → match r with
               | Returns None => (fuel ≤ S (length answers))%nat
               | Returns (Some _) => answers ≠ []
               | _ => True
               end).
Proof.
  intros Hrun Hv. revert version s Hv Hrun. induction fuel as [|fuel IH]; intros version s Hv.
  { intros [= <- <-]. exists []. split; [by apply hears_nil|]. intros _. simpl. lia. }
  cbn [onChangeFromVersionWithError]. rewrite prog_bind_eq.
  destruct (waitVersion _ _ _ _ _ s) as [o s1] eqn:Hw.
  apply waitVersion_polled in Hw as (l & Hl & Ho & Hn).
  destruct o as [[[v|e]|]|e|e]; try (intros [= <- <-]; exists l;
    split; [by eapply stays_hears|intros Ha; specialize (Hn Ha)]; done || lia).
  destruct Ho as (init & x & -> & Hi & <-).
  assert (∀ l2, fuel ≤ S (length l2) → S fuel ≤ S (length ((init ++ [x]) ++ l2)))%nat as Hlen.
  { intros l2 Hl2. rewrite !length_app. simpl. lia. }
  assert (∀ l2, (init ++ [x]) ++ l2 ≠ []) as Hne by (by intros l2 [[_ ?]%app_eq_nil _]%app_eq_nil).
  case_bool_decide as Hx.
  - pose proof (hears_same _ _ _ _ _ Hl Hi Hv (eq_sym Hx)) as Hh.
    intros (l2 & Hl2 & Hn2)%IH; [|by destruct Hl as [-> _]]. eexists.
    split; [by eapply hears_app|]. intros Ha. specialize (Hn2 Ha).
    destruct r as [[|]|e|e]; auto.
  - rewrite prog_bind_eq.
    destruct (updateVersionAndDo do_ (next version x) s1) as [o2 s2] eqn:Hu.
    pose proof (hears_change _ _ _ _ _ _ _ Hl Hi Hv (not_eq_sym Hx) Hu) as Hh.
    apply updateVersionAndDo_runs in Hu as [Hv2 _].
    destruct o2 as [[]|e|e]; [|by intros [= <- <-]; eexists; split; [exact Hh|]..].
    intros (l2 & Hl2 & Hn2)%IH; [|done]. eexists. split; [by eapply hears_app|].
    intros Ha. specialize (Hn2 Ha). destruct r as [[|]|e|e]; auto.
Qed.

Lemma OnChange_loop_hears fuel rounds s r s' :
  OnChange_loop is_timeout fuel m intervalSeconds do_ rounds s = (r, s') →
  ∃ answers, hears answers s s' ∧
    (accepts → r = Returns tt → (rounds `min` (fuel - 1) ≤ length answers)%nat).
Proof.
  revert s. induction rounds as [|rounds IH]; intros s.
  { intros [= <- <-]. exists []. split; [by apply hears_nil|done]. }
  cbn [OnChange_loop]. rewrite prog_bind_eq. unfold get_state. rewrite prog_bind_eq.
  destruct (onChangeFromVersionWithError _ _ _ _ _ _ s) as [o s1] eqn:Hc.
  apply onChange_hears in Hc as (l & Hl & Hn); [|done].
  destruct o as [[e|]|e|e];
    [|by intros [= <- <-]; exists l; split; [done|]; intros Ha _; specialize (Hn Ha); lia
     |by intros [= <- <-]; exists l..].
  rewrite prog_bind_eq. unfold outer at 1.
  destruct (time_Sleep _ (snd s1)) as [o w2] eqn:Hs. apply Hsleep in Hs as [Hsr Hsp].
  assert (hears l s (fst s1, w2)) as Hl2.
  { rewrite <-(app_nil_r l). eapply hears_app; [exact Hl|]. by apply hears_nil. }
  destruct o as [[]|e'|e']; [|by intros [= <- <-]; exists l..].
  intros (l2 & Hh & Hn2)%IH. exists (l ++ l2). split; [by eapply hears_app|]. intros Ha Hr.
  specialize (Hn Ha). specialize (Hn2 Ha Hr). rewrite length_app.
  destruct l; [done|]. cbn [length]. lia.
Qed.

(** *** Termination: when every call returns, so do the loops. *)
Section returns.
Context (Hreq : ∀ version w, ∃ x w', http_Do (version_request version) w = (Returns x, w'))
  (Hdos : ∀ v w, ∃ w', do_ v w = (Returns tt, w'))
  (Hsleeps : ∀ d w, ∃ w', time_Sleep d w = (Returns tt, w')).

Lemma waitVersion_returns fuel version s : ∃ o s',
  waitVersion (H:=captured_Http) is_timeout fuel m intervalSeconds version s = (Returns o, s').
Proof.
  revert s. induction fuel as [|fuel IH]; intros s; [by eexists _, _|].
  cbn [waitVersion]. rewrite prog_bind_eq.
  assert (∃ o s1, SendRequest (H:=captured_Http) m ("/version?wait=true&value=" +:+ version
    +:+ "&maxWait=" +:+ FormatInt intervalSeconds) s = (Returns o, s1)) as (o & s1 & ->).
  { unfold SendRequest. destruct (http_NewRequest _); [|by eexists _, _].
    rewrite try_bind_eq. cbn [http_Do captured_Http]. unfold outer. fold (version_request version).
    destruct (Hreq version (snd s)) as (x & w1 & ->). destruct x as [resp|e]; [|by eexists _, _].
    destruct (negb _); [by eexists _, _|]. destruct (ReadAllLimited _ _); [|by eexists _, _].
    destruct (_ <? _); by eexists _, _. }
  destruct o as [body|e]; [by eexists _, _|]. destruct (is_timeout e); [apply IH|by eexists _, _].
Qed.

Lemma onChange_returns fuel version s : ∃ o s',
  onChangeFromVersionWithError (H:=captured_Http) is_timeout fuel m version intervalSeconds
    (updateVersionAndDo do_) s = (Returns o, s').
Proof.
  revert version s. induction fuel as [|fuel IH]; intros version s; [by eexists _, _|].
  cbn [onChangeFromVersionWithError]. rewrite prog_bind_eq.
  destruct (waitVersion_returns fuel version s) as (o & s1 & ->).
  destruct o as [[v|e]|]; [|by eexists _, _..]. destruct (bool_decide _); [apply IH|].
  rewrite prog_bind_eq. unfold updateVersionAndDo at 1. rewrite prog_bind_eq.
  unfold modify_state, get_state, outer. rewrite prog_bind_eq. cbn [fst snd].
  destruct (Hdos v (snd s1)) as (w2 & ->). apply IH.
Qed.

Lemma OnChange_loop_returns fuel rounds s : ∃ s',
  OnChange_loop is_timeout fuel m intervalSeconds do_ rounds s = (Returns tt, s').
Proof.
  revert s. induction rounds as [|rounds IH]; intros s; [by eexists|].
  cbn [OnChange_loop]. rewrite prog_bind_eq. unfold get_state. rewrite prog_bind_eq.
  destruct (onChange_returns fuel (fst s) s) as (o & s1 & ->). destruct o; [|by eexists].
  rewrite prog_bind_eq. unfold outer at 1.
  destruct (Hsleeps (intervalSeconds * Second) (snd s1)) as (w2 & ->). apply IH.
Qed.
End returns.

(** [C40] The wait for changes reports every change, and only changes.
    Whatever the service answers, however long the loop runs, and across the
    errors after which it starts again: if [answers] are the answers that the
    service gave to the polls, then each poll asked for what follows the
    version current at the time (at first, ["init"]), and the callback got
    exactly the versions among the answers that differ from the one current
    before ([tracks]), in order, each once.  And the loop goes on: when the
    requests are accepted and the calls return, [n] rounds make at least [n]
    polls, whatever comes back and whatever was reported, so no change the
    service announces is missed. *)
Theorem OnChange_reports (w : W) :
  (∀ fuel rounds r w', OnChange is_timeout fuel m intervalSeconds do_ rounds w = (r, w') →
     ∃ answers, polls w' = polls w ++ asks "init" answers ∧
       reported w' = reported w ++ tracks "init" answers ∧
       changes "init" (tracks "init" answers)) ∧
  (accepts →
   (∀ version w, ∃ x w', http_Do (version_request version) w = (Returns x, w')) →
   (∀ v w, ∃ w', do_ v w = (Returns tt, w')) →
   (∀ d w, ∃ w', time_Sleep d w = (Returns tt, w')) →
   ∀ n, ∃ answers w', OnChange is_timeout (S n) m intervalSeconds do_ n w = (Returns tt, w') ∧
     (n ≤ length answers)%nat ∧
     polls w' = polls w ++ asks "init" answers ∧
     reported w' = reported w ++ tracks "init" answers).
Proof.
  unfold OnChange. split.
  - intros fuel rounds r w'.
    destruct (OnChange_loop _ _ _ _ _ _ _) as [o [v w1]] eqn:Hr. intros [= <- <-].
    apply OnChange_loop_hears in Hr as (l & (_ & Hp & Hrep) & _). exists l.
    split; [done|]. split; [done|]. apply tracks_changes.
  - intros Ha Hreq Hdos Hsleeps n.
    destruct (OnChange_loop_returns Hreq Hdos Hsleeps (S n) n ("init", w)) as ([v w'] & Hr).
    rewrite Hr. apply OnChange_loop_hears in Hr as (l & (_ & Hp & Hrep) & Hn).
    exists l, w'. split; [done|]. split; [|done]. specialize (Hn Ha eq_refl). lia.
Qed.
End reports.


(** ** A service with two changes and a failure in between *)
Module Example_change.

(** The world: the polls that were answered and the versions reported. *)
Definition world : Type := list (string * result Response) * list string.

Definition m : client := NewClient "http://metadata/latest/".
Definition before : string := client_url m +:+ "/version?wait=true&value=".
Definition after : string := "&maxWait=3".

(** The version that a request asks about. *)
Definition asked (req : Request) : string :=
  let s := str_drop (String.length before) (req_URL req) in
  str_take (String.length s - String.length after) s.

Definition ok (body : string) : result Response := Ok (mkResponse 200 "200 OK" (mkBody body None)).

(** The answer to the [n]-th poll. *)
Definition script (n : nat) : result Response :=
  nth n [ok "7"; Err "connection reset"; ok "7"] (ok "8").

Definition http : Http world := {|
  http_NewRequest := λ _, Ok tt;
  http_Do := λ req '(log, reported),
    (Returns (script (length log)), (log ++ [(asked req, script (length log))], reported));
|}.
Definition clock : Clock world := Samples.frozen_clock _.
Definition text : JsonUnmarshal (option string) := λ s, Ok (Some s).
Existing Instances http clock text.

Definition report (v : string) : prog world unit :=
  λ '(log, reported), (Returns tt, (log, reported ++ [v])).

Lemma asked_version version : asked (version_request m 3 version) = version.
Proof.
  assert (req_URL (version_request m 3 version) = before +:+ (version +:+ after)) as Hurl.
  { unfold before. by rewrite <-(str_app_assoc (client_url m)). }
  unfold asked. rewrite Hurl, str_drop_app, str_length_app.
  rewrite Nat.add_sub. apply str_take_app.
Qed.

(** Over at least five polls, the two changes are reported, once each, and the
    failed poll and the repeated version are not. *)
Lemma OnChange_reports_witness :
  ∃ answers w', OnChange (λ _, false) 6 m 3 report 5 ([], []) = (Returns tt, w') ∧
    (5 ≤ length answers)%nat ∧ w'.1 = asks "init" answers ∧
    tracks "init" answers = ["7"; "8"].
Proof.
  destruct (OnChange_reports (λ _, false) m 3 report snd fst) with (w := ([], []) : world)
    as [_ Hruns].
  - intros v [log l] r w' [= _ <-]. by split.
  - intros version [log l] r w' [= <- <-]. split; [done|]. cbn [fst]. by rewrite asked_version.
  - intros d [log l] r w' [= _ <-]. by split.
  - destruct Hruns with (n := 5%nat) as (answers & w' & Hr & Hn & Hp & Hrep).
    + intros url. reflexivity.
    + intros version [log l]. by eexists _, _.
    + intros v [log l]. by eexists.
    + intros d w. by eexists.
    + exists answers, w'. split; [exact Hr|]. split; [exact Hn|]. split; [exact Hp|].
      assert (w'.2 = ["7"; "8"]) as Hw.
      { assert ((OnChange (λ _, false) 6 m 3 report 5 ([], [])).2.2 = ["7"; "8"]) as Hc
          by (vm_compute; reflexivity).
        rewrite Hr in Hc. exact Hc. }
      cbn [snd app] in Hrep. rewrite <-Hrep. exact Hw.
Defined.
End Example_change.
