(* ===== verification/Metadata.v ===== *)
(** * Desired records from the metadata service

    [src/metadata/metadata.go]: from the services, containers and hosts the
    metadata service reports to the DNS records that should exist, together
    with the ownership ("state") record. *)

From S2P Require Import Prelude GoStrings GoStrconv FastTemplate Utils Config GoNet GoHttp.
From S2P Require Import MetaTypes MetaClient Samples.
Local Open Scope Z_scope.

(** ** Labels *)

Definition servicePolicyLabel : string := "io.pasturestack.service.external_dns".
Definition hostPolicyLabel : string := "io.pasturestack.host.external_dns".
Definition hostExternalIPLabel : string := "io.pasturestack.host.external_dns_ip".
Definition serviceNameTemplateLabel : string :=
  "io.pasturestack.service.external_dns_name_template".
Definition legacyServicePolicyLabel : string := "io.rancher.service.external_dns".
Definition legacyHostPolicyLabel : string := "io.rancher.host.external_dns".
Definition legacyHostExternalIPLabel : string := "io.rancher.host.external_dns_ip".
Definition legacyServiceNameTemplateLabel : string :=
  "io.rancher.service.external_dns_name_template".

(** The pair [(value, ok)] as an option. *)
Definition compatibilityLabelValue (labels : gmap string string)
    (primary legacy : string) : option string :=
  match labels !! primary with
  | Some value => Some value
  | None => labels !! legacy
  end.

(** ** Containers *)

Definition containerStateOK (container : Container) : bool :=
  bool_decide (Container_State container = "running") &&
  (bool_decide (Container_HealthState container = "healthy") ||
   bool_decide (Container_HealthState container = "updating-healthy") ||
   bool_decide (Container_HealthState container = "")).

(** The address of a port ['ip:publicPort:privatePort']. *)
Definition parsePortToIP (port : string) : option string :=
  match Split port ":" with
  | [ip; _; _] =>
      if (0 <? String.length ip)%nat && negb (bool_decide (ip = "0.0.0.0"))
      then Some ip else None
  | _ => None
  end.

(** ** The client *)

Record MetadataClient := mkMetadataClient {
  EnvironmentName : string;
  EnvironmentUUID : string;
}.

(** [dnsEntries], [ourFqdns] and [hostMeta] of the scan. *)
Record scan := mkScan {
  dnsEntries : gmap string MetadataDnsRecord;
  ourFqdns : gset string;
  hostMeta : gmap string Host;
}.

Section metadata.
Context `{GoUnicode} (cfg : Config).

Definition addToDnsEntries (fqdn ip service stack : string)
    (dnsEntries : gmap string MetadataDnsRecord) : gmap string MetadataDnsRecord :=
  let add records :=
    <[fqdn := mkMetadataDnsRecord service stack
                (mkDnsRecord fqdn records "A" (cfgTTL cfg))]> dnsEntries in
  match dnsEntries !! fqdn with
  | None => add [ip]
  | Some entry =>
      let records := Records (DnsRecord_ entry) in
      if bool_decide (ip ∈ records) then dnsEntries else add (records ++ [ip])
  end.

(** The policy of a service: the label, [auto] without one. *)
Definition servicePolicy (service : Service) : string :=
  default "auto" (compatibilityLabelValue (Service_Labels service)
    servicePolicyLabel legacyServicePolicyLabel).

(** The service is not skipped by [continue]. *)
Definition serviceEligible (service : Service) : bool :=
  negb (bool_decide (compatibilityLabelValue (Service_Labels service)
          servicePolicyLabel legacyServicePolicyLabel = Some "never")) &&
  (bool_decide (Service_Kind service = "service") ||
   bool_decide (Service_Kind service = "loadBalancerService")).

(** The container is not skipped before its host is looked up. *)
Definition containerEligible (policy : string) (container : Container) : bool :=
  negb (((length (Container_Ports container) =? 0)%nat &&
         negb (bool_decide (policy = "always"))) ||
        negb (containerStateOK container)) &&
  negb (String.length (Container_HostUUID container) =? 0)%nat.

Definition hostEnabled (host : Host) : bool :=
  negb (bool_decide (compatibilityLabelValue (Host_Labels host)
          hostPolicyLabel legacyHostPolicyLabel = Some "false")).

(** The address published for a container: the host's label, else the address
    of its first port, else the host's agent address. *)
Definition externalIP (host : Host) (container : Container) : string :=
  let fromPorts :=
    match Container_Ports container with
    | port :: _ => default "" (parsePortToIP port)
    | [] => ""
    end in
  let ip :=
    match compatibilityLabelValue (Host_Labels host)
            hostExternalIPLabel legacyHostExternalIPLabel with
    | Some ip => if (0 <? String.length ip)%nat then ip else fromPorts
    | None => fromPorts
    end in
  if (String.length ip =? 0)%nat then Host_AgentIP host else ip.

Definition nameTemplate (service : Service) : string :=
  default (NameTemplate cfg) (compatibilityLabelValue (Service_Labels service)
    serviceNameTemplateLabel legacyServiceNameTemplateLabel).

Definition containerFqdn (m : MetadataClient) (service : Service) (container : Container)
    : outcome string :=
  FqdnFromTemplate (nameTemplate service) (Container_ServiceName container)
    (Container_StackName container) (EnvironmentName m) (RootDomainName cfg).

Context {W : Type} `{Client W} `{Clock W}.

Definition getEnvironment : prog W (result (string * string)) :=
  let timeout := 30 * Second in
  let! stack := backoff backoff_fuel GetSelfStack (1 * Second) timeout ""
    wrap (λ err, "Error reading stack info: " +:+ err) in
  mret (Ok (Stack_EnvironmentName stack, Stack_EnvironmentUUID stack)).

(** The host of a container: from [hostMeta], else from the service; a host
    that cannot be read is not remembered. *)
Definition lookupHost (hostUUID : string) (hostMeta : gmap string Host)
    : prog W (option Host * gmap string Host) :=
  match hostMeta !! hostUUID with
  | Some host => mret (Some host, hostMeta)
  | None =>
      r ← GetHost hostUUID;
      match r with
      | Err _ => mret (None, hostMeta)
      | Ok host => mret (Some host, <[hostUUID := host]> hostMeta)
      end
  end.

(** One iteration of the inner loop. *)
Definition scanContainer (m : MetadataClient) (service : Service)
    (container : Container) (st : scan) : prog W scan :=
  if negb (containerEligible (servicePolicy service) container) then mret st
  else
    r ← lookupHost (Container_HostUUID container) (hostMeta st);
    let '(host, hostMeta) := r in
    let st := mkScan (dnsEntries st) (ourFqdns st) hostMeta in
    match host with
    | None => mret st
    | Some host =>
        if negb (hostEnabled host) then mret st
        else
          let ip := externalIP host container in
          if bool_decide (ParseIP ip = None) then mret st
          else
            fqdn ← lift (containerFqdn m service container);
            mret (mkScan
              (addToDnsEntries fqdn ip (Container_ServiceName container)
                 (Container_StackName container) (dnsEntries st))
              ({[fqdn]} ∪ ourFqdns st) hostMeta)
    end.

(** One iteration of the outer loop. *)
Definition scanService (m : MetadataClient) (service : Service) (st : scan)
    : prog W scan :=
  if serviceEligible service then
    range (Service_Containers service) (scanContainer m service) st
  else mret st.

(** The ownership record, when at least one name is ours. *)
Definition addStateRecord (m : MetadataClient) (st : scan)
    : gmap string MetadataDnsRecord :=
  if (0 <? size (ourFqdns st))%nat then
    let stateFqdn := StateFqdn (EnvironmentUUID m) (RootDomainName cfg) in
    let stateRec := StateRecord stateFqdn (cfgTTL cfg) (ourFqdns st) in
    <[stateFqdn := mkMetadataDnsRecord "" "" stateRec]> (dnsEntries st)
  else dnsEntries st.

Definition getContainersDnsRecords (m : MetadataClient)
    (entries : gmap string MetadataDnsRecord)
    : prog W (result (gmap string MetadataDnsRecord)) :=
  let! services := GetServices in
  st ← range services (scanService m) (mkScan entries ∅ ∅);
  mret (Ok (addStateRecord m st)).

(** [updateEnvironmentName] sets the field of the receiver. *)
Definition updateEnvironmentName (m : MetadataClient)
    : prog W (result MetadataClient) :=
  let! env := getEnvironment in
  mret (Ok (mkMetadataClient (fst env) (EnvironmentUUID m))).

(** The receiver after the call, and the records or the error. *)
Definition GetMetadataDnsRecords (m : MetadataClient)
    : prog W (MetadataClient * result (gmap string MetadataDnsRecord)) :=
  r ← updateEnvironmentName m;
  match r with
  | Err err => mret (m, Err err)
  | Ok m =>
      r ← getContainersDnsRecords m ∅;
      mret (m, r)
  end.
End metadata.

(** The constructor: the HTTP client of the metadata service together with the
    names read from it. *)
Definition NewMetadataClient {W} `{Clock W} `{GoURL} `{Http W} `{JsonUnmarshal Host}
    `{JsonUnmarshal Service} `{JsonUnmarshal Stack}
    `{∀ A, JsonUnmarshal A → JsonUnmarshal (list A)} (cfg : Config)
    : prog W (result (client * MetadataClient)) :=
  let! m := NewClientAndWait (MetadataURL cfg)
    wrap (λ err, "configure metadata service: " +:+ err) in
  let! env := @getEnvironment W (client_Client m) _
    wrap (λ err, "read stack info: " +:+ err) in
  mret (Ok (m, mkMetadataClient (fst env) (snd env))).

(** ** Properties of the scan *)

(** The address [ip] is listed under the name [f]. *)
Definition listed (D : gmap string MetadataDnsRecord) (f ip : string) : Prop :=
  ∃ r, D !! f = Some r ∧ ip ∈ Records (DnsRecord_ r).

(** An address record as the scan builds it. *)
Record wf_entry (cfg : Config) (f : string) (r : MetadataDnsRecord) : Prop := {
  entry_name : Fqdn_ (DnsRecord_ r) = f;
  entry_type : Type_ (DnsRecord_ r) = "A";
  entry_ttl : TTL (DnsRecord_ r) = cfgTTL cfg;
  entry_values : Records (DnsRecord_ r) ≠ [];
  entry_nodup : NoDup (Records (DnsRecord_ r));
  entry_valid ip : ip ∈ Records (DnsRecord_ r) → ParseIP ip ≠ None;
}.

Lemma addToDnsEntries_dom cfg f ip svc stk D :
  dom (addToDnsEntries cfg f ip svc stk D) = {[f]} ∪ dom D.
Proof.
  unfold addToDnsEntries. destruct (D !! f) as [r|] eqn:Hf; [case_bool_decide|].
  - apply elem_of_dom_2 in Hf. set_solver.
  - apply dom_insert_L.
  - apply dom_insert_L.
Qed.

Lemma addToDnsEntries_wf cfg f ip svc stk D :
  ParseIP ip ≠ None → map_Forall (wf_entry cfg) D →
  map_Forall (wf_entry cfg) (addToDnsEntries cfg f ip svc stk D).
Proof.
  intros Hip HD. unfold addToDnsEntries.
  destruct (D !! f) as [r|] eqn:Hf; [case_bool_decide as Hin; [done|]|];
    apply map_Forall_insert_2; try done.
  - destruct (HD _ _ Hf). split; simpl; try done.
    + by destruct (Records (DnsRecord_ r)).
    + apply list.NoDup_app. split; [done|]. split; [set_solver|apply NoDup_singleton].
    + intros ip'. rewrite elem_of_app, list_elem_of_singleton. intros [?| ->]; auto.
  - split; simpl; try done; [apply NoDup_singleton|].
    by intros ip' ->%list_elem_of_singleton.
Qed.

Lemma listed_Some D f ip r :
  D !! f = Some r → listed D f ip ↔ ip ∈ Records (DnsRecord_ r).
Proof. intros Hf. unfold listed. rewrite Hf. naive_solver. Qed.

Lemma listed_None D f ip : D !! f = None → ¬ listed D f ip.
Proof. intros Hf (r & Hr & _). congruence. Qed.

Lemma listed_insert_ne D f f' ip r :
  f' ≠ f → listed (<[f := r]> D) f' ip ↔ listed D f' ip.
Proof. intros Hne. unfold listed. by rewrite lookup_insert_ne. Qed.

Lemma addToDnsEntries_listed cfg f ip svc stk D f' ip' :
  listed (addToDnsEntries cfg f ip svc stk D) f' ip' ↔
  listed D f' ip' ∨ (f' = f ∧ ip' = ip).
Proof.
  unfold addToDnsEntries. destruct (decide (f' = f)) as [->|Hne].
  - destruct (D !! f) as [r|] eqn:Hf; [case_bool_decide as Hin|].
    + rewrite (listed_Some _ _ _ _ Hf). naive_solver.
    + rewrite (listed_Some _ _ _ _ Hf), (listed_Some (<[f:=_]> D)) by apply lookup_insert_eq.
      simpl. rewrite elem_of_app, list_elem_of_singleton. naive_solver.
    + rewrite (listed_Some (<[f:=_]> D)) by apply lookup_insert_eq. simpl.
      rewrite list_elem_of_singleton. pose proof (listed_None _ _ ip' Hf). naive_solver.
  - assert (∀ r, listed (<[f:=r]> D) f' ip' ↔ listed D f' ip') as Hins
      by (intros; by apply listed_insert_ne).
    destruct (D !! f); [case_bool_decide|]; rewrite ?Hins; naive_solver.
Qed.

Section scan_facts.
Context `{GoUnicode} (cfg : Config) {W : Type} `{Client W} (m : MetadataClient).

(** The scan builds well-formed address records and remembers their names. *)
Definition wf_scan (st : scan) : Prop :=
  map_Forall (wf_entry cfg) (dnsEntries st) ∧ dom (dnsEntries st) = ourFqdns st.

Lemma lookupHost_returns u hm w r w' :
  lookupHost u hm w = (Returns r, w') →
  match r with
  | (Some h, hm') => (hm !! u = Some h ∧ hm' = hm ∧ w' = w) ∨
      (hm !! u = None ∧ GetHost u w = (Returns (Ok h), w') ∧ hm' = <[u := h]> hm)
  | (None, hm') =>
      hm !! u = None ∧ hm' = hm ∧ ∃ e, GetHost u w = (Returns (Err e), w')
  end.
Proof.
  unfold lookupHost. destruct (hm !! u) as [h|] eqn:Hh.
  { intros [= <- <-]. auto. }
  rewrite prog_bind_eq. destruct (GetHost u w) as [[[h|e]| |] w1]; intros [= <- <-]; eauto.
Qed.

(** What one container does to the scan. *)
Lemma scanContainer_returns svc c st w st' w' :
  scanContainer cfg m svc c st w = (Returns st', w') →
  (dnsEntries st' = dnsEntries st ∧ ourFqdns st' = ourFqdns st) ∨
  (∃ f ip h, containerFqdn cfg m svc c = Returns f ∧ ip = externalIP h c ∧
     ParseIP ip ≠ None ∧
     dnsEntries st' = addToDnsEntries cfg f ip (Container_ServiceName c)
                        (Container_StackName c) (dnsEntries st) ∧
     ourFqdns st' = {[f]} ∪ ourFqdns st).
Proof.
  unfold scanContainer. destruct (containerEligible _ c); [|by intros [= <- <-]; left].
  cbn [negb]. rewrite prog_bind_eq.
  destruct (lookupHost _ _ w) as [[[[h|] hm]| |] w1]; try done; [|by intros [= <- <-]; left].
  destruct (hostEnabled h); [|by intros [= <- <-]; left]. cbn [negb].
  case_bool_decide as Hip; [by intros [= <- <-]; left|].
  rewrite prog_bind_eq. unfold lift. destruct (containerFqdn cfg m svc c) as [f| |] eqn:Hf; try done.
  intros [= <- <-]. right. by exists f, (externalIP h c), h.
Qed.

Lemma scanContainer_wf svc c st w st' w' :
  wf_scan st → scanContainer cfg m svc c st w = (Returns st', w') → wf_scan st'.
Proof.
  intros [Hwf Hdom] [[Hd Ho]|(f & ip & h & _ & _ & Hip & Hd & Ho)]%scanContainer_returns;
    unfold wf_scan; rewrite Hd, Ho; [done|].
  split; [by apply addToDnsEntries_wf|]. by rewrite addToDnsEntries_dom, Hdom.
Qed.

Lemma scanService_wf svc st w st' w' :
  wf_scan st → scanService cfg m svc st w = (Returns st', w') → wf_scan st'.
Proof.
  intros Hwf. unfold scanService. destruct (serviceEligible svc); [|by intros [= <- <-]].
  apply (range_invariant _ (λ st _, wf_scan st)); [|done].
  intros c s v s' v' _. apply scanContainer_wf.
Qed.

Lemma scan_wf services w st w' :
  range services (scanService cfg m) (mkScan ∅ ∅ ∅) w = (Returns st, w') → wf_scan st.
Proof.
  apply (range_invariant _ (λ st _, wf_scan st)).
  - intros svc s v s' v' _. apply scanService_wf.
  - split; [apply map_Forall_empty|]. apply dom_empty_L.
Qed.

(** The name of the ownership record of this environment. *)
Definition stateName : string := StateFqdn (EnvironmentUUID m) (RootDomainName cfg).

Lemma addStateRecord_cases st :
  wf_scan st →
  (ourFqdns st = ∅ ∧ addStateRecord cfg m st = ∅) ∨
  (ourFqdns st ≠ ∅ ∧ addStateRecord cfg m st =
     <[stateName := mkMetadataDnsRecord "" ""
        (StateRecord stateName (cfgTTL cfg) (ourFqdns st))]> (dnsEntries st)).
Proof.
  intros [_ Hdom]. unfold addStateRecord. destruct (Nat.ltb_spec 0 (size (ourFqdns st))) as [Hs|Hs].
  - right. split; [|done]. intros He. rewrite He, size_empty in Hs. lia.
  - left. assert (ourFqdns st = ∅) as He by (apply leibniz_equiv, size_empty_iff; lia).
    split; [done|]. rewrite He in Hdom. by apply dom_empty_iff_L in Hdom.
Qed.

Lemma getContainersDnsRecords_returns w D w' :
  getContainersDnsRecords cfg m ∅ w = (Returns (Ok D), w') →
  ∃ services w0 st, GetServices w = (Returns (Ok services), w0) ∧
    range services (scanService cfg m) (mkScan ∅ ∅ ∅) w0 = (Returns st, w') ∧
    D = addStateRecord cfg m st.
Proof.
  unfold getContainersDnsRecords. rewrite try_bind_ok.
  intros (services & w0 & Hs & Hr). apply prog_bind_returns in Hr as (st & w1 & Hst & Hr).
  injection Hr as <- <-. eauto 10.
Qed.

(** What a well-formed scan becomes. *)
Lemma addStateRecord_desired st :
  wf_scan st →
  let D := addStateRecord cfg m st in
  wf_desired stateName D ∧
  (∀ k r, k ≠ stateName → D !! k = Some r → wf_entry cfg k r) ∧
  (∀ k, k ≠ stateName → D !! k = dnsEntries st !! k).
Proof.
  intros Hwf. destruct (addStateRecord_cases st Hwf) as [[Ho HD]|[Ho HD]];
    destruct Hwf as [Hwf Hdom]; cbv zeta; rewrite HD.
  { rewrite Ho in Hdom. apply dom_empty_iff_L in Hdom. rewrite Hdom.
    split; [split|split]; intros *; rewrite ?lookup_empty, ?dom_empty_L; done. }
  assert (∀ k r, k ≠ stateName →
    (<[stateName:=mkMetadataDnsRecord "" "" (StateRecord stateName (cfgTTL cfg) (ourFqdns st))]>
       (dnsEntries st)) !! k = Some r → wf_entry cfg k r) as Hent.
  { intros k r Hk. rewrite lookup_insert_ne by done. apply Hwf. }
  split; [|split; [done|intros; by apply lookup_insert_ne]]. split.
  - intros k r. destruct (decide (k = stateName)) as [->|Hk]; [|intros; by eapply entry_name, Hent].
    rewrite lookup_insert_eq. by intros [= <-].
  - intros r. rewrite lookup_insert_eq. by intros [= <-].
  - intros k r Hk Hr. by eapply entry_type, Hent.
  - intros k r. destruct (decide (k = stateName)) as [->|Hk].
    + rewrite lookup_insert_eq. intros [= <-]. by apply StateRecord_empty.
    + intros Hr. by eapply entry_values, Hent.
  - intros k _. rewrite dom_insert_L. set_solver.
  - intros r k. rewrite lookup_insert_eq. intros [= <-] Hk. cbn [DnsRecord_].
    rewrite StateRecord_elem, dom_insert_L, Hdom. set_solver.
Qed.
End scan_facts.

(** ** The published addresses

    A reference for the scan: which container publishes which address, as a
    function of the reports alone.  [hosts] is what the metadata service
    answers for a host; the service is assumed to give the same answer every
    time during a scan. *)

Section published.
Context `{GoUnicode} (cfg : Config) {W : Type} `{Client W} (m : MetadataClient).
Context (hosts : string → result Host).

Definition published (svc : Service) (c : Container) : option string :=
  if serviceEligible svc && containerEligible (servicePolicy svc) c then
    match hosts (Container_HostUUID c) with
    | Ok h =>
        if hostEnabled h && bool_decide (ParseIP (externalIP h c) ≠ None)
        then Some (externalIP h c) else None
    | Err _ => None
    end
  else None.

(** The address [ip] is published under [f] by one of the containers. *)
Definition publishes (l : list (Service * Container)) (f ip : string) : Prop :=
  ∃ svc c, (svc, c) ∈ l ∧ published svc c = Some ip ∧
    containerFqdn cfg m svc c = Returns f.

Definition all_containers (services : list Service) : list (Service * Container) :=
  services ≫= λ svc, (λ c, (svc, c)) <$> Service_Containers svc.

Context (Hhosts : ∀ u w, GetHost u w = (Returns (hosts u), w)).

(** The scan has seen the containers of [l]: its entries are theirs, and the
    remembered hosts are the ones the service reports. *)
Definition seen (l : list (Service * Container)) (st : scan) : Prop :=
  (∀ f ip, listed (dnsEntries st) f ip ↔ publishes l f ip) ∧
  (∀ u h, hostMeta st !! u = Some h → hosts u = Ok h).

Lemma publishes_app l1 l2 f ip :
  publishes (l1 ++ l2) f ip ↔ publishes l1 f ip ∨ publishes l2 f ip.
Proof. unfold publishes. setoid_rewrite elem_of_app. naive_solver. Qed.

Lemma publishes_singleton svc c f ip :
  publishes [(svc, c)] f ip ↔
  published svc c = Some ip ∧ containerFqdn cfg m svc c = Returns f.
Proof. unfold publishes. setoid_rewrite list_elem_of_singleton. naive_solver. Qed.

Lemma seen_skip l svc c st :
  seen l st → published svc c = None → seen (l ++ [(svc, c)]) st.
Proof.
  intros [Hl Hh] Hp. split; [|done]. intros f ip.
  rewrite publishes_app, publishes_singleton, Hl. naive_solver.
Qed.

Lemma lookupHost_stable hm u w r w' :
  (∀ u h, hm !! u = Some h → hosts u = Ok h) →
  lookupHost u hm w = (Returns r, w') →
  w' = w ∧ (∀ u h, snd r !! u = Some h → hosts u = Ok h) ∧
  match fst r with
  | Some h => hosts u = Ok h
  | None => ∃ e, hosts u = Err e
  end.
Proof.
  intros Hhm Hr. apply lookupHost_returns in Hr as Hc. destruct r as [[h|] hm'].
  - destruct Hc as [(Hu & -> & ->)|(Hu & Hg & ->)]; simpl.
    + split; [done|]. split; [done|]. by apply Hhm.
    + rewrite Hhosts in Hg. injection Hg as Hg <-. split; [done|]. split; [|done].
      intros u' h'. destruct (decide (u' = u)) as [->|Hne].
      * rewrite lookup_insert_eq. by intros [= <-].
      * rewrite lookup_insert_ne by done. apply Hhm.
  - destruct Hc as (Hu & -> & e & Hg). rewrite Hhosts in Hg. injection Hg as Hg <-.
    split; [done|]. split; [done|]. by exists e.
Qed.

Lemma scanContainer_seen svc c l st w st' w' :
  serviceEligible svc = true → seen l st →
  scanContainer cfg m svc c st w = (Returns st', w') → seen (l ++ [(svc, c)]) st'.
Proof.
  intros Hsvc Hseen. pose proof Hseen as [Hl Hh].
  assert (∀ hm, (∀ u h, hm !! u = Some h → hosts u = Ok h) → published svc c = None →
    seen (l ++ [(svc, c)]) (mkScan (dnsEntries st) (ourFqdns st) hm)) as Hskip.
  { intros hm Hhm. apply seen_skip. by split. }
  unfold scanContainer. destruct (containerEligible _ c) eqn:Hel; cbn [negb].
  2:{ intros [= <- <-]. destruct st. apply Hskip; [done|].
      unfold published. by rewrite Hsvc, Hel. }
  rewrite prog_bind_eq. destruct (lookupHost _ _ w) as [[[oh hm]| |] w1] eqn:Hlk; try done.
  apply lookupHost_stable in Hlk as (-> & Hhm & Hoh); [|done]. simpl in Hhm, Hoh.
  destruct oh as [h|].
  2:{ destruct Hoh as [e He]. intros [= <- <-]. apply Hskip; [done|].
      unfold published. by rewrite Hsvc, Hel, He. }
  destruct (hostEnabled h) eqn:Hen; cbn [negb].
  2:{ intros [= <- <-]. apply Hskip; [done|].
      unfold published. by rewrite Hsvc, Hel, Hoh, Hen. }
  destruct (decide (ParseIP (externalIP h c) = None)) as [Hip|Hip].
  { rewrite bool_decide_eq_true_2 by done. intros [= <- <-]. apply Hskip; [done|].
    unfold published. rewrite Hsvc, Hel, Hoh, Hen.
    by rewrite bool_decide_eq_false_2 by naive_solver. }
  rewrite bool_decide_eq_false_2 by done. rewrite prog_bind_eq. unfold lift.
  destruct (containerFqdn cfg m svc c) as [f0| |] eqn:Hf; try done.
  intros [= <- <-]. split; [|done]. intros f ip. simpl.
  rewrite addToDnsEntries_listed, publishes_app, publishes_singleton, Hl.
  unfold published. rewrite Hsvc, Hel, Hoh, Hen, bool_decide_eq_true_2, Hf by done.
  naive_solver.
Qed.

Lemma scanService_seen svc l st w st' w' :
  seen l st → scanService cfg m svc st w = (Returns st', w') →
  seen (l ++ ((λ c, (svc, c)) <$> Service_Containers svc)) st'.
Proof.
  intros Hseen. unfold scanService. destruct (serviceEligible svc) eqn:Hel.
  - intros Hr.
    apply (range_visited _ (λ cs st _, seen (l ++ ((λ c, (svc, c)) <$> cs)) st) []) in Hr;
      [done| |by rewrite app_nil_r].
    intros cs c s v s' v' _ Hs Hc. rewrite fmap_app, (assoc_L (++)).
    by eapply scanContainer_seen.
  - intros [= <- <-]. destruct Hseen as [Hl Hh]. split; [|done]. intros f ip.
    rewrite publishes_app, Hl. split; [by auto|]. intros [?|(s & c & Hin & Hp & _)]; [done|].
    apply list_elem_of_fmap in Hin as (? & [= -> ->] & _).
    unfold published in Hp. by rewrite Hel in Hp.
Qed.

Lemma scan_seen services w st w' :
  range services (scanService cfg m) (mkScan ∅ ∅ ∅) w = (Returns st, w') →
  seen (all_containers services) st.
Proof.
  intros Hr. apply (range_visited _ (λ ss st _, seen (all_containers ss) st) []) in Hr; [done| |].
  - intros ss s st0 v s' v' _ Hs Hc. unfold all_containers. rewrite bind_app.
    cbn [mbind list_bind]. rewrite app_nil_r. by eapply scanService_seen.
  - split; [|intros u h; simpl; by rewrite lookup_empty]. intros f ip. split.
    + intros (r & Hr' & _). simpl in Hr'. by rewrite lookup_empty in Hr'.
    + intros (s & c & Hin & _). by apply elem_of_nil in Hin.
Qed.

(** The scan of a stable service with usable name templates returns, and
    leaves the world as it was. *)
Definition templates_ok (services : list Service) : Prop :=
  ∀ svc c ip, (svc, c) ∈ all_containers services → published svc c = Some ip →
    ∃ f, containerFqdn cfg m svc c = Returns f.

Definition cache_ok (st : scan) : Prop :=
  ∀ u h, hostMeta st !! u = Some h → hosts u = Ok h.

Lemma lookupHost_total hm u :
  (∀ u h, hm !! u = Some h → hosts u = Ok h) →
  ∃ r, ∀ w, lookupHost u hm w = (Returns r, w).
Proof.
  intros Hhm. unfold lookupHost. destruct (hm !! u); [by eexists|].
  destruct (hosts u) as [h|e] eqn:Hu; eexists; intros w; by rewrite prog_bind_eq, Hhosts, Hu.
Qed.

Lemma scanContainer_total `{Inhabited W} svc c st :
  serviceEligible svc = true → cache_ok st →
  (∀ ip, published svc c = Some ip → ∃ f, containerFqdn cfg m svc c = Returns f) →
  ∃ st', (∀ w, scanContainer cfg m svc c st w = (Returns st', w)) ∧ cache_ok st'.
Proof.
  intros Hsvc Hc Hf. unfold scanContainer.
  destruct (containerEligible _ c) eqn:Hel; cbn [negb]; [|by eexists].
  destruct (lookupHost_total (hostMeta st) (Container_HostUUID c) Hc) as [[oh hm] Hr].
  pose proof (Hr inhabitant) as Hr0.
  apply lookupHost_stable in Hr0 as (_ & Hhm & Hoh); [|done].
  simpl in Hhm, Hoh. setoid_rewrite prog_bind_eq. setoid_rewrite Hr.
  destruct oh as [h|]; [|by eexists].
  destruct (hostEnabled h) eqn:Hen; cbn [negb]; [|by eexists].
  destruct (decide (ParseIP (externalIP h c) = None)) as [Hip|Hip];
    [rewrite bool_decide_eq_true_2 by done; by eexists|].
  rewrite bool_decide_eq_false_2 by done. setoid_rewrite prog_bind_eq. unfold lift.
  destruct (Hf (externalIP h c)) as [f ->]; [|by eexists].
  unfold published. by rewrite Hsvc, Hel, Hoh, Hen, bool_decide_eq_true_2.
Qed.

Lemma elem_of_all_containers services svc c :
  (svc, c) ∈ all_containers services ↔ svc ∈ services ∧ c ∈ Service_Containers svc.
Proof.
  unfold all_containers. rewrite list_elem_of_bind. setoid_rewrite list_elem_of_fmap.
  naive_solver.
Qed.

Lemma scan_total `{Inhabited W} services :
  templates_ok services →
  ∃ st, ∀ w, range services (scanService cfg m) (mkScan ∅ ∅ ∅) w = (Returns st, w).
Proof.
  intros Ht.
  edestruct (range_pure (scanService cfg m) cache_ok services) as (st & Hr & _); [| |by eexists].
  2:{ intros u h. simpl. by rewrite lookup_empty. }
  intros svc s Hin Hc. unfold scanService.
  destruct (serviceEligible svc) eqn:Hel; [|by eexists].
  apply (range_pure _ cache_ok); [|done]. intros c s' Hcin Hc'.
  apply scanContainer_total; [done..|].
  intros ip Hp. eapply Ht; [|done]. by apply elem_of_all_containers.
Qed.
End published.

(** ** The component's theorems *)

Section claims.
Context `{GoUnicode} (cfg : Config) {W : Type} `{Client W} `{Clock W}.

Lemma scan_desired (m m' : MetadataClient) (w w' : W) D :
  GetMetadataDnsRecords cfg m w = (Returns (m', Ok D), w') →
  let state := stateName cfg m in
  stateName cfg m' = state ∧ wf_desired state D ∧
  (∀ k r, k ≠ state → D !! k = Some r → wf_entry cfg k r) ∧
  (D = ∅ ∨
   ∃ r, D !! state = Some r ∧ ServiceName r = "" ∧ StackName r = "" ∧
     TTL (DnsRecord_ r) = cfgTTL cfg ∧ NoDup (Records (DnsRecord_ r)) ∧
     StronglySorted (λ x y, str_lt x y = true) (Records (DnsRecord_ r)) ∧
     ∀ k, k ≠ state → k ∈ Records (DnsRecord_ r) ↔ k ∈ dom D).
Proof.
  unfold GetMetadataDnsRecords. intros Hr. cbv zeta.
  apply prog_bind_returns in Hr as ([m1|e] & w1 & Hu & Hr); [|done].
  apply prog_bind_returns in Hr as (r & w2 & Hg & Hr). injection Hr as -> -> ->.
  assert (EnvironmentUUID m' = EnvironmentUUID m) as Huuid.
  { unfold updateEnvironmentName in Hu. apply try_bind_ok in Hu as (env & ? & _ & Hu).
    by injection Hu as <- _. }
  assert (stateName cfg m' = stateName cfg m) as Hs by (unfold stateName; by rewrite Huuid).
  apply getContainersDnsRecords_returns in Hg as (services & w0 & st & _ & Hst & ->).
  apply scan_wf in Hst as Hwf. rewrite <-Hs. split; [done|].
  destruct (addStateRecord_desired cfg m' st Hwf) as (Hd & He & Hk).
  split; [done|]. split; [done|].
  destruct (addStateRecord_cases cfg m' st Hwf) as [[_ HD]|[_ HD]]; [by left|].
  right. pose proof (StateRecord_facts (stateName cfg m') (cfgTTL cfg) (ourFqdns st))
    as (Hnd & Hsort & Helem).
  eexists. rewrite HD at 1. rewrite lookup_insert_eq. split; [done|].
  do 5 (split; [done|]). intros k Hne. simpl DnsRecord_.
  rewrite Helem, elem_of_dom, Hk, <-elem_of_dom by done. by destruct Hwf as [_ ->].
Qed.

(** [C10] What [GetMetadataDnsRecords] hands to the reconciler, whatever the
    metadata service reports: the map is well formed (keys are record names,
    address records under every name but the state name, no record without a
    value); every address record carries distinct, valid addresses and the
    configured TTL; and either the map is empty, or its ownership record lists,
    once each and in order, exactly the names of the address records (the name
    of the ownership record itself aside). *)
Theorem GetMetadataDnsRecords_desired (m m' : MetadataClient) (w w' : W) D :
  GetMetadataDnsRecords cfg m w = (Returns (m', Ok D), w') →
  let state := stateName cfg m in
  stateName cfg m' = state ∧ wf_desired state D ∧
  (∀ k r, k ≠ state → D !! k = Some r → wf_entry cfg k r) ∧
  (D = ∅ ∨
   ∃ r, D !! state = Some r ∧ ServiceName r = "" ∧ StackName r = "" ∧
     TTL (DnsRecord_ r) = cfgTTL cfg ∧ NoDup (Records (DnsRecord_ r)) ∧
     StronglySorted (λ x y, str_lt x y = true) (Records (DnsRecord_ r)) ∧
     ∀ k, k ≠ state → k ∈ Records (DnsRecord_ r) ↔ k ∈ dom D).
Proof. exact (scan_desired m m' w w' D). Qed.

(** [C9] The functional behaviour of the scan.  If the metadata service gives
    stable answers about hosts and the name templates of the published
    containers are usable, the scan returns, and the address records it builds
    are exactly the addresses of the published containers under their names:
    nothing is lost, merged or invented, whatever the order of services and
    containers and whatever was remembered about hosts. *)
Theorem published_addresses (m : MetadataClient) (hosts : string → result Host)
    (services : list Service) (w w1 : W) :
  (∀ u w, GetHost u w = (Returns (hosts u), w)) →
  GetServices w = (Returns (Ok services), w1) →
  templates_ok cfg m hosts services →
  ∃ D, getContainersDnsRecords cfg m ∅ w = (Returns (Ok D), w1) ∧
    (∀ f ip, f ≠ stateName cfg m →
       listed D f ip ↔ publishes cfg m hosts (all_containers services) f ip).
Proof.
  intros Hh Hs Ht. pose proof (populate w) as Hinh.
  destruct (scan_total cfg m hosts Hh services Ht) as [st Hst]. specialize (Hst w1).
  exists (addStateRecord cfg m st). split.
  - unfold getContainersDnsRecords. rewrite try_bind_eq, Hs, prog_bind_eq, Hst. done.
  - intros f ip Hf. apply scan_wf in Hst as Hwf.
    apply (scan_seen cfg m hosts Hh) in Hst as [Hl _]. rewrite <-Hl.
    destruct (addStateRecord_desired cfg m st Hwf) as (_ & _ & Hk).
    unfold listed. by rewrite Hk.
Qed.

(** Each synchronization reads the environment's name anew, so that names
    follow a renamed environment, but keeps the environment's identifier, so
    that the ownership record stays found; without an answer after five
    attempts the client is unchanged and nothing is published. *)
Lemma GetMetadataDnsRecords_refresh (m : MetadataClient) (w : W) :
  GetMetadataDnsRecords cfg m w =
  match retry GetSelfStack
          [1 * Second; 2 * Second; 4 * Second; 8 * Second; 16 * Second] "" w with
  | (Returns (Ok stack), w1) =>
      let m := mkMetadataClient (Stack_EnvironmentName stack) (EnvironmentUUID m) in
      (r ← getContainersDnsRecords cfg m ∅; mret (m, r)) w1
  | (Returns (Err err), w1) => (Returns (m, Err ("Error reading stack info: " +:+ err)), w1)
  | (Panics e, w1) => (Panics e, w1)
  | (Exits e, w1) => (Exits e, w1)
  end.
Proof.
  unfold GetMetadataDnsRecords, updateEnvironmentName, getEnvironment.
  rewrite prog_bind_eq, !try_bind_eq, backoff_retry.
  change (delays_from _ _ _) with [1 * Second; 2 * Second; 4 * Second; 8 * Second; 16 * Second].
  by destruct (retry _ _ _ _) as [[[]| |] ?].
Qed.
End claims.

(** ** Names under the default template *)

Definition no_dot (s : string) : bool := str_all (λ c, negb (bool_decide (c = "."%char))) s.

Lemma split_at_dot s1 s2 t1 t2 :
  no_dot s1 = true → no_dot s2 = true →
  s1 +:+ "." +:+ t1 = s2 +:+ "." +:+ t2 → s1 = s2 ∧ t1 = t2.
Proof.
  revert s2. induction s1 as [|c s1 IH]; intros [|d s2] H1 H2;
    autorewrite with gostr.
  - by intros [= ->].
  - intros [= <- _]. done.
  - intros [= -> _]. done.
  - apply andb_true_iff in H1 as [_ H1], H2 as [_ H2]. intros [= -> He].
    by destruct (IH s2 H1 H2 He) as [-> ->].
Qed.

Section default_name.
Context `{GoUnicode}.

(** A label as it appears in a name. *)
Definition label (s : string) : string := ToLower (sanitizeLabel s).

Lemma sanitizeLabel_ascii s : str_all is_ascii (sanitizeLabel s) = true.
Proof.
  destruct (sanitizeLabel_wf_aux s) as [Hl _]. revert Hl. apply str_all_impl.
  apply label_char_ascii.
Qed.

Lemma label_no_dot s : no_dot (label s) = true.
Proof.
  unfold label, no_dot. rewrite ToLower_ascii by apply sanitizeLabel_ascii.
  rewrite str_all_map. destruct (sanitizeLabel_wf_aux s) as [Hl _]. revert Hl.
  apply str_all_impl. intros c. byte_cases c.
Qed.

Lemma default_name_aux svc stack env root :
  FqdnFromTemplate defaultNameTemplate svc stack env root =
  Returns (ToLower (sanitizeLabel svc +:+ "." +:+ sanitizeLabel stack +:+ "." +:+
                    sanitizeLabel env +:+ "." +:+ root)).
Proof.
  unfold FqdnFromTemplate.
  change (NewTemplate _ _ _) with (Returns (A:=result Template)
    (Ok (mkTemplate defaultNameTemplate "%{{" "}}" [""; "."; "."; ""]
           ["service_name"; "stack_name"; "environment_name"]))).
  unfold ExecuteFuncString, ExecuteFunc. cbn -[sanitizeLabel ToLower String.append fqdn_tag].
  rewrite !fqdn_tag_known by (unfold known_tag; auto).
  change (tag_label _ _ _ "service_name") with (sanitizeLabel svc).
  change (tag_label _ _ _ "stack_name") with (sanitizeLabel stack).
  change (tag_label _ _ _ "environment_name") with (sanitizeLabel env).
  cbn [mbind outcome_bind mret outcome_ret]. do 2 f_equal.
  by rewrite !(right_id_L "" String.append), (left_id_L "" String.append), <-!(assoc_L String.append).
Qed.

(** [C24] The name of a service under the default template is
    [service.stack.environment.root] made of its sanitized labels, in lower
    case; and the names of two services are equal only if their labels are:
    different services, stacks or environments (as labels) never share a
    name. *)
Theorem default_template_name (root svc stack env : string) :
  str_all is_ascii root = true →
  let name svc stack env :=
    label svc +:+ "." +:+ label stack +:+ "." +:+ label env +:+ "." +:+ ToLower root in
  FqdnFromTemplate defaultNameTemplate svc stack env root = Returns (name svc stack env) ∧
  (∀ svc' stack' env', name svc stack env = name svc' stack' env' ↔
     label svc = label svc' ∧ label stack = label stack' ∧ label env = label env').
Proof.
  intros Hroot name. split.
  - rewrite default_name_aux. f_equal. unfold name, label.
    rewrite !ToLower_app; rewrite ?str_all_app, ?sanitizeLabel_ascii, ?Hroot; done.
  - intros svc' stack' env'. split; [|by intros (H1 & H2 & H3); unfold name; rewrite H1, H2, H3].
    intros (? & H2)%split_at_dot; try apply label_no_dot.
    apply split_at_dot in H2 as (? & H3); try apply label_no_dot.
    by apply split_at_dot in H3 as (? & _); try apply label_no_dot.
Qed.
End default_name.

Lemma default_template_name_witness :
  let H := Samples.ascii_unicode in
  FqdnFromTemplate defaultNameTemplate "My Web" "shop" "Default" "example.com." =
    Returns "my-web.shop.default.example.com.".
Proof.
  intros H. by apply (default_template_name "example.com." "My Web" "shop" "Default").
Defined.

(** ** An environment with two services

    [web] runs on an enabled and a disabled host, [db] publishes no port. *)
Module Example_environment.

Definition cfg : Config :=
  mkConfig "example.com." 300 "http://platform" "key" "secret" defaultNameTemplate
    "http://metadata" ":10000".

Definition m : MetadataClient := mkMetadataClient "Default" "uuid-1".

Definition services : list Service :=
  [Samples.service "web" "shop" ∅
     [Samples.container "web" "shop" "h1" "running" ["203.0.113.5:80:80"];
      Samples.container "web" "shop" "h1" "running" ["0.0.0.0:80:80"];
      Samples.container "web" "shop" "h2" "running" ["203.0.113.6:80:80"]];
   Samples.service "db" "shop" ∅ [Samples.container "db" "shop" "h1" "running" []]].

Definition hosts (u : string) : result Host :=
  if bool_decide (u = "h1") then Ok (Samples.host "h1" "198.51.100.1" ∅)
  else if bool_decide (u = "h2") then
    Ok (Samples.host "h2" "198.51.100.2" {[ legacyHostPolicyLabel := "false" ]})
  else Err "no such host".

(** A metadata service with fixed reports. *)
Definition fixed_client W (version : string) (self : Stack) (services : list Service)
    (hosts : string → result Host) : Client W := {|
  GetVersion := mret (Ok version);
  GetSelfStack := mret (Ok self);
  GetServices := mret (Ok services);
  GetHost := λ u, mret (hosts u);
|}.

Definition unicode : GoUnicode := Samples.ascii_unicode.
Definition clock : Clock unit := Samples.frozen_clock unit.
Definition service : Client unit :=
  fixed_client unit "1" (Samples.stack "Default" "uuid-2") services hosts.
Existing Instances unicode clock service.

(** What the run yields. *)
Definition run : outcome (MetadataClient * result (gmap string MetadataDnsRecord)) :=
  fst (GetMetadataDnsRecords cfg m tt).

Definition desired : gmap string MetadataDnsRecord :=
  match run with Returns (_, Ok D) => D | _ => ∅ end.

Example desired_records :
  (λ r, (Type_ (DnsRecord_ r), Records (DnsRecord_ r))) <$> desired =
  {[ "web.shop.default.example.com." := ("A", ["203.0.113.5"; "198.51.100.1"]);
     "external-dns-uuid-1.example.com." := ("TXT", ["web.shop.default.example.com."]) ]}.
Proof. vm_compute. reflexivity. Qed.

Lemma GetMetadataDnsRecords_desired_witness :
  GetMetadataDnsRecords cfg m tt = (Returns (mkMetadataClient "Default" "uuid-1", Ok desired), tt) ∧
  wf_desired "external-dns-uuid-1.example.com." desired.
Proof.
  assert (GetMetadataDnsRecords cfg m tt =
    (Returns (mkMetadataClient "Default" "uuid-1", Ok desired), tt)) as Hrun
    by (vm_compute; reflexivity).
  split; [exact Hrun|].
  apply (GetMetadataDnsRecords_desired cfg m (mkMetadataClient "Default" "uuid-1") tt tt desired Hrun).
Defined.

Lemma templates m' : EnvironmentName m' = "Default" → templates_ok cfg m' hosts services.
Proof.
  intros Hm svc c ip [Hs Hc]%elem_of_all_containers _. destruct m' as [n u]. simpl in Hm. subst n.
  repeat (apply elem_of_cons in Hs as [->|Hs]; [
    repeat (apply elem_of_cons in Hc as [->|Hc]; [eexists; vm_compute; reflexivity|]);
    by apply elem_of_nil in Hc|]).
  by apply elem_of_nil in Hs.
Qed.

Lemma published_addresses_witness :
  ∃ D, getContainersDnsRecords cfg m ∅ tt = (Returns (Ok D), tt) ∧
    ∀ f ip, f ≠ stateName cfg m →
      listed D f ip ↔ publishes cfg m hosts (all_containers services) f ip.
Proof.
  apply (published_addresses cfg m hosts services tt tt); [done|done|].
  by apply templates.
Defined.
End Example_environment.
