(* ===== verification/Provider.v ===== *)
(** * DNS providers

    [src/providers/provider.go]: the interface every provider implements and
    the registry; and the contract the reconciler relies on, stated on an
    abstract zone. *)

From S2P Require Import Prelude GoStrings GoStrconv FastTemplate Utils.

(** ** The interface *)

Class Provider (W : Type) := mkProvider {
  Init : string → prog W (result unit);
  GetName : string;
  HealthCheck : prog W (result unit);
  AddRecord : DnsRecord → prog W (result unit);
  RemoveRecord : DnsRecord → prog W (result unit);
  UpdateRecord : DnsRecord → prog W (result unit);
  GetRecords : prog W (result (list DnsRecord));
}.
Arguments mkProvider {W}.

(** [if v = os.Getenv(name); len(v) == 0 { return error }], which begins the
    [Init] of most providers. *)
Definition with_env {W A} (Getenv : string → string) (name : string)
    (k : string → prog W (result A)) : prog W (result A) :=
  let v := Getenv name in
  if bool_decide (v = "") then mret (Err (name +:+ " is not set")) else k v.

(** ** The registry *)

Abbreviation registry W := (gmap string (Provider W)) (only parsing).

Definition GetProvider {W} (providers : registry W) (name rootDomainName : string)
    : prog W (result (Provider W)) :=
  match providers !! name with
  | Some provider =>
      let! _ := Init (Provider:=provider) rootDomainName in
      mret (Ok provider)
  | None => mret (Err ("No such provider '" +:+ name +:+ "'"))
  end.

(** A second registration under a name ends the process. *)
Definition RegisterProvider {W} (name : string) (provider : Provider W)
    (providers : registry W) : outcome (registry W) :=
  match providers !! name with
  | Some _ => Exits ("Provider '" +:+ name +:+ "' tried to register twice")
  | None => Returns (<[name := provider]> providers)
  end.

(** Registering a list of providers, as the [init] functions do. *)
Fixpoint register_all {W} (l : list (string * Provider W)) (providers : registry W)
    : outcome (registry W) :=
  match l with
  | [] => Returns providers
  | (name, p) :: l =>
      providers ← RegisterProvider name p providers;
      register_all l providers
  end.

(** ** Zones

    The record sets of a DNS zone: for a name and a type, the set of values and
    the TTL. *)
Record rrset := mkRrset { rr_values : gset string; rr_ttl : Z }.

#[export] Instance rrset_eq_dec : EqDecision rrset.
Proof. solve_decision. Defined.

Abbreviation zone_map := (gmap (string * string) rrset) (only parsing).

Definition rr_key (r : DnsRecord) : string * string := (Fqdn_ r, Type_ r).
Definition rr_set (r : DnsRecord) : rrset :=
  mkRrset (list_to_set (Records r)) (TTL r).

(** The zone a list of records describes. *)
Definition zone_of (recs : list DnsRecord) : zone_map :=
  list_to_map ((λ r, (rr_key r, rr_set r)) <$> recs).

Definition put (r : DnsRecord) (Z : zone_map) : zone_map := <[rr_key r := rr_set r]> Z.

(** Zones that agree but for one key. *)
Definition same_but (k : string * string) (Z Z' : zone_map) : Prop :=
  ∀ k', k' ≠ k → Z' !! k' = Z !! k'.

(** After a change to [r] that failed: no other record set is affected, and the
    one of [r] has no value that it did not have before or that [r] lacks. *)
Definition interrupted (r : DnsRecord) (Z Z' : zone_map) : Prop :=
  same_but (rr_key r) Z Z' ∧
  ∀ v' x, Z' !! rr_key r = Some v' → x ∈ rr_values v' →
    x ∈ Records r ∨ ∃ v, Z !! rr_key r = Some v ∧ x ∈ rr_values v.

(** ** The contract

    A provider that operates on a zone: listing describes the zone exactly,
    with one record per name and type; a successful change has its effect and
    no other; a failed change can only affect the record set it was about, and
    leaves no value in it that comes from nowhere.
    [good] is the provider's own invariant and [storable] tells the records it
    can represent. *)
Class ProviderContract (W : Type) `{Provider W} := {
  zone : W → zone_map;
  good : W → Prop;
  storable : DnsRecord → Prop;

  GetRecords_contract w : good w →
    ∃ res w', GetRecords w = (Returns res, w') ∧ good w' ∧ zone w' = zone w ∧
      match res with
      | Ok recs => NoDup (rr_key <$> recs) ∧ zone w = zone_of recs
      | Err _ => True
      end;
  AddRecord_contract w r : good w → storable r → zone w !! rr_key r = None →
    ∃ res w', AddRecord r w = (Returns res, w') ∧ good w' ∧
      match res with
      | Ok _ => zone w' = put r (zone w)
      | Err _ => interrupted r (zone w) (zone w')
      end;
  UpdateRecord_contract w r : good w → storable r → zone w !! rr_key r ≠ None →
    ∃ res w', UpdateRecord r w = (Returns res, w') ∧ good w' ∧
      match res with
      | Ok _ => zone w' = put r (zone w)
      | Err _ => interrupted r (zone w) (zone w')
      end;
  RemoveRecord_contract w r : good w → zone w !! rr_key r = Some (rr_set r) →
    ∃ res w', RemoveRecord r w = (Returns res, w') ∧ good w' ∧
      match res with
      | Ok _ => zone w' = delete (rr_key r) (zone w)
      | Err _ => interrupted r (zone w) (zone w')
      end;
}.

(** ** Properties of zones *)

Lemma zone_of_keys recs :
  ((λ r, (rr_key r, rr_set r)) <$> recs).*1 = rr_key <$> recs.
Proof. by rewrite <-list_fmap_compose. Qed.

Lemma zone_of_Some recs k v :
  NoDup (rr_key <$> recs) →
  zone_of recs !! k = Some v ↔ ∃ r, r ∈ recs ∧ rr_key r = k ∧ rr_set r = v.
Proof.
  intros Hnd. unfold zone_of. rewrite <-(elem_of_list_to_map (M:=gmap (string * string))) by by rewrite zone_of_keys.
  rewrite list_elem_of_fmap. naive_solver.
Qed.

Lemma zone_of_None recs k :
  zone_of recs !! k = None ↔ ∀ r, r ∈ recs → rr_key r ≠ k.
Proof.
  unfold zone_of. rewrite <-(not_elem_of_list_to_map (M:=gmap (string * string))), zone_of_keys, list_elem_of_fmap.
  naive_solver.
Qed.

(** Zones of listings in another order, and of parts of a listing. *)
Lemma zone_of_perm recs recs' :
  NoDup (rr_key <$> recs) → recs ≡ₚ recs' → zone_of recs = zone_of recs'.
Proof.
  intros Hnd Hp. unfold zone_of. apply list_to_map_proper; [by rewrite zone_of_keys|].
  by apply fmap_Permutation.
Qed.

Lemma zone_of_cons r recs : zone_of (r :: recs) = put r (zone_of recs).
Proof. done. Qed.

Lemma zone_of_filter recs k :
  NoDup (rr_key <$> recs) → zone_of (filter (λ r, rr_key r ≠ k) recs) = delete k (zone_of recs).
Proof.
  intros Hnd. apply map_eq. intros k'. apply option_eq. intros v.
  rewrite lookup_delete_Some, (zone_of_Some recs k' v Hnd).
  rewrite zone_of_Some.
  - setoid_rewrite list_elem_of_filter. naive_solver.
  - eapply sublist_NoDup; [exact Hnd|]. apply fmap_sublist, sublist_filter.
Qed.

Lemma put_delete r Z : put r (delete (rr_key r) Z) = put r Z.
Proof. apply insert_delete_eq. Qed.

Lemma same_but_refl k Z : same_but k Z Z.
Proof. by intros k' _. Qed.

Lemma interrupted_refl r Z : interrupted r Z Z.
Proof. split; [apply same_but_refl|]. eauto. Qed.

Lemma put_lookup r Z : put r Z !! rr_key r = Some (rr_set r).
Proof. apply lookup_insert_eq. Qed.

Lemma put_lookup_ne r Z k : k ≠ rr_key r → put r Z !! k = Z !! k.
Proof. intros Hk. by apply lookup_insert_ne. Qed.

(** ** The registry's theorem *)

Lemma register_all_lookup {W} (l : list (string * Provider W)) providers providers' :
  register_all l providers = Returns providers' →
  NoDup l.*1 ∧ (∀ n, n ∈ l.*1 → providers !! n = None) ∧
  ∀ n p, providers' !! n = Some p ↔ providers !! n = Some p ∨ (n, p) ∈ l.
Proof.
  revert providers. induction l as [|[n p] l IH]; intros providers; simpl.
  { intros [= <-]. split; [constructor|]. split; [set_solver|].
    intros. rewrite elem_of_nil. tauto. }
  unfold RegisterProvider. destruct (providers !! n) eqn:Hn; simpl; [done|].
  intros Hr. apply IH in Hr as (Hnd & Hfresh & Hlk).
  assert (n ∉ l.*1) as Hnl.
  { intros Hin. apply Hfresh in Hin. by rewrite lookup_insert_eq in Hin. }
  split; [by constructor|]. split.
  - intros n' [->|Hin]%elem_of_cons; [done|]. destruct (decide (n' = n)) as [->|Hne]; [done|].
    apply Hfresh in Hin. by rewrite lookup_insert_ne in Hin.
  - intros n' p'. rewrite Hlk, elem_of_cons. destruct (decide (n' = n)) as [->|Hne].
    + rewrite lookup_insert_eq, Hn. naive_solver.
    + rewrite lookup_insert_ne by done. naive_solver.
Qed.

(** The registry: registration succeeds exactly when no name is used
    twice, and then a name is looked up to the provider that was registered
    under it; [GetProvider] returns a provider only after its [Init]
    succeeded, and touches nothing for an unknown name. *)
Lemma registry_spec {W} (l : list (string * Provider W)) :
  match register_all l ∅ with
  | Returns providers =>
      NoDup l.*1 ∧
      (∀ n p, providers !! n = Some p ↔ (n, p) ∈ l) ∧
      (∀ n root w, GetProvider providers n root w =
         match providers !! n with
         | None => (Returns (Err ("No such provider '" +:+ n +:+ "'")), w)
         | Some p =>
             match Init (Provider:=p) root w with
             | (Returns (Ok _), w') => (Returns (Ok p), w')
             | (Returns (Err e), w') => (Returns (Err e), w')
             | (Panics e, w') => (Panics e, w')
             | (Exits e, w') => (Exits e, w')
             end
         end)
  | Exits _ => ¬ NoDup l.*1
  | Panics _ => False
  end.
Proof.
  destruct (register_all l ∅) as [providers|e|e] eqn:Hr.
  - apply register_all_lookup in Hr as (Hnd & _ & Hlk). split; [done|]. split.
    + intros n p. rewrite Hlk, lookup_empty. naive_solver.
    + intros n root w. unfold GetProvider. destruct (providers !! n); [|done].
      by rewrite try_bind_eq.
  - revert Hr. generalize (∅ : registry W). induction l as [|[n p] l IH]; intros ps; simpl; [done|].
    unfold RegisterProvider. destruct (ps !! n); simpl; [done|apply IH].
  - assert (∀ ps : registry W, register_all l ps = Exits e → NoDup l.*1 →
      ∃ n, n ∈ l.*1 ∧ ps !! n ≠ None) as Hex.
    { clear Hr. induction l as [|[n p] l IH]; intros ps; simpl; [done|].
      unfold RegisterProvider. destruct (ps !! n) eqn:Hn; simpl.
      { intros _ _. exists n. rewrite Hn. split; [by left|done]. }
      intros Hr [Hnl Hnd]%list.NoDup_cons. destruct (IH _ Hr Hnd) as (n' & Hin & Hne).
      exists n'. rewrite lookup_insert_ne in Hne by (by intros ->). split; [by right|done]. }
    intros Hnd. destruct (Hex ∅ Hr Hnd) as (n & _ & Hne). by rewrite lookup_empty in Hne.
Qed.

(** ** A provider in memory

    The contract can be met: a world that is the zone itself.  Record sets
    without values do not exist. *)
Module Memory.

Definition listing (Z : zone_map) : list DnsRecord :=
  (λ '((name, type), v), mkDnsRecord name (elements (rr_values v)) type (rr_ttl v))
    <$> map_to_list Z.

#[export] Instance provider : Provider zone_map := {|
  Init := λ _, mret (Ok tt);
  GetName := "memory";
  HealthCheck := mret (Ok tt);
  AddRecord := λ r Z, (Returns (Ok tt), put r Z);
  RemoveRecord := λ r Z, (Returns (Ok tt), delete (rr_key r) Z);
  UpdateRecord := λ r Z, (Returns (Ok tt), put r Z);
  GetRecords := λ Z, (Returns (Ok (listing Z)), Z);
|}.

Lemma listing_pairs Z : (λ r, (rr_key r, rr_set r)) <$> listing Z = map_to_list Z.
Proof.
  unfold listing. rewrite <-list_fmap_compose. rewrite <-(list_fmap_id (map_to_list Z)) at 2.
  apply list_fmap_ext. intros i [[name type] [vs t]] _. unfold rr_key, rr_set. simpl.
  by rewrite list_to_set_elements_L.
Qed.

Lemma listing_zone Z : zone_of (listing Z) = Z.
Proof. unfold zone_of. rewrite listing_pairs. apply list_to_map_to_list. Qed.

Lemma listing_nodup Z : NoDup (rr_key <$> listing Z).
Proof.
  rewrite <-zone_of_keys, listing_pairs. apply NoDup_fst_map_to_list.
Qed.

#[export] Instance contract : ProviderContract zone_map.
Proof.
  refine {| zone := id; good := λ _, True; storable := λ _, True |}.
  - intros Z _. eexists _, Z. do 3 (split; [done|]). split; [apply listing_nodup|].
    symmetry. apply listing_zone.
  - intros Z r _ _ _. by eexists _, _.
  - intros Z r _ _ _. by eexists _, _.
  - intros Z r _ _. by eexists _, _.
Defined.
End Memory.
