(* ===== verification/Grouping.v ===== *)
(** * Listing records one value at a time

    Most providers store one value per record.  Their [GetRecords] group the
    values by name and type with two maps of maps; the loop is the same, line
    by line, in the files cloudflare.go, dnsimple.go, gandi.go, infoblox.go,
    ovh.go and pointhq.go under [src/providers], and is modelled once. *)

From S2P Require Import Prelude GoStrings GoStrconv FastTemplate Utils GoHttp Provider.
Local Open Scope Z_scope.

(** A record of the provider, as the loop sees it. *)
Record entry := mkEntry { e_fqdn : string; e_type : string; e_value : string; e_ttl : Z }.

Abbreviation record_map := (gmap string (gmap string (list string))) (only parsing).
Abbreviation ttl_map := (gmap string (gmap string Z)) (only parsing).

(** [recordMap[fqdn][type] = append(recordMap[fqdn][type], value)] *)
Definition add_value (e : entry) (recordMap : record_map) : record_map :=
  match recordMap !! e_fqdn e with
  | Some recordSet =>
      match recordSet !! e_type e with
      | Some recordSlice =>
          <[e_fqdn e := <[e_type e := recordSlice ++ [e_value e]]> recordSet]> recordMap
      | None => <[e_fqdn e := <[e_type e := [e_value e]]> recordSet]> recordMap
      end
  | None => <[e_fqdn e := {[e_type e := [e_value e]]}]> recordMap
  end.

(** [recordTTLs[fqdn] = map[string]int{}; recordTTLs[fqdn][type] = ttl] *)
Definition set_ttl (e : entry) (recordTTLs : ttl_map) : ttl_map :=
  <[e_fqdn e := {[e_type e := e_ttl e]}]> recordTTLs.

Definition add_values (entries : list entry) : record_map :=
  foldl (λ recordMap e, add_value e recordMap) ∅ entries.
Definition set_ttls (entries : list entry) : ttl_map :=
  foldl (λ recordTTLs e, set_ttl e recordTTLs) ∅ entries.

(** The two loops over [recordMap], in one of the orders of Go maps; a missing
    TTL is zero. *)
Definition flatten (ttl : string → string → Z) (recordMap : record_map) : list DnsRecord :=
  map_to_list recordMap ≫= λ '(fqdn, recordSet),
    (λ '(recordType, recordSlice),
       mkDnsRecord fqdn recordSlice recordType (ttl fqdn recordType)) <$> map_to_list recordSet.

Definition group (entries : list entry) : list DnsRecord :=
  flatten (λ fqdn recordType, default 0 (set_ttls entries !! fqdn ≫= lookup recordType))
    (add_values entries).

(** ** What the listing holds *)

(** The values stored under a name and a type, in order. *)
Definition values_of (entries : list entry) (fqdn type : string) : list string :=
  e_value <$> filter (λ e, e_fqdn e = fqdn ∧ e_type e = type) entries.

(** The TTL that is listed: the one of the last record of the name if that has
    the type, and zero otherwise. *)
Definition listed_ttl (entries : list entry) (fqdn type : string) : Z :=
  match list.last (filter (λ e, e_fqdn e = fqdn) entries) with
  | Some e => if bool_decide (e_type e = type) then e_ttl e else 0
  | None => 0
  end.

Lemma flatten_elem ttl (M : record_map) r :
  r ∈ flatten ttl M ↔
  M !! Fqdn_ r ≫= lookup (Type_ r) = Some (Records r) ∧ TTL r = ttl (Fqdn_ r) (Type_ r).
Proof.
  unfold flatten. rewrite list_elem_of_bind. split.
  - intros ([f RS] & Hin & HM%elem_of_map_to_list).
    apply list_elem_of_fmap in Hin as ([t vs] & -> & HS%elem_of_map_to_list). simpl.
    by rewrite HM.
  - intros [HM Ht]. apply bind_Some in HM as (RS & HM & HS). exists (Fqdn_ r, RS).
    split; [|by apply elem_of_map_to_list]. apply list_elem_of_fmap.
    exists (Type_ r, Records r). split; [|by apply elem_of_map_to_list].
    destruct r; simpl in *. by rewrite Ht.
Qed.

Lemma flatten_nodup ttl (M : record_map) : NoDup (rr_key <$> flatten ttl M).
Proof.
  assert (rr_key <$> flatten ttl M =
    map_to_list M ≫= λ '(f, RS), (λ '(t, _), (f, t)) <$> map_to_list RS) as ->.
  { unfold flatten. rewrite fmap_bind. apply list_bind_ext; [|done].
    intros [f RS]. simpl. rewrite <-list_fmap_compose. apply list_fmap_ext. by intros i [t vs] _. }
  apply NoDup_bind.
  - intros [f1 S1] [f2 S2] [f t] H1%elem_of_map_to_list H2%elem_of_map_to_list Hy1 Hy2.
    apply list_elem_of_fmap in Hy1 as ([t1 v1] & [= <- _] & _).
    apply list_elem_of_fmap in Hy2 as ([t2 v2] & [= <- _] & _). congruence.
  - intros [f RS] _. assert ((λ '(t, _), (f, t)) <$> map_to_list RS = pair f <$> (map_to_list RS).*1) as ->.
    { rewrite <-list_fmap_compose. apply list_fmap_ext. by intros i [t v] _. }
    apply NoDup_fmap_2; [apply _|]. apply NoDup_fst_map_to_list.
  - apply NoDup_map_to_list.
Qed.

Lemma add_values_lookup entries f t :
  add_values entries !! f ≫= lookup t =
  match values_of entries f t with [] => None | vs => Some vs end.
Proof.
  unfold add_values, values_of. induction entries as [|e entries IH] using rev_ind.
  { cbn. by rewrite lookup_empty. }
  rewrite foldl_snoc, list.filter_app, fmap_app, filter_cons, filter_nil.
  set (M := foldl _ _ entries) in *. unfold add_value.
  destruct (decide (e_fqdn e = f)) as [Hf|Hf].
  - rewrite Hf. destruct (M !! f) as [RS|] eqn:HM; simpl in IH.
    + destruct (decide (e_type e = t)) as [Ht|Ht].
      * rewrite decide_True by done. rewrite Ht, IH. simpl.
        destruct (e_value <$> filter _ entries) as [|v vs];
          by rewrite !lookup_insert_eq; simpl; rewrite lookup_insert_eq.
      * rewrite decide_False by naive_solver. rewrite app_nil_r, <-IH.
        destruct (RS !! e_type e); rewrite lookup_insert_eq; simpl; by rewrite lookup_insert_ne.
    + assert (e_value <$> filter (λ e, e_fqdn e = f ∧ e_type e = t) entries = []) as Hnil
        by (by destruct (e_value <$> _)).
      rewrite Hnil. rewrite lookup_insert_eq. simpl. destruct (decide (e_type e = t)) as [Ht|Ht].
      * rewrite decide_True by done. by rewrite Ht, lookup_singleton_eq.
      * rewrite decide_False by naive_solver. by rewrite lookup_singleton_ne.
  - rewrite decide_False by naive_solver. rewrite app_nil_r, <-IH.
    destruct (M !! e_fqdn e) as [RS|]; [destruct (RS !! e_type e)|]; by rewrite lookup_insert_ne.
Qed.

Lemma set_ttls_lookup entries f t :
  default 0 (set_ttls entries !! f ≫= lookup t) = listed_ttl entries f t.
Proof.
  unfold set_ttls, listed_ttl. induction entries as [|e entries IH] using rev_ind.
  { cbn. by rewrite lookup_empty. }
  rewrite foldl_snoc, list.filter_app, filter_cons, filter_nil. unfold set_ttl at 1.
  destruct (decide (e_fqdn e = f)) as [Hf|Hf].
  - rewrite Hf, lookup_insert_eq, last_snoc. simpl.
    destruct (decide (e_type e = t)) as [<-|Ht].
    + by rewrite lookup_singleton_eq, bool_decide_eq_true_2.
    + by rewrite lookup_singleton_ne, bool_decide_eq_false_2.
  - by rewrite lookup_insert_ne, app_nil_r.
Qed.

Lemma group_nodup entries : NoDup (rr_key <$> group entries).
Proof. apply flatten_nodup. Qed.

Lemma group_elem entries r :
  r ∈ group entries ↔
  Records r = values_of entries (Fqdn_ r) (Type_ r) ∧ Records r ≠ [] ∧
  TTL r = listed_ttl entries (Fqdn_ r) (Type_ r).
Proof.
  unfold group. rewrite flatten_elem, add_values_lookup, set_ttls_lookup.
  destruct (values_of _ _ _) as [|v vs]; split; intuition congruence.
Qed.

(** [C21] What the shared listing loop makes of the provider's records: one
    record per name and type, whose values are exactly the stored ones, in the
    order of the provider.  The TTL is right for a name that carries one type
    and one TTL; but the loop replaces the map of the TTLs of a name at every
    record, so a record set of another type than the last record of its name
    is listed with TTL 0. *)
Theorem group_spec (entries : list entry) :
  NoDup (rr_key <$> group entries) ∧
  (∀ r, r ∈ group entries ↔
     Records r = values_of entries (Fqdn_ r) (Type_ r) ∧ Records r ≠ [] ∧
     TTL r = listed_ttl entries (Fqdn_ r) (Type_ r)) ∧
  (∀ r ttl, r ∈ group entries →
     (∀ e, e ∈ entries → e_fqdn e = Fqdn_ r → e_type e = Type_ r ∧ e_ttl e = ttl) →
     TTL r = ttl) ∧
  (∀ l e r, entries = l ++ [e] → e_fqdn e = Fqdn_ r → e_type e ≠ Type_ r →
     r ∈ group entries → TTL r = 0).
Proof.
  split; [apply group_nodup|]. split; [apply group_elem|]. split.
  - intros r ttl (Hvs & Hne & ->)%group_elem Hall. unfold listed_ttl.
    destruct (list.last (filter _ entries)) as [e|] eqn:Hlast.
    + apply last_Some in Hlast as (l & Hl).
      assert (e ∈ filter (λ e, e_fqdn e = Fqdn_ r) entries) as Hin by (rewrite Hl; set_solver).
      apply list_elem_of_filter in Hin as [Hf Hin]. destruct (Hall e Hin Hf) as [Ht <-].
      by rewrite bool_decide_eq_true_2.
    + exfalso. apply last_None in Hlast. rewrite Hvs in Hne.
      destruct (values_of entries (Fqdn_ r) (Type_ r)) as [|v vs] eqn:Hv; [done|].
      assert (v ∈ values_of entries (Fqdn_ r) (Type_ r)) as Hin by (rewrite Hv; by left).
      apply list_elem_of_fmap in Hin as (e & _ & [[Hf _] He]%list_elem_of_filter).
      assert (e ∈ filter (λ e, e_fqdn e = Fqdn_ r) entries) as Hbad
        by (by apply list_elem_of_filter).
      rewrite Hlast in Hbad. set_solver.
  - intros l e r -> Hf Ht (_ & _ & ->)%group_elem. unfold listed_ttl.
    rewrite list.filter_app, filter_cons, decide_True by done. rewrite filter_nil, last_snoc.
    by rewrite bool_decide_eq_false_2.
Qed.
