(* ===== verification/Store.v ===== *)
(** * Changing records one value at a time

    Cloudflare, DigitalOcean, DNSimple, Gandi, OVH, PointHQ and AliDNS keep one
    value per record, and change a record set by looking for its records,
    deleting them one by one and creating one per value.  The interface of such
    a store, and what these loops do to it. *)

From S2P Require Import Prelude GoStrings GoStrconv FastTemplate Utils GoHttp Provider.

(** A store of records of type [X]. *)
Class ValueStore (W X : Type) := {
  vs_store : W → list X;
  vs_good : W → Prop;
  vs_value : X → string;
}.

Section store.
Context {W X : Type} `{ValueStore W X} (mine : X → Prop) `{∀ x, Decision (mine x)}.

(** The program returns; it changes the store as [P] says, or fails. *)
Definition runs {A} (p : prog W (result A)) (w : W) (P : A → W → Prop) (E : W → Prop) : Prop :=
  ∃ res w', p w = (Returns res, w') ∧ vs_good w' ∧
    match res with Ok a => P a w' | Err _ => E w' end.

Lemma runs_mono {A} (p : prog W (result A)) w (P P' : A → W → Prop) (E E' : W → Prop) :
  runs p w P E → (∀ a w', P a w' → P' a w') → (∀ w', E w' → E' w') → runs p w P' E'.
Proof.
  intros (res & w' & Hr & Hg & Hres) HP HE. exists res, w'. do 2 (split; [done|]).
  destruct res; auto.
Qed.

Definition others (w : W) : list X := filter (λ x, ¬ mine x) (vs_store w).
Definition ours (w : W) : list X := filter mine (vs_store w).

Definition find_law (find : prog W (result (list X))) : Prop := ∀ w,
  vs_good w →
  runs find w (λ l w', vs_store w' ≡ₚ vs_store w ∧ l ≡ₚ ours w) (λ w', vs_store w' ≡ₚ vs_store w).
Definition delete_law (del : X → prog W (result unit)) : Prop := ∀ w x l,
  vs_good w → vs_store w ≡ₚ x :: l →
  runs (del x) w (λ _ w', vs_store w' ≡ₚ l) (λ w', vs_store w' ≡ₚ vs_store w).

(** A creation makes a record [made] for the set: of its name, type and TTL. *)
Definition create_law (made : X → Prop) (create : string → prog W (result unit)) : Prop := ∀ w v,
  vs_good w →
  runs (create v) w (λ _ w', ∃ x, made x ∧ vs_value x = v ∧ vs_store w' ≡ₚ x :: vs_store w)
    (λ w', vs_store w' ≡ₚ vs_store w).

(** A store is made of the records of the set and the others. *)
Lemma split_store st l o :
  Forall mine l → Forall (λ x, ¬ mine x) o → st ≡ₚ l ++ o →
  filter mine st ≡ₚ l ∧ filter (λ x, ¬ mine x) st ≡ₚ o.
Proof.
  intros Hl Ho ->. rewrite !list.filter_app. split.
  - rewrite (filter_all mine l), (filter_none mine o) by done. by rewrite app_nil_r.
  - rewrite (filter_all (λ x, ¬ mine x) o) by done.
    rewrite filter_none; [done|]. eapply list.Forall_impl; [exact Hl|]. naive_solver.
Qed.

Lemma store_parts w : vs_store w ≡ₚ ours w ++ others w.
Proof. symmetry. apply filter_app_complement. Qed.

Lemma parts_of w l :
  Forall mine l → vs_store w ≡ₚ l ++ others w → ours w ≡ₚ l.
Proof. intros Hl Hs. apply (split_store _ l (others w)); [done|apply Forall_filter|done]. Qed.

(** Deleting everything that was found. *)
Lemma delete_loop del l o w :
  delete_law del → vs_good w → Forall mine l → vs_store w ≡ₚ l ++ o →
  runs (each l del) w (λ _ w', vs_store w' ≡ₚ o)
    (λ w', ∃ l', l' ⊆+ l ∧ vs_store w' ≡ₚ l' ++ o).
Proof.
  intros Hdel. revert w. induction l as [|x l IH]; intros w Hw Hl Hs.
  { by exists (Ok tt), w. }
  apply list.Forall_cons in Hl as [Hx Hl].
  destruct (Hdel w x _ Hw Hs) as (res & w1 & Hr & Hw1 & Hres).
  unfold runs. rewrite each_cons, Hr. destruct res as [[]|e].
  - destruct (IH w1 Hw1 Hl Hres) as (res & w2 & Hr2 & Hw2 & Hres2).
    exists res, w2. split; [done|]. split; [done|]. destruct res; [done|].
    destruct Hres2 as (l' & Hl' & ?). exists l'. split; [|done]. by apply submseteq_cons.
  - exists (Err e), w1. do 2 (split; [done|]). exists (x :: l). split; [done|]. by rewrite Hres, Hs.
Qed.

Lemma remove_effect find del w :
  find_law find → delete_law del → vs_good w →
  runs (let! l := find in each l del) w (λ _ w', vs_store w' ≡ₚ others w)
    (λ w', ∃ l, l ⊆+ ours w ∧ vs_store w' ≡ₚ l ++ others w).
Proof.
  intros Hfind Hdel Hw. destruct (Hfind w Hw) as (res & w1 & Hr & Hw1 & Hres).
  unfold runs. rewrite try_bind_eq, Hr. destruct res as [l|e].
  - destruct Hres as [Hs Hl].
    destruct (delete_loop del l (others w) w1 Hdel Hw1) as (res & w2 & Hr2 & Hw2 & Hres2).
    { rewrite Hl. apply Forall_filter. }
    { by rewrite Hs, Hl, <-store_parts. }
    exists res, w2. split; [done|]. split; [done|]. destruct res; [done|].
    destruct Hres2 as (l' & ? & ?). exists l'. split; [by rewrite <-Hl|done].
  - exists (Err (id e)), w1. do 2 (split; [done|]). exists (ours w). split; [done|].
    by rewrite Hres, <-store_parts.
Qed.

(** A part of the set is left. *)
Lemma part_left w w' l :
  l ⊆+ ours w → vs_store w' ≡ₚ l ++ others w → others w' ≡ₚ others w ∧ ours w' ⊆+ ours w.
Proof.
  intros Hl Hs. assert (Forall mine l) as HF.
  { apply list.Forall_forall. intros x Hx.
    assert (x ∈ ours w) as Hin by (by eapply elem_of_submseteq).
    by apply list_elem_of_filter in Hin as [? _]. }
  destruct (split_store (vs_store w') l (others w) HF) as [H1 H2]; [apply Forall_filter|done|].
  split; [done|]. unfold ours at 1. by rewrite H1.
Qed.

(** Creating one record per value. *)
Context (made : X → Prop) (made_mine : ∀ x, made x → mine x).

Lemma create_loop create values w :
  create_law made create → vs_good w →
  runs (each values create) w
    (λ _ w', ∃ new, Forall made new ∧ vs_value <$> new = values ∧ vs_store w' ≡ₚ new ++ vs_store w)
    (λ w', ∃ new, Forall made new ∧ vs_value <$> new `prefix_of` values ∧
       vs_store w' ≡ₚ new ++ vs_store w).
Proof.
  intros Hcreate. revert w. induction values as [|v values IH]; intros w Hw.
  { exists (Ok tt), w. do 2 (split; [done|]). by exists []. }
  destruct (Hcreate w v Hw) as (res & w1 & Hr & Hw1 & Hres).
  unfold runs. rewrite each_cons, Hr. destruct res as [[]|e].
  - destruct Hres as (x & Hx & <- & Hs).
    destruct (IH w1 Hw1) as (res & w2 & Hr2 & Hw2 & Hres2).
    exists res, w2. do 2 (split; [done|]). destruct res; destruct Hres2 as (new & ? & Hv & Hs2);
      exists (x :: new); (split; [by constructor|]); (split;
        [rewrite fmap_cons; first [by rewrite Hv|by apply prefix_cons]|]);
      rewrite Hs2, Hs; simpl; by rewrite Permutation_middle.
  - exists (Err e), w1. do 2 (split; [done|]). exists []. split; [done|].
    split; [apply prefix_nil|done].
Qed.

(** What replacing a record set by deletion and creation does: on success the
    set has one made record for every value, and nothing else changed; on
    failure nothing else changed either, and the set holds a part of the old
    records or a part of the new ones, never both. *)
Definition replaced (values : list string) (w w' : W) : Prop :=
  others w' ≡ₚ others w ∧
  ∃ new, ours w' ≡ₚ new ∧ Forall made new ∧ vs_value <$> new = values.
Definition half_replaced (values : list string) (w w' : W) : Prop :=
  others w' ≡ₚ others w ∧
  (ours w' ⊆+ ours w ∨
   ∃ new, ours w' ≡ₚ new ∧ Forall made new ∧ vs_value <$> new `prefix_of` values).

Lemma made_parts w w' new :
  Forall made new → vs_store w' ≡ₚ new ++ others w → others w' ≡ₚ others w ∧ ours w' ≡ₚ new.
Proof.
  intros Hnew Hs. destruct (split_store (vs_store w') new (others w)) as [H1 H2];
    [by eapply list.Forall_impl|apply Forall_filter|done|]. done.
Qed.

Lemma replace_effect find del create values w :
  find_law find → delete_law del → create_law made create → vs_good w →
  runs (let! _ := let! l := find in each l del in each values create) w
    (λ _ w', replaced values w w') (half_replaced values w).
Proof.
  intros Hfind Hdel Hcreate Hw.
  destruct (remove_effect find del w Hfind Hdel Hw) as (res & w1 & Hr & Hw1 & Hres).
  unfold runs. rewrite try_bind_eq, Hr. destruct res as [[]|e].
  - destruct (create_loop create values w1 Hcreate Hw1) as (res & w2 & Hr2 & Hw2 & Hres2).
    exists res, w2. do 2 (split; [done|]).
    destruct res; destruct Hres2 as (new & Hnew & Hv & Hs); rewrite Hres in Hs;
      destruct (made_parts w w2 new Hnew Hs) as [Ho Ho']; (split; [done|]); eauto 10.
  - exists (Err (id e)), w1. do 2 (split; [done|]). destruct Hres as (l & Hl & Hs).
    destruct (part_left w w1 l Hl Hs) as [? ?]. by split; [|left].
Qed.

(** Adding where the set has no records. *)
Lemma add_effect create values w :
  create_law made create → vs_good w → ours w = [] →
  runs (each values create) w (λ _ w', replaced values w w') (half_replaced values w).
Proof.
  intros Hcreate Hw Hnil. pose proof (store_parts w) as Hs. rewrite Hnil in Hs. simpl in Hs.
  eapply runs_mono; [by apply create_loop|..].
  - intros [] w' (new & Hnew & Hv & Hst). rewrite Hs in Hst.
    destruct (made_parts w w' new Hnew Hst). split; eauto.
  - intros w' (new & Hnew & Hv & Hst). rewrite Hs in Hst.
    destruct (made_parts w w' new Hnew Hst). split; eauto 10.
Qed.
End store.
