(* ===== verification/StoreZone.v ===== *)
(** * Zones of stores with one value per record

    When such a store implements the contract of a provider: the zone that a
    list of entries stands for, and what replacing, adding and removing a
    record set, as [Store] describes them, do to the zone. *)

From S2P Require Import Prelude GoStrings GoStrconv FastTemplate Utils GoHttp Provider.
From S2P Require Import Grouping Store.

(** ** The zone of a list of entries *)

Definition e_key (e : entry) : string * string := (e_fqdn e, e_type e).
Definition of_key (k : string * string) (l : list entry) : list entry :=
  filter (λ e, e_key e = k) l.

(** The values under a key, and the TTL of the first. *)
Definition set_of (es : list entry) : option rrset :=
  match es with
  | [] => None
  | e :: _ => Some (mkRrset (list_to_set (e_value <$> es)) (e_ttl e))
  end.

Definition store_zone (l : list entry) : zone_map :=
  foldr (λ e Z, <[e_key e := mkRrset ({[e_value e]} ∪ default ∅ (rr_values <$> Z !! e_key e))
                              (e_ttl e)]> Z) ∅ l.

(** Records of one name and type have one TTL. *)
Definition uniform (l : list entry) : Prop :=
  ∀ e e', e ∈ l → e' ∈ l → e_key e = e_key e' → e_ttl e = e_ttl e'.

Lemma store_zone_lookup l k : store_zone l !! k = set_of (of_key k l).
Proof.
  unfold of_key. induction l as [|e l IH]; [done|]. cbn [store_zone foldr].
  fold (store_zone l). rewrite filter_cons. case_decide as Hk.
  - rewrite Hk, lookup_insert_eq, IH. simpl. do 2 f_equal.
    by destruct (filter _ l).
  - by rewrite lookup_insert_ne.
Qed.

Lemma elem_of_key k l e : e ∈ of_key k l ↔ e_key e = k ∧ e ∈ l.
Proof. unfold of_key. by rewrite list_elem_of_filter. Qed.

Lemma values_of_key l f t : values_of l f t = e_value <$> of_key (f, t) l.
Proof.
  unfold values_of, of_key. f_equal. apply list_filter_iff. intros e. unfold e_key.
  split; [by intros [-> ->]|by intros [= -> ->]].
Qed.

Lemma of_key_perm k l l' : l ≡ₚ l' → of_key k l ≡ₚ of_key k l'.
Proof. intros Hp. unfold of_key. by rewrite Hp. Qed.

Lemma uniform_perm l l' : uniform l → l ≡ₚ l' → uniform l'.
Proof. intros Hu Hp e e' He He'. apply Hu; by rewrite Hp. Qed.

Lemma uniform_sub l l' : uniform l → (∀ e, e ∈ l' → e ∈ l) → uniform l'.
Proof. intros Hu Hs e e' He He'. apply Hu; auto. Qed.

(** The set of a key depends on the values and the TTL only. *)
Lemma set_of_spec es ttl :
  es ≠ [] → (∀ e, e ∈ es → e_ttl e = ttl) →
  set_of es = Some (mkRrset (list_to_set (e_value <$> es)) ttl).
Proof. destruct es as [|e es]; [done|]. intros _ Ht. simpl. rewrite (Ht e); [done|set_solver]. Qed.

Lemma set_of_values es v x : set_of es = Some v → x ∈ rr_values v ↔ x ∈ e_value <$> es.
Proof.
  destruct es as [|e es]; [done|]. intros [= <-].
  change (x ∈ (list_to_set (e_value <$> e :: es) : gset string) ↔ x ∈ e_value <$> e :: es).
  apply elem_of_list_to_set.
Qed.

Lemma set_of_elem es e : e ∈ es → ∃ v, set_of es = Some v ∧ e_value e ∈ rr_values v.
Proof.
  intros He. destruct (set_of es) as [v|] eqn:Hv.
  - exists v. split; [done|]. rewrite (set_of_values es) by done. by apply list_elem_of_fmap_2.
  - destruct es; [by apply elem_of_nil in He|done].
Qed.

Lemma set_of_perm es es' :
  (∀ e e', e ∈ es → e' ∈ es → e_ttl e = e_ttl e') → es ≡ₚ es' → set_of es = set_of es'.
Proof.
  intros Hu Hp. destruct es as [|e es].
  { apply Permutation_nil_l in Hp. by subst. }
  rewrite (set_of_spec (e :: es) (e_ttl e)); [|done|intros; apply Hu; set_solver].
  assert (es' ≠ []) as Hne by (intros ->; by apply Permutation_nil_r in Hp).
  rewrite (set_of_spec es' (e_ttl e)); [|done|].
  2: { intros e' He'. rewrite <-Hp in He'. apply Hu; set_solver. }
  do 2 f_equal. apply set_eq. intros x. rewrite !elem_of_list_to_set, !list_elem_of_fmap.
  by setoid_rewrite Hp.
Qed.

Lemma store_zone_perm l l' : uniform l → l ≡ₚ l' → store_zone l = store_zone l'.
Proof.
  intros Hu Hp. apply map_eq. intros k. rewrite !store_zone_lookup.
  apply set_of_perm; [|by apply of_key_perm].
  intros e e' [Hk He]%elem_of_key [Hk' He']%elem_of_key. apply Hu; congruence.
Qed.

(** A listing with one record per name and type describes the zone. *)
Lemma store_zone_listing l recs :
  NoDup (rr_key <$> recs) →
  (∀ r, r ∈ recs ↔ Records r = e_value <$> of_key (rr_key r) l ∧ Records r ≠ [] ∧
     Some (TTL r) = e_ttl <$> head (of_key (rr_key r) l)) →
  store_zone l = zone_of recs.
Proof.
  intros Hnd Hrecs. apply map_eq. intros k. apply option_eq. intros v.
  rewrite store_zone_lookup, zone_of_Some by done. split.
  - intros Hv. destruct (of_key k l) as [|e es] eqn:Hk; [done|]. simpl in Hv.
    injection Hv as <-. exists (mkDnsRecord (fst k) (e_value <$> e :: es) (snd k) (e_ttl e)).
    assert (rr_key (mkDnsRecord (fst k) (e_value <$> e :: es) (snd k) (e_ttl e)) = k) as Hkey
      by (by destruct k).
    split; [|done]. apply Hrecs. rewrite Hkey, Hk. done.
  - intros (r & Hr & <- & <-). apply Hrecs in Hr as (Hv & Hne & Ht). unfold rr_set. rewrite Hv in *.
    destruct (of_key (rr_key r) l) as [|e es]; [done|]. simpl in *. by injection Ht as ->.
Qed.

(** ** Changes *)

Section lift.
Context {W X : Type} `{ValueStore W X} (entry_of : X → entry).

Definition entries (w : W) : list entry := entry_of <$> vs_store w.
Definition vs_zone (w : W) : zone_map := store_zone (entries w).

Lemma vs_zone_perm w w' :
  uniform (entries w) → vs_store w' ≡ₚ vs_store w →
  uniform (entries w') ∧ vs_zone w' = vs_zone w.
Proof.
  intros Hu Hp. assert (entries w ≡ₚ entries w') as He by (unfold entries; by rewrite Hp).
  split; [by eapply uniform_perm|]. symmetry. by apply store_zone_perm.
Qed.

(** The values under a name and type. *)
Definition values_at (w : W) (key : string * string) : list string :=
  e_value <$> of_key key (entries w).

Lemma vs_zone_Some w key v : vs_zone w !! key = Some v → rr_values v = list_to_set (values_at w key).
Proof.
  unfold vs_zone. rewrite store_zone_lookup. intros Hv. apply set_eq. intros x.
  by rewrite (set_of_values _ _ _ Hv), elem_of_list_to_set.
Qed.

Lemma vs_zone_None w key : vs_zone w !! key = None → values_at w key = [].
Proof. unfold vs_zone, values_at. rewrite store_zone_lookup. by destruct (of_key _ _). Qed.

Lemma same_values w w' key :
  vs_zone w' !! key = vs_zone w !! key →
  (list_to_set (values_at w' key) : gset string) = list_to_set (values_at w key).
Proof.
  intros Heq. destruct (vs_zone w !! key) as [v|] eqn:Hv.
  - by rewrite <-(vs_zone_Some w key v), <-(vs_zone_Some w' key v).
  - by rewrite (vs_zone_None w), (vs_zone_None w').
Qed.

(** The records that the provider takes for those of [r] are the ones with the
    name and type of [r]. *)
Context (r : DnsRecord) (mine : X → Prop) `{∀ x, Decision (mine x)}.

Definition recognized (l : list X) : Prop :=
  ∀ x, x ∈ l → mine x ↔ e_key (entry_of x) = rr_key r.

Lemma of_key_mine l k :
  recognized l →
  of_key k (entry_of <$> filter (λ x, ¬ mine x) l) =
  if decide (k = rr_key r) then [] else of_key k (entry_of <$> l).
Proof.
  intros Hl. induction l as [|x l IH]; [by case_decide|].
  assert (recognized l) as Hl' by (intros y Hy; apply Hl; set_solver).
  specialize (IH Hl'). pose proof (Hl x ltac:(set_solver)) as Hx.
  rewrite filter_cons. unfold of_key in *. destruct (decide (mine x)) as [Hm|Hm].
  - rewrite decide_False by naive_solver. rewrite IH, fmap_cons, filter_cons.
    case_decide as Hk; [done|]. rewrite decide_False; [done|]. naive_solver.
  - rewrite decide_True by done. rewrite !fmap_cons, !filter_cons, IH.
    repeat case_decide; try done. naive_solver.
Qed.

(** The others stay, and the set becomes [new]. *)
Lemma zone_change w w' new :
  recognized (vs_store w) → uniform (entries w) →
  others mine w' ≡ₚ others mine w → ours mine w' ≡ₚ new →
  (∀ x, x ∈ new → e_key (entry_of x) = rr_key r) → uniform (entry_of <$> new) →
  uniform (entries w') ∧
  vs_zone w' = partial_alter (λ _, set_of (entry_of <$> new)) (rr_key r) (vs_zone w).
Proof.
  intros Hrec Hu Hoth Hours Hnew Hun.
  assert (entries w' ≡ₚ (entry_of <$> new) ++ (entry_of <$> others mine w)) as Hw'.
  { unfold entries. rewrite (store_parts mine w'), fmap_app. by rewrite Hours, Hoth. }
  set (l := (entry_of <$> new) ++ (entry_of <$> others mine w)) in *.
  assert (∀ e, e ∈ entry_of <$> new → e_key e = rr_key r) as Hk
    by (intros e (x & -> & Hx)%list_elem_of_fmap; by apply Hnew).
  assert (∀ e, e ∈ entry_of <$> others mine w → e ∈ entries w ∧ e_key e ≠ rr_key r) as Ho.
  { intros e (x & -> & Hx)%list_elem_of_fmap. apply list_elem_of_filter in Hx as [Hm Hx].
    split; [by apply list_elem_of_fmap_2|]. by rewrite <-(Hrec x Hx). }
  assert (uniform l) as Hl.
  { intros e e' [He|He]%elem_of_app [He'|He']%elem_of_app Hkey.
    - by apply Hun.
    - apply Hk in He. apply Ho in He' as [_ He']. congruence.
    - apply Ho in He as [_ He]. apply Hk in He'. congruence.
    - apply Hu; [by apply Ho..|done]. }
  split; [by eapply uniform_perm; [|symmetry]|].
  unfold vs_zone. rewrite <-(store_zone_perm l) by (done || by symmetry).
  apply map_eq. intros k. rewrite store_zone_lookup. unfold l, of_key.
  rewrite list.filter_app. fold (of_key k (entry_of <$> others mine w)).
  unfold others. rewrite of_key_mine by done. destruct (decide (k = rr_key r)) as [->|Hne].
  - rewrite lookup_partial_alter_eq, app_nil_r. f_equal. apply filter_all.
    by apply list.Forall_forall.
  - rewrite lookup_partial_alter_ne by done.
    rewrite filter_none by (apply list.Forall_forall; intros e He%Hk; congruence).
    unfold vs_zone. by rewrite store_zone_lookup.
Qed.

Lemma zone_removed w w' :
  recognized (vs_store w) → uniform (entries w) → vs_store w' ≡ₚ others mine w →
  uniform (entries w') ∧ vs_zone w' = delete (rr_key r) (vs_zone w).
Proof.
  intros Hrec Hu Hs.
  destruct (split_store mine (vs_store w') [] (others mine w)) as [H1 H2];
    [done|apply Forall_filter|done|].
  apply (zone_change w w' []); try done.
  - intros x Hx. by apply elem_of_nil in Hx.
  - intros e e' He. by apply elem_of_nil in He.
Qed.

Lemma zone_part w w' :
  recognized (vs_store w) → uniform (entries w) →
  others mine w' ≡ₚ others mine w → ours mine w' ⊆+ ours mine w →
  uniform (entries w') ∧ interrupted r (vs_zone w) (vs_zone w').
Proof.
  intros Hrec Hu Hoth Hsub.
  assert (∀ x, x ∈ ours mine w' → x ∈ vs_store w ∧ e_key (entry_of x) = rr_key r) as Hin.
  { intros x Hx. eapply elem_of_submseteq in Hx; [|exact Hsub].
    apply list_elem_of_filter in Hx as [Hm Hx]. split; [done|]. by apply Hrec. }
  destruct (zone_change w w' (ours mine w')) as [Hu' ->]; try done.
  { intros x Hx. by apply Hin. }
  { eapply uniform_sub; [exact Hu|]. intros e (x & -> & Hx)%list_elem_of_fmap.
    apply list_elem_of_fmap_2. by apply Hin. }
  split; [done|]. split.
  { intros k Hk. by rewrite lookup_partial_alter_ne. }
  intros v x. rewrite lookup_partial_alter_eq. intros Hv Hx. right.
  apply (set_of_values _ _ _ Hv) in Hx. apply list_elem_of_fmap in Hx as (e & -> & He).
  apply list_elem_of_fmap in He as (z & -> & [Hz Hkz]%Hin).
  unfold vs_zone. rewrite store_zone_lookup. apply set_of_elem, elem_of_key.
  split; [done|]. by apply list_elem_of_fmap_2.
Qed.

(** Records made for [r] have its name, type and TTL. *)
Context (made : X → Prop).
Definition made_for : Prop := ∀ x, made x →
  mine x ∧ e_key (entry_of x) = rr_key r ∧ e_ttl (entry_of x) = TTL r ∧
  e_value (entry_of x) = vs_value x.

Lemma made_uniform new : made_for → Forall made new → uniform (entry_of <$> new).
Proof.
  intros Hmade Hnew. rewrite list.Forall_forall in Hnew.
  intros e e' (x & -> & Hx%Hnew%Hmade)%list_elem_of_fmap (y & -> & Hy%Hnew%Hmade)%list_elem_of_fmap _.
  destruct Hx as (_ & _ & -> & _), Hy as (_ & _ & -> & _). done.
Qed.

Lemma made_values new : made_for → Forall made new → e_value <$> (entry_of <$> new) = vs_value <$> new.
Proof.
  intros Hmade. induction 1 as [|x new Hx _ IH]; [done|]. rewrite !fmap_cons, IH.
  by destruct (Hmade x Hx) as (_ & _ & _ & ->).
Qed.

Lemma made_key new : made_for → Forall made new → ∀ x, x ∈ new → e_key (entry_of x) = rr_key r.
Proof. intros Hmade Hnew x Hx. rewrite list.Forall_forall in Hnew. by apply Hmade, Hnew. Qed.

Lemma zone_replaced w w' :
  made_for → recognized (vs_store w) → uniform (entries w) → Records r ≠ [] →
  replaced mine made (Records r) w w' →
  uniform (entries w') ∧ vs_zone w' = put r (vs_zone w).
Proof.
  intros Hmade Hrec Hu Hne (Hoth & new & Hnew & Hm & Hv).
  destruct (zone_change w w' new) as [Hu' ->]; [done..|by apply made_key|by apply made_uniform|].
  split; [done|]. assert (set_of (entry_of <$> new) = Some (rr_set r)) as ->; [|done].
  unfold rr_set. rewrite <-Hv, <-made_values by done. apply set_of_spec.
  - intros Hnil%fmap_nil_inv. by subst.
  - intros e (x & -> & Hx)%list_elem_of_fmap. rewrite list.Forall_forall in Hm. by apply Hmade, Hm.
Qed.

Lemma zone_half_replaced w w' :
  made_for → recognized (vs_store w) → uniform (entries w) →
  half_replaced mine made (Records r) w w' →
  uniform (entries w') ∧ interrupted r (vs_zone w) (vs_zone w').
Proof.
  intros Hmade Hrec Hu (Hoth & [Hold|(new & Hnew & Hm & Hv)]); [by apply zone_part|].
  destruct (zone_change w w' new) as [Hu' ->]; [done..|by apply made_key|by apply made_uniform|].
  split; [done|]. split.
  { intros k Hk. by rewrite lookup_partial_alter_ne. }
  intros v x. rewrite lookup_partial_alter_eq. intros Hset Hx. left.
  apply (set_of_values _ _ _ Hset) in Hx. rewrite made_values in Hx by done.
  destruct Hv as [l ->]. by apply elem_of_app; left.
Qed.

(** ** The clauses of a provider's contract *)

Lemma absent_ours w :
  recognized (vs_store w) → vs_zone w !! rr_key r = None → ours mine w = [].
Proof.
  intros Hrec Hz. destruct (ours mine w) as [|x l] eqn:Hl; [done|].
  assert (x ∈ ours mine w) as Hx by (rewrite Hl; set_solver).
  apply list_elem_of_filter in Hx as [Hm Hx].
  destruct (set_of_elem (of_key (rr_key r) (entries w)) (entry_of x)) as (v & Hv & _).
  - apply elem_of_key. split; [by apply Hrec|by apply list_elem_of_fmap_2].
  - unfold vs_zone in Hz. by rewrite store_zone_lookup, Hv in Hz.
Qed.

Definition changes_zone (Z : zone_map) (w' : W) : Prop :=
  uniform (entries w') ∧ vs_zone w' = Z.
Definition half_changes_zone (w w' : W) : Prop :=
  uniform (entries w') ∧ interrupted r (vs_zone w) (vs_zone w').

Section clauses.
Context (find : prog W (result (list X))) (del : X → prog W (result unit))
  (create : string → prog W (result unit)).
Context (w : W) (Hgood : vs_good w) (Hu : uniform (entries w)) (Hrec : recognized (vs_store w)).

Lemma update_clause :
  find_law mine find → delete_law del → create_law made create → made_for → Records r ≠ [] →
  runs (let! _ := let! l := find in each l del in each (Records r) create) w
    (λ _, changes_zone (put r (vs_zone w))) (half_changes_zone w).
Proof.
  intros Hfind Hdel Hcreate Hmade Hne. eapply runs_mono.
  - apply (replace_effect mine made); [by intros x Hx; apply Hmade|done..].
  - intros [] w'. by apply zone_replaced.
  - intros w'. by apply zone_half_replaced.
Qed.

Lemma add_clause :
  create_law made create → made_for → Records r ≠ [] → vs_zone w !! rr_key r = None →
  runs (each (Records r) create) w
    (λ _, changes_zone (put r (vs_zone w))) (half_changes_zone w).
Proof.
  intros Hcreate Hmade Hne Hz. eapply runs_mono.
  - apply (add_effect mine made); [by intros x Hx; apply Hmade|done..|by apply absent_ours].
  - intros [] w'. by apply zone_replaced.
  - intros w'. by apply zone_half_replaced.
Qed.

Lemma remove_clause :
  find_law mine find → delete_law del →
  runs (let! l := find in each l del) w
    (λ _, changes_zone (delete (rr_key r) (vs_zone w))) (half_changes_zone w).
Proof.
  intros Hfind Hdel. eapply runs_mono; [by apply (remove_effect mine)|..].
  - intros [] w'. by apply zone_removed.
  - intros w' (l & Hl & Hs). destruct (part_left mine w w' l Hl Hs). by apply zone_part.
Qed.
End clauses.
End lift.
