(* ===== verification/Reconcile.v ===== *)
(** * Reconciliation

    [src/external-dns.go]: the records that should exist against the records
    of the zone.  The ownership record of the environment tells which address
    records may be removed. *)

From S2P Require Import Prelude GoStrings GoStrconv FastTemplate Utils Config GoNet GoHttp.
From S2P Require Import MetaTypes Samples MetaClient Metadata Provider.

(** [type Op] and its values, in [src/main.go]. *)
Record Op := mkOp { Op_Name : string }.
#[export] Instance Op_eq_dec : EqDecision Op.
Proof. solve_decision. Defined.

Definition Add : Op := mkOp "Add".
Definition Remove : Op := mkOp "Remove".
Definition Update : Op := mkOp "Update".

(** The [less] function of both sorts: [TXT] records last, then by key. *)
Definition record_less (type : string → string) (i j : string) : bool :=
  if negb (bool_decide (type i = type j)) then negb (bool_decide (type i = "TXT"))
  else str_lt i j.

Definition sortedKeys (records : gmap string MetadataDnsRecord) : list string :=
  isort (record_less (λ k, default "" (Type_ ∘ DnsRecord_ <$> records !! k)))
    (elements (dom records)).

Definition sortedDNSRecordKeys (records : gmap string DnsRecord) : list string :=
  isort (record_less (λ k, default "" (Type_ <$> records !! k)))
    (elements (dom records)).

(** The comparison of [updateExistingRecords], on the two sets of values. *)
Definition values_differ (metadataR providerR : gset string) : bool :=
  if negb (bool_decide (size metadataR = size providerR)) then true
  else
    existsb (λ key, negb (bool_decide (key ∈ providerR))) (elements metadataR) ||
    existsb (λ key, negb (bool_decide (key ∈ metadataR))) (elements providerR).

(** The provider's records, as [map[string]DnsRecord]: the address records that
    are ours, and all address records; both with the ownership record. *)
Fixpoint find_state (stateFqdn : string) (providerRecords : list DnsRecord)
    : option DnsRecord :=
  match providerRecords with
  | [] => None
  | rec :: recs =>
      if bool_decide (Fqdn_ rec = stateFqdn) && bool_decide (Type_ rec = "TXT")
      then Some rec else find_state stateFqdn recs
  end.

Definition split_record (ourFqdns : gset string) (rec : DnsRecord)
    (acc : gmap string DnsRecord * gmap string DnsRecord)
    : gmap string DnsRecord * gmap string DnsRecord :=
  let '(ourRecords, allRecords) := acc in
  if bool_decide (Type_ rec = "A") then
    (if bool_decide (Fqdn_ rec ∈ ourFqdns) then <[Fqdn_ rec := rec]> ourRecords
     else ourRecords,
     <[Fqdn_ rec := rec]> allRecords)
  else acc.

Definition splitRecords (stateFqdn : string) (providerRecords : list DnsRecord)
    : gmap string DnsRecord * gmap string DnsRecord :=
  match providerRecords with
  | [] => (∅, ∅)
  | _ =>
      let '(ourFqdns, ourRecords) :=
        match find_state stateFqdn providerRecords with
        | Some rec => (list_to_set (Records rec) : gset string, {[stateFqdn := rec]})
        | None => (∅, ∅)
        end in
      let '(ourRecords, allRecords) :=
        foldl (λ acc rec, split_record ourFqdns rec acc) (ourRecords, ∅) providerRecords in
      (ourRecords,
       match ourRecords !! stateFqdn with
       | Some stateRec => <[stateFqdn := stateRec]> allRecords
       | None => allRecords
       end)
  end.

Section reconcile.
Context `{GoUnicode} (cfg : Config) (m : MetadataClient) {W : Type} `{Provider W}.

(** The call an operation makes; [None] for an operation that is none of the
    three. *)
Definition op_call (op : Op) (r : DnsRecord) : option (prog W (result unit)) :=
  if bool_decide (op = Add) then Some (AddRecord r)
  else if bool_decide (op = Remove) then Some (RemoveRecord r)
  else if bool_decide (op = Update) then Some (UpdateRecord r)
  else None.

(** The loop of [updateRecords], which stops at the first error. *)
Fixpoint update_loop (toChange : list MetadataDnsRecord) (op : Op)
    (changed : list MetadataDnsRecord) : prog W (result (list MetadataDnsRecord)) :=
  match toChange with
  | [] => mret (Ok changed)
  | value :: toChange =>
      match op_call op (DnsRecord_ value) with
      | None => mret (Err ("unsupported DNS operation " +:+ Quote (Op_Name op)))
      | Some call =>
          let! _ := call
            wrap (λ err, ToLower (Op_Name op) +:+ " DNS record "
                         +:+ Fqdn_ (DnsRecord_ value) +:+ ": " +:+ err) in
          update_loop toChange op
            (if bool_decide (op = Remove) then changed else changed ++ [value])
      end
  end.

Definition updateRecords (toChange : list MetadataDnsRecord) (op : Op)
    : prog W (result (list MetadataDnsRecord)) :=
  update_loop toChange op [].

Definition toAdd (metadataRecs : gmap string MetadataDnsRecord)
    (providerRecs : gmap string DnsRecord) : list MetadataDnsRecord :=
  omap (λ key, match providerRecs !! key with
               | Some _ => None
               | None => metadataRecs !! key
               end) (sortedKeys metadataRecs).

Definition addMissingRecords (metadataRecs : gmap string MetadataDnsRecord)
    (providerRecs : gmap string DnsRecord) : prog W (result (list MetadataDnsRecord)) :=
  updateRecords (toAdd metadataRecs providerRecs) Add.

Definition toUpdate (metadataRecs : gmap string MetadataDnsRecord)
    (providerRecs : gmap string DnsRecord) : list MetadataDnsRecord :=
  omap (λ key,
    match providerRecs !! key, metadataRecs !! key with
    | Some p, Some d =>
        if values_differ (list_to_set (Records (DnsRecord_ d))) (list_to_set (Records p))
        then Some d else None
    | _, _ => None
    end) (sortedKeys metadataRecs).

Definition updateExistingRecords (metadataRecs : gmap string MetadataDnsRecord)
    (providerRecs : gmap string DnsRecord) : prog W (result (list MetadataDnsRecord)) :=
  updateRecords (toUpdate metadataRecs providerRecs) Update.

Definition toRemove (metadataRecs : gmap string MetadataDnsRecord)
    (providerRecs : gmap string DnsRecord) : list MetadataDnsRecord :=
  omap (λ key, match metadataRecs !! key with
               | Some _ => None
               | None => mkMetadataDnsRecord "" "" <$> providerRecs !! key
               end) (sortedDNSRecordKeys providerRecs).

Definition removeExtraRecords (metadataRecs : gmap string MetadataDnsRecord)
    (providerRecs : gmap string DnsRecord) : prog W (result (list MetadataDnsRecord)) :=
  updateRecords (toRemove metadataRecs providerRecs) Remove.

Definition getProviderDnsRecords
    : prog W (result (gmap string DnsRecord * gmap string DnsRecord)) :=
  let! providerRecords := GetRecords in
  let stateFqdn := StateFqdn (EnvironmentUUID m) (RootDomainName cfg) in
  mret (Ok (splitRecords stateFqdn providerRecords)).

Definition UpdateProviderDnsRecords (metadataRecs : gmap string MetadataDnsRecord)
    : prog W (result (list MetadataDnsRecord)) :=
  let! recs := getProviderDnsRecords
    wrap (λ err, "Provider error reading dns entries: " +:+ err) in
  let '(ourRecords, allRecords) := recs in
  let! _ := removeExtraRecords metadataRecs ourRecords in
  let! added := addMissingRecords metadataRecs allRecords in
  let! changed := updateExistingRecords metadataRecs allRecords in
  mret (Ok (added ++ changed)).

(** The format verb [%v] on a record. *)
Definition DnsRecord_String (r : DnsRecord) : string :=
  "{" +:+ Fqdn_ r +:+ " [" +:+ Join (Records r) " " +:+ "] " +:+ Type_ r +:+ " "
  +:+ FormatInt (TTL r) +:+ "}".

(** The names that earlier versions of the program published. *)
Definition legacyFqdns (allRecords : list DnsRecord) : gset string :=
  let joins := [EnvironmentName m; RootDomainName cfg] in
  let suffix := "." +:+ ToLower (Join joins ".") in
  foldl (λ ourFqdns rec,
    if bool_decide (Type_ rec = "A") && HasSuffix (Fqdn_ rec) suffix &&
       bool_decide (TTL rec = cfgTTL cfg)
    then {[Fqdn_ rec]} ∪ ourFqdns else ourFqdns) ∅ allRecords.

Definition EnsureUpgradeToStateRRSet : prog W (result unit) :=
  let! allRecords := GetRecords in
  let stateFqdn := StateFqdn (EnvironmentUUID m) (RootDomainName cfg) in
  match find_state stateFqdn allRecords with
  | Some _ => mret (Ok tt)
  | None =>
      let ourFqdns := legacyFqdns allRecords in
      if (0 <? size ourFqdns)%nat then
        let stateRec := StateRecord stateFqdn (cfgTTL cfg) ourFqdns in
        let! _ := AddRecord stateRec
          wrap (λ err, "Failed to add RRSet to provider " +:+ DnsRecord_String stateRec
                       +:+ ": " +:+ err) in
        mret (Ok tt)
      else mret (Ok tt)
  end.
End reconcile.

(** ** The order of operations *)

(** The ordering is a strict total order as long as the records have the two
    types the program manages. *)
Lemma record_less_strict type :
  strict_order_on (record_less type) (λ k, type k = "A" ∨ type k = "TXT").
Proof.
  destruct (str_lt_strict (λ _, True)) as [Hirr Htr Htot]. unfold record_less. split.
  - intros x _. rewrite bool_decide_eq_true_2 by done. by apply Hirr.
  - intros x y z. intros [Hx|Hx] [Hy|Hy] [Hz|Hz]; rewrite Hx, Hy, Hz; simpl; try done;
      by apply Htr.
  - intros x y [Hx|Hx] [Hy|Hy] Hne; rewrite Hx, Hy; simpl; auto.
Qed.

Lemma elem_of_sortedKeys D k : k ∈ sortedKeys D ↔ k ∈ dom D.
Proof. unfold sortedKeys. by rewrite elem_of_isort, elem_of_elements. Qed.

Lemma NoDup_sortedKeys D : NoDup (sortedKeys D).
Proof. apply isort_NoDup, NoDup_elements. Qed.

Lemma elem_of_sortedDNSRecordKeys R k : k ∈ sortedDNSRecordKeys R ↔ k ∈ dom R.
Proof. unfold sortedDNSRecordKeys. by rewrite elem_of_isort, elem_of_elements. Qed.

Lemma NoDup_sortedDNSRecordKeys R : NoDup (sortedDNSRecordKeys R).
Proof. apply isort_NoDup, NoDup_elements. Qed.

Lemma values_differ_spec A B : values_differ A B = negb (bool_decide (A = B)).
Proof.
  unfold values_differ. destruct (decide (A = B)) as [->|Hne].
  - rewrite !bool_decide_eq_true_2 by done. simpl. apply orb_false_iff.
    split; apply not_true_iff_false; intros (x & Hx & Hn)%existsb_exists;
      apply list_elem_of_In, elem_of_elements in Hx; by rewrite bool_decide_eq_true_2 in Hn.
  - rewrite (bool_decide_eq_false_2 (A = B)) by done. simpl. case_bool_decide as Hs; [|done].
    simpl. apply orb_true_iff. destruct (decide (A ⊆ B)) as [Hsub|Hsub].
    + exfalso. apply Hne, set_eq. intros x. split; [set_solver|]. intros Hx.
      destruct (decide (x ∈ A)); [done|]. exfalso.
      assert (A ⊂ B) as Hlt by set_solver. apply subset_size in Hlt. lia.
    + left. destruct (set_choose_L (A ∖ B)) as [x Hx].
      { intros He. apply Hsub. intros x Hx. destruct (decide (x ∈ B)); [done|set_solver]. }
      apply existsb_exists. exists x.
      rewrite <-list_elem_of_In, elem_of_elements, bool_decide_eq_false_2; set_solver.
Qed.

(** ** What a zone owns *)

Section owned.
Context (state : string).

(** The key in the zone of the record published under a name. *)
Definition managed (k : string) : string * string :=
  (k, if bool_decide (k = state) then "TXT" else "A").

(** The names the ownership record lists. *)
Definition owned (Z : zone_map) : gset string :=
  match Z !! (state, "TXT") with Some v => rr_values v | None => ∅ end.

Lemma managed_inj k1 k2 : managed k1 = managed k2 → k1 = k2.
Proof. by intros [= ->]. Qed.

Lemma managed_state : managed state = (state, "TXT").
Proof. unfold managed. by rewrite bool_decide_eq_true_2. Qed.

Lemma managed_ne k : k ≠ state → managed k = (k, "A").
Proof. intros. unfold managed. by rewrite bool_decide_eq_false_2. Qed.

Lemma wf_desired_key D k r :
  wf_desired state D → D !! k = Some r → rr_key (DnsRecord_ r) = managed k.
Proof.
  intros HD Hk. unfold rr_key. rewrite (wf_key _ _ HD _ _ Hk).
  destruct (decide (k = state)) as [->|Hne].
  - by rewrite managed_state, (wf_state _ _ HD _ Hk).
  - by rewrite managed_ne, (wf_address _ _ HD _ _ Hne Hk).
Qed.

(** *** The provider's records *)

Lemma find_state_Some recs r :
  find_state state recs = Some r → r ∈ recs ∧ rr_key r = (state, "TXT").
Proof.
  induction recs as [|r' recs IH]; simpl; [done|]. unfold rr_key.
  destruct (bool_decide (Fqdn_ r' = state)) eqn:H1; simpl.
  - destruct (bool_decide (Type_ r' = "TXT")) eqn:H2.
    + intros [= ->]. apply bool_decide_eq_true in H1 as ->, H2 as ->. split; [by left|done].
    + intros []%IH. split; [by right|done].
  - intros []%IH. split; [by right|done].
Qed.

Lemma find_state_None recs r :
  find_state state recs = None → r ∈ recs → rr_key r ≠ (state, "TXT").
Proof.
  induction recs as [|r' recs IH]; simpl; [by intros _ ?%elem_of_nil|].
  destruct (bool_decide (Fqdn_ r' = state)) eqn:H1; simpl;
    [destruct (bool_decide (Type_ r' = "TXT")) eqn:H2; [done|]|];
    intros Hf [->|Hr]%elem_of_cons; auto; intros [= E1 E2];
    [apply bool_decide_eq_false in H2|apply bool_decide_eq_false in H1]; congruence.
Qed.

(** The records of a listing by key. *)
Definition rec_map (recs : list DnsRecord) : gmap (string * string) DnsRecord :=
  list_to_map ((λ r, (rr_key r, r)) <$> recs).

Lemma rec_map_cons r recs : rec_map (r :: recs) = <[rr_key r := r]> (rec_map recs).
Proof. done. Qed.

Lemma rec_map_zone recs : zone_of recs = rr_set <$> rec_map recs.
Proof.
  unfold zone_of, rec_map. rewrite <-list_to_map_fmap. f_equal.
  by rewrite <-list_fmap_compose.
Qed.

Lemma rec_map_Some recs k r : rec_map recs !! k = Some r → r ∈ recs ∧ rr_key r = k.
Proof.
  intros Hr. apply elem_of_list_to_map_2, list_elem_of_fmap in Hr as (? & [= -> ->] & ?). done.
Qed.

Lemma rec_map_None recs k : k ∉ rr_key <$> recs → rec_map recs !! k = None.
Proof.
  intros Hk. apply not_elem_of_list_to_map. by rewrite <-list_fmap_compose.
Qed.

(** The first ownership record of a listing is the one of the zone. *)
Lemma find_state_rec recs :
  NoDup (rr_key <$> recs) → find_state state recs = rec_map recs !! (state, "TXT").
Proof.
  intros Hnd. destruct (find_state state recs) as [r|] eqn:Hf; symmetry.
  - apply find_state_Some in Hf as [Hr Hk]. apply elem_of_list_to_map_1.
    + by rewrite <-list_fmap_compose.
    + apply list_elem_of_fmap. exists r. by rewrite Hk.
  - apply rec_map_None. rewrite list_elem_of_fmap. intros (r & Hk & Hr).
    by eapply find_state_None.
Qed.

Lemma owned_rec recs :
  owned (zone_of recs) =
  match rec_map recs !! (state, "TXT") with Some r => list_to_set (Records r) | None => ∅ end.
Proof.
  unfold owned. rewrite rec_map_zone, lookup_fmap. by destruct (rec_map recs !! _).
Qed.

Lemma split_fold ours recs our0 all0 k :
  NoDup (rr_key <$> recs) →
  let acc := foldl (λ acc rec, split_record ours rec acc) (our0, all0) recs in
  snd acc !! k = rec_map recs !! (k, "A") ∪ all0 !! k ∧
  fst acc !! k = (if bool_decide (k ∈ ours) then rec_map recs !! (k, "A") ∪ our0 !! k
                  else our0 !! k).
Proof.
  revert our0 all0. induction recs as [|r recs IH]; intros our0 all0; cbn [foldl].
  { intros _. change (rec_map []) with (∅ : gmap (string * string) DnsRecord).
    rewrite lookup_empty, !option_union_l. split; [done|]. by case_match. }
  intros [Hr Hnd]%list.NoDup_cons. rewrite rec_map_cons.
  unfold split_record at 2 4. destruct (decide (Type_ r = "A")) as [Ht|Ht].
  - rewrite bool_decide_eq_true_2 by done. destruct (IH
      (if bool_decide (Fqdn_ r ∈ ours) then <[Fqdn_ r:=r]> our0 else our0)
      (<[Fqdn_ r:=r]> all0) Hnd) as [-> ->]. clear IH.
    destruct (decide (Fqdn_ r = k)) as [Hk|Hk].
    + assert (rr_key r = (k, "A")) as Hkey by (unfold rr_key; by rewrite Hk, Ht).
      rewrite <-Hkey, lookup_insert_eq, (rec_map_None _ _ Hr), Hk, lookup_insert_eq.
      rewrite option_union_l, !option_union_Some. split; [done|]. case_bool_decide; [|done].
      by rewrite lookup_insert_eq.
    + assert (rr_key r ≠ (k, "A")) as Hkey by (unfold rr_key; congruence).
      rewrite !lookup_insert_ne by done. split; [done|].
      destruct (bool_decide (Fqdn_ r ∈ ours)); by rewrite ?lookup_insert_ne by done.
  - rewrite bool_decide_eq_false_2 by done. destruct (IH our0 all0 Hnd) as [-> ->].
    assert (rr_key r ≠ (k, "A")) as Hkey by (unfold rr_key; congruence).
    by rewrite lookup_insert_ne.
Qed.

(** What the reconciler reads: under a name, the record of the zone that the
    program manages; and the same restricted to the names it owns. *)
Lemma splitRecords_spec recs our all :
  NoDup (rr_key <$> recs) → zone_of recs !! (state, "A") = None →
  splitRecords state recs = (our, all) →
  ∀ k, all !! k = rec_map recs !! managed k ∧
       our !! k = (if bool_decide (k = state ∨ k ∈ owned (zone_of recs))
                   then rec_map recs !! managed k else None).
Proof.
  intros Hnd HA. rewrite rec_map_zone, lookup_fmap, fmap_None in HA.
  assert (∀ ours our0 k, let acc := foldl (λ acc rec, split_record ours rec acc) (our0, ∅) recs in
    snd acc !! k = rec_map recs !! (k, "A") ∧
    fst acc !! k = (if bool_decide (k ∈ ours) then rec_map recs !! (k, "A") ∪ our0 !! k
                  else our0 !! k)) as Hfold.
  { intros ours our0 k. cbv zeta. destruct (split_fold ours recs our0 ∅ k Hnd) as [-> ->].
    by rewrite lookup_empty, option_union_r. }
  rewrite owned_rec. unfold splitRecords. rewrite find_state_rec by done.
  destruct recs as [|r0 recs']; [|set (recs := r0 :: recs') in *].
  { intros [= <- <-] k. change (rec_map []) with (∅ : gmap (string * string) DnsRecord).
    rewrite !lookup_empty. by case_match. }
  destruct (rec_map recs !! (state, "TXT")) as [r|] eqn:Hr.
  - specialize (Hfold (list_to_set (Records r)) {[state := r]}). cbv zeta in Hfold.
    destruct (foldl _ _ _) as [our' all']. simpl in Hfold.
    assert (our' !! state = Some r) as Hos.
    { rewrite (proj2 (Hfold state)), HA, lookup_singleton_eq. by case_match. }
    rewrite Hos. intros [= <- <-] k. destruct (decide (k = state)) as [->|Hk].
    + rewrite bool_decide_eq_true_2 by auto. by rewrite lookup_insert_eq, managed_state, Hr.
    + destruct (Hfold k) as [Ha Ho]. rewrite lookup_insert_ne, managed_ne by done.
      split; [done|]. rewrite Ho, lookup_singleton_ne, option_union_r by done.
      rewrite (bool_decide_ext (k = state ∨ k ∈ (list_to_set (Records r) : gset string))
        (k ∈ (list_to_set (Records r) : gset string))) by naive_solver.
      by destruct (bool_decide _).
  - specialize (Hfold ∅ ∅). cbv zeta in Hfold.
    destruct (foldl _ _ _) as [our' all']. simpl in Hfold.
    assert (∀ k, our' !! k = None) as Hon.
    { intros k. rewrite (proj2 (Hfold k)). by rewrite lookup_empty. }
    rewrite Hon. intros [= <- <-] k. rewrite Hon. destruct (decide (k = state)) as [->|Hk].
    + rewrite (proj1 (Hfold state)), managed_state, Hr, HA. by case_match.
    + rewrite (proj1 (Hfold k)), managed_ne by done.
      rewrite bool_decide_eq_false_2; [done|]. set_solver.
Qed.
End owned.

(** ** What a list of operations does *)

Section operations.
Context `{GoUnicode} {W : Type} `{ProviderContract W}.

(** The intended effect of an operation on a record of the zone. *)
Definition op_result (op : Op) (r : DnsRecord) : option rrset :=
  if bool_decide (op = Remove) then None else Some (rr_set r).

Definition op_apply (op : Op) (r : DnsRecord) (Z : zone_map) : zone_map :=
  if bool_decide (op = Remove) then delete (rr_key r) Z else put r Z.

(** A list of operations, as the calls the program makes. *)
Definition step_key (x : Op * MetadataDnsRecord) : string * string :=
  rr_key (DnsRecord_ (snd x)).

Definition apply_steps (steps : list (Op * MetadataDnsRecord)) (Z : zone_map) : zone_map :=
  foldl (λ Z x, op_apply (fst x) (DnsRecord_ (snd x)) Z) Z steps.

(** What the contract asks before an operation. *)
Definition op_ready (op : Op) (Z : zone_map) (r : DnsRecord) : Prop :=
  (op = Add ∧ storable r ∧ Z !! rr_key r = None) ∨
  (op = Update ∧ storable r ∧ Z !! rr_key r ≠ None) ∨
  (op = Remove ∧ Z !! rr_key r = Some (rr_set r)).

(** A call of the provider that failed, made in a state and with a record that
    the contract allows. *)
Definition refused : Prop := ∃ w w' e, good w ∧
  (GetRecords w = (Returns (Err e), w') ∨
   ∃ op r call, op_ready op (zone w) r ∧ op_call op r = Some call ∧
     call w = (Returns (Err e), w')).

Definition err_refused {A} (res : result A) : Prop :=
  if res is Err _ then refused else True.

Lemma op_apply_eq op r Z : op_apply op r Z !! rr_key r = op_result op r.
Proof.
  unfold op_apply, op_result. case_bool_decide; [apply lookup_delete_eq|apply put_lookup].
Qed.

Lemma op_apply_ne op r Z k : k ≠ rr_key r → op_apply op r Z !! k = Z !! k.
Proof.
  unfold op_apply. intros Hk. case_bool_decide; [by apply lookup_delete_ne|by apply put_lookup_ne].
Qed.

Lemma apply_steps_cons x steps Z :
  apply_steps (x :: steps) Z = apply_steps steps (op_apply (fst x) (DnsRecord_ (snd x)) Z).
Proof. done. Qed.

Lemma apply_steps_app steps1 steps2 Z :
  apply_steps (steps1 ++ steps2) Z = apply_steps steps2 (apply_steps steps1 Z).
Proof. apply foldl_app. Qed.

Lemma apply_steps_notin steps Z k :
  k ∉ step_key <$> steps → apply_steps steps Z !! k = Z !! k.
Proof.
  revert Z. induction steps as [|x steps IH]; intros Z; [done|].
  rewrite fmap_cons, not_elem_of_cons. intros [Hk Hn].
  by rewrite apply_steps_cons, IH, op_apply_ne.
Qed.

Lemma apply_steps_in steps Z op d :
  NoDup (step_key <$> steps) → (op, d) ∈ steps →
  apply_steps steps Z !! rr_key (DnsRecord_ d) = op_result op (DnsRecord_ d).
Proof.
  revert Z. induction steps as [|x steps IH]; intros Z Hnd Hr; [by apply elem_of_nil in Hr|].
  rewrite fmap_cons in Hnd. apply list.NoDup_cons in Hnd as [Hn Hnd].
  rewrite apply_steps_cons. apply elem_of_cons in Hr as [<-|Hr]; [|by apply IH].
  by rewrite apply_steps_notin, op_apply_eq.
Qed.

Lemma op_ready_ext op Z Z' r : Z' !! rr_key r = Z !! rr_key r → op_ready op Z r → op_ready op Z' r.
Proof. unfold op_ready. by intros ->. Qed.

Lemma op_call_spec op r w :
  good w → op_ready op (zone w) r →
  ∃ call res w', op_call op r = Some call ∧ call w = (Returns res, w') ∧ good w' ∧
    match res with
    | Ok _ => zone w' = op_apply op r (zone w)
    | Err _ => interrupted r (zone w) (zone w')
    end.
Proof.
  intros Hg [(-> & Hs & Hz)|[(-> & Hs & Hz)|(-> & Hz)]].
  - destruct (AddRecord_contract w r Hg Hs Hz) as (res & w' & ?). by exists (AddRecord r), res, w'.
  - destruct (UpdateRecord_contract w r Hg Hs Hz) as (res & w' & ?).
    by exists (UpdateRecord r), res, w'.
  - destruct (RemoveRecord_contract w r Hg Hz) as (res & w' & ?).
    by exists (RemoveRecord r), res, w'.
Qed.

(** The loop returns; on success every operation took effect, and after an
    error exactly those before the failing one, whose record set alone is
    unknown. *)
Lemma update_loop_spec recs op changed w :
  good w → NoDup (rr_key ∘ DnsRecord_ <$> recs) →
  Forall (op_ready op (zone w) ∘ DnsRecord_) recs →
  ∃ res w', update_loop recs op changed w = (Returns res, w') ∧ good w' ∧ err_refused res ∧
    match res with
    | Ok c => c = changed ++ (if bool_decide (op = Remove) then [] else recs) ∧
              zone w' = apply_steps (pair op <$> recs) (zone w)
    | Err _ => ∃ before bad after, recs = before ++ bad :: after ∧
        interrupted (DnsRecord_ bad)
          (apply_steps (pair op <$> before) (zone w)) (zone w')
    end.
Proof.
  revert changed w. induction recs as [|d recs IH]; intros changed w Hg Hnd Hr.
  { eexists _, w. do 3 (split; [done|]). simpl. split; [|done].
    case_bool_decide; by rewrite app_nil_r. }
  rewrite fmap_cons in Hnd. apply list.NoDup_cons in Hnd as [Hn Hnd].
  apply list.Forall_cons in Hr as [Hd Hr].
  destruct (op_call_spec op _ w Hg Hd) as (call & res & w1 & Hcall & Hrun & Hg1 & Hres).
  simpl. rewrite Hcall. rewrite try_bind_eq, Hrun. destruct res as [u|e].
  2:{ eexists _, w1. split; [done|]. split; [done|]. split; [|by exists [], d, recs].
    exists w, w1, e. split; [done|]. right. by exists op, (DnsRecord_ d), call. }
  destruct (IH (if bool_decide (op = Remove) then changed else changed ++ [d]) w1 Hg1 Hnd)
    as (res & w' & Hrun' & Hg' & Href & Hres').
  { rewrite list.Forall_forall in *. intros d' Hd'. apply (op_ready_ext _ (zone w)); [|by apply Hr].
    rewrite Hres, op_apply_ne; [done|]. intros Hk. apply Hn. apply list_elem_of_fmap.
    by exists d'. }
  exists res, w'. do 3 (split; [done|]). destruct res as [c|e].
  - destruct Hres' as [-> ->]. rewrite Hres. split; [|done].
    case_bool_decide; [done|]. by rewrite <-app_assoc.
  - destruct Hres' as (before & bad & after & -> & Hsb). exists (d :: before), bad, after.
    split; [done|]. by rewrite Hres in Hsb.
Qed.
End operations.

(** ** The specification

    What a reconciliation should make of a zone, as a function of the desired
    records and of the zone alone. *)

Definition target (state : string) (D : gmap string MetadataDnsRecord) (Z : zone_map)
    (key : string * string) : option rrset :=
  let k := fst key in
  if negb (bool_decide (key = managed state k)) then Z !! key
  else
    match D !! k with
    | Some d =>
        match Z !! key with
        | Some v =>
            if bool_decide (rr_values v = list_to_set (Records (DnsRecord_ d)))
            then Some v else Some (rr_set (DnsRecord_ d))
        | None => Some (rr_set (DnsRecord_ d))
        end
    | None =>
        if bool_decide (k = state ∨ k ∈ owned state Z) then None else Z !! key
    end.

(** The zone is as desired: a reconciliation would change nothing. *)
Definition converged (state : string) (D : gmap string MetadataDnsRecord) (Z : zone_map) : Prop :=
  ∀ key, target state D Z key = Z !! key.

Section target_facts.
Context (state : string) (D : gmap string MetadataDnsRecord) (Z : zone_map).

Lemma target_managed k :
  target state D Z (managed state k) =
  match D !! k with
  | Some d =>
      match Z !! managed state k with
      | Some v =>
          if bool_decide (rr_values v = list_to_set (Records (DnsRecord_ d)))
          then Some v else Some (rr_set (DnsRecord_ d))
      | None => Some (rr_set (DnsRecord_ d))
      end
  | None => if bool_decide (k = state ∨ k ∈ owned state Z) then None
            else Z !! managed state k
  end.
Proof. unfold target. by rewrite bool_decide_eq_true_2. Qed.

Lemma target_unmanaged key :
  (∀ k, key ≠ managed state k) → target state D Z key = Z !! key.
Proof. intros Hk. unfold target. by rewrite bool_decide_eq_false_2. Qed.

Lemma managed_dec key : (∃ k, key = managed state k) ∨ (∀ k, key ≠ managed state k).
Proof.
  destruct (decide (key = managed state (fst key))) as [Hk|Hk]; [eauto|].
  right. intros k Heq. apply Hk. by rewrite Heq.
Qed.
End target_facts.

(** ** The three lists of operations *)

Section plan.
Context (state : string) (D : gmap string MetadataDnsRecord) (recs : list DnsRecord).
Context (HD : wf_desired state D) (Hnd : NoDup (rr_key <$> recs)).
Context (HA : zone_of recs !! (state, "A") = None).
Context (our all : gmap string DnsRecord) (Hsplit : splitRecords state recs = (our, all)).

Notation Z := (zone_of recs).
Notation removals := (toRemove D our).
Notation additions := (toAdd D all).
Notation updates := (toUpdate D all).
Notation key_of := (rr_key ∘ DnsRecord_).

Lemma all_zone k : rr_set <$> all !! k = Z !! managed state k.
Proof.
  rewrite (proj1 (splitRecords_spec state recs our all Hnd HA Hsplit k)).
  by rewrite rec_map_zone, lookup_fmap.
Qed.

Lemma our_Some k r :
  our !! k = Some r ↔
  rec_map recs !! managed state k = Some r ∧ (k = state ∨ k ∈ owned state Z).
Proof.
  rewrite (proj2 (splitRecords_spec state recs our all Hnd HA Hsplit k)).
  case_bool_decide; naive_solver.
Qed.

Lemma rec_map_set k r : rec_map recs !! k = Some r → Z !! k = Some (rr_set r) ∧ rr_key r = k.
Proof.
  intros Hr. rewrite rec_map_zone, lookup_fmap, Hr. split; [done|].
  by apply rec_map_Some in Hr as [_ ?].
Qed.

Lemma elem_of_removals d :
  d ∈ removals ↔ ∃ k r, our !! k = Some r ∧ D !! k = None ∧ d = mkMetadataDnsRecord "" "" r.
Proof.
  unfold toRemove. rewrite list_elem_of_omap. setoid_rewrite elem_of_sortedDNSRecordKeys.
  setoid_rewrite elem_of_dom. split.
  - intros (k & [r Hr] & Hk). destruct (D !! k) eqn:HDk; [done|].
    rewrite Hr in Hk. simpl in Hk. injection Hk as <-. eauto.
  - intros (k & r & Hr & HDk & ->). exists k. rewrite HDk, Hr. eauto.
Qed.

Lemma elem_of_additions d :
  d ∈ additions ↔ ∃ k, D !! k = Some d ∧ Z !! managed state k = None.
Proof.
  unfold toAdd. rewrite list_elem_of_omap. setoid_rewrite elem_of_sortedKeys.
  setoid_rewrite elem_of_dom. setoid_rewrite <-all_zone. split.
  - intros (k & _ & Hk). exists k. destruct (all !! k); naive_solver.
  - intros (k & HDk & Hk). exists k. destruct (all !! k); naive_solver.
Qed.

Lemma elem_of_updates d :
  d ∈ updates ↔ ∃ k v, D !! k = Some d ∧ Z !! managed state k = Some v ∧
    rr_values v ≠ list_to_set (Records (DnsRecord_ d)).
Proof.
  unfold toUpdate. rewrite list_elem_of_omap. setoid_rewrite elem_of_sortedKeys.
  setoid_rewrite elem_of_dom. setoid_rewrite <-all_zone. split.
  - intros (k & [d' Hd'] & Hk). exists k. destruct (all !! k) as [p|]; [|done].
    rewrite Hd', values_differ_spec in Hk. case_bool_decide; simplify_eq/=.
    eexists. split; [done|]. split; [done|]. simpl. by apply not_eq_sym.
  - intros (k & v & HDk & Hk & Hne). exists k. destruct (all !! k) as [p|]; simplify_eq/=.
    rewrite HDk, values_differ_spec, bool_decide_eq_false_2 by (by apply not_eq_sym).
    split; [by eexists|done].
Qed.

(** The operations of a reconciliation, in order. *)
Definition steps : list (Op * MetadataDnsRecord) :=
  (pair Remove <$> removals) ++ (pair Add <$> additions) ++ (pair Update <$> updates).

Lemma removals_key k r :
  our !! k = Some r → rr_key r = managed state k.
Proof. intros Hr. by apply our_Some in Hr as [[_ Hk]%rec_map_set _]. Qed.

Lemma removals_nodup : NoDup (key_of <$> removals).
Proof.
  apply (NoDup_fmap_omap _ _ (managed state)).
  - apply NoDup_sortedDNSRecordKeys.
  - intros k d _ Hk. destruct (D !! k); [done|]. destruct (our !! k) as [r|] eqn:Hr; [|done].
    injection Hk as <-. by apply removals_key.
  - apply managed_inj.
Qed.

Lemma desired_list_nodup (f : string → option MetadataDnsRecord) :
  (∀ k d, f k = Some d → D !! k = Some d) →
  NoDup (key_of <$> omap f (sortedKeys D)).
Proof.
  intros Hf. apply (NoDup_fmap_omap _ _ (managed state)).
  - apply NoDup_sortedKeys.
  - intros k d _ Hk. by apply (wf_desired_key state D), Hf.
  - apply managed_inj.
Qed.

Lemma additions_nodup : NoDup (key_of <$> additions).
Proof. apply desired_list_nodup. intros k d Hk. by destruct (all !! k). Qed.

Lemma updates_nodup : NoDup (key_of <$> updates).
Proof.
  apply desired_list_nodup. intros k d Hk.
  destruct (all !! k), (D !! k); try done. by case_match.
Qed.

(** The keys of the operations. *)
Lemma removal_cases d :
  d ∈ removals → ∃ k, key_of d = managed state k ∧ D !! k = None ∧
    (k = state ∨ k ∈ owned state Z) ∧ Z !! managed state k = Some (rr_set (DnsRecord_ d)).
Proof.
  intros (k & r & Hr & HDk & ->)%elem_of_removals. exists k. simpl.
  apply our_Some in Hr as [[Hz Hk]%rec_map_set Ho]. done.
Qed.

Lemma addition_cases d :
  d ∈ additions → ∃ k, key_of d = managed state k ∧ D !! k = Some d ∧
    Z !! managed state k = None.
Proof.
  intros (k & HDk & Hz)%elem_of_additions. exists k. split; [|done].
  by apply (wf_desired_key state D).
Qed.

Lemma update_cases d :
  d ∈ updates → ∃ k v, key_of d = managed state k ∧ D !! k = Some d ∧
    Z !! managed state k = Some v ∧ rr_values v ≠ list_to_set (Records (DnsRecord_ d)).
Proof.
  intros (k & v & HDk & Hz & Hv)%elem_of_updates. exists k, v. split; [|done].
  by apply (wf_desired_key state D).
Qed.

Lemma step_keys (op : Op) (l : list MetadataDnsRecord) :
  step_key <$> (pair op <$> l) = key_of <$> l.
Proof. by rewrite <-list_fmap_compose. Qed.

Lemma steps_keys :
  step_key <$> steps = (key_of <$> removals) ++ (key_of <$> additions) ++ (key_of <$> updates).
Proof. unfold steps. by rewrite !fmap_app, !step_keys. Qed.

Lemma steps_nodup : NoDup (step_key <$> steps).
Proof.
  rewrite steps_keys, !list.NoDup_app. setoid_rewrite elem_of_app.
  setoid_rewrite list_elem_of_fmap. split_and!.
  - apply removals_nodup.
  - intros key (d & -> & (k & Hk & HDk & _)%removal_cases)
      [(d' & Heq & (k' & Hk' & HDk' & _)%addition_cases)
      |(d' & Heq & (k' & v & Hk' & HDk' & _)%update_cases)];
      rewrite Heq, Hk' in Hk; apply managed_inj in Hk; congruence.
  - apply additions_nodup.
  - intros key (d & -> & (k & Hk & HDk & Hz)%addition_cases)
      (d' & Heq & (k' & v & Hk' & HDk' & Hz' & _)%update_cases).
    rewrite Heq, Hk' in Hk. apply managed_inj in Hk. congruence.
  - apply updates_nodup.
Qed.

(** Each operation brings its key to the specified value. *)
Lemma steps_target op d :
  (op, d) ∈ steps → target state D Z (key_of d) = op_result op (DnsRecord_ d).
Proof.
  unfold steps. rewrite !elem_of_app, !list_elem_of_fmap.
  intros [(? & [= -> ->] & (k & -> & HDk & Ho & _)%removal_cases)
    |[(? & [= -> ->] & (k & -> & HDk & Hz)%addition_cases)
     |(? & [= -> ->] & (k & v & -> & HDk & Hz & Hv)%update_cases)]].
  - by rewrite target_managed, HDk, bool_decide_eq_true_2.
  - by rewrite target_managed, HDk, Hz.
  - by rewrite target_managed, HDk, Hz, bool_decide_eq_false_2.
Qed.

(** ... which it did not have. *)
Lemma steps_change op d :
  (op, d) ∈ steps → target state D Z (key_of d) ≠ Z !! key_of d.
Proof.
  unfold steps. rewrite !elem_of_app, !list_elem_of_fmap.
  intros [(? & [= -> ->] & (k & -> & HDk & Ho & Hz)%removal_cases)
    |[(? & [= -> ->] & (k & -> & HDk & Hz)%addition_cases)
     |(? & [= -> ->] & (k & v & -> & HDk & Hz & Hv)%update_cases)]].
  - by rewrite target_managed, HDk, Hz, bool_decide_eq_true_2.
  - by rewrite target_managed, HDk, Hz.
  - rewrite target_managed, HDk, Hz, bool_decide_eq_false_2 by done.
    intros [= Heq]. by rewrite <-Heq in Hv.
Qed.

(** A key of no operation is already as specified. *)
Lemma untouched_target key :
  key ∉ step_key <$> steps → target state D Z key = Z !! key.
Proof.
  rewrite steps_keys, !not_elem_of_app, !list_elem_of_fmap. intros (HR & HAd & HU).
  destruct (managed_dec state key) as [[k ->]|Hk]; [|by apply target_unmanaged].
  rewrite target_managed. destruct (D !! k) as [d|] eqn:HDk.
  - pose proof (wf_desired_key state D k d HD HDk) as Hkey.
    destruct (Z !! managed state k) as [v|] eqn:Hz.
    + case_bool_decide as Hv; [done|]. exfalso. apply HU. exists d.
      split; [by rewrite <-Hkey|]. apply elem_of_updates. eauto 10.
    + exfalso. apply HAd. exists d. split; [by rewrite <-Hkey|]. apply elem_of_additions. eauto.
  - case_bool_decide as Ho; [|done].
    destruct (rec_map recs !! managed state k) as [r|] eqn:Hr.
    + exfalso. apply HR. assert (our !! k = Some r) as Hour by (by apply our_Some).
      exists (mkMetadataDnsRecord "" "" r). split; [simpl; symmetry; by apply removals_key|].
      apply elem_of_removals. eauto 10.
    + by rewrite rec_map_zone, lookup_fmap, Hr.
Qed.

(** After some of the operations, a key has its old or its specified value. *)
Lemma prefix_target before after :
  steps = before ++ after →
  ∀ key, apply_steps before Z !! key =
         if bool_decide (key ∈ step_key <$> before) then target state D Z key else Z !! key.
Proof.
  intros Hs key. pose proof steps_nodup as Hnds. rewrite Hs, fmap_app in Hnds.
  apply list.NoDup_app in Hnds as (Hnds & _ & _). case_bool_decide as Hk.
  - apply list_elem_of_fmap in Hk as ([op d] & -> & Hin). unfold step_key. simpl.
    rewrite (apply_steps_in before Z op d) by done. symmetry. apply steps_target.
    rewrite Hs. apply elem_of_app. by left.
  - by apply apply_steps_notin.
Qed.

(** After all of them, the zone is as specified. *)
Lemma all_target key : apply_steps steps Z !! key = target state D Z key.
Proof.
  rewrite (prefix_target steps []) by (by rewrite app_nil_r). case_bool_decide; [done|].
  symmetry. by apply untouched_target.
Qed.
End plan.

(** ** Runs *)

Section run.
Context `{GoUnicode} (cfg : Config) (m : MetadataClient) {W : Type} `{ProviderContract W}.
Context (D : gmap string MetadataDnsRecord).

Notation state := (stateName cfg m).

Definition all_storable : Prop := ∀ k d, D !! k = Some d → storable (DnsRecord_ d).

Context (HD : wf_desired state D) (Hst : all_storable).

Section listing.
Context (recs : list DnsRecord) (Hnd : NoDup (rr_key <$> recs)).
Context (HA : zone_of recs !! (state, "A") = None).
Context (our all : gmap string DnsRecord) (Hsplit : splitRecords state recs = (our, all)).

Lemma steps_ready op d :
  (op, d) ∈ steps D our all → op_ready op (zone_of recs) (DnsRecord_ d).
Proof.
  unfold steps, op_ready. rewrite !elem_of_app, !list_elem_of_fmap.
  intros [(? & [= -> ->] & Hd)|[(? & [= -> ->] & Hd)|(? & [= -> ->] & Hd)]].
  - right. right. split; [done|].
    edestruct (removal_cases state D recs) as (k & Hk & _ & _ & Hz); [done..|].
    by rewrite <-Hz, <-Hk.
  - left. split; [done|].
    edestruct (addition_cases state D recs) as (k & Hk & HDk & Hz); [done..|].
    split; [by eapply Hst|]. by rewrite <-Hz, <-Hk.
  - right. left. split; [done|].
    edestruct (update_cases state D recs) as (k & v & Hk & HDk & Hz & _); [done..|].
    split; [by eapply Hst|]. simpl in Hk. rewrite Hk, Hz. done.
Qed.

(** One of the three loops, after the steps that come before it. *)
Lemma phase before op l after w changed :
  steps D our all = before ++ (pair op <$> l) ++ after →
  good w → zone w = apply_steps before (zone_of recs) →
  ∃ res w', update_loop l op changed w = (Returns res, w') ∧ good w' ∧ err_refused res ∧
    match res with
    | Ok c => c = changed ++ (if bool_decide (op = Remove) then [] else l) ∧
              zone w' = apply_steps (before ++ (pair op <$> l)) (zone_of recs)
    | Err _ => ∃ before' bad after', steps D our all = before' ++ bad :: after' ∧
        interrupted (DnsRecord_ (snd bad)) (apply_steps before' (zone_of recs)) (zone w')
    end.
Proof.
  intros Hsteps Hg Hz. pose proof (steps_nodup state D recs HD Hnd HA our all Hsplit) as Hns.
  rewrite Hsteps, !fmap_app, step_keys in Hns.
  apply list.NoDup_app in Hns as (_ & Hdisj & Hns). apply list.NoDup_app in Hns as (Hl & _ & _).
  destruct (update_loop_spec l op changed w Hg Hl) as (res & w' & Hrun & Hg' & Href & Hres).
  { apply list.Forall_forall. intros d Hd.
    apply (op_ready_ext _ (zone_of recs)).
    - rewrite Hz. apply apply_steps_notin. intros Hin. apply (Hdisj _ Hin).
      apply elem_of_app. left. apply list_elem_of_fmap. by exists d.
    - apply steps_ready. rewrite Hsteps, !elem_of_app. right. left.
      apply list_elem_of_fmap. by exists d. }
  exists res, w'. do 3 (split; [done|]). destruct res as [c|e].
  - destruct Hres as [-> ->]. split; [done|]. by rewrite Hz, apply_steps_app.
  - destruct Hres as (b & bad & a & -> & Hsb).
    exists (before ++ (pair op <$> b)), (op, bad), ((pair op <$> a) ++ after).
    split.
    + rewrite Hsteps, fmap_app. simpl. by rewrite <-!app_assoc.
    + rewrite apply_steps_app, <-Hz. done.
Qed.
End listing.

(** A run either cannot list the records, or it executes the planned steps in
    order, all of them if it succeeds, and up to the failing one otherwise; it
    fails only when a call did. *)
Lemma sync_run w :
  good w → zone w !! (state, "A") = None →
  ∃ res w', UpdateProviderDnsRecords cfg m D w = (Returns res, w') ∧ good w' ∧
    err_refused res ∧
    ((∃ e, res = Err e ∧ zone w' = zone w) ∨
     ∃ recs our all, NoDup (rr_key <$> recs) ∧ zone w = zone_of recs ∧
       splitRecords state recs = (our, all) ∧
       match res with
       | Ok updated => updated = toAdd D all ++ toUpdate D all ∧
           zone w' = apply_steps (steps D our all) (zone w)
       | Err _ => ∃ before bad after, steps D our all = before ++ bad :: after ∧
           interrupted (DnsRecord_ (snd bad)) (apply_steps before (zone w)) (zone w')
       end).
Proof.
  intros Hg HA. unfold UpdateProviderDnsRecords, getProviderDnsRecords.
  destruct (GetRecords_contract w Hg) as (res & w1 & Hget & Hg1 & Hz1 & Hres).
  rewrite !try_bind_eq, Hget. destruct res as [recs|e].
  2:{ eexists _, w1. do 2 (split; [done|]). split; [|left; eauto].
    exists w, w1, e. split; [done|by left]. }
  destruct Hres as [Hnd Hz]. simpl. fold state. rewrite Hz in HA.
  destruct (splitRecords state recs) as [our all] eqn:Hsplit.
  rewrite Hz in Hz1. rewrite Hz. unfold removeExtraRecords, addMissingRecords,
    updateExistingRecords, updateRecords.
  edestruct (phase recs Hnd HA our all Hsplit [] Remove (toRemove D our)) as
    (res & w2 & Hrun & Hg2 & Href & Hres); [done|done|done|].
  rewrite try_bind_eq, Hrun. destruct res as [c1|e].
  2:{ eexists _, w2. do 3 (split; [done|]). right. by exists recs, our, all. }
  destruct Hres as [_ Hz2].
  edestruct (phase recs Hnd HA our all Hsplit (pair Remove <$> toRemove D our) Add (toAdd D all))
    as (res & w3 & Hrun3 & Hg3 & Href3 & Hres); [done|done|done|].
  rewrite try_bind_eq, Hrun3. destruct res as [c2|e].
  2:{ eexists _, w3. do 3 (split; [done|]). right. by exists recs, our, all. }
  destruct Hres as [-> Hz3].
  edestruct (phase recs Hnd HA our all Hsplit
    ((pair Remove <$> toRemove D our) ++ (pair Add <$> toAdd D all)) Update (toUpdate D all) [])
    as (res & w4 & Hrun4 & Hg4 & Href4 & Hres); [|done|done|].
  { unfold steps. by rewrite app_nil_r, app_assoc. }
  rewrite try_bind_eq, Hrun4. destruct res as [c3|e].
  2:{ eexists _, w4. do 3 (split; [done|]). right. by exists recs, our, all. }
  destruct Hres as [-> Hz4].
  eexists _, w4. do 3 (split; [done|]). right. exists recs, our, all.
  do 3 (split; [done|]). split; [done|]. rewrite Hz4. unfold steps. by rewrite app_assoc.
Qed.

(** The record set a failed run may leave in between: one the run was about,
    with old or desired values only. *)
Definition half_done (Z Z' : zone_map) (k : string) : Prop :=
  (k = state ∨ k ∈ dom D ∨ k ∈ owned state Z) ∧
  ∀ v x, Z' !! managed state k = Some v → x ∈ rr_values v →
    (∃ d, D !! k = Some d ∧ x ∈ Records (DnsRecord_ d)) ∨
    (∃ v0, Z !! managed state k = Some v0 ∧ x ∈ rr_values v0).

(** The result of a run, key by key. *)
Definition sync_post (Z : zone_map) (res : result (list MetadataDnsRecord)) (Z' : zone_map)
    : Prop :=
  match res with
  | Ok updated =>
      (∀ key, Z' !! key = target state D Z key) ∧
      (∀ d, d ∈ updated ↔ ∃ k, D !! k = Some d ∧ Z' !! managed state k ≠ Z !! managed state k)
  | Err _ =>
      Z' = Z ∨
      ∃ k, half_done Z Z' k ∧
        ∀ key, key ≠ managed state k → Z' !! key = Z !! key ∨ Z' !! key = target state D Z key
  end.

Section outcome.
Context (recs : list DnsRecord) (Hnd : NoDup (rr_key <$> recs)).
Context (HA : zone_of recs !! (state, "A") = None).
Context (our all : gmap string DnsRecord) (Hsplit : splitRecords state recs = (our, all)).
Notation Z := (zone_of recs).

Lemma updated_spec d :
  d ∈ toAdd D all ++ toUpdate D all ↔
  ∃ k, D !! k = Some d ∧ target state D Z (managed state k) ≠ Z !! managed state k.
Proof.
  rewrite elem_of_app, (elem_of_additions state D recs Hnd HA our all Hsplit),
    (elem_of_updates state D recs Hnd HA our all Hsplit).
  setoid_rewrite target_managed. split.
  - intros [(k & HDk & Hz)|(k & v & HDk & Hz & Hv)]; exists k; rewrite HDk, Hz; [done|].
    rewrite bool_decide_eq_false_2 by done. split; [done|]. intros [= Heq]. by rewrite <-Heq in Hv.
  - intros (k & HDk & Hne). rewrite HDk in Hne.
    destruct (Z !! managed state k) as [v|] eqn:Hz; [|eauto]. right.
    case_bool_decide; [done|]. eauto 10.
Qed.

Lemma interrupted_half_done before bad after Z' :
  steps D our all = before ++ bad :: after →
  interrupted (DnsRecord_ (snd bad)) (apply_steps before Z) Z' →
  ∃ k, step_key bad = managed state k ∧ half_done Z Z' k.
Proof.
  intros Hsteps [_ Hval]. destruct bad as [op d].
  assert (apply_steps before Z !! rr_key (DnsRecord_ d) = Z !! rr_key (DnsRecord_ d)) as Hsame.
  { apply apply_steps_notin. pose proof (steps_nodup state D recs HD Hnd HA our all Hsplit) as Hns.
    rewrite Hsteps, fmap_app in Hns. apply list.NoDup_app in Hns as (_ & Hdisj & _).
    intros Hin. apply (Hdisj _ Hin). by left. }
  simpl in Hval. rewrite Hsame in Hval. unfold step_key. simpl.
  assert ((op, d) ∈ steps D our all) as Hin by (rewrite Hsteps; apply elem_of_app; right; by left).
  unfold steps in Hin. rewrite !elem_of_app, !list_elem_of_fmap in Hin.
  destruct Hin as [(? & [= -> ->] & Hd)|[(? & [= -> ->] & Hd)|(? & [= -> ->] & Hd)]].
  - edestruct (removal_cases state D recs) as (k & Hk & HDk & Ho & Hz); [done..|].
    simpl in Hk. exists k. split; [done|]. split; [naive_solver|]. intros v y Hv Hy.
    rewrite Hk in Hval. right. destruct (Hval v y Hv Hy) as [Hr|?]; [|done].
    eexists. split; [done|]. by apply elem_of_list_to_set.
  - edestruct (addition_cases state D recs) as (k & Hk & HDk & Hz); [done..|].
    simpl in Hk. exists k. split; [done|]. split; [right; left; by apply elem_of_dom_2 in HDk|].
    intros v y Hv Hy. rewrite Hk in Hval. destruct (Hval v y Hv Hy); [left|right]; eauto.
  - edestruct (update_cases state D recs) as (k & v0 & Hk & HDk & Hz & _); [done..|].
    simpl in Hk. exists k. split; [done|]. split; [right; left; by apply elem_of_dom_2 in HDk|].
    intros v y Hv Hy. rewrite Hk in Hval. destruct (Hval v y Hv Hy); [left|right]; eauto.
Qed.
End outcome.

Lemma sync_effect w :
  good w → zone w !! (state, "A") = None →
  ∃ res w', UpdateProviderDnsRecords cfg m D w = (Returns res, w') ∧ good w' ∧
    sync_post (zone w) res (zone w').
Proof.
  intros Hg HA. destruct (sync_run w Hg HA) as (res & w' & Hrun & Hg' & _ & Hres).
  exists res, w'. split; [done|]. split; [done|].
  destruct Hres as [(e & -> & Hz)|(recs & our & all & Hnd & Hz & Hsplit & Hres)]; [by left|].
  rewrite Hz in HA. destruct res as [updated|e]; simpl.
  - destruct Hres as [-> Hz']. rewrite Hz', Hz.
    assert (∀ key, apply_steps (steps D our all) (zone_of recs) !! key
                   = target state D (zone_of recs) key) as Htgt.
    { intros key. by apply all_target. }
    split; [done|]. intros d. rewrite (updated_spec recs Hnd HA our all Hsplit).
    setoid_rewrite Htgt. done.
  - destruct Hres as (before & bad & after & Hsteps & Hint). right. rewrite Hz in Hint.
    edestruct (interrupted_half_done recs) as (k & Hk & Hhd); [done..|].
    rewrite Hz. exists k. split; [done|]. intros key Hne. rewrite <-Hk in Hne.
    destruct Hint as [Hsb _]. rewrite Hsb by done.
    rewrite (prefix_target state D recs HD Hnd HA our all Hsplit before (bad :: after)) by done.
    case_bool_decide; auto.
Qed.
End run.
