(* ===== verification/Sync.v ===== *)
(** * Synchronization

    The theorems about the reconciliation of [src/external-dns.go], against
    the contract of [Provider]: a run implements the specification [target],
    it is idempotent, it never touches records the program does not own, and
    the ownership record is written last.  No other writer is assumed to
    change the zone between the listing and the last call of a run. *)

From S2P Require Import Prelude GoStrings GoStrconv FastTemplate Utils Config GoNet GoHttp.
From S2P Require Import MetaTypes Samples MetaClient Metadata Provider Reconcile.

(** ** The order of a run *)

(** The sort puts the ownership record after the others. *)
Lemma typed_order {B} (state : string) type (S : gset string) (f : string → option B)
    (g : B → string * string) :
  (∀ k, k ∈ S → type k = if bool_decide (k = state) then "TXT" else "A") →
  (∀ k b, f k = Some b → g b = managed state k) →
  StronglySorted (λ b b', g b = managed state state → g b' = managed state state)
    (omap f (isort (record_less type) (elements S))).
Proof.
  intros Htype Hg. eapply StronglySorted_omap; [|eapply isort_sorted;
    [apply record_less_strict| |apply NoDup_elements]].
  - intros a a' b b' Ha Ha' Hless Hb Hb' Hst.
    rewrite elem_of_isort, elem_of_elements in Ha, Ha'.
    rewrite (Hg _ _ Hb) in Hst. apply managed_inj in Hst as ->. rewrite (Hg _ _ Hb').
    destruct (decide (a' = state)) as [->|Hne]; [done|]. exfalso.
    unfold record_less in Hless. rewrite !Htype in Hless by done.
    rewrite (bool_decide_eq_true_2 (state = state)), (bool_decide_eq_false_2 (a' = state)) in Hless by done.
    done.
  - apply list.Forall_forall. intros k Hk%elem_of_elements. rewrite Htype by done.
    case_bool_decide; auto.
Qed.

Section order.
Context (state : string) (D : gmap string MetadataDnsRecord) (recs : list DnsRecord).
Context (HD : wf_desired state D) (Hnd : NoDup (rr_key <$> recs)).
Context (HA : zone_of recs !! (state, "A") = None).
Context (our all : gmap string DnsRecord) (Hsplit : splitRecords state recs = (our, all)).

Notation key_of := (rr_key ∘ DnsRecord_).
Notation late := (λ d d', key_of d = managed state state → key_of d' = managed state state).

Lemma key_type k r :
  rr_key r = managed state k → Type_ r = if bool_decide (k = state) then "TXT" else "A".
Proof. unfold rr_key, managed. by intros [= _ ->]. Qed.

Lemma desired_order f :
  (∀ k d, f k = Some d → D !! k = Some d) → StronglySorted late (omap f (sortedKeys D)).
Proof.
  intros Hf. apply typed_order.
  - intros k [d Hd]%elem_of_dom. rewrite Hd. simpl. by apply key_type, (wf_desired_key state D).
  - intros k d Hk. by apply (wf_desired_key state D), Hf.
Qed.

Lemma removals_order : StronglySorted late (toRemove D our).
Proof.
  apply typed_order.
  - intros k [r Hr]%elem_of_dom. rewrite Hr. simpl.
    by apply key_type, (removals_key state recs Hnd HA our all Hsplit).
  - intros k d Hk. destruct (D !! k); [done|]. destruct (our !! k) as [r|] eqn:Hr; [|done].
    injection Hk as <-. by apply (removals_key state recs Hnd HA our all Hsplit).
Qed.

(** In the sequence of steps, what follows a change of the ownership record is
    an update of an existing record. *)
Definition step_order (x y : Op * MetadataDnsRecord) : Prop :=
  step_key x = managed state state → fst y = Update ∨ step_key y = managed state state.

Lemma phase_order op l : StronglySorted late l → StronglySorted step_order (pair op <$> l).
Proof.
  apply StronglySorted_fmap. intros d d' Hl Hd. right. by apply Hl.
Qed.

Lemma steps_order : StronglySorted step_order (steps D our all).
Proof.
  unfold steps. apply StronglySorted_app_2; [|apply StronglySorted_app_2|].
  - apply phase_order, removals_order.
  - apply phase_order, desired_order. intros k d Hk. by destruct (all !! k).
  - apply phase_order, desired_order. intros k d Hk.
    destruct (all !! k), (D !! k); try done. by case_match.
  - intros x y _ (d & -> & _)%list_elem_of_fmap _. by left.
  - intros x y (d & -> & Hd)%list_elem_of_fmap Hy Hx. exfalso.
    apply (removal_cases state D recs Hnd HA our all Hsplit) in Hd as (k & Hk & HDk & _).
    unfold step_key in Hx. simpl in Hx, Hk. rewrite Hk in Hx. apply managed_inj in Hx as ->.
    assert (∃ k d, D !! k = Some d) as (k & d' & HDk').
    { apply elem_of_app in Hy as [(d' & -> & Hd')%list_elem_of_fmap|(d' & -> & Hd')%list_elem_of_fmap].
      - apply (addition_cases state D recs HD Hnd HA our all Hsplit) in Hd' as (k & _ & ? & _). eauto.
      - apply (update_cases state D recs HD Hnd HA our all Hsplit) in Hd' as (k & v & _ & ? & _). eauto. }
    apply elem_of_dom_2, (wf_has_state _ _ HD), elem_of_dom in HDk' as [? ?]. congruence.
Qed.

(** So a prefix that reaches the ownership record has all removals and all
    additions of other names. *)
Lemma prefix_complete before bad after op d :
  steps D our all = before ++ bad :: after →
  managed state state ∈ step_key <$> (before ++ [bad]) →
  (op, d) ∈ steps D our all → op ≠ Update → key_of d ≠ managed state state →
  (op, d) ∈ before.
Proof.
  intros Hs Hin Hd Hop Hk. pose proof steps_order as Ho. rewrite Hs in Ho, Hd.
  apply elem_of_app in Hd as [?|Hd]; [done|]. exfalso.
  rewrite fmap_app, elem_of_app in Hin. destruct Hin as [(x & Hx & Hxin)%list_elem_of_fmap|Hbad].
  - destruct (StronglySorted_app_1_elem_of _ _ _ x (op, d) Ho Hxin Hd) as [?|?]; done.
  - apply list_elem_of_singleton in Hbad. apply elem_of_cons in Hd as [<-|Hd]; [by apply Hk|].
    apply StronglySorted_app_1_r, StronglySorted_inv in Ho as [_ Ho].
    rewrite list.Forall_forall in Ho. by destruct (Ho _ Hd).
Qed.

(** ... and what they were to do is done. *)
Lemma prefix_reached before bad after Z' key :
  steps D our all = before ++ bad :: after →
  managed state state ∈ step_key <$> (before ++ [bad]) →
  interrupted (DnsRecord_ (snd bad)) (apply_steps before (zone_of recs)) Z' →
  key ≠ managed state state → (∀ d, (Update, d) ∈ steps D our all → key_of d ≠ key) →
  Z' !! key = target state D (zone_of recs) key.
Proof.
  intros Hs Hin [Hsb _] Hks Hupd.
  pose proof (steps_nodup state D recs HD Hnd HA our all Hsplit) as Hns.
  assert (key ≠ step_key bad → Z' !! key = apply_steps before (zone_of recs) !! key) as HZ'
    by apply Hsb.
  rewrite (prefix_target state D recs HD Hnd HA our all Hsplit before (bad :: after) Hs) in HZ'.
  destruct (decide (key ∈ step_key <$> steps D our all)) as [Hk|Hk].
  - apply list_elem_of_fmap in Hk as ([op d] & -> & Hd).
    assert ((op, d) ∈ before) as Hb.
    { eapply prefix_complete; [done..| |done]. intros ->. by apply (Hupd d). }
    assert (step_key (op, d) ∈ step_key <$> before) as Hkb by (apply list_elem_of_fmap; eauto).
    rewrite HZ'; [by rewrite bool_decide_eq_true_2|]. intros Heq.
    rewrite Hs, fmap_app in Hns. apply list.NoDup_app in Hns as (_ & Hdisj & _).
    apply (Hdisj _ Hkb). rewrite Heq. by left.
  - rewrite Hs, fmap_app, not_elem_of_app in Hk. destruct Hk as [Hkb Hka].
    rewrite fmap_cons, not_elem_of_cons in Hka. destruct Hka as [Hkbad Hka].
    rewrite HZ', bool_decide_eq_false_2 by done. symmetry.
    apply (untouched_target state D recs HD Hnd HA our all Hsplit).
    rewrite Hs, fmap_app, not_elem_of_app, fmap_cons, not_elem_of_cons. done.
Qed.
End order.

(** ** Zones that are as specified *)

Section convergence.
Context (state : string) (D : gmap string MetadataDnsRecord) (HD : wf_desired state D).

(** A desired record has its desired values in the specified zone. *)
Lemma target_values Z k d :
  D !! k = Some d →
  ∃ v, target state D Z (managed state k) = Some v ∧
    rr_values v = list_to_set (Records (DnsRecord_ d)).
Proof.
  intros Hk. rewrite target_managed, Hk. destruct (Z !! _) as [v|]; [case_bool_decide|]; eauto.
Qed.

(** The names owned in the specified zone are the desired ones. *)
Lemma owned_target Z Z' k :
  (∀ key, Z' !! key = target state D Z key) →
  k ≠ state → k ∈ owned state Z' ↔ k ∈ dom D.
Proof.
  intros HZ' Hk. unfold owned. rewrite <-managed_state, HZ'.
  destruct (D !! state) as [r|] eqn:Hr.
  - destruct (target_values Z state r Hr) as (v & -> & ->).
    rewrite elem_of_list_to_set. by apply (wf_listed _ _ HD).
  - rewrite target_managed, Hr, bool_decide_eq_true_2 by auto. split; [set_solver|].
    intros Hin%(wf_has_state _ _ HD)%elem_of_dom. rewrite Hr in Hin. by destruct Hin.
Qed.

Lemma target_converged Z Z' :
  (∀ key, Z' !! key = target state D Z key) → converged state D Z'.
Proof.
  intros HZ' key. destruct (managed_dec state key) as [[k ->]|Hk]; [|by apply target_unmanaged].
  rewrite target_managed. destruct (D !! k) as [d|] eqn:Hd.
  - rewrite HZ'. destruct (target_values Z k d Hd) as (v & -> & Hv).
    by rewrite bool_decide_eq_true_2.
  - case_bool_decide as Ho; [|done]. rewrite HZ', target_managed, Hd.
    rewrite bool_decide_eq_true_2; [done|]. destruct (decide (k = state)) as [|Hne]; [by left|].
    destruct Ho as [?|Ho]; [done|]. apply (owned_target Z Z' k HZ' Hne) in Ho.
    apply elem_of_dom in Ho as [? ?]. congruence.
Qed.
End convergence.

Section claims.
Context `{GoUnicode} (cfg : Config) (m : MetadataClient) {W : Type} `{ProviderContract W}.

Notation state := (stateName cfg m).
Notation sync := (UpdateProviderDnsRecords cfg m).

(** What the reconciler is given: desired records as the metadata component
    builds them, that the provider can represent. *)
Definition admissible (D : gmap string MetadataDnsRecord) : Prop :=
  wf_desired state D ∧ all_storable D.

(** Before a run: the provider is in order, and the name of the ownership
    record carries no address record. *)
Definition ready (w : W) : Prop := good w ∧ zone w !! (state, "A") = None.

Lemma sync_returns D w :
  admissible D → ready w →
  ∃ res w', sync D w = (Returns res, w') ∧ good w' ∧ sync_post cfg m D (zone w) res (zone w').
Proof. intros [HD Hst] [Hg HA]. by apply sync_effect. Qed.

Lemma sync_inv D w res w' :
  admissible D → ready w → sync D w = (Returns res, w') →
  good w' ∧ sync_post cfg m D (zone w) res (zone w').
Proof.
  intros HD Hw Hr. destruct (sync_returns D w HD Hw) as (res0 & w0 & Hr0 & ? & ?).
  rewrite Hr in Hr0. by injection Hr0 as -> ->.
Qed.

(** A run fails only when a call of the provider does. *)
Lemma sync_err D w e w' :
  admissible D → ready w → sync D w = (Returns (Err e), w') → refused.
Proof.
  intros [HD Hst] [Hg HA] Hr.
  destruct (sync_run cfg m D HD Hst w Hg HA) as (res & w0 & Hr0 & _ & Href & _).
  rewrite Hr in Hr0. by injection Hr0 as <- _.
Qed.

(** Names the program may touch in a run. *)
Definition concerned (D : gmap string MetadataDnsRecord) (Z : zone_map) (k : string) : Prop :=
  k = state ∨ k ∈ dom D ∨ k ∈ owned state Z.

Lemma target_foreign D Z key :
  (∀ k, key = managed state k → ¬ concerned D Z k) → target state D Z key = Z !! key.
Proof.
  intros Hk. destruct (managed_dec state key) as [[k ->]|?]; [|by apply target_unmanaged].
  specialize (Hk k eq_refl). unfold concerned in Hk. rewrite target_managed.
  destruct (D !! k) eqn:Hd; [apply elem_of_dom_2 in Hd; naive_solver|].
  rewrite bool_decide_eq_false_2; [done|naive_solver].
Qed.

(** One run, whatever its result, leaves other records alone and adds to the
    owned names only desired ones. *)
Lemma sync_frame D w res w' :
  admissible D → ready w → sync D w = (Returns res, w') →
  (∀ key, (∀ k, key = managed state k → ¬ concerned D (zone w) k) →
     zone w' !! key = zone w !! key) ∧
  (∀ k, k ∈ owned state (zone w') → k ∈ owned state (zone w) ∨ k = state ∨ k ∈ dom D) ∧
  ready w'.
Proof.
  intros HD Hw Hr. destruct (sync_inv D w res w' HD Hw Hr) as [Hg' Hpost].
  destruct HD as [HD Hst], Hw as [Hg HA].
  assert (∀ key, (∀ k, key = managed state k → ¬ concerned D (zone w) k) →
    zone w' !! key = zone w !! key) as Hframe.
  { intros key Hkey. destruct res as [u|e]; simpl in Hpost.
    - destruct Hpost as [-> _]. by apply target_foreign.
    - destruct Hpost as [->|(k & [Hk _] & Hoth)]; [done|].
      destruct (Hoth key) as [?|Ht]; [|done|by rewrite Ht; apply target_foreign].
      intros ->. by apply (Hkey k). }
  split; [done|]. split; [|split; [done|rewrite Hframe; [done|]]].
  - intros k. destruct (decide (k = state)) as [|Hks]; [by auto|].
    unfold owned at 1. destruct (zone w' !! (state, "TXT")) as [v|] eqn:Hv; [|set_solver].
    rewrite <-managed_state in Hv. intros Hin.
    assert (zone w' !! managed state state = zone w !! managed state state →
      k ∈ owned state (zone w)) as Hsame.
    { intros Heq. unfold owned. rewrite <-managed_state, <-Heq, Hv. done. }
    assert (∀ d, D !! state = Some d → k ∈ Records (DnsRecord_ d) → k ∈ dom D) as Hl.
    { intros d Hd. by apply (wf_listed _ _ HD). }
    assert (zone w' !! managed state state = target state D (zone w) (managed state state) →
      k ∈ owned state (zone w) ∨ k = state ∨ k ∈ dom D) as Htgt.
    { intros Heq. right. right. destruct (D !! state) as [d|] eqn:Hd.
      - destruct (target_values state D (zone w) state d Hd) as (v' & Hv' & Hvals).
        rewrite Hv, Hv' in Heq. injection Heq as ->. rewrite Hvals in Hin.
        apply (Hl d); [done|]. by apply elem_of_list_to_set in Hin.
      - rewrite Hv, target_managed, Hd, bool_decide_eq_true_2 in Heq by auto. done. }
    destruct res as [u|e]; simpl in Hpost; [apply Htgt, Hpost|].
    destruct Hpost as [Hz|(k' & [_ Hhd] & Hoth)]; [left; apply Hsame; by rewrite Hz|].
    destruct (decide (k' = state)) as [->|Hne].
    + destruct (Hhd v k Hv Hin) as [(d & Hd & Hkd)|(v0 & Hv0 & Hk0)]; [eauto|].
      left. unfold owned. by rewrite <-managed_state, Hv0.
    + destruct (Hoth (managed state state)) as [?|?]; [|by auto..].
      intros Heq. by apply managed_inj in Heq.
  - intros k [= <- Ht]. by rewrite bool_decide_eq_true_2 in Ht.
Qed.

(** A zone that is as specified gives nothing to do. *)
Lemma converged_run D w :
  admissible D → ready w → converged state D (zone w) →
  ∃ res w', sync D w = (Returns res, w') ∧ good w' ∧ zone w' = zone w ∧
    (res = Ok [] ∨ ∃ e, res = Err e).
Proof.
  intros [HD Hst] [Hg HA] Hc.
  destruct (sync_run cfg m D HD Hst w Hg HA) as (res & w' & Hrun & Hg' & _ & Hres).
  exists res, w'. split; [done|]. split; [done|].
  destruct Hres as [(e & -> & Hz)|(recs & our & all & Hnd & Hz & Hsplit & Hres)]; [eauto|].
  rewrite Hz in HA, Hc.
  assert (steps D our all = []) as Hnil.
  { destruct (steps D our all) as [|[op d] ss] eqn:Hss; [done|]. exfalso.
    assert ((op, d) ∈ steps D our all) as Hin by (rewrite Hss; by left).
    eapply steps_change; [done..|]. apply Hc. }
  rewrite Hnil in Hres. destruct res as [u|e].
  - destruct Hres as [-> Hz']. split; [done|]. left. f_equal.
    unfold steps in Hnil. apply app_eq_nil in Hnil as [_ Hnil].
    apply app_eq_nil in Hnil as [HA' HU]. apply fmap_nil_inv in HA', HU. by rewrite HA', HU.
  - destruct Hres as (b & bad & a & Hcontra & _). by destruct b.
Qed.
(** ** The theorems *)

(** Successive runs, each with its desired records; a run may fail. *)
Inductive syncs : W → list (gmap string MetadataDnsRecord) → W → Prop :=
  | syncs_nil w : syncs w [] w
  | syncs_cons w D res w1 Ds w2 :
      sync D w = (Returns res, w1) → syncs w1 Ds w2 → syncs w (D :: Ds) w2.

Lemma syncs_ready w Ds w' : ready w → Forall admissible Ds → syncs w Ds w' → ready w'.
Proof.
  intros Hw HDs Hs. induction Hs as [|w D res w1 Ds w2 Hr Hs IH]; [done|].
  apply list.Forall_cons in HDs as [HD HDs]. apply IH; [|done].
  by apply (sync_frame D w res w1 HD Hw Hr).
Qed.

(** What a run publishes, for a provider over whose zone it runs: everything
    that is desired, nothing that was owned and is not desired any more. *)
Lemma sync_published D w :
  admissible D → ready w →
  ∃ res w', sync D w = (Returns res, w') ∧ ready w' ∧
    (∀ key, (∀ k, key = managed state k → ¬ concerned D (zone w) k) →
       zone w' !! key = zone w !! key) ∧
    match res with
    | Err _ => True
    | Ok _ =>
        (∀ k d, D !! k = Some d → ∃ v, zone w' !! managed state k = Some v ∧
           rr_values v = list_to_set (Records (DnsRecord_ d))) ∧
        (∀ k, k ∉ dom D → k ∈ owned state (zone w) → zone w' !! managed state k = None)
    end.
Proof.
  intros HD Hw. destruct (sync_returns D w HD Hw) as (res & w' & Hr & Hg & Hres).
  destruct (sync_frame D w res w' HD Hw Hr) as (Hf & _ & Hw').
  exists res, w'. do 3 (split; [done|]). destruct res; [|done]. destruct Hres as [Ht _]. split.
  - intros k d Hk. rewrite Ht. by apply target_values.
  - intros k Hk Ho. apply not_elem_of_dom in Hk.
    rewrite Ht, target_managed, Hk, bool_decide_eq_true_2; [done|by right].
Qed.

(** [C1] [UpdateProviderDnsRecords] implements its specification.  A run always
    returns.  If it succeeds, every record set of the zone is as [target]
    says: the desired values under the desired names, owned names that are not
    desired gone, everything else as it was; and the records it reports are
    exactly the desired ones whose record set changed.  If it fails, every
    record set but one has its old or its specified content, and that one
    holds no value that is neither old nor desired. *)
Theorem UpdateProviderDnsRecords_refines (D : gmap string MetadataDnsRecord) (w : W) :
  admissible D → ready w →
  ∃ res w', sync D w = (Returns res, w') ∧ good w' ∧
    match res with
    | Ok updated =>
        (∀ key, zone w' !! key = target state D (zone w) key) ∧
        (∀ d, d ∈ updated ↔
           ∃ k, D !! k = Some d ∧ zone w' !! managed state k ≠ zone w !! managed state k)
    | Err _ =>
        zone w' = zone w ∨
        ∃ k, half_done cfg m D (zone w) (zone w') k ∧
          ∀ key, key ≠ managed state k →
            zone w' !! key = zone w !! key ∨ zone w' !! key = target state D (zone w) key
    end.
Proof. intros HD Hw. exact (sync_returns D w HD Hw). Qed.

(** [C11] After a successful run the zone is a fixed point: the desired names
    have the desired values, the owned names are the desired ones, and another
    run with the same records changes nothing and reports nothing. *)
Theorem UpdateProviderDnsRecords_idempotent D (w w1 w2 : W) updated res :
  admissible D → ready w →
  sync D w = (Returns (Ok updated), w1) → sync D w1 = (Returns res, w2) →
  converged state D (zone w1) ∧
  (∀ k, k ≠ state → k ∈ owned state (zone w1) ↔ k ∈ dom D) ∧
  zone w2 = zone w1 ∧ (res = Ok [] ∨ ∃ e, res = Err e).
Proof.
  intros HD Hw Hr1 Hr2. destruct (sync_inv D w _ w1 HD Hw Hr1) as [_ [Htgt _]].
  destruct (sync_frame D w _ w1 HD Hw Hr1) as (_ & _ & Hw1).
  assert (converged state D (zone w1)) as Hc by (eapply target_converged; [apply HD|done]).
  destruct (converged_run D w1 HD Hw1 Hc) as (res' & w' & Hr & _ & Hz & Hres).
  rewrite Hr2 in Hr. injection Hr as -> ->. split; [done|]. split; [|done].
  intros k Hk. eapply owned_target; [apply HD|done..].
Qed.

(** [C2] No blind deletion.  In any sequence of runs, failed ones included, a
    record set is left exactly as it was if it is not an address record (and
    not the ownership record itself), or if it is an address record whose name
    was not listed in the ownership record at the start and is desired by none
    of the runs. *)
Theorem foreign_records_untouched (w w' : W) Ds name type :
  ready w → Forall admissible Ds → syncs w Ds w' →
  (name, type) ≠ (state, "TXT") →
  type ≠ "A" ∨ ((name ∉ owned state (zone w)) ∧ Forall (λ D, name ∉ dom D) Ds) →
  zone w' !! (name, type) = zone w !! (name, type).
Proof.
  intros Hw HDs Hs Hst Hk. revert Hk. induction Hs as [|w D res w1 Ds w2 Hr Hs IH]; [done|].
  apply list.Forall_cons in HDs as [HD HDs].
  destruct (sync_frame D w res w1 HD Hw Hr) as (Hframe & Howned & Hw1). intros Hk.
  assert (zone w1 !! (name, type) = zone w !! (name, type)) as Hz.
  { apply Hframe. intros k Heq. unfold managed in Heq. injection Heq as <- Ht.
    case_bool_decide; [subst; done|]. destruct Hk as [?|[Ho Hn]]; [done|].
    apply list.Forall_cons in Hn as [Hn _]. intros [?|[?|?]]; done. }
  rewrite <-Hz. destruct (decide (type = "A" ∧ name = state)) as [[-> ->]|Hne].
  { rewrite (proj2 Hw1). apply (syncs_ready w1 Ds w2); done. }
  apply IH; [done..|]. destruct Hk as [?|[Ho Hn]]; [by left|].
  apply list.Forall_cons in Hn as [Hn Hn'].
  destruct (decide (type = "A")) as [->|]; [|by left]. right. split; [|done].
  intros [?|[->|?]]%Howned; naive_solver.
Qed.

(** [C6] The ownership record is written after the records it speaks of.
    Whatever the result of a run: if the ownership record is not what it was,
    then every name that was to be withdrawn has no address record any more,
    and every desired name that had no address record has the desired one.  So
    an interrupted run never claims a name that it still had to create, and
    never forgets one that it still had to remove. *)
Theorem ownership_written_last D (w w' : W) res :
  admissible D → ready w → sync D w = (Returns res, w') →
  zone w' !! (state, "TXT") ≠ zone w !! (state, "TXT") →
  (∀ k, k ≠ state → k ∈ owned state (zone w) → k ∉ dom D → zone w' !! (k, "A") = None) ∧
  (∀ k d, k ≠ state → D !! k = Some d → zone w !! (k, "A") = None →
     zone w' !! (k, "A") = Some (rr_set (DnsRecord_ d))).
Proof.
  intros [HD Hst] [Hg HA] Hr Hne. rewrite <-managed_state in Hne.
  destruct (sync_run cfg m D HD Hst w Hg HA) as (res0 & w0 & Hr0 & _ & _ & Hres).
  rewrite Hr in Hr0. injection Hr0 as <- <-.
  destruct Hres as [(e & _ & Hz)|(recs & our & all & Hnd & Hz & Hsplit & Hres)];
    [by rewrite Hz in Hne|]. rewrite Hz in *.
  assert (∀ k, k ≠ state → (∀ d, (Update, d) ∈ steps D our all →
      rr_key (DnsRecord_ d) ≠ managed state k) →
    zone w' !! (k, "A") = target state D (zone_of recs) (managed state k)) as Hreach.
  { intros k Hk Hupd. rewrite <-(managed_ne state) by done. destruct res as [u|e].
    - destruct Hres as [_ ->]. by apply all_target.
    - destruct Hres as (before & bad & after & Hs & Hint).
      eapply prefix_reached; [done..| |done| |done]; [|by intros ?%managed_inj].
      destruct (decide (managed state state ∈ step_key <$> (before ++ [bad]))) as [|Hn]; [done|].
      exfalso. apply Hne. rewrite fmap_app, not_elem_of_app, list_fmap_singleton, list_elem_of_singleton in Hn.
      destruct Hn as [Hn1 Hn2]. destruct Hint as [Hsb _]. rewrite Hsb by done.
      by apply apply_steps_notin. }
  assert (∀ d, (Update, d) ∈ steps D our all → ∃ k v, rr_key (DnsRecord_ d) = managed state k ∧
    D !! k = Some d ∧ zone_of recs !! managed state k = Some v) as Hupd.
  { intros d Hd. unfold steps in Hd. rewrite !elem_of_app, !list_elem_of_fmap in Hd.
    destruct Hd as [(? & [=] & _)|[(? & [=] & _)|(? & [= <-] & Hd)]].
    edestruct (update_cases state D recs) as (k & v & ? & ? & ? & _); [done..|]. eauto 10. }
  split.
  - intros k Hk Ho HDk. apply not_elem_of_dom in HDk. rewrite Hreach.
    + by rewrite target_managed, HDk, bool_decide_eq_true_2 by auto.
    + done.
    + intros d Hd Heq. destruct (Hupd d Hd) as (k' & v & Hk' & HDk' & _).
      rewrite Hk' in Heq. apply managed_inj in Heq. congruence.
  - intros k d Hk HDk Hzk. rewrite <-(managed_ne state) in Hzk by done. rewrite Hreach.
    + by rewrite target_managed, HDk, Hzk.
    + done.
    + intros d' Hd' Heq. destruct (Hupd d' Hd') as (k' & v & Hk' & _ & Hzk').
      rewrite Hk' in Heq. apply managed_inj in Heq. congruence.
Qed.

(** [C12] The life of a name.  A name that one successful run publishes and the
    next successful run does not want is removed from the zone by that run,
    although the second run gets no other hint than the ownership record that
    the first one left. *)
Theorem withdrawn_names_removed D1 D2 (w w1 w2 : W) u1 u2 k d :
  admissible D1 → admissible D2 → ready w →
  sync D1 w = (Returns (Ok u1), w1) → sync D2 w1 = (Returns (Ok u2), w2) →
  k ≠ state → D1 !! k = Some d → D2 !! k = None →
  (∃ v, zone w1 !! (k, "A") = Some v ∧ rr_values v = list_to_set (Records (DnsRecord_ d))) ∧
  zone w2 !! (k, "A") = None.
Proof.
  intros HD1 HD2 Hw Hr1 Hr2 Hk Hd1 Hd2.
  destruct (sync_inv D1 w _ w1 HD1 Hw Hr1) as [_ [Ht1 _]].
  destruct (sync_frame D1 w _ w1 HD1 Hw Hr1) as (_ & _ & Hw1).
  destruct (sync_inv D2 w1 _ w2 HD2 Hw1 Hr2) as [_ [Ht2 _]].
  rewrite <-(managed_ne state) by done. split.
  - rewrite Ht1. by apply target_values.
  - rewrite Ht2, target_managed, Hd2, bool_decide_eq_true_2; [done|]. right.
    apply (owned_target state D1 (proj1 HD1) (zone w)); [done..|]. by apply elem_of_dom_2 in Hd1.
Qed.

(** ** The upgrade *)

Notation legacy_suffix := ("." +:+ ToLower (Join [EnvironmentName m; RootDomainName cfg] ".")).

(** An address record that looks like one of an earlier version. *)
Definition legacy (Z : zone_map) (x : string) : Prop :=
  HasSuffix x legacy_suffix = true ∧
  ∃ v, Z !! (x, "A") = Some v ∧ rr_ttl v = cfgTTL cfg.

Lemma elem_of_legacyFqdns recs x :
  x ∈ legacyFqdns cfg m recs ↔
  ∃ r, r ∈ recs ∧ Fqdn_ r = x ∧ Type_ r = "A" ∧ HasSuffix x legacy_suffix = true ∧
       TTL r = cfgTTL cfg.
Proof.
  unfold legacyFqdns. cbv zeta.
  assert (∀ acc : gset string, x ∈ foldl (λ ourFqdns rec,
    if bool_decide (Type_ rec = "A") && HasSuffix (Fqdn_ rec) legacy_suffix &&
       bool_decide (TTL rec = cfgTTL cfg)
    then {[Fqdn_ rec]} ∪ ourFqdns else ourFqdns) acc recs ↔
    x ∈ acc ∨ ∃ r, r ∈ recs ∧ Fqdn_ r = x ∧ Type_ r = "A" ∧
      HasSuffix x legacy_suffix = true ∧ TTL r = cfgTTL cfg) as Hf.
  { induction recs as [|r recs IH]; intros acc; cbn [foldl].
    { setoid_rewrite elem_of_nil. naive_solver. }
    rewrite IH. setoid_rewrite elem_of_cons.
    destruct (_ && _ && _) eqn:Hc.
    - rewrite !andb_true_iff, !bool_decide_eq_true in Hc. destruct Hc as [[Ht Hsuf] Httl].
      rewrite elem_of_union, elem_of_singleton. split; [|naive_solver].
      intros [[->|?]|?]; naive_solver.
    - split; [naive_solver|]. intros [?|(r' & [->|?] & Hx & Ht & Hsuf & Httl)]; [auto| |eauto 10].
      rewrite Hx, Hsuf, !bool_decide_eq_true_2 in Hc by done. done. }
  rewrite Hf. set_solver.
Qed.

Lemma legacyFqdns_zone recs x :
  NoDup (rr_key <$> recs) → x ∈ legacyFqdns cfg m recs ↔ legacy (zone_of recs) x.
Proof.
  intros Hnd. rewrite elem_of_legacyFqdns. unfold legacy.
  setoid_rewrite (zone_of_Some recs _ _ Hnd). unfold rr_key. split.
  - intros (r & Hr & <- & Ht & Hs & Httl). split; [done|]. exists (rr_set r).
    split; [|done]. exists r. by rewrite Ht.
  - intros (Hs & v & (r & Hr & [= Hk Ht] & <-) & Httl). exists r. done.
Qed.

(** [C19] The upgrade from versions without ownership records always returns.
    If the environment has its ownership record, nothing changes.  Otherwise
    the names it will own are exactly those of the address records that end in
    the environment's domain and have the configured TTL; the record that
    lists them is the only change, and there is none without such names.  If
    the provider fails, only that record is affected.  The provider need only
    be able to store the ownership record of those names, when there are
    any. *)
Theorem EnsureUpgradeToStateRRSet_spec (w : W) :
  good w →
  (∀ entries, entries ≠ ∅ → (∀ x, x ∈ entries ↔ legacy (zone w) x) →
     storable (StateRecord state (cfgTTL cfg) entries)) →
  ∃ res w', EnsureUpgradeToStateRRSet cfg m w = (Returns res, w') ∧ good w' ∧
    same_but (state, "TXT") (zone w) (zone w') ∧
    match res with
    | Ok _ =>
        match zone w !! (state, "TXT") with
        | Some _ => zone w' = zone w
        | None =>
            (∀ x, x ∈ owned state (zone w') ↔ legacy (zone w) x) ∧
            ((∀ x, ¬ legacy (zone w) x) → zone w' = zone w)
        end
    | Err _ => True
    end.
Proof.
  intros Hg Hsto. unfold EnsureUpgradeToStateRRSet.
  destruct (GetRecords_contract w Hg) as (res & w1 & Hget & Hg1 & Hz1 & Hres).
  rewrite try_bind_eq, Hget. destruct res as [recs|e].
  2:{ eexists _, w1. split; [done|]. split; [done|]. rewrite Hz1. split; [apply same_but_refl|done]. }
  destruct Hres as [Hnd Hz]. simpl. fold state. rewrite (find_state_rec state recs Hnd).
  assert (zone w !! (state, "TXT") = rr_set <$> rec_map recs !! (state, "TXT")) as Hs
    by (rewrite Hz, rec_map_zone; apply lookup_fmap).
  destruct (rec_map recs !! (state, "TXT")) as [r|]; simpl in Hs; rewrite Hs.
  { eexists _, w1. split; [done|]. split; [done|]. rewrite Hz1. split; [apply same_but_refl|done]. }
  assert (∀ x, x ∈ legacyFqdns cfg m recs ↔ legacy (zone w) x) as Hleg
    by (intros; rewrite Hz; by apply legacyFqdns_zone).
  destruct (Nat.ltb_spec 0 (size (legacyFqdns cfg m recs))) as [Hsz|Hsz].
  - destruct (AddRecord_contract w1 (StateRecord state (cfgTTL cfg) (legacyFqdns cfg m recs)))
      as (res & w' & Hadd & Hg' & Hres); [done| |by rewrite Hz1|].
    { apply Hsto; [|done]. intros He. rewrite He, size_empty in Hsz. lia. }
    rewrite try_bind_eq, Hadd. destruct res as [u|e]; (eexists _, w'; split; [done|]; split; [done|]).
    + rewrite Hres, Hz1. split; [intros k Hk; by apply put_lookup_ne|]. split.
      * intros x. unfold owned.
        change (state, "TXT") with (rr_key (StateRecord state (cfgTTL cfg) (legacyFqdns cfg m recs))).
        rewrite put_lookup. cbn [rr_set rr_values].
        by rewrite elem_of_list_to_set, StateRecord_elem.
      * intros Hno. exfalso. assert (legacyFqdns cfg m recs ≡ ∅) as He
          by (apply elem_of_equiv_empty; intros x Hx; by apply (Hno x), Hleg).
        apply size_empty_iff in He. lia.
    + split; [|done]. rewrite <-Hz1. apply Hres.
  - eexists _, w1. split; [done|]. split; [done|]. rewrite Hz1. split; [apply same_but_refl|].
    split; [|done]. intros x. unfold owned. rewrite Hs, <-Hleg.
    assert (legacyFqdns cfg m recs ≡ ∅) as -> by (apply size_empty_iff; lia). done.
Qed.
End claims.

(** [C22] The order of operations does not depend on the iteration order of Go
    maps or on the sorting algorithm: every sorted arrangement of any
    enumeration of the desired names is the one of the model.  The names of
    address records come first, in increasing order, and the ownership record
    comes last. *)
Theorem sortedKeys_canonical (state : string) (D : gmap string MetadataDnsRecord) :
  wf_desired state D → D ≠ ∅ →
  (∃ l, sortedKeys D = l ++ [state] ∧ StronglySorted (λ i j, str_lt i j = true) l) ∧
  (∀ keys sorted, NoDup keys → (∀ k, k ∈ keys ↔ k ∈ dom D) → sorted ≡ₚ keys →
     StronglySorted (λ i j,
       record_less (λ k, default "" (Type_ ∘ DnsRecord_ <$> D !! k)) i j = true) sorted →
     sorted = sortedKeys D).
Proof.
  intros HD Hne. set (type k := default "" (Type_ ∘ DnsRecord_ <$> D !! k)).
  assert (∀ k, k ∈ dom D → type k = if bool_decide (k = state) then "TXT" else "A") as Htype.
  { intros k [d Hd]%elem_of_dom. unfold type. rewrite Hd. simpl.
    by apply key_type, (wf_desired_key state D). }
  assert (∀ l, (∀ k, k ∈ l → k ∈ dom D) → Forall (λ k, type k = "A" ∨ type k = "TXT") l) as HP.
  { intros l Hl. apply list.Forall_forall. intros k Hk. rewrite Htype by auto.
    case_bool_decide; auto. }
  split.
  - assert (state ∈ sortedKeys D) as Hin.
    { apply elem_of_sortedKeys. apply map_choose in Hne as (k & d & Hd).
      by apply elem_of_dom_2, (wf_has_state _ _ HD) in Hd. }
    pose proof (isort_sorted _ _ (record_less_strict type) (elements (dom D))
      (HP _ (λ k, proj1 (elem_of_elements (dom D) k))) (NoDup_elements _)) as Hs.
    pose proof (NoDup_sortedKeys D) as Hnd. pose proof (elem_of_sortedKeys D) as Helem.
    change (isort _ _) with (sortedKeys D) in Hs.
    apply list_elem_of_split in Hin as (l1 & l2 & Heq). rewrite Heq in Hs, Hnd, Helem |- *.
    apply list.NoDup_app in Hnd as (_ & Hdisj & [Hst2 _]%list.NoDup_cons).
    assert (l2 = []) as ->.
    { destruct l2 as [|y l2]; [done|]. exfalso.
      assert (y ∈ dom D) as Hy by (apply Helem; set_solver).
      apply StronglySorted_app_1_r, StronglySorted_inv in Hs as [_ Hs].
      apply list.Forall_cons in Hs as [Hs _]. unfold record_less in Hs.
      rewrite !Htype, (bool_decide_eq_true_2 (state = state)) in Hs by set_solver.
      rewrite (bool_decide_eq_false_2 (y = state)) in Hs by set_solver. done. }
    exists l1. split; [done|]. apply StronglySorted_app_1_l in Hs. revert Hs.
    apply StronglySorted_weaken. intros x y Hx Hy. unfold record_less.
    rewrite !Htype by (apply Helem, elem_of_app; by left).
    by rewrite !(bool_decide_eq_false_2 (_ = state)) by set_solver.
  - intros keys sorted Hk Helem Hp Hs.
    apply (isort_unique _ _ (record_less_strict type)); [|apply NoDup_elements| |done].
    + apply HP. intros k. by rewrite elem_of_elements.
    + rewrite Hp. apply NoDup_Permutation; [done|apply NoDup_elements|].
      intros k. by rewrite Helem, elem_of_elements.
Qed.

(** ** A zone with a foreign and an outdated record

    One name is published, one of an earlier run is still there, and one
    address record belongs to somebody else. *)
Module Example_zone.

Definition cfg : Config :=
  mkConfig "io." 300 "" "" "" defaultNameTemplate "" "".
Definition m : MetadataClient := mkMetadataClient "env" "1".
Definition unicode : GoUnicode := Samples.ascii_unicode.
Existing Instance unicode.
Import Memory.

Definition desired_for (name ip : string) : gmap string MetadataDnsRecord :=
  addStateRecord cfg m
    (mkScan (addToDnsEntries cfg name ip "web" "s" ∅) {[name]} ∅).

Definition D : gmap string MetadataDnsRecord :=
  desired_for "web.s.env.io." "203.0.113.5".
Definition D' : gmap string MetadataDnsRecord :=
  desired_for "api.s.env.io." "203.0.113.6".

Definition Z : zone_map :=
  {[ ("external-dns-1.io.", "TXT") :=
       mkRrset {["old.s.env.io."]} 300;
     ("old.s.env.io.", "A") := mkRrset {["203.0.113.9"]} 300;
     ("www.io.", "A") := mkRrset {["192.0.2.1"]} 60 ]}.

Notation sync := (UpdateProviderDnsRecords cfg m).

Lemma desired_admissible name ip :
  ParseIP ip ≠ None → admissible (W:=zone_map) cfg m (desired_for name ip).
Proof.
  intros Hip. split; [|done]. apply addStateRecord_desired. split.
  - apply addToDnsEntries_wf; [done|apply map_Forall_empty].
  - cbn [dnsEntries ourFqdns]. rewrite addToDnsEntries_dom, dom_empty_L. set_solver.
Qed.

Lemma D_admissible : admissible (W:=zone_map) cfg m D.
Proof. apply desired_admissible. eval_decide. Qed.

Lemma D'_admissible : admissible (W:=zone_map) cfg m D'.
Proof. apply desired_admissible. eval_decide. Qed.

Lemma Z_ready : ready cfg m Z.
Proof. split; [done|]. eval_decide. Qed.

(** Two runs, by evaluation: the records they report and the zones they leave. *)
Definition updated (D : gmap string MetadataDnsRecord) (name : string)
    : list MetadataDnsRecord :=
  omap (λ k, D !! k) [name; "external-dns-1.io."].
Definition zone_with (name ip : string) : zone_map :=
  {[ ("external-dns-1.io.", "TXT") := mkRrset {[name]} 300;
     (name, "A") := mkRrset {[ip]} 300;
     ("www.io.", "A") := mkRrset {["192.0.2.1"]} 60 ]}.
Definition Z1 : zone_map := zone_with "web.s.env.io." "203.0.113.5".
Definition Z2 : zone_map := zone_with "api.s.env.io." "203.0.113.6".

Lemma run1 : sync D Z = (Returns (Ok (updated D "web.s.env.io.")), Z1).
Proof. vm_compute. reflexivity. Qed.
Lemma run2 : sync D' Z1 = (Returns (Ok (updated D' "api.s.env.io.")), Z2).
Proof. vm_compute. reflexivity. Qed.

Lemma UpdateProviderDnsRecords_refines_witness :
  ∃ res Z', sync D Z = (Returns res, Z') ∧ good Z'.
Proof.
  destruct (UpdateProviderDnsRecords_refines cfg m D Z D_admissible Z_ready)
    as (res & Z' & Hr & Hg & _).
  exists res, Z'. exact (conj Hr Hg).
Defined.

Lemma UpdateProviderDnsRecords_idempotent_witness :
  ∃ res, sync D Z1 = (Returns res, Z1) ∧ converged (stateName cfg m) D Z1.
Proof.
  destruct (sync_frame cfg m D Z _ Z1 D_admissible Z_ready run1) as (_ & _ & HZ1).
  destruct (sync_returns cfg m D Z1 D_admissible HZ1) as (res & Z' & Hr & _).
  destruct (UpdateProviderDnsRecords_idempotent cfg m D Z Z1 Z' _ res
    D_admissible Z_ready run1 Hr) as (Hc & _ & Hz & _).
  exists res. split; [|exact Hc]. rewrite Hr. exact (f_equal (pair _) Hz).
Defined.

Lemma foreign_records_untouched_witness :
  syncs cfg m Z [D; D'] Z2 ∧ Z2 !! ("www.io.", "A") = Some (mkRrset {["192.0.2.1"]} 60).
Proof.
  assert (syncs cfg m Z [D; D'] Z2) as Hs.
  { eapply syncs_cons; [exact run1|]. eapply syncs_cons; [exact run2|]. constructor. }
  split; [exact Hs|].
  etransitivity;
    [apply (foreign_records_untouched cfg m Z Z2 [D; D'] "www.io." "A" Z_ready)|eval_decide].
  - constructor; [exact D_admissible|]. constructor; [exact D'_admissible|constructor].
  - exact Hs.
  - eval_decide.
  - right. split; [eval_decide|]. repeat constructor; eval_decide.
Defined.

Lemma ownership_written_last_witness :
  Z1 !! ("old.s.env.io.", "A") = None.
Proof.
  apply (ownership_written_last cfg m D Z Z1 _ D_admissible Z_ready run1);
    eval_decide.
Defined.

Lemma withdrawn_names_removed_witness :
  Z2 !! ("web.s.env.io.", "A") = None.
Proof.
  edestruct (withdrawn_names_removed cfg m D D' Z Z1 Z2 (updated D "web.s.env.io.") (updated D' "api.s.env.io.")
    "web.s.env.io.") as [_ Hgone];
    [exact D_admissible|exact D'_admissible|exact Z_ready|exact run1|exact run2
    |eval_decide|vm_compute; reflexivity|eval_decide|exact Hgone].
Defined.

Lemma sortedKeys_canonical_witness :
  ∃ l, sortedKeys D = l ++ ["external-dns-1.io."].
Proof.
  destruct (sortedKeys_canonical "external-dns-1.io." D) as [[l [Hl _]] _].
  - exact (proj1 D_admissible).
  - eval_decide.
  - exists l. exact Hl.
Defined.

(** The upgrade claims the outdated record by its suffix and TTL, not the
    foreign one. *)
Example upgrade_result :
  owned (stateName cfg m)
    (snd (EnsureUpgradeToStateRRSet cfg m (delete ("external-dns-1.io.", "TXT") Z)))
  = {["old.s.env.io."]}.
Proof. vm_compute. reflexivity. Qed.
End Example_zone.
