(* ===== verification/StorePublished.v ===== *)
(** * Publishing a scan in a store

    From the scan of the metadata service to the values in a store with one
    value per record, for any provider that implements its contract over such
    a store. *)

From S2P Require Import Prelude GoStrings GoStrconv FastTemplate Utils GoHttp Provider.
From S2P Require Import Grouping Store StoreZone Config MetaClient Metadata Reconcile Sync.

Section published.
Context `{GoUnicode} (cfg : Config) {W X : Type} `{ProviderContract W} `{ValueStore W X}
  (entry_of : X → entry).
Context (zone_entries : ∀ w, zone w = vs_zone entry_of w).
Context `{Client W} `{Clock W}.

Lemma owned_values w state k :
  k ∈ owned state (zone w) ↔ k ∈ values_at entry_of w (state, "TXT").
Proof.
  unfold owned. rewrite zone_entries.
  destruct (vs_zone entry_of w !! (state, "TXT")) as [x|] eqn:Hz.
  - rewrite (vs_zone_Some _ _ _ _ Hz). apply elem_of_list_to_set.
  - rewrite (vs_zone_None _ _ _ Hz). set_solver.
Qed.

(** The result of a scan is admissible if its records can be stored. *)
Lemma scanned_admissible m m' D w w0 :
  GetMetadataDnsRecords cfg m w0 = (Returns (m', Ok D), w) →
  (∀ k d, D !! k = Some d → Records (DnsRecord_ d) ≠ [] → TTL (DnsRecord_ d) = cfgTTL cfg →
     storable (DnsRecord_ d)) →
  stateName cfg m' = stateName cfg m ∧ admissible cfg m' D.
Proof.
  intros Hscan Hst. destruct (scan_desired cfg m m' w0 w D Hscan) as (Hstate & HD & Hent & Hown).
  rewrite <-Hstate in HD. do 2 (split; [done|]). intros k d Hk.
  apply (Hst k d Hk); [by eapply wf_values|].
  destruct (decide (k = stateName cfg m)) as [->|Hk'].
  - destruct Hown as [->|(r & Hr & _ & _ & Ht & _)]; [done|]. congruence.
  - by destruct (Hent k d Hk' Hk).
Qed.

(** What a run after a scan does to the values in the store. *)
Lemma store_published m m' D w w0 :
  let state := stateName cfg m in
  GetMetadataDnsRecords cfg m w0 = (Returns (m', Ok D), w) →
  (∀ k d, D !! k = Some d → Records (DnsRecord_ d) ≠ [] → TTL (DnsRecord_ d) = cfgTTL cfg →
     storable (DnsRecord_ d)) →
  good w → values_at entry_of w (state, "A") = [] →
  ∃ res w', UpdateProviderDnsRecords cfg m' D w = (Returns res, w') ∧ good w' ∧
    (∀ key, (∀ k, key = managed state k →
         ¬ (k = state ∨ k ∈ dom D ∨ k ∈ values_at entry_of w (state, "TXT"))) →
       (list_to_set (values_at entry_of w' key) : gset string) =
       list_to_set (values_at entry_of w key)) ∧
    match res with
    | Err _ => True
    | Ok _ =>
        (∀ k d, D !! k = Some d →
           (list_to_set (values_at entry_of w' (managed state k)) : gset string) =
           list_to_set (Records (DnsRecord_ d))) ∧
        (∀ k, k ∉ dom D → k ∈ values_at entry_of w (state, "TXT") →
           values_at entry_of w' (managed state k) = [])
    end.
Proof.
  intros state Hscan Hst Hw HA.
  destruct (scanned_admissible m m' D w w0 Hscan Hst) as [Hstate Hadm]. fold state in Hstate.
  assert (ready cfg m' w) as Hready.
  { split; [done|]. rewrite Hstate, zone_entries. unfold vs_zone, values_at in *.
    rewrite store_zone_lookup. apply fmap_nil_inv in HA. by rewrite HA. }
  destruct (sync_published cfg m' D w Hadm Hready) as (res & w' & Hr & [Hg _] & Hframe & Hres).
  rewrite Hstate in Hframe, Hres. exists res, w'. do 2 (split; [done|]). split.
  - intros key Hkey. apply same_values. rewrite <-!zone_entries. apply Hframe.
    intros k Hk Hc. unfold concerned in Hc. rewrite Hstate, owned_values in Hc. by apply (Hkey k Hk).
  - destruct res; [|done]. destruct Hres as [Hdes Hgone]. split.
    + intros k d Hk. destruct (Hdes k d Hk) as (x & Hx & <-). rewrite zone_entries in Hx.
      symmetry. by apply vs_zone_Some.
    + intros k Hk Ho%owned_values. apply vs_zone_None. rewrite <-zone_entries. by apply Hgone.
Qed.
End published.
