(* ===== verification/PlatformApi.v ===== *)
(** * The platform API

    [src/internal/platformapi/client.go], [src/platform_client.go] and
    [src/internal/logsafe/value.go]: the client of the control plane, whose
    requests carry credentials and may only go to the configured origin. *)

From S2P Require Import Prelude GoStrings GoStrconv FastTemplate Utils GoNet GoHttp MetaTypes.
From S2P Require Import Samples.
Local Open Scope Z_scope.

(** ** Log values *)

Definition CR : ascii := of_byte 13.
Definition LF : ascii := of_byte 10.
Definition TAB : ascii := of_byte 9.

(** [logsafe.Value] on the text that [fmt.Sprint] makes of its argument. *)
Definition logsafe_Value (text : string) : string :=
  let text := ReplaceAll text CR "" in
  ReplaceAll text LF " ".

(** ** Requests *)

(** [url.QueryEscape] *)
Definition unreserved (c : ascii) : bool :=
  is_lower c || is_upper c || is_digit c ||
  bool_decide (c ∈ ["-"%char; "_"%char; "."%char; "~"%char]).

Definition upper_hex (n : Z) : ascii := if n <? 10 then of_byte (n + 48) else of_byte (n + 55).

Fixpoint QueryEscape (s : string) : string :=
  match s with
  | EmptyString => ""
  | String c s =>
      if unreserved c then String c (QueryEscape s)
      else if bool_decide (c = " "%char) then String "+" (QueryEscape s)
      else String "%" (String (upper_hex (byte_of c / 16))
                        (String (upper_hex (byte_of c mod 16)) (QueryEscape s)))
  end.

(** [url.Values.Encode] *)
Definition Encode (query : gmap string (list string)) : string :=
  Join (isort str_lt (elements (dom query)) ≫= λ key,
          (λ v, QueryEscape key +:+ "=" +:+ QueryEscape v) <$> default [] (query !! key)) "&".

(** [base64.StdEncoding] *)
Definition base64_char (n : Z) : ascii :=
  if n <? 26 then of_byte (n + 65) else if n <? 52 then of_byte (n + 71)
  else if n <? 62 then of_byte (n - 4) else if n =? 62 then "+" else "/".

Fixpoint base64 (s : string) : string :=
  match s with
  | EmptyString => ""
  | String a EmptyString =>
      String (base64_char (byte_of a / 4))
        (String (base64_char (byte_of a mod 4 * 16)) "==")
  | String a (String b EmptyString) =>
      String (base64_char (byte_of a / 4))
        (String (base64_char (byte_of a mod 4 * 16 + byte_of b / 16))
          (String (base64_char (byte_of b mod 16 * 4)) "="))
  | String a (String b (String c s)) =>
      String (base64_char (byte_of a / 4))
        (String (base64_char (byte_of a mod 4 * 16 + byte_of b / 16))
          (String (base64_char (byte_of b mod 16 * 4 + byte_of c / 64))
            (String (base64_char (byte_of c mod 64)) (base64 s))))
  end.

(** [http.removeEmptyPort], which [http.NewRequest] applies. *)
Definition removeEmptyPort (host : string) : string :=
  let hasPort :=
    match LastIndexByte host ":", LastIndexByte host "]" with
    | Some i, Some j => (j <? i)%nat
    | Some _, None => true
    | None, _ => false
    end in
  if hasPort then TrimSuffix host ":" else host.

(** The transport below the client: one exchange on the network. *)
Class Transport (W : Type) := transport_RoundTrip : Request → prog W (result Response).

Class JsonMarshal (A : Type) := json_Marshal : A → result string.

(** ** The client *)

Definition platform_maxResponseSize : Z := 4 * 2 ^ 20.

(** [originPolicy] *)
Record originPolicy := mkOriginPolicy { origin : string }.

Record PlatformAPIClient := mkPlatformClient {
  baseURL : URL;
  policy : originPolicy;
  accessKey : string;
  secretKey : string;
}.

Record ExternalDNSEvent := mkExternalDNSEvent {
  EventType : string;
  ExternalID : string;
  Event_ServiceName : string;
  Event_StackName : string;
  FQDN : string;
}.

(** Assignments to fields of a copied URL. *)
Definition set_scheme (u : URL) (scheme : string) : URL :=
  mkURL scheme (URL_Opaque u) (URL_User u) (URL_Host u) (URL_Path u) (URL_RawPath u)
    (URL_ForceQuery u) (URL_RawQuery u) (URL_Fragment u).
Definition set_path (u : URL) (path : string) : URL :=
  mkURL (URL_Scheme u) (URL_Opaque u) (URL_User u) (URL_Host u) path ""
    (URL_ForceQuery u) (URL_RawQuery u) (URL_Fragment u).
Definition set_host (u : URL) (host : string) : URL :=
  mkURL (URL_Scheme u) (URL_Opaque u) (URL_User u) host (URL_Path u) (URL_RawPath u)
    (URL_ForceQuery u) (URL_RawQuery u) (URL_Fragment u).
Definition set_endpoint (u : URL) (path query : string) : URL :=
  mkURL (URL_Scheme u) (URL_Opaque u) (URL_User u) (URL_Host u) path ""
    (URL_ForceQuery u) query "".

Section platform.
Context `{GoUnicode} `{GoURL}.

Definition canonicalOrigin (parsed : URL) : result string :=
  let scheme := ToLower (URL_Scheme parsed) in
  if negb (bool_decide (scheme = "http")) && negb (bool_decide (scheme = "https")) then
    Err "platform URL must use http or https"
  else
    let hostname := ToLower (TrimSuffix (Hostname parsed) ".") in
    if bool_decide (hostname = "") then Err "platform URL must include a host"
    else
      let port := Port parsed in
      let port :=
        if bool_decide (port = "") then
          if bool_decide (scheme = "https") then "443" else "80"
        else port in
      match Atoi port with
      | (_, Some _) => Err "platform URL contains an invalid port"
      | (portNumber, None) =>
          if (portNumber <? 1) || (65535 <? portNumber) then
            Err "platform URL contains an invalid port"
          else Ok (scheme +:+ "://" +:+ JoinHostPort hostname port)
      end.

Definition isValidRedirectURL (rawURL : string) (policy : originPolicy) : bool :=
  match url_Parse rawURL with
  | Err _ => false
  | Ok parsed =>
      if negb (bool_decide (URL_User parsed = None)) ||
         negb (bool_decide (URL_Fragment parsed = "")) then false
      else
        match canonicalOrigin parsed with
        | Err _ => false
        | Ok o => bool_decide (o = origin policy)
        end
  end.

Definition parsePlatformURL (rawURL : string) : result URL :=
  if bool_decide (rawURL = "") || negb (bool_decide (rawURL = TrimSpace rawURL)) ||
     ContainsAny rawURL [CR; LF; TAB] then
    Err "platform URL must not be empty or contain whitespace"
  else
    match url_Parse rawURL with
    | Err err => Err ("parse platform URL: " +:+ err)
    | Ok u =>
        if negb (bool_decide (ToLower (URL_Scheme u) = "http")) &&
           negb (bool_decide (ToLower (URL_Scheme u) = "https")) then
          Err "platform URL must use http or https"
        else if negb (bool_decide (URL_Opaque u = "")) || bool_decide (URL_Host u = "") ||
                bool_decide (Hostname u = "") then
          Err "platform URL must include a host"
        else if negb (bool_decide (URL_User u = None)) then
          Err "platform URL must not contain user information"
        else if URL_ForceQuery u || negb (bool_decide (URL_RawQuery u = "")) ||
                negb (bool_decide (URL_Fragment u = "")) then
          Err "platform URL must not contain a query or fragment"
        else
          let u := set_scheme u (ToLower (URL_Scheme u)) in
          match canonicalOrigin u with
          | Err err => Err err
          | Ok _ => Ok u
          end
    end.

(** The [switch] of [NewClient] on the path. *)
Definition apiPath (path : string) : string :=
  if bool_decide (path = "") || bool_decide (path = "/") then "/v2-beta"
  else if bool_decide (path = "/v1") then "/v2-beta"
  else if HasPrefix path "/v1/" then "/v2-beta/" +:+ TrimPrefix path "/v1/"
  else path.

Definition NewClient (rawURL accessKey secretKey : string) : result PlatformAPIClient :=
  if bool_decide (TrimSpace accessKey = "") then Err "platform access key is required"
  else if bool_decide (TrimSpace secretKey = "") then Err "platform secret key is required"
  else
    match parsePlatformURL rawURL with
    | Err err => Err err
    | Ok u =>
        let u := set_path u (apiPath (URL_Path u)) in
        match canonicalOrigin u with
        | Err err => Err err
        | Ok origin => Ok (mkPlatformClient u (mkOriginPolicy origin) accessKey secretKey)
        end
    end.

(** [http.NewRequest]: the URL as the transport will see it. *)
Definition newRequestURL (rawURL : string) : result string :=
  match url_Parse rawURL with
  | Err err => Err err
  | Ok u => Ok (url_String (set_host u (removeEmptyPort (URL_Host u))))
  end.

Context {W : Type} `{Transport W} `{JsonMarshal ExternalDNSEvent}.

(** [policyTransport.RoundTrip] *)
Definition RoundTrip (policy : originPolicy) (request : Request) : prog W (result Response) :=
  if negb (isValidRedirectURL (req_URL request) policy) then
    mret (Err "platform API request origin is not authorized")
  else transport_RoundTrip request.

(** [http.Client.Do] with that transport and redirects turned off: an error
    names the method and the URL. *)
Definition client_Do (policy : originPolicy) (request : Request) : prog W (result Response) :=
  let op := str_take 1 (req_Method request) +:+ ToLower (str_drop 1 (req_Method request)) in
  let! resp := RoundTrip policy request
    wrap (λ err, op +:+ " " +:+ Quote (req_URL request) +:+ ": " +:+ err) in
  mret (Ok resp).

Definition invalidResourcePath (resourcePath : string) : bool :=
  negb (HasPrefix resourcePath "/") || HasPrefix resourcePath "//" ||
  ContainsAny resourcePath ["\"%char; "?"%char; "#"%char; CR; LF; TAB] ||
  Contains resourcePath "..".

(** The checks of the source for a nil client or field have no counterpart: a
    client is what [NewClient] returned, which sets every field. *)
Definition request (c : PlatformAPIClient) (method resourcePath : string)
    (query : gmap string (list string)) (body : option string) : prog W (result unit) :=
  if invalidResourcePath resourcePath then
    mret (Err "platform API resource path is invalid")
  else
    let endpoint := set_endpoint (baseURL c)
      (TrimRight (URL_Path (baseURL c)) "/" +:+ resourcePath) (Encode query) in
    let requestURL := url_String endpoint in
    if negb (isValidRedirectURL requestURL (policy c)) then
      mret (Err "platform API request origin is not authorized")
    else
      match newRequestURL requestURL with
      | Err err => mret (Err ("create platform API request: " +:+ err))
      | Ok url =>
          let req := mkRequest method url
            (("Authorization", "Basic " +:+ base64 (accessKey c +:+ ":" +:+ secretKey c)) ::
             ("Accept", "application/json") ::
             match body with Some _ => [("Content-Type", "application/json")] | None => [] end)
            body in
          let! resp := client_Do (policy c) req
            wrap (λ err, "platform API request failed: " +:+ err) in
          match ReadAllLimited (resp_Body resp) (platform_maxResponseSize + 1) with
          | Err readErr => mret (Err ("read platform API response: " +:+ readErr))
          | Ok responseBody =>
              if platform_maxResponseSize <? Z.of_nat (String.length responseBody) then
                mret (Err ("platform API response exceeds "
                           +:+ FormatInt platform_maxResponseSize +:+ " bytes"))
              else if 300 <=? resp_StatusCode resp then
                mret (Err ("platform API returned " +:+ resp_Status resp))
              else mret (Ok tt)
          end
      end.

Definition CreateExternalDNSEvent (c : PlatformAPIClient) (event : ExternalDNSEvent)
    : prog W (result unit) :=
  match json_Marshal event with
  | Err err => mret (Err ("encode external DNS event: " +:+ err))
  | Ok body => request c "POST" "/externalDnsEvents" ∅ (Some body)
  end.

Definition TestConnection (c : PlatformAPIClient) : prog W (result unit) :=
  request c "GET" "/externalDnsEvents" {[ "limit" := ["1"] ]} None.

(** [src/platform_client.go] *)
Definition externalDNSUpdateEventType : string := "dns.update".

Definition newExternalDNSUpdateEvent (metadataRecord : MetadataDnsRecord) : ExternalDNSEvent :=
  mkExternalDNSEvent externalDNSUpdateEventType (Fqdn_ (DnsRecord_ metadataRecord))
    (ServiceName metadataRecord) (StackName metadataRecord)
    (UnFqdn (Fqdn_ (DnsRecord_ metadataRecord))).

Definition NewPlatformClient (platformURL accessKey secretKey : string) : result PlatformAPIClient :=
  NewClient platformURL accessKey secretKey.

Definition UpdateServiceDomainName (c : PlatformAPIClient) (metadataRecord : MetadataDnsRecord)
    : prog W (result unit) :=
  CreateExternalDNSEvent c (newExternalDNSUpdateEvent metadataRecord).

Definition TestConnect (c : PlatformAPIClient) : prog W (result unit) := TestConnection c.
End platform.

(** ** Properties *)

Lemma ReplaceAll_without s c new :
  str_all (λ d, bool_decide (d ≠ c)) new = true →
  str_all (λ d, bool_decide (d ≠ c)) (ReplaceAll s c new) = true.
Proof.
  intros Hn. induction s as [|d s IH]; simpl; [done|]. case_bool_decide as Hd.
  - by rewrite str_all_app, Hn, IH.
  - simpl. rewrite IH, andb_true_r. by apply bool_decide_eq_true_2.
Qed.

Lemma ReplaceAll_keeps s c new p :
  str_all p new = true → str_all p s = true → str_all p (ReplaceAll s c new) = true.
Proof.
  intros Hn. induction s as [|d s IH]; simpl; [done|]. intros [Hd Hs]%andb_true_iff.
  case_bool_decide; [by rewrite str_all_app, Hn, IH|]. simpl. by rewrite Hd, IH.
Qed.

Lemma ReplaceAll_id s c new :
  str_all (λ d, bool_decide (d ≠ c)) s = true → ReplaceAll s c new = s.
Proof.
  induction s as [|d s IH]; simpl; [done|]. intros [Hd%bool_decide_eq_true Hs]%andb_true_iff.
  by rewrite bool_decide_eq_false_2, IH.
Qed.

(** No line break. *)
Definition one_line (s : string) : bool :=
  str_all (λ d, bool_decide (d ≠ CR)) s && str_all (λ d, bool_decide (d ≠ LF)) s.

(** A logged value stays on one line: [logsafe.Value] has neither carriage
    returns nor line feeds, and changes nothing in a text without them, so it
    is idempotent. *)
Theorem logsafe_Value_spec (text : string) :
  one_line (logsafe_Value text) = true ∧
  (one_line text = true ↔ logsafe_Value text = text).
Proof.
  assert (one_line (logsafe_Value text) = true) as H1.
  { unfold one_line, logsafe_Value. apply andb_true_iff. split.
    - by apply ReplaceAll_keeps, ReplaceAll_without.
    - by apply ReplaceAll_without. }
  split; [done|]. split; [|by intros <-]. intros [Hc Hl]%andb_true_iff.
  unfold logsafe_Value. rewrite (ReplaceAll_id text CR) by done. by apply ReplaceAll_id.
Qed.

Section facts.
Context `{GoUnicode} `{GoURL} {W : Type} `{Transport W} `{JsonMarshal ExternalDNSEvent}.

(** *** Specification: where a URL leads

    The host without case and without the dot of an absolute name, the port
    with the default of the scheme, and the equality of both and of the
    scheme. *)
Definition host_name (u : URL) : string := ToLower (TrimSuffix (Hostname u) ".").

Definition effective_port (u : URL) : string :=
  if bool_decide (Port u = "") then
    if bool_decide (ToLower (URL_Scheme u) = "https") then "443" else "80"
  else Port u.

Definition same_origin (u v : URL) : Prop :=
  ToLower (URL_Scheme u) = ToLower (URL_Scheme v) ∧
  host_name u = host_name v ∧ effective_port u = effective_port v.

#[local] Instance same_origin_equiv : Equivalence same_origin.
Proof.
  unfold same_origin. split.
  - done.
  - by intros u v (-> & -> & ->).
  - by intros u v w (-> & -> & ->).
Qed.

(** What the policy accepts. *)
Lemma isValidRedirectURL_true rawURL pol :
  isValidRedirectURL rawURL pol = true →
  ∃ u, url_Parse rawURL = Ok u ∧ URL_User u = None ∧ URL_Fragment u = "" ∧
    canonicalOrigin u = Ok (origin pol).
Proof.
  unfold isValidRedirectURL. destruct (url_Parse rawURL) as [u|]; [|done].
  destruct (decide (URL_User u = None)) as [Hu|Hu]; [|by rewrite bool_decide_eq_false_2 by done].
  destruct (decide (URL_Fragment u = "")) as [Hf|Hf];
    [|by rewrite (bool_decide_eq_false_2 (URL_Fragment u = "")), orb_true_r by done].
  rewrite !bool_decide_eq_true_2 by done. simpl.
  destruct (canonicalOrigin u) as [o|] eqn:Ho; [|done]. intros ->%bool_decide_eq_true.
  by exists u.
Qed.

(** What [canonicalOrigin] accepts, and that its text is one-to-one on the
    parts it stands for. *)
Lemma http_schemes s :
  negb (bool_decide (s = "http")) && negb (bool_decide (s = "https")) = false →
  s = "http" ∨ s = "https".
Proof. by rewrite andb_false_iff, !negb_false_iff, !bool_decide_eq_true. Qed.

Lemma canonicalOrigin_ok u o :
  canonicalOrigin u = Ok o →
  (ToLower (URL_Scheme u) = "http" ∨ ToLower (URL_Scheme u) = "https") ∧ host_name u ≠ "" ∧
  o = ToLower (URL_Scheme u) +:+ "://" +:+ JoinHostPort (host_name u) (effective_port u).
Proof.
  unfold canonicalOrigin, host_name, effective_port.
  destruct (negb _ && negb _) eqn:Hs; [done|].
  destruct (bool_decide (ToLower (TrimSuffix _ _) = "")) eqn:Hh; [done|].
  destruct (Atoi _) as [n [|]]; [done|]. destruct (_ || _); [done|]. intros [= <-].
  split; [by apply http_schemes|]. by apply bool_decide_eq_false in Hh.
Qed.

Lemma effective_port_digits u : Contains (effective_port u) ":" = false.
Proof.
  unfold effective_port. repeat case_bool_decide; try done.
  apply digits_no_colon, Port_digits.
Qed.

Lemma canonicalOrigin_inj u v o :
  canonicalOrigin u = Ok o → canonicalOrigin v = Ok o → same_origin u v.
Proof.
  intros (Hu & _ & Ho)%canonicalOrigin_ok (Hv & _ & Ho')%canonicalOrigin_ok.
  rewrite Ho in Ho'. clear Ho. unfold same_origin.
  destruct Hu as [Hu|Hu], Hv as [Hv|Hv]; rewrite Hu, Hv in *; try done;
    (split; [done|]); apply JoinHostPort_inj; try apply effective_port_digits;
    by injection Ho'.
Qed.

(** A request performs at most one exchange. *)
Lemma request_cases (c : PlatformAPIClient) method path query body (w : W) :
  (∃ e, request c method path query body w = (Returns (Err e), w)) ∨
  ∃ req, match transport_RoundTrip req w with
    | (Returns r, w') => ∃ res, request c method path query body w = (Returns res, w')
    | (Panics e, w') => request c method path query body w = (Panics e, w')
    | (Exits e, w') => request c method path query body w = (Exits e, w')
    end.
Proof.
  unfold request. destruct (invalidResourcePath path); [left; by eexists|].
  destruct (isValidRedirectURL (url_String _) (policy c)); simpl; [|left; by eexists].
  destruct (newRequestURL _) as [url|e]; [|left; by eexists].
  set (req := mkRequest method url _ body).
  unfold client_Do, RoundTrip. rewrite !try_bind_eq.
  destruct (isValidRedirectURL (req_URL req) (policy c)); simpl; [|left; by eexists].
  right. exists req. destruct (transport_RoundTrip req w) as [[[resp|e]| |] w']; try done;
    unfold mret, prog_ret; [|by eexists].
  destruct (ReadAllLimited _ _); [|by eexists]. repeat case_match; by eexists.
Qed.

Lemma parsePlatformURL_ok rawURL u :
  parsePlatformURL rawURL = Ok u →
  ∃ v, url_Parse rawURL = Ok v ∧ (URL_Scheme u = "http" ∨ URL_Scheme u = "https") ∧
    URL_User u = None ∧ URL_RawQuery u = "" ∧ URL_Fragment u = "" ∧ URL_Opaque u = "" ∧
    URL_Host u = URL_Host v ∧ URL_Path u = URL_Path v ∧
    URL_Scheme u = ToLower (URL_Scheme v).
Proof.
  unfold parsePlatformURL. destruct (_ || _ || _); [done|].
  destruct (url_Parse rawURL) as [v|]; [|done]. destruct (_ && _) eqn:Hsch; [done|].
  destruct (_ || _ || bool_decide (Hostname v = "")) eqn:Hop; [done|].
  destruct (negb (bool_decide (URL_User v = None))) eqn:Hu; [done|].
  destruct (_ || _ || negb (bool_decide (URL_Fragment v = ""))) eqn:Hq; [done|].
  destruct (canonicalOrigin _); [|done]. intros [= <-]. exists v. simpl.
  apply andb_false_iff in Hsch. rewrite !negb_false_iff, !bool_decide_eq_true in Hsch.
  rewrite !orb_false_iff in Hop, Hq. destruct Hop as [[Hop _] _], Hq as [[_ Hq] Hf].
  rewrite negb_false_iff, bool_decide_eq_true in Hop, Hq, Hf, Hu. naive_solver.
Qed.

Lemma NewClient_origin rawURL access secret c :
  NewClient rawURL access secret = Ok c →
  ∃ base u, url_Parse rawURL = Ok base ∧ same_origin u base ∧
    canonicalOrigin u = Ok (origin (policy c)) ∧ accessKey c = access ∧ secretKey c = secret.
Proof.
  unfold NewClient. destruct (bool_decide _); [done|]. destruct (bool_decide _); [done|].
  destruct (parsePlatformURL rawURL) as [u|] eqn:Hp; [|done].
  apply parsePlatformURL_ok in Hp as (v & Hv & Hsch & _ & _ & _ & _ & Hh & _ & Hlow).
  destruct (canonicalOrigin _) as [o|] eqn:Ho; [|done]. intros [= <-].
  exists v, (set_path u (apiPath (URL_Path u))). split; [done|]. split; [|done].
  assert (ToLower (URL_Scheme u) = ToLower (URL_Scheme v)) as Hs.
  { rewrite <-Hlow. destruct Hsch as [-> | ->]; by apply ToLower_id. }
  unfold same_origin, host_name, effective_port, Hostname, Port, set_path.
  cbn [URL_Scheme URL_Host]. by rewrite Hh, Hs.
Qed.

(** [C7] The credentials leave the process only towards the configured origin.
    Let [c] be the client created for a URL and a pair of keys (a client
    exists only as a result of [NewClient], so the nil checks of [request] are
    never taken).  Whatever the method, resource, query and body, and whatever
    the URL parser makes of them, a request either touches the network not at
    all and returns an error, or performs exactly one exchange; the URL of
    that exchange parses, without user information or fragment, to an http or
    https URL with the scheme, the host (up to case and a final dot) and the
    port (with the default of the scheme) of the configured URL; it carries
    those keys; and it succeeds only for a response of at most 4 MiB with a
    status below 300. *)
Theorem request_origin rawURL access secret (c : PlatformAPIClient) :
  NewClient rawURL access secret = Ok c →
  ∃ base, url_Parse rawURL = Ok base ∧ host_name base ≠ "" ∧
  ∀ method path query body (w : W),
  (∃ e, request c method path query body w = (Returns (Err e), w)) ∨
  ∃ req u, req_Method req = method ∧ req_Body req = body ∧
    ("Authorization", "Basic " +:+ base64 (access +:+ ":" +:+ secret)) ∈ req_Header req ∧
    url_Parse (req_URL req) = Ok u ∧ URL_User u = None ∧ URL_Fragment u = "" ∧
    (ToLower (URL_Scheme u) = "http" ∨ ToLower (URL_Scheme u) = "https") ∧
    same_origin u base ∧
    match transport_RoundTrip req w with
    | (Returns r, w') =>
        ∃ res, request c method path query body w = (Returns res, w') ∧
          (res = Ok tt → ∃ resp, r = Ok resp ∧ resp_StatusCode resp < 300 ∧
             Z.of_nat (String.length (body_data (resp_Body resp))) ≤ platform_maxResponseSize)
    | (Panics e, w') => request c method path query body w = (Panics e, w')
    | (Exits e, w') => request c method path query body w = (Exits e, w')
    end.
Proof.
  intros (base & v & Hbase & Hv & Ho & Hacc & Hsec)%NewClient_origin. exists base.
  split; [done|]. split.
  { destruct Hv as (_ & <- & _). by apply canonicalOrigin_ok in Ho as (_ & ? & _). }
  intros method path query body w.
  unfold request. destruct (invalidResourcePath path); [left; by eexists|].
  destruct (isValidRedirectURL (url_String _) (policy c)); simpl; [|left; by eexists].
  destruct (newRequestURL _) as [url|e]; [|left; by eexists].
  set (req := mkRequest method url _ body).
  unfold client_Do, RoundTrip. rewrite !try_bind_eq.
  destruct (isValidRedirectURL (req_URL req) (policy c)) eqn:Hvalid; simpl; [|left; by eexists].
  right. apply isValidRedirectURL_true in Hvalid as (u & Hu & ? & ? & Horigin).
  exists req, u. do 2 (split; [done|]). rewrite <-Hacc, <-Hsec. split; [by left|].
  do 3 (split; [done|]). split; [by apply canonicalOrigin_ok in Horigin as (? & _)|].
  split.
  { transitivity v; [by eapply canonicalOrigin_inj|done]. }
  destruct (transport_RoundTrip req w) as [[[resp|e]| |] w']; [|by eexists|done..].
  unfold mret, prog_ret.
  destruct (ReadAllLimited _ _) as [data|e] eqn:Hread; [|by eexists].
  destruct (Z.ltb_spec platform_maxResponseSize (Z.of_nat (String.length data))) as [|Hle];
    [by eexists|].
  destruct (Z.leb_spec 300 (resp_StatusCode resp)); [by eexists|].
  eexists. split; [done|]. intros _. exists resp. do 2 (split; [done|]).
  apply ReadAllLimited_complete in Hread as [<- _]; [done|lia|done].
Qed.

(** [C31] What a platform client is: [NewClient] accepts only non-blank
    credentials and an absolute http or https URL without user information,
    query or fragment; the policy is the origin of the base URL; and the base
    path is the one of the URL with the version [v1] replaced by [v2-beta]. *)
Theorem NewClient_spec (rawURL access secret : string) :
  match NewClient rawURL access secret with
  | Ok c =>
      TrimSpace access ≠ "" ∧ TrimSpace secret ≠ "" ∧
      accessKey c = access ∧ secretKey c = secret ∧
      URL_User (baseURL c) = None ∧ URL_RawQuery (baseURL c) = "" ∧
      URL_Fragment (baseURL c) = "" ∧ URL_Opaque (baseURL c) = "" ∧
      (URL_Scheme (baseURL c) = "http" ∨ URL_Scheme (baseURL c) = "https") ∧
      canonicalOrigin (baseURL c) = Ok (origin (policy c)) ∧
      ∃ u, url_Parse rawURL = Ok u ∧ URL_Host (baseURL c) = URL_Host u ∧
        URL_Path (baseURL c) = apiPath (URL_Path u)
  | Err _ => True
  end.
Proof.
  unfold NewClient.
  destruct (decide (TrimSpace access = "")) as [Ha|Ha];
    [by rewrite bool_decide_eq_true_2 by done|rewrite bool_decide_eq_false_2 by done].
  destruct (decide (TrimSpace secret = "")) as [Hs|Hs];
    [by rewrite bool_decide_eq_true_2 by done|rewrite bool_decide_eq_false_2 by done].
  destruct (parsePlatformURL rawURL) as [u|] eqn:Hp; [|done].
  apply parsePlatformURL_ok in Hp as (v & Hv & Hsch & ? & ? & ? & ? & Hh & Hpath & _).
  destruct (canonicalOrigin _) as [o|] eqn:Ho; [|done]. simpl. rewrite Hpath.
  repeat (split; [done|]). by exists v.
Qed.
End facts.

(** ** A client of a control plane

    The parser knows the configured URL and its requests, and the URL of
    another host that a hostile resource might lead to. *)
Module Example_platform.

Definition base : URL := mkURL "HTTPS" "" None "Platform.example.com" "/v1" "" false "" "".
Definition target : URL :=
  mkURL "https" "" None "platform.example.com" "/v2-beta/externalDnsEvents" "" false "limit=1" "".
Definition foreign : URL :=
  mkURL "https" "" None "attacker.example.net" "/v2-beta/externalDnsEvents" "" false "limit=1" "".

Definition target_text : string :=
  "https://platform.example.com/v2-beta/externalDnsEvents?limit=1".

Definition urls (leads_to : URL) : GoURL := {|
  url_Parse := λ s, if bool_decide (s = "HTTPS://Platform.example.com/v1") then Ok base
                    else if bool_decide (s = target_text) then Ok leads_to
                    else Err "no URL";
  url_String := λ _, target_text;
|}.

(** The network counts the exchanges. *)
Definition network : Transport Z := λ _ n,
  (Returns (Ok (mkResponse 200 "200 OK" (mkBody "{}" None))), n + 1).
Definition json : JsonMarshal ExternalDNSEvent := λ _, Ok "{}".
Existing Instances Samples.ascii_unicode network json.

Definition c : PlatformAPIClient :=
  mkPlatformClient (mkURL "https" "" None "Platform.example.com" "/v2-beta" "" false "" "")
    (mkOriginPolicy "https://platform.example.com:443") "key" "secret".

Lemma NewClient_c leads_to :
  NewClient (H0:=urls leads_to) "HTTPS://Platform.example.com/v1" "key" "secret" = Ok c.
Proof. vm_compute. reflexivity. Qed.

(** The connection test reaches the configured host, with the scheme, host and
    port of the configured URL; when its URL leads to another host, nothing is
    sent. *)
Lemma request_origin_witness :
  TestConnection (H0:=urls target) c 0 = (Returns (Ok tt), 1) ∧
  (∃ req u, ("Authorization", "Basic " +:+ base64 "key:secret") ∈ req_Header req ∧
     url_Parse (GoURL:=urls target) (req_URL req) = Ok u ∧ same_origin u base) ∧
  TestConnection (H0:=urls foreign) c 0
    = (Returns (Err "platform API request origin is not authorized"), 0).
Proof.
  assert (TestConnection (H0:=urls target) c 0 = (Returns (Ok tt), 1)) as Hrun
    by (vm_compute; reflexivity).
  split; [exact Hrun|]. split; [|vm_compute; reflexivity].
  destruct (request_origin (H0:=urls target) _ _ _ c (NewClient_c target))
    as (b & Hb & _ & Hreq).
  destruct (Hreq "GET" "/externalDnsEvents" {[ "limit" := ["1"] ]} None 0)
    as [(e & He)|(req & u & _ & _ & Hauth & Hu & _ & _ & _ & Hsame & _)].
  - unfold TestConnection in Hrun. rewrite He in Hrun. discriminate.
  - vm_compute in Hb. injection Hb as <-. by exists req, u.
Defined.
End Example_platform.
