(* ===== verification/Main.v ===== *)
(** * The service

    [src/main.go] and [src/healthcheck.go]: start-up, the polling loop that
    decides when to synchronize, and the health endpoint. *)

From S2P Require Import Prelude GoStrings GoStrconv FastTemplate Utils Config GoNet GoHttp.
From S2P Require Import MetaTypes Samples MetaClient Metadata Provider Reconcile Sync.
From S2P Require Import PlatformApi.
Local Open Scope Z_scope.

Definition pollIntervalSeconds : Z := 1.
Definition forceUpdateIntervalMinutes : Z := 1.

(** [reflect.DeepEqual] on two maps of records is equality. *)
Definition shouldSynchronize (hasSynchronized updateForced : bool)
    (metadataRecords cachedRecords : gmap string MetadataDnsRecord) : bool :=
  negb hasSynchronized || updateForced || negb (bool_decide (metadataRecords = cachedRecords)).

(** The variables of the loop, with the globals it assigns. *)
Record loop_state := mkLoop {
  currentVersion : string;
  lastUpdated : Z;
  hasSynchronized : bool;
  metadataRecsCached : gmap string MetadataDnsRecord;
  loop_m : MetadataClient;
}.

(** The reply of an HTTP handler. *)
Record reply := mkReply {
  reply_status : Z;
  reply_header : list (string * string);
  reply_body : string;
}.

(** [http.Error] *)
Definition http_Error (message : string) (code : Z) : reply :=
  mkReply code [("Content-Type", "text/plain; charset=utf-8");
                ("X-Content-Type-Options", "nosniff")]
    (message +:+ String LF "").

Section service.
Context `{GoUnicode} `{GoURL} {W : Type} `{Client W} `{Clock W} `{Provider W} `{Transport W}
  `{JsonMarshal ExternalDNSEvent}.
Context (cfg : Config) (platformAPI : PlatformAPIClient).

(** The loop over the updated records; failures are logged only. *)
Definition notify (updatedRecords : list MetadataDnsRecord) : prog W unit :=
  range updatedRecords (λ mRec _,
    if negb (bool_decide (ServiceName mRec = "")) && negb (bool_decide (StackName mRec = ""))
    then UpdateServiceDomainName platformAPI mRec;; mret tt
    else mret tt) tt.

(** [if update || updateForced { ... }] *)
Definition synchronize (updateForced : bool) (st : loop_state) : prog W loop_state :=
  r ← GetMetadataDnsRecords cfg (loop_m st);
  let '(m, r) := r in
  let st := mkLoop (currentVersion st) (lastUpdated st) (hasSynchronized st)
              (metadataRecsCached st) m in
  match r with
  | Err _ => mret st
  | Ok metadataRecs =>
      if shouldSynchronize (hasSynchronized st) updateForced metadataRecs
           (metadataRecsCached st)
      then
        r ← UpdateProviderDnsRecords cfg m metadataRecs;
        match r with
        | Err _ => mret st
        | Ok updatedRecords =>
            notify updatedRecords;;
            now ← time_Now;
            mret (mkLoop (currentVersion st) now true metadataRecs m)
        end
      else mret st
  end.

(** One iteration, up to the label [sleep]. *)
Definition poll_body (st : loop_state) : prog W loop_state :=
  r ← GetVersion;
  match r with
  | Err _ => mret st
  | Ok newVersion =>
      if negb (bool_decide (currentVersion st = newVersion)) then
        synchronize false (mkLoop newVersion (lastUpdated st) (hasSynchronized st)
                             (metadataRecsCached st) (loop_m st))
      else
        now ← time_Now;
        if forceUpdateIntervalMinutes * Minute <=? now - lastUpdated st
        then synchronize true st
        else mret st
  end.

Definition poll (st : loop_state) : prog W loop_state :=
  st ← poll_body st;
  time_Sleep (pollIntervalSeconds * Second);;
  mret st.

(** The first [n] iterations of the endless loop. *)
Fixpoint polls (n : nat) (st : loop_state) : prog W loop_state :=
  match n with
  | O => mret st
  | S n => st ← poll st; polls n st
  end.

(** [main] after [setEnv]. *)
Definition run (n : nat) (m : MetadataClient) : prog W loop_state :=
  r ← EnsureUpgradeToStateRRSet cfg m;
  match r with
  | Err err => lift (Exits ("Failed to ensure upgrade: " +:+ logsafe_Value err))
  | Ok _ =>
      now ← time_Now;
      polls n (mkLoop "init" now false ∅ m)
  end.

(** ** The health endpoint *)

Definition healthCheck (method : string) : prog W reply :=
  r ← GetSelfStack;
  match r with
  | Err _ => mret (http_Error "Failed to reach metadata server" 500)
  | Ok _ =>
      r ← HealthCheck;
      match r with
      | Err _ => mret (http_Error "Failed to reach the external DNS provider" 500)
      | Ok _ =>
          r ← TestConnect platformAPI;
          match r with
          | Err _ => mret (http_Error "Failed to connect to the platform API" 500)
          | Ok _ =>
              mret (mkReply 200 [("Content-Type", "text/plain; charset=utf-8")]
                (if negb (bool_decide (method = "HEAD")) then "pong" else ""))
          end
      end
  end.

(** A route of the router and the server it is handed to. *)
Record route := mkRoute {
  route_path : string;
  route_methods : list string;
  route_name : string;
  route_handler : string → prog W reply;
}.
Record server := mkServer {
  Addr : string;
  Handler : list route;
  ReadHeaderTimeout : Z;
  ReadTimeout : Z;
  WriteTimeout : Z;
  IdleTimeout : Z;
}.

(** [server.ListenAndServe] returns with an error, if it does. *)
Definition startHealthCheck (ListenAndServe : server → prog W error) : prog W unit :=
  let router := [mkRoute "/" ["GET"; "HEAD"] "HealthCheck" healthCheck;
                 mkRoute "/ping" ["GET"; "HEAD"] "Ping" healthCheck] in
  err ← ListenAndServe (mkServer (HealthAddress cfg) router
    (5 * Second) (10 * Second) (10 * Second) (30 * Second));
  lift (Exits (logsafe_Value err)).
End service.

(** ** Start-up *)

(** What [flag.Parse] leaves in the flags, and their defaults. *)
Record flags := mkFlags { flag_provider : string; flag_debug : bool; flag_log : string }.
Definition default_flags : flags := mkFlags "route53" false "".

(** What start-up finds in the world besides the services: the file system for
    the log file, and the package variable [config.TTL], which a provider's
    [Init] may have assigned. *)
Class Process (W : Type) := {
  os_OpenFile : string → prog W (result unit);
  assigned_TTL : W → option Z;
}.

Section startup.
Context `{GoUnicode} `{GoURL} {W : Type} `{Clock W} `{Http W} `{Transport W}
  `{JsonMarshal ExternalDNSEvent} `{Process W}.
Context `{JsonUnmarshal Host} `{JsonUnmarshal Service} `{JsonUnmarshal Stack}.
Context `{∀ A, JsonUnmarshal A → JsonUnmarshal (list A)}.
Context (Getenv : string → string) (providers : registry W) (f : flags).

(** [logrus.Fatalf] on an error. *)
Definition or_fatal {A} (text : string) (m : prog W (result A)) : prog W A :=
  r ← m;
  match r with
  | Ok a => mret a
  | Err err => lift (Exits (text +:+ logsafe_Value err))
  end.

(** The globals that [setEnv] assigns, the configuration as [Init] leaves it. *)
Record environment := mkEnvironment {
  env_config : Config;
  env_client : client;
  env_m : MetadataClient;
  env_platformAPI : PlatformAPIClient;
  env_provider : Provider W;
}.

Definition openLog : prog W unit :=
  if negb (bool_decide (flag_log f = "")) then
    or_fatal ("Failed to log to file " +:+ logsafe_Value (flag_log f) +:+ ": ")
      (os_OpenFile (flag_log f))
  else mret tt.

(** The value of [config.TTL] from now on. *)
Definition read_TTL (cfg : Config) : prog W Z :=
  λ w, (Returns (default (cfgTTL cfg) (assigned_TTL w)), w).

Definition setEnv : prog W environment :=
  openLog;;
  cfg ← lift (SetFromEnvironment Getenv);
  cm ← or_fatal "Failed to configure metadata client: " (NewMetadataClient cfg);
  platformAPI ← or_fatal "Failed to configure platform API client: "
    (mret (NewPlatformClient (PlatformURL cfg) (PlatformAccessKey cfg) (PlatformSecretKey cfg)));
  provider ← or_fatal ("Failed to get provider '" +:+ logsafe_Value (flag_provider f) +:+ "': ")
    (GetProvider providers (flag_provider f) (RootDomainName cfg));
  ttl ← read_TTL cfg;
  mret (mkEnvironment (with_TTL cfg ttl) (fst cm) (snd cm) platformAPI provider).

(** [main], with the first [n] iterations of the loop. *)
Definition main (n : nat) : prog W loop_state :=
  env ← setEnv;
  run (H1:=client_Client (env_client env)) (H3:=env_provider env)
    (env_config env) (env_platformAPI env) n (env_m env).
End startup.

(** ** The health endpoint *)

Section health.
Context `{GoUnicode} `{GoURL} {W : Type} `{Client W} `{Provider W} `{Transport W}
  `{JsonMarshal ExternalDNSEvent}.
Context (platformAPI : PlatformAPIClient).

(** [C30] The health endpoint answers 200 exactly when the metadata service, the
    DNS provider and the platform API, asked in this order, all answer; with
    the first failure it asks no further and answers 500.  The text is one of
    four fixed ones (no detail of an error is disclosed), and empty for a
    successful HEAD request. *)
Theorem healthCheck_spec (method : string) (w w' : W) (rep : reply) :
  healthCheck platformAPI method w = (Returns rep, w') →
  match reply_status rep with
  | 200 =>
      (∃ stack w1 w2, GetSelfStack w = (Returns (Ok stack), w1) ∧
         HealthCheck w1 = (Returns (Ok tt), w2) ∧
         TestConnect platformAPI w2 = (Returns (Ok tt), w')) ∧
      reply_body rep = (if bool_decide (method = "HEAD") then "" else "pong")
  | 500 =>
      (∃ e, GetSelfStack w = (Returns (Err e), w') ∧
         reply_body rep = "Failed to reach metadata server" +:+ String LF "") ∨
      (∃ stack w1 e, GetSelfStack w = (Returns (Ok stack), w1) ∧
         HealthCheck w1 = (Returns (Err e), w') ∧
         reply_body rep = "Failed to reach the external DNS provider" +:+ String LF "") ∨
      (∃ stack w1 w2 e, GetSelfStack w = (Returns (Ok stack), w1) ∧
         HealthCheck w1 = (Returns (Ok tt), w2) ∧
         TestConnect platformAPI w2 = (Returns (Err e), w') ∧
         reply_body rep = "Failed to connect to the platform API" +:+ String LF "")
  | _ => False
  end.
Proof.
  unfold healthCheck. rewrite prog_bind_eq.
  destruct (GetSelfStack w) as [[[stack|e]| |] w1] eqn:Hstack; try done.
  2:{ intros [= <- <-]. simpl. left. by exists e. }
  rewrite prog_bind_eq. destruct (HealthCheck w1) as [[[[]|e]| |] w2] eqn:Hprov; try done.
  2:{ intros [= <- <-]. simpl. right. left. by exists stack, w1, e. }
  rewrite prog_bind_eq.
  destruct (TestConnect platformAPI w2) as [[[[]|e]| |] w3] eqn:Hplat; try done.
  2:{ intros [= <- <-]. simpl. right. right. by exists stack, w1, w2, e. }
  intros [= <- <-]. simpl. split; [by exists stack, w1, w2|]. by case_bool_decide.
Qed.
End health.

(** ** The loop *)

Section loop_facts.
Context `{GoUnicode} `{GoURL} {W : Type} `{Client W} `{Clock W} `{ProviderContract W}
  `{Transport W} `{JsonMarshal ExternalDNSEvent}.
Context (cfg : Config) (platformAPI : PlatformAPIClient).

(** The cached records are what the zone holds. *)
Definition cache_sound (st : loop_state) (w : W) : Prop :=
  hasSynchronized st = true →
  converged (stateName cfg (loop_m st)) (metadataRecsCached st) (zone w).

(** *** A stable environment

    Nothing changes outside for a while: the metadata service gives the same
    answers, reading it takes no effect, the provider and the platform API do
    their work, time passes and nobody else writes to the zone.  [steady]
    tells the states of such a time in which the provider is in order; the
    calls of the provider that its contract allows then succeed.  Nothing is
    asked of other calls, so a provider may refuse, say, a record without
    values. *)
Context (now : W → Z) (uuid version : string) (stack : Stack) (services : list Service)
  (hosts : string → result Host).
Context (Hnow : ∀ w, time_Now w = (Returns (now w), w)).

Context (steady : W → Prop) (Hsteady : ∀ w, steady w → good w).

(** The zone is left alone and the clock does not run backwards. *)
Definition quiet (w w' : W) : Prop :=
  now w ≤ now w' ∧ zone w' = zone w ∧ (steady w → steady w').

Context (Hsleep : ∀ d w, ∃ w', time_Sleep d w = (Returns tt, w') ∧ quiet w w' ∧
  now w + d ≤ now w').
Context (Hversion : ∀ w, GetVersion w = (Returns (Ok version), w)).
Context (Hstack : ∀ w, GetSelfStack w = (Returns (Ok stack), w)).
Context (Hservices : ∀ w, GetServices w = (Returns (Ok services), w)).
Context (Hhosts : ∀ u w, GetHost u w = (Returns (hosts u), w)).

Definition m0 : MetadataClient := mkMetadataClient (Stack_EnvironmentName stack) uuid.

Context (Htemplates : templates_ok cfg m0 hosts services).
Context (Hplatform : ∀ req w, ∃ r w', transport_RoundTrip req w = (Returns r, w') ∧ quiet w w').

(** A call that does not fail and takes no negative time. *)
Definition works {A} (call : prog W (result A)) (w : W) : Prop :=
  ∃ a w', call w = (Returns (Ok a), w') ∧ now w ≤ now w' ∧ steady w'.

Context (Hlist : ∀ w, steady w → works GetRecords w).
Context (Hchange : ∀ w r op call, steady w → op_ready op (zone w) r → op_call op r = Some call →
  works call w).

Notation state := (stateName cfg m0).

Lemma quiet_refl w : quiet w w.
Proof. split; [lia|done]. Qed.

Lemma quiet_trans w1 w2 w3 : quiet w1 w2 → quiet w2 w3 → quiet w1 w3.
Proof. intros (? & E1 & ?) (? & E2 & ?). split; [lia|]. rewrite E2, E1. auto. Qed.

(** The contract in this time: in a steady state no earlier than [t], every
    call succeeds and leads to another one. *)
Definition steady_contract (t : Z) : ProviderContract W.
Proof.
  assert (∀ w, steady w ∧ t ≤ now w → good w) as Hg by (intros w [Hw _]; auto).
  assert (∀ w r op call, steady w ∧ t ≤ now w → op_ready op (zone w) r →
    op_call op r = Some call → ∃ a w', call w = (Returns (Ok a), w') ∧ steady w' ∧ t ≤ now w')
    as Hop.
  { intros w r op call [Hw Ht] Hr Hc. destruct (Hchange w r op call Hw Hr Hc) as (a & w' & ? & ? & ?).
    exists a, w'. split; [done|]. split; [done|lia]. }
  refine {| zone := zone; good := λ w, steady w ∧ t ≤ now w; storable := storable |}.
  - intros w Hw. destruct (GetRecords_contract w (Hg w Hw)) as (res & w1 & Hr & _ & Hz & Hres).
    destruct Hw as [Hw Ht]. destruct (Hlist w Hw) as (a & w' & Hr' & Ht' & Hw').
    rewrite Hr in Hr'. injection Hr' as -> ->. exists (Ok a), w'.
    split; [done|]. split; [split; [done|lia]|]. done.
  - intros w r Hw Hs Hz. destruct (AddRecord_contract w r (Hg w Hw) Hs Hz) as (res & w1 & Hr & _ & Hres).
    destruct (Hop w r Add (AddRecord r) Hw) as (a & w' & Hr' & Hw'); [by left|done|].
    rewrite Hr in Hr'. injection Hr' as -> ->. by exists (Ok a), w'.
  - intros w r Hw Hs Hz. destruct (UpdateRecord_contract w r (Hg w Hw) Hs Hz) as (res & w1 & Hr & _ & Hres).
    destruct (Hop w r Update (UpdateRecord r) Hw) as (a & w' & Hr' & Hw'); [by right; left|done|].
    rewrite Hr in Hr'. injection Hr' as -> ->. by exists (Ok a), w'.
  - intros w r Hw Hz. destruct (RemoveRecord_contract w r (Hg w Hw) Hz) as (res & w1 & Hr & _ & Hres).
    destruct (Hop w r Remove (RemoveRecord r) Hw) as (a & w' & Hr' & Hw'); [by right; right|done|].
    rewrite Hr in Hr'. injection Hr' as -> ->. by exists (Ok a), w'.
Defined.

(** So a run of the reconciler succeeds. *)
Lemma sync_steady D w :
  admissible cfg m0 D → steady w → zone w !! (state, "A") = None →
  ∃ updated w', UpdateProviderDnsRecords cfg m0 D w = (Returns (Ok updated), w') ∧
    now w ≤ now w' ∧ steady w' ∧ zone w' !! (state, "A") = None ∧
    ∀ key, zone w' !! key = target state D (zone w) key.
Proof.
  intros HD Hw HA.
  assert (admissible (H1:=steady_contract (now w)) cfg m0 D) as HD' by done.
  assert (ready (H1:=steady_contract (now w)) cfg m0 w) as Hr'
    by (split; [split; [done|lia]|done]).
  destruct (sync_returns _ _ _ _ HD' Hr') as (res & w' & Hrun & [Hw' Ht] & Hpost).
  destruct res as [updated|e].
  - exists updated, w'. do 3 (split; [done|]). split; [|apply Hpost].
    by destruct (sync_frame _ _ _ _ _ _ HD' Hr' Hrun) as (_ & _ & _ & ?).
  - exfalso. destruct (sync_err _ _ _ _ _ _ HD' Hr' Hrun)
      as (w0 & w1 & e1 & [Hw0 _] & [Hcall|(op & r & call & Hop & Hc & Hcall)]).
    + destruct (Hlist w0 Hw0) as (? & ? & ? & _). congruence.
    + destruct (Hchange w0 r op call Hw0 Hop Hc) as (? & ? & ? & _). congruence.
Qed.

Lemma metadata_stable `{Inhabited W} :
  ∃ D, wf_desired state D ∧
    ∀ m w, EnvironmentUUID m = uuid → GetMetadataDnsRecords cfg m w = (Returns (m0, Ok D), w).
Proof.
  destruct (scan_total cfg m0 hosts Hhosts services Htemplates) as [st Hst].
  exists (addStateRecord cfg m0 st). split.
  - apply addStateRecord_desired. eapply scan_wf. apply (Hst inhabitant).
  - intros m w Hu. unfold GetMetadataDnsRecords, updateEnvironmentName, getEnvironment.
    rewrite prog_bind_eq, !try_bind_eq. unfold backoff_fuel, backoff.
    change (1 * Second <? 30 * Second) with true. cbv iota.
    rewrite prog_bind_eq, Hstack. unfold mret, prog_ret. cbn [fst snd].
    rewrite prog_bind_eq. unfold getContainersDnsRecords.
    rewrite try_bind_eq, Hservices, prog_bind_eq.
    assert (mkMetadataClient (Stack_EnvironmentName stack) (EnvironmentUUID m) = m0) as ->
      by (unfold m0; by rewrite Hu).
    by rewrite Hst.
Qed.

Lemma request_quiet c method path query body w :
  ∃ r w', request c method path query body w = (Returns r, w') ∧ quiet w w'.
Proof.
  destruct (request_cases c method path query body w) as [(e & Hr)|(req & Hr)].
  { eexists _, w. split; [done|apply quiet_refl]. }
  destruct (Hplatform req w) as (r & w' & Ht & Hq). rewrite Ht in Hr.
  destruct Hr as (res & Hr). by exists res, w'.
Qed.

Lemma notify_quiet updated w :
  ∃ w', notify platformAPI updated w = (Returns tt, w') ∧ quiet w w'.
Proof.
  unfold notify. revert w. induction updated as [|d updated IH]; intros w.
  { exists w. split; [done|apply quiet_refl]. }
  rewrite range_cons. destruct (_ && _).
  - rewrite prog_bind_eq. unfold UpdateServiceDomainName, CreateExternalDNSEvent.
    destruct (json_Marshal _) as [body|e].
    + edestruct request_quiet as (r & w1 & -> & Hq). destruct (IH w1) as (w2 & Hr & Hq2).
      exists w2. split; [exact Hr|]. by eapply quiet_trans.
    + apply IH.
  - apply IH.
Qed.

(** *** One iteration *)

Section target.
Context (D : gmap string MetadataDnsRecord) (HD : admissible cfg m0 D).
Context (Hmeta : ∀ m w, EnvironmentUUID m = uuid →
  GetMetadataDnsRecords cfg m w = (Returns (m0, Ok D), w)).

(** The loop is in the environment of [uuid], with a last update in the past. *)
Definition loop_ok (st : loop_state) (w : W) : Prop :=
  (steady w ∧ zone w !! (state, "A") = None) ∧ EnvironmentUUID (loop_m st) = uuid ∧ lastUpdated st ≤ now w.

(** What an iteration may do: bring the zone to the desired state, or leave it
    and the time of the last update alone. *)
Definition poll_step (st st' : loop_state) (w w' : W) : Prop :=
  loop_ok st' w' ∧ now w ≤ now w' ∧
  (converged state D (zone w') ∨
   zone w' = zone w ∧ lastUpdated st' = lastUpdated st ∧ currentVersion st' = version ∧
   (currentVersion st = version → now w - lastUpdated st < Minute)).

Lemma ready_quiet w w' :
  quiet w w' → steady w ∧ zone w !! (state, "A") = None →
  steady w' ∧ zone w' !! (state, "A") = None.
Proof. intros (_ & Hz & Hg) [Hgw HA]. split; [auto|]. by rewrite Hz. Qed.

Lemma synchronize_step forced st w :
  loop_ok st w → currentVersion st = version →
  ∃ st' w', synchronize cfg platformAPI forced st w = (Returns st', w') ∧
    loop_ok st' w' ∧ now w ≤ now w' ∧
    (converged state D (zone w') ∨
     forced = false ∧ zone w' = zone w ∧ lastUpdated st' = lastUpdated st ∧
     currentVersion st' = version).
Proof.
  intros (Hready & Huuid & Hlast) Hver. unfold synchronize.
  rewrite prog_bind_eq, Hmeta by done. cbv iota beta.
  destruct (shouldSynchronize _ forced D _) eqn:Hs.
  - destruct Hready as [Hw HA].
    destruct (sync_steady D w HD Hw HA) as (updated & w1 & Hrun & Ht & Hw1 & HA1 & Htgt).
    rewrite prog_bind_eq, Hrun. destruct (notify_quiet updated w1) as (w2 & Hn & Hq).
    rewrite prog_bind_eq, Hn, prog_bind_eq, Hnow. eexists _, w2. split; [done|].
    pose proof Hq as (Ht2 & Hz2 & _). split; [|split; [lia|left]].
    + split; [by apply (ready_quiet w1)|]. split; [done|simpl; lia].
    + rewrite Hz2. eapply target_converged; [apply HD|done].
  - eexists _, w. split; [done|]. split; [done|]. split; [lia|]. right.
    assert (forced = false) as ->; [|done].
    unfold shouldSynchronize in Hs. apply orb_false_iff in Hs as [Hs _].
    by apply orb_false_iff in Hs as [_ ?].
Qed.

Lemma poll_body_step st w :
  loop_ok st w →
  ∃ st' w', poll_body cfg platformAPI st w = (Returns st', w') ∧ poll_step st st' w w'.
Proof.
  intros (Hready & Huuid & Hlast). unfold poll_body. rewrite prog_bind_eq, Hversion.
  destruct (decide (currentVersion st = version)) as [Hv|Hv].
  - rewrite bool_decide_eq_true_2 by done. cbn [negb]. rewrite prog_bind_eq, Hnow.
    destruct (Z.leb_spec (forceUpdateIntervalMinutes * Minute) (now w - lastUpdated st)) as [Hf|Hf].
    + destruct (synchronize_step true st w) as (st' & w' & Hr & Hok & Ht & [Hc|[? _]]);
        [done|done| |done].
      eexists _, _. split; [done|]. split; [done|]. auto.
    + eexists _, w. split; [done|]. split; [done|]. split; [lia|]. right.
      do 3 (split; [done|]). intros _. unfold forceUpdateIntervalMinutes in Hf. lia.
  - rewrite bool_decide_eq_false_2 by done. cbn [negb].
    set (st0 := mkLoop version _ _ _ _).
    destruct (synchronize_step false st0 w) as (st' & w' & Hr & Hok & Ht & Hc); [done|done|].
    exists st', w'. split; [done|]. split; [done|]. split; [done|].
    destruct Hc as [Hc|(_ & Hz & Hl & Hv')]; [by left|]. right. done.
Qed.

Lemma poll_steps st w :
  loop_ok st w →
  ∃ st' w', poll cfg platformAPI st w = (Returns st', w') ∧
    poll_step st st' w w' ∧ now w + Second ≤ now w'.
Proof.
  intros Hok. unfold poll.
  destruct (poll_body_step st w Hok) as (st' & w1 & Hb & (Hr & Hu & Hl) & Ht & Hstep).
  rewrite prog_bind_eq, Hb, prog_bind_eq.
  destruct (Hsleep (pollIntervalSeconds * Second) w1) as (w2 & -> & Hq & Hs).
  exists st', w2. split; [done|]. pose proof Hq as (Hq1 & Hz & Hg).
  unfold pollIntervalSeconds in Hs. split; [|lia]. split; [|split; [lia|by rewrite Hz]].
  split; [by apply (ready_quiet w1)|]. split; [done|lia].
Qed.

(** Converged zones stay converged. *)
Lemma polls_stay n st w :
  loop_ok st w → converged state D (zone w) →
  ∃ st' w', polls cfg platformAPI n st w = (Returns st', w') ∧ converged state D (zone w').
Proof.
  revert st w. induction n as [|n IH]; intros st w Hok Hc; [by exists st, w|].
  destruct (poll_steps st w Hok) as (st1 & w1 & Hp & (Hok1 & _ & Hstep) & _).
  simpl. rewrite prog_bind_eq, Hp. apply IH; [done|].
  destruct Hstep as [?|[-> _]]; done.
Qed.

(** The forced update is at most [k] iterations away. *)
Lemma polls_forced k n st w :
  loop_ok st w → currentVersion st = version →
  Minute ≤ now w - lastUpdated st + Z.of_nat k * Second → (k < n)%nat →
  ∃ st' w', polls cfg platformAPI n st w = (Returns st', w') ∧ converged state D (zone w').
Proof.
  revert n st w. induction k as [|k IH]; intros n st w Hok Hv Hk Hn;
    (destruct n as [|n]; [lia|]);
    destruct (poll_steps st w Hok) as (st1 & w1 & Hp & (Hok1 & _ & Hstep) & Ht);
    simpl; rewrite prog_bind_eq, Hp.
  - destruct Hstep as [Hc|(_ & _ & _ & Hlt)]; [by apply polls_stay|].
    specialize (Hlt Hv). lia.
  - destruct Hstep as [Hc|(_ & Hl & Hv1 & _)]; [by apply polls_stay|].
    apply IH; [done|done| |lia]. rewrite Hl. lia.
Qed.

Lemma polls_converge_aux n st w :
  loop_ok st w → (61 ≤ n)%nat →
  ∃ st' w', polls cfg platformAPI n st w = (Returns st', w') ∧ converged state D (zone w').
Proof.
  intros Hok Hn. destruct n as [|n]; [lia|].
  destruct (poll_steps st w Hok) as (st1 & w1 & Hp & (Hok1 & _ & Hstep) & Ht).
  simpl. rewrite prog_bind_eq, Hp.
  destruct Hstep as [Hc|(_ & Hl & Hv1 & _)]; [by apply polls_stay|].
  apply (polls_forced 59); [done|done| |lia].
  destruct Hok as (_ & _ & Hlast). rewrite Hl.
  change Minute with (60 * Second). change (Z.of_nat 59) with 59. lia.
Qed.
End target.

(** [C8] The service makes progress.  While the environment is stable (the
    metadata service gives the same answers, the calls that the contract of
    the provider allows do not fail, time passes with every pause and nobody
    else writes to the zone),
    the zone is as desired after at most 61 iterations of the loop and stays
    so, from whatever state the loop is in: also when earlier updates failed
    half-way, when the cached records are those of a run that was undone, and
    when the version did not change in between. *)
Theorem polls_converge (st : loop_state) (w : W) :
  loop_ok st w →
  ∃ D, wf_desired state D ∧
    (∀ w, GetMetadataDnsRecords cfg m0 w = (Returns (m0, Ok D), w)) ∧
    (all_storable D → ∀ n, (61 ≤ n)%nat →
     ∃ st' w', polls cfg platformAPI n st w = (Returns st', w') ∧
       converged state D (zone w')).
Proof.
  intros Hok. pose proof (populate w) as Hinh.
  destruct metadata_stable as (D & HD & Hmeta). exists D. split; [done|].
  split; [intros; by apply Hmeta|]. intros Hst n Hn. by apply polls_converge_aux.
Qed.
End loop_facts.

(** ** A healthy service

    The environment of [Example_environment], a zone in memory and a control
    plane that answers every request.  The loop runs over Route 53 in
    [ServiceRun]. *)
Module Example_run.
Import Example_environment.

Definition client : Client zone_map :=
  fixed_client zone_map "1" (Samples.stack "Default" "uuid-2") services hosts.
Definition provider : Provider zone_map := Memory.provider.
Definition json : JsonMarshal ExternalDNSEvent := λ _, Ok "{}".
Existing Instances client provider json.

Definition platform : PlatformAPIClient :=
  mkPlatformClient (mkURL "https" "" None "platform" "/v2-beta" "" false "" "")
    (mkOriginPolicy "https://platform:443") "key" "secret".

Definition w0 : zone_map := ∅.

(** A control plane that answers every request. *)
Definition healthy_urls : GoURL := {|
  url_Parse := λ _, Ok (baseURL platform);
  url_String := λ _, "https://platform/v2-beta/externalDnsEvents?limit=1" |}.
Definition healthy_network : Transport zone_map := λ _,
  mret (Ok (mkResponse 200 "200 OK" (mkBody "{}" None))).

Lemma healthCheck_spec_witness :
  ∃ rep, healthCheck (H0:=healthy_urls) (H4:=healthy_network) platform "GET" w0
           = (Returns rep, w0) ∧
    reply_status rep = 200 ∧ reply_body rep = "pong" ∧
    TestConnect (H0:=healthy_urls) (H1:=healthy_network) platform w0 = (Returns (Ok tt), w0).
Proof.
  assert (∀ rep, healthCheck (H0:=healthy_urls) (H4:=healthy_network) platform "GET" w0
    = (Returns rep, w0) → reply_status rep = 200 → reply_body rep = "pong" ∧
    TestConnect (H0:=healthy_urls) (H1:=healthy_network) platform w0 = (Returns (Ok tt), w0))
    as Hspec.
  { intros rep Hr Hs. pose proof (healthCheck_spec (H0:=healthy_urls) (H3:=healthy_network)
      platform "GET" w0 w0 rep Hr) as H. rewrite Hs in H.
    destruct H as [(s & w1 & w2 & _ & H1 & H2) Hb]. injection H1 as <-. by split. }
  assert (∃ rep, healthCheck (H0:=healthy_urls) (H4:=healthy_network) platform "GET" w0
    = (Returns rep, w0) ∧ reply_status rep = 200) as (rep & Hr & Hs).
  { eexists. split; vm_compute; reflexivity. }
  exists rep. destruct (Hspec rep Hr Hs). by repeat split.
Defined.
End Example_run.
