(* ===== verification/Route53.v ===== *)
(** * The Route 53 provider

    [src/providers/route53/route53.go], over the operations of the AWS SDK it
    calls.  The provider object is the first component of the world, AWS and
    the process environment are the second. *)

From S2P Require Import Prelude GoStrings GoStrconv FastTemplate Utils Config GoNet GoHttp.
From S2P Require Import MetaTypes Samples MetaClient Metadata Provider Reconcile Sync.
Local Open Scope Z_scope.

(** ** The AWS interface

    The fields of the SDK's types that the program reads or writes.  A pointer
    is an option; of [AliasTarget] and [TrafficPolicyInstanceId] only the
    presence matters. *)

Record ResourceRecordSet := mkSet {
  rs_Name : option string;
  rs_Type : string;
  rs_TTL : option Z;
  rs_ResourceRecords : list (option string);
  rs_AliasTarget : bool;
  rs_TrafficPolicyInstanceId : bool;
}.

Record ListInput := mkListInput {
  li_HostedZoneId : string;
  li_MaxItems : Z;
  li_StartRecordName : option string;
  li_StartRecordType : string;
  li_StartRecordIdentifier : option string;
}.

Record ListOutput := mkListOutput {
  lo_ResourceRecordSets : list ResourceRecordSet;
  lo_IsTruncated : bool;
  lo_NextRecordName : option string;
  lo_NextRecordType : string;
  lo_NextRecordIdentifier : option string;
}.

Inductive ChangeAction := ActionUpsert | ActionDelete.

Record HostedZone := mkHostedZone { hz_Id : option string; hz_Name : option string }.

(** The options of the client that [Init] builds. *)
Record AwsOptions := mkAwsOptions {
  ao_Region : string;
  ao_Credentials : option (string * string * string);
  ao_RetryMaxAttempts : Z;
  ao_BaseEndpoint : option string;
}.

Class route53Client (V : Type) := {
  aws_LoadDefaultConfig : string → option (string * string * string) → prog V (result unit);
  ChangeResourceRecordSets :
    AwsOptions → string → ChangeAction → ResourceRecordSet → prog V (result unit);
  GetHostedZone : AwsOptions → string → prog V (result (option HostedZone));
  GetHostedZoneCount : AwsOptions → prog V (result unit);
  ListHostedZonesByName : AwsOptions → string → Z → prog V (result (list HostedZone));
  ListResourceRecordSets : AwsOptions → ListInput → prog V (result ListOutput);
  (** [limiter.Wait(1)] *)
  limiter_Wait : prog V unit;
  (** A number of iterations after which the listing of the zone has ended. *)
  list_fuel : V → nat;
}.

(** ** The provider *)

(** [client] is nil before [Init]; the package variable [route53MaxRetries] is
    kept with the object. *)
Record Route53Provider := mkRoute53Provider {
  r53_client : option AwsOptions;
  r53_hostedZoneId : string;
  r53_limiter : bool;
  route53MaxRetries : Z;
}.

Definition IsProprietary (rr : ResourceRecordSet) : bool :=
  rs_AliasTarget rr || rs_TrafficPolicyInstanceId rr.

(** A pointer's value, the zero value for nil ([aws.ToString]). *)
Definition ToString (p : option string) : string := default "" p.

(** The values of a record set; values without text are skipped. *)
Definition set_values (rrSet : ResourceRecordSet) : list string :=
  omap (λ rr, match rr with
              | None => None
              | Some value =>
                  Some (if bool_decide (rs_Type rrSet = "TXT") then Trim value dquote else value)
              end) (rs_ResourceRecords rrSet).

(** One iteration of the loop over the record sets; [None] is [continue]. *)
Definition decode_set (rrSet : ResourceRecordSet) : option DnsRecord :=
  if bool_decide (rs_Name rrSet = None) || bool_decide (rs_Type rrSet = "") then None
  else if IsProprietary rrSet then None
  else
    match rs_TTL rrSet with
    | None => None
    | Some ttl => Some (mkDnsRecord (ToString (rs_Name rrSet)) (set_values rrSet)
                          (rs_Type rrSet) ttl)
    end.

Definition validateEndpointURL `{GoURL} (rawURL : string) : result unit :=
  match url_Parse rawURL with
  | Err err => Err ("parse Route 53 endpoint URL: " +:+ err)
  | Ok parsed =>
      if negb (bool_decide (URL_Scheme parsed = "http")) &&
         negb (bool_decide (URL_Scheme parsed = "https")) then
        Err "Route 53 endpoint URL must use http or https"
      else if bool_decide (URL_Host parsed = "") then
        Err "Route 53 endpoint URL must include a host"
      else if negb (bool_decide (URL_User parsed = None)) ||
              negb (bool_decide (URL_RawQuery parsed = "")) ||
              negb (bool_decide (URL_Fragment parsed = "")) then
        Err "Route 53 endpoint URL must not contain user information, a query, or a fragment"
      else Ok tt
  end.

Section route53.
Context `{GoUnicode} `{GoURL} {V : Type} `{route53Client V}.
Context (Getenv : string → string).

Notation W := (Route53Provider * V)%type.

(** The two pointers of the receiver. *)
Definition with_client {A} (k : AwsOptions → prog W A) : prog W A := λ w,
  match r53_client (fst w) with
  | Some options => k options w
  | None => (Panics nil_dereference, w)
  end.

Definition Wait : prog W unit := λ w,
  if r53_limiter (fst w) then outer limiter_Wait w else (Panics nil_dereference, w).

Definition validateHostedZoneId (rootDomainName : string) : prog W (result unit) :=
  Wait;;
  with_client (λ options,
    r ← get_state;
    let! resp := outer (GetHostedZone options (r53_hostedZoneId r))
      wrap (λ err, "could not look up configured hosted zone: " +:+ err) in
    match resp with
    | Some (mkHostedZone _ (Some name)) =>
        if negb (bool_decide (name = rootDomainName)) then
          mret (Err ("configured hosted zone does not match root domain " +:+ Quote rootDomainName))
        else mret (Ok tt)
    | _ => mret (Err "hosted zone response did not include a name")
    end).

Definition set_zoneId (id : string) (r : Route53Provider) : Route53Provider :=
  mkRoute53Provider (r53_client r) id (r53_limiter r) (route53MaxRetries r).

Definition setHostedZone (rootDomainName : string) : prog W (result unit) :=
  let envVal := Getenv "ROUTE53_ZONE_ID" in
  if negb (bool_decide (envVal = "")) then
    modify_state (set_zoneId (TrimSpace envVal));;
    validateHostedZoneId rootDomainName
  else
    Wait;;
    with_client (λ options,
      let! zones := outer (ListHostedZonesByName options (UnFqdn rootDomainName) 1)
        wrap (λ err, "could not list hosted zones: " +:+ err) in
      match zones with
      | [] => mret (Err ("hosted zone for " +:+ Quote rootDomainName +:+ " not found"))
      | z :: _ =>
          if negb (bool_decide (ToString (hz_Name z) = rootDomainName)) then
            mret (Err ("hosted zone for " +:+ Quote rootDomainName +:+ " not found"))
          else
            let zoneID := ToString (hz_Id z) in
            if bool_decide (zoneID = "") then
              mret (Err "hosted zone response did not include an ID")
            else
              modify_state (set_zoneId (TrimPrefix zoneID "/hostedzone/"));;
              mret (Ok tt)
      end).

(** [ROUTE53_MAX_RETRIES] *)
Definition maxRetries (current : Z) : Z :=
  let envVal := Getenv "ROUTE53_MAX_RETRIES" in
  if bool_decide (envVal = "") then current
  else
    match Atoi envVal with
    | (i, None) => if (0 <=? i) && (i <=? 10) then i else 3
    | (_, Some _) => 3
    end.

Definition awsRegion : string :=
  let region := TrimSpace (Getenv "AWS_REGION") in
  let region := if bool_decide (region = "") then TrimSpace (Getenv "AWS_DEFAULT_REGION")
                else region in
  if bool_decide (region = "") then "us-east-1" else region.

(** The historical pair of keys, [None] for the default credential chain. *)
Definition legacyCredentials : result (option (string * string * string)) :=
  let legacyAccessKey := TrimSpace (Getenv "AWS_ACCESS_KEY") in
  let legacySecretKey := TrimSpace (Getenv "AWS_SECRET_KEY") in
  if negb (bool_decide (legacyAccessKey = "")) || negb (bool_decide (legacySecretKey = "")) then
    if bool_decide (legacyAccessKey = "") || bool_decide (legacySecretKey = "") then
      Err "AWS_ACCESS_KEY and AWS_SECRET_KEY must be set together"
    else Ok (Some (legacyAccessKey, legacySecretKey, TrimSpace (Getenv "AWS_SESSION_TOKEN")))
  else Ok None.

Definition route53_Init (rootDomainName : string) : prog W (result unit) :=
  modify_state (λ r, mkRoute53Provider (r53_client r) (r53_hostedZoneId r) true
                       (maxRetries (route53MaxRetries r)));;
  match legacyCredentials with
  | Err err => mret (Err err)
  | Ok creds =>
      let! _ := outer (aws_LoadDefaultConfig awsRegion creds)
        wrap (λ err, "failed to load Route 53 configuration: " +:+ err) in
      let endpoint := TrimSpace (Getenv "ROUTE53_ENDPOINT_URL") in
      match (if bool_decide (endpoint = "") then Ok tt else validateEndpointURL endpoint) with
      | Err err => mret (Err err)
      | Ok _ =>
          modify_state (λ r, mkRoute53Provider
            (Some (mkAwsOptions awsRegion creds (route53MaxRetries r + 1)
               (if bool_decide (endpoint = "") then None else Some endpoint)))
            (r53_hostedZoneId r) (r53_limiter r) (route53MaxRetries r));;
          let! _ := setHostedZone rootDomainName
            wrap (λ err, "failed to configure hosted zone: " +:+ err) in
          mret (Ok tt)
      end
  end.

Definition route53_HealthCheck : prog W (result unit) :=
  with_client (λ options, outer (GetHostedZoneCount options)).

(** The record set that [changeRecord] sends. *)
Definition encode_record (record : DnsRecord) : ResourceRecordSet :=
  mkSet (Some (Fqdn_ record)) (Type_ record) (Some (TTL record))
    ((λ value, Some (if bool_decide (Type_ record = "TXT")
                     then dquotes +:+ value +:+ dquotes else value)) <$> Records record)
    false false.

Definition changeRecord (record : DnsRecord) (action : ChangeAction) : prog W (result unit) :=
  if (length (Records record) =? 0)%nat then
    mret (Err ("DNS record " +:+ Quote (Fqdn_ record) +:+ " has no values"))
  else
    Wait;;
    with_client (λ options,
      r ← get_state;
      outer (ChangeResourceRecordSets options (r53_hostedZoneId r) action (encode_record record))).

(** The loop over the pages. *)
Fixpoint list_pages (fuel : nat) (options : AwsOptions) (params : ListInput)
    (rrSets : list ResourceRecordSet) : prog W (result (list ResourceRecordSet)) :=
  match fuel with
  | O => lift (Panics "the listing has not ended")
  | S fuel =>
      let! page := outer (ListResourceRecordSets options params)
        wrap (λ err, "Route 53 API call has failed: " +:+ err) in
      let rrSets := rrSets ++ lo_ResourceRecordSets page in
      if negb (lo_IsTruncated page) then mret (Ok rrSets)
      else if bool_decide (lo_NextRecordName page = None) ||
              bool_decide (lo_NextRecordType page = "") then
        mret (Err "Route 53 returned a truncated page without a continuation token")
      else
        Wait;;
        list_pages fuel options
          (mkListInput (li_HostedZoneId params) (li_MaxItems params) (lo_NextRecordName page)
             (lo_NextRecordType page) (lo_NextRecordIdentifier page)) rrSets
  end.

Definition route53_GetRecords : prog W (result (list DnsRecord)) :=
  Wait;;
  with_client (λ options,
    r ← get_state;
    fuel ← (λ w, (Returns (list_fuel (snd w)), w));
    let! rrSets := list_pages fuel options
      (mkListInput (r53_hostedZoneId r) 100 None "" None) [] in
    mret (Ok (omap decode_set rrSets))).

#[export] Instance route53_Provider : Provider W := {|
  Init := route53_Init;
  GetName := "Route 53";
  HealthCheck := route53_HealthCheck;
  AddRecord := λ record, changeRecord record ActionUpsert;
  RemoveRecord := λ record, changeRecord record ActionDelete;
  UpdateRecord := λ record, changeRecord record ActionUpsert;
  GetRecords := route53_GetRecords;
|}.
End route53.

(** ** The documented behaviour of AWS

    A hosted zone is a list of record sets, at most one per name and type (no
    weighted or other routing policies, which have several).  A listing goes
    through it page by page: a page is followed by another one exactly when
    sets are left, is not empty then, and names the first set left.  A change
    is atomic. *)

Definition set_key (s : ResourceRecordSet) : string * string := (ToString (rs_Name s), rs_Type s).

Definition simple (sets : list ResourceRecordSet) : Prop :=
  NoDup (set_key <$> sets) ∧ Forall (λ s, rs_Name s ≠ None ∧ rs_Type s ≠ "") sets.

Definition without (k : string * string) (sets : list ResourceRecordSet)
    : list ResourceRecordSet :=
  filter (λ s, set_key s ≠ k) sets.

(** The request asks for [rest], what is left after [before]. *)
Definition starts_at (params : ListInput) (before rest : list ResourceRecordSet) : Prop :=
  match li_StartRecordName params with
  | None => before = []
  | Some name =>
      li_StartRecordIdentifier params = None ∧
      ∃ s rest', rest = s :: rest' ∧ rs_Name s = Some name ∧ rs_Type s = li_StartRecordType params
  end.

(** The answer to a request for [rest]. *)
Definition is_page (page : ListOutput) (rest : list ResourceRecordSet) : Prop :=
  ∃ rest', rest = lo_ResourceRecordSets page ++ rest' ∧
    match rest' with
    | [] => lo_IsTruncated page = false
    | s :: _ => lo_IsTruncated page = true ∧ lo_ResourceRecordSets page ≠ [] ∧
                lo_NextRecordName page = rs_Name s ∧ lo_NextRecordType page = rs_Type s ∧
                lo_NextRecordIdentifier page = None
    end.

Class Route53Laws (V : Type) `{route53Client V} := {
  (** The record sets of a hosted zone, and those that are stored as sent. *)
  aws_sets : V → string → list ResourceRecordSet;
  aws_canonical : ResourceRecordSet → Prop;

  limiter_law v : ∃ v', limiter_Wait v = (Returns tt, v') ∧ aws_sets v' = aws_sets v;
  list_law options params v before rest :
    let sets := aws_sets v (li_HostedZoneId params) in
    simple sets → sets = before ++ rest → starts_at params before rest →
    ∃ res v', ListResourceRecordSets options params v = (Returns res, v') ∧
      aws_sets v' = aws_sets v ∧
      match res with Ok page => is_page page rest | Err _ => True end;
  upsert_law options z s v : aws_canonical s → simple (aws_sets v z) →
    ∃ res v', ChangeResourceRecordSets options z ActionUpsert s v = (Returns res, v') ∧
      match res with
      | Ok _ => aws_sets v' z ≡ₚ s :: without (set_key s) (aws_sets v z)
      | Err _ => aws_sets v' z = aws_sets v z
      end;
  delete_law options z s v : set_key s ∈ set_key <$> aws_sets v z → simple (aws_sets v z) →
    ∃ res v', ChangeResourceRecordSets options z ActionDelete s v = (Returns res, v') ∧
      match res with
      | Ok _ => aws_sets v' z ≡ₚ without (set_key s) (aws_sets v z)
      | Err _ => aws_sets v' z = aws_sets v z
      end;
  list_fuel_law v z : (length (aws_sets v z) < list_fuel v)%nat;
}.

(** ** Records and record sets *)

(** The records that come back as they were sent: texts have no quotes at
    their ends. *)
Definition sendable (r : DnsRecord) : bool :=
  negb (bool_decide (Type_ r = "")) &&
  (negb (bool_decide (Type_ r = "TXT")) || forallb bare (Records r)).

Lemma set_values_encode r :
  set_values (encode_record r) =
  if bool_decide (Type_ r = "TXT")
  then (λ value, Trim (dquotes +:+ value +:+ dquotes) dquote) <$> Records r else Records r.
Proof.
  unfold set_values, encode_record. cbn [rs_Type rs_ResourceRecords].
  case_bool_decide; [by apply omap_fmap_Some|].
  rewrite (omap_fmap_Some _ _ id) by done. apply list_fmap_id.
Qed.

Lemma trimmed_texts l :
  (λ value, Trim (dquotes +:+ value +:+ dquotes) dquote) <$> l = l ↔ forallb bare l = true.
Proof.
  induction l as [|v l IH]; [done|]. rewrite fmap_cons. simpl.
  rewrite andb_true_iff, <-IH, <-Trim_quotes. split.
  - intros [= H1 H2]. split; [by rewrite H1|by rewrite H2].
  - intros [H1 H2]. by rewrite H1, H2.
Qed.

Lemma decode_encode r : decode_set (encode_record r) = Some r ↔ sendable r = true.
Proof.
  unfold decode_set, sendable. rewrite set_values_encode, andb_true_iff, negb_true_iff. simpl.
  destruct (decide (Type_ r = "")) as [Ht|Ht].
  { rewrite !bool_decide_eq_true_2 by done. simpl. naive_solver. }
  rewrite (bool_decide_eq_false_2 (Type_ r = "")) by done. simpl.
  destruct r as [f vs t ttl]. simpl in *. case_bool_decide; simpl; [|naive_solver].
  rewrite <-trimmed_texts. split; [by intros [= ->]|]. by intros [_ ->].
Qed.

Lemma decode_key s r : decode_set s = Some r → rr_key r = set_key s.
Proof.
  unfold decode_set. destruct (_ || _); [done|]. destruct (IsProprietary s); [done|].
  destruct (rs_TTL s); [|done]. by intros [= <-].
Qed.

Lemma encode_key r : set_key (encode_record r) = rr_key r.
Proof. done. Qed.

(** ** The listing *)

Section laws.
Context `{GoUnicode} `{GoURL} {V : Type} `{Route53Laws V} (Getenv : string → string).

Notation W := (Route53Provider * V)%type.

(** The provider after [Init]. *)
Definition ready53 (r : Route53Provider) : Prop :=
  r53_limiter r = true ∧ is_Some (r53_client r).

Definition sets (w : W) : list ResourceRecordSet := aws_sets (snd w) (r53_hostedZoneId (fst w)).

(** [w'] is [w] after requests that only read. *)
Definition read_only (w w' : W) : Prop := fst w' = fst w ∧ aws_sets (snd w') = aws_sets (snd w).

#[export] Instance read_only_preorder : PreOrder read_only.
Proof.
  split; [by split|]. intros w1 w2 w3 [H11 H12] [H21 H22]. split; by etransitivity.
Qed.

Lemma read_only_sets w w' : read_only w w' → sets w' = sets w.
Proof. intros [Hf Ha]. unfold sets. by rewrite Hf, Ha. Qed.

Lemma Wait_ready w : ready53 (fst w) → ∃ w', Wait w = (Returns tt, w') ∧ read_only w w'.
Proof.
  intros [Hl _]. unfold Wait. rewrite Hl. destruct (limiter_law (snd w)) as (v & Hv & Ha).
  exists (fst w, v). unfold outer. by rewrite Hv.
Qed.

Lemma with_client_ready {A} (k : AwsOptions → prog W A) w :
  ready53 (fst w) → ∃ options, with_client k w = k options w.
Proof. intros [_ [options Ho]]. exists options. unfold with_client. by rewrite Ho. Qed.

(** The error of a listing request that AWS refused. *)
Definition list_refused (e : error) : Prop :=
  ∃ options params v v' e', ListResourceRecordSets options params v = (Returns (Err e'), v') ∧
    e = "Route 53 API call has failed: " +:+ e'.

(** The loop reads the rest of the zone, whatever the sizes of the pages. *)
Lemma list_pages_rest fuel options params rrSets before rest (w : W) :
  (length rest < fuel)%nat → ready53 (fst w) →
  li_HostedZoneId params = r53_hostedZoneId (fst w) →
  simple (sets w) → sets w = before ++ rest → starts_at params before rest →
  ∃ res w', list_pages fuel options params rrSets w = (Returns res, w') ∧ read_only w w' ∧
    (res = Ok (rrSets ++ rest) ∨ ∃ e, res = Err e ∧ list_refused e).
Proof.
  revert params rrSets before rest w. induction fuel as [|fuel IH]; [lia|].
  intros params rrSets before rest w Hfuel Hw Hz Hs Hrest Hstart.
  destruct (list_law options params (snd w) before rest) as (res & v & Hl & Ha & Hpage);
    [by rewrite Hz|by rewrite Hz|done|].
  assert (read_only w (fst w, v)) as Hro by done.
  cbn [list_pages]. rewrite try_bind_eq. unfold outer at 1. rewrite Hl.
  destruct res as [page|e]; [|unfold list_refused; by eauto 15].
  destruct Hpage as (rest' & -> & Hnext). destruct rest' as [|s rest'].
  { rewrite Hnext. simpl. rewrite app_nil_r. eauto 10. }
  destruct Hnext as (Htrunc & Hne & Hn & Ht & Hid).
  assert (s ∈ sets w) as Hin by (rewrite Hrest; set_solver).
  destruct Hs as [Hnd HF]. destruct (proj1 (list.Forall_forall _ _) HF s Hin) as [Hsn Hst].
  rewrite Htrunc, Hn, Ht, Hid. rewrite (bool_decide_eq_false_2 (rs_Name s = None)) by done.
  rewrite (bool_decide_eq_false_2 (rs_Type s = "")) by done. simpl. rewrite prog_bind_eq.
  destruct (Wait_ready (fst w, v)) as (w1 & Hw1 & Hro1); [done|]. rewrite Hw1.
  assert (read_only w w1) as Hro' by by etransitivity.
  destruct (IH (mkListInput (li_HostedZoneId params) (li_MaxItems params) (rs_Name s)
    (rs_Type s) None) (rrSets ++ lo_ResourceRecordSets page)
    (before ++ lo_ResourceRecordSets page) (s :: rest') w1) as (res & w' & Hr & Hro'' & Hres).
  - destruct (lo_ResourceRecordSets page); [done|]. simpl in *. rewrite length_app in Hfuel.
    simpl in Hfuel. lia.
  - by rewrite (proj1 Hro').
  - simpl. by rewrite (proj1 Hro').
  - by rewrite (read_only_sets w).
  - by rewrite (read_only_sets w), Hrest, <-app_assoc.
  - unfold starts_at. simpl. destruct (rs_Name s) as [n|] eqn:Hname; [|done].
    split; [done|]. by exists s, rest'.
  - exists res, w'. split; [done|]. split; [by etransitivity|]. by rewrite <-app_assoc in Hres.
Qed.

Lemma GetRecords_sets w :
  ready53 (fst w) → simple (sets w) →
  ∃ res w', route53_GetRecords w = (Returns res, w') ∧ read_only w w' ∧
    (res = Ok (omap decode_set (sets w)) ∨ ∃ e, res = Err e ∧ list_refused e).
Proof.
  intros Hw Hs. unfold route53_GetRecords. rewrite prog_bind_eq.
  destruct (Wait_ready w Hw) as (w1 & -> & Hro).
  assert (ready53 (fst w1)) as Hw1 by by rewrite (proj1 Hro).
  edestruct (with_client_ready (A:=result (list DnsRecord))) as [options ->]; [done|].
  rewrite prog_bind_eq. unfold get_state. rewrite prog_bind_eq, try_bind_eq.
  edestruct (list_pages_rest (list_fuel (snd w1)) options
    (mkListInput (r53_hostedZoneId (fst w1)) 100 None "" None) [] [] (sets w1) w1)
    as (res & w' & -> & Hro' & Hres); [apply list_fuel_law|done|done| |done|done|].
  { by rewrite (read_only_sets w). }
  rewrite (read_only_sets w) in Hres by done.
  assert (read_only w w') by by etransitivity.
  destruct Hres as [->|(e & -> & He)]; eauto 10.
Qed.

(** ** The contract *)

Definition zone53 (w : W) : zone_map := zone_of (omap decode_set (sets w)).
Definition good53 (w : W) : Prop := ready53 (fst w) ∧ simple (sets w).
Definition storable53 (r : DnsRecord) : Prop :=
  Records r ≠ [] ∧ sendable r = true ∧ aws_canonical (encode_record r).

Lemma records_nodup l : simple l → NoDup (rr_key <$> omap decode_set l).
Proof.
  intros [Hnd _]. apply (NoDup_omap_images decode_set rr_key set_key); [done|].
  intros s r _. apply decode_key.
Qed.

Lemma zone_sets_perm l l' :
  simple l → l ≡ₚ l' → zone_of (omap decode_set l) = zone_of (omap decode_set l').
Proof.
  intros Hs Hp. apply zone_of_perm; [by apply records_nodup|]. by apply omap_Permutation.
Qed.

Lemma simple_perm l l' : simple l → l ≡ₚ l' → simple l'.
Proof. intros [Hnd HF] Hp. split; [by rewrite <-Hp|]. by rewrite <-Hp. Qed.

Lemma simple_without k l : simple l → simple (without k l).
Proof.
  intros [Hnd HF]. split.
  - eapply sublist_NoDup; [exact Hnd|]. apply fmap_sublist, sublist_filter.
  - rewrite list.Forall_forall in *. intros s [_ Hin]%list_elem_of_filter. by apply HF.
Qed.

Lemma simple_upsert s l :
  simple l → rs_Name s ≠ None → rs_Type s ≠ "" → simple (s :: without (set_key s) l).
Proof.
  intros Hl Hn Ht. destruct (simple_without (set_key s) l Hl) as [Hnd HF]. split.
  - rewrite fmap_cons. constructor; [|done]. rewrite list_elem_of_fmap.
    intros (s' & Hk & Hs'). apply list_elem_of_filter in Hs'. naive_solver.
  - by constructor.
Qed.

(** The record set of a name and a type is not in the zone any more. *)
Lemma zone_without k l :
  simple l → zone_of (omap decode_set (without k l)) = delete k (zone_of (omap decode_set l)).
Proof.
  intros Hl. rewrite <-zone_of_filter by by apply records_nodup. f_equal. unfold without.
  clear Hl. induction l as [|s l IH]; [done|]. rewrite filter_cons.
  destruct (decode_set s) as [r|] eqn:Hr.
  - apply decode_key in Hr as Hk. rewrite (omap_cons_Some decode_set s r l Hr), filter_cons, Hk.
    case_decide; [|done]. by rewrite (omap_cons_Some decode_set s r _ Hr), IH.
  - rewrite (omap_cons_None decode_set s l Hr).
    case_decide; [|done]. by rewrite (omap_cons_None decode_set s _ Hr).
Qed.

(** One call that changes the zone. *)
Lemma changeRecord_run r action (w : W) :
  ready53 (fst w) → Records r ≠ [] →
  ∃ options w1, read_only w w1 ∧
    changeRecord r action w =
    outer (ChangeResourceRecordSets options (r53_hostedZoneId (fst w1)) action (encode_record r)) w1.
Proof.
  intros Hw Hr. destruct (Wait_ready w Hw) as (w1 & Hw1 & Hro).
  destruct Hw as [_ [options Ho]]. exists options, w1. split; [done|].
  unfold changeRecord. destruct (Records r); [done|]. simpl. rewrite prog_bind_eq, Hw1.
  unfold with_client. rewrite (proj1 Hro), Ho. rewrite prog_bind_eq. unfold get_state. rewrite (proj1 Hro). done.
Qed.

Lemma upsert_effect r (w : W) :
  good53 w → storable53 r →
  ∃ res w', changeRecord r ActionUpsert w = (Returns res, w') ∧ good53 w' ∧
    match res with
    | Ok _ => sets w' ≡ₚ encode_record r :: without (rr_key r) (sets w)
    | Err _ => sets w' = sets w
    end.
Proof.
  intros [Hw Hs] (Hne & Hsend & Hcan).
  destruct (changeRecord_run r ActionUpsert w Hw Hne) as (options & w1 & Hro & ->).
  pose proof (read_only_sets w w1 Hro) as Hs1.
  destruct (upsert_law options (r53_hostedZoneId (fst w1)) (encode_record r) (snd w1))
    as (res & v & Hc & Hres); [done|by rewrite <-Hs1 in Hs|].
  unfold outer. rewrite Hc. exists res, (fst w1, v). split; [done|].
  assert (sets (fst w1, v) = aws_sets v (r53_hostedZoneId (fst w1))) as Hv by done.
  change (aws_sets (snd w1) (r53_hostedZoneId (fst w1))) with (sets w1) in Hres.
  rewrite <-Hv, Hs1, encode_key in Hres. split.
  - split; [by rewrite (proj1 Hro)|]. destruct res; [|by rewrite Hres].
    eapply simple_perm; [|by symmetry]. apply simple_upsert; [done..|].
    unfold sendable in Hsend. apply andb_true_iff in Hsend as [Ht _].
    by apply negb_true_iff, bool_decide_eq_false in Ht.
  - done.
Qed.

Lemma upsert_contract r (w : W) :
  good53 w → storable53 r →
  ∃ res w', changeRecord r ActionUpsert w = (Returns res, w') ∧ good53 w' ∧
    match res with
    | Ok _ => zone53 w' = put r (zone53 w)
    | Err _ => interrupted r (zone53 w) (zone53 w')
    end.
Proof.
  intros Hw Hr. destruct (upsert_effect r w Hw Hr) as (res & w' & Hc & Hg & Hres).
  exists res, w'. do 2 (split; [done|]). destruct res as [|e].
  - unfold zone53. rewrite (zone_sets_perm _ _ (proj2 Hg) Hres).
    destruct Hr as (_ & Hsend & _).
    rewrite (omap_cons_Some decode_set _ r _ (proj2 (decode_encode r) Hsend)).
    rewrite zone_of_cons, zone_without by apply Hw. by rewrite put_delete.
  - unfold zone53. rewrite Hres. apply interrupted_refl.
Qed.

Lemma delete_effect r (w : W) :
  good53 w → Records r ≠ [] → rr_key r ∈ set_key <$> sets w →
  ∃ res w', changeRecord r ActionDelete w = (Returns res, w') ∧ good53 w' ∧
    match res with
    | Ok _ => sets w' ≡ₚ without (rr_key r) (sets w)
    | Err _ => sets w' = sets w
    end.
Proof.
  intros [Hw Hs] Hne Hk.
  destruct (changeRecord_run r ActionDelete w Hw Hne) as (options & w1 & Hro & ->).
  pose proof (read_only_sets w w1 Hro) as Hs1.
  destruct (delete_law options (r53_hostedZoneId (fst w1)) (encode_record r) (snd w1))
    as (res & v & Hc & Hres); [by rewrite <-Hs1 in Hk|by rewrite <-Hs1 in Hs|].
  unfold outer. rewrite Hc. exists res, (fst w1, v). split; [done|].
  change (aws_sets v (r53_hostedZoneId (fst w1))) with (sets (fst w1, v)) in Hres.
  change (aws_sets (snd w1) (r53_hostedZoneId (fst w1))) with (sets w1) in Hres.
  rewrite Hs1, encode_key in Hres. split; [|done].
  split; [by rewrite (proj1 Hro)|]. destruct res; [|by rewrite Hres].
  eapply simple_perm; [|by symmetry]. by apply simple_without.
Qed.

Lemma delete_contract r (w : W) :
  good53 w → zone53 w !! rr_key r ≠ None →
  ∃ res w', changeRecord r ActionDelete w = (Returns res, w') ∧ good53 w' ∧
    match res with
    | Ok _ => zone53 w' = delete (rr_key r) (zone53 w)
    | Err _ => zone53 w' = zone53 w
    end.
Proof.
  intros Hw Hin. destruct (decide (Records r = [])) as [He|Hne].
  { unfold changeRecord. rewrite He. simpl. by eexists _, w. }
  destruct (delete_effect r w Hw Hne) as (res & w' & Hd & Hg & Hres).
  { unfold zone53 in Hin. apply not_eq_None_Some in Hin as [v Hv].
    apply zone_of_Some in Hv as (r' & Hr' & Hkey & _); [|by apply records_nodup, Hw].
    apply list_elem_of_omap in Hr' as (s & Hsin & Hdec). apply list_elem_of_fmap.
    exists s. by rewrite <-(decode_key s r' Hdec). }
  exists res, w'. do 2 (split; [done|]). unfold zone53. destruct res; [|by rewrite Hres].
  rewrite (zone_sets_perm _ _ (proj2 Hg) Hres). by apply zone_without, Hw.
Qed.

(** An ownership record is stored when it lists a name. *)
Lemma StateRecord_storable53 fqdn ttl (entries : gset string) :
  entries ≠ ∅ → (∀ x, x ∈ entries → bare x = true) →
  aws_canonical (encode_record (StateRecord fqdn ttl entries)) →
  storable53 (StateRecord fqdn ttl entries).
Proof.
  intros Hne Hb Hc. split; [|split; [|done]].
  - intros Hnil. apply Hne, elem_of_equiv_empty_L. intros x Hx.
    apply (StateRecord_elem fqdn ttl entries x) in Hx. by rewrite Hnil in Hx; apply elem_of_nil in Hx.
  - unfold sendable. cbn [Type_ StateRecord]. apply forallb_forall. intros x Hx.
    apply list_elem_of_In, StateRecord_elem in Hx. by apply Hb.
Qed.

#[export] Instance route53_contract : ProviderContract W (H:=route53_Provider Getenv).
Proof.
  refine {| zone := zone53; good := good53; storable := storable53 |}.
  - intros w Hw. destruct (GetRecords_sets w (proj1 Hw) (proj2 Hw)) as (res & w' & Hr & Hro & Hres).
    exists res, w'. split; [done|]. pose proof (read_only_sets w w' Hro) as Hs.
    unfold good53, zone53. rewrite Hs, (proj1 Hro). do 2 (split; [done|]).
    destruct Hres as [->|(e & -> & _)]; [|done]. split; [|done]. by apply records_nodup, Hw.
  - intros w r Hw Hr _. by apply upsert_contract.
  - intros w r Hw Hr _. by apply upsert_contract.
  - intros w r Hw Hin. destruct (delete_contract r w Hw) as (res & w' & Hd & Hg & Hres).
    { by rewrite Hin. }
    exists res, w'. do 2 (split; [done|]). destruct res; [done|]. rewrite Hres.
    apply interrupted_refl.
Defined.

(** ** Properties *)

Notation provider53 := (route53_Provider Getenv).

(** [C15] The listing is complete.  Whatever the sizes of the pages, it ends
    (no number of iterations above the number of record sets is too small),
    changes nothing, and yields, in the order of the zone, every record set
    that is neither an alias nor a traffic policy's and has a TTL; or it
    reports the error of a request that AWS refused, never a part of the
    zone. *)
Theorem route53_GetRecords_complete (w : W) :
  good53 w →
  (∃ res w', GetRecords (Provider:=provider53) w = (Returns res, w') ∧ read_only w w' ∧
     match res with
     | Ok recs => recs = omap decode_set (sets w) ∧ NoDup (rr_key <$> recs)
     | Err e => list_refused e
     end) ∧
  (∀ fuel options, (length (sets w) < fuel)%nat →
     ∃ res w', list_pages fuel options
         (mkListInput (r53_hostedZoneId (fst w)) 100 None "" None) [] w = (Returns res, w') ∧
       (res = Ok (sets w) ∨ ∃ e, res = Err e ∧ list_refused e)).
Proof.
  intros [Hw Hs]. split.
  - destruct (GetRecords_sets w Hw Hs) as (res & w' & Hr & Hro & Hres).
    exists res, w'. do 2 (split; [done|]). destruct Hres as [->|(e & -> & He)]; [|done].
    split; [done|]. by apply records_nodup.
  - intros fuel options Hfuel.
    destruct (list_pages_rest fuel options (mkListInput (r53_hostedZoneId (fst w)) 100 None "" None)
      [] [] (sets w) w) as (res & w' & Hr & _ & Hres); [done..|]. by exists res, w'.
Qed.

(** [C14] What a change does to the zone at AWS, record sets that the listing
    skips included.  A record without values is refused before any request.
    Adding and updating are the same request: it replaces whatever set there
    is under the name and type (also an alias) by the record.  Removing takes
    that set away.  No other set is affected, and after an error none is. *)
Theorem route53_changes (r : DnsRecord) (w : W) :
  good53 w →
  match Records r with
  | [] => ∀ action, ∃ e, changeRecord r action w = (Returns (Err e), w)
  | _ => True
  end ∧
  (storable53 r →
     AddRecord (Provider:=provider53) r w = UpdateRecord (Provider:=provider53) r w ∧
     ∃ res w', AddRecord (Provider:=provider53) r w = (Returns res, w') ∧ good53 w' ∧
       match res with
       | Ok _ => sets w' ≡ₚ encode_record r :: without (rr_key r) (sets w)
       | Err _ => sets w' = sets w
       end) ∧
  (Records r ≠ [] → rr_key r ∈ set_key <$> sets w →
     ∃ res w', RemoveRecord (Provider:=provider53) r w = (Returns res, w') ∧ good53 w' ∧
       match res with
       | Ok _ => sets w' ≡ₚ without (rr_key r) (sets w)
       | Err _ => sets w' = sets w
       end).
Proof.
  intros Hw. split; [|split].
  - destruct (Records r) eqn:Hr; [|done]. intros action. unfold changeRecord. rewrite Hr. by eexists.
  - intros Hr. split; [done|]. by apply upsert_effect.
  - intros Hr Hk. by apply delete_effect.
Qed.
End laws.

(** [C33] A record set written by the program reads back as the record it was
    written for exactly when the type is not empty and the texts of a TXT
    record have no quotes at their ends; in any case the texts read back have
    none. *)
Theorem encode_record_roundtrip (r : DnsRecord) :
  (decode_set (encode_record r) = Some r ↔ sendable r = true) ∧
  (∀ s r', decode_set s = Some r' → Type_ r' = "TXT" → forallb bare (Records r') = true).
Proof.
  split; [apply decode_encode|]. intros s r'. unfold decode_set.
  destruct (_ || _); [done|]. destruct (IsProprietary s); [done|].
  destruct (rs_TTL s); [|done]. intros [= <-]. simpl. intros Ht. unfold set_values.
  apply List.forallb_forall. intros v Hv%list_elem_of_In.
  apply list_elem_of_omap in Hv as (o & _ & Ho). destruct o as [v'|]; [|done].
  rewrite bool_decide_eq_true_2 in Ho by done. injection Ho as <-.
  unfold bare. by rewrite Trim_no_start, Trim_no_end.
Qed.

(** ** Start-up *)

Section init.
Context `{GoUnicode} `{GoURL} {V : Type} `{route53Client V} (Getenv : string → string).

(** The zone that [setHostedZone] settles on. *)
Definition zone_found (options : AwsOptions) (rootDomainName id : string) : Prop :=
  if bool_decide (Getenv "ROUTE53_ZONE_ID" = "") then
    ∃ v v' z zones, ListHostedZonesByName options (UnFqdn rootDomainName) 1 v
        = (Returns (Ok (z :: zones)), v') ∧
      ToString (hz_Name z) = rootDomainName ∧ ToString (hz_Id z) ≠ "" ∧
      id = TrimPrefix (ToString (hz_Id z)) "/hostedzone/"
  else
    id = TrimSpace (Getenv "ROUTE53_ZONE_ID") ∧
    ∃ v v' z, GetHostedZone options id v = (Returns (Ok (Some z)), v') ∧
      hz_Name z = Some rootDomainName.

Lemma Wait_returns w w' : Wait w = (Returns tt, w') → fst w' = fst w.
Proof.
  unfold Wait, outer. destruct (r53_limiter (fst w)); [|done].
  destruct (limiter_Wait (snd w)) as [o v]. by intros [= _ <-].
Qed.

Lemma outer_returns {A} (m : prog V A) (w : Route53Provider * V) a w' :
  outer m w = (Returns a, w') → m (snd w) = (Returns a, snd w') ∧ fst w' = fst w.
Proof. unfold outer. destruct (m (snd w)) as [o v]. by intros [= -> <-]. Qed.

Lemma with_client_eq {A} (k : AwsOptions → prog (Route53Provider * V) A) w options :
  r53_client (fst w) = Some options → with_client k w = k options w.
Proof. unfold with_client. by intros ->. Qed.

Lemma validateHostedZoneId_ok root options w u w' :
  r53_client (fst w) = Some options →
  validateHostedZoneId root w = (Returns (Ok u), w') →
  fst w' = fst w ∧ ∃ v v' z,
    GetHostedZone options (r53_hostedZoneId (fst w)) v = (Returns (Ok (Some z)), v') ∧
    hz_Name z = Some root.
Proof.
  intros Ho. unfold validateHostedZoneId. rewrite prog_bind_returns.
  intros ([] & w1 & Hw1%Wait_returns & Hr). rewrite (with_client_eq _ _ options) in Hr by by rewrite Hw1.
  apply prog_bind_returns in Hr as (r & w2 & [= <- <-] & Hr).
  apply try_bind_ok in Hr as (resp & w3 & Hget%outer_returns & Hr). destruct Hget as [Hget Hw3].
  destruct resp as [[id [name|]]|]; [|done..].
  destruct (decide (name = root)) as [->|Hne]; [|by rewrite bool_decide_eq_false_2 in Hr by done].
  rewrite bool_decide_eq_true_2 in Hr by done. injection Hr as _ <-.
  split; [congruence|]. rewrite <-Hw1. by eexists _, _, _.
Qed.

Lemma setHostedZone_ok root options w u w' :
  r53_client (fst w) = Some options →
  setHostedZone Getenv root w = (Returns (Ok u), w') →
  ∃ id, fst w' = set_zoneId id (fst w) ∧ zone_found options root id.
Proof.
  intros Ho. unfold setHostedZone, zone_found.
  destruct (decide (Getenv "ROUTE53_ZONE_ID" = "")) as [He|He].
  - rewrite !bool_decide_eq_true_2 by done. simpl. rewrite prog_bind_returns.
    intros ([] & w1 & Hw1%Wait_returns & Hr).
    rewrite (with_client_eq _ _ options) in Hr by by rewrite Hw1.
    apply try_bind_ok in Hr as (zones & w2 & [Hl Hw2]%outer_returns & Hr).
    destruct zones as [|z zones]; [done|].
    destruct (decide (ToString (hz_Name z) = root)) as [Hn|Hn];
      [|by rewrite bool_decide_eq_false_2 in Hr by done].
    rewrite bool_decide_eq_true_2 in Hr by done. simpl in Hr.
    destruct (decide (ToString (hz_Id z) = "")) as [Hi|Hi];
      [by rewrite bool_decide_eq_true_2 in Hr by done|].
    rewrite bool_decide_eq_false_2 in Hr by done. injection Hr as _ <-. simpl.
    eexists. split; [by rewrite Hw2, Hw1|]. by eexists _, _, z, zones.
  - rewrite !bool_decide_eq_false_2 by done. cbn [negb]. rewrite prog_bind_returns.
    intros ([] & w1 & Hm & Hr). injection Hm as <-.
    apply (validateHostedZoneId_ok _ options) in Hr as [Hf Hz]; [|done].
    eexists. split; [exact Hf|]. split; [done|]. done.
Qed.

Lemma validateEndpointURL_ok rawURL u :
  validateEndpointURL rawURL = Ok u →
  ∃ parsed, url_Parse rawURL = Ok parsed ∧
    (URL_Scheme parsed = "http" ∨ URL_Scheme parsed = "https") ∧ URL_Host parsed ≠ "" ∧
    URL_User parsed = None ∧ URL_RawQuery parsed = "" ∧ URL_Fragment parsed = "".
Proof.
  unfold validateEndpointURL. destruct (url_Parse rawURL) as [parsed|]; [|done].
  destruct (negb _ && negb _) eqn:Hs; [done|].
  destruct (bool_decide (URL_Host parsed = "")) eqn:Hh; [done|].
  destruct (_ || _ || _) eqn:Hq; [done|]. intros _. exists parsed. split; [done|].
  rewrite andb_false_iff, !negb_false_iff, !bool_decide_eq_true in Hs.
  rewrite !orb_false_iff, !negb_false_iff, !bool_decide_eq_true in Hq.
  apply bool_decide_eq_false in Hh. naive_solver.
Qed.

Lemma legacyCredentials_ok creds :
  legacyCredentials Getenv = Ok creds →
  match creds with
  | None => TrimSpace (Getenv "AWS_ACCESS_KEY") = "" ∧ TrimSpace (Getenv "AWS_SECRET_KEY") = ""
  | Some (access, secret, token) =>
      access = TrimSpace (Getenv "AWS_ACCESS_KEY") ∧ access ≠ "" ∧
      secret = TrimSpace (Getenv "AWS_SECRET_KEY") ∧ secret ≠ "" ∧
      token = TrimSpace (Getenv "AWS_SESSION_TOKEN")
  end.
Proof.
  unfold legacyCredentials.
  destruct (decide (TrimSpace (Getenv "AWS_ACCESS_KEY") = "")),
    (decide (TrimSpace (Getenv "AWS_SECRET_KEY") = ""));
    rewrite ?(bool_decide_eq_true_2 (TrimSpace _ = "")), ?(bool_decide_eq_false_2 (TrimSpace _ = ""))
      by done; repeat (rewrite bool_decide_eq_true_2 by done || rewrite bool_decide_eq_false_2 by done);
    simpl; by intros [= <-].
Qed.

Lemma awsRegion_cases :
  awsRegion Getenv =
  match TrimSpace (Getenv "AWS_REGION"), TrimSpace (Getenv "AWS_DEFAULT_REGION") with
  | "", "" => "us-east-1"
  | "", region => region
  | region, _ => region
  end.
Proof. unfold awsRegion. by destruct (TrimSpace _), (TrimSpace _). Qed.

Lemma maxRetries_cases current :
  if bool_decide (Getenv "ROUTE53_MAX_RETRIES" = "") then maxRetries Getenv current = current
  else 0 ≤ maxRetries Getenv current ≤ 10 ∧
    ∀ i, Atoi (Getenv "ROUTE53_MAX_RETRIES") = (i, None) → 0 ≤ i ≤ 10 →
      maxRetries Getenv current = i.
Proof.
  unfold maxRetries. case_bool_decide; [done|].
  destruct (Atoi _) as [i [e|]]; [by split; [lia|]|]. destruct (_ && _) eqn:Hi.
  - apply andb_true_iff in Hi as [?%Z.leb_le ?%Z.leb_le]. split; [lia|]. by intros j [= ->].
  - split; [lia|]. intros j [= ->] Hj. apply andb_false_iff in Hi.
    rewrite !Z.leb_gt in Hi. lia.
Qed.

(** [C32] What start-up establishes.  When [Init] succeeds, the rate limiter and
    the client are there.  The region is the configured one, by default
    us-east-1.  The client uses the historical keys when both are set, and the
    default credential chain when neither is: a lone key is refused.  It makes
    between one and eleven attempts when [ROUTE53_MAX_RETRIES] is set, one more
    than the retries it asks for when they are in range, and otherwise one
    more than before.  The endpoint, if one is configured, parses to an http or
    https URL with a host and without user information, query and fragment.
    And the hosted zone is the configured one or the one found by name, and in
    both cases AWS said that its name is the root domain. *)
Theorem route53_Init_spec (root : string) (w w' : Route53Provider * V) (u : unit) :
  route53_Init Getenv root w = (Returns (Ok u), w') →
  ∃ options,
    r53_limiter (fst w') = true ∧ r53_client (fst w') = Some options ∧
    ao_Region options =
      match TrimSpace (Getenv "AWS_REGION"), TrimSpace (Getenv "AWS_DEFAULT_REGION") with
      | "", "" => "us-east-1"
      | "", region => region
      | region, _ => region
      end ∧
    match ao_Credentials options with
    | None => TrimSpace (Getenv "AWS_ACCESS_KEY") = "" ∧ TrimSpace (Getenv "AWS_SECRET_KEY") = ""
    | Some (access, secret, token) =>
        access = TrimSpace (Getenv "AWS_ACCESS_KEY") ∧ access ≠ "" ∧
        secret = TrimSpace (Getenv "AWS_SECRET_KEY") ∧ secret ≠ "" ∧
        token = TrimSpace (Getenv "AWS_SESSION_TOKEN")
    end ∧
    (if bool_decide (Getenv "ROUTE53_MAX_RETRIES" = "")
     then ao_RetryMaxAttempts options = route53MaxRetries (fst w) + 1
     else 1 ≤ ao_RetryMaxAttempts options ≤ 11 ∧
       ∀ i, Atoi (Getenv "ROUTE53_MAX_RETRIES") = (i, None) → 0 ≤ i ≤ 10 →
         ao_RetryMaxAttempts options = i + 1) ∧
    match ao_BaseEndpoint options with
    | None => TrimSpace (Getenv "ROUTE53_ENDPOINT_URL") = ""
    | Some e => e = TrimSpace (Getenv "ROUTE53_ENDPOINT_URL") ∧ e ≠ "" ∧
        ∃ parsed, url_Parse e = Ok parsed ∧
          (URL_Scheme parsed = "http" ∨ URL_Scheme parsed = "https") ∧ URL_Host parsed ≠ "" ∧
          URL_User parsed = None ∧ URL_RawQuery parsed = "" ∧ URL_Fragment parsed = ""
    end ∧
    zone_found options root (r53_hostedZoneId (fst w')).
Proof.
  unfold route53_Init. rewrite prog_bind_returns. intros ([] & w1 & Hm & Hr).
  injection Hm as <-. destruct (legacyCredentials Getenv) as [creds|] eqn:Hcreds; [|done].
  apply try_bind_ok in Hr as ([] & w2 & [_ Hw2]%outer_returns & Hr). cbn [fst] in Hw2.
  set (endpoint := TrimSpace (Getenv "ROUTE53_ENDPOINT_URL")) in *.
  destruct (if bool_decide (endpoint = "") then Ok tt else validateEndpointURL endpoint)
    as [[]|] eqn:He; [|done].
  apply prog_bind_returns in Hr as ([] & w3 & Hm & Hr). injection Hm as <-.
  apply try_bind_ok in Hr as ([] & w4 & Hz & Hr). injection Hr as _ <-.
  eapply setHostedZone_ok in Hz as (id & Hf & Hz); [|reflexivity].
  rewrite Hf. cbn [fst set_zoneId r53_limiter r53_client r53_hostedZoneId].
  rewrite Hw2. eexists. do 2 (split; [done|]).
  cbn [ao_Region ao_Credentials ao_RetryMaxAttempts ao_BaseEndpoint route53MaxRetries].
  split; [apply awsRegion_cases|]. split; [by apply legacyCredentials_ok|].
  split; [|split; [|by rewrite Hw2 in Hz]].
  - pose proof (maxRetries_cases (route53MaxRetries (fst w))) as Hm. case_bool_decide.
    + by rewrite Hm.
    + destruct Hm as [Hb Hm]. split; [lia|]. intros i Hi Hin. by rewrite (Hm i Hi Hin).
  - destruct (decide (endpoint = "")) as [Hn|Hn]; [by rewrite bool_decide_eq_true_2|].
    rewrite bool_decide_eq_false_2 in * by done. split; [done|]. split; [done|].
    by eapply validateEndpointURL_ok.
Qed.
End init.

(** ** Reconciliation with Route 53 *)

Section published.
Context `{GoUnicode} `{GoURL} {V : Type} `{Route53Laws V} (Getenv : string → string).
Context (cfg : Config) (m : MetadataClient).

Notation W := (Route53Provider * V)%type.
#[local] Instance provider : Provider W := route53_Provider Getenv.
#[local] Instance contract : ProviderContract W := route53_contract Getenv.

(** [C3] The whole path to AWS.  Over an AWS that behaves as documented, a run
    of the reconciler returns; and if it succeeds, then AWS holds, for every
    desired record, a record set of its name and type with exactly the desired
    values, and for every other name that the environment owned no address
    record set is listed any more. *)
Theorem route53_published (D : gmap string MetadataDnsRecord) (w : W) :
  admissible cfg m D → ready cfg m w →
  ∃ res w', UpdateProviderDnsRecords cfg m D w = (Returns res, w') ∧ good53 w' ∧
    match res with
    | Err _ => True
    | Ok _ =>
        (∀ k d, D !! k = Some d → ∃ s r, s ∈ sets w' ∧ decode_set s = Some r ∧
           set_key s = managed (stateName cfg m) k ∧
           (list_to_set (Records r) : gset string) = list_to_set (Records (DnsRecord_ d))) ∧
        (∀ k s r, k ∉ dom D → k ∈ owned (stateName cfg m) (zone53 w) → s ∈ sets w' →
           decode_set s = Some r → set_key s ≠ managed (stateName cfg m) k)
    end.
Proof.
  intros HD Hw. destruct (sync_published cfg m D w HD Hw) as (res & w' & Hr & [Hg _] & _ & Hres).
  exists res, w'. split; [exact Hr|]. split; [exact Hg|]. destruct res as [updated|]; [|done].
  destruct Hres as [Hdes Hgone]. split.
  - intros k d Hk. destruct (Hdes k d Hk) as (v & Hv & Hvals).
    apply zone_of_Some in Hv as (r & Hin & Hkey & Hset); [|by apply records_nodup, Hg].
    apply list_elem_of_omap in Hin as (s & Hs & Hdec). exists s, r. do 2 (split; [done|]).
    split; [by rewrite <-Hkey, (decode_key s r)|]. by rewrite <-Hvals, <-Hset.
  - intros k s r Hk Howned Hs Hdec Hkey. specialize (Hgone k Hk Howned).
    pose proof (proj1 (zone_of_None _ _) Hgone r) as Hno. apply Hno.
    + apply list_elem_of_omap. by exists s.
    + by rewrite (decode_key s r).
Qed.
End published.

(** ** AWS in memory

    One hosted zone, listed two record sets at a time; it stores what it is
    sent and answers at once. *)
Module Example_aws.

Definition aws : Type := list ResourceRecordSet.

(** The listing from a token on. *)
Fixpoint from_token (name : option string) (type : string) (l : aws) : aws :=
  match l with
  | [] => []
  | s :: l' =>
      if bool_decide (rs_Name s = name) && bool_decide (rs_Type s = type) then l
      else from_token name type l'
  end.

Definition page_of (rest : aws) : ListOutput :=
  match drop 2 rest with
  | [] => mkListOutput rest false None "" None
  | s :: _ => mkListOutput (take 2 rest) true (rs_Name s) (rs_Type s) None
  end.

#[export] Instance client : route53Client aws := {|
  aws_LoadDefaultConfig := λ _ _, mret (Ok tt);
  ChangeResourceRecordSets := λ _ _ action s l,
    (Returns (Ok tt),
     match action with
     | ActionUpsert => s :: without (set_key s) l
     | ActionDelete => without (set_key s) l
     end);
  GetHostedZone := λ _ id, mret (Ok (Some (mkHostedZone (Some id) (Some "io."))));
  GetHostedZoneCount := λ _, mret (Ok tt);
  ListHostedZonesByName := λ _ _ _,
    mret (Ok [mkHostedZone (Some "/hostedzone/Z1") (Some "io.")]);
  ListResourceRecordSets := λ _ params l,
    (Returns (Ok (page_of
       match li_StartRecordName params with
       | None => l
       | Some name => from_token (Some name) (li_StartRecordType params) l
       end)), l);
  limiter_Wait := mret tt;
  list_fuel := λ l, S (length l);
|}.

Lemma from_token_app before s rest :
  simple (before ++ s :: rest) →
  from_token (rs_Name s) (rs_Type s) (before ++ s :: rest) = s :: rest.
Proof.
  induction before as [|s' before IH]; intros [Hnd HF]; simpl.
  { by rewrite !bool_decide_eq_true_2. }
  rewrite <-app_comm_cons, fmap_cons in Hnd. apply list.NoDup_cons in Hnd as [Hs Hnd].
  apply list.Forall_cons in HF as [_ HF].
  destruct (bool_decide (rs_Name s' = rs_Name s) && bool_decide (rs_Type s' = rs_Type s)) eqn:Hb.
  - exfalso. apply andb_true_iff in Hb as [Hn%bool_decide_eq_true Ht%bool_decide_eq_true].
    apply Hs. apply list_elem_of_fmap. exists s. split; [|set_solver].
    unfold set_key. by rewrite Hn, Ht.
  - by apply IH.
Qed.

Lemma page_of_is_page rest : is_page (page_of rest) rest.
Proof.
  exists (drop 2 rest). unfold page_of. destruct (drop 2 rest) as [|s l] eqn:Hd.
  - by rewrite app_nil_r.
  - cbn [lo_ResourceRecordSets]. split; [by rewrite <-Hd, take_drop|]. repeat (split; [done|]). split; [|done].
    by destruct rest.
Qed.

#[export] Instance laws : Route53Laws aws.
Proof.
  refine {| aws_sets := λ l _, l; aws_canonical := λ _, True |}.
  - intros l. by exists l.
  - intros options params l before rest sets Hs Hl Hstart. eexists _, l.
    split; [reflexivity|]. split; [reflexivity|]. unfold starts_at in Hstart.
    destruct (li_StartRecordName params) as [name|].
    + destruct Hstart as (_ & s & rest' & -> & Hn & Ht). unfold sets in *. subst l.
      rewrite <-Hn, <-Ht, from_token_app by done. apply page_of_is_page.
    + subst before. unfold sets in Hl. simpl in Hl. subst l. apply page_of_is_page.
  - intros options z s l _ _. eexists _, _. split; [reflexivity|]. simpl. reflexivity.
  - intros options z s l _ _. eexists _, _. split; [reflexivity|]. simpl. reflexivity.
  - intros l z. simpl. lia.
Defined.

Definition env (name : string) : string :=
  if bool_decide (name = "ROUTE53_MAX_RETRIES") then "5" else "".
Definition urls : GoURL := {| url_Parse := λ _, Err "no URL"; url_String := λ _, "" |}.
Existing Instances Samples.ascii_unicode urls.

(** An alias, an address record and two texts: two pages. *)
Definition zone : aws :=
  [mkSet (Some "alias.io.") "A" None [] true false;
   mkSet (Some "www.io.") "A" (Some 60) [Some "192.0.2.1"] false false;
   mkSet (Some "io.") "TXT" (Some 300) [Some (dquotes +:+ "text" +:+ dquotes)] false false].

Definition provider0 : Route53Provider := mkRoute53Provider None "" false 3.
Definition started : Route53Provider * aws := snd (route53_Init env "io." (provider0, zone)).

Lemma started_good : good53 started.
Proof.
  split; [split; [reflexivity|by eexists]|]. split.
  - eval_decide.
  - repeat constructor; discriminate.
Qed.

(** Start-up with keys and with an endpoint of its own. *)
Definition env_endpoint (name : string) : string :=
  if bool_decide (name = "AWS_ACCESS_KEY") then " key " else
  if bool_decide (name = "AWS_SECRET_KEY") then "secret" else
  if bool_decide (name = "ROUTE53_ENDPOINT_URL") then "https://aws.example" else env name.
Definition endpoint : URL := mkURL "https" "" None "aws.example" "" "" false "" "".
Definition endpoint_urls : GoURL :=
  {| url_Parse := λ _, Ok endpoint; url_String := λ _, "https://aws.example" |}.
Definition started_endpoint : Route53Provider * aws :=
  snd (route53_Init (H0:=endpoint_urls) env_endpoint "io." (provider0, zone)).

Lemma route53_Init_spec_witness :
  route53_Init (H0:=endpoint_urls) env_endpoint "io." (provider0, zone)
    = (Returns (Ok tt), started_endpoint) ∧
  r53_hostedZoneId (fst started_endpoint) = "Z1" ∧
  ∃ options, r53_client (fst started_endpoint) = Some options ∧
    ao_Credentials options = Some ("key", "secret", "") ∧ ao_Region options = "us-east-1" ∧
    ao_RetryMaxAttempts options = 6 ∧ URL_Host endpoint ≠ "" ∧ URL_User endpoint = None.
Proof.
  assert (route53_Init (H0:=endpoint_urls) env_endpoint "io." (provider0, zone)
    = (Returns (Ok tt), started_endpoint)) as Hr by (vm_compute; reflexivity).
  split; [exact Hr|]. split; [vm_compute; reflexivity|].
  destruct (route53_Init_spec (H0:=endpoint_urls) env_endpoint "io." _ _ _ Hr)
    as (options & _ & Ho & Hreg & Hcreds & Hret & Hend & _).
  exists options. split; [exact Ho|].
  split; [vm_compute in Ho; injection Ho as <-; reflexivity|]. split; [exact Hreg|].
  split; [destruct Hret as [_ Hret]; apply (Hret 5); [vm_compute; reflexivity|lia]|].
  destruct (ao_BaseEndpoint options) as [e|]; [|discriminate].
  destruct Hend as (_ & _ & parsed & Hp & _ & Hh & Hu & _). injection Hp as <-.
  split; [exact Hh|exact Hu].
Defined.

Lemma route53_GetRecords_complete_witness :
  ∃ w', GetRecords (Provider:=route53_Provider env) started = (Returns (Ok
    [mkDnsRecord "www.io." ["192.0.2.1"] "A" 60; mkDnsRecord "io." ["text"] "TXT" 300]), w').
Proof.
  assert (match fst (GetRecords (Provider:=route53_Provider env) started) with
          | Returns (Ok _) => True | _ => False end) as Hok by (vm_compute; exact I).
  destruct (route53_GetRecords_complete env started started_good) as [(res & w' & Hr & _ & Hres) _].
  rewrite Hr in Hok. destruct res as [recs|]; [|destruct Hok]. destruct Hres as [Hrecs _].
  exists w'. rewrite Hr, Hrecs. reflexivity.
Defined.

(** Adding an address record under the name of an alias replaces the alias. *)
Lemma route53_changes_witness :
  ∃ w', AddRecord (Provider:=route53_Provider env)
      (mkDnsRecord "alias.io." ["192.0.2.7"] "A" 300) started = (Returns (Ok tt), w') ∧
    sets w' ≡ₚ encode_record (mkDnsRecord "alias.io." ["192.0.2.7"] "A" 300) :: tail zone.
Proof.
  set (r := mkDnsRecord "alias.io." ["192.0.2.7"] "A" 300).
  destruct (route53_changes env r started started_good) as (_ & Hadd & _).
  destruct Hadd as (_ & res & w' & Hr & _ & Hres).
  { split; [discriminate|]. split; [reflexivity|exact I]. }
  assert (fst (AddRecord (Provider:=route53_Provider env) r started) = Returns (Ok tt)) as Hok
    by (vm_compute; reflexivity).
  rewrite Hr in Hok. injection Hok as ->. exists w'. split; [exact Hr|exact Hres].
Defined.

Lemma route53_published_witness :
  ∃ res w', UpdateProviderDnsRecords (H0:=route53_Provider env) Example_zone.cfg Example_zone.m
      Example_zone.D started = (Returns res, w') ∧ good53 w'.
Proof.
  edestruct (route53_published env Example_zone.cfg Example_zone.m Example_zone.D started)
    as (res & w' & Hr & Hg & _).
  - split; [exact (proj1 Example_zone.D_admissible)|].
    assert (map_Forall (λ _ d, Records (DnsRecord_ d) ≠ [] ∧ sendable (DnsRecord_ d) = true)
      Example_zone.D) as HD by eval_decide.
    intros k d Hk. destruct (HD k d Hk) as [Hne Hsend]. exact (conj Hne (conj Hsend I)).
  - split; [exact started_good|eval_decide].
  - exists res, w'. split; [exact Hr|exact Hg].
Defined.

(** A zone of a version without ownership records: of two address records, one
    ends in the domain of the environment. *)
Definition legacy_zone : aws :=
  [mkSet (Some "www.io.") "A" (Some 60) [Some "192.0.2.1"] false false;
   mkSet (Some "old.s.env.io.") "A" (Some (cfgTTL Example_zone.cfg)) [Some "192.0.2.9"] false false].
Definition legacy_started : Route53Provider * aws := (fst started, legacy_zone).

Lemma EnsureUpgradeToStateRRSet_spec_witness :
  ∃ w', EnsureUpgradeToStateRRSet (H0:=route53_Provider env) Example_zone.cfg Example_zone.m
      legacy_started = (Returns (Ok tt), w') ∧
    "old.s.env.io." ∈ owned (stateName Example_zone.cfg Example_zone.m) (zone53 w').
Proof.
  destruct (EnsureUpgradeToStateRRSet_spec (H0:=route53_Provider env) Example_zone.cfg
    Example_zone.m legacy_started) as (res & w' & Hr & _ & _ & Hres).
  - split; [split; [reflexivity|by eexists]|]. split; [eval_decide|].
    repeat constructor; discriminate.
  - assert (map_Forall (λ k _, bare (fst k) = true) (zone53 legacy_started)) as Hbare
      by eval_decide.
    intros entries Hne Hleg. apply StateRecord_storable53; [exact Hne| |exact I].
    intros x (_ & v & Hv & _)%Hleg. exact (Hbare _ _ Hv).
  - assert (fst (EnsureUpgradeToStateRRSet (H0:=route53_Provider env) Example_zone.cfg
      Example_zone.m legacy_started) = Returns (Ok tt)) as Hok by (vm_compute; reflexivity).
    rewrite Hr in Hok. injection Hok as ->. exists w'. split; [exact Hr|].
    assert (@Provider.zone _ _ (route53_contract env) legacy_started
      !! (stateName Example_zone.cfg Example_zone.m, "TXT") = None) as Hz
      by (vm_compute; reflexivity).
    rewrite Hz in Hres. apply (proj1 Hres). split; [vm_compute; reflexivity|].
    exists (rr_set (mkDnsRecord "old.s.env.io." ["192.0.2.9"] "A" (cfgTTL Example_zone.cfg))).
    split; vm_compute; reflexivity.
Defined.
End Example_aws.
