(* ===== verification/ServiceRun.v ===== *)
(** * The service over Route 53

    The loop of [src/main.go] with the provider that the program registers,
    [src/providers/route53/route53.go]: an environment with a service, a host
    and a control plane that cannot be reached, and Route 53 in memory beside a
    clock that the pauses of the loop move.  The provider meets what the
    progress of the loop asks of it ([works]): it refuses records without
    values, which the reconciler never sends. *)

From S2P Require Import Prelude GoStrings GoStrconv FastTemplate Utils Config GoNet GoHttp.
From S2P Require Import MetaTypes Samples MetaClient Metadata Provider Reconcile Sync PlatformApi.
From S2P Require Import Main Route53.
Local Open Scope Z_scope.

Module Example_service_run.
Import Example_environment Example_aws.

(** ** Route 53 beside a clock *)

Definition service : Type := Z * aws.

Definition beside {A} (p : prog aws A) : prog service A :=
  λ v, let '(r, l) := p (snd v) in (r, (fst v, l)).

Definition service_client : route53Client service := {|
  aws_LoadDefaultConfig := λ region creds, beside (aws_LoadDefaultConfig region creds);
  ChangeResourceRecordSets := λ o id action s, beside (ChangeResourceRecordSets o id action s);
  GetHostedZone := λ o id, beside (GetHostedZone o id);
  GetHostedZoneCount := λ o, beside (GetHostedZoneCount o);
  ListHostedZonesByName := λ o name n, beside (ListHostedZonesByName o name n);
  ListResourceRecordSets := λ o params, beside (ListResourceRecordSets o params);
  limiter_Wait := beside limiter_Wait;
  list_fuel := λ v, list_fuel (snd v);
|}.
Existing Instance service_client.

Definition service_laws : Route53Laws service.
Proof.
  refine {| aws_sets := λ v, aws_sets (snd v); aws_canonical := aws_canonical (V:=aws) |}.
  - intros [t l]. by exists (t, l).
  - intros o params [t l] before rest sets Hs Hl Hst.
    destruct (list_law o params l before rest Hs Hl Hst) as (res & l' & Hr & Ha & Hres).
    exists res, (t, l'). cbn [ListResourceRecordSets service_client]. unfold beside. cbn [snd fst].
    by rewrite Hr.
  - intros o z s [t l] Hc Hs. destruct (upsert_law o z s l Hc Hs) as (res & l' & Hr & Hres).
    exists res, (t, l'). cbn [ChangeResourceRecordSets service_client]. unfold beside.
    cbn [snd fst]. by rewrite Hr.
  - intros o z s [t l] Hk Hs. destruct (delete_law o z s l Hk Hs) as (res & l' & Hr & Hres).
    exists res, (t, l'). cbn [ChangeResourceRecordSets service_client]. unfold beside.
    cbn [snd fst]. by rewrite Hr.
  - intros [t l] z. exact (list_fuel_law (V:=aws) l z).
Defined.
Existing Instance service_laws.

Definition world : Type := Route53Provider * service.
Definition now (w : world) : Z := fst (snd w).

(** The calls of the provider take no time. *)
Definition keeps {A} (p : prog world A) : Prop := ∀ w r w', p w = (r, w') → now w' = now w.

Lemma keeps_ret {A} (a : A) : keeps (mret a).
Proof. by intros w r w' [= _ <-]. Qed.

Lemma keeps_beside {A} (p : prog aws A) : keeps (outer (beside p)).
Proof.
  intros [r0 [t l]] r w'. unfold outer, beside. cbn [fst snd]. destruct (p l). by intros [= _ <-].
Qed.

Lemma keeps_bind {A B} (p : prog world A) (k : A → prog world B) :
  keeps p → (∀ a, keeps (k a)) → keeps (p ≫= k).
Proof.
  intros Hp Hk w r w'. rewrite prog_bind_eq.
  destruct (p w) as [[a|e|e] w1] eqn:Hw; apply Hp in Hw; [|by intros [= _ <-]..].
  intros Hr%Hk. congruence.
Qed.

Lemma keeps_try {A B} f (p : prog world (result A)) (k : A → prog world (result B)) :
  keeps p → (∀ a, keeps (k a)) → keeps (try_bind f p k).
Proof.
  intros Hp Hk w r w'. rewrite try_bind_eq.
  destruct (p w) as [[[a|e]|e|e] w1] eqn:Hw; apply Hp in Hw; [|by intros [= _ <-]..].
  intros Hr%Hk. congruence.
Qed.

Lemma keeps_Wait : keeps (Wait (V:=service)).
Proof.
  intros w r w'. unfold Wait. destruct (r53_limiter _); [apply keeps_beside|by intros [= _ <-]].
Qed.

Lemma keeps_with_client {A} (k : AwsOptions → prog world A) :
  (∀ options, keeps (k options)) → keeps (with_client k).
Proof.
  intros Hk w r w'. unfold with_client. destruct (r53_client _); [apply Hk|by intros [= _ <-]].
Qed.

Lemma keeps_list fuel options params rrSets :
  keeps (list_pages (V:=service) fuel options params rrSets).
Proof.
  revert params rrSets. induction fuel as [|fuel IH]; intros params rrSets.
  { by intros w r w' [= _ <-]. }
  cbn [list_pages]. apply keeps_try; [apply keeps_beside|]. intros page.
  destruct (negb _); [apply keeps_ret|]. destruct (_ || _); [apply keeps_ret|].
  apply keeps_bind; [apply keeps_Wait|]. intros _. apply IH.
Qed.

Lemma keeps_GetRecords : keeps (route53_GetRecords (V:=service)).
Proof.
  unfold route53_GetRecords. apply keeps_bind; [apply keeps_Wait|intros _].
  apply keeps_with_client. intros options.
  apply keeps_bind; [by intros w r w' [= _ <-]|intros p].
  apply keeps_bind; [by intros w r w' [= _ <-]|intros fuel].
  apply keeps_try; [apply keeps_list|]. intros l. apply keeps_ret.
Qed.

Lemma keeps_changeRecord r action : keeps (changeRecord (V:=service) r action).
Proof.
  unfold changeRecord. destruct (_ =? _)%nat; [apply keeps_ret|].
  apply keeps_bind; [apply keeps_Wait|intros _]. apply keeps_with_client. intros options.
  apply keeps_bind; [by intros w r' w' [= _ <-]|intros p]. apply keeps_beside.
Qed.

(** ** The provider does its work *)

Instance service_provider : Provider world := route53_Provider env.
Instance service_contract : ProviderContract world := route53_contract env.

(** The provider is started, and no record set that it lists is empty. *)
Definition steady (w : world) : Prop :=
  good53 w ∧ map_Forall (λ _ v, rr_values v ≠ ∅) (zone53 w).

Lemma steady_list w : steady w → works now steady GetRecords w.
Proof.
  intros [Hg Hv]. destruct (GetRecords_sets w (proj1 Hg) (proj2 Hg)) as (res & w' & Hr & Hro & Hres).
  destruct Hres as [->|(e & _ & (o & params & v & v' & e' & Hl & _))].
  - eexists _, w'. split; [exact Hr|]. apply keeps_GetRecords in Hr as ->. split; [lia|].
    unfold steady, good53, zone53. by rewrite (read_only_sets w w' Hro), (proj1 Hro).
  - exfalso. cbn [ListResourceRecordSets service_client] in Hl. unfold beside in Hl. done.
Qed.

Lemma changeRecord_ok r action w res w' :
  ready53 (fst w) → Records r ≠ [] → changeRecord (V:=service) r action w = (Returns res, w') →
  res = Ok tt.
Proof.
  intros Hw Hr. destruct (changeRecord_run r action w Hw Hr) as (o & w1 & _ & ->).
  unfold outer. cbn [ChangeResourceRecordSets service_client]. by intros [= <- _].
Qed.

Lemma values_nonempty r : rr_values (rr_set r) ≠ ∅ ↔ Records r ≠ [].
Proof. cbn [rr_set rr_values]. destruct (Records r); [done|]. split; [done|set_solver]. Qed.

Lemma steady_change w r op call :
  steady w → op_ready op (Provider.zone w) r → op_call op r = Some call → works now steady call w.
Proof.
  intros [Hg Hv] Hop Hc.
  assert (storable53 r → works now steady (changeRecord r ActionUpsert) w) as Hups.
  { intros Hs. destruct (upsert_contract r w Hg Hs) as (res & w' & Hr & Hg' & Hz).
    pose proof (changeRecord_ok _ _ _ _ _ (proj1 Hg) (proj1 Hs) Hr) as ->.
    exists tt, w'. split; [exact Hr|]. apply keeps_changeRecord in Hr as ->. split; [lia|].
    split; [done|]. rewrite Hz. apply map_Forall_insert_2; [|done].
    apply values_nonempty, Hs. }
  destruct Hop as [(-> & Hs & _)|[(-> & Hs & _)|(-> & Hz)]]; injection Hc as <-; [by apply Hups..|].
  assert (Records r ≠ []) as Hne by (by apply values_nonempty, (Hv (rr_key r))).
  destruct (delete_contract r w Hg) as (res & w' & Hr & Hg' & Hz');
    [change (Provider.zone w !! rr_key r ≠ None); by rewrite Hz|].
  pose proof (changeRecord_ok _ _ _ _ _ (proj1 Hg) Hne Hr) as ->.
  exists tt, w'. split; [exact Hr|]. apply keeps_changeRecord in Hr as ->. split; [lia|].
  split; [done|]. rewrite Hz'. by apply map_Forall_delete.
Qed.

(** ** The environment *)

Definition metadata : Client world :=
  fixed_client world "1" (Samples.stack "Default" "uuid-2") services hosts.
Definition world_clock : Clock world := {|
  time_Now := λ w, (Returns (now w), w);
  time_Sleep := λ d '(p, (t, l)), (Returns tt, (p, (t + Z.max 0 d, l)));
|}.
Definition network : Transport world := λ _, mret (Err "no network").
Definition json : JsonMarshal ExternalDNSEvent := λ _, Ok "{}".
Existing Instances metadata world_clock network json.

Definition platform : PlatformAPIClient :=
  mkPlatformClient (mkURL "https" "" None "platform" "/v2-beta" "" false "" "")
    (mkOriginPolicy "https://platform:443") "key" "secret".

(** The zone: an alias, a record of somebody else, and what an earlier version
    of the environment published. *)
Definition zone0 : aws :=
  [mkSet (Some "example.com.") "A" None [] true false;
   mkSet (Some "www.example.com.") "A" (Some 60) [Some "192.0.2.1"] false false;
   mkSet (Some "external-dns-uuid-1.example.com.") "TXT" (Some 300)
     [Some (dquotes +:+ "old.shop.default.example.com." +:+ dquotes)] false false;
   mkSet (Some "old.shop.default.example.com.") "A" (Some 300) [Some "203.0.113.9"] false false].

Definition w0 : world :=
  (mkRoute53Provider (Some (mkAwsOptions "us-east-1" None 4 None)) "Z1" true 3, (0, zone0)).

(** The loop believes that the zone is as desired. *)
Definition st0 : loop_state :=
  mkLoop "1" 0 true desired (mkMetadataClient "Default" "uuid-1").

Lemma w0_steady : steady w0.
Proof.
  split; [split; [split; [reflexivity|by eexists]|]|eval_decide].
  split; [eval_decide|]. repeat constructor; discriminate.
Qed.

Lemma scan_yields_desired D :
  GetMetadataDnsRecords cfg m w0 = (Returns (m, Ok D), w0) → D = desired.
Proof.
  assert (fst (GetMetadataDnsRecords cfg m w0) = Returns (m, Ok desired)) as Hrun
    by (vm_compute; reflexivity).
  intros Hr. rewrite Hr in Hrun. cbn [fst] in Hrun. congruence.
Qed.

Lemma desired_storable : all_storable desired.
Proof.
  assert (map_Forall (λ _ d, Records (DnsRecord_ d) ≠ [] ∧ sendable (DnsRecord_ d) = true) desired)
    as HD by eval_decide.
  intros k d Hk. destruct (HD k d Hk) as [Hne Hsend]. exact (conj Hne (conj Hsend I)).
Qed.

(** After 61 iterations Route 53 holds what the scan desires: the addresses of
    the service and the ownership record. *)
Lemma polls_converge_witness :
  ∃ st' w', polls cfg platform 61 st0 w0 = (Returns st', w') ∧
    converged "external-dns-uuid-1.example.com." desired (zone53 w').
Proof.
  destruct (polls_converge cfg platform now "uuid-1" "1" (Samples.stack "Default" "uuid-2")
    services hosts) with (steady := steady) (st := st0) (w := w0) as (D & _ & Hmeta & Hpolls).
  - intros w. reflexivity.
  - intros w [Hg _]. exact Hg.
  - intros d [p [t l]]. eexists. split; [reflexivity|]. unfold quiet, now. cbn [fst snd].
    split; [split; [lia|split; [reflexivity|exact (λ H, H)]]|lia].
  - intros w. reflexivity.
  - intros w. reflexivity.
  - intros w. reflexivity.
  - intros u w. reflexivity.
  - by apply templates.
  - intros req w. eexists _, w. split; [reflexivity|]. split; [lia|]. by split.
  - exact steady_list.
  - exact steady_change.
  - split; [split; [exact w0_steady|eval_decide]|]. split; [reflexivity|]. unfold st0, now. simpl. lia.
  - rewrite (scan_yields_desired D (Hmeta w0)) in Hpolls.
    apply (Hpolls desired_storable 61%nat). lia.
Defined.
End Example_service_run.
