(* ===== verification/Cloudflare.v ===== *)
(** * The Cloudflare provider

    [src/providers/cloudflare/cloudflare.go], over the calls of the API client
    it uses.  The provider object is the first component of the world. *)

From S2P Require Import Prelude GoStrings GoStrconv FastTemplate Utils GoHttp Provider.
From S2P Require Import Samples Grouping Store.
Local Open Scope Z_scope.

(** ** The API *)

Record cf_Record := mkCfRecord {
  cf_ID : string;
  cf_Type : string;
  cf_Name : string;
  cf_Content : string;
  cf_TTL : Z;
  cf_ZoneID : string;
}.

Record cf_Zone := mkCfZone { cfz_ID : string; cfz_Name : string }.

(** [api.Options] *)
Record cf_Options := mkCfOptions { cf_Email : string; cf_Key : string }.

Class CloudflareApi (V : Type) := {
  cf_Zones_List : cf_Options → prog V (result (list cf_Zone));
  cf_Zones_Details : cf_Options → string → prog V (result unit);
  cf_Records_List : cf_Options → string → prog V (result (list cf_Record));
  cf_Records_Create : cf_Options → cf_Record → prog V (result unit);
  cf_Records_Delete : cf_Options → string → string → prog V (result unit);
}.

(** ** The provider *)

Record CloudflareProvider := mkCloudflare {
  cf_client : option cf_Options;
  cf_zone : option cf_Zone;
  cf_root : string;
}.

(** TTL must be between 120 and 86400 seconds *)
Definition sanitizeTTL (ttl : Z) : Z :=
  if ttl <? 120 then 120 else if 86400 <? ttl then 86400 else ttl.

Definition prepareRecord (zone : cf_Zone) (record : DnsRecord) : cf_Record :=
  mkCfRecord "" (Type_ record) (UnFqdn (Fqdn_ record)) "" (sanitizeTTL (TTL record)) (cfz_ID zone).

(** [r.Content = rec] *)
Definition set_Content (r : cf_Record) (content : string) : cf_Record :=
  mkCfRecord (cf_ID r) (cf_Type r) (cf_Name r) content (cf_TTL r) (cf_ZoneID r).

Definition cf_failed (err : error) : error := "CloudFlare API call has failed: " +:+ err.

(** What the listing loop reads of a record. *)
Definition cf_entry (rec : cf_Record) : entry :=
  mkEntry (Fqdn (cf_Name rec)) (cf_Type rec) (cf_Content rec) (cf_TTL rec).

(** The record is one of [record]'s. *)
Definition cf_matches (record : DnsRecord) (rec : cf_Record) : Prop :=
  cf_Name rec = UnFqdn (Fqdn_ record) ∧ cf_Type rec = Type_ record.
#[export] Instance cf_matches_dec record rec : Decision (cf_matches record rec).
Proof. unfold cf_matches. apply _. Defined.

Section cloudflare.
Context {V : Type} `{CloudflareApi V} (Getenv : string → string).

Notation W := (CloudflareProvider * V)%type.

(** [c.client] and [c.zone.ID] *)
Definition cf_call {A} (call : cf_Options → prog V A) : prog W A :=
  c ← get_state;
  deref (cf_client c) (λ options, outer (call options)).
Definition cf_with_zone {A} (k : cf_Zone → prog W A) : prog W A :=
  c ← get_state;
  deref (cf_zone c) k.

Definition cf_setZone : prog W (result unit) :=
  let! zones := cf_call cf_Zones_List wrap cf_failed in
  c ← get_state;
  match List.find (λ zone, bool_decide (cfz_Name zone = cf_root c)) zones with
  | Some zone =>
      modify_state (λ c, mkCloudflare (cf_client c) (Some zone) (cf_root c));;
      mret (Ok tt)
  | None =>
      if bool_decide (cf_zone c = None) then
        mret (Err ("Zone " +:+ cf_root c +:+ " does not exist"))
      else mret (Ok tt)
  end.

Definition cf_Init (rootDomainName : string) : prog W (result unit) :=
  with_env Getenv "CLOUDFLARE_EMAIL" (λ email,
  with_env Getenv "CLOUDFLARE_KEY" (λ apiKey,
    let root := UnFqdn rootDomainName in
    modify_state (λ c, mkCloudflare (Some (mkCfOptions email apiKey)) (cf_zone c) root);;
    let! _ := cf_setZone
      wrap (λ err, "Failed to set zone for root domain " +:+ root +:+ ": " +:+ err) in
    mret (Ok tt))).

Definition cf_HealthCheck : prog W (result unit) :=
  cf_with_zone (λ zone, cf_call (λ options, cf_Zones_Details options (cfz_ID zone))).

Definition cf_create (record : DnsRecord) (rec : string) : prog W (result unit) :=
  cf_with_zone (λ zone,
    let r := set_Content (prepareRecord zone record) rec in
    let! _ := cf_call (λ options, cf_Records_Create options r) wrap cf_failed in
    mret (Ok tt)).

Definition cf_AddRecord (record : DnsRecord) : prog W (result unit) :=
  each (Records record) (cf_create record).

Definition cf_findRecords (record : DnsRecord) : prog W (result (list cf_Record)) :=
  cf_with_zone (λ zone,
    let! result := cf_call (λ options, cf_Records_List options (cfz_ID zone)) wrap cf_failed in
    mret (Ok (filter (cf_matches record) result))).

Definition cf_delete (rec : cf_Record) : prog W (result unit) :=
  cf_with_zone (λ zone,
    let! _ := cf_call (λ options, cf_Records_Delete options (cfz_ID zone) (cf_ID rec))
      wrap cf_failed in
    mret (Ok tt)).

Definition cf_RemoveRecord (record : DnsRecord) : prog W (result unit) :=
  let! records := cf_findRecords record in
  each records cf_delete.

Definition cf_UpdateRecord (record : DnsRecord) : prog W (result unit) :=
  let! _ := cf_RemoveRecord record in
  cf_AddRecord record.

Definition cf_GetRecords : prog W (result (list DnsRecord)) :=
  cf_with_zone (λ zone,
    let! result := cf_call (λ options, cf_Records_List options (cfz_ID zone)) wrap cf_failed in
    mret (Ok (group (cf_entry <$> result)))).

Definition cloudflare_Provider : Provider W := {|
  Init := cf_Init;
  GetName := "CloudFlare";
  HealthCheck := cf_HealthCheck;
  AddRecord := cf_AddRecord;
  RemoveRecord := cf_RemoveRecord;
  UpdateRecord := cf_UpdateRecord;
  GetRecords := cf_GetRecords;
|}.
End cloudflare.

(** ** The documented behaviour of the API

    The records of a zone, with distinct identifiers; a failed call has no
    effect. *)
Class CloudflareLaws (V : Type) `{CloudflareApi V} := {
  cf_records : V → string → list cf_Record;
  cf_list_law options zone v :
    ∃ res v', cf_Records_List options zone v = (Returns res, v') ∧ cf_records v' = cf_records v ∧
      match res with Ok l => l ≡ₚ cf_records v zone | Err _ => True end;
  cf_create_law options r v : ∃ res v', cf_Records_Create options r v = (Returns res, v') ∧
    match res with
    | Ok _ => ∃ r', cf_Name r' = cf_Name r ∧ cf_Type r' = cf_Type r ∧
        cf_Content r' = cf_Content r ∧ cf_TTL r' = cf_TTL r ∧
        (cf_ID r' ∉ cf_ID <$> cf_records v (cf_ZoneID r)) ∧
        cf_records v' (cf_ZoneID r) ≡ₚ r' :: cf_records v (cf_ZoneID r)
    | Err _ => cf_records v' = cf_records v
    end;
  cf_delete_law options zone r l v :
    cf_records v zone ≡ₚ r :: l → NoDup (cf_ID <$> cf_records v zone) →
    ∃ res v', cf_Records_Delete options zone (cf_ID r) v = (Returns res, v') ∧
      match res with
      | Ok _ => cf_records v' zone ≡ₚ l
      | Err _ => cf_records v' = cf_records v
      end;
}.

(** ** Properties *)

Section facts.
Context {V : Type} `{CloudflareLaws V} (Getenv : string → string).
Notation W := (CloudflareProvider * V)%type.

(** The records of the zone of the provider. *)
Definition cf_store (w : W) : list cf_Record :=
  match cf_zone (fst w) with Some zone => cf_records (snd w) (cfz_ID zone) | None => [] end.

#[local] Instance cf_ValueStore : ValueStore W cf_Record := {|
  vs_store := cf_store;
  vs_good w := is_Some (cf_client (fst w)) ∧ is_Some (cf_zone (fst w)) ∧
    NoDup (cf_ID <$> cf_store w);
  vs_value := cf_Content;
|}.

(** A call on a provider that is set up. *)
Lemma cf_call_eq {A} (call : cf_Options → prog V A) c v o :
  cf_client c = Some o → cf_call call (c, v) = (let '(r, v') := call o v in (r, (c, v'))).
Proof. intros Ho. unfold cf_call, deref. rewrite prog_bind_eq. simpl. by rewrite Ho. Qed.

Lemma cf_with_zone_eq {A} (k : cf_Zone → prog W A) c v z :
  cf_zone c = Some z → cf_with_zone k (c, v) = k z (c, v).
Proof. intros Hz. unfold cf_with_zone, deref. rewrite prog_bind_eq. simpl. by rewrite Hz. Qed.

Lemma cf_find_ok record : find_law (cf_matches record) (cf_findRecords record).
Proof.
  intros [c v] Hg. hnf in Hg. destruct Hg as ([o Ho] & [z Hz] & Hnd). simpl in *.
  destruct (cf_list_law o (cfz_ID z) v) as (res & v' & Hl & Hs & Hres).
  unfold runs, cf_findRecords. rewrite (cf_with_zone_eq _ _ _ z) by done.
  rewrite try_bind_eq, (cf_call_eq _ _ _ o) by done. rewrite Hl.
  assert (cf_store (c, v') = cf_store (c, v)) as Hst
    by (unfold cf_store; simpl; rewrite Hz; by rewrite Hs).
  assert (vs_good (c, v')) as Hg by (simpl; rewrite Hst; eauto).
  destruct res as [l|e]; eexists _, _; (split; [done|]); (split; [done|]); simpl; [|by rewrite Hst].
  rewrite Hst. split; [done|]. unfold ours. simpl. unfold cf_store. simpl. rewrite Hz. by rewrite Hres.
Qed.

Lemma cf_delete_ok : delete_law cf_delete.
Proof.
  intros [c v] x l ([o Ho] & [z Hz] & Hnd) Hx. simpl in *.
  assert (∀ v, cf_store (c, v) = cf_records v (cfz_ID z)) as Hst
    by (intros; unfold cf_store; simpl; by rewrite Hz).
  rewrite Hst in Hnd, Hx.
  destruct (cf_delete_law o (cfz_ID z) x l v Hx Hnd) as (res & v' & Hl & Hres).
  unfold runs, cf_delete. rewrite (cf_with_zone_eq _ _ _ z) by done.
  rewrite try_bind_eq, (cf_call_eq _ _ _ o) by done. rewrite Hl. simpl. rewrite !Hst.
  destruct res as [u|e]; eexists _, _; (split; [done|]); simpl; rewrite ?Hst, Hres.
  - split; [|done]. split; [eauto|]. split; [eauto|].
    rewrite Hx, fmap_cons in Hnd. apply list.NoDup_cons in Hnd as [_ Hnd]. exact Hnd.
  - split; [eauto|done].
Qed.

(** A record that is created for [record]. *)
Definition cf_made (record : DnsRecord) (rec : cf_Record) : Prop :=
  cf_matches record rec ∧ cf_TTL rec = sanitizeTTL (TTL record).

Lemma cf_create_ok record : create_law (cf_made record) (cf_create record).
Proof.
  intros [c v] value ([o Ho] & [z Hz] & Hnd). simpl in *.
  assert (∀ v, cf_store (c, v) = cf_records v (cfz_ID z)) as Hst
    by (intros; unfold cf_store; simpl; by rewrite Hz).
  rewrite Hst in Hnd.
  destruct (cf_create_law o (set_Content (prepareRecord z record) value) v) as (res & v' & Hl & Hres).
  unfold runs, cf_create. rewrite (cf_with_zone_eq _ _ _ z) by done.
  rewrite try_bind_eq, (cf_call_eq _ _ _ o) by done. rewrite Hl. simpl. simpl in Hres.
  destruct res as [u|e]; eexists _, _; (split; [done|]); simpl; rewrite !Hst.
  - destruct Hres as (r' & Hn & Ht & Hc & Httl & Hid & Hs). rewrite Hs. split.
    + split; [eauto|]. split; [eauto|]. rewrite fmap_cons. by constructor.
    + exists r'. done.
  - rewrite Hres. eauto.
Qed.

(** [C16] Replacing a record set at Cloudflare.  Over an API that keeps its
    word, an update returns; if it succeeds, the name and type have exactly one
    record for every given value, with the TTL asked for, moved into the range
    from 120 to 86400, and all other records of the zone are as before; if it
    fails half-way, nothing else changed either, and the record
    set holds some of the old records or some of the new ones, never both. *)
Theorem cloudflare_UpdateRecord_replaces (record : DnsRecord) (w : W) :
  vs_good w →
  runs (UpdateRecord (Provider:=cloudflare_Provider Getenv) record) w
    (λ _ w', replaced (cf_matches record) (cf_made record) (Records record) w w')
    (half_replaced (cf_matches record) (cf_made record) (Records record) w) ∧
  (∀ rec, cf_made record rec → 120 ≤ cf_TTL rec ≤ 86400 ∧
     (120 ≤ TTL record ≤ 86400 → cf_TTL rec = TTL record)).
Proof.
  intros Hw. split.
  - apply (replace_effect (cf_matches record) (cf_made record));
      [by intros rec []|apply cf_find_ok|apply cf_delete_ok|apply cf_create_ok|done].
  - intros rec [_ ->]. unfold sanitizeTTL.
    destruct (Z.ltb_spec (TTL record) 120), (Z.ltb_spec 86400 (TTL record)); lia.
Qed.
End facts.

(** ** An API in memory *)
Module Example_cloudflare.

(** One zone, the identifiers of its records chosen by the service. *)
Definition api : Type := list cf_Record.

#[export] Instance calls : CloudflareApi api := {|
  cf_Zones_List := λ _, mret (Ok [mkCfZone "z2" "other.org"; mkCfZone "z1" "io"]);
  cf_Zones_Details := λ _ _, mret (Ok tt);
  cf_Records_List := λ _ _ l, (Returns (Ok l), l);
  cf_Records_Create := λ _ r l,
    (Returns (Ok tt),
     mkCfRecord (Samples.fresh_name (cf_ID <$> l)) (cf_Type r) (cf_Name r) (cf_Content r)
       (cf_TTL r) (cf_ZoneID r) :: l);
  cf_Records_Delete := λ _ _ id l, (Returns (Ok tt), filter (λ r, cf_ID r ≠ id) l);
|}.

#[export] Instance laws : CloudflareLaws api.
Proof.
  refine {| cf_records := λ l _, l |}.
  - intros options zone l. by eexists _, l.
  - intros options r l. eexists _, _. split; [reflexivity|]. simpl.
    exists (mkCfRecord (Samples.fresh_name (cf_ID <$> l)) (cf_Type r) (cf_Name r) (cf_Content r)
      (cf_TTL r) (cf_ZoneID r)). do 4 (split; [reflexivity|]). split; [apply Samples.fresh_name_fresh|reflexivity].
  - intros options zone r l v Hl Hnd. eexists _, _. split; [reflexivity|]. simpl.
    rewrite Hl in Hnd |- *. rewrite fmap_cons in Hnd. apply list.NoDup_cons in Hnd as [Hr _].
    rewrite filter_cons, decide_False by naive_solver.
    rewrite filter_all; [done|]. apply list.Forall_forall. intros r' Hr' Heq. apply Hr.
    rewrite <-Heq. by apply list_elem_of_fmap_2.
Defined.

Definition env (name : string) : string := "set".
Definition zone0 : api :=
  [mkCfRecord "1" "A" "www.io" "192.0.2.1" 300 "z1"; mkCfRecord "2" "A" "www.io" "192.0.2.2" 300 "z1";
   mkCfRecord "3" "TXT" "www.io" "text" 300 "z1"].
Definition started : CloudflareProvider * api :=
  snd (cf_Init env "io." (mkCloudflare None None "", zone0)).

Lemma cloudflare_UpdateRecord_replaces_witness :
  ∃ w', UpdateRecord (Provider:=cloudflare_Provider env)
      (mkDnsRecord "www.io." ["192.0.2.9"] "A" 60) started = (Returns (Ok tt), w') ∧
    (λ rec, (cf_Content rec, cf_TTL rec)) <$>
      ours (H:=cf_ValueStore) (cf_matches (mkDnsRecord "www.io." ["192.0.2.9"] "A" 60)) w'
      ≡ₚ [("192.0.2.9", 120)].
Proof.
  set (r := mkDnsRecord "www.io." ["192.0.2.9"] "A" 60).
  destruct (cloudflare_UpdateRecord_replaces env r started) as [(res & w' & Hr & _ & Hres) _].
  - split; [by eexists|]. split; [by eexists|]. eval_decide.
  - assert (fst (UpdateRecord (Provider:=cloudflare_Provider env) r started) = Returns (Ok tt))
      as Hok by (vm_compute; reflexivity).
    rewrite Hr in Hok. injection Hok as ->. exists w'. split; [exact Hr|].
    destruct Hres as (_ & new & Hours & Hmade & Hnew).
    fold r. etransitivity; [apply fmap_Permutation; exact Hours|]. clear Hours. destruct new as [|rec [|? ?]]; [done| |done].
    apply list.Forall_cons in Hmade as [[_ Httl] _]. injection Hnew as Hc.
    simpl in *. by rewrite Hc, Httl.
Defined.

(** The TXT record comes last under its name, so the listing gives the address
    records TTL 0. *)
Example listed_ttls :
  (λ r, (Type_ r, TTL r)) <$>
    group (cf_entry <$> zone0) ≡ₚ [("A", 0); ("TXT", 300)].
Proof. eval_decide. Qed.
End Example_cloudflare.
