(* ===== verification/DNSimple.v ===== *)
(** * The DNSimple provider

    [src/providers/dnsimple/dnsimple.go], over the calls of the API client it
    uses.  The provider object is the first component of the world. *)

From S2P Require Import Prelude GoStrings GoStrconv FastTemplate Utils GoHttp Provider.
From S2P Require Import Grouping Store.
Local Open Scope Z_scope.

(** ** The API *)

Record ds_Record := mkDsRecord {
  ds_ID : Z;
  ds_Name : string;
  ds_Content : string;
  ds_TTL : Z;
  ds_Type : string;
}.

(** [dnsimple.ZoneRecordAttributes] *)
Record ds_Attributes := mkDsAttributes {
  dsa_Name : string;
  dsa_TTL : Z;
  dsa_Type : string;
  dsa_Content : string;
}.

(** The calls take the token, and those about a zone the account and the name
    of the zone.  A listing without options is the first page of the listing.
    [ds_Whoami] yields the identifier of the account, if there is one. *)
Class DNSimpleApi (V : Type) := {
  ds_Whoami : string → prog V (result (option Z));
  ds_GetZone : string → string → string → prog V (result unit);
  ds_ListRecords : string → string → string → prog V (result (list ds_Record));
  ds_CreateRecord : string → string → string → ds_Attributes → prog V (result unit);
  ds_DeleteRecord : string → string → string → Z → prog V (result unit);
  ds_limiter_Wait : prog V unit;
}.

(** ** The provider *)

Record DNSimpleProvider := mkDNSimple {
  ds_client : option string;
  ds_accountID : string;
  ds_root : string;
  ds_limiter : bool;
}.

(** The name of a record relative to the zone, as several providers compute it:
    a name outside the zone, and the zone's own, is left as it is. *)
Definition relative_name (root fqdn : string) : string := TrimSuffix fqdn ("." +:+ root +:+ ".").

(** The full name of a record of the zone. *)
Definition full_name (root name : string) : string :=
  if bool_decide (name = "") then root +:+ "." else name +:+ "." +:+ root +:+ ".".

Definition ds_parseName (d : DNSimpleProvider) (record : DnsRecord) : string :=
  relative_name (ds_root d) (Fqdn_ record).

Definition ds_failed (err : error) : error := "DNSimple API call has failed: " +:+ err.

Definition ds_entry (root : string) (zoneRecord : ds_Record) : entry :=
  mkEntry (full_name root (ds_Name zoneRecord)) (ds_Type zoneRecord) (ds_Content zoneRecord)
    (ds_TTL zoneRecord).

Definition ds_matches (name type : string) (zoneRecord : ds_Record) : Prop :=
  ds_Name zoneRecord = name ∧ ds_Type zoneRecord = type.
#[export] Instance ds_matches_dec name type r : Decision (ds_matches name type r).
Proof. unfold ds_matches. apply _. Defined.

Section dnsimple.
Context {V : Type} `{DNSimpleApi V} (Getenv : string → string).

Notation W := (DNSimpleProvider * V)%type.

(** [d.limiter.Wait(1)] and then a call with [d.client]. *)
Definition ds_Wait : prog W unit :=
  d ← get_state;
  if ds_limiter d then outer ds_limiter_Wait else lift (Panics nil_dereference).
Definition ds_call {A} (call : string → prog V A) : prog W A :=
  d ← get_state;
  deref (ds_client d) (λ token, outer (call token)).

Definition ds_Init (rootDomainName : string) : prog W (result unit) :=
  if negb (bool_decide (Getenv "DNSIMPLE_EMAIL" = "")) then
    mret (Err "DNSimple API v2 requires an account identifier and the new OAuth token. Please upgrade your configuration.")
  else
    with_env Getenv "DNSIMPLE_TOKEN" (λ oauthToken,
      let root := UnFqdn rootDomainName in
      modify_state (λ d, mkDNSimple (Some oauthToken) (ds_accountID d) root true);;
      let! account := ds_call ds_Whoami
        wrap (λ err, "DNSimple Authentication failed: " +:+ err) in
      match account with
      | None => mret (Err "DNSimple User tokens are not supported, use an Account token")
      | Some id =>
          modify_state (λ d, mkDNSimple (ds_client d) (FormatInt id) (ds_root d) (ds_limiter d));;
          let! _ := ds_call (λ token, ds_GetZone token (FormatInt id) root)
            wrap (λ err, "Failed to get zone for '" +:+ root +:+ "': " +:+ err) in
          mret (Ok tt)
      end).

Definition ds_HealthCheck : prog W (result unit) :=
  ds_Wait;;
  let! _ := ds_call ds_Whoami in
  mret (Ok tt).

Definition ds_create (record : DnsRecord) (rec : string) : prog W (result unit) :=
  d ← get_state;
  let recordInput := mkDsAttributes (ds_parseName d record) (TTL record) (Type_ record) rec in
  ds_Wait;;
  let! _ := ds_call (λ token, ds_CreateRecord token (ds_accountID d) (ds_root d) recordInput)
    wrap ds_failed in
  mret (Ok tt).

Definition ds_AddRecord (record : DnsRecord) : prog W (result unit) :=
  each (Records record) (ds_create record).

Definition ds_list : prog W (result (list ds_Record)) :=
  d ← get_state;
  ds_Wait;;
  let! data := ds_call (λ token, ds_ListRecords token (ds_accountID d) (ds_root d))
    wrap ds_failed in
  mret (Ok data).

Definition ds_findRecords (record : DnsRecord) : prog W (result (list ds_Record)) :=
  d ← get_state;
  let! data := ds_list in
  mret (Ok (filter (ds_matches (ds_parseName d record) (Type_ record)) data)).

Definition ds_delete (zoneRecord : ds_Record) : prog W (result unit) :=
  d ← get_state;
  ds_Wait;;
  let! _ := ds_call (λ token, ds_DeleteRecord token (ds_accountID d) (ds_root d) (ds_ID zoneRecord))
    wrap ds_failed in
  mret (Ok tt).

Definition ds_RemoveRecord (record : DnsRecord) : prog W (result unit) :=
  let! zoneRecords := ds_findRecords record in
  each zoneRecords ds_delete.

Definition ds_UpdateRecord (record : DnsRecord) : prog W (result unit) :=
  let! _ := ds_RemoveRecord record in
  ds_AddRecord record.

Definition ds_GetRecords : prog W (result (list DnsRecord)) :=
  d ← get_state;
  let! data := ds_list in
  mret (Ok (group (ds_entry (ds_root d) <$> data))).

Definition dnsimple_Provider : Provider W := {|
  Init := ds_Init;
  GetName := "DNSimple";
  HealthCheck := ds_HealthCheck;
  AddRecord := ds_AddRecord;
  RemoveRecord := ds_RemoveRecord;
  UpdateRecord := ds_UpdateRecord;
  GetRecords := ds_GetRecords;
|}.
End dnsimple.

(** ** Names *)

(** A suffix is not longer than the text. *)
Lemma HasSuffix_length s x : HasSuffix s x = true → (String.length x ≤ String.length s)%nat.
Proof. intros [t ->]%HasSuffix_spec. rewrite str_length_app. lia. Qed.

(** [C39] Names at DNSimple, OVH and PointHQ.  A name below the zone is sent
    relative to it and comes back as the same full name, and every name of the
    zone's records is the relative form of its full name, with one exception:
    the full name of the zone itself is not shortened.  So the records of the
    zone's own name are listed but not found again where a removal looks for
    the relative name, which is so at DNSimple and at OVH; PointHQ uses the
    relative name only to create records. *)
Theorem relative_name_roundtrip (root : string) :
  (∀ name, name ≠ "" → relative_name root (name +:+ "." +:+ root +:+ ".") = name ∧
     full_name root (relative_name root (name +:+ "." +:+ root +:+ "."))
       = name +:+ "." +:+ root +:+ ".") ∧
  (∀ name, name ≠ "" → relative_name root (full_name root name) = name) ∧
  relative_name root (full_name root "") = full_name root "" ∧ full_name root "" ≠ "".
Proof.
  assert (∀ name, relative_name root (name +:+ "." +:+ root +:+ ".") = name) as Hrel
    by (intros; apply TrimSuffix_app).
  split; [|split].
  - intros name Hn. split; [apply Hrel|]. rewrite Hrel. unfold full_name.
    by rewrite bool_decide_eq_false_2.
  - intros name Hn. unfold full_name. rewrite bool_decide_eq_false_2 by done. apply Hrel.
  - unfold relative_name, full_name. rewrite bool_decide_eq_true_2 by done.
    split; [|by destruct root].
    apply TrimSuffix_id. destruct (HasSuffix _ _) eqn:Hs; [|done].
    apply HasSuffix_length in Hs. rewrite !str_length_app in Hs. cbn in Hs. lia.
Qed.
