(* ===== verification/OVH.v ===== *)
(** * The OVH provider

    [src/providers/ovh/ovh.go], over the HTTP methods of the OVH client.  The
    provider object is the first component of the world. *)

From S2P Require Import Prelude GoStrings GoStrconv FastTemplate Utils GoHttp Provider.
From S2P Require Import Samples Grouping Store DNSimple.
Local Open Scope Z_scope.

(** ** The API *)

Record ovh_Record := mkOvhRecord {
  ovh_Target : string;
  ovh_TTL : Z;
  ovh_Zone : string;
  ovh_FieldType : string;
  ovh_ID : Z;
  ovh_SubDomain : string;
}.

(** The body of a creation: a JSON object of four fields. *)
Record ovh_Body := mkOvhBody {
  body_fieldType : string;
  body_subDomain : string;
  body_ttl : Z;
  body_target : string;
}.

(** [api.NewClient] and the requests, by the type of their answer.  A request
    takes the client and a path.  [ovh_Show] is the verb [%v] on a body. *)
Class OvhApi (V : Type) := {
  ovh_Client : Type;
  ovh_NewClient : string → string → string → string → prog V (result ovh_Client);
  ovh_GetNames : ovh_Client → string → prog V (result (list string));
  ovh_GetIDs : ovh_Client → string → prog V (result (list Z));
  ovh_GetRecord : ovh_Client → string → prog V (result ovh_Record);
  ovh_GetAny : ovh_Client → string → prog V (result unit);
  ovh_Post : ovh_Client → string → option ovh_Body → prog V (result unit);
  ovh_Delete : ovh_Client → string → prog V (result unit);
  ovh_Show : ovh_Body → string;
}.

(** ** The provider *)

Section ovh.
Context {V : Type} `{OvhApi V} (Getenv : string → string).

Record OVHProvider := mkOVH { ovh_client : option ovh_Client; ovh_root : string }.

Notation W := (OVHProvider * V)%type.

Definition ovh_call {A} (call : ovh_Client → prog V A) : prog W A :=
  d ← get_state;
  deref (ovh_client d) (λ client, outer (call client)).

Definition ovh_Init (rootDomainName : string) : prog W (result unit) :=
  with_env Getenv "OVH_ENDPOINT" (λ endpoint,
  with_env Getenv "OVH_APPLICATION_KEY" (λ applicationKey,
  with_env Getenv "OVH_APPLICATION_SECRET" (λ applicationSecret,
  with_env Getenv "OVH_CONSUMER_KEY" (λ consumerKey,
    let root := UnFqdn rootDomainName in
    modify_state (λ d, mkOVH (ovh_client d) root);;
    let! client := outer (ovh_NewClient endpoint applicationKey applicationSecret consumerKey)
      wrap (λ err, "Failed to create OVH client: " +:+ err) in
    modify_state (λ d, mkOVH (Some client) (ovh_root d));;
    let! zones := ovh_call (λ client, ovh_GetNames client "/domain/zone")
      wrap (λ err, "Failed to list hosted zones: " +:+ err) in
    if negb (bool_decide (root ∈ zones)) then
      mret (Err ("Zone for '" +:+ root +:+ "' not found"))
    else mret (Ok tt))))).

Definition ovh_HealthCheck : prog W (result unit) := ovh_call (λ client, ovh_GetAny client "/me").

Definition ovh_parseName (d : OVHProvider) (record : DnsRecord) : string :=
  relative_name (ovh_root d) (Fqdn_ record).

Definition ovh_recordsURL (root : string) : string := "/domain/zone/" +:+ root +:+ "/record".
Definition ovh_recordURL (root : string) (recID : Z) : string :=
  "/domain/zone/" +:+ root +:+ "/record/" +:+ FormatInt recID.

(** [GET] of an URL, with the error text that all listings use. *)
Definition ovh_get {A} (call : ovh_Client → string → prog V (result A)) (url : string)
    : prog W (result A) :=
  let! a := ovh_call (λ client, call client url)
    wrap (λ err, "OVH API call `GET " +:+ url +:+ "` has failed: " +:+ err) in
  mret (Ok a).

(** The loop that reads the records of a list of identifiers. *)
Fixpoint ovh_fetch (root : string) (recIDs : list Z) (records : list ovh_Record)
    : prog W (result (list ovh_Record)) :=
  match recIDs with
  | [] => mret (Ok records)
  | recID :: recIDs =>
      let! rec := ovh_get ovh_GetRecord (ovh_recordURL root recID) in
      ovh_fetch root recIDs (records ++ [rec])
  end.

(** The identifiers of the zone's records and then the records. *)
Definition ovh_records : prog W (result (list ovh_Record)) :=
  d ← get_state;
  let! recIDs := ovh_get ovh_GetIDs (ovh_recordsURL (ovh_root d)) in
  ovh_fetch (ovh_root d) recIDs [].

Definition ovh_matches (name type : string) (rec : ovh_Record) : Prop :=
  ovh_SubDomain rec = name ∧ ovh_FieldType rec = type.
#[export] Instance ovh_matches_dec name type rec : Decision (ovh_matches name type rec).
Proof. unfold ovh_matches. apply _. Defined.

Definition ovh_FindRecords (record : DnsRecord) : prog W (result (list ovh_Record)) :=
  d ← get_state;
  let! records := ovh_records in
  mret (Ok (filter (ovh_matches (ovh_parseName d record) (Type_ record)) records)).

Definition ovh_prepareRecord (root rec tp fqdn : string) (ttl : Z) : string * ovh_Body :=
  (ovh_recordsURL root, mkOvhBody tp (relative_name root fqdn) ttl rec).

(** The result of [refreshZone] is not used by its callers. *)
Definition ovh_refreshZone : prog W (result unit) :=
  d ← get_state;
  let url := "/domain/zone/" +:+ ovh_root d +:+ "/refresh" in
  let! _ := ovh_call (λ client, ovh_Post client url None)
    wrap (λ err, "OVH API call `POST " +:+ url +:+ "` has failed: " +:+ err) in
  mret (Ok tt).

Definition ovh_create (record : DnsRecord) (rec : string) : prog W (result unit) :=
  d ← get_state;
  let '(url, body) := ovh_prepareRecord (ovh_root d) rec (Type_ record) (Fqdn_ record) (TTL record) in
  let! _ := ovh_call (λ client, ovh_Post client url (Some body))
    wrap (λ err, "OVH API call `POST " +:+ url +:+ "` with body `" +:+ ovh_Show body
                 +:+ "` has failed: " +:+ err) in
  mret (Ok tt).

Definition ovh_AddRecord (record : DnsRecord) : prog W (result unit) :=
  let! _ := each (Records record) (ovh_create record) in
  ovh_refreshZone;;
  mret (Ok tt).

Definition ovh_delete (rec : ovh_Record) : prog W (result unit) :=
  d ← get_state;
  let urlRecord := ovh_recordURL (ovh_root d) (ovh_ID rec) in
  let! _ := ovh_call (λ client, ovh_Delete client urlRecord)
    wrap (λ err, "OVH API call `DELETE " +:+ urlRecord +:+ "` has failed: " +:+ err) in
  mret (Ok tt).

Definition ovh_RemoveRecord (record : DnsRecord) : prog W (result unit) :=
  let! records := ovh_FindRecords record in
  let! _ := each records ovh_delete in
  ovh_refreshZone;;
  mret (Ok tt).

Definition ovh_UpdateRecord (record : DnsRecord) : prog W (result unit) :=
  let! _ := ovh_RemoveRecord record in
  ovh_AddRecord record.

(** The zone is the one the record names. *)
Definition ovh_entry (rec : ovh_Record) : entry :=
  mkEntry (full_name (ovh_Zone rec) (ovh_SubDomain rec)) (ovh_FieldType rec) (ovh_Target rec)
    (ovh_TTL rec).

Definition ovh_GetRecords : prog W (result (list DnsRecord)) :=
  let! records := ovh_records in
  mret (Ok (group (ovh_entry <$> records))).

Definition ovh_Provider : Provider W := {|
  Init := ovh_Init;
  GetName := "OVH";
  HealthCheck := ovh_HealthCheck;
  AddRecord := ovh_AddRecord;
  RemoveRecord := ovh_RemoveRecord;
  UpdateRecord := ovh_UpdateRecord;
  GetRecords := ovh_GetRecords;
|}.
End ovh.

(** ** The documented behaviour of the service

    A zone has the records that the calls read and change, and the records
    that the name servers serve: changes are served after a refresh.
    Identifiers are numbers that are not negative, one for each record; a call
    that fails changes nothing. *)
Definition ovh_wf (l : list ovh_Record) : Prop :=
  NoDup (ovh_ID <$> l) ∧ Forall (λ x, 0 ≤ ovh_ID x) l.
#[export] Instance ovh_wf_perm : Proper (Permutation ==> iff) ovh_wf.
Proof. intros l l' Hl. unfold ovh_wf. by rewrite Hl. Qed.

Class OvhLaws (V : Type) `{OvhApi V} := {
  ovh_staged : V → string → list ovh_Record;
  ovh_served : V → string → list ovh_Record;
  ovh_ids_law client root v :
    ∃ res v', ovh_GetIDs client (ovh_recordsURL root) v = (Returns res, v') ∧
      ovh_staged v' = ovh_staged v ∧ ovh_served v' = ovh_served v ∧
      match res with Ok ids => ids ≡ₚ ovh_ID <$> ovh_staged v root | Err _ => True end;
  ovh_get_law client root x v :
    x ∈ ovh_staged v root → ovh_wf (ovh_staged v root) →
    ∃ res v', ovh_GetRecord client (ovh_recordURL root (ovh_ID x)) v = (Returns res, v') ∧
      ovh_staged v' = ovh_staged v ∧ ovh_served v' = ovh_served v ∧
      match res with Ok y => y = x | Err _ => True end;
  ovh_post_law client root body v :
    ∃ res v', ovh_Post client (ovh_recordsURL root) (Some body) v = (Returns res, v') ∧
      ovh_served v' = ovh_served v ∧
      match res with
      | Ok _ => ∃ id, 0 ≤ id ∧ (id ∉ ovh_ID <$> ovh_staged v root) ∧ ovh_staged v' root ≡ₚ
          mkOvhRecord (body_target body) (body_ttl body) root (body_fieldType body) id
            (body_subDomain body) :: ovh_staged v root
      | Err _ => ovh_staged v' = ovh_staged v
      end;
  ovh_refresh_law client root v :
    ∃ res v', ovh_Post client ("/domain/zone/" +:+ root +:+ "/refresh") None v = (Returns res, v') ∧
      ovh_staged v' = ovh_staged v ∧
      match res with
      | Ok _ => ovh_served v' root = ovh_staged v root
      | Err _ => ovh_served v' = ovh_served v
      end;
  ovh_delete_law client root x l v :
    ovh_staged v root ≡ₚ x :: l → ovh_wf (ovh_staged v root) →
    ∃ res v', ovh_Delete client (ovh_recordURL root (ovh_ID x)) v = (Returns res, v') ∧
      ovh_served v' = ovh_served v ∧
      match res with
      | Ok _ => ovh_staged v' root ≡ₚ l
      | Err _ => ovh_staged v' = ovh_staged v
      end;
}.

(** ** Properties *)

(** *** Where errors come from

    Every error that a change reports is the one of a request for the list of
    identifiers, for a record, for a deletion or for a creation, that failed.
    A request for a refresh, a [POST] without a body, is not among them. *)
Section errors.
Context {V : Type} `{OvhApi V}.

Inductive ovh_failure : error → Prop :=
  | failed_ids client url v v' e :
      ovh_GetIDs client url v = (Returns (Err e), v') →
      ovh_failure ("OVH API call `GET " +:+ url +:+ "` has failed: " +:+ e)
  | failed_record client url v v' e :
      ovh_GetRecord client url v = (Returns (Err e), v') →
      ovh_failure ("OVH API call `GET " +:+ url +:+ "` has failed: " +:+ e)
  | failed_delete client url v v' e :
      ovh_Delete client url v = (Returns (Err e), v') →
      ovh_failure ("OVH API call `DELETE " +:+ url +:+ "` has failed: " +:+ e)
  | failed_create client url body v v' e :
      ovh_Post client url (Some body) v = (Returns (Err e), v') →
      ovh_failure ("OVH API call `POST " +:+ url +:+ "` with body `" +:+ ovh_Show body
                   +:+ "` has failed: " +:+ e).

Notation W := (OVHProvider * V)%type.

(** The errors of [p] satisfy [P]. *)
Definition fails_with {A} (P : error → Prop) (p : prog W (result A)) : Prop :=
  ∀ w e w', p w = (Returns (Err e), w') → P e.

Lemma fails_ret {A} P (a : A) : fails_with P (mret (Ok a)).
Proof. by intros w e w'. Qed.

Lemma fails_bind {A B} P (p : prog W A) (k : A → prog W (result B)) :
  (∀ a, fails_with P (k a)) → fails_with P (p ≫= k).
Proof.
  intros Hk w e w'. rewrite prog_bind_eq. destruct (p w) as [[a|e'|e'] w1]; [apply Hk|done..].
Qed.

Lemma fails_try {A B} P f (p : prog W (result A)) (k : A → prog W (result B)) :
  fails_with (P ∘ f) p → (∀ a, fails_with P (k a)) → fails_with P (try_bind f p k).
Proof.
  intros Hp Hk w e w'. rewrite try_bind_eq.
  destruct (p w) as [[[a|e']|e'|e'] w1] eqn:Hw; [apply Hk| |done..].
  intros [= <- <-]. by eapply Hp.
Qed.

Lemma fails_each {A} P (l : list A) (f : A → prog W (result unit)) :
  (∀ a, fails_with P (f a)) → fails_with P (each l f).
Proof.
  intros Hf. induction l as [|a l IH]; [apply fails_ret|]. intros w e w'. rewrite each_cons.
  destruct (f a w) as [[[[]|e']|e'|e'] w1] eqn:Hw; [apply IH| |done..].
  intros [= <- <-]. by eapply Hf.
Qed.

Lemma fails_call {A} P (call : ovh_Client → prog V (result A)) :
  (∀ client v v' e, call client v = (Returns (Err e), v') → P e) → fails_with P (ovh_call call).
Proof.
  intros Hc w e w'. unfold ovh_call, deref. rewrite prog_bind_eq. unfold get_state.
  destruct (ovh_client (fst w)) as [client|]; [|done]. unfold outer.
  destruct (call client (snd w)) as [r v] eqn:Hr. intros [= -> <-]. by eapply Hc.
Qed.

Lemma fails_fetch root ids records : fails_with ovh_failure (ovh_fetch root ids records).
Proof.
  revert records. induction ids as [|id ids IH]; intros records; [apply fails_ret|].
  cbn [ovh_fetch]. apply fails_try; [|intros; apply IH].
  apply fails_try; [|intros; apply fails_ret]. apply fails_call. intros. by eapply failed_record.
Qed.

Lemma fails_RemoveRecord record : fails_with ovh_failure (ovh_RemoveRecord record).
Proof.
  apply fails_try.
  - apply fails_bind. intros d. apply fails_try; [|intros; apply fails_ret].
    apply fails_bind. intros d'. apply fails_try; [|intros; apply fails_fetch].
    apply fails_try; [|intros; apply fails_ret]. apply fails_call. intros. by eapply failed_ids.
  - intros records. apply fails_try; [|intros; apply fails_bind; intros; apply fails_ret].
    apply fails_each. intros rec. apply fails_bind. intros d.
    apply fails_try; [|intros; apply fails_ret]. apply fails_call. intros. by eapply failed_delete.
Qed.

Lemma fails_AddRecord record : fails_with ovh_failure (ovh_AddRecord record).
Proof.
  apply fails_try; [|intros; apply fails_bind; intros; apply fails_ret].
  apply fails_each. intros value. apply fails_bind. intros d.
  apply fails_try; [|intros; apply fails_ret]. apply fails_call. intros. by eapply failed_create.
Qed.

Lemma fails_UpdateRecord record : fails_with ovh_failure (ovh_UpdateRecord record).
Proof. apply fails_try; [apply fails_RemoveRecord|intros; apply fails_AddRecord]. Qed.
End errors.

Section facts.
Context {V : Type} `{OvhLaws V} (Getenv : string → string).
Notation W := (OVHProvider * V)%type.
Context (d : OVHProvider) (Hd : is_Some (ovh_client d)).
Let root : string := ovh_root d.

(** The records of the zone, while the name servers serve [served]. *)
Definition ovh_ValueStore (served : list ovh_Record) : ValueStore W ovh_Record := {|
  vs_store w := ovh_staged (snd w) root;
  vs_good w := fst w = d ∧ ovh_wf (ovh_staged (snd w) root) ∧ ovh_served (snd w) root = served;
  vs_value := ovh_Target;
|}.

Lemma ovh_call_eq {A} (call : ovh_Client → prog V A) v client :
  ovh_client d = Some client →
  ovh_call call (d, v) = (let '(r, v') := call client v in (r, (d, v'))).
Proof. intros Hc. unfold ovh_call, deref. rewrite prog_bind_eq. simpl. by rewrite Hc. Qed.

(** A request, with its error reported in some words [f]. *)
Lemma ovh_request_eq {A B} (call : ovh_Client → prog V (result A)) f (g : A → B) v client :
  ovh_client d = Some client →
  (let! a := ovh_call call wrap f in mret (Ok (g a))) (d, v) =
  match call client v with
  | (Returns (Ok a), v') => (Returns (Ok (g a)), (d, v'))
  | (Returns (Err e), v') => (Returns (Err (f e)), (d, v'))
  | (Panics e, v') => (Panics e, (d, v'))
  | (Exits e, v') => (Exits e, (d, v'))
  end.
Proof.
  intros Hc. rewrite try_bind_eq, (ovh_call_eq _ _ client) by done.
  by destruct (call client v) as [[[]| |] v'].
Qed.

(** The loop reads the records of the identifiers. *)
Lemma ovh_fetch_run todo l0 v :
  (∀ x, x ∈ todo → x ∈ ovh_staged v root) → ovh_wf (ovh_staged v root) →
  ∃ res v', ovh_fetch root (ovh_ID <$> todo) l0 (d, v) = (Returns res, (d, v')) ∧
    ovh_staged v' = ovh_staged v ∧ ovh_served v' = ovh_served v ∧
    match res with Ok l => l = l0 ++ todo | Err _ => True end.
Proof.
  pose proof Hd as [client Hc]. revert l0 v. induction todo as [|x todo IH]; intros l0 v Hin Hwf.
  { exists (Ok l0), v. by rewrite app_nil_r. }
  rewrite fmap_cons. cbn [ovh_fetch]. rewrite try_bind_eq. unfold ovh_get.
  rewrite (ovh_request_eq _ _ (λ a, a) _ client) by done.
  destruct (ovh_get_law client root x v) as (res & v1 & -> & Hs & Hv & Hres); [set_solver|done|].
  destruct res as [y|e]; [subst y|by eexists _, v1].
  destruct (IH (l0 ++ [x]) v1) as (res & v2 & -> & Hs2 & Hv2 & Hres); [rewrite Hs; set_solver|by rewrite Hs|].
  exists res, v2. split; [done|]. rewrite Hs2, Hv2, Hs, Hv. do 2 (split; [done|]).
  destruct res; [|done]. by rewrite Hres, <-(assoc_L (++)).
Qed.

Lemma ovh_find_ok served record :
  find_law (H:=ovh_ValueStore served) (ovh_matches (ovh_parseName d record) (Type_ record))
    (ovh_FindRecords record).
Proof.
  intros [d' v] (Hd' & Hwf & Hserved). simpl in *. subst d'. pose proof Hd as [client Hc].
  unfold runs, ovh_FindRecords. rewrite prog_bind_eq. unfold get_state. cbn [fst].
  unfold ovh_records, ovh_get. rewrite !try_bind_eq, prog_bind_eq. unfold get_state. cbn [fst].
  rewrite try_bind_eq, (ovh_request_eq _ _ (λ a, a) _ client) by done. fold root.
  destruct (ovh_ids_law client root v) as (res & v1 & -> & Hs & Hv & Hres).
  destruct res as [ids|e]; [|eexists _, (d, v1); split; [done|]; simpl; by rewrite Hs, Hv].
  destruct (Permutation_map_inv _ _ Hres) as (l & -> & Hl).
  destruct (ovh_fetch_run l [] v1) as (res & v2 & Hr & Hs2 & Hv2 & Hres2);
    [by intros x; rewrite Hs, Hl|by rewrite Hs|].
  change (map ovh_ID l) with (ovh_ID <$> l). rewrite Hr.
  destruct res as [l'|e]; eexists _, (d, v2); (split; [done|]); simpl; rewrite Hs2, Hs, Hv2, Hv;
    [|done]. subst l'. split; [done|]. split; [done|]. unfold ours. simpl. by rewrite Hl.
Qed.

Lemma ovh_delete_ok served : delete_law (H:=ovh_ValueStore served) ovh_delete.
Proof.
  intros [d' v] x l (Hd' & Hwf & Hserved) Hx. simpl in *. subst d'. pose proof Hd as [client Hc].
  unfold runs, ovh_delete. rewrite prog_bind_eq. unfold get_state. cbn [fst].
  rewrite (ovh_request_eq _ _ (λ _, tt) _ client) by done. fold root.
  destruct (ovh_delete_law client root x l v Hx Hwf) as (res & v' & -> & Hv & Hres).
  destruct res as [u|e]; eexists _, (d, v'); (split; [done|]); simpl; rewrite Hres, Hv; [|done].
  split; [|done]. split; [done|]. split; [|done]. rewrite Hx in Hwf. destruct Hwf as [Hnd Hid].
  rewrite fmap_cons in Hnd. apply list.NoDup_cons in Hnd as [_ Hnd].
  by apply list.Forall_cons in Hid as [_ Hid].
Qed.

(** A record that is created for [record]. *)
Definition ovh_made (record : DnsRecord) (x : ovh_Record) : Prop :=
  ovh_matches (ovh_parseName d record) (Type_ record) x ∧ ovh_TTL x = TTL record.

Lemma ovh_create_ok served record :
  create_law (H:=ovh_ValueStore served) (ovh_made record) (ovh_create record).
Proof.
  intros [d' v] value (Hd' & Hwf & Hserved). simpl in *. subst d'. pose proof Hd as [client Hc].
  unfold runs, ovh_create. rewrite prog_bind_eq. unfold get_state. cbn [fst].
  unfold ovh_prepareRecord. cbv beta iota. rewrite (ovh_request_eq _ _ (λ _, tt) _ client) by done. fold root.
  set (body := mkOvhBody _ _ _ _).
  destruct (ovh_post_law client root body v) as (res & v' & -> & Hv & Hres).
  destruct res as [u|e]; eexists _, (d, v'); (split; [done|]); simpl; rewrite Hv; [|by rewrite Hres].
  destruct Hres as (id & Hid & Hfresh & Hst). split.
  - split; [done|]. rewrite Hst. split; [|done]. destruct Hwf as [Hnd Hall]. split; [|by constructor].
    rewrite fmap_cons. by constructor.
  - eexists. split; [|split; [|exact Hst]]; [|done]. by repeat split.
Qed.

(** The refresh returns; its result is not looked at. *)
Definition ovh_refuses : Prop := ∀ client v, ∃ e v',
  ovh_Post client ("/domain/zone/" +:+ root +:+ "/refresh") None v = (Returns (Err e), v').

Lemma ovh_refresh_run v :
  ∃ v', (ovh_refreshZone;; mret (Ok tt)) (d, v) = (Returns (Ok tt : result unit), (d, v')) ∧
    ovh_staged v' = ovh_staged v ∧
    (ovh_served v' root = ovh_staged v root ∨ ovh_served v' root = ovh_served v root) ∧
    (ovh_refuses → ovh_served v' root = ovh_served v root).
Proof.
  pose proof Hd as [client Hc]. rewrite prog_bind_eq. unfold ovh_refreshZone.
  rewrite prog_bind_eq. unfold get_state. cbn [fst].
  rewrite (ovh_request_eq _ _ (λ _, tt) _ client) by done. fold root.
  destruct (ovh_refresh_law client root v) as (res & v' & Hr & Hs & Hres). rewrite Hr.
  destruct res as [u|e]; exists v'; do 2 (split; [done|]).
  - split; [by left|]. intros Href. destruct (Href client v) as (e & v2 & Hr2). congruence.
  - rewrite Hres. by split; [right|].
Qed.

Notation mine record := (ovh_matches (ovh_parseName d record) (Type_ record)).
Notation theirs record := (others (H:=ovh_ValueStore []) (mine record)).

Lemma ovh_remove_run record w served :
  vs_good (ValueStore:=ovh_ValueStore served) w →
  ∃ res w', ovh_RemoveRecord record w = (Returns res, w') ∧
    match res with
    | Ok _ => ∃ served', vs_good (ValueStore:=ovh_ValueStore served') w' ∧
        ovh_staged (snd w') root ≡ₚ theirs record w ∧
        (served' = served ∨ served' = ovh_staged (snd w') root) ∧ (ovh_refuses → served' = served)
    | Err _ => vs_good (ValueStore:=ovh_ValueStore served) w' ∧
        ∃ l, l ⊆+ ours (H:=ovh_ValueStore []) (mine record) w ∧
          ovh_staged (snd w') root ≡ₚ l ++ theirs record w
    end.
Proof.
  intros Hw. unfold ovh_RemoveRecord. rewrite try_bind_assoc.
  destruct (remove_effect (H:=ovh_ValueStore served) (mine record) (ovh_FindRecords record) ovh_delete w)
    as (res & [d1 v1] & Hr & Hg & Hres);
    [apply ovh_find_ok|apply ovh_delete_ok|done|]. rewrite try_bind_eq, Hr.
  destruct res as [[]|e]; [|by exists (Err (id e)), (d1, v1)].
  pose proof Hg as (Hd1 & Hwf & Hserved). simpl in Hd1, Hwf, Hserved. subst d1.
  destruct (ovh_refresh_run v1) as (v2 & -> & Hs & Hsv & Href).
  exists (Ok tt), (d, v2). split; [done|]. exists (ovh_served v2 root). simpl. rewrite Hs.
  split; [done|]. split; [exact Hres|]. rewrite <-Hserved. split; [by destruct Hsv; [right|left]|done].
Qed.

Lemma ovh_add_run record w served :
  vs_good (ValueStore:=ovh_ValueStore served) w →
  ∃ res w', ovh_AddRecord record w = (Returns res, w') ∧
    fst w' = d ∧ ovh_wf (ovh_staged (snd w') root) ∧
    (∃ new, Forall (ovh_made record) new ∧
       ovh_staged (snd w') root ≡ₚ new ++ ovh_staged (snd w) root ∧
       (res = Ok tt ∧ ovh_Target <$> new = Records record ∨
        (∃ e, res = Err e) ∧ ovh_Target <$> new `prefix_of` Records record)) ∧
    (ovh_served (snd w') root = served ∨
     res = Ok tt ∧ ovh_served (snd w') root = ovh_staged (snd w') root) ∧
    (ovh_refuses → ovh_served (snd w') root = served).
Proof.
  intros Hw. unfold ovh_AddRecord.
  destruct (create_loop (H:=ovh_ValueStore served) (ovh_made record)
    (ovh_create record) (Records record) w) as (res & [d1 v1] & Hr & Hg & Hres);
    [apply ovh_create_ok|done|]. rewrite try_bind_eq, Hr.
  pose proof Hg as (Hd1 & Hwf & Hserved). simpl in Hd1, Hwf, Hserved. subst d1.
  destruct res as [[]|e]; destruct Hres as (new & Hnew & Hv & Hst).
  - destruct (ovh_refresh_run v1) as (v2 & -> & Hs & Hsv & Href).
    exists (Ok tt), (d, v2). simpl. rewrite Hs. do 3 (split; [done|]). split; [by exists new; eauto|].
    rewrite <-Hserved. split; [by destruct Hsv; [right|left]|done].
  - exists (Err (id e)), (d, v1). do 3 (split; [done|]). split; [exists new; eauto 10|]. auto.
Qed.

(** [C17] An update at OVH changes two things: the records of the zone, which
    the program reads and writes, and the records that the name servers serve,
    which follow when the zone is refreshed.  The records of the zone are
    replaced as at other services.  What is served is as before, or lacks the
    record set (the refresh after the removal was the last that worked), or, on
    success only, is the zone.  The result does not tell: a refresh that fails
    is not reported, for every error is the one of a listing, reading, deletion
    or creation request that failed ([ovh_failure]); and if the service refuses
    every refresh, nothing that is served changes, whatever the result. *)
Theorem ovh_UpdateRecord_served (record : DnsRecord) (w : W) :
  fst w = d → ovh_wf (ovh_staged (snd w) root) →
  let served (w : W) := ovh_served (snd w) root in
  ∃ res w', UpdateRecord (Provider:=ovh_Provider Getenv) record w = (Returns res, w') ∧
    match res with
    | Ok _ => replaced (H:=ovh_ValueStore []) (mine record) (ovh_made record) (Records record) w w'
    | Err e => ovh_failure e ∧
        half_replaced (H:=ovh_ValueStore []) (mine record) (ovh_made record) (Records record) w w'
    end ∧
    (served w' = served w ∨ served w' ≡ₚ theirs record w ∨
     res = Ok tt ∧ served w' = ovh_staged (snd w') root) ∧
    (ovh_refuses → served w' = served w).
Proof.
  intros Hw Hwf served. cbn [UpdateRecord ovh_Provider].
  assert (∀ e w', ovh_UpdateRecord record w = (Returns (Err e), w') → ovh_failure e) as Hfail
    by (intros e w'; apply fails_UpdateRecord). revert Hfail. unfold ovh_UpdateRecord.
  destruct (ovh_remove_run record w (served w)) as (res & w1 & Hr & Hres); [done|].
  rewrite try_bind_eq, Hr. destruct res as [[]|e].
  - destruct Hres as (served1 & Hg & Hst & Hsv & Href).
    destruct (ovh_add_run record w1 served1 Hg)
      as (res & w2 & Hr2 & Hd2 & _ & (new & Hnew & Hst2 & Hres) & Hsv2 & Href2).
    rewrite Hr2. intros Hfail. exists res, w2. split; [done|]. rewrite Hst in Hst2.
    destruct (made_parts (H:=ovh_ValueStore []) (mine record) (ovh_made record) ltac:(by intros x [])
      w w2 new Hnew Hst2) as [Ho Hours].
    split; [|split; [|intros Hrefuse; unfold served; by rewrite Href2, Href]].
    + destruct Hres as [[-> Hv]|[[e ->] Hv]].
      * split; [done|]. eauto 10.
      * split; [by eapply Hfail|]. split; [done|]. eauto 10.
    + unfold served. destruct Hsv2 as [->|Hfin]; [|by right; right].
      destruct Hsv as [->| ->]; [by left|by right; left].
  - intros Hfail. destruct Hres as ((Hd1 & _ & Hsv) & l & Hl & Hst). exists (Err (id e)), w1.
    split; [done|].
    destruct (part_left (H:=ovh_ValueStore []) (mine record) w w1 l Hl Hst) as [Ho Hours].
    split; [split; [by eapply Hfail|split; [done|by left]]|]. split; [by left|done].
Qed.
End facts.

(** ** A service in memory *)
Module Example_ovh.

(** The zone [io]: its records and those that are served. *)
Record api := mkApi { staged : list ovh_Record; serving : list ovh_Record }.

Definition add (body : ovh_Body) (l : list ovh_Record) : list ovh_Record :=
  mkOvhRecord (body_target body) (body_ttl body) "io" (body_fieldType body)
    (Samples.fresh_number (ovh_ID <$> l)) (body_subDomain body) :: l.

Section service.
(** Does the service refuse to refresh the zone? *)
Context (refusing : bool).

#[export] Instance calls : OvhApi api := {|
  ovh_Client := unit;
  ovh_NewClient := λ _ _ _ _, mret (Ok tt);
  ovh_GetNames := λ _ _, mret (Ok ["io"]);
  ovh_GetIDs := λ _ url v,
    (Returns (if bool_decide (url = ovh_recordsURL "io") then Ok (ovh_ID <$> staged v)
              else Err "no such zone"), v);
  ovh_GetRecord := λ _ url v,
    (Returns (match List.find (λ x, bool_decide (ovh_recordURL "io" (ovh_ID x) = url)) (staged v) with
              | Some x => Ok x
              | None => Err "no such record"
              end), v);
  ovh_GetAny := λ _ _, mret (Ok tt);
  ovh_Post := λ _ url body v,
    match body with
    | Some body =>
        if bool_decide (url = ovh_recordsURL "io")
        then (Returns (Ok tt), mkApi (add body (staged v)) (serving v))
        else (Returns (Err "no such zone"), v)
    | None =>
        if bool_decide (url = "/domain/zone/io/refresh") && negb refusing
        then (Returns (Ok tt), mkApi (staged v) (staged v))
        else (Returns (Err "no refresh"), v)
    end;
  ovh_Delete := λ _ url v,
    (Returns (Ok tt),
     mkApi (filter (λ x, ovh_recordURL "io" (ovh_ID x) ≠ url) (staged v)) (serving v));
  ovh_Show := λ _, "";
|}.

Definition of_zone (l : list ovh_Record) (root : string) : list ovh_Record :=
  if bool_decide (root = "io") then l else [].

Lemma url_root root tail : "/domain/zone/" +:+ root +:+ tail = "/domain/zone/io" +:+ tail → root = "io".
Proof. intros Heq. injection Heq as Heq. exact (str_app_inv_r root "io" tail Heq). Qed.

Lemma url_id x y : 0 ≤ ovh_ID x → 0 ≤ ovh_ID y →
  ovh_recordURL "io" (ovh_ID x) = ovh_recordURL "io" (ovh_ID y) → ovh_ID x = ovh_ID y.
Proof. intros Hx Hy Heq. injection Heq as Heq. by apply FormatInt_inj. Qed.

#[export] Instance laws : OvhLaws api.
Proof.
  refine {| ovh_staged v := of_zone (staged v); ovh_served v := of_zone (serving v) |}.
  - intros client root v. eexists _, v. split; [reflexivity|]. do 2 (split; [done|]).
    case_bool_decide as Hu; [|done]. apply url_root in Hu. by subst.
  - intros client root x v Hx [Hnd Hid]. unfold of_zone in *. case_bool_decide; [subst root|set_solver].
    eexists _, v. split; [reflexivity|]. do 2 (split; [done|]).
    destruct (List.find _ (staged v)) as [y|] eqn:Hf; [|done].
    apply List.find_some in Hf as [Hy%list_elem_of_In Heq%bool_decide_eq_true].
    rewrite list.Forall_forall in Hid. apply url_id in Heq; [|by apply Hid..].
    by apply (NoDup_fmap_elem ovh_ID (staged v)).
  - intros client root body v. simpl. case_bool_decide as Hu.
    + apply url_root in Hu. subst root. eexists _, _. split; [reflexivity|]. split; [done|].
      exists (Samples.fresh_number (ovh_ID <$> staged v)). unfold of_zone.
      rewrite !bool_decide_eq_true_2 by done. split; [|split; [|done]].
      * apply Z.lt_le_incl, Samples.fresh_number_pos.
      * apply Samples.fresh_number_fresh.
    + eexists _, v. done.
  - intros client root v. simpl. case_bool_decide as Hu; simpl; [destruct refusing; simpl|].
    + by eexists _, v.
    + apply url_root in Hu. subst root. by eexists _, _.
    + by eexists _, v.
  - intros client root x l v Hx [Hnd Hid]. unfold of_zone in *. case_bool_decide; [subst root|].
    2: { by apply Permutation_nil_l in Hx. }
    eexists _, _. split; [reflexivity|]. split; [reflexivity|].
    cbv beta iota delta [of_zone].
    cbn [staged]. rewrite Hx in Hnd, Hid |- *.
    rewrite fmap_cons in Hnd. apply list.NoDup_cons in Hnd as [Hn _].
    apply list.Forall_cons in Hid as [Hx0 Hid]. rewrite list.Forall_forall in Hid.
    rewrite filter_cons, decide_False by naive_solver.
    rewrite filter_all; [done|]. apply list.Forall_forall. intros y Hy Heq. apply Hn.
    apply url_id in Heq as <-; [|by apply Hid|done]. by apply list_elem_of_fmap_2.
Defined.
End service.

Definition env (name : string) : string := "set".
Definition zone0 : list ovh_Record := [mkOvhRecord "192.0.2.1" 300 "io" "A" 1 "www"].
Definition refused : OvhApi api := calls true.
Existing Instance refused.
Definition started : OVHProvider * api :=
  snd (ovh_Init env "io." (mkOVH None "", mkApi zone0 zone0)).
Definition change : DnsRecord := mkDnsRecord "www.io." ["192.0.2.9"] "A" 60.

(** The refresh is refused: the update succeeds, and nothing is served anew. *)
Lemma ovh_UpdateRecord_served_witness :
  ∃ w', UpdateRecord (Provider:=ovh_Provider env) change started = (Returns (Ok tt), w') ∧
    ovh_Target <$> ours (H:=ovh_ValueStore (fst started) [])
      (ovh_matches "www" "A") w' ≡ₚ ["192.0.2.9"] ∧
    serving (snd w') = zone0.
Proof.
  destruct (ovh_UpdateRecord_served env (fst started) ltac:(by eexists) change started)
    as (res & w' & Hr & Hres & _ & Href).
  - reflexivity.
  - eval_decide.
  - assert (fst (UpdateRecord (Provider:=ovh_Provider env) change started) = Returns (Ok tt))
      as Hok by (vm_compute; reflexivity).
    rewrite Hr in Hok. injection Hok as ->. exists w'. split; [exact Hr|]. split.
    + destruct Hres as (_ & new & Hours & _ & Hnew).
      etransitivity; [apply fmap_Permutation; exact Hours|]. exact (reflexive_eq _ _ Hnew).
    + apply Href. intros client v. by eexists _, v.
Defined.
End Example_ovh.
