(* ===== verification/PointHQ.v ===== *)
(** * The PointHQ provider

    [src/providers/pointhq/pointhq.go], over the calls of the PointDNS client.
    The provider object is the first component of the world. *)

From S2P Require Import Prelude GoStrings GoStrconv FastTemplate Utils GoHttp Provider.
From S2P Require Import Grouping Store DNSimple.
Local Open Scope Z_scope.

(** ** The API *)

Record ph_Record := mkPhRecord {
  ph_Id : Z;
  ph_Name : string;
  ph_Ttl : Z;
  ph_RecordType : string;
  ph_Data : string;
  ph_ZoneId : Z;
}.

Record ph_Zone := mkPhZone { phz_Id : Z; phz_Name : string }.

(** A client is an e-mail address and a token.  Zones and records that the
    service returns carry the client they were read with, so the calls on them
    take the identifiers only. *)
Class PointApi (V : Type) := {
  ph_Zones : string * string → prog V (result (list ph_Zone));
  ph_CreateRecord : string * string → ph_Record → prog V (result unit);
  ph_Records : ph_Zone → prog V (result (list ph_Record));
  ph_Delete : ph_Record → prog V (result unit);
}.

(** ** The provider *)

Record PointHQProvider := mkPointHQ {
  ph_client : option (string * string);
  ph_root : string;
  ph_zone : ph_Zone;
}.

Definition ph_failed (err : error) : error := "PointHQ API call has failed: " +:+ err.

(** A record without a name is the zone's own; other names are taken as they
    are. *)
Definition ph_entry (root : string) (rec : ph_Record) : entry :=
  mkEntry (if bool_decide (ph_Name rec = "") then root +:+ "." else ph_Name rec)
    (ph_RecordType rec) (ph_Data rec) (ph_Ttl rec).

Definition ph_matches (record : DnsRecord) (rec : ph_Record) : Prop :=
  ph_Name rec = Fqdn_ record ∧ ph_RecordType rec = Type_ record.
#[export] Instance ph_matches_dec record rec : Decision (ph_matches record rec).
Proof. unfold ph_matches. apply _. Defined.

Section pointhq.
Context {V : Type} `{PointApi V} (Getenv : string → string).

Notation W := (PointHQProvider * V)%type.

Definition ph_call {A} (call : string * string → prog V A) : prog W A :=
  d ← get_state;
  deref (ph_client d) (λ client, outer (call client)).

Definition ph_Init (rootDomainName : string) : prog W (result unit) :=
  with_env Getenv "POINTHQ_EMAIL" (λ email,
  with_env Getenv "POINTHQ_TOKEN" (λ apiToken,
    let root := UnFqdn rootDomainName in
    modify_state (λ d, mkPointHQ (Some (email, apiToken)) root (ph_zone d));;
    let! zones := ph_call ph_Zones wrap (λ err, "Failed to list hosted zones: " +:+ err) in
    match List.find (λ zone, bool_decide (phz_Name zone = root)) zones with
    | Some zone =>
        modify_state (λ d, mkPointHQ (ph_client d) (ph_root d) zone);;
        mret (Ok tt)
    | None => mret (Err ("Zone for '" +:+ root +:+ "' not found"))
    end)).

Definition ph_HealthCheck : prog W (result unit) :=
  let! _ := ph_call ph_Zones in
  mret (Ok tt).

Definition ph_parseName (d : PointHQProvider) (record : DnsRecord) : string :=
  relative_name (ph_root d) (Fqdn_ record).

Definition ph_create (record : DnsRecord) (rec : string) : prog W (result unit) :=
  d ← get_state;
  let recordInput := mkPhRecord 0 (ph_parseName d record) (TTL record) (Type_ record) rec
                       (phz_Id (ph_zone d)) in
  let! _ := ph_call (λ client, ph_CreateRecord client recordInput) wrap ph_failed in
  mret (Ok tt).

Definition ph_AddRecord (record : DnsRecord) : prog W (result unit) :=
  each (Records record) (ph_create record).

Definition ph_list : prog W (result (list ph_Record)) :=
  d ← get_state;
  let! resp := outer (ph_Records (ph_zone d)) wrap ph_failed in
  mret (Ok resp).

Definition ph_FindRecords (record : DnsRecord) : prog W (result (list ph_Record)) :=
  let! resp := ph_list in
  mret (Ok (filter (ph_matches record) resp)).

Definition ph_delete (rec : ph_Record) : prog W (result unit) :=
  let! _ := outer (ph_Delete rec) wrap ph_failed in
  mret (Ok tt).

Definition ph_RemoveRecord (record : DnsRecord) : prog W (result unit) :=
  let! records := ph_FindRecords record in
  each records ph_delete.

Definition ph_UpdateRecord (record : DnsRecord) : prog W (result unit) :=
  let! _ := ph_RemoveRecord record in
  ph_AddRecord record.

Definition ph_GetRecords : prog W (result (list DnsRecord)) :=
  d ← get_state;
  let! resp := ph_list in
  mret (Ok (group (ph_entry (ph_root d) <$> resp))).

Definition pointhq_Provider : Provider W := {|
  Init := ph_Init;
  GetName := "PointHQ";
  HealthCheck := ph_HealthCheck;
  AddRecord := ph_AddRecord;
  RemoveRecord := ph_RemoveRecord;
  UpdateRecord := ph_UpdateRecord;
  GetRecords := ph_GetRecords;
|}.
End pointhq.
