(* ===== verification/PowerDNS.v ===== *)
(** * The PowerDNS provider

    [src/providers/powerdns/powerdns.go], over the calls of the PowerDNS
    client.  The provider object is the first component of the world. *)

From S2P Require Import Prelude GoStrings GoStrconv FastTemplate Utils GoHttp Provider.
Local Open Scope Z_scope.

(** ** The API *)

Record pdns_Record := mkPdnsRecord {
  pdns_Name : string;
  pdns_Type : string;
  pdns_Content : string;
  pdns_TTL : Z;
  pdns_Disabled : bool;
}.

Class PowerDnsApi (V : Type) := {
  pdns_Client : Type;
  pdns_New : string → string → string → string → prog V (result pdns_Client);
  pdns_List : pdns_Client → prog V (result (list pdns_Record));
  pdns_Add : pdns_Client → string → string → Z → list string → prog V (result unit);
  pdns_Delete : pdns_Client → string → string → Z → list string → prog V (result unit);
}.

(** ** The listing *)

(** The loop over the records found so far, for a record [rec] of the name
    [name]: every one of the name is replaced. *)
Definition pdns_merge (name : string) (rec : pdns_Record) (records : list DnsRecord)
    : list DnsRecord :=
  (λ re, if bool_decide (Fqdn_ re = name)
         then mkDnsRecord name (Records re ++ [pdns_Content rec]) (pdns_Type rec) (pdns_TTL rec)
         else re) <$> records.

Definition pdns_name (rec : pdns_Record) : string := pdns_Name rec +:+ ".".

(** One iteration of the outer loop. *)
Definition pdns_step (records : list DnsRecord) (rec : pdns_Record) : list DnsRecord :=
  if pdns_Disabled rec then records
  else
    let name := pdns_name rec in
    let found := existsb (λ re, bool_decide (Fqdn_ re = name)) records in
    let records := pdns_merge name rec records in
    if negb found then
      records ++ [mkDnsRecord name [pdns_Content rec] (pdns_Type rec) (pdns_TTL rec)]
    else records.

Definition pdns_combine (pdnsRecords : list pdns_Record) : list DnsRecord :=
  foldl pdns_step [] pdnsRecords.

(** ** The provider *)

Section powerdns.
Context {V : Type} `{PowerDnsApi V} (Getenv : string → string).

Record PdnsProvider := mkPdns { pdns_client : option pdns_Client; pdns_root : string }.

Notation W := (PdnsProvider * V)%type.

Definition pdns_call {A} (call : pdns_Client → prog V A) : prog W A :=
  d ← get_state;
  deref (pdns_client d) (λ client, outer (call client)).

Definition pdns_failed (err : error) : error := "PowerDNS API call has failed: " +:+ err.

(** The client is assigned before the error is looked at: [powerdns.New]
    returns a nil client with an error. *)
Definition pdns_Init (rootDomainName : string) : prog W (result unit) :=
  with_env Getenv "POWERDNS_URL" (λ url,
  with_env Getenv "POWERDNS_API_KEY" (λ apiKey,
    let root := UnFqdn rootDomainName in
    modify_state (λ d, mkPdns (pdns_client d) root);;
    client ← outer (pdns_New url "" root apiKey);
    modify_state (λ d, mkPdns (match client with Ok client => Some client | Err _ => None end)
                         (pdns_root d));;
    match client with
    | Err err => mret (Err ("Failed to initialize provider for '" +:+ root +:+ "': " +:+ err))
    | Ok _ =>
        let! _ := pdns_call pdns_List
          wrap (λ err, "Failed to list records for '" +:+ root +:+ "': " +:+ err) in
        mret (Ok tt)
    end)).

Definition pdns_HealthCheck : prog W (result unit) :=
  let! _ := pdns_call pdns_List in
  mret (Ok tt).

Definition pdns_parseName (record : DnsRecord) : string := UnFqdn (Fqdn_ record).

Definition pdns_AddRecord (record : DnsRecord) : prog W (result unit) :=
  pdns_call (λ client,
    pdns_Add client (pdns_parseName record) (Type_ record) (TTL record) (Records record)).

Definition pdns_matches (record : DnsRecord) (rec : pdns_Record) : Prop :=
  pdns_Name rec = pdns_parseName record ∧ pdns_Type rec = Type_ record.
#[export] Instance pdns_matches_dec record rec : Decision (pdns_matches record rec).
Proof. unfold pdns_matches. apply _. Defined.

Definition pdns_findRecords (record : DnsRecord) : prog W (result (list pdns_Record)) :=
  let! resp := pdns_call pdns_List wrap pdns_failed in
  mret (Ok (filter (pdns_matches record) resp)).

Definition pdns_RemoveRecord (record : DnsRecord) : prog W (result unit) :=
  let! records := pdns_findRecords record in
  each records (λ rec,
    let! _ := pdns_call (λ client,
        pdns_Delete client (pdns_parseName record) (Type_ record) (TTL record) [pdns_Content rec])
      wrap pdns_failed in
    mret (Ok tt)).

Definition pdns_UpdateRecord (record : DnsRecord) : prog W (result unit) :=
  let! _ := pdns_RemoveRecord record in
  pdns_AddRecord record.

Definition pdns_GetRecords : prog W (result (list DnsRecord)) :=
  let! pdnsRecords := pdns_call pdns_List wrap pdns_failed in
  mret (Ok (pdns_combine pdnsRecords)).

Definition powerdns_Provider : Provider W := {|
  Init := pdns_Init;
  GetName := "PowerDNS";
  HealthCheck := pdns_HealthCheck;
  AddRecord := pdns_AddRecord;
  RemoveRecord := pdns_RemoveRecord;
  UpdateRecord := pdns_UpdateRecord;
  GetRecords := pdns_GetRecords;
|}.
End powerdns.

(** ** Properties *)

(** The enabled records of a name. *)
Definition pdns_of (pdnsRecords : list pdns_Record) (name : string) : list pdns_Record :=
  filter (λ rec, pdns_Disabled rec = false ∧ pdns_name rec = name) pdnsRecords.

Lemma pdns_of_snoc l rec name :
  pdns_of (l ++ [rec]) name =
  pdns_of l name ++
  (if bool_decide (pdns_Disabled rec = false ∧ pdns_name rec = name) then [rec] else []).
Proof.
  unfold pdns_of. rewrite list.filter_app, filter_cons, filter_nil.
  case_decide; case_bool_decide; done.
Qed.

(** What is listed for a name: all values, the type and TTL of the last one. *)
Definition pdns_listed (pdnsRecords : list pdns_Record) (name : string) : option DnsRecord :=
  match list.last (pdns_of pdnsRecords name) with
  | Some rec => Some (mkDnsRecord name (pdns_Content <$> pdns_of pdnsRecords name)
                        (pdns_Type rec) (pdns_TTL rec))
  | None => None
  end.

(** The loop invariant. *)
Definition combined (seen : list pdns_Record) (records : list DnsRecord) : Prop :=
  NoDup (Fqdn_ <$> records) ∧
  (∀ r, r ∈ records → pdns_listed seen (Fqdn_ r) = Some r) ∧
  (∀ name, pdns_listed seen name ≠ None → name ∈ Fqdn_ <$> records).

Lemma merge_fqdns name rec records : Fqdn_ <$> pdns_merge name rec records = Fqdn_ <$> records.
Proof.
  unfold pdns_merge. rewrite <-list_fmap_compose. apply list_fmap_ext. intros i r _. simpl.
  by case_bool_decide.
Qed.

Lemma found_spec records name :
  existsb (λ re, bool_decide (Fqdn_ re = name)) records = bool_decide (name ∈ Fqdn_ <$> records).
Proof.
  apply eq_bool_prop_intro. rewrite !Is_true_true, existsb_exists, bool_decide_eq_true.
  rewrite list_elem_of_fmap. split.
  - intros (r & Hr%list_elem_of_In & <-%bool_decide_eq_true). eauto.
  - intros (r & -> & Hr). exists r. split; [by apply list_elem_of_In|by apply bool_decide_eq_true].
Qed.

(** A disabled record leaves the listing alone, another one changes what is
    listed for its name. *)
Lemma pdns_listed_snoc seen rec name :
  pdns_listed (seen ++ [rec]) name =
  if bool_decide (pdns_Disabled rec = false ∧ pdns_name rec = name)
  then Some (mkDnsRecord name ((pdns_Content <$> pdns_of seen name) ++ [pdns_Content rec])
               (pdns_Type rec) (pdns_TTL rec))
  else pdns_listed seen name.
Proof.
  unfold pdns_listed. rewrite pdns_of_snoc. case_bool_decide; [|by rewrite app_nil_r].
  by rewrite last_snoc, fmap_app.
Qed.

Lemma pdns_step_combined seen records rec :
  combined seen records → combined (seen ++ [rec]) (pdns_step records rec).
Proof.
  intros (Hnd & Hall & Hex). unfold pdns_step. destruct (pdns_Disabled rec) eqn:Hdis.
  { split; [done|]. split; intros x; rewrite pdns_listed_snoc, bool_decide_eq_false_2
      by (intros [? _]; congruence); [apply Hall|apply Hex]. }
  set (name := pdns_name rec). rewrite found_spec.
  assert (∀ n, n ≠ name → pdns_listed (seen ++ [rec]) n = pdns_listed seen n) as Hother.
  { intros n Hn. rewrite pdns_listed_snoc, bool_decide_eq_false_2; [done|].
    intros [_ ?]. by apply Hn. }
  assert (pdns_listed (seen ++ [rec]) name =
    Some (mkDnsRecord name ((pdns_Content <$> pdns_of seen name) ++ [pdns_Content rec])
            (pdns_Type rec) (pdns_TTL rec))) as Hname
    by (by rewrite pdns_listed_snoc, bool_decide_eq_true_2).
  assert (∀ r, r ∈ pdns_merge name rec records →
    pdns_listed (seen ++ [rec]) (Fqdn_ r) = Some r) as Hmerge.
  { intros r (r' & -> & Hr')%list_elem_of_fmap. apply Hall in Hr' as Hl.
    case_bool_decide as Hf; [|by rewrite Hother]. simpl. rewrite Hname. rewrite Hf in Hl.
    unfold pdns_listed in Hl. destruct (list.last _); [|done]. by injection Hl as <-. }
  assert (∀ n, pdns_listed (seen ++ [rec]) n ≠ None → n = name ∨ n ∈ Fqdn_ <$> records) as Hn.
  { intros n Hn. destruct (decide (n = name)); [by left|right].
    rewrite Hother in Hn by done. by apply Hex. }
  case_bool_decide as Hfound; simpl.
  - split; [by rewrite merge_fqdns|]. split; [done|]. intros n [->|?]%Hn; by rewrite merge_fqdns.
  - unfold combined. rewrite fmap_app, merge_fqdns. split; [|split].
    + apply list.NoDup_app. split; [done|]. split; [set_solver|apply NoDup_singleton].
    + intros r [Hr| ->%list_elem_of_singleton]%elem_of_app; [by apply Hmerge|]. simpl.
      rewrite Hname. do 2 f_equal.
      destruct (pdns_of seen name) as [|x l] eqn:Hof; [done|]. exfalso. apply Hfound, Hex.
      unfold pdns_listed. rewrite Hof. by destruct (list.last (x :: l)) eqn:E;
        [|apply last_None in E].
    + intros n [->|?]%Hn; set_solver.
Qed.

Lemma pdns_combine_combined pdnsRecords : combined pdnsRecords (pdns_combine pdnsRecords).
Proof.
  unfold pdns_combine. induction pdnsRecords as [|rec l IH] using rev_ind.
  - split; [constructor|]. split; [set_solver|done].
  - rewrite foldl_snoc. by apply pdns_step_combined.
Qed.

(** [C37] The PowerDNS listing, exactly.  There is one record per name, not per
    name and type: it has the values of all enabled records of the name, of
    whatever type, in order, and the type and TTL of the last one.  So the
    listing is right for names that carry one type; a name with address and
    text records is listed as a single record that mixes their values. *)
Theorem pdns_GetRecords_by_name (pdnsRecords : list pdns_Record) :
  NoDup (Fqdn_ <$> pdns_combine pdnsRecords) ∧
  (∀ r, r ∈ pdns_combine pdnsRecords ↔ pdns_listed pdnsRecords (Fqdn_ r) = Some r) ∧
  (∀ name type, pdns_of pdnsRecords name ≠ [] →
     Forall (λ rec, pdns_Type rec = type) (pdns_of pdnsRecords name) →
     ∃ ttl, mkDnsRecord name (pdns_Content <$> pdns_of pdnsRecords name) type ttl
       ∈ pdns_combine pdnsRecords).
Proof.
  destruct (pdns_combine_combined pdnsRecords) as (Hnd & Hall & Hex).
  assert (∀ r, pdns_listed pdnsRecords (Fqdn_ r) = Some r → r ∈ pdns_combine pdnsRecords) as Hin.
  { intros r Hr. assert (Fqdn_ r ∈ Fqdn_ <$> pdns_combine pdnsRecords) as Hf
      by (apply Hex; by rewrite Hr).
    apply list_elem_of_fmap in Hf as (r' & Hf & Hr'). apply Hall in Hr' as Hl. congruence. }
  split; [done|]. split; [split; auto|]. intros name type Hne HF.
  destruct (exists_last Hne) as (l & rec & Hl). exists (pdns_TTL rec). apply Hin. simpl.
  unfold pdns_listed. rewrite Hl, last_snoc, <-Hl. do 2 f_equal.
  rewrite Hl in HF. apply list.Forall_app in HF as [_ HF]. by inversion HF.
Qed.
