(* ===== verification/RFC2136.v ===== *)
(** * The RFC 2136 provider

    [src/providers/rfc2136/rfc2136.go]: dynamic updates and zone transfers,
    over the DNS library.  The provider object is the first component of the
    world. *)

From S2P Require Import Prelude GoStrings GoStrconv FastTemplate Utils GoNet GoHttp Provider.
Local Open Scope Z_scope.

(** ** The DNS library

    The resource records the program looks into; an address is the text that
    its [String] method yields. *)
Inductive rdata :=
  | CNAME (target : string)
  | A (address : string)
  | AAAA (address : string)
  | TXT (texts : list string)
  | OtherType.

Record RR := mkRR { rr_Name : string; rr_Class : Z; rr_Ttl : Z; rr_Data : rdata }.

Definition ClassINET : Z := 1.

(** The messages the program builds. *)
Inductive Msg :=
  | QuerySOA (zone : string)
  | UpdateInsert (zone : string) (rrs : list RR)
  | UpdateRemoveRRset (zone : string) (rrs : list RR).

(** What a zone transfer delivers. *)
Record Envelope := mkEnvelope { env_Error : option error; env_RR : list RR }.

(** The name and the secret of a signature. *)
Abbreviation tsig_key := (string * string)%type (only parsing).

(** [dns_NewRR] parses the text of a record; [dns_Len] is the size of a message
    with its signature; an exchange yields the response code, if there was a
    response; a transfer yields the envelopes in the order of their arrival. *)
Class DnsLibrary (V : Type) := {
  dns_Fqdn : string → string;
  dns_NewRR : string → result RR;
  dns_Len : Msg → option tsig_key → Z;
  dns_Exchange : Msg → option tsig_key → bool → string → prog V (result (option Z));
  dns_TransferIn : string → option tsig_key → string → prog V (result (list Envelope));
  dns_RcodeToString : Z → string;
}.

(** ** [strconv.ParseBool] *)
Definition ParseBool (s : string) : option bool :=
  if bool_decide (s ∈ ["1"; "t"; "T"; "true"; "TRUE"; "True"]) then Some true
  else if bool_decide (s ∈ ["0"; "f"; "F"; "false"; "FALSE"; "False"]) then Some false
  else None.

(** An optional boolean variable: false when it is not set. *)
Definition bool_env (Getenv : string → string) (name : string) : result bool :=
  let s := Getenv name in
  if bool_decide (s = "") then Ok false
  else
    match ParseBool s with
    | Some b => Ok b
    | None => Err (name +:+ " must be a boolean value")
    end.

(** ** The listing *)

(** The type and the values of a record, [None] for the types that the switch
    skips. *)
Definition rr_values_of (rr : RR) : option (string * list string) :=
  match rr_Data rr with
  | CNAME target => Some ("CNAME", [target])
  | A address => Some ("A", [address])
  | AAAA address => Some ("AAAA", [address])
  | TXT texts => Some ("TXT", texts)
  | OtherType => None
  end.

(** The inner loop: the first record of the name and type gets the values;
    [None] when there is none. *)
Fixpoint append_values (fqdn type : string) (values : list string) (records : list DnsRecord)
    : option (list DnsRecord) :=
  match records with
  | [] => None
  | r :: records =>
      if bool_decide (Fqdn_ r = fqdn) && bool_decide (Type_ r = type) then
        Some (mkDnsRecord (Fqdn_ r) (Records r ++ values) (Type_ r) (TTL r) :: records)
      else
        match append_values fqdn type values records with
        | Some records => Some (r :: records)
        | None => None
        end
  end.

(** One iteration of the outer loop. *)
Definition rfc_step (records : list DnsRecord) (rr : RR) : list DnsRecord :=
  if negb (rr_Class rr =? ClassINET) then records
  else
    match rr_values_of rr with
    | None => records
    | Some (rrType, rrValues) =>
        match append_values (rr_Name rr) rrType rrValues records with
        | Some records => records
        | None => records ++ [mkDnsRecord (rr_Name rr) rrValues rrType (rr_Ttl rr)]
        end
    end.

Definition rfc_records (rrs : list RR) : list DnsRecord := foldl rfc_step [] rrs.

(** ** The provider *)

Definition udpMaxMsgSize : Z := 512.

Record RFC2136Provider := mkRFC2136 {
  rfc_nameserver : string;
  rfc_zoneName : string;
  rfc_tsigKeyName : string;
  rfc_tsigSecret : string;
  rfc_insecure : bool;
}.

(** [if !r.insecure] *)
Definition rfc_key (r : RFC2136Provider) : option tsig_key :=
  if negb (rfc_insecure r) then Some (rfc_tsigKeyName r, rfc_tsigSecret r) else None.

Section rfc2136.
Context {V : Type} `{DnsLibrary V} (Getenv : string → string).

Notation W := (RFC2136Provider * V)%type.

Definition rfc_Init (rootDomainName : string) : prog W (result unit) :=
  with_env Getenv "RFC2136_HOST" (λ host,
  with_env Getenv "RFC2136_PORT" (λ port,
    match bool_env Getenv "RFC2136_INSECURE" with
    | Err err => mret (Err err)
    | Ok insecure =>
        let configure keyName secret :=
          modify_state (λ r, mkRFC2136 (JoinHostPort host port) (dns_Fqdn rootDomainName)
            (if negb insecure then dns_Fqdn keyName else rfc_tsigKeyName r)
            (if negb insecure then secret else rfc_tsigSecret r) insecure);;
          mret (Ok tt) in
        if negb insecure then
          with_env Getenv "RFC2136_TSIG_KEYNAME" (λ keyName,
          with_env Getenv "RFC2136_TSIG_SECRET" (λ secret,
            configure keyName secret))
        else configure "" ""
    end)).

Definition rfc_sendMessage (msg : Msg) : prog W (result unit) :=
  r ← get_state;
  let key := rfc_key r in
  let tcp := udpMaxMsgSize <? dns_Len msg key in
  let! resp := outer (dns_Exchange msg key tcp (rfc_nameserver r)) in
  match resp with
  | Some rcode =>
      if negb (rcode =? 0) then mret (Err ("Bad return code: " +:+ dns_RcodeToString rcode))
      else mret (Ok tt)
  | None => mret (Ok tt)
  end.

Definition rfc_HealthCheck : prog W (result unit) :=
  r ← get_state;
  let! _ := rfc_sendMessage (QuerySOA (rfc_zoneName r))
    wrap (λ err, "Failed to query zone SOA record: " +:+ err) in
  mret (Ok tt).

(** The records of an addition, parsed from their texts. *)
Fixpoint rfc_build (record : DnsRecord) (values : list string) (rrs : list RR)
    : result (list RR) :=
  match values with
  | [] => Ok rrs
  | rec :: values =>
      match dns_NewRR (Fqdn_ record +:+ " " +:+ FormatInt (TTL record) +:+ " " +:+ Type_ record
                       +:+ " " +:+ rec) with
      | Err err => Err ("Failed to build RR: " +:+ err)
      | Ok rr => rfc_build record values (rrs ++ [rr])
      end
  end.

Definition rfc_AddRecord (record : DnsRecord) : prog W (result unit) :=
  r ← get_state;
  match rfc_build record (Records record) [] with
  | Err err => mret (Err err)
  | Ok rrs =>
      let! _ := rfc_sendMessage (UpdateInsert (rfc_zoneName r) rrs)
        wrap (λ err, "RFC2136 query failed: " +:+ err) in
      mret (Ok tt)
  end.

Definition rfc_RemoveRecord (record : DnsRecord) : prog W (result unit) :=
  r ← get_state;
  match dns_NewRR (Fqdn_ record +:+ " 0 " +:+ Type_ record +:+ " 0.0.0.0") with
  | Err err => mret (Err ("Could not construct RR: " +:+ err))
  | Ok rr =>
      let! _ := rfc_sendMessage (UpdateRemoveRRset (rfc_zoneName r) [rr])
        wrap (λ err, "RFC2136 query failed: " +:+ err) in
      mret (Ok tt)
  end.

Definition rfc_UpdateRecord (record : DnsRecord) : prog W (result unit) :=
  let! _ := rfc_RemoveRecord record in
  rfc_AddRecord record.

(** Envelopes with an error are logged and skipped. *)
Definition rfc_list : prog W (result (list RR)) :=
  r ← get_state;
  let! env := outer (dns_TransferIn (rfc_zoneName r) (rfc_key r) (rfc_nameserver r))
    wrap (λ err, "Failed to fetch records via AXFR: " +:+ err) in
  mret (Ok (env ≫= λ e, match env_Error e with Some _ => [] | None => env_RR e end)).

Definition rfc_GetRecords : prog W (result (list DnsRecord)) :=
  let! list := rfc_list in
  mret (Ok (rfc_records list)).

Definition rfc2136_Provider : Provider W := {|
  Init := rfc_Init;
  GetName := "RFC2136";
  HealthCheck := rfc_HealthCheck;
  AddRecord := rfc_AddRecord;
  RemoveRecord := rfc_RemoveRecord;
  UpdateRecord := rfc_UpdateRecord;
  GetRecords := rfc_GetRecords;
|}.
End rfc2136.

(** ** Properties *)

(** What the listing takes from a record: its name and type, and the values. *)
Definition rr_entry (rr : RR) : option (string * string * list string * Z) :=
  if negb (rr_Class rr =? ClassINET) then None
  else
    match rr_values_of rr with
    | Some (type, values) => Some (rr_Name rr, type, values, rr_Ttl rr)
    | None => None
    end.

(** What should be listed for a name and type: all values in order, and the TTL
    of the first. *)
Definition rfc_listed (rrs : list RR) (key : string * string) : option DnsRecord :=
  match filter (λ '(fqdn, type, _, _), (fqdn, type) = key) (omap rr_entry rrs) with
  | [] => None
  | (fqdn, type, values, ttl) :: l =>
      Some (mkDnsRecord fqdn (values ++ (l ≫= λ '(_, _, values, _), values)) type ttl)
  end.

(** The loop invariant. *)
Definition rfc_inv (seen : list RR) (records : list DnsRecord) : Prop :=
  NoDup (rr_key <$> records) ∧
  (∀ r, r ∈ records → rfc_listed seen (rr_key r) = Some r) ∧
  (∀ key, rfc_listed seen key ≠ None → key ∈ rr_key <$> records).

Lemma append_values_None fqdn type values records :
  append_values fqdn type values records = None ↔ (fqdn, type) ∉ rr_key <$> records.
Proof.
  induction records as [|r records IH]; cbn [append_values].
  { split; [set_solver|done]. }
  rewrite fmap_cons, not_elem_of_cons. unfold rr_key at 1.
  destruct (bool_decide (Fqdn_ r = fqdn) && bool_decide (Type_ r = type)) eqn:Hb.
  - apply andb_true_iff in Hb as [<-%bool_decide_eq_true <-%bool_decide_eq_true]. naive_solver.
  - apply andb_false_iff in Hb. rewrite !bool_decide_eq_false in Hb.
    destruct (append_values _ _ _ records); naive_solver.
Qed.

Lemma append_values_Some fqdn type values records records' :
  append_values fqdn type values records = Some records' →
  ∃ l r l', records = l ++ r :: l' ∧ rr_key r = (fqdn, type) ∧
    records' = l ++ mkDnsRecord fqdn (Records r ++ values) type (TTL r) :: l'.
Proof.
  revert records'. induction records as [|r records IH]; intros records'; simpl; [done|].
  destruct (bool_decide (Fqdn_ r = fqdn) && bool_decide (Type_ r = type)) eqn:Hb.
  - apply andb_true_iff in Hb as [<-%bool_decide_eq_true <-%bool_decide_eq_true].
    intros [= <-]. by exists [], r, records.
  - destruct (append_values _ _ _ records) as [recs|]; [|done]. intros [= <-].
    destruct (IH recs eq_refl) as (l & r' & l' & -> & Hk & ->). by exists (r :: l), r', l'.
Qed.

Lemma rfc_listed_snoc seen rr key :
  rfc_listed (seen ++ [rr]) key =
  match rr_entry rr with
  | Some (fqdn, type, values, ttl) =>
      if bool_decide ((fqdn, type) = key) then
        match rfc_listed seen key with
        | Some r => Some (mkDnsRecord (Fqdn_ r) (Records r ++ values) (Type_ r) (TTL r))
        | None => Some (mkDnsRecord fqdn values type ttl)
        end
      else rfc_listed seen key
  | None => rfc_listed seen key
  end.
Proof.
  unfold rfc_listed. rewrite omap_app, list.filter_app.
  destruct (rr_entry rr) as [[[[fqdn type] values] ttl]|] eqn:He.
  - rewrite (omap_cons_Some rr_entry rr _ [] He). cbn [omap list_omap].
    rewrite filter_cons, filter_nil. case_bool_decide as Hk; [rewrite decide_True by done|rewrite decide_False by done].
    + destruct (filter _ (omap rr_entry seen)) as [|[[[f t] vs] n] l]; simpl.
      * by rewrite app_nil_r.
      * rewrite bind_app. simpl. by rewrite app_nil_r, <-app_assoc.
    + by rewrite app_nil_r.
  - rewrite (omap_cons_None rr_entry rr [] He). by rewrite app_nil_r.
Qed.

Lemma rfc_listed_key seen key r : rfc_listed seen key = Some r → rr_key r = key.
Proof.
  unfold rfc_listed. destruct (filter _ _) as [|[[[f t] vs] n] l] eqn:Hf; [done|].
  intros [= <-]. assert ((f, t, vs, n) ∈ filter (λ '(fqdn, type, _, _), (fqdn, type) = key)
    (omap rr_entry seen)) as Hin by (rewrite Hf; by left).
  by apply list_elem_of_filter in Hin as [Hk _].
Qed.

Lemma rfc_step_inv seen records rr :
  rfc_inv seen records → rfc_inv (seen ++ [rr]) (rfc_step records rr).
Proof.
  intros (Hnd & Hall & Hex).
  assert (rr_entry rr = None → rfc_inv (seen ++ [rr]) records) as Hskip.
  { intros He. split; [done|]. split; intros x; rewrite rfc_listed_snoc, He; auto. }
  unfold rfc_step, rr_entry in *. destruct (negb (rr_Class rr =? ClassINET)) eqn:Hcl; [by apply Hskip|].
  destruct (rr_values_of rr) as [[type values]|] eqn:Hv; [|by apply Hskip]. clear Hskip.
  assert (∀ key, rfc_listed (seen ++ [rr]) key =
    if bool_decide ((rr_Name rr, type) = key) then
      match rfc_listed seen key with
      | Some r => Some (mkDnsRecord (Fqdn_ r) (Records r ++ values) (Type_ r) (TTL r))
      | None => Some (mkDnsRecord (rr_Name rr) values type (rr_Ttl rr))
      end
    else rfc_listed seen key) as Hsnoc.
  { intros key. rewrite rfc_listed_snoc. unfold rr_entry. by rewrite Hcl, Hv. }
  set (k := (rr_Name rr, type)) in *.
  destruct (append_values (rr_Name rr) type values records) as [records'|] eqn:Happ.
  - apply append_values_Some in Happ as (l & r & l' & -> & Hk & ->). fold k in Hk.
    assert (rr_key <$> l ++ mkDnsRecord (rr_Name rr) (Records r ++ values) type (TTL r) :: l' =
      rr_key <$> l ++ r :: l') as Hkeys by (rewrite !fmap_app, !fmap_cons; by rewrite Hk).
    split; [by rewrite Hkeys|]. split; [|intros key; rewrite Hkeys, Hsnoc].
    + assert (∀ r', r' ∈ l ++ l' → rr_key r' ≠ k) as Hne.
      { intros r' Hr' Heq. rewrite fmap_app, fmap_cons in Hnd.
        apply list.NoDup_app in Hnd as (_ & Hdis & Hnd). apply list.NoDup_cons in Hnd as [Hr _].
        apply elem_of_app in Hr' as [Hr'|Hr'].
        - apply (Hdis (rr_key r')); [by apply list_elem_of_fmap_2|]. rewrite Heq, <-Hk. by left.
        - apply Hr. rewrite Hk, <-Heq. by apply list_elem_of_fmap_2. }
      intros r' Hr'. rewrite Hsnoc.
      rewrite elem_of_app, elem_of_cons in Hr'.
      destruct (decide (r' ∈ l ++ l')) as [Hin|Hnin].
      * rewrite bool_decide_eq_false_2 by (intros ?; by apply (Hne r')). apply Hall. set_solver.
      * destruct Hr' as [?|[->|?]]; [set_solver| |set_solver].
        rewrite bool_decide_eq_true_2 by done.
        assert (rfc_listed seen k = Some r) as Hl by (rewrite <-Hk; apply Hall; set_solver).
        change (rr_key _) with k. rewrite Hl. injection Hk as Hf Ht. by rewrite Hf, Ht.
    + case_bool_decide as Hkk; [|by apply Hex]. intros _. rewrite <-Hkk, <-Hk.
      apply list_elem_of_fmap_2. set_solver.
  - apply append_values_None in Happ. fold k in Happ.
    assert (rfc_listed seen k = None) as Hnone.
    { destruct (rfc_listed seen k) eqn:Hl; [|done]. exfalso. apply Happ, Hex. by rewrite Hl. }
    unfold rfc_inv. rewrite fmap_app. split; [|split].
    + apply list.NoDup_app. split; [done|]. split; [|apply NoDup_singleton].
      intros key Hkey Hin. apply list_elem_of_singleton in Hin as ->. done.
    + intros r [Hr| ->%list_elem_of_singleton]%elem_of_app; rewrite Hsnoc.
      * rewrite bool_decide_eq_false_2; [by apply Hall|]. intros Heq. apply Happ. rewrite Heq.
        by apply list_elem_of_fmap_2.
      * change (rr_key _) with k. by rewrite bool_decide_eq_true_2, Hnone.
    + intros key. rewrite Hsnoc, elem_of_app. case_bool_decide as Hkk; [|by left; apply Hex].
      intros _. right. rewrite <-Hkk. by left.
Qed.

Lemma rfc_records_inv rrs : rfc_inv rrs (rfc_records rrs).
Proof.
  unfold rfc_records. induction rrs as [|rr l IH] using rev_ind.
  - split; [constructor|]. split; [set_solver|done].
  - rewrite foldl_snoc. by apply rfc_step_inv.
Qed.

Lemma rfc_envelopes env :
  (env ≫= λ e, match env_Error e with Some _ => [] | None => env_RR e end) =
  filter (λ e, env_Error e = None) env ≫= env_RR.
Proof.
  induction env as [|e env IH]; [done|]. rewrite bind_cons, IH, filter_cons.
  by destruct (env_Error e).
Qed.

(** [C35] The RFC 2136 listing.  Of the transferred records, those of class IN
    and one of the four known types are listed, one record per name and type,
    with all their values in order and the TTL of the first.  But a transfer
    is taken as complete however it ends: envelopes that report an error are
    dropped, so the listing is the one of the part that arrived. *)
Theorem rfc_GetRecords_spec {V} `{DnsLibrary V} (r : RFC2136Provider) (v : V) :
  rfc_GetRecords (r, v) =
  match dns_TransferIn (rfc_zoneName r) (rfc_key r) (rfc_nameserver r) v with
  | (Returns (Ok env), v') =>
      (Returns (Ok (rfc_records (filter (λ e, env_Error e = None) env ≫= env_RR))), (r, v'))
  | (Returns (Err e), v') => (Returns (Err ("Failed to fetch records via AXFR: " +:+ e)), (r, v'))
  | (Panics e, v') => (Panics e, (r, v'))
  | (Exits e, v') => (Exits e, (r, v'))
  end ∧
  (∀ rrs, NoDup (rr_key <$> rfc_records rrs) ∧
     ∀ d, d ∈ rfc_records rrs ↔ rfc_listed rrs (rr_key d) = Some d).
Proof.
  split.
  - unfold rfc_GetRecords, rfc_list. rewrite try_bind_eq, prog_bind_eq. simpl.
    rewrite try_bind_eq. unfold outer. simpl.
    destruct (dns_TransferIn _ _ _ v) as [[[env|e]| |] v']; [|done..]. simpl.
    by rewrite rfc_envelopes.
  - intros rrs. destruct (rfc_records_inv rrs) as (Hnd & Hall & Hex). split; [done|].
    intros d. split; [apply Hall|]. intros Hd.
    assert (rr_key d ∈ rr_key <$> rfc_records rrs) as Hin by (apply Hex; by rewrite Hd).
    apply list_elem_of_fmap in Hin as (d' & Hk & Hd'). apply Hall in Hd' as Hl. congruence.
Qed.
