(* ===== verification/DigitalOcean.v ===== *)
(** * The DigitalOcean provider

    [src/providers/digitalocean/digitalocean.go], over the calls of the API
    client it uses.  The provider object is the first component of the
    world. *)

From S2P Require Import Prelude GoStrings GoStrconv FastTemplate Utils GoHttp MetaTypes Provider.
From S2P Require Import Samples Grouping Store StoreZone Config MetaClient Metadata Reconcile Sync.
From S2P Require Import StorePublished.
From S2P Require Import PlatformApi Main.
Local Open Scope Z_scope.

(** ** The API *)

Record do_Record := mkDoRecord {
  do_ID : Z;
  do_Type : string;
  do_Name : string;
  do_Data : string;
}.

(** [api.DomainRecordEditRequest] *)
Record do_EditRequest := mkDoEdit { edit_Type : string; edit_Name : string; edit_Data : string }.

(** Of a response, [resp.Links]: nil, or whether it is the last page and the
    number of the current one. *)
Record do_Links := mkDoLinks { IsLastPage : bool; CurrentPage : result Z }.

(** A client is an access token.  [do_Domain] yields the TTL of a domain. *)
Class DigitalOceanApi (V : Type) := {
  do_Account : string → prog V (result unit);
  do_Domain : string → string → prog V (result Z);
  do_Records : string → string → Z → Z → prog V (result (list do_Record * option do_Links));
  do_CreateRecord : string → string → do_EditRequest → prog V (result unit);
  do_DeleteRecord : string → string → Z → prog V (result unit);
  do_limiter_Wait : prog V unit;
  (** A number of iterations after which a listing has ended. *)
  do_fuel : V → nat;
}.

(** ** The provider *)

(** With the package variable [config.TTL], which [Init] overwrites. *)
Record DigitalOceanProvider := mkDigitalOcean {
  do_client : option string;
  do_rootDomainName : string;
  do_limiter : bool;
  config_TTL : Z;
}.

Definition nameToFqdn (rootDomainName name : string) : string :=
  let fqdn := if bool_decide (name = "@") then rootDomainName
              else Join [name; rootDomainName] "." in
  Fqdn fqdn.

Definition do_failed (err : error) : error := "API call has failed: " +:+ err.

(** The loop of [GetRecords]: values by name and type, no TTL of their own. *)
Definition do_entry (root : string) (rec : do_Record) : entry :=
  mkEntry (nameToFqdn root (do_Name rec)) (do_Type rec) (do_Data rec) 0.

Definition do_matches (root : string) (record : DnsRecord) (rec : do_Record) : Prop :=
  nameToFqdn root (do_Name rec) = Fqdn_ record ∧ do_Type rec = Type_ record.
#[export] Instance do_matches_dec root record rec : Decision (do_matches root record rec).
Proof. unfold do_matches. apply _. Defined.

Definition do_PerPage : Z := 200.

Section digitalocean.
Context {V : Type} `{DigitalOceanApi V} (Getenv : string → string).

Notation W := (DigitalOceanProvider * V)%type.

Definition do_Wait : prog W unit :=
  p ← get_state;
  if do_limiter p then outer do_limiter_Wait else lift (Panics nil_dereference).
Definition do_call {A} (call : string → prog V A) : prog W A :=
  p ← get_state;
  deref (do_client p) (λ token, outer (call token)).

Definition do_Init (rootDomainName : string) : prog W (result unit) :=
  with_env Getenv "DO_PAT" (λ pat,
    let root := UnFqdn rootDomainName in
    modify_state (λ p, mkDigitalOcean (Some pat) root true (config_TTL p));;
    do_Wait;;
    let! _ := do_call do_Account in
    do_Wait;;
    let! ttl := do_call (λ token, do_Domain token root) in
    modify_state (λ p, mkDigitalOcean (do_client p) (do_rootDomainName p) (do_limiter p) ttl);;
    mret (Ok tt)).

Definition do_HealthCheck : prog W (result unit) :=
  do_Wait;;
  p ← get_state;
  let! _ := do_call (λ token, do_Domain token (do_rootDomainName p)) in
  mret (Ok tt).

Definition do_create (record : DnsRecord) (r : string) : prog W (result unit) :=
  p ← get_state;
  let createRequest := mkDoEdit (Type_ record) (Fqdn_ record) r in
  do_Wait;;
  let! _ := do_call (λ token, do_CreateRecord token (do_rootDomainName p) createRequest)
    wrap do_failed in
  mret (Ok tt).

Definition do_AddRecord (record : DnsRecord) : prog W (result unit) :=
  each (Records record) (do_create record).

(** The loop of [fetchDoRecords]; [page] is [opt.Page], zero at first. *)
Fixpoint do_pages (fuel : nat) (page : Z) (doRecords : list do_Record)
    : prog W (result (list do_Record)) :=
  match fuel with
  | O => lift (Panics "the listing has not ended")
  | S fuel =>
      p ← get_state;
      do_Wait;;
      let! rs := do_call (λ token, do_Records token (do_rootDomainName p) do_PerPage page)
        wrap do_failed in
      let '(records, links) := rs in
      let doRecords := if (0 <? length records)%nat then doRecords ++ records else doRecords in
      match links with
      | None => mret (Ok doRecords)
      | Some links =>
          if IsLastPage links || (length records =? 0)%nat then mret (Ok doRecords)
          else
            match CurrentPage links with
            | Err err => mret (Err ("Failed to get current page: " +:+ err))
            | Ok page => do_pages fuel (page + 1) doRecords
            end
      end
  end.

Definition fetchDoRecords : prog W (result (list do_Record)) :=
  fuel ← (λ w, (Returns (do_fuel (snd w)), w));
  do_pages fuel 0 [].

Definition do_delete (rec : do_Record) : prog W (result unit) :=
  p ← get_state;
  do_Wait;;
  let! _ := do_call (λ token, do_DeleteRecord token (do_rootDomainName p) (do_ID rec))
    wrap do_failed in
  mret (Ok tt).

Definition do_find (record : DnsRecord) : prog W (result (list do_Record)) :=
  p ← get_state;
  let! doRecords := fetchDoRecords wrap (λ err, "RemoveRecord: " +:+ err) in
  mret (Ok (filter (do_matches (do_rootDomainName p) record) doRecords)).

Definition do_RemoveRecord (record : DnsRecord) : prog W (result unit) :=
  let! doRecords := do_find record in
  each doRecords do_delete.

Definition do_UpdateRecord (record : DnsRecord) : prog W (result unit) :=
  let! _ := do_RemoveRecord record in
  do_AddRecord record.

Definition do_GetRecords : prog W (result (list DnsRecord)) :=
  p ← get_state;
  let! doRecords := fetchDoRecords wrap (λ err, "GetRecords: " +:+ err) in
  mret (Ok (flatten (λ _ _, config_TTL p)
              (add_values (do_entry (do_rootDomainName p) <$> doRecords)))).

Definition digitalocean_Provider : Provider W := {|
  Init := do_Init;
  GetName := "DigitalOcean";
  HealthCheck := do_HealthCheck;
  AddRecord := do_AddRecord;
  RemoveRecord := do_RemoveRecord;
  UpdateRecord := do_UpdateRecord;
  GetRecords := do_GetRecords;
|}.
End digitalocean.

(** ** The documented behaviour of the API

    Pages are numbered from one (zero asks for the first), have [per_page]
    records but for the last one, and tell which one they are and whether they
    are the last.  Records have distinct identifiers; the full name of a record
    that was created is the one it was created under; a failed call has no
    effect. *)

Class DigitalOceanLaws (V : Type) `{DigitalOceanApi V} := {
  do_records : V → string → list do_Record;
  do_wait_law v : ∃ v', do_limiter_Wait v = (Returns tt, v') ∧ do_records v' = do_records v;
  do_list_law token root size page n v :
    0 < size → page = Z.of_nat n ∨ page = 0 ∧ n = 1%nat → (0 < n)%nat →
    ∃ res v', do_Records token root size page v = (Returns res, v') ∧
      do_records v' = do_records v ∧
      match res with
      | Err _ => True
      | Ok (records, links) =>
          records = slice (Z.to_nat size) (n - 1) (do_records v root) ∧
          match links with
          | None => last_page (Z.to_nat size) (n - 1) (do_records v root)
          | Some links =>
              (IsLastPage links = true ↔ last_page (Z.to_nat size) (n - 1) (do_records v root)) ∧
              CurrentPage links = Ok (Z.of_nat n)
          end
      end;
  do_create_law token root r v :
    ∃ res v', do_CreateRecord token root r v = (Returns res, v') ∧
      match res with
      | Ok _ => ∃ x, nameToFqdn root (do_Name x) = edit_Name r ∧ do_Type x = edit_Type r ∧
          do_Data x = edit_Data r ∧ (do_ID x ∉ do_ID <$> do_records v root) ∧
          do_records v' root ≡ₚ x :: do_records v root
      | Err _ => do_records v' = do_records v
      end;
  do_delete_law token root x l v :
    do_records v root ≡ₚ x :: l → NoDup (do_ID <$> do_records v root) →
    ∃ res v', do_DeleteRecord token root (do_ID x) v = (Returns res, v') ∧
      match res with
      | Ok _ => do_records v' root ≡ₚ l
      | Err _ => do_records v' = do_records v
      end;
  do_fuel_law v root : (length (do_records v root) < do_fuel v)%nat;
}.

(** ** Properties *)

Section facts.
Context {V : Type} `{DigitalOceanLaws V} (Getenv : string → string).
Notation W := (DigitalOceanProvider * V)%type.

(** After [Init], and the records of the domain. *)
Definition do_ready (p : DigitalOceanProvider) : Prop := do_limiter p = true ∧ is_Some (do_client p).
Definition do_store (w : W) : list do_Record := do_records (snd w) (do_rootDomainName (fst w)).

Lemma do_Wait_eq p v : do_ready p → ∃ v', do_Wait (p, v) = (Returns tt, (p, v')) ∧ do_records v' = do_records v.
Proof.
  intros [Hl _]. destruct (do_wait_law v) as (v' & Hv & Hs). exists v'. split; [|done].
  unfold do_Wait. rewrite prog_bind_eq. simpl. rewrite Hl. unfold outer. simpl. by rewrite Hv.
Qed.

Lemma do_call_eq {A} (call : string → prog V A) p v token :
  do_client p = Some token →
  do_call call (p, v) = (let '(r, v') := call token v in (r, (p, v'))).
Proof. intros Ht. unfold do_call, deref. rewrite prog_bind_eq. simpl. by rewrite Ht. Qed.

(** The error of a listing request that the service refused. *)
Definition do_refused (root : string) (e : error) : Prop :=
  ∃ token page v v' e', do_Records token root do_PerPage page v = (Returns (Err e'), v') ∧
    e = do_failed e'.

(** From page [n] on, with what was read before. *)
Lemma do_pages_rest fuel page n p v :
  do_ready p → page = Z.of_nat n ∨ page = 0 ∧ n = 1%nat → (0 < n)%nat →
  (length (do_store (p, v)) < fuel + 200 * (n - 1))%nat → (0 < fuel)%nat →
  ∃ res v', do_pages fuel page (take (200 * (n - 1)) (do_store (p, v))) (p, v)
      = (Returns res, (p, v')) ∧ do_records v' = do_records v ∧
    (res = Ok (do_store (p, v)) ∨ ∃ e, res = Err e ∧ do_refused (do_rootDomainName p) e).
Proof.
  revert page n v. induction fuel as [|fuel IH]; [lia|]. intros page n v Hp Hpage Hn Hfuel _.
  cbn [do_pages]. rewrite prog_bind_eq. unfold get_state. cbn [fst]. rewrite prog_bind_eq.
  destruct (do_Wait_eq p v Hp) as (v1 & -> & Hs1). pose proof Hp as [Hl [token Ht]].
  rewrite try_bind_eq, (do_call_eq _ _ _ token) by done.
  destruct (do_list_law token (do_rootDomainName p) do_PerPage page n v1)
    as (res & v2 & Hr & Hs2 & Hres); [done..|].
  rewrite Hr. rewrite Hs1 in Hs2, Hres. destruct res as [[records links]|e];
    [|eexists _, v2; split; [done|]; split; [done|]; right; unfold do_refused; by eauto 10].
  destruct Hres as [-> Hlinks]. change (Z.to_nat do_PerPage) with 200%nat in *.
  unfold do_store in *. cbn [fst snd] in *. set (l := do_records v (do_rootDomainName p)) in *.
  set (k := (n - 1)%nat) in *.
  assert ((if (0 <? length (slice 200 k l))%nat then take (200 * k) l ++ slice 200 k l
           else take (200 * k) l) = take (200 * S k) l) as ->.
  { rewrite <-slice_step. destruct (slice 200 k l); [by rewrite app_nil_r|done]. }
  assert (last_page 200 k l → Ok (take (200 * S k) l) = Ok l) as Hlast
    by (intros; by rewrite slice_last).
  destruct links as [[isLast current]|]; cbn [IsLastPage CurrentPage] in *;
    [|eexists _, v2; split; [done|]; split; [done|]; left; by apply Hlast].
  destruct Hlinks as [Hisl ->]. destruct isLast; simpl orb.
  { eexists _, v2. split; [done|]. split; [done|]. left. by apply Hlast, Hisl. }
  assert (¬ last_page 200 k l) as Hnl by (intros ?%Hisl; done).
  destruct (slice 200 k l) as [|x sl] eqn:Hsl; [by apply slice_nonempty in Hsl; [|lia|]|].
  cbn [length Nat.eqb]. unfold last_page in Hnl.
  destruct (IH (Z.of_nat n + 1) (S n) v2 Hp) as (res & v' & Hrun & Hs' & Hres).
  - left. lia.
  - lia.
  - cbn [fst snd]. rewrite Hs2. fold l. lia.
  - lia.
  - replace (S n - 1)%nat with (S k) in Hrun by lia. cbn [fst snd] in *. rewrite Hs2 in *. fold l in Hrun, Hres.
    exists res, v'. done.
Qed.

Lemma do_pages_all fuel p v :
  do_ready p → (length (do_store (p, v)) < fuel)%nat →
  ∃ res v', do_pages fuel 0 [] (p, v) = (Returns res, (p, v')) ∧ do_records v' = do_records v ∧
    (res = Ok (do_store (p, v)) ∨ ∃ e, res = Err e ∧ do_refused (do_rootDomainName p) e).
Proof.
  intros Hp Hfuel. destruct (do_pages_rest fuel 0 1 p v Hp) as (res & v' & Hr & Hs & Hres);
    [by right|lia|lia|lia|]. exists res, v'. done.
Qed.

Lemma fetch_run p v :
  do_ready p →
  ∃ res v', fetchDoRecords (p, v) = (Returns res, (p, v')) ∧ do_records v' = do_records v ∧
    (res = Ok (do_store (p, v)) ∨ ∃ e, res = Err e ∧ do_refused (do_rootDomainName p) e).
Proof.
  intros Hp. unfold fetchDoRecords. rewrite prog_bind_eq. cbn [snd].
  by apply do_pages_all; [|apply do_fuel_law].
Qed.

(** The listing of the records of the domain. *)
Definition do_list (p : DigitalOceanProvider) (l : list do_Record) : list DnsRecord :=
  flatten (λ _ _, config_TTL p) (add_values (do_entry (do_rootDomainName p) <$> l)).

Lemma do_listing p l :
  NoDup (rr_key <$> do_list p l) ∧ ∀ r, r ∈ do_list p l ↔
    Records r = values_of (do_entry (do_rootDomainName p) <$> l) (Fqdn_ r) (Type_ r) ∧
    Records r ≠ [] ∧ TTL r = config_TTL p.
Proof.
  split; [apply flatten_nodup|]. intros r. unfold do_list. rewrite flatten_elem, add_values_lookup.
  destruct (values_of _ _ _) as [|x vs]; split; intuition congruence.
Qed.

Lemma do_GetRecords_run p v :
  do_ready p →
  ∃ res v', GetRecords (Provider:=digitalocean_Provider Getenv) (p, v) = (Returns res, (p, v')) ∧
    do_records v' = do_records v ∧
    match res with
    | Err e => ∃ e', e = "GetRecords: " +:+ e' ∧ do_refused (do_rootDomainName p) e'
    | Ok recs => recs = do_list p (do_store (p, v))
    end.
Proof.
  intros Hp. destruct (fetch_run p v Hp) as (res & v' & Hr & Hs & Hres).
  cbn [GetRecords digitalocean_Provider]. unfold do_GetRecords.
  rewrite prog_bind_eq. unfold get_state. cbn [fst]. rewrite try_bind_eq, Hr.
  destruct Hres as [->|(e & -> & He)]; eexists _, v'; do 2 (split; [done|]); [done|by eexists].
Qed.

(** The DigitalOcean listing is complete.  Whatever the number of pages, it
    ends (no number of iterations above the number of records is too small)
    and yields all records of the domain, grouped by full name and type, each
    with the TTL of the domain; or it reports the error of a request that the
    service refused. *)
Lemma do_GetRecords_complete (p : DigitalOceanProvider) (v : V) :
  do_ready p →
  let l := do_store (p, v) in
  (∃ res v', GetRecords (Provider:=digitalocean_Provider Getenv) (p, v) = (Returns res, (p, v')) ∧
     do_records v' = do_records v ∧
     match res with
     | Err e => ∃ e', e = "GetRecords: " +:+ e' ∧ do_refused (do_rootDomainName p) e'
     | Ok recs => NoDup (rr_key <$> recs) ∧ ∀ r, r ∈ recs ↔
         Records r = values_of (do_entry (do_rootDomainName p) <$> l) (Fqdn_ r) (Type_ r) ∧
         Records r ≠ [] ∧ TTL r = config_TTL p
     end) ∧
  (∀ fuel, (length l < fuel)%nat →
     ∃ res v', do_pages fuel 0 [] (p, v) = (Returns res, (p, v')) ∧
       (res = Ok l ∨ ∃ e, res = Err e ∧ do_refused (do_rootDomainName p) e)).
Proof.
  intros Hp l. split.
  - destruct (do_GetRecords_run p v Hp) as (res & v' & Hr & Hs & Hres).
    exists res, v'. do 2 (split; [done|]). destruct res; [|done]. subst. apply do_listing.
  - intros fuel Hfuel. destruct (do_pages_all fuel p v Hp Hfuel) as (res & v' & Hr & _ & Hres). eauto.
Qed.

(** ** The contract *)

Section contract.
Context (p : DigitalOceanProvider) (Hp : do_ready p).

#[local] Instance do_ValueStore : ValueStore W do_Record := {|
  vs_store := do_store;
  vs_good w := fst w = p ∧ NoDup (do_ID <$> do_store w);
  vs_value := do_Data;
|}.

(** With the TTL of the domain. *)
Definition do_zone_entry (x : do_Record) : entry :=
  mkEntry (nameToFqdn (do_rootDomainName p) (do_Name x)) (do_Type x) (do_Data x) (config_TTL p).

Definition do_made (record : DnsRecord) : do_Record → Prop := do_matches (do_rootDomainName p) record.

(** A call after waiting for the limiter. *)
Lemma do_wait_call {A B} (call : string → prog V (result A)) f (k : A → prog W (result B)) v :
  ∃ token v1, do_records v1 = do_records v ∧
    (do_Wait;; let! a := do_call call wrap f in k a) (p, v) =
    match call token v1 with
    | (Returns (Ok a), v2) => k a (p, v2)
    | (Returns (Err e), v2) => (Returns (Err (f e)), (p, v2))
    | (Panics e, v2) => (Panics e, (p, v2))
    | (Exits e, v2) => (Exits e, (p, v2))
    end.
Proof.
  destruct (do_Wait_eq p v Hp) as (v1 & Hw & Hs). pose proof Hp as [_ [token Ht]].
  exists token, v1. split; [done|]. rewrite prog_bind_eq, Hw, try_bind_eq, (do_call_eq _ _ _ token) by done.
  by destruct (call token v1) as [[[]| |] v2].
Qed.

Lemma do_find_ok record : find_law (do_matches (do_rootDomainName p) record) (do_find record).
Proof.
  intros [p' v] [Hp' Hnd]. simpl in Hp', Hnd. subst p'.
  destruct (fetch_run p v Hp) as (res & v' & Hr & Hs & Hres).
  assert (do_store (p, v') = do_store (p, v)) as Hst by (unfold do_store; simpl; by rewrite Hs).
  unfold runs, do_find. rewrite prog_bind_eq. unfold get_state. cbn [fst].
  rewrite try_bind_eq, Hr. unfold vs_good, vs_store, do_ValueStore, ours in *.
  destruct Hres as [->|(e & -> & _)]; eexists _, (p, v'); (split; [done|]); rewrite Hst; done.
Qed.

Lemma do_delete_ok : delete_law do_delete.
Proof.
  intros [p' v] x l [Hp' Hnd] Hx. simpl in Hp', Hnd, Hx. subst p'.
  unfold runs, do_delete. rewrite prog_bind_eq. unfold get_state. cbn [fst].
  destruct (do_wait_call (λ token, do_DeleteRecord token (do_rootDomainName p) (do_ID x))
    do_failed (λ _, mret (Ok tt)) v) as (token & v1 & Hs1 & ->).
  unfold do_store in *. simpl in *.
  destruct (do_delete_law token (do_rootDomainName p) x l v1) as (res & v2 & -> & Hres);
    [by rewrite Hs1..|].
  destruct res as [[]|e]; eexists _, (p, v2); (split; [done|]); simpl;
    unfold do_store; simpl; rewrite Hres, ?Hs1; [|done].
  split; [|done]. split; [done|].
  rewrite Hx, fmap_cons in Hnd. by apply list.NoDup_cons in Hnd as [_ ?].
Qed.

Lemma do_create_ok record : create_law (do_made record) (do_create record).
Proof.
  intros [p' v] value [Hp' Hnd]. simpl in Hp', Hnd. subst p'.
  unfold runs, do_create. rewrite prog_bind_eq. unfold get_state. cbn [fst].
  set (req := mkDoEdit _ _ _).
  destruct (do_wait_call (λ token, do_CreateRecord token (do_rootDomainName p) req)
    do_failed (λ _, mret (Ok tt)) v) as (token & v1 & Hs1 & ->).
  unfold do_store in *. simpl in *.
  destruct (do_create_law token (do_rootDomainName p) req v1) as (res & v2 & -> & Hres).
  rewrite Hs1 in Hres. destruct res as [[]|e]; eexists _, (p, v2); (split; [done|]); simpl;
    unfold do_store; simpl.
  - destruct Hres as (x & Hn & Ht & Hd & Hid & Hst). rewrite Hst. split.
    + split; [done|]. rewrite fmap_cons. by constructor.
    + by exists x.
  - by rewrite Hres.
Qed.

Lemma do_uniform w : uniform (entries do_zone_entry w).
Proof. by intros e e' (x & -> & _)%list_elem_of_fmap (y & -> & _)%list_elem_of_fmap _. Qed.

Lemma do_recognized record l :
  recognized do_zone_entry record (do_matches (do_rootDomainName p) record) l.
Proof.
  intros x _. unfold do_matches, e_key, rr_key. simpl. split; [by intros [-> ->]|by intros [= -> ->]].
Qed.

Lemma do_made_for record :
  TTL record = config_TTL p →
  made_for do_zone_entry record (do_matches (do_rootDomainName p) record) (do_made record).
Proof. intros Ht x Hx. split; [done|]. split; [by apply (do_recognized record [x]); [set_solver|]|]. done. Qed.

Lemma do_zone_list w : vs_zone do_zone_entry w = zone_of (do_list p (do_store w)).
Proof.
  unfold vs_zone, entries. simpl. set (l := do_store w).
  assert (∀ f t, values_of (do_entry (do_rootDomainName p) <$> l) f t =
    e_value <$> of_key (f, t) (do_zone_entry <$> l)) as Hv.
  { intros f t. rewrite <-values_of_key. unfold values_of. clearbody l.
    induction l as [|x l IH]; [done|]. rewrite !fmap_cons, !filter_cons.
    cbn [e_fqdn e_type do_entry do_zone_entry]. case_decide; rewrite ?fmap_cons, IH; done. }
  assert (∀ k, of_key k (do_zone_entry <$> l) ≠ [] →
    e_ttl <$> head (of_key k (do_zone_entry <$> l)) = Some (config_TTL p)) as Ht.
  { intros k. destruct (of_key k _) as [|e es] eqn:Hk; [done|]. intros _. simpl.
    assert (e ∈ of_key k (do_zone_entry <$> l)) as He by (rewrite Hk; set_solver).
    apply elem_of_key in He as [_ He]. by apply list_elem_of_fmap in He as (x & -> & _). }
  destruct (do_listing p l) as [Hnd Hin]. apply store_zone_listing; [done|].
  intros r. rewrite Hin, Hv. split; intros (Hr & Hne & Httl); (split; [done|]); (split; [done|]).
  - rewrite Ht; [by rewrite Httl|]. intros Hnil. unfold rr_key in *. by rewrite Hnil in Hr.
  - rewrite Ht in Httl; [by injection Httl|]. intros Hnil. unfold rr_key in *. by rewrite Hnil in Hr.
Qed.

(** Over an API that behaves as documented, the provider implements the
    contract, for the records that carry the TTL of the domain. *)
#[export] Instance digitalocean_contract : ProviderContract W (H:=digitalocean_Provider Getenv).
Proof.
  refine {| zone := vs_zone do_zone_entry; good := vs_good;
            storable := λ r, Records r ≠ [] ∧ TTL r = config_TTL p |}.
  - intros [p' v] [Hp' Hnd]. simpl in Hp', Hnd. subst p'.
    destruct (do_GetRecords_run p v Hp) as (res & v' & Hr & Hs & Hres).
    assert (do_store (p, v') = do_store (p, v)) as Hst by (unfold do_store; simpl; by rewrite Hs).
    exists res, (p, v'). split; [done|]. split; [split; [done|simpl; by rewrite Hst]|].
    rewrite !do_zone_list, Hst. split; [done|]. destruct res; [|done]. subst.
    split; [apply do_listing|done].
  - intros w r Hw [Hne Httl] Hz.
    destruct (add_clause do_zone_entry r (do_matches (do_rootDomainName p) r) (do_made r)
      (do_create r) w Hw (do_uniform w) (do_recognized r _) (do_create_ok r) (do_made_for r Httl) Hne Hz)
      as (res & w' & Hr & Hg & Hres).
    exists res, w'. do 2 (split; [done|]). destruct res; apply Hres.
  - intros w r Hw [Hne Httl] _.
    destruct (update_clause do_zone_entry r (do_matches (do_rootDomainName p) r) (do_made r)
      (do_find r) do_delete (do_create r) w Hw (do_uniform w) (do_recognized r _) (do_find_ok r)
      do_delete_ok (do_create_ok r) (do_made_for r Httl) Hne) as (res & w' & Hr & Hg & Hres).
    exists res, w'. do 2 (split; [done|]). destruct res; apply Hres.
  - intros w r Hw _.
    destruct (remove_clause do_zone_entry r (do_matches (do_rootDomainName p) r)
      (do_find r) do_delete w Hw (do_uniform w) (do_recognized r _) (do_find_ok r) do_delete_ok)
      as (res & w' & Hr & Hg & Hres).
    exists res, w'. do 2 (split; [done|]). destruct res; apply Hres.
Defined.
End contract.
End facts.

(** ** Publishing the scan at DigitalOcean *)

(** The values of a full name and type, as the service has them. *)
Definition do_held {V} `{DigitalOceanLaws V} (p : DigitalOceanProvider) (v : V)
    (key : string * string) : list string :=
  let root := do_rootDomainName p in
  do_Data <$> filter (λ x, (nameToFqdn root (do_Name x), do_Type x) = key) (do_records v root).

Section published.
Context `{GoUnicode} {V : Type} `{DigitalOceanLaws V} (Getenv : string → string) (cfg : Config).
Notation W := (DigitalOceanProvider * V)%type.
Context `{Client W} `{Clock W}.

Lemma do_held_values p v key :
  values_at (H:=do_ValueStore p) (do_zone_entry p) (p, v) key = do_held p v key.
Proof.
  unfold values_at, do_held, entries, of_key. simpl. unfold do_store. simpl.
  induction (do_records v (do_rootDomainName p)) as [|x l IH]; [done|].
  rewrite fmap_cons, !filter_cons. repeat case_decide; try done. by rewrite !fmap_cons, IH.
Qed.

(** [C4] The whole path to DigitalOcean.  The TTLs there belong to the domain;
    [Init] takes the configured TTL from there, and that is all that a run
    needs: after a scan, the run of the reconciler on its result returns, and
    changes no values under a name that the environment neither owns nor
    publishes.  If it succeeds, the service has under every published name
    exactly the addresses of the scan, in the ownership record exactly the
    published names, and under the other names that the environment owned no
    address any more. *)
Theorem digitalocean_published (m m' : MetadataClient) (D : gmap string MetadataDnsRecord)
    (w : W) (p : DigitalOceanProvider) (v : V) :
  GetMetadataDnsRecords cfg m w = (Returns (m', Ok D), (p, v)) →
  do_ready p → cfgTTL cfg = config_TTL p → NoDup (do_ID <$> do_store (p, v)) →
  let state := stateName cfg m in
  do_held p v (state, "A") = [] →
  ∃ res v', UpdateProviderDnsRecords (H0:=digitalocean_Provider Getenv) cfg m' D (p, v)
      = (Returns res, (p, v')) ∧
    (∀ key, (∀ k, key = managed state k →
         ¬ (k = state ∨ k ∈ dom D ∨ k ∈ do_held p v (state, "TXT"))) →
       (list_to_set (do_held p v' key) : gset string) = list_to_set (do_held p v key)) ∧
    match res with
    | Err _ => True
    | Ok _ =>
        (∀ k d, D !! k = Some d →
           (list_to_set (do_held p v' (managed state k)) : gset string) =
           list_to_set (Records (DnsRecord_ d))) ∧
        (∀ k, k ∉ dom D → k ∈ do_held p v (state, "TXT") → do_held p v' (managed state k) = [])
    end.
Proof.
  intros Hscan Hp Httl Hnd state HA.
  destruct (store_published (H0:=digitalocean_Provider Getenv)
    (H1:=digitalocean_contract Getenv p Hp) (H2:=do_ValueStore p)
    cfg (do_zone_entry p) (λ _, eq_refl) m m' D (p, v) w) as (res & [p' v'] & Hr & Hg & Hframe & Hres).
  - done.
  - intros k d _ Hne Ht. split; [done|]. by rewrite Ht.
  - done.
  - by rewrite do_held_values.
  - assert (p' = p) as -> by apply Hg. exists res, v'. split; [exact Hr|].
    setoid_rewrite do_held_values in Hframe. split; [exact Hframe|]. destruct res; [|done].
    destruct Hres as [Hdes Hgone]. setoid_rewrite do_held_values in Hdes.
    by setoid_rewrite do_held_values in Hgone.
Qed.
End published.

(** ** Start-up with DigitalOcean *)

Section started.
Context `{GoUnicode} `{GoURL} {V : Type} `{DigitalOceanApi V} (Getenv : string → string).
Notation W := (DigitalOceanProvider * V)%type.
Context `{Clock W} `{Http W} `{Transport W} `{JsonMarshal ExternalDNSEvent}.
Context `{JsonUnmarshal Host} `{JsonUnmarshal Service} `{JsonUnmarshal Stack}.
Context `{∀ A, JsonUnmarshal A → JsonUnmarshal (list A)}.
Context (OpenFile : string → prog W (result unit)).

(** The provider has assigned the package variable. *)
#[local] Instance do_Process : Process W := {|
  os_OpenFile := OpenFile;
  assigned_TTL w := Some (config_TTL (fst w));
|}.

Lemma do_Init_ready root w w' :
  do_Init Getenv root w = (Returns (Ok tt), w') →
  do_ready (fst w') ∧ do_rootDomainName (fst w') = UnFqdn root ∧
  ∃ token v v', do_Domain token (UnFqdn root) v = (Returns (Ok (config_TTL (fst w'))), v').
Proof.
  unfold do_Init, with_env. destruct (bool_decide _); [done|].
  intros Hr. apply prog_bind_returns in Hr as ([] & w1 & Hm & Hr). injection Hm as <-.
  apply prog_bind_returns in Hr as ([] & w2 & Hw & Hr).
  apply try_bind_ok in Hr as ([] & w3 & Ha & Hr).
  apply prog_bind_returns in Hr as ([] & w4 & Hw' & Hr).
  apply try_bind_ok in Hr as (ttl & w5 & Hd & Hr).
  apply prog_bind_returns in Hr as ([] & w6 & Hm & Hr). injection Hm as <-. injection Hr as <-.
  assert (∀ (w w' : W) a, do_Wait w = (Returns a, w') → fst w' = fst w) as Hwait.
  { intros u u' a. unfold do_Wait. rewrite prog_bind_eq. unfold get_state.
    destruct (do_limiter (fst u)); [|done]. unfold outer.
    destruct (do_limiter_Wait (snd u)) as [[]]; by intros [= _ <-]. }
  assert (∀ A (call : string → prog V A) (w w' : W) a, do_call call w = (Returns a, w') →
    fst w' = fst w ∧ ∃ token, do_client (fst w) = Some token ∧
      call token (snd w) = (Returns a, snd w')) as Hcall.
  { intros A call u u' a. unfold do_call. rewrite prog_bind_eq. unfold get_state.
    destruct (do_client (fst u)) as [token|]; [|done]. simpl. unfold outer.
    destruct (call token (snd u)) as [[]] eqn:Hc; intros [= <- <-]; eauto. }
  apply Hwait in Hw, Hw'. apply Hcall in Ha as [Ha _], Hd as [Hd (token & _ & Hd')].
  simpl. rewrite Hd, Hw', Ha, Hw. simpl. split; [by split; [|eexists]|]. split; [done|]. eauto.
Qed.

(** After start-up with this provider, the configured TTL is the one of the
    domain. *)
Lemma digitalocean_started providers f w e w' :
  providers !! flag_provider f = Some (digitalocean_Provider Getenv) →
  setEnv Getenv providers f w = (Returns e, w') →
  env_provider e = digitalocean_Provider Getenv ∧ do_ready (fst w') ∧
  cfgTTL (env_config e) = config_TTL (fst w').
Proof.
  intros Hreg Hr. unfold setEnv in Hr.
  apply prog_bind_returns in Hr as ([] & w1 & _ & Hr).
  apply prog_bind_returns in Hr as (cfg & w2 & _ & Hr).
  apply prog_bind_returns in Hr as (cm & w3 & _ & Hr).
  apply prog_bind_returns in Hr as (platformAPI & w4 & _ & Hr).
  apply prog_bind_returns in Hr as (provider & w5 & Hp & Hr).
  injection Hr as <- <-. unfold or_fatal in Hp.
  apply prog_bind_returns in Hp as ([p|] & w6 & Hp & Hr); [|done]. injection Hr as -> ->.
  unfold GetProvider in Hp. rewrite Hreg in Hp.
  apply try_bind_ok in Hp as ([] & w7 & Hi & Hp). injection Hp as <- <-.
  split; [done|]. split; [|done]. by apply (do_Init_ready _ _ _ Hi).
Qed.
End started.

(** ** An API in memory *)
Module Example_digitalocean.

Definition api : Type := list do_Record.

(** The name that the service stores. *)
Definition relative (root fqdn : string) : string :=
  if bool_decide (fqdn = Fqdn root) then "@" else TrimSuffix (UnFqdn fqdn) ("." +:+ root).

Definition page_number (page : Z) : nat := if page =? 0 then 1%nat else Z.to_nat page.

#[export] Instance calls : DigitalOceanApi api := {|
  do_Account := λ _, mret (Ok tt);
  do_Domain := λ _ _, mret (Ok 1800);
  do_Records := λ _ _ size page l,
    let n := page_number page in
    (Returns (Ok (slice (Z.to_nat size) (n - 1) l,
       Some (mkDoLinks (length l <=? Z.to_nat size * S (n - 1))%nat (Ok (Z.of_nat n))))), l);
  do_CreateRecord := λ _ root r l,
    let name := relative root (edit_Name r) in
    if bool_decide (nameToFqdn root name = edit_Name r) then
      (Returns (Ok tt),
       mkDoRecord (Samples.fresh_number (do_ID <$> l)) (edit_Type r) name (edit_Data r) :: l)
    else (Returns (Err "the name is not in the domain"), l);
  do_DeleteRecord := λ _ _ id l, (Returns (Ok tt), filter (λ r, do_ID r ≠ id) l);
  do_limiter_Wait := mret tt;
  do_fuel := λ l, S (length l);
|}.

#[export] Instance laws : DigitalOceanLaws api.
Proof.
  refine {| do_records := λ l _, l |}.
  - intros l. by exists l.
  - intros token root size page n l Hsize Hpage Hn.
    assert (page_number page = n) as Hnum.
    { unfold page_number. destruct Hpage as [->|[-> ->]]; [|done].
      destruct (Z.eqb_spec (Z.of_nat n) 0); [lia|]. apply Nat2Z.id. }
    eexists _, l. split; [reflexivity|]. split; [reflexivity|]. simpl. rewrite Hnum.
    split; [done|]. unfold last_page. by rewrite Nat.leb_le.
  - intros token root r l. simpl. case_bool_decide as Hn; [|by eexists _, _].
    eexists _, _. split; [reflexivity|]. simpl. eexists (mkDoRecord _ _ _ _).
    split; [exact Hn|]. do 2 (split; [reflexivity|]).
    split; [apply Samples.fresh_number_fresh|reflexivity].
  - intros token root x l0 l Hl Hnd. eexists _, _. split; [reflexivity|]. simpl.
    rewrite Hl in Hnd |- *. rewrite fmap_cons in Hnd. apply list.NoDup_cons in Hnd as [Hx _].
    rewrite filter_cons, decide_False by naive_solver.
    rewrite filter_all; [done|]. apply list.Forall_forall. intros x' Hx' Heq. apply Hx.
    rewrite <-Heq. by apply list_elem_of_fmap_2.
  - intros l root. simpl. lia.
Defined.

Definition env (name : string) : string := "token".
Definition domain : api :=
  [mkDoRecord 1 "A" "@" "192.0.2.1"; mkDoRecord 2 "A" "www" "192.0.2.2";
   mkDoRecord 3 "TXT" "www" "text"].
Definition started : DigitalOceanProvider * api :=
  snd (do_Init env "io." (mkDigitalOcean None "" false 300, domain)).

Lemma do_GetRecords_complete_witness :
  ∃ recs v', GetRecords (Provider:=digitalocean_Provider env) started
      = (Returns (Ok recs), (fst started, v')) ∧
    mkDnsRecord "www.io." ["192.0.2.2"] "A" 1800 ∈ recs.
Proof.
  assert (match fst (GetRecords (Provider:=digitalocean_Provider env) started) with
          | Returns (Ok _) => True | _ => False end) as Hok by (vm_compute; exact I).
  destruct (do_GetRecords_complete env (fst started) (snd started)) as [(res & v' & Hr & _ & Hres) _].
  { split; [reflexivity|by eexists]. }
  change (fst started, snd started) with started in Hr. rewrite Hr in Hok.
  destruct res as [recs|]; [|destruct Hok]. exists recs, v'. split; [exact Hr|].
  apply Hres. split; [vm_compute; reflexivity|]. split; [discriminate|vm_compute; reflexivity].
Defined.

(** A scan published there: the environment published [old.io.] before. *)
Definition cfg : Config :=
  mkConfig "io." 1800 "http://platform" "key" "secret" defaultNameTemplate
    "http://metadata" ":10000".
Definition service : MetaClient.Client (DigitalOceanProvider * api) :=
  Example_environment.fixed_client _ "1" (Samples.stack "Default" "uuid-2")
    Example_environment.services Example_environment.hosts.
Definition clock : Clock (DigitalOceanProvider * api) := Samples.frozen_clock _.
Existing Instances Example_environment.unicode service clock.

Definition before : DigitalOceanProvider * api :=
  (fst started, mkDoRecord 4 "TXT" "external-dns-uuid-1" "old.io." ::
                mkDoRecord 5 "A" "old" "192.0.2.9" :: domain).
Definition scanned : gmap string MetadataDnsRecord :=
  match fst (GetMetadataDnsRecords cfg Example_environment.m before) with
  | Returns (_, Ok D) => D
  | _ => ∅
  end.

Lemma digitalocean_published_witness :
  ∃ updated v', UpdateProviderDnsRecords (H0:=digitalocean_Provider env) cfg
      (mkMetadataClient "Default" "uuid-1") scanned before = (Returns (Ok updated), (fst before, v')) ∧
    do_held (fst before) v' ("old.io.", "A") = [] ∧
    list_to_set (do_held (fst before) v' ("web.shop.default.io.", "A")) =
      ({["203.0.113.5"; "198.51.100.1"]} : gset string) ∧
    list_to_set (do_held (fst before) v' ("www.io.", "A")) = ({["192.0.2.2"]} : gset string).
Proof.
  destruct (digitalocean_published env cfg Example_environment.m
    (mkMetadataClient "Default" "uuid-1") scanned before (fst before) (snd before))
    as (res & v' & Hr & Hframe & Hres).
  - vm_compute. reflexivity.
  - split; [reflexivity|by eexists].
  - reflexivity.
  - eval_decide.
  - reflexivity.
  - change (fst before, snd before) with before in Hr.
    assert (match fst (UpdateProviderDnsRecords (H0:=digitalocean_Provider env) cfg
      (mkMetadataClient "Default" "uuid-1") scanned before) with
      | Returns (Ok _) => True | _ => False end) as Hok by (vm_compute; exact I).
    rewrite Hr in Hok. destruct res as [updated|]; [|destruct Hok]. destruct Hres as [Hdes Hgone].
    exists updated, v'. split; [exact Hr|]. split; [|split].
    + apply (Hgone "old.io."); eval_decide.
    + assert (∃ d, scanned !! "web.shop.default.io." = Some d ∧
        Records (DnsRecord_ d) = ["203.0.113.5"; "198.51.100.1"]) as (d & Hd & Hv)
        by (eexists; split; vm_compute; reflexivity).
      etransitivity; [exact (Hdes "web.shop.default.io." d Hd)|]. rewrite Hv. eval_decide.
    + etransitivity; [apply (Hframe ("www.io.", "A"))|eval_decide].
      intros k Hk. injection Hk as <-. eval_decide.
Defined.
End Example_digitalocean.
