(* ===== verification/AliDNS.v ===== *)
(** * The AliDNS provider

    [src/providers/alidns/alidns.go], over the calls of the Alibaba Cloud SDK
    it uses.  The provider object is the first component of the world. *)

From S2P Require Import Prelude GoStrings GoStrconv FastTemplate Utils GoHttp MetaTypes Provider.
From S2P Require Import Samples Grouping Store StoreZone Config MetaClient Metadata Reconcile Sync.
From S2P Require Import StorePublished.
Local Open Scope Z_scope.

(** ** The SDK

    Fields of responses are pointers, and so are the elements of lists. *)

Record ali_Record := mkAliRecord {
  ali_RecordId : option string;
  ali_RR : option string;
  ali_Type : option string;
  ali_Value : option string;
  ali_TTL : option Z;
}.

(** [alidns.AddDomainRecordRequest] *)
Record ali_AddRequest := mkAliAdd {
  add_DomainName : string;
  add_RR : string;
  add_Type : string;
  add_Value : string;
  add_TTL : Z;
}.

(** [response.Body] with the records, nil when the response, its body or the
    list is, and the field [TotalCount]. *)
Record ali_Body := mkAliBody { ali_Records : list (option ali_Record); ali_TotalCount : option Z }.

Class AlidnsApi (V : Type) := {
  ali_Client : Type;
  ali_NewClient : string → string → string → prog V (result ali_Client);
  DescribeDomainInfo : ali_Client → string → prog V (result unit);
  DescribeDomainRecords : ali_Client → string → Z → Z → prog V (result (option ali_Body));
  AddDomainRecord : ali_Client → ali_AddRequest → prog V (result unit);
  DeleteDomainRecord : ali_Client → string → prog V (result unit);
  (** A number of iterations after which a listing has ended. *)
  ali_fuel : V → nat;
}.

(** ** Names and values *)

Definition alidnsEndpoint : string := "alidns.aliyuncs.com".
Definition ali_pageSize : Z := 500.

Definition checkedTTL (ttl : Z) : result Z :=
  if ttl <=? 0 then Err "AliDNS TTL must be greater than zero" else Ok ttl.

Section names.
Context `{GoUnicode} (rootDomainName : string).

Definition ali_parseName (record : DnsRecord) : result string :=
  let fqdn := UnFqdn (Fqdn_ record) in
  if bool_decide (fqdn = rootDomainName) then Ok "@"
  else
    let suffix := "." +:+ rootDomainName in
    if negb (HasSuffix fqdn suffix) then
      Err ("AliDNS record " +:+ Quote (Fqdn_ record) +:+ " is outside managed zone "
           +:+ Quote rootDomainName)
    else
      let rr := TrimSuffix fqdn suffix in
      if bool_decide (rr = "") then Ok "@" else Ok rr.

Definition ali_prepareRecord (record : DnsRecord) (value : string) : result ali_AddRequest :=
  match checkedTTL (TTL record) with
  | Err err => Err err
  | Ok ttl =>
      match ali_parseName record with
      | Err err => Err err
      | Ok rr => Ok (mkAliAdd rootDomainName rr (Type_ record) value ttl)
      end
  end.

(** The full name of a record of the zone. *)
Definition ali_fqdn (RR : string) : string :=
  let rr := TrimSpace RR in
  if bool_decide (rr = "") || bool_decide (rr = "@") then rootDomainName +:+ "."
  else rr +:+ "." +:+ rootDomainName +:+ ".".

(** ** The listing *)

(** One iteration of the loop over the records, on the map [grouped]. *)
Definition ali_step (grouped : gmap (string * string) DnsRecord) (current : option ali_Record)
    : gmap (string * string) DnsRecord :=
  match current with
  | Some (mkAliRecord _ (Some RR) (Some type) (Some value) (Some ttl)) =>
      let fqdn := ali_fqdn RR in
      let key := (fqdn, type) in
      let record := default (mkDnsRecord fqdn [] type ttl) (grouped !! key) in
      <[key := mkDnsRecord (Fqdn_ record) (Records record ++ [value]) (Type_ record)
                 (TTL record)]> grouped
  | _ => grouped
  end.

(** [sort.Slice]'s function: by name, then by type. *)
Definition key_less (i j : string * string) : bool :=
  if bool_decide (fst i = fst j) then str_lt (snd i) (snd j) else str_lt (fst i) (fst j).

Definition ali_group (apiRecords : list (option ali_Record)) : list DnsRecord :=
  let grouped := foldl ali_step ∅ apiRecords in
  omap (λ key, grouped !! key) (isort key_less (elements (dom grouped))).

(** The record is one of [record]'s, [name] being its relative name. *)
Definition ali_matches (name : string) (record : DnsRecord) (current : option ali_Record) : bool :=
  match current with
  | Some r => bool_decide (ali_RR r = Some name) && bool_decide (ali_Type r = Some (Type_ record))
  | None => false
  end.
End names.

(** ** The provider *)

Section alidns.
Context `{GoUnicode} {V : Type} `{AlidnsApi V} (Getenv : string → string).

Record AlidnsProvider := mkAlidns { ali_client : option ali_Client; ali_root : string }.

Notation W := (AlidnsProvider * V)%type.

(** A call on the interface value [a.client]. *)
Definition ali_call {A} (call : ali_Client → prog V A) : prog W A :=
  a ← get_state;
  deref (ali_client a) (λ client, outer (call client)).

Definition ali_failed (err : error) : error := "Alibaba Cloud API call has failed: " +:+ err.

Definition ali_Init (rootDomainName : string) : prog W (result unit) :=
  let accessKey := TrimSpace (Getenv "ALICLOUD_ACCESS_KEY_ID") in
  if bool_decide (accessKey = "") then mret (Err "ALICLOUD_ACCESS_KEY_ID is not set")
  else
    let secretKey := TrimSpace (Getenv "ALICLOUD_ACCESS_KEY_SECRET") in
    if bool_decide (secretKey = "") then mret (Err "ALICLOUD_ACCESS_KEY_SECRET is not set")
    else
      let! client := outer (ali_NewClient accessKey secretKey alidnsEndpoint)
        wrap (λ err, "failed to create Alibaba Cloud DNS client: " +:+ err) in
      let root := UnFqdn rootDomainName in
      modify_state (λ _, mkAlidns (Some client) root);;
      let! _ := ali_call (λ client, DescribeDomainInfo client root)
        wrap (λ err, "failed to describe root domain " +:+ Quote root +:+ ": " +:+ err) in
      mret (Ok tt).

Definition ali_HealthCheck : prog W (result unit) :=
  a ← get_state;
  let! _ := ali_call (λ client, DescribeDomainInfo client (ali_root a)) in
  mret (Ok tt).

Definition ali_create (record : DnsRecord) (value : string) : prog W (result unit) :=
  a ← get_state;
  match ali_prepareRecord (ali_root a) record value with
  | Err err => mret (Err err)
  | Ok request =>
      let! _ := ali_call (λ client, AddDomainRecord client request) wrap ali_failed in
      mret (Ok tt)
  end.

Definition ali_AddRecord (record : DnsRecord) : prog W (result unit) :=
  each (Records record) (ali_create record).

(** The loop of [listRecords]; [all] are the records of the pages before. *)
Fixpoint ali_pages (fuel : nat) (pageNumber : Z) (all : list (option ali_Record))
    : prog W (result (list (option ali_Record))) :=
  match fuel with
  | O => lift (Panics "the listing has not ended")
  | S fuel =>
      a ← get_state;
      let! response := ali_call (λ client,
          DescribeDomainRecords client (ali_root a) pageNumber ali_pageSize) wrap ali_failed in
      match response with
      | None => mret (Err "Alibaba Cloud returned an incomplete DNS record response")
      | Some body =>
          let pageRecords := ali_Records body in
          let all := all ++ pageRecords in
          match ali_TotalCount body with
          | Some total =>
              if total <=? Z.of_nat (length all) then mret (Ok all)
              else if (length pageRecords =? 0)%nat then
                mret (Err "Alibaba Cloud pagination ended before TotalCount was reached")
              else ali_pages fuel (pageNumber + 1) all
          | None =>
              if Z.of_nat (length pageRecords) <? ali_pageSize then mret (Ok all)
              else ali_pages fuel (pageNumber + 1) all
          end
      end
  end.

Definition ali_listRecords : prog W (result (list (option ali_Record))) :=
  fuel ← (λ w, (Returns (ali_fuel (snd w)), w));
  ali_pages fuel 1 [].

Definition ali_findRecords (record : DnsRecord) : prog W (result (list (option ali_Record))) :=
  let! records := ali_listRecords in
  a ← get_state;
  match ali_parseName (ali_root a) record with
  | Err err => mret (Err err)
  | Ok name => mret (Ok (filter (λ current, ali_matches name record current = true) records))
  end.

Definition ali_delete (current : option ali_Record) : prog W (result unit) :=
  match current ≫= ali_RecordId with
  | Some id =>
      if bool_decide (TrimSpace id = "") then
        mret (Err "Alibaba Cloud returned a matching DNS record without an ID")
      else
        let! _ := ali_call (λ client, DeleteDomainRecord client id) wrap ali_failed in
        mret (Ok tt)
  | None => mret (Err "Alibaba Cloud returned a matching DNS record without an ID")
  end.

Definition ali_RemoveRecord (record : DnsRecord) : prog W (result unit) :=
  let! records := ali_findRecords record in
  each records ali_delete.

Definition ali_UpdateRecord (record : DnsRecord) : prog W (result unit) :=
  let! _ := ali_RemoveRecord record in
  ali_AddRecord record.

Definition ali_GetRecords : prog W (result (list DnsRecord)) :=
  let! apiRecords := ali_listRecords in
  a ← get_state;
  mret (Ok (ali_group (ali_root a) apiRecords)).

Definition alidns_Provider : Provider W := {|
  Init := ali_Init;
  GetName := "AliDNS";
  HealthCheck := ali_HealthCheck;
  AddRecord := ali_AddRecord;
  RemoveRecord := ali_RemoveRecord;
  UpdateRecord := ali_UpdateRecord;
  GetRecords := ali_GetRecords;
|}.
End alidns.

(** ** The documented behaviour of the service

    Pages are numbered from one; a page but for the last one is full; and the
    number of all records is told with every page or with none.  A record that
    was added has the fields of the request and an identifier of its own; a
    record is deleted by its identifier; and a call that fails changes
    nothing. *)
Class AlidnsLaws (V : Type) `{AlidnsApi V} := {
  ali_records : V → string → list (option ali_Record);
  ali_counts : V → bool;
  ali_list_law client root size n v :
    0 < size → (0 < n)%nat →
    ∃ res v', DescribeDomainRecords client root (Z.of_nat n) size v = (Returns res, v') ∧
      ali_records v' = ali_records v ∧ ali_counts v' = ali_counts v ∧
      match res with
      | Ok (Some body) =>
          ali_Records body = slice (Z.to_nat size) (n - 1) (ali_records v root) ∧
          ali_TotalCount body =
            if ali_counts v then Some (Z.of_nat (length (ali_records v root))) else None
      | _ => True
      end;
  ali_add_law client req v :
    let l := ali_records v (add_DomainName req) in
    ∃ res v', AddDomainRecord client req v = (Returns res, v') ∧
      match res with
      | Ok _ => ∃ id, TrimSpace id ≠ "" ∧ (∀ x, x ∈ l → x ≫= ali_RecordId ≠ Some id) ∧
          ali_records v' (add_DomainName req) ≡ₚ
            Some (mkAliRecord (Some id) (Some (add_RR req)) (Some (add_Type req))
                    (Some (add_Value req)) (Some (add_TTL req))) :: l
      | Err _ => ali_records v' = ali_records v
      end;
  ali_delete_law client root id x l v :
    ali_records v root ≡ₚ x :: l → x ≫= ali_RecordId = Some id →
    (∀ y, y ∈ l → y ≫= ali_RecordId ≠ Some id) →
    ∃ res v', DeleteDomainRecord client id v = (Returns res, v') ∧
      match res with
      | Ok _ => ali_records v' root ≡ₚ l
      | Err _ => ali_records v' = ali_records v
      end;
  ali_fuel_law v root : (length (ali_records v root) < ali_fuel v)%nat;
}.

(** ** Properties of the grouping *)

Lemma key_less_strict P : strict_order_on key_less P.
Proof.
  pose proof (str_lt_strict (λ _, True)) as Ho. unfold key_less. split.
  - intros [f t] _. simpl. rewrite bool_decide_eq_true_2 by done. by apply (less_irrefl _ _ Ho).
  - intros [f1 t1] [f2 t2] [f3 t3] _ _ _. simpl.
    repeat case_bool_decide; subst; try done; intros Hlt1 Hlt2;
      try (eapply (less_trans _ _ Ho); eauto; done).
    pose proof (less_trans _ _ Ho _ _ _ I I I Hlt1 Hlt2) as Hlt3.
    by rewrite (less_irrefl _ _ Ho) in Hlt3.
  - intros [f1 t1] [f2 t2] _ _ Hne. simpl. repeat case_bool_decide; subst; try done.
    + apply (less_total _ _ Ho); [done..|congruence].
    + by apply (less_total _ _ Ho).
Qed.

Section grouping.
Context (root : string).

(** The values and TTLs stored under a key, in order. *)
Definition ali_entry (current : option ali_Record) : option ((string * string) * (string * Z)) :=
  match current with
  | Some (mkAliRecord _ (Some RR) (Some type) (Some value) (Some ttl)) =>
      Some ((ali_fqdn root RR, type), (value, ttl))
  | _ => None
  end.

Definition ali_of (apiRecords : list (option ali_Record)) (key : string * string)
    : list (string * Z) :=
  snd <$> filter (λ e, fst e = key) (omap ali_entry apiRecords).

(** What is listed under a key: all values, and the TTL of the first. *)
Definition ali_listed (apiRecords : list (option ali_Record)) (key : string * string)
    : option DnsRecord :=
  match ali_of apiRecords key with
  | [] => None
  | (value, ttl) :: l => Some (mkDnsRecord (fst key) (value :: l.*1) (snd key) ttl)
  end.

Lemma ali_of_snoc l current key :
  ali_of (l ++ [current]) key =
  ali_of l key ++
  match ali_entry current with
  | Some (k, e) => if bool_decide (k = key) then [e] else []
  | None => []
  end.
Proof.
  unfold ali_of. rewrite omap_app, list.filter_app, fmap_app. f_equal.
  destruct (ali_entry current) as [[k e]|] eqn:He.
  - rewrite (omap_cons_Some ali_entry current _ [] He). cbn [omap list_omap].
    rewrite filter_cons, filter_nil. simpl. case_bool_decide; case_decide; done.
  - by rewrite (omap_cons_None ali_entry current [] He).
Qed.

Lemma ali_grouped_lookup apiRecords key :
  foldl (ali_step root) ∅ apiRecords !! key = ali_listed apiRecords key.
Proof.
  unfold ali_listed. induction apiRecords as [|current l IH] using rev_ind; [done|].
  rewrite foldl_snoc, ali_of_snoc. set (M := foldl (ali_step root) ∅ l) in *.
  unfold ali_step. destruct current as [[id [RR|] [type|] [value|] [ttl|]]|]; simpl;
    rewrite ?app_nil_r; try done.
  case_bool_decide as Hk.
  - rewrite Hk, lookup_insert_eq, IH. destruct (ali_of l key) as [|[v t] vs]; simpl.
    + by destruct key; injection Hk as -> ->.
    + by rewrite fmap_app.
  - rewrite lookup_insert_ne, app_nil_r by done. done.
Qed.

Lemma ali_group_spec apiRecords :
  StronglySorted (λ r r', key_less (rr_key r) (rr_key r') = true) (ali_group root apiRecords) ∧
  ∀ r, r ∈ ali_group root apiRecords ↔ ali_listed apiRecords (rr_key r) = Some r.
Proof.
  unfold ali_group. set (M := foldl (ali_step root) ∅ apiRecords).
  assert (∀ key r, M !! key = Some r → rr_key r = key) as Hkey.
  { intros key r. unfold M. rewrite ali_grouped_lookup. unfold ali_listed.
    destruct (ali_of apiRecords key) as [|[v t] l]; [done|]. intros [= <-]. by destruct key. }
  split.
  - apply (StronglySorted_omap (λ i j, key_less i j = true)).
    + intros k k' r r' _ _ Hlt Hr%Hkey Hr'%Hkey. by rewrite Hr, Hr'.
    + apply (isort_sorted _ (λ _, True)); [apply key_less_strict|by apply list.Forall_true|].
      apply NoDup_elements.
  - intros r. rewrite list_elem_of_omap, <-ali_grouped_lookup. fold M. split.
    + intros (key & _ & Hr). by rewrite (Hkey key r Hr).
    + intros Hr. exists (rr_key r). split; [|done].
      rewrite elem_of_isort, elem_of_elements. by eapply elem_of_dom_2.
Qed.
End grouping.

(** ** Records of the zone that can be told apart

    The relative name [rr] and the full name [fqdn] stand for each other. *)
Definition ali_reads `{GoUnicode} (root rr fqdn : string) : Prop :=
  ali_fqdn root rr = fqdn ∧ ali_parseName root (mkDnsRecord fqdn [] "" 0) = Ok rr.

(** A record with all fields, an identifier that is not blank, and a relative
    name that the provider sends itself. *)
Definition ali_complete `{GoUnicode} (root : string) (x : option ali_Record) : Prop :=
  ∃ id rr type value ttl,
    x = Some (mkAliRecord (Some id) (Some rr) (Some type) (Some value) (Some ttl)) ∧
    TrimSpace id ≠ "" ∧ ali_parseName root (mkDnsRecord (ali_fqdn root rr) [] "" 0) = Ok rr.

Definition ali_distinct (l : list (option ali_Record)) : Prop :=
  NoDup ((λ x, x ≫= ali_RecordId) <$> l).
#[export] Instance ali_distinct_perm : Proper (Permutation ==> iff) ali_distinct.
Proof. intros l l' Hl. unfold ali_distinct. by rewrite Hl. Qed.

Lemma ali_distinct_new x id l :
  x ≫= ali_RecordId = Some id → (∀ y, y ∈ l → y ≫= ali_RecordId ≠ Some id) →
  ali_distinct l → ali_distinct (x :: l).
Proof.
  intros Hx Hl Hd. unfold ali_distinct. rewrite fmap_cons, Hx. constructor; [|done].
  intros (y & Hid & Hy)%list_elem_of_fmap. by apply (Hl y Hy).
Qed.

(** The record as an entry of the zone, and the ones made for [record]. *)
Definition ali_zone_entry (root : string) (x : option ali_Record) : entry :=
  mkEntry (ali_fqdn root (default "" (x ≫= ali_RR))) (default "" (x ≫= ali_Type))
    (default "" (x ≫= ali_Value)) (default 0 (x ≫= ali_TTL)).

Definition ali_made (root : string) (record : DnsRecord) (name : string) (x : option ali_Record)
    : Prop :=
  ∃ id value, x = Some (mkAliRecord (Some id) (Some name) (Some (Type_ record)) (Some value)
                          (Some (TTL record))).

Lemma ali_distinct_cons `{GoUnicode} root x l l' :
  l' ≡ₚ x :: l → Forall (ali_complete root) l' → ali_distinct l' →
  ∃ id, x ≫= ali_RecordId = Some id ∧ TrimSpace id ≠ "" ∧
    (∀ y, y ∈ l → y ≫= ali_RecordId ≠ Some id) ∧ Forall (ali_complete root) l ∧ ali_distinct l.
Proof.
  intros Hl. unfold ali_distinct. rewrite Hl, fmap_cons.
  intros [(id & rr & t & v & ttl & -> & Hb & _) Hc]%list.Forall_cons [Hx Hd]%list.NoDup_cons.
  exists id. do 2 (split; [done|]). split; [|done]. intros y Hy Hid. apply Hx.
  simpl. rewrite <-Hid. by apply (list_elem_of_fmap_2 (λ x, x ≫= ali_RecordId)).
Qed.

Lemma ali_sorted_nodup l :
  StronglySorted (λ r r', key_less (rr_key r) (rr_key r') = true) l → NoDup (rr_key <$> l).
Proof.
  induction 1 as [|r l _ IH Hr]; [constructor|]. rewrite fmap_cons. constructor; [|done].
  intros (r' & Heq & Hr')%list_elem_of_fmap. rewrite list.Forall_forall in Hr.
  specialize (Hr r' Hr'). rewrite Heq in Hr.
  by rewrite (less_irrefl _ _ (key_less_strict (λ _, True))) in Hr.
Qed.

Lemma ali_of_complete `{GoUnicode} root l key :
  Forall (ali_complete root) l →
  ali_of root l key = (λ e, (e_value e, e_ttl e)) <$> of_key key (ali_zone_entry root <$> l).
Proof.
  unfold ali_of, of_key. induction 1 as [|x l (id & rr & t & v & ttl & -> & _) _ IH]; [done|].
  erewrite omap_cons_Some by reflexivity. rewrite fmap_cons, !filter_cons.
  unfold e_key at 1. simpl. case_decide; case_decide; try done. by rewrite !fmap_cons, IH.
Qed.

(** ** Properties of the listing *)

Section facts.
Context `{GoUnicode} {V : Type} `{AlidnsLaws V} (Getenv : string → string).
Notation W := (AlidnsProvider * V)%type.

Definition ali_store (w : AlidnsProvider * V) : list (option ali_Record) :=
  ali_records (snd w) (ali_root (fst w)).

Lemma ali_call_eq {A} (call : ali_Client → prog V A) a v client :
  ali_client a = Some client →
  ali_call call (a, v) = (let '(r, v') := call client v in (r, (a, v'))).
Proof. intros Hc. unfold ali_call, deref. rewrite prog_bind_eq. simpl. by rewrite Hc. Qed.

(** The error of a listing request that the service refused, or answered
    without a body. *)
Definition ali_refused (root : string) (e : error) : Prop :=
  ∃ client n v v',
    (DescribeDomainRecords client root n ali_pageSize v = (Returns (Ok None), v') ∧
     e = "Alibaba Cloud returned an incomplete DNS record response") ∨
    ∃ e', DescribeDomainRecords client root n ali_pageSize v = (Returns (Err e'), v') ∧
      e = ali_failed e'.

(** From page [n] on, with what was read before. *)
Lemma ali_pages_rest fuel n a v :
  is_Some (ali_client a) → (0 < n)%nat →
  (length (ali_store (a, v)) < fuel + 500 * (n - 1))%nat → (0 < fuel)%nat →
  ∃ res v', ali_pages fuel (Z.of_nat n) (take (500 * (n - 1)) (ali_store (a, v))) (a, v)
      = (Returns res, (a, v')) ∧ ali_records v' = ali_records v ∧
    (res = Ok (ali_store (a, v)) ∨ ∃ e, res = Err e ∧ ali_refused (ali_root a) e).
Proof.
  revert n v. induction fuel as [|fuel IH]; [lia|]. intros n v Ha Hn Hfuel _.
  cbn [ali_pages]. rewrite prog_bind_eq. unfold get_state. cbn [fst].
  pose proof Ha as [client Hc].
  rewrite try_bind_eq, (ali_call_eq _ _ _ client) by done.
  destruct (ali_list_law client (ali_root a) ali_pageSize n v)
    as (res & v2 & Hr & Hs & Hcounts & Hres); [done..|].
  rewrite Hr. destruct res as [[body|]|e];
    [|eexists _, v2; split; [done|]; split; [done|]; right; eexists; split; [done|]; exists client, (Z.of_nat n), v, v2; eauto..].
  destruct Hres as [-> ->]. change (Z.to_nat ali_pageSize) with 500%nat.
  unfold ali_store in *. cbn [fst snd] in *. set (l := ali_records v (ali_root a)) in *.
  set (k := (n - 1)%nat) in *. rewrite slice_step.
  assert ((500 * S k ≤ length l)%nat → ∃ res v',
    ali_pages fuel (Z.of_nat n + 1) (take (500 * S k) l) (a, v2) = (Returns res, (a, v')) ∧
    ali_records v' = ali_records v ∧ (res = Ok l ∨ ∃ e, res = Err e ∧ ali_refused (ali_root a) e)) as Hnext.
  { intros Hle. destruct (IH (S n) v2 Ha) as (res & v' & Hrun & Hs' & Hres);
      [lia|cbn [fst snd]; rewrite Hs; fold l; lia|lia|].
    replace (S n - 1)%nat with (S k) in Hrun by lia. cbn [fst snd] in *. rewrite Hs in *.
    fold l in Hrun, Hres. replace (Z.of_nat n + 1) with (Z.of_nat (S n)) by lia.
    exists res, v'. done. }
  assert (length (take (500 * S k) l) = Nat.min (500 * S k) (length l)) as Hlen
    by apply length_take.
  assert (length (slice 500 k l) = Nat.min 500 (length l - 500 * k)) as Hslice
    by (unfold slice; by rewrite length_take, length_drop).
  destruct (ali_counts v).
  - rewrite Hlen. destruct (Z.leb_spec (Z.of_nat (length l)) (Z.of_nat (Nat.min (500 * S k) (length l)))).
    { eexists _, v2. split; [done|]. split; [done|]. left. by rewrite take_ge by lia. }
    rewrite Hslice. destruct (Nat.eqb_spec (Nat.min 500 (length l - 500 * k)) 0); [lia|].
    apply Hnext. lia.
  - rewrite Hslice. change ali_pageSize with 500.
    destruct (Z.ltb_spec (Z.of_nat (Nat.min 500 (length l - 500 * k))) 500).
    { eexists _, v2. split; [done|]. split; [done|]. left. by rewrite take_ge by lia. }
    apply Hnext. lia.
Qed.

Lemma ali_pages_all fuel a v :
  is_Some (ali_client a) → (length (ali_store (a, v)) < fuel)%nat →
  ∃ res v', ali_pages fuel 1 [] (a, v) = (Returns res, (a, v')) ∧ ali_records v' = ali_records v ∧
    (res = Ok (ali_store (a, v)) ∨ ∃ e, res = Err e ∧ ali_refused (ali_root a) e).
Proof.
  intros Ha Hfuel. destruct (ali_pages_rest fuel 1 a v Ha) as (res & v' & Hr & Hs & Hres);
    [lia|lia|lia|]. exists res, v'. done.
Qed.

Lemma ali_list_run a v :
  is_Some (ali_client a) →
  ∃ res v', ali_listRecords (a, v) = (Returns res, (a, v')) ∧ ali_records v' = ali_records v ∧
    (res = Ok (ali_store (a, v)) ∨ ∃ e, res = Err e ∧ ali_refused (ali_root a) e).
Proof.
  intros Ha. unfold ali_listRecords. rewrite prog_bind_eq. cbn [snd].
  by apply ali_pages_all; [|apply ali_fuel_law].
Qed.

Lemma ali_GetRecords_run a v :
  is_Some (ali_client a) →
  ∃ res v', GetRecords (Provider:=alidns_Provider Getenv) (a, v) = (Returns res, (a, v')) ∧
    ali_records v' = ali_records v ∧
    match res with
    | Err e => ali_refused (ali_root a) e
    | Ok recs => recs = ali_group (ali_root a) (ali_store (a, v))
    end.
Proof.
  intros Ha. destruct (ali_list_run a v Ha) as (res & v' & Hr & Hs & Hres).
  cbn [GetRecords alidns_Provider]. unfold ali_GetRecords. rewrite try_bind_eq, Hr.
  destruct Hres as [->|(e & -> & He)]; eexists _, v'; (split; [done|]); done.
Qed.

(** [C34] The AliDNS listing is complete and in order.  Over a service that
    numbers its pages and tells the number of records with every page or with
    none, the loop ends (no number of iterations above the number of records
    is too small) and has read all records, or reports the error of a request
    that the service refused.  What is
    listed is strictly sorted by name and type, has one record per name and
    type of the complete records, with all their values in order and the TTL
    of the first, and nothing else. *)
Theorem ali_GetRecords_complete (a : AlidnsProvider) (v : V) :
  is_Some (ali_client a) →
  let l := ali_store (a, v) in
  (∃ res v', GetRecords (Provider:=alidns_Provider Getenv) (a, v) = (Returns res, (a, v')) ∧
     ali_records v' = ali_records v ∧
     match res with
     | Err e => ali_refused (ali_root a) e
     | Ok recs =>
         StronglySorted (λ r r', key_less (rr_key r) (rr_key r') = true) recs ∧
         ∀ r, r ∈ recs ↔ ali_listed (ali_root a) l (rr_key r) = Some r
     end) ∧
  (∀ fuel, (length l < fuel)%nat →
     ∃ res v', ali_pages fuel 1 [] (a, v) = (Returns res, (a, v')) ∧
       (res = Ok l ∨ ∃ e, res = Err e ∧ ali_refused (ali_root a) e)).
Proof.
  intros Ha l. split.
  - destruct (ali_GetRecords_run a v Ha) as (res & v' & Hr & Hs & Hres).
    exists res, v'. do 2 (split; [done|]). destruct res; [|done]. subst. apply ali_group_spec.
  - intros fuel Hfuel. destruct (ali_pages_all fuel a v Ha Hfuel) as (res & v' & Hr & _ & Hres). eauto.
Qed.
(** ** The contract *)

Section contract.
Context (a : AlidnsProvider) (Ha : is_Some (ali_client a)).
Let root : string := ali_root a.

#[local] Instance ali_ValueStore : ValueStore W (option ali_Record) := {|
  vs_store := ali_store;
  vs_good w := fst w = a ∧ Forall (ali_complete root) (ali_store w) ∧ ali_distinct (ali_store w);
  vs_value x := default "" (x ≫= ali_Value);
|}.

Lemma ali_find_ok record name :
  ali_reads root name (Fqdn_ record) →
  find_law (λ x, ali_matches name record x = true) (ali_findRecords record).
Proof.
  intros [_ Hname] [a' v] [Ha' Hg]. simpl in Ha'. subst a'.
  destruct (ali_list_run a v Ha) as (res & v' & Hr & Hs & Hres).
  assert (ali_store (a, v') = ali_store (a, v)) as Hst by (unfold ali_store; simpl; by rewrite Hs).
  unfold runs, ali_findRecords. rewrite try_bind_eq, Hr. unfold vs_good, vs_store, ali_ValueStore, ours.
  destruct Hres as [->|(e & -> & _)].
  - rewrite prog_bind_eq. unfold get_state. cbn [fst].
    assert (ali_parseName (ali_root a) record = Ok name) as -> by exact Hname.
    eexists _, (a, v'). split; [done|]. by rewrite Hst.
  - eexists _, (a, v'). split; [done|]. by rewrite Hst.
Qed.

Lemma ali_delete_ok : delete_law ali_delete.
Proof.
  intros [a' v] x l [Ha' [Hc Hd]] Hx. simpl in Ha', Hc, Hd, Hx. subst a'.
  destruct (ali_distinct_cons root x l _ Hx Hc Hd) as (id & Hid & Hb & Hfresh & Hc' & Hd').
  pose proof Ha as [client Hcl]. unfold runs, ali_delete. rewrite Hid, bool_decide_eq_false_2 by done.
  rewrite try_bind_eq, (ali_call_eq _ _ _ client) by done. unfold ali_store in *. simpl in *.
  destruct (ali_delete_law client root id x l v) as (res & v' & -> & Hres); [done..|].
  destruct res as [[]|e]; eexists _, (a, v'); (split; [done|]); simpl;
    unfold ali_store; simpl; fold root in Hres |- *.
  - rewrite Hres. done.
  - by rewrite Hres.
Qed.

Lemma ali_create_ok record name :
  ali_reads root name (Fqdn_ record) → 0 < TTL record →
  create_law (ali_made root record name) (ali_create record).
Proof.
  intros Hname Httl [a' v] value [Ha' [Hc Hd]]. simpl in Ha', Hc, Hd. subst a'.
  pose proof Ha as [client Hcl]. unfold runs, ali_create. rewrite prog_bind_eq.
  unfold get_state. cbn [fst].
  assert (ali_prepareRecord (ali_root a) record value =
    Ok (mkAliAdd root name (Type_ record) value (TTL record))) as ->.
  { unfold ali_prepareRecord, checkedTTL. destruct (Z.leb_spec (TTL record) 0); [lia|].
    assert (ali_parseName (ali_root a) record = Ok name) as -> by apply Hname. done. }
  set (req := mkAliAdd _ _ _ _ _).
  rewrite try_bind_eq, (ali_call_eq _ _ _ client) by done. unfold ali_store in *. simpl in *.
  destruct (ali_add_law client req v) as (res & v' & -> & Hres). simpl in Hres.
  destruct res as [[]|e]; eexists _, (a, v'); (split; [done|]); simpl;
    unfold ali_store; simpl; fold root in Hc, Hd |- *.
  - destruct Hres as (id & Hb & Hfresh & Hst). rewrite Hst. split; [split; [done|]; split|].
    + constructor; [|done]. eexists _, _, _, _, _. split; [done|]. split; [done|].
      unfold ali_reads in Hname. by destruct Hname as [-> Hname].
    + by apply (ali_distinct_new _ id).
    + eexists (Some _). split; [by exists id, value|]. done.
  - by rewrite Hres.
Qed.

Lemma ali_recognized record name l :
  ali_reads root name (Fqdn_ record) → Forall (ali_complete root) l →
  recognized (ali_zone_entry root) record (λ x, ali_matches name record x = true) l.
Proof.
  intros [Hname Hparse] Hl x Hx. rewrite list.Forall_forall in Hl.
  destruct (Hl x Hx) as (id & rr & type & value & ttl & -> & _ & Hrr).
  unfold ali_matches, e_key, rr_key. simpl. rewrite andb_true_iff, !bool_decide_eq_true.
  split; [by intros [[= ->] [= ->]]; rewrite Hname|]. intros [= Hf ->]. split; [|done].
  rewrite Hf in Hrr. congruence.
Qed.

Lemma ali_made_for record name :
  ali_reads root name (Fqdn_ record) →
  made_for (ali_zone_entry root) record (λ x, ali_matches name record x = true)
    (ali_made root record name).
Proof.
  intros [Hname _] x (id & value & ->). unfold ali_matches, e_key, rr_key. simpl.
  rewrite !bool_decide_eq_true_2, Hname by done. done.
Qed.

Lemma ali_zone_of w :
  Forall (ali_complete root) (ali_store w) → 
  vs_zone (ali_zone_entry root) w = zone_of (ali_group root (ali_store w)).
Proof.
  intros Hc. destruct (ali_group_spec root (ali_store w)) as [Hsort Hin].
  apply store_zone_listing; [by apply ali_sorted_nodup|]. intros r. rewrite Hin.
  unfold entries. simpl. unfold ali_listed. rewrite ali_of_complete by done.
  destruct (of_key _ _) as [|e es]; simpl; [naive_solver|]. rewrite <-list_fmap_compose. simpl.
  destruct r as [f vs t ttl]. unfold rr_key. simpl. split; [by intros [= <- <-]|].
  by intros (-> & _ & [= ->]).
Qed.

(** The records of the zone have names that the provider can send. *)
Lemma ali_zone_name w r :
  vs_good w → vs_zone (ali_zone_entry root) w !! rr_key r ≠ None →
  ∃ rr, ali_reads root rr (Fqdn_ r).
Proof.
  intros [_ [Hc _]] Hz. unfold vs_zone in Hz. rewrite store_zone_lookup in Hz.
  destruct (of_key _ _) as [|e es] eqn:Hk; [done|].
  assert (e ∈ of_key (rr_key r) (entries (ali_zone_entry root) w)) as He
    by (rewrite Hk; set_solver).
  apply elem_of_key in He as [Hkey (x & -> & Hx)%list_elem_of_fmap].
  rewrite list.Forall_forall in Hc. destruct (Hc x Hx) as (id & rr & t & v & ttl & -> & _ & Hrr).
  injection Hkey as Hf _. exists rr. split; [done|]. simpl in Hf. by rewrite <-Hf.
Qed.

(** Over a service that behaves as documented, the provider implements the
    contract, for records whose name it can send and read back.  It relies on
    one TTL per name and type. *)
#[export] Instance alidns_contract : ProviderContract W (H:=alidns_Provider Getenv).
Proof.
  refine {| zone := vs_zone (ali_zone_entry root);
            good w := vs_good w ∧ uniform (entries (ali_zone_entry root) w);
            storable r := Records r ≠ [] ∧ 0 < TTL r ∧ ∃ rr, ali_reads root rr (Fqdn_ r) |}.
  - intros [a' v] [Hg Hu]. pose proof Hg as [Ha' [Hc _]]. simpl in Ha'. subst a'.
    destruct (ali_GetRecords_run a v Ha) as (res & v' & Hr & Hs & Hres).
    assert (ali_store (a, v') = ali_store (a, v)) as Hst by (unfold ali_store; simpl; by rewrite Hs).
    exists res, (a, v'). split; [done|]. unfold vs_zone, entries. cbn [vs_store ali_ValueStore vs_good] in *.
    rewrite Hst. do 2 (split; [done|]). destruct res; [|done]. subst.
    split; [apply ali_sorted_nodup, ali_group_spec|]. by apply (ali_zone_of (a, v)).
  - intros w r [Hw Hu] (Hne & Httl & rr & Hrr) Hz.
    destruct (add_clause (ali_zone_entry root) r (λ x, ali_matches rr r x = true)
      (ali_made root r rr) (ali_create r) w Hw Hu (ali_recognized r rr _ Hrr (proj1 (proj2 Hw)))
      (ali_create_ok r rr Hrr Httl) (ali_made_for r rr Hrr) Hne Hz) as (res & w' & Hr & Hg & Hres).
    exists res, w'. split; [done|]. destruct res; by destruct Hres.
  - intros w r [Hw Hu] (Hne & Httl & rr & Hrr) _.
    destruct (update_clause (ali_zone_entry root) r (λ x, ali_matches rr r x = true)
      (ali_made root r rr) (ali_findRecords r) ali_delete (ali_create r) w Hw Hu
      (ali_recognized r rr _ Hrr (proj1 (proj2 Hw))) (ali_find_ok r rr Hrr) ali_delete_ok
      (ali_create_ok r rr Hrr Httl) (ali_made_for r rr Hrr) Hne) as (res & w' & Hr & Hg & Hres).
    exists res, w'. split; [done|]. destruct res; by destruct Hres.
  - intros w r [Hw Hu] Hz.
    destruct (ali_zone_name w r Hw) as [rr Hrr]; [by rewrite Hz|].
    destruct (remove_clause (ali_zone_entry root) r (λ x, ali_matches rr r x = true)
      (ali_findRecords r) ali_delete w Hw Hu (ali_recognized r rr _ Hrr (proj1 (proj2 Hw)))
      (ali_find_ok r rr Hrr) ali_delete_ok) as (res & w' & Hr & Hg & Hres).
    exists res, w'. split; [done|]. destruct res; by destruct Hres.
Defined.
End contract.
End facts.

(** [C38] Names and TTLs sent to AliDNS.  A record is sent only if its TTL is
    positive and its name is the root domain or below it.  A name below the
    root comes back as the same full name from the relative name that was
    sent, and the root itself from [@], provided the relative name is not one
    that the listing reads differently ([@], or with spaces at its ends). *)
Theorem ali_prepareRecord_spec `{GoUnicode} (root value : string) (record : DnsRecord) :
  match ali_prepareRecord root record value with
  | Ok req =>
      0 < TTL record ∧ add_TTL req = TTL record ∧ add_DomainName req = root ∧
      add_Type req = Type_ record ∧ add_Value req = value ∧
      (UnFqdn (Fqdn_ record) = root ∨ UnFqdn (Fqdn_ record) = "." +:+ root ∨
       UnFqdn (Fqdn_ record) = add_RR req +:+ "." +:+ root) ∧
      add_RR req ≠ ""
  | Err _ => TTL record ≤ 0 ∨
      UnFqdn (Fqdn_ record) ≠ root ∧ HasSuffix (UnFqdn (Fqdn_ record)) ("." +:+ root) = false
  end ∧
  (Fqdn_ record = root +:+ "." →
     ali_parseName root record = Ok "@" ∧ ali_fqdn root "@" = Fqdn_ record) ∧
  (∀ name, name ≠ "" → name ≠ "@" → TrimSpace name = name →
     Fqdn_ record = name +:+ "." +:+ root +:+ "." →
     ali_parseName root record = Ok name ∧ ali_fqdn root name = Fqdn_ record).
Proof.
  split; [|split].
  - unfold ali_prepareRecord, checkedTTL, ali_parseName.
    destruct (Z.leb_spec (TTL record) 0) as [|Httl]; [by left|].
    case_bool_decide as Hroot; [simpl; naive_solver|].
    destruct (HasSuffix _ _) eqn:Hs; simpl; [|by right].
    apply HasSuffix_spec in Hs as [t Ht]. rewrite Ht, TrimSuffix_app.
    case_bool_decide as He; simpl; [subst t|]; naive_solver.
  - intros Hf. unfold ali_parseName, ali_fqdn. rewrite Hf, UnFqdn_dot, bool_decide_eq_true_2 by done.
    split; [done|]. by vm_compute.
  - intros name Hne Hat Htrim Hf.
    assert (UnFqdn (Fqdn_ record) = name +:+ "." +:+ root) as Hu.
    { rewrite Hf. rewrite <-(UnFqdn_dot (name +:+ "." +:+ root)). f_equal.
      by rewrite <-!(assoc_L String.append). }
    unfold ali_parseName, ali_fqdn. rewrite Hu, Htrim, Hf.
    rewrite (bool_decide_eq_false_2 (name +:+ "." +:+ root = root)).
    2:{ intros Heq%(f_equal String.length). rewrite !str_length_app in Heq. cbn in Heq. lia. }
    rewrite (HasSuffix_app name ("." +:+ root)), (TrimSuffix_app name ("." +:+ root)). simpl negb.
    cbn [negb]. by rewrite !(bool_decide_eq_false_2 (name = _)) by done.
Qed.

(** ** Publishing the scan at AliDNS *)

(** The values of a full name and type, as the service has them. *)
Definition ali_held {V} `{AlidnsLaws V} (a : AlidnsProvider) (v : V) (key : string * string)
    : list string :=
  (ali_of (ali_root a) (ali_records v (ali_root a)) key).*1.

Section published.
Context `{GoUnicode} {V : Type} `{AlidnsLaws V} (Getenv : string → string) (cfg : Config).
Notation W := (AlidnsProvider * V)%type.
Context `{Client W} `{Clock W}.

Lemma ali_held_values a v key :
  Forall (ali_complete (ali_root a)) (ali_store (a, v)) →
  values_at (H:=ali_ValueStore a) (ali_zone_entry (ali_root a)) (a, v) key = ali_held a v key.
Proof.
  intros Hc. unfold values_at, ali_held, entries. cbn [vs_store ali_ValueStore].
  unfold ali_store in *. cbn [fst snd] in *. rewrite ali_of_complete by done.
  by rewrite <-list_fmap_compose.
Qed.

Lemma ali_uniform a v :
  Forall (ali_complete (ali_root a)) (ali_store (a, v)) →
  (∀ key e e', e ∈ ali_of (ali_root a) (ali_store (a, v)) key →
     e' ∈ ali_of (ali_root a) (ali_store (a, v)) key → snd e = snd e') →
  uniform (entries (H:=ali_ValueStore a) (ali_zone_entry (ali_root a)) (a, v)).
Proof.
  intros Hc Hu e e' He He' Hk. pose proof (Hu (e_key e)) as Hu. rewrite ali_of_complete in Hu by done.
  apply (Hu (e_value e, e_ttl e) (e_value e', e_ttl e'));
    apply (list_elem_of_fmap_2 (λ e, (e_value e, e_ttl e))), elem_of_key; done.
Qed.

(** [C5] The whole path to AliDNS.  The zone holds complete records with
    identifiers of their own, whose relative names the provider would send
    itself, and one TTL per name and type; the configured TTL is positive, and
    the names to publish can be sent and read back ([ali_prepareRecord_spec]
    says which can).  Then after a scan, the run of the reconciler on its
    result returns, and changes no values under a name that the environment
    neither owns nor publishes.  If it succeeds, the service has under every
    published name exactly the addresses of the scan, in the ownership record
    exactly the published names, and under the other names that the
    environment owned no address any more. *)
Theorem alidns_published (m m' : MetadataClient) (D : gmap string MetadataDnsRecord)
    (w : W) (a : AlidnsProvider) (v : V) :
  GetMetadataDnsRecords cfg m w = (Returns (m', Ok D), (a, v)) →
  is_Some (ali_client a) → 0 < cfgTTL cfg →
  (∀ k d, D !! k = Some d → ∃ rr, ali_reads (ali_root a) rr (Fqdn_ (DnsRecord_ d))) →
  let l := ali_records v (ali_root a) in
  Forall (ali_complete (ali_root a)) l → ali_distinct l →
  (∀ key e e', e ∈ ali_of (ali_root a) l key → e' ∈ ali_of (ali_root a) l key → snd e = snd e') →
  let state := stateName cfg m in
  ali_held a v (state, "A") = [] →
  ∃ res v', UpdateProviderDnsRecords (H0:=alidns_Provider Getenv) cfg m' D (a, v)
      = (Returns res, (a, v')) ∧
    (∀ key, (∀ k, key = managed state k →
         ¬ (k = state ∨ k ∈ dom D ∨ k ∈ ali_held a v (state, "TXT"))) →
       (list_to_set (ali_held a v' key) : gset string) = list_to_set (ali_held a v key)) ∧
    match res with
    | Err _ => True
    | Ok _ =>
        (∀ k d, D !! k = Some d →
           (list_to_set (ali_held a v' (managed state k)) : gset string) =
           list_to_set (Records (DnsRecord_ d))) ∧
        (∀ k, k ∉ dom D → k ∈ ali_held a v (state, "TXT") → ali_held a v' (managed state k) = [])
    end.
Proof.
  intros Hscan Ha Httl Hnames l Hc Hd Hu state HA.
  destruct (store_published (H0:=alidns_Provider Getenv) (H1:=alidns_contract Getenv a Ha)
    (H2:=ali_ValueStore a) cfg (ali_zone_entry (ali_root a)) (λ _, eq_refl) m m' D (a, v) w)
    as (res & [a' v'] & Hr & Hg & Hframe & Hres).
  - done.
  - intros k d Hk Hne Ht. split; [done|]. rewrite Ht. split; [done|]. by apply (Hnames k).
  - split; [done|]. by apply ali_uniform.
  - by rewrite ali_held_values.
  - destruct Hg as [(Ha' & Hc' & _) _]. simpl in Ha'. subst a'. exists res, v'. split; [exact Hr|].
    split; [|destruct res; [destruct Hres as [Hdes Hgone]; split|done]].
    + intros key Hkey. rewrite <-!ali_held_values by done. apply Hframe. intros k Hk.
      rewrite ali_held_values by done. by apply Hkey.
    + intros k d Hk. rewrite <-ali_held_values by done. by apply Hdes.
    + intros k Hk Ho. rewrite <-ali_held_values by done. apply Hgone; [done|].
      by rewrite ali_held_values.
Qed.
End published.

(** ** A service in memory *)
Module Example_alidns.

Definition api : Type := list (option ali_Record).
Definition ids (l : api) : list string := omap (λ x, x ≫= ali_RecordId) l.

#[export] Instance calls : AlidnsApi api := {|
  ali_Client := unit;
  ali_NewClient := λ _ _ _, mret (Ok tt);
  DescribeDomainInfo := λ _ _, mret (Ok tt);
  DescribeDomainRecords := λ _ _ page size l,
    (Returns (Ok (Some (mkAliBody (slice (Z.to_nat size) (Z.to_nat page - 1) l)
       (Some (Z.of_nat (length l)))))), l);
  AddDomainRecord := λ _ req l,
    (Returns (Ok tt),
     Some (mkAliRecord (Some (Samples.fresh_name (ids l))) (Some (add_RR req)) (Some (add_Type req))
             (Some (add_Value req)) (Some (add_TTL req))) :: l);
  DeleteDomainRecord := λ _ id l, (Returns (Ok tt), filter (λ x, x ≫= ali_RecordId ≠ Some id) l);
  ali_fuel := λ l, S (length l);
|}.

#[export] Instance laws : AlidnsLaws api.
Proof.
  refine {| ali_records := λ l _, l; ali_counts := λ _, true |}.
  - intros client root size n l _ _. eexists _, l. do 3 (split; [reflexivity|]). simpl.
    by rewrite Nat2Z.id.
  - intros client req v l. eexists _, _. split; [reflexivity|].
    exists (Samples.fresh_name (ids l)). split; [|split; [|reflexivity]].
    + apply TrimSpace_start. repeat constructor.
    + intros x Hx Hid. apply (Samples.fresh_name_fresh (ids l)).
      apply list_elem_of_omap. by exists x.
  - intros client root id x l v Hl Hx Hne. eexists _, _. split; [reflexivity|]. simpl.
    rewrite Hl, filter_cons, decide_False by naive_solver.
    rewrite filter_all; [done|]. by apply list.Forall_forall.
  - intros l root. simpl. lia.
Defined.

Definition env (name : string) : string := "key".
Existing Instance Samples.ascii_unicode.
Definition record (RR type value : string) (ttl : Z) : option ali_Record :=
  Some (mkAliRecord (Some "1") (Some RR) (Some type) (Some value) (Some ttl)).
Definition zone : api :=
  [record "www" "TXT" "text" 600; record "www" "A" "192.0.2.1" 300; None;
   record "@" "A" "192.0.2.3" 60; record "www" "A" "192.0.2.2" 600].
Definition started : AlidnsProvider * api := snd (ali_Init env "io." (mkAlidns None "", zone)).

Lemma ali_GetRecords_complete_witness :
  ∃ recs v', GetRecords (Provider:=alidns_Provider env) started
      = (Returns (Ok recs), (fst started, v')) ∧
    mkDnsRecord "www.io." ["192.0.2.1"; "192.0.2.2"] "A" 300 ∈ recs.
Proof.
  assert (match fst (GetRecords (Provider:=alidns_Provider env) started) with
          | Returns (Ok _) => True | _ => False end) as Hok by (vm_compute; exact I).
  destruct (ali_GetRecords_complete env (fst started) (snd started)) as [(res & v' & Hr & _ & Hres) _].
  { by eexists. }
  change (fst started, snd started) with started in Hr. rewrite Hr in Hok.
  destruct res as [recs|]; [|destruct Hok]. exists recs, v'. split; [exact Hr|].
  apply (proj2 Hres). vm_compute. reflexivity.
Defined.
(** A scan published there: the environment published [old.io.] before. *)
Definition cfg : Config :=
  mkConfig "io." 600 "http://platform" "key" "secret" defaultNameTemplate
    "http://metadata" ":10000".
Definition service : MetaClient.Client (AlidnsProvider * api) :=
  Example_environment.fixed_client _ "1" (Samples.stack "Default" "uuid-2")
    Example_environment.services Example_environment.hosts.
Definition clock : Clock (AlidnsProvider * api) := Samples.frozen_clock _.
Existing Instances service clock.

Definition numbered (id RR type value : string) : option ali_Record :=
  Some (mkAliRecord (Some id) (Some RR) (Some type) (Some value) (Some 600)).
Definition before : AlidnsProvider * api :=
  (fst started,
   [numbered "1" "www" "A" "192.0.2.1"; numbered "2" "@" "A" "192.0.2.3";
    numbered "3" "www" "A" "192.0.2.2"; numbered "4" "old" "A" "192.0.2.9";
    numbered "5" "external-dns-uuid-1" "TXT" "old.io."]).
Definition scanned : gmap string MetadataDnsRecord :=
  match fst (GetMetadataDnsRecords cfg Example_environment.m before) with
  | Returns (_, Ok D) => D
  | _ => ∅
  end.

Lemma scanned_names k d :
  scanned !! k = Some d → ∃ rr, ali_reads "io" rr (Fqdn_ (DnsRecord_ d)).
Proof.
  assert (map_Forall (λ _ d,
    match ali_parseName "io" (mkDnsRecord (Fqdn_ (DnsRecord_ d)) [] "" 0) with
    | Ok rr => bool_decide (ali_fqdn "io" rr = Fqdn_ (DnsRecord_ d)) | Err _ => false
    end = true) scanned) as Hall by eval_decide.
  generalize dependent scanned. intros D Hall Hd. specialize (Hall k d Hd). cbn beta in Hall.
  destruct (ali_parseName _ _) as [rr|] eqn:Hp; [|done]. apply bool_decide_eq_true in Hall.
  by exists rr.
Qed.

Lemma before_complete : Forall (ali_complete "io") (snd before).
Proof.
  repeat (apply Forall_cons_2; [eexists _, _, _, _, _; split; [reflexivity|split; eval_decide]|]).
  constructor.
Qed.

Lemma before_ttl key e : e ∈ ali_of "io" (snd before) key → snd e = 600.
Proof.
  assert (Forall (λ e, snd (snd e) = 600) (omap (ali_entry "io") (snd before))) as Hall by eval_decide.
  intros (e' & -> & [_ He]%list_elem_of_filter)%list_elem_of_fmap.
  rewrite list.Forall_forall in Hall. by apply Hall.
Qed.

Lemma alidns_published_witness :
  ∃ updated v', UpdateProviderDnsRecords (H0:=alidns_Provider env) cfg
      (mkMetadataClient "Default" "uuid-1") scanned before = (Returns (Ok updated), (fst before, v')) ∧
    ali_held (fst before) v' ("old.io.", "A") = [] ∧
    list_to_set (ali_held (fst before) v' ("web.shop.default.io.", "A")) =
      ({["203.0.113.5"; "198.51.100.1"]} : gset string) ∧
    list_to_set (ali_held (fst before) v' ("www.io.", "A")) =
      ({["192.0.2.1"; "192.0.2.2"]} : gset string).
Proof.
  destruct (alidns_published env cfg Example_environment.m
    (mkMetadataClient "Default" "uuid-1") scanned before (fst before) (snd before))
    as (res & v' & Hr & Hframe & Hres).
  - vm_compute. reflexivity.
  - by eexists.
  - reflexivity.
  - exact scanned_names.
  - exact before_complete.
  - eval_decide.
  - intros key e e' He He'. by rewrite (before_ttl key e He), (before_ttl key e' He').
  - reflexivity.
  - change (fst before, snd before) with before in Hr.
    assert (match fst (UpdateProviderDnsRecords (H0:=alidns_Provider env) cfg
      (mkMetadataClient "Default" "uuid-1") scanned before) with
      | Returns (Ok _) => True | _ => False end) as Hok by (vm_compute; exact I).
    rewrite Hr in Hok. destruct res as [updated|]; [|destruct Hok]. destruct Hres as [Hdes Hgone].
    exists updated, v'. split; [exact Hr|]. split; [|split].
    + apply (Hgone "old.io."); eval_decide.
    + assert (∃ d, scanned !! "web.shop.default.io." = Some d ∧
        Records (DnsRecord_ d) = ["203.0.113.5"; "198.51.100.1"]) as (d & Hd & Hv)
        by (eexists; split; vm_compute; reflexivity).
      etransitivity; [exact (Hdes "web.shop.default.io." d Hd)|]. rewrite Hv. eval_decide.
    + etransitivity; [apply (Hframe ("www.io.", "A"))|eval_decide].
      intros k Hk. injection Hk as <-. eval_decide.
Defined.
End Example_alidns.
