(* ===== verification/Gandi.v ===== *)
(** * The Gandi provider

    [src/providers/gandi/gandi.go], over the calls of the Gandi client.  A
    change is made on a new version of the zone, which is then activated.  The
    provider object is the first component of the world. *)

From S2P Require Import Prelude GoStrings GoStrconv FastTemplate Utils GoHttp Provider.
From S2P Require Import Samples Grouping Store.
Local Open Scope Z_scope.

(** ** The API *)

Record gn_Record := mkGnRecord {
  gn_Id : Z;
  gn_Name : string;
  gn_Type : string;
  gn_Value : string;
  gn_Ttl : Z;
}.

Record gn_Zone := mkGnZone { gnz_Id : Z; gnz_Name : string }.

(** [gandiRecord.RecordAdd] *)
Record gn_RecordAdd := mkGnAdd {
  gna_Zone : Z;
  gna_Version : Z;
  gna_Name : string;
  gna_Type : string;
  gna_Value : string;
  gna_Ttl : Z;
}.

(** A client is a key and the choice of the platform.  A domain yields the
    identifier of its zone, a zone its version.  Version 0 is the active one
    in a listing. *)
Abbreviation gn_client := (string * bool)%type (only parsing).

Class GandiApi (V : Type) := {
  gn_Domain_Info : gn_client → string → prog V (result Z);
  gn_Zone_List : gn_client → prog V (result (list gn_Zone));
  gn_Zone_Info : gn_client → Z → prog V (result Z);
  gn_Version_New : gn_client → Z → Z → prog V (result Z);
  gn_Version_Set : gn_client → Z → Z → prog V (result unit);
  gn_Record_List : gn_client → Z → Z → prog V (result (list gn_Record));
  gn_Record_Add : gn_client → gn_RecordAdd → prog V (result unit);
  gn_Record_Delete : gn_client → Z → Z → Z → prog V (result unit);
  gn_Operation_Count : gn_client → prog V (result unit);
}.

(** ** The provider *)

(** The handlers of the API ([record], [zoneVersion], [operation] and
    [zoneHandler]) hold the client; the last is set at the end of [Init]. *)
Record GandiProvider := mkGandi {
  gn_handlers : option gn_client;
  gn_zoneHandler : option gn_client;
  gn_zone : option gn_Zone;
  gn_root : string;
  gn_zoneDomain : string;
  gn_zoneSuffix : string;
  gn_sub : string;
}.

(** [split_root[len(split_root)-2 : len(split_root)]] *)
Definition last_two (labels : list string) : outcome (list string) :=
  if (length labels <? 2)%nat then Panics "slice bounds out of range"
  else Returns (drop (length labels - 2) labels).

(** The full name of a record of the zone. *)
Definition gn_fqdn (zoneDomain name : string) : string :=
  if bool_decide (name = "") then zoneDomain +:+ "." else name +:+ "." +:+ zoneDomain +:+ ".".

Definition gn_entry (zoneDomain : string) (rec : gn_Record) : entry :=
  mkEntry (gn_fqdn zoneDomain (gn_Name rec)) (gn_Type rec) (gn_Value rec) (gn_Ttl rec).

Definition gn_parseName (g : GandiProvider) (record : DnsRecord) : string :=
  TrimSuffix (Fqdn_ record) (gn_zoneSuffix g).

Definition gn_matches (g : GandiProvider) (record : DnsRecord) (rec : gn_Record) : Prop :=
  gn_Name rec +:+ "." +:+ gn_zoneDomain g +:+ "." = gn_parseName g record ∧
  gn_Type rec = Type_ record.
#[export] Instance gn_matches_dec g record rec : Decision (gn_matches g record rec).
Proof. unfold gn_matches. apply _. Defined.

Section gandi.
Context {V : Type} `{GandiApi V} (Getenv : string → string).

Notation W := (GandiProvider * V)%type.

(** A call through one of the handlers, with [g.zone]. *)
Definition gn_call {A} (call : gn_client → prog V A) : prog W A :=
  g ← get_state;
  deref (gn_handlers g) (λ client, outer (call client)).
Definition gn_with_zone {A} (k : gn_Zone → prog W A) : prog W A :=
  g ← get_state;
  deref (gn_zone g) k.

Definition gn_Init (rootDomainName : string) : prog W (result unit) :=
  with_env Getenv "GANDI_APIKEY" (λ apiKey,
    let testing := negb (bool_decide (Getenv "GANDI_TESTING" = "")) in
    let client := (apiKey, testing) in
    modify_state (λ g, mkGandi (Some client) (gn_zoneHandler g) (gn_zone g) (gn_root g)
      (gn_zoneDomain g) (gn_zoneSuffix g) (gn_sub g));;
    let root := UnFqdn rootDomainName in
    split_zoneDomain ← lift (last_two (Split root "."));
    let zoneDomain := Join split_zoneDomain "." in
    let! zoneId := outer (gn_Domain_Info client zoneDomain)
      wrap (λ err, "Failed to get zone ID for domain " +:+ zoneDomain +:+ ": " +:+ err) in
    let! zones := outer (gn_Zone_List client)
      wrap (λ err, "Failed to list hosted zones: " +:+ err) in
    match List.find (λ z, bool_decide (gnz_Id z = zoneId)) zones with
    | None => mret (Err ("Zone for '" +:+ root +:+ "' not found"))
    | Some z =>
        modify_state (λ g, mkGandi (gn_handlers g) (Some client) (Some z) root zoneDomain
          ("." +:+ zoneDomain) (TrimSuffix root zoneDomain));;
        mret (Ok tt)
    end).

Definition gn_HealthCheck : prog W (result unit) :=
  let! _ := gn_call gn_Operation_Count in
  mret (Ok tt).

Definition gn_newZoneVersion : prog W (result Z) :=
  gn_with_zone (λ zone,
    g ← get_state;
    let! version := deref (gn_zoneHandler g) (λ client, outer (gn_Zone_Info client (gnz_Id zone)))
      wrap (λ err, "Failed to refresh information for zone " +:+ gnz_Name zone +:+ ": " +:+ err) in
    let! newVersion := gn_call (λ client, gn_Version_New client (gnz_Id zone) version)
      wrap (λ err, "Failed to create new version of zone " +:+ gnz_Name zone +:+ ": " +:+ err) in
    mret (Ok newVersion)).

(** The boolean that [Version.Set] returns is dropped, as is the one of
    [Record.Delete]. *)
Definition gn_setZoneVersion (version : Z) : prog W (result unit) :=
  gn_with_zone (λ zone,
    let! _ := gn_call (λ client, gn_Version_Set client (gnz_Id zone) version)
      wrap (λ err, "Failed to set version of zone " +:+ gnz_Name zone +:+ " to "
                   +:+ FormatInt version +:+ ": " +:+ err) in
    mret (Ok tt)).

Definition gn_findRecords (record : DnsRecord) (version : Z) : prog W (result (list gn_Record)) :=
  gn_with_zone (λ zone,
    let! resp := gn_call (λ client, gn_Record_List client (gnz_Id zone) version)
      wrap (λ err, "Failed to find record in zone: " +:+ err) in
    g ← get_state;
    mret (Ok (filter (gn_matches g record) resp))).

Definition gn_add (version : Z) (record : DnsRecord) (rec : string) : prog W (result unit) :=
  gn_with_zone (λ zone,
    g ← get_state;
    let sub := TrimSuffix (gn_parseName g record) ("." +:+ gn_zoneDomain g +:+ ".") in
    let args := mkGnAdd (gnz_Id zone) version sub (Type_ record) rec (TTL record) in
    let! _ := gn_call (λ client, gn_Record_Add client args)
      wrap (λ err, "Failed to add record: " +:+ err) in
    mret (Ok tt)).

Definition gn_versionAddRecord (version : Z) (record : DnsRecord) : prog W (result unit) :=
  each (Records record) (gn_add version record).

Definition gn_delete (version : Z) (rec : gn_Record) : prog W (result unit) :=
  gn_with_zone (λ zone,
    let! _ := gn_call (λ client, gn_Record_Delete client (gnz_Id zone) version (gn_Id rec))
      wrap (λ err, "Failed to remove record: " +:+ err) in
    mret (Ok tt)).

Definition gn_versionRemoveRecord (version : Z) (record : DnsRecord) : prog W (result unit) :=
  let! records := gn_findRecords record version in
  each records (gn_delete version).

Definition gn_AddRecord (record : DnsRecord) : prog W (result unit) :=
  let failed err := "Failed to add new record: " +:+ err in
  let! newVersion := gn_newZoneVersion wrap failed in
  let! _ := gn_versionAddRecord newVersion record wrap failed in
  let! _ := gn_setZoneVersion newVersion wrap failed in
  mret (Ok tt).

Definition gn_UpdateRecord (record : DnsRecord) : prog W (result unit) :=
  let failed err := "Failed to update record: " +:+ err in
  let! newVersion := gn_newZoneVersion wrap failed in
  let! _ := gn_versionRemoveRecord newVersion record wrap failed in
  let! _ := gn_versionAddRecord newVersion record wrap failed in
  let! _ := gn_setZoneVersion newVersion wrap failed in
  mret (Ok tt).

Definition gn_RemoveRecord (record : DnsRecord) : prog W (result unit) :=
  let failed err := "Failed to remove record: " +:+ err in
  let! newVersion := gn_newZoneVersion wrap failed in
  let! _ := gn_versionRemoveRecord newVersion record wrap failed in
  let! _ := gn_setZoneVersion newVersion wrap (λ err, "Failed to add new record: " +:+ err) in
  mret (Ok tt).

Definition gn_GetRecords : prog W (result (list DnsRecord)) :=
  gn_with_zone (λ zone,
    let! recordResp := gn_call (λ client, gn_Record_List client (gnz_Id zone) 0)
      wrap (λ err, "Failed to get records in zone: " +:+ err) in
    g ← get_state;
    mret (Ok (group (gn_entry (gn_zoneDomain g) <$> recordResp)))).

Definition gandi_Provider : Provider W := {|
  Init := gn_Init;
  GetName := "Gandi";
  HealthCheck := gn_HealthCheck;
  AddRecord := gn_AddRecord;
  RemoveRecord := gn_RemoveRecord;
  UpdateRecord := gn_UpdateRecord;
  GetRecords := gn_GetRecords;
|}.
End gandi.

(** ** The documented behaviour of the API

    Every version of a zone has records of its own, with distinct identifiers;
    one version is active and only it is served.  A new version is a copy; a
    version that is not active can be changed; a failed call has no effect. *)
Class GandiLaws (V : Type) `{GandiApi V} := {
  gn_records : V → Z → Z → list gn_Record;
  gn_active : V → Z → Z;
  gn_info_law client zone v : ∃ res v', gn_Zone_Info client zone v = (Returns res, v') ∧
    gn_records v' = gn_records v ∧ gn_active v' = gn_active v ∧
    match res with Ok version => version = gn_active v zone | Err _ => True end;
  gn_new_law client zone base v : ∃ res v', gn_Version_New client zone base v = (Returns res, v') ∧
    gn_active v' = gn_active v ∧
    match res with
    | Ok version => version ≠ 0 ∧ version ≠ gn_active v zone ∧
        gn_records v' zone version ≡ₚ gn_records v zone base ∧
        gn_records v' zone (gn_active v zone) = gn_records v zone (gn_active v zone)
    | Err _ => gn_records v' = gn_records v
    end;
  gn_set_law client zone version v :
    ∃ res v', gn_Version_Set client zone version v = (Returns res, v') ∧
      gn_records v' = gn_records v ∧
      gn_active v' zone = match res with Ok _ => version | Err _ => gn_active v zone end;
  gn_list_law client zone version v : version ≠ 0 →
    ∃ res v', gn_Record_List client zone version v = (Returns res, v') ∧
      gn_records v' = gn_records v ∧ gn_active v' = gn_active v ∧
      match res with Ok l => l ≡ₚ gn_records v zone version | Err _ => True end;
  gn_add_law client args v :
    let zone := gna_Zone args in let version := gna_Version args in
    version ≠ gn_active v zone →
    ∃ res v', gn_Record_Add client args v = (Returns res, v') ∧ gn_active v' = gn_active v ∧
      gn_records v' zone (gn_active v zone) = gn_records v zone (gn_active v zone) ∧
      match res with
      | Ok _ => ∃ r, gn_Name r = gna_Name args ∧ gn_Type r = gna_Type args ∧
          gn_Value r = gna_Value args ∧ gn_Ttl r = gna_Ttl args ∧
          (gn_Id r ∉ gn_Id <$> gn_records v zone version) ∧
          gn_records v' zone version ≡ₚ r :: gn_records v zone version
      | Err _ => gn_records v' zone version = gn_records v zone version
      end;
  gn_delete_law client zone version r l v : version ≠ gn_active v zone →
    gn_records v zone version ≡ₚ r :: l → NoDup (gn_Id <$> gn_records v zone version) →
    ∃ res v', gn_Record_Delete client zone version (gn_Id r) v = (Returns res, v') ∧
      gn_active v' = gn_active v ∧
      gn_records v' zone (gn_active v zone) = gn_records v zone (gn_active v zone) ∧
      match res with
      | Ok _ => gn_records v' zone version ≡ₚ l
      | Err _ => gn_records v' zone version = gn_records v zone version
      end;
}.

(** ** Properties *)

Section facts.
Context {V : Type} `{GandiLaws V} (Getenv : string → string).
Notation W := (GandiProvider * V)%type.

(** A provider after [Init]: its zone, and a domain that is no name with a
    final dot. *)
Definition gn_ready (g : GandiProvider) (z : gn_Zone) : Prop :=
  is_Some (gn_handlers g) ∧ is_Some (gn_zoneHandler g) ∧ gn_zone g = Some z ∧
  gn_zoneSuffix g = "." +:+ gn_zoneDomain g ∧
  gn_zoneDomain g ≠ "" ∧ ends_with "." (gn_zoneDomain g) = false.

(** What the zone serves: the records of the active version. *)
Definition gn_served (z : gn_Zone) (v : V) : list gn_Record :=
  gn_records v (gnz_Id z) (gn_active v (gnz_Id z)).

(** Work on a version that is not active: the provider object and what is
    served stay as they were. *)
Section version.
Context (g : GandiProvider) (z : gn_Zone) (Hg : gn_ready g z) (version active : Z)
  (served : list gn_Record) (Hversion : version ≠ 0) (Hactive : version ≠ active).

#[local] Instance gn_ValueStore : ValueStore W gn_Record := {|
  vs_store w := gn_records (snd w) (gnz_Id z) version;
  vs_good w := fst w = g ∧ gn_active (snd w) (gnz_Id z) = active ∧
    gn_served z (snd w) = served ∧
    NoDup (gn_Id <$> gn_records (snd w) (gnz_Id z) version);
  vs_value := gn_Value;
|}.

Lemma gn_call_eq {A} (call : gn_client → prog V A) v :
  ∃ client, gn_call call (g, v) = (let '(r, v') := call client v in (r, (g, v'))).
Proof.
  destruct Hg as ([client Hc] & _). exists client. unfold gn_call, deref.
  rewrite prog_bind_eq. simpl. by rewrite Hc.
Qed.

Lemma gn_with_zone_eq {A} (k : gn_Zone → prog W A) v : gn_with_zone k (g, v) = k z (g, v).
Proof.
  destruct Hg as (_ & _ & Hz & _). unfold gn_with_zone, deref.
  rewrite prog_bind_eq. simpl. by rewrite Hz.
Qed.

Lemma gn_find_ok record : find_law (gn_matches g record) (gn_findRecords record version).
Proof.
  intros [g' v] Hw. hnf in Hw. simpl in Hw. destruct Hw as (-> & Ha & Hs & Hnd).
  unfold runs, gn_findRecords. rewrite gn_with_zone_eq, try_bind_eq.
  edestruct @gn_call_eq as [client ->].
  destruct (gn_list_law client (gnz_Id z) version v Hversion) as (res & v' & -> & Hr & Ha' & Hres).
  assert (vs_good (g, v')) as Hgood.
  { unfold vs_good, gn_ValueStore, gn_served in *. cbn [fst snd] in *. rewrite Hr, Ha'. done. }
  destruct res as [l|e]; eexists _, _; (split; [done|]); (split; [done|]); simpl; rewrite Hr; [|done].
  split; [done|]. unfold ours. simpl. by rewrite Hres.
Qed.

Lemma gn_delete_ok : delete_law (gn_delete version).
Proof.
  intros [g' v] x l Hw Hx. hnf in Hw. simpl in Hw, Hx. destruct Hw as (-> & Ha & Hs & Hnd).
  unfold runs, gn_delete. rewrite gn_with_zone_eq, try_bind_eq.
  edestruct @gn_call_eq as [client ->].
  destruct (gn_delete_law client (gnz_Id z) version x l v) as (res & v' & -> & Ha' & Hf & Hres);
    [congruence|done|done|].
  assert (gn_served z v' = served) as Hs' by (unfold gn_served in *; rewrite Ha'; congruence).
  destruct res as [[]|e]; eexists _, _; (split; [done|]); simpl; rewrite Ha', Hres; (split; [|done]).
  - split; [done|]. split; [done|]. split; [done|].
    rewrite Hx, fmap_cons in Hnd. apply list.NoDup_cons in Hnd as [_ Hnd]. exact Hnd.
  - done.
Qed.
(** A record below the zone's domain. *)
Definition gn_below (record : DnsRecord) (name : string) : Prop :=
  Fqdn_ record = name +:+ "." +:+ gn_zoneDomain g +:+ ".".

Lemma gn_parseName_below record name :
  gn_below record name → gn_parseName g record = Fqdn_ record.
Proof.
  intros Hf. destruct Hg as (_ & _ & _ & Hsuf & Hne & Hdot). unfold gn_parseName.
  apply TrimSuffix_id. rewrite Hsuf. destruct (HasSuffix _ _) eqn:Hs; [|done]. exfalso.
  apply HasSuffix_spec in Hs as [t Ht]. rewrite Hf in Ht.
  apply (f_equal (ends_with ".")) in Ht.
  rewrite !(assoc_L String.append), !ends_with_app in Ht by done. by rewrite Hdot in Ht.
Qed.

(** A record that is created for [record]. *)
Definition gn_made (record : DnsRecord) (rec : gn_Record) : Prop :=
  gn_matches g record rec ∧ gn_Ttl rec = TTL record.

Lemma gn_create_ok record name :
  gn_below record name → create_law (gn_made record) (gn_add version record).
Proof.
  intros Hbelow [g' v] value Hw. hnf in Hw. simpl in Hw. destruct Hw as (-> & Ha & Hs & Hnd).
  pose proof (gn_parseName_below record name Hbelow) as Hparse.
  unfold runs, gn_add. rewrite gn_with_zone_eq, prog_bind_eq. unfold get_state. cbn [fst].
  rewrite try_bind_eq. edestruct @gn_call_eq as [client ->].
  set (args := mkGnAdd _ _ _ _ _ _).
  destruct (gn_add_law client args v) as (res & v' & -> & Ha' & Hf & Hres); [simpl; congruence|].
  simpl in Hf, Hres.
  assert (gn_served z v' = served) as Hs' by (unfold gn_served in *; rewrite Ha'; congruence).
  destruct res as [[]|e]; eexists _, _; (split; [done|]); simpl; rewrite Ha'.
  - destruct Hres as (r & Hn & Ht & Hv & Httl & Hid & Hst). rewrite Hst. split.
    + do 3 (split; [done|]). rewrite fmap_cons. by constructor.
    + exists r. split; [|done]. split; [|done]. split; [|done]. rewrite Hn, Hparse, Hbelow.
      by rewrite (TrimSuffix_app name).
  - by rewrite Hres.
Qed.

(** Removing and adding on the version. *)
Lemma gn_replace_ok record name w :
  gn_below record name → vs_good w →
  runs (let! _ := gn_versionRemoveRecord version record in gn_versionAddRecord version record) w
    (λ _ w', replaced (gn_matches g record) (gn_made record) (Records record) w w')
    (half_replaced (gn_matches g record) (gn_made record) (Records record) w).
Proof.
  intros Hb Hw. apply (replace_effect (gn_matches g record) (gn_made record));
    [by intros rec []|apply gn_find_ok|apply gn_delete_ok|by eapply gn_create_ok|done].
Qed.
End version.

(** Wrapping the errors of two steps does not change what they do. *)
Lemma runs_wrap {X A B} `{VS : ValueStore W X} f1 f2 (m : prog W (result A)) (k : A → prog W (result B))
    w (P : B → W → Prop) E :
  runs (let! a := m in k a) w P E →
  ∃ res w', vs_good w' ∧
    (∀ C (k' : B → prog W (result C)),
       (let! a := m wrap f1 in let! b := k a wrap f2 in k' b) w =
       match res with Ok b => k' b w' | Err e => (Returns (Err e), w') end) ∧
    match res with Ok b => P b w' | Err _ => E w' end.
Proof.
  intros (res & w' & Hr & Hg & Hres). rewrite try_bind_eq in Hr.
  destruct (m w) as [[[a|e]| |] w1] eqn:Hm; simplify_eq.
  - destruct res as [b|e].
    + exists (Ok b), w'. split; [done|]. split; [|done]. intros C k'.
      by rewrite try_bind_eq, Hm, try_bind_eq, Hr.
    + exists (Err (f2 e)), w'. split; [done|]. split; [|done]. intros C k'.
      by rewrite try_bind_eq, Hm, try_bind_eq, Hr.
  - exists (Err (f1 e)), w'. split; [done|]. split; [|done]. intros C k'.
    by rewrite try_bind_eq, Hm.
Qed.

Lemma gn_newZoneVersion_ok g z v :
  gn_ready g z →
  ∃ res v', gn_newZoneVersion (g, v) = (Returns res, (g, v')) ∧
    gn_served z v' = gn_served z v ∧ gn_active v' (gnz_Id z) = gn_active v (gnz_Id z) ∧
    match res with
    | Ok version => version ≠ 0 ∧ version ≠ gn_active v (gnz_Id z) ∧
        gn_records v' (gnz_Id z) version ≡ₚ gn_served z v
    | Err _ => True
    end.
Proof.
  intros Hg. pose proof Hg as (_ & [zh Hzh] & _). unfold gn_newZoneVersion.
  rewrite (gn_with_zone_eq g z Hg), prog_bind_eq. unfold get_state. cbn [fst].
  rewrite try_bind_eq. unfold deref. rewrite Hzh. unfold outer. cbn [fst snd].
  destruct (gn_info_law zh (gnz_Id z) v) as (res & v1 & -> & Hr1 & Ha1 & Hres1).
  assert (gn_served z v1 = gn_served z v) as Hs1 by (unfold gn_served; by rewrite Ha1, Hr1).
  destruct res as [base|e]; [|eexists _, v1; split; [done|]; by rewrite Ha1].
  subst base. rewrite try_bind_eq. destruct (gn_call_eq g z Hg
    (λ client, gn_Version_New client (gnz_Id z) (gn_active v (gnz_Id z))) v1) as [client ->].
  destruct (gn_new_law client (gnz_Id z) (gn_active v (gnz_Id z)) v1)
    as (res & v2 & -> & Ha2 & Hres2).
  destruct res as [version|e]; eexists _, v2; (split; [done|]); unfold gn_served in *;
    rewrite Ha2, Ha1 in *.
  - destruct Hres2 as (Hz0 & Hne & Hcopy & Hact). rewrite Hact. rewrite Hr1 in *. done.
  - rewrite Hres2. rewrite Hr1. done.
Qed.

(** [C13] Changes at Gandi are atomic.  An update works on a copy of the active
    version and then activates it.  Over an API that keeps versions apart, it
    returns, and what the zone serves is either exactly as before (after any
    error, also one between the deletions and the creations), or it has the
    given values with the given TTL under the name and type, and everything
    else as before. *)
Theorem gandi_UpdateRecord_atomic (g : GandiProvider) (z : gn_Zone) (record : DnsRecord)
    (name : string) (v : V) :
  gn_ready g z → gn_below g record name → NoDup (gn_Id <$> gn_served z v) →
  ∃ res v', UpdateRecord (Provider:=gandi_Provider Getenv) record (g, v) = (Returns res, (g, v')) ∧
    match res with
    | Err _ => gn_served z v' ≡ₚ gn_served z v
    | Ok _ =>
        (λ r, (gn_Value r, gn_Ttl r)) <$> filter (gn_matches g record) (gn_served z v')
          ≡ₚ (λ value, (value, TTL record)) <$> Records record ∧
        filter (λ r, ¬ gn_matches g record r) (gn_served z v') ≡ₚ
        filter (λ r, ¬ gn_matches g record r) (gn_served z v)
    end.
Proof.
  intros Hg Hbelow Hnd. cbn [UpdateRecord gandi_Provider]. unfold gn_UpdateRecord.
  rewrite try_bind_eq.
  destruct (gn_newZoneVersion_ok g z v Hg) as (res & v1 & -> & Hs1 & Ha1 & Hres1).
  destruct res as [version|e]; [|eexists _, v1; split; [done|]; by rewrite Hs1].
  destruct Hres1 as (Hz0 & Hne & Hcopy).
  set (active := gn_active v (gnz_Id z)) in *. set (served := gn_served z v) in *.
  set (VS := gn_ValueStore g z version active served).
  assert (vs_good (ValueStore:=VS) (g, v1)) as Hgood.
  { split; [done|]. split; [done|]. split; [done|]. simpl. by rewrite Hcopy. }
  destruct (runs_wrap (VS:=VS) (λ err, "Failed to update record: " +:+ err)
    (λ err, "Failed to update record: " +:+ err) _ _ _ _ _
    (gn_replace_ok g z Hg version active served Hz0 Hne record name (g, v1) Hbelow Hgood))
    as (res & [g' v2] & Hgood2 & Hrun & Hres).
  rewrite Hrun. hnf in Hgood2. simpl in Hgood2. destruct Hgood2 as (-> & Ha2 & Hs2 & _).
  destruct res as [[]|e]; [|exists (Err e), v2; split; [done|]; by rewrite Hs2].
  rewrite try_bind_eq. unfold gn_setZoneVersion. rewrite (gn_with_zone_eq g z Hg), try_bind_eq.
  destruct (gn_call_eq g z Hg (λ client, gn_Version_Set client (gnz_Id z) version) v2)
    as [client ->].
  destruct (gn_set_law client (gnz_Id z) version v2) as (res & v3 & -> & Hr3 & Ha3).
  destruct res as [[]|e]; eexists _, v3; (split; [done|]); unfold gn_served; rewrite Ha3, Hr3.
  - destruct Hres as (Ho & new & Hnew & Hmade & <-). unfold others, ours in Ho, Hnew.
    simpl in Ho, Hnew. split; [|by rewrite Ho, Hcopy]. rewrite Hnew, <-list_fmap_compose.
    match goal with |- ?l ≡ₚ ?l' => enough (l = l') as -> by done end.
    apply list_fmap_ext. intros i r Hr.
    pose proof (Forall_lookup_1 _ _ _ _ Hmade Hr) as [_ Httl]. by rewrite <-Httl.
  - change (gn_records v2 (gnz_Id z) (gn_active v2 (gnz_Id z))) with (gn_served z v2). by rewrite Hs2.
Qed.
End facts.

(** ** An API in memory *)
Module Example_gandi.

(** The active version and the records of all versions. *)
Definition api : Type := Z * gmap Z (list gn_Record).

Definition version_records (v : api) (n : Z) : list gn_Record := default [] (snd v !! n).
Definition new_version (v : api) : Z := 1 + Z.abs (fst v).

#[export] Instance calls : GandiApi api := {|
  gn_Domain_Info := λ _ _, mret (Ok 7);
  gn_Zone_List := λ _, mret (Ok [mkGnZone 5 "other"; mkGnZone 7 "ours"]);
  gn_Zone_Info := λ _ _ v, (Returns (Ok (fst v)), v);
  gn_Version_New := λ _ _ base v,
    (Returns (Ok (new_version v)), (fst v, <[new_version v := version_records v base]> (snd v)));
  gn_Version_Set := λ _ _ n v, (Returns (Ok tt), (n, snd v));
  gn_Record_List := λ _ _ n v,
    (Returns (Ok (version_records v (if n =? 0 then fst v else n))), v);
  gn_Record_Add := λ _ args v,
    let n := gna_Version args in
    let r := mkGnRecord (Samples.fresh_number (gn_Id <$> version_records v n)) (gna_Name args)
               (gna_Type args) (gna_Value args) (gna_Ttl args) in
    (Returns (Ok tt), (fst v, <[n := r :: version_records v n]> (snd v)));
  gn_Record_Delete := λ _ _ n id v,
    (Returns (Ok tt),
     (fst v, <[n := filter (λ r, gn_Id r ≠ id) (version_records v n)]> (snd v)));
  gn_Operation_Count := λ _, mret (Ok tt);
|}.

#[export] Instance laws : GandiLaws api.
Proof.
  assert (∀ a n l (m : gmap Z (list gn_Record)), version_records (a, <[n := l]> m) n = l) as Heq
    by (intros; unfold version_records; simpl; by rewrite lookup_insert_eq).
  assert (∀ a n k l (m : gmap Z (list gn_Record)), n ≠ k →
    version_records (a, <[n := l]> m) k = version_records (a, m) k) as Hne
    by (intros; unfold version_records; simpl; by rewrite lookup_insert_ne).
  refine {| gn_records := λ v _ n, version_records v n; gn_active := λ v _, fst v |}.
  - intros client zone v. by eexists _, v.
  - intros client zone base [a m]. eexists _, _. split; [reflexivity|]. split; [done|].
    unfold new_version. simpl. split; [lia|]. split; [lia|]. rewrite Heq. split; [done|].
    apply Hne. lia.
  - intros client zone n [a m]. by eexists _, _.
  - intros client zone n v Hn. eexists _, v. do 3 (split; [reflexivity|]).
    destruct (Z.eqb_spec n 0); done.
  - intros client args [a m] zone n Hn. simpl in Hn. eexists _, _. split; [reflexivity|].
    split; [done|]. split; [by apply Hne|].
    exists (mkGnRecord (Samples.fresh_number (gn_Id <$> version_records (a, m) n)) (gna_Name args)
      (gna_Type args) (gna_Value args) (gna_Ttl args)).
    do 4 (split; [done|]). split; [apply Samples.fresh_number_fresh|]. simpl. by rewrite Heq.
  - intros client zone n r l [a m] Hn Hl Hnd. simpl in Hn. eexists _, _. split; [reflexivity|].
    split; [done|]. split; [by apply Hne|]. simpl. rewrite Heq, Hl. rewrite Hl in Hnd.
    rewrite fmap_cons in Hnd. apply list.NoDup_cons in Hnd as [Hr _].
    rewrite filter_cons, decide_False by naive_solver.
    rewrite filter_all; [done|]. apply list.Forall_forall. intros r' Hr' Hid. apply Hr.
    rewrite <-Hid. by apply list_elem_of_fmap_2.
Defined.

Definition env (name : string) : string := if bool_decide (name = "GANDI_APIKEY") then "key" else "".
Definition zone0 : api :=
  (1, {[1 := [mkGnRecord 1 "www.int" "A" "192.0.2.1" 300; mkGnRecord 2 "www.int" "TXT" "text" 300]]}).
Definition object : GandiProvider := mkGandi None None None "" "" "" "".
Definition started : GandiProvider * api := snd (gn_Init env "int.example.com." (object, zone0)).

Lemma gandi_UpdateRecord_atomic_witness :
  ∃ v', UpdateRecord (Provider:=gandi_Provider env)
      (mkDnsRecord "www.int.example.com." ["192.0.2.9"] "A" 300) started
    = (Returns (Ok tt), (fst started, v')) ∧
    (λ r, (gn_Value r, gn_Ttl r)) <$>
      filter (gn_matches (fst started) (mkDnsRecord "www.int.example.com." [] "A" 0))
        (gn_served (mkGnZone 7 "ours") v') ≡ₚ [("192.0.2.9", 300)].
Proof.
  set (r := mkDnsRecord "www.int.example.com." ["192.0.2.9"] "A" 300).
  destruct (gandi_UpdateRecord_atomic env (fst started) (mkGnZone 7 "ours") r "www.int"
    (snd started)) as (res & v' & Hr & Hres).
  - split; [by eexists|]. split; [by eexists|]. do 2 (split; [reflexivity|]).
    split; [discriminate|reflexivity].
  - reflexivity.
  - eval_decide.
  - change (fst started, snd started) with started in Hr.
    assert (fst (UpdateRecord (Provider:=gandi_Provider env) r started) = Returns (Ok tt)) as Hok
      by (vm_compute; reflexivity).
    rewrite Hr in Hok. injection Hok as ->. exists v'. split; [exact Hr|exact (proj1 Hres)].
Defined.

(** A root domain of one label ends the program. *)
Lemma single_label_root :
  fst (gn_Init env "localdomain." (object, zone0)) = Panics "slice bounds out of range".
Proof. vm_compute. reflexivity. Qed.
End Example_gandi.
