(* ===== verification/Infoblox.v ===== *)
(** * The Infoblox provider

    [src/providers/infoblox/infoblox.go], over the requests of the Infoblox
    client and the file of the secret.  The decoder of [encoding/json] is
    modelled as far as the program depends on it: decoding into the same
    variable again reuses the records that its slice points to.  The provider
    object is the first component of the world. *)

From S2P Require Import Prelude GoStrings GoStrconv FastTemplate Utils GoPath GoHttp Provider.
From S2P Require Import Grouping RFC2136.
Local Open Scope Z_scope.

(** ** Data *)

Record ib_Record := mkIbRecord {
  ib_Ref : string;
  ib_Fqdn : string;
  ib_Name : string;
  ib_Zone : string;
  ib_TTL : Z;
  ib_Disable : bool;
  ib_IPv4addr : string;
  ib_Text : string;
  ib_Type : string;
  ib_Rec : string;
}.

Definition zeroIbRecord : ib_Record := mkIbRecord "" "" "" "" 0 false "" "" "" "".

(** A JSON object of a response: the fields that it has. *)
Record ib_object := mkIbObject {
  o_ref : option string;
  o_fqdn : option string;
  o_name : option string;
  o_zone : option string;
  o_ttl : option Z;
  o_disable : option bool;
  o_ipv4addr : option string;
  o_text : option string;
}.

(** Decoding an object into a record: other fields keep their values. *)
Definition decode_object (o : ib_object) (r : ib_Record) : ib_Record :=
  mkIbRecord (default (ib_Ref r) (o_ref o)) (default (ib_Fqdn r) (o_fqdn o))
    (default (ib_Name r) (o_name o)) (default (ib_Zone r) (o_zone o))
    (default (ib_TTL r) (o_ttl o)) (default (ib_Disable r) (o_disable o))
    (default (ib_IPv4addr r) (o_ipv4addr o)) (default (ib_Text r) (o_text o))
    (ib_Type r) (ib_Rec r).

(** A paged answer: [next_page_id] and [result], if present. *)
Record ib_page := mkIbPage { p_next : option string; p_result : option (list ib_object) }.

(** ** Memory

    Records and the arrays behind slices of pointers to them.  An element that
    was never set is nil. *)
Record memory := mkMemory {
  m_records : list ib_Record;
  m_arrays : list (list (option nat));
}.
Record go_slice := mkSlice { s_array : nat; s_len : nat }.

Definition array_of (m : memory) (s : go_slice) : list (option nat) :=
  default [] (m_arrays m !! s_array s).

(** The zero value of a slice: no array elements at all. *)
Definition empty_memory : memory := mkMemory [] [[]].
Definition nil_slice : go_slice := mkSlice 0 0.

Section decoder.
(** By how much arrays grow is up to the runtime. *)
Context (grow : nat → nat).

(** A slice with room for one more element: the old array is copied. *)
Definition grow_slice (m : memory) (s : go_slice) : memory * go_slice :=
  let array := array_of m s in
  if (s_len s <? length array)%nat then (m, s)
  else
    (mkMemory (m_records m)
       (m_arrays m ++ [array ++ replicate (S (grow (length array))) None]),
     mkSlice (length (m_arrays m)) (s_len s)).

Definition set_element (m : memory) (s : go_slice) (i : nat) (p : option nat) : memory :=
  mkMemory (m_records m) (<[s_array s := <[i := p]> (array_of m s)]> (m_arrays m)).

(** [append(s, p)] *)
Definition append (m : memory) (s : go_slice) (p : option nat) : memory * go_slice :=
  let '(m, s) := grow_slice m s in
  (set_element m s (s_len s) p, mkSlice (s_array s) (S (s_len s))).

(** Decoding the element [i] of an array: the record it points to is decoded
    into; a nil pointer gets a new record. *)
Definition decode_element (m : memory) (s : go_slice) (i : nat) (o : ib_object)
    : memory * go_slice :=
  let '(m, s) := if (i <? length (array_of m s))%nat then (m, s) else grow_slice m s in
  let s := mkSlice (s_array s) (Nat.max (s_len s) (S i)) in
  match array_of m s !! i with
  | Some (Some p) =>
      (mkMemory (alter (decode_object o) p (m_records m)) (m_arrays m), s)
  | _ =>
      let p := length (m_records m) in
      let m := mkMemory (m_records m ++ [decode_object o zeroIbRecord]) (m_arrays m) in
      (set_element m s i (Some p), s)
  end.

Fixpoint decode_elements (m : memory) (s : go_slice) (i : nat) (objects : list ib_object)
    : memory * go_slice :=
  match objects with
  | [] => (m, mkSlice (s_array s) i)
  | o :: objects =>
      let '(m, s) := decode_element m s i o in
      decode_elements m s (S i) objects
  end.

(** Decoding an array into a slice; an empty array makes a new slice. *)
Definition decode_array (m : memory) (s : go_slice) (objects : list ib_object)
    : memory * go_slice :=
  match objects with
  | [] => (mkMemory (m_records m) (m_arrays m ++ [[]]), mkSlice (length (m_arrays m)) 0)
  | _ => decode_elements m s 0 objects
  end.

(** [for _, record := range result.Result { records = append(records, record) }] *)
Fixpoint append_all (m : memory) (records result : go_slice) (i n : nat) : memory * go_slice :=
  match n with
  | O => (m, records)
  | S n =>
      match array_of m result !! i with
      | Some p =>
          let '(m, records) := append m records p in
          append_all m records result (S i) n
      | None => (m, records)
      end
  end.

(** The records a slice points to. *)
Definition contents (m : memory) (s : go_slice) : list ib_Record :=
  omap (λ p, p ≫= λ p, m_records m !! p) (take (s_len s) (array_of m s)).
End decoder.

(** ** The client *)

(** The body of a creation: the key and the value of the record's data, and
    three more fields. *)
Record ib_Body := mkIbBody {
  ibb_key : string;
  ibb_value : string;
  ibb_name : string;
  ibb_ttl : Z;
  ibb_comment : string;
}.

(** An opened file: whether it is regular, and its content. *)
Record file := mkFile { file_regular : result bool; file_body : Body }.

(** A request yields an answer, and [Parse] of the answer an error or a page.
    A header is sent or not. *)
Class InfobloxApi (V : Type) := {
  ib_Client : Type;
  ib_NewClient : string → string → string → bool → bool → ib_Client;
  ib_RecordHosts : ib_Client → prog V (result unit);
  ib_Send : ib_Client → string → string → string → bool → prog V (result (result ib_page));
  ib_Marshal : ib_Body → result string;
  os_OpenInRoot : string → string → prog V (result file);
  json_grow : nat → nat;
  (** A number of iterations after which the pages have ended. *)
  ib_fuel : V → nat;
}.

(** ** Constants *)

Definition versionURL : string := "/wapi/v1.5/".
Definition authURL : string := versionURL +:+ "zone_auth".
Definition recordURL : string := versionURL +:+ "record".
Definition recordTxtURL : string := versionURL +:+ "record:txt".
Definition recordAURL : string := versionURL +:+ "record:a".
Definition maxResults : string := "1000".
Definition firstPage : string := "_return_as_object=1&_max_results=" +:+ maxResults +:+ "&_paging=1".
Definition recordAQuery : string := "_return_fields=ttl,name,zone,disable,ipv4addr".
Definition recordTxtQuery : string := "_return_fields=ttl,name,zone,disable,text".
Definition secretRoot : string := "/run/secrets".
Definition maxSecretLen : Z := 64 * 2 ^ 10.

Definition setRecordType (ty : string) (r : ib_Record) : ib_Record :=
  mkIbRecord (ib_Ref r) (ib_Fqdn r) (ib_Name r) (ib_Zone r) (ib_TTL r) (ib_Disable r)
    (ib_IPv4addr r) (ib_Text r) ty
    (if bool_decide (ty = "A") then ib_IPv4addr r
     else if bool_decide (ty = "TXT") then ib_Text r else ib_Rec r).

(** One iteration of the loop of [GetRecords]; [None] is [continue]. *)
Definition ib_entry (zoneName : string) (rec : ib_Record) : option entry :=
  if ib_Disable rec then None
  else
    let fqdn := if bool_decide (ib_Name rec = "") then zoneName +:+ "." else ib_Name rec +:+ "." in
    Some (mkEntry fqdn (ib_Type rec) (ib_Rec rec) (ib_TTL rec)).

(** The path of a secret relative to the root directory. *)
Definition secret_path (rootPath secretPath : string) : result string :=
  let secretPath := TrimSpace secretPath in
  if bool_decide (secretPath = "") || Contains secretPath (String (of_byte 0) "") then
    Err "secret path is empty or invalid"
  else
    let outside := Err "secret path is outside the mounted secret directory" in
    let relativePath := Clean secretPath in
    match (if IsAbs relativePath then Rel (Clean rootPath) relativePath else Ok relativePath) with
    | Err _ => outside
    | Ok relativePath =>
        if bool_decide (relativePath = ".") || negb (IsLocal relativePath) then outside
        else Ok relativePath
    end.

Section infoblox.
Context {V : Type} `{InfobloxApi V} (Getenv : string → string).

Record InfobloxProvider := mkInfoblox { ib_client : option ib_Client; ib_zoneName : string }.

Notation W := (InfobloxProvider * V)%type.

Definition ib_call {A} (call : ib_Client → prog V A) : prog W A :=
  d ← get_state;
  deref (ib_client d) (λ client, outer (call client)).

(** The loop over the pages after the first. *)
Fixpoint ib_pages (fuel : nat) (url body : string) (head : bool) (page_id : string)
    (m : memory) (result records : go_slice) : prog W (Prelude.result (list ib_Record)) :=
  if bool_decide (page_id = "") then mret (Ok (contents m records))
  else
    match fuel with
    | O => lift (Panics "the pages have not ended")
    | S fuel =>
        let nextPage := url +:+ "&_page_id=" +:+ page_id in
        let! res := ib_call (λ client, ib_Send client "GET" nextPage body head) in
        match res with
        | Err err => mret (Err err)
        | Ok page =>
            let '(m, result) :=
              match p_result page with
              | Some objects => decode_array json_grow m result objects
              | None => (m, result)
              end in
            let '(m, records) := append_all json_grow m records result 0 (s_len result) in
            ib_pages fuel url body head (default "" (p_next page)) m result records
        end
    end.

(** A paged [GET]. *)
Definition ib_get (urlStr body : string) (head : bool) : prog W (result (list ib_Record)) :=
  let url := if Contains urlStr "?" then urlStr +:+ "&" +:+ firstPage
             else urlStr +:+ "?" +:+ firstPage in
  let! res := ib_call (λ client, ib_Send client "GET" url body head) in
  match res with
  | Err err => mret (Err err)
  | Ok page =>
      let '(m, result) :=
        match p_result page with
        | Some objects => decode_array json_grow empty_memory nil_slice objects
        | None => (empty_memory, nil_slice)
        end in
      fuel ← (λ w, (Returns (ib_fuel (snd w)), w));
      ib_pages fuel url body head (default "" (p_next page)) m result result
  end.

Definition ib_SendRequest (method urlStr body : string) (head : bool)
    : prog W (result (list ib_Record)) :=
  if bool_decide (urlStr = "") then mret (Err "SendRequest to infoblox url is nil")
  else if bool_decide (method = "GET") then ib_get urlStr body head
  else
    let! _ := ib_call (λ client, ib_Send client method urlStr body head) in
    mret (Ok []).

Definition readSecretFileFromRoot (rootPath secretPath : string) : prog W (result string) :=
  match secret_path rootPath secretPath with
  | Err err => mret (Err err)
  | Ok relativePath =>
      let! file := outer (os_OpenInRoot (Clean rootPath) relativePath)
        wrap (λ err, "open mounted secret: " +:+ err) in
      match file_regular file with
      | Err err => mret (Err ("inspect mounted secret: " +:+ err))
      | Ok false => mret (Err "mounted secret is not a regular file")
      | Ok true =>
          match ReadAllLimited (file_body file) (maxSecretLen + 1) with
          | Err err => mret (Err ("read mounted secret: " +:+ err))
          | Ok payload =>
              if (String.length payload =? 0)%nat then mret (Err "mounted secret is empty")
              else if maxSecretLen <? Z.of_nat (String.length payload) then
                mret (Err ("mounted secret exceeds " +:+ FormatInt maxSecretLen +:+ " bytes"))
              else mret (Ok payload)
          end
      end
  end.

Definition readSecretFile (secretPath : string) : prog W (result string) :=
  readSecretFileFromRoot secretRoot secretPath.

Definition validateZoneName (zoneName : string) : prog W (result unit) :=
  let! zoneAuths := ib_SendRequest "GET" authURL "" false
    wrap (λ err, "Infoblox API failed, func validateZoneName, " +:+ err) in
  if existsb (λ v, bool_decide (ib_Fqdn v = zoneName)) zoneAuths then mret (Ok tt)
  else mret (Err ("Could not find ZoneName " +:+ zoneName +:+ " in infoblox")).

(** The password, or the content of the secret file. *)
Definition ib_password : prog W (result string) :=
  let password := Getenv "INFOBLOX_PASSWORD" in
  if bool_decide (password = "") then
    let secretFile := Getenv "INFOBLOX_SECRET" in
    if bool_decide (secretFile = "") then
      mret (Err "INFOBLOX_PASSWORD nor INFOBLOX_SECRET are not set")
    else
      let! p := readSecretFile secretFile
        wrap (λ err, "Error reading INFOBLOX_SECRET: " +:+ err) in
      mret (Ok p)
  else mret (Ok password).

Definition ib_Init (rootDomainName : string) : prog W (result unit) :=
  with_env Getenv "INFOBLOX_URL" (λ url,
  with_env Getenv "INFOBLOX_USER_NAME" (λ userName,
    let! password := ib_password in
    match bool_env Getenv "SSL_VERIFY" with
    | Err err => mret (Err err)
    | Ok sslVerify =>
        match bool_env Getenv "USE_COOKIES" with
        | Err err => mret (Err err)
        | Ok useCookies =>
            modify_state (λ _, mkInfoblox
              (Some (ib_NewClient url userName password sslVerify useCookies))
              (UnFqdn rootDomainName));;
            validateZoneName (UnFqdn rootDomainName)
        end
    end)).

Definition ib_HealthCheck : prog W (result unit) := ib_call ib_RecordHosts.

Definition ib_prepareRecord (rec tp fqdn : string) (ttl : Z) : result (string * string) :=
  let body key := mkIbBody key rec (UnFqdn fqdn) ttl tp in
  let encode url key :=
    match ib_Marshal (body key) with
    | Err err => Err ("Error prepareRecord request: " +:+ err)
    | Ok bodyJSON => Ok (url, bodyJSON)
    end in
  if bool_decide (tp = "TXT") then encode recordTxtURL "text"
  else if bool_decide (tp = "A") then encode recordAURL "ipv4addr"
  else Ok ("", "").

(** The loop of [AddRecord]: a value that exists already ends it without an
    error. *)
Fixpoint ib_add_values (record : DnsRecord) (values : list string) : prog W (result unit) :=
  match values with
  | [] => mret (Ok tt)
  | rec :: values =>
      match ib_prepareRecord rec (Type_ record) (Fqdn_ record) (TTL record) with
      | Err err => mret (Err err)
      | Ok (url, body) =>
          r ← ib_SendRequest "POST" url body true;
          match r with
          | Err err =>
              if Contains err "already exists" then mret (Ok tt)
              else mret (Err ("Infoblox API call has failed: " +:+ err))
          | Ok _ => ib_add_values record values
          end
      end
  end.

Definition ib_AddRecord (record : DnsRecord) : prog W (result unit) :=
  ib_add_values record (Records record).

Definition ib_decode_failed (err : error) : error :=
  "Infoblox API call decode has failed: " +:+ err.

Definition ib_findRecords `{GoUnicode} (record : DnsRecord) : prog W (result (list ib_Record)) :=
  d ← get_state;
  let url := recordURL +:+ ":" +:+ ToLower (Type_ record) +:+ "?name=" +:+ UnFqdn (Fqdn_ record)
             +:+ "&zone=" +:+ ib_zoneName d in
  let! records := ib_SendRequest "GET" url "" true wrap ib_decode_failed in
  mret (Ok records).

Definition ib_RemoveRecord `{GoUnicode} (record : DnsRecord) : prog W (result unit) :=
  let! records := ib_findRecords record in
  each records (λ rec,
    let! _ := ib_SendRequest "DELETE" (versionURL +:+ ib_Ref rec) "" true
      wrap (λ err, "Infoblox API call has failed: " +:+ err) in
    mret (Ok tt)).

Definition ib_UpdateRecord `{GoUnicode} (record : DnsRecord) : prog W (result unit) :=
  let! _ := ib_RemoveRecord record in
  ib_AddRecord record.

Definition ib_GetRecords : prog W (result (list DnsRecord)) :=
  d ← get_state;
  let! recordAs := ib_SendRequest "GET" (recordAURL +:+ "?" +:+ recordAQuery +:+ "&zone="
      +:+ ib_zoneName d) "" true wrap ib_decode_failed in
  let! recordTxts := ib_SendRequest "GET" (recordTxtURL +:+ "?" +:+ recordTxtQuery +:+ "&zone="
      +:+ ib_zoneName d) "" true wrap ib_decode_failed in
  let recs := (setRecordType "A" <$> recordAs) ++ (setRecordType "TXT" <$> recordTxts) in
  mret (Ok (group (omap (ib_entry (ib_zoneName d)) recs))).

Definition infoblox_Provider `{GoUnicode} : Provider W := {|
  Init := ib_Init;
  GetName := "Infoblox";
  HealthCheck := ib_HealthCheck;
  AddRecord := ib_AddRecord;
  RemoveRecord := ib_RemoveRecord;
  UpdateRecord := ib_UpdateRecord;
  GetRecords := ib_GetRecords;
|}.
End infoblox.

(** ** Secrets *)

Lemma secret_path_names rootPath secretPath path :
  IsAbs rootPath = true → secret_path rootPath secretPath = Ok path →
  Forall is_name (Split path slash) ∧ Split path slash ≠ [].
Proof.
  intros Hroot. unfold secret_path. set (secret := TrimSpace secretPath).
  destruct (_ || _); [done|].
  assert (∀ p, (if bool_decide (p = ".") || negb (IsLocal p)
      then Err "secret path is outside the mounted secret directory" else Ok p) = Ok path →
    p = path ∧ p ≠ "." ∧ IsLocal p = true) as Hcheck.
  { intros p. case_bool_decide; [done|]. destruct (IsLocal p) eqn:Hl; [|done]. by intros [= <-]. }
  destruct (IsAbs (Clean secret)) eqn:Habs.
  - destruct (Rel (Clean rootPath) (Clean secret)) as [p|e] eqn:Hrel; [|done].
    intros (<- & Hdot & Hlocal)%Hcheck. unfold Rel in Hrel.
    destruct (bool_decide _) in Hrel; [by injection Hrel as <-|].
    destruct (negb _) in Hrel; [done|].
    destruct (strip_common _ _) as [bs ts] eqn:Hstrip in Hrel.
    assert (p = Join (replicate (length bs) ".." ++ ts) "/") as Hp.
    { destruct bs as [|b bs]; [by injection Hrel as <-|].
      destruct (decide (b = "..")) as [->|Hb]; [done|].
      by repeat match type of Hrel with context [match ?b with _ => _ end] =>
        first [destruct b; [..]; try done | destruct b] end; injection Hrel as <-. }
    apply strip_common_spec in Hstrip as (l & _ & Hts).
    destruct (elements_of_Clean (Clean secret) Habs) as [He Hnames].
    assert (Forall is_name ts) as Hn.
    { rewrite Hts in He. rewrite <-He in Hnames. by apply list.Forall_app in Hnames as [_ ?]. }
    destruct (IsLocal_names _ ts p Hn Hp Hlocal) as [-> ?]. done.
  - intros (<- & Hdot & Hlocal)%Hcheck.
    assert (IsAbs secret = false) as Hrel.
    { destruct (IsAbs secret) eqn:Ha; [|done]. by rewrite Clean_abs in Habs. }
    destruct (clean_parts_ok secret) as (n & names & Hc & Hnames & _).
    destruct (IsLocal_names n names (Clean secret) Hnames) as [-> ?]; [|done|done].
    unfold Clean. rewrite Hrel, Hc. destruct (replicate n ".." ++ names) eqn:Hnil; [|done].
    exfalso. apply Hdot. unfold Clean. by rewrite Hrel, Hc.
Qed.

Section facts.
Context {V : Type} `{InfobloxApi V} (Getenv : string → string).
Notation W := (InfobloxProvider * V)%type.

(** [C18] The secret file stays inside the directory of the secrets.  Whatever
    the configured path, at most one file is opened, relative to the (clean)
    root directory and under a path of plain names, without [.], [..] or empty
    elements; a path that leads outside is refused without touching the file
    system; and what is returned is the whole content of a regular file of 1
    to 65536 bytes. *)
Theorem readSecretFile_contained (rootPath secretPath : string) (w : W) :
  IsAbs rootPath = true →
  (∃ e, readSecretFileFromRoot rootPath secretPath w = (Returns (Err e), w)) ∨
  ∃ path, Forall is_name (Split path slash) ∧ Split path slash ≠ [] ∧
    match os_OpenInRoot (Clean rootPath) path (snd w) with
    | (Returns r, v') => ∃ res,
        readSecretFileFromRoot rootPath secretPath w = (Returns res, (fst w, v')) ∧
        (∀ payload, res = Ok payload → ∃ f, r = Ok f ∧ file_regular f = Ok true ∧
           payload = body_data (file_body f) ∧ body_error (file_body f) = None ∧
           1 ≤ Z.of_nat (String.length payload) ≤ 65536)
    | (Panics e, v') =>
        readSecretFileFromRoot rootPath secretPath w = (Panics e, (fst w, v'))
    | (Exits e, v') => readSecretFileFromRoot rootPath secretPath w = (Exits e, (fst w, v'))
    end.
Proof.
  intros Hroot. unfold readSecretFileFromRoot.
  destruct (secret_path rootPath secretPath) as [path|e] eqn:Hpath; [|left; by eexists].
  right. exists path. destruct (secret_path_names _ _ _ Hroot Hpath) as [? ?].
  do 2 (split; [done|]). rewrite try_bind_eq. unfold outer.
  destruct (os_OpenInRoot (Clean rootPath) path (snd w)) as [[[f|e]| |] v']; [|by eexists|done..].
  destruct (file_regular f) as [[]|e] eqn:Hreg; [|by eexists..].
  destruct (ReadAllLimited (file_body f) (maxSecretLen + 1)) as [data|e] eqn:Hread; [|by eexists].
  destruct (Nat.eqb_spec (String.length data) 0); [by eexists|].
  destruct (Z.ltb_spec maxSecretLen (Z.of_nat (String.length data))); [by eexists|].
  eexists. split; [done|]. intros payload [= <-].
  apply ReadAllLimited_complete in Hread as [-> Hend]; [|done|done].
  exists f. do 4 (split; [done|]). unfold maxSecretLen in *. lia.
Qed.

(** ** Additions *)

(** All values were posted, or the first ones were until one that the service
    refused because it exists. *)
Inductive posted (record : DnsRecord) : list string → W → W → Prop :=
  | posted_nil w : posted record [] w w
  | posted_cons value values url body rs w w1 w2 :
      ib_prepareRecord value (Type_ record) (Fqdn_ record) (TTL record) = Ok (url, body) →
      ib_SendRequest "POST" url body true w = (Returns (Ok rs), w1) →
      posted record values w1 w2 → posted record (value :: values) w w2
  | posted_exists value values url body e w w1 :
      ib_prepareRecord value (Type_ record) (Fqdn_ record) (TTL record) = Ok (url, body) →
      ib_SendRequest "POST" url body true w = (Returns (Err e), w1) →
      Contains e "already exists" = true → posted record (value :: values) w w1.

(** [C36] When an addition at Infoblox reports success.  Exactly when every
    value was posted, or when one of them was refused as existing already, in
    which case the values after it were not sent at all.  Other failures are
    reported, and a record that is neither an address nor a text is refused
    without a request unless it has no values. *)
Theorem ib_AddRecord_spec `{GoUnicode} (record : DnsRecord) (w w' : W) :
  (AddRecord (Provider:=infoblox_Provider Getenv) record w = (Returns (Ok tt), w')
     ↔ posted record (Records record) w w') ∧
  (Type_ record ≠ "A" → Type_ record ≠ "TXT" → Records record ≠ [] →
     ∃ e, AddRecord (Provider:=infoblox_Provider Getenv) record w = (Returns (Err e), w)).
Proof.
  split.
  - cbn [AddRecord infoblox_Provider]. unfold ib_AddRecord. generalize (Records record) as values.
    intros values. split.
    + revert w. induction values as [|value values IH]; intros w; cbn [ib_add_values].
      { intros [= <-]. constructor. }
      destruct (ib_prepareRecord _ _ _ _) as [[url body]|e] eqn:Hp; [|done].
      rewrite prog_bind_eq.
      destruct (ib_SendRequest "POST" url body true w) as [[[rs|e]| |] w1] eqn:Hs; try done.
      * intros Hr. eapply posted_cons; eauto.
      * destruct (Contains e "already exists") eqn:Hc; [|done]. intros [= <-].
        by eapply posted_exists.
    + intros Hp. induction Hp as [|value values url body rs w w1 w2 Hp Hs _ IH
        |value values url body e w w1 Hp Hs Hc]; [done| |];
        cbn [ib_add_values]; rewrite Hp, prog_bind_eq, Hs; [done|]. by rewrite Hc.
  - intros HA HT Hne. cbn [AddRecord infoblox_Provider]. unfold ib_AddRecord.
    destruct (Records record) as [|value values]; [done|]. cbn [ib_add_values].
    unfold ib_prepareRecord. rewrite !bool_decide_eq_false_2 by done.
    rewrite prog_bind_eq. by eexists.
Qed.
End facts.

(** ** Pages *)

(** A page decoded over the records of the pages before. *)
Fixpoint overwrite (records : list ib_Record) (objects : list ib_object) : list ib_Record :=
  match objects, records with
  | o :: objects, r :: records => decode_object o r :: overwrite records objects
  | _, _ => records
  end.

Lemma overwrite_nil records : overwrite records [] = records.
Proof. by destruct records. Qed.

Lemma length_overwrite records objects : length (overwrite records objects) = length records.
Proof. revert objects. induction records as [|r records IH]; intros [|o objects]; simpl; auto. Qed.

Section pages.
Context (grow : nat → nat).

(** The array [a] begins with pointers to the records [idx]. *)
Definition holds (m : memory) (a : nat) (idx : list nat) : Prop :=
  (a < length (m_arrays m))%nat ∧
  ∀ j p, idx !! j = Some p → default [] (m_arrays m !! a) !! j = Some (Some p).

(** The slice points to the records [idx], in order. *)
Definition points_to (m : memory) (s : go_slice) (idx : list nat) : Prop :=
  s_len s = length idx ∧ holds m (s_array s) idx.

Lemma points_to_length m s idx :
  points_to m s idx → (length idx ≤ length (array_of m s))%nat.
Proof.
  intros (_ & _ & Hs). destruct (decide (length idx = 0)%nat); [lia|].
  destruct (lookup_lt_is_Some_2 idx (length idx - 1)) as [p Hp]; [lia|].
  apply Hs, lookup_lt_Some in Hp. unfold array_of. lia.
Qed.

Lemma contents_idx m s idx :
  points_to m s idx → contents m s = omap (λ p, m_records m !! p) idx.
Proof.
  intros (Hl & _ & Hs). unfold contents.
  assert (take (s_len s) (array_of m s) = Some <$> idx) as ->.
  { apply list_eq. intros j. rewrite Hl, list_lookup_fmap.
    destruct (idx !! j) as [p|] eqn:Hp.
    - rewrite lookup_take_lt by by eapply lookup_lt_Some. by apply Hs.
    - apply lookup_ge_None in Hp. by rewrite lookup_take_ge. }
  clear. induction idx as [|p idx IH]; [done|]. cbn. by rewrite <-IH.
Qed.

(** Changes of memory that keep the beginnings of all arrays, up to [n]. *)
Definition keeps (n : nat) (m m' : memory) : Prop :=
  m_records m' = m_records m ∧
  ∀ a k, holds m a k → (length k ≤ n)%nat → holds m' a k.

(** Room for one more element. *)
Lemma grow_slice_spec m s idx m' s' :
  points_to m s idx → grow_slice grow m s = (m', s') →
  points_to m' s' idx ∧ (length idx < length (array_of m' s'))%nat ∧ ∀ n, keeps n m m'.
Proof.
  intros Hs. pose proof (points_to_length m s idx Hs) as Hlen. pose proof Hs as (Hl & Hv & Hin).
  unfold grow_slice. rewrite Hl. destruct (Nat.ltb_spec (length idx) (length (array_of m s))).
  { by intros [= <- <-]. }
  set (array := array_of m s ++ replicate (S (grow (length (array_of m s)))) None).
  intros [= <- <-].
  assert (array_of (mkMemory (m_records m) (m_arrays m ++ [array]))
    (mkSlice (length (m_arrays m)) (length idx)) = array) as Hnew.
  { unfold array_of. simpl. by rewrite lookup_app_r, Nat.sub_diag by lia. }
  split; [|split; [|split; [done|]]].
  - split; [done|]. split; [simpl; rewrite length_app; simpl; lia|].
    intros j p Hp. fold (array_of (mkMemory (m_records m) (m_arrays m ++ [array]))
      (mkSlice (length (m_arrays m)) (length idx))). rewrite Hnew. unfold array.
    rewrite lookup_app_l; [by apply Hin|]. apply lookup_lt_Some in Hp. lia.
  - rewrite Hnew. unfold array. rewrite length_app, length_replicate. lia.
  - intros a k [Ha Hk] _. split; [simpl; rewrite length_app; simpl; lia|].
    intros j p Hp. simpl. rewrite lookup_app_l by done. by apply Hk.
Qed.

(** Setting the element after those in use. *)
Lemma set_element_spec m s p idx :
  points_to m s idx → (length idx < length (array_of m s))%nat →
  points_to (set_element m s (length idx) (Some p)) (mkSlice (s_array s) (S (length idx))) (idx ++ [p]) ∧
  keeps (length idx) m (set_element m s (length idx) (Some p)).
Proof.
  intros (Hl & Hv & Hin) Hi.
  assert (∀ a, default [] (m_arrays (set_element m s (length idx) (Some p)) !! a) =
    if decide (a = s_array s) then <[length idx := Some p]> (array_of m s)
    else default [] (m_arrays m !! a)) as Harr.
  { intros a. unfold set_element. simpl. case_decide as Ha.
    - by rewrite Ha, list_lookup_insert_eq.
    - by rewrite list_lookup_insert_ne. }
  split; [|split; [done|]].
  - split; [rewrite length_app; simpl; lia|].
    split; [unfold set_element; simpl; by rewrite length_insert|].
    intros j q Hq. simpl s_array. rewrite Harr, decide_True by done.
    destruct (decide (j = length idx)) as [->|Hj].
    + rewrite list_lookup_insert_eq by done. rewrite lookup_app_r, Nat.sub_diag in Hq by lia.
      by injection Hq as ->.
    + rewrite list_lookup_insert_ne by done. apply Hin.
      rewrite lookup_app_l in Hq; [done|]. apply lookup_lt_Some in Hq.
      rewrite length_app in Hq. simpl in Hq. lia.
  - intros a k [Ha Hk] Hn. split; [unfold set_element; simpl; by rewrite length_insert|].
    intros j q Hq. rewrite Harr. apply Hk in Hq as Hq'. case_decide as Has; [|done].
    apply lookup_lt_Some in Hq. rewrite list_lookup_insert_ne by lia.
    unfold array_of. by rewrite <-Has.
Qed.

Lemma append_spec m s idx p m' s' :
  points_to m s idx → append grow m s (Some p) = (m', s') →
  points_to m' s' (idx ++ [p]) ∧ keeps (length idx) m m'.
Proof.
  intros Hs. unfold append. destruct (grow_slice grow m s) as [m1 s1] eqn:Hg.
  destruct (grow_slice_spec m s idx m1 s1 Hs Hg) as (Hs1 & Hlen & Hk).
  intros [= <- <-]. rewrite (proj1 Hs1).
  destruct (set_element_spec m1 s1 p idx Hs1 Hlen) as [Hnew [Hr Hkeep]].
  split; [done|]. destruct (Hk (length idx)) as [Hr1 Hk1]. split; [by rewrite Hr|].
  intros a k Ha Hlk. by apply Hkeep; [apply Hk1|].
Qed.

(** Appending what a slice points to. *)
Lemma append_all_spec n i m records result idx N m' records' :
  points_to m records idx → holds m (s_array result) (seq 0 N) →
  (i + n ≤ N)%nat → (N ≤ length idx)%nat →
  append_all grow m records result i n = (m', records') →
  points_to m' records' (idx ++ seq i n) ∧ m_records m' = m_records m ∧
  holds m' (s_array result) (seq 0 N).
Proof.
  revert i m records idx. induction n as [|n IH]; intros i m records idx Hs Hres Hi HN; cbn [append_all].
  { intros [= <- <-]. by rewrite app_nil_r. }
  assert (array_of m result !! i = Some (Some i)) as ->
    by (apply Hres, lookup_seq; lia).
  destruct (append grow m records (Some i)) as [m1 s1] eqn:Happ.
  destruct (append_spec m records idx i m1 s1 Hs Happ) as [Hs1 [Hr1 Hk1]]. intros Hrun.
  destruct (IH (S i) m1 s1 (idx ++ [i])) as (Hs' & Hr' & Hres'); [done| |lia| |done|].
  - apply Hk1; [done|]. by rewrite length_seq.
  - rewrite length_app. lia.
  - rewrite <-app_assoc in Hs'. split; [done|]. split; [congruence|done].
Qed.

(** Decoding a page no longer than the first over it. *)
Lemma decode_elements_over objects m s pre records :
  m_records m = pre ++ records → holds m (s_array s) (seq 0 (length (pre ++ records))) →
  (length objects ≤ length records)%nat →
  decode_elements grow m s (length pre) objects =
  (mkMemory (pre ++ overwrite records objects) (m_arrays m),
   mkSlice (s_array s) (length pre + length objects)).
Proof.
  revert m s pre records. induction objects as [|o objects IH]; intros m s pre records Hr Hh Hlen.
  { cbn [decode_elements]. rewrite overwrite_nil, <-Hr, Nat.add_0_r. by destruct m. }
  destruct records as [|r records]; [simpl in Hlen; lia|].
  assert (array_of m s !! length pre = Some (Some (length pre))) as Helem.
  { apply Hh, lookup_seq. rewrite length_app. simpl. lia. }
  cbn [decode_elements]. unfold decode_element.
  rewrite (proj2 (Nat.ltb_lt _ _)) by by eapply lookup_lt_Some.
  set (s1 := mkSlice (s_array s) _).
  change (array_of m s1) with (array_of m s). rewrite Helem.
  set (m1 := mkMemory _ _).
  assert (m_records m1 = (pre ++ [decode_object o r]) ++ records) as Hr1.
  { unfold m1. simpl. rewrite Hr, <-app_assoc. simpl.
    rewrite <-(Nat.add_0_r (length pre)) at 1. by rewrite alter_app_r. }
  specialize (IH m1 s1 (pre ++ [decode_object o r]) records Hr1).
  replace (S (length pre)) with (length (pre ++ [decode_object o r]))
    by (rewrite length_app; simpl; lia).
  rewrite IH.
  - cbn [overwrite]. rewrite <-app_assoc. do 2 f_equal. rewrite length_app. simpl. lia.
  - rewrite <-app_assoc. rewrite length_app in Hh |- *. exact Hh.
  - simpl in Hlen. lia.
Qed.
(** The array of the slice has no records from [n] on. *)
Definition blank (m : memory) (s : go_slice) (n : nat) : Prop :=
  ∀ j p, (n ≤ j)%nat → array_of m s !! j ≠ Some (Some p).

Lemma grow_slice_blank m s m' s' n :
  blank m s n → grow_slice grow m s = (m', s') → blank m' s' n ∧ m_records m' = m_records m.
Proof.
  intros Hb. unfold grow_slice. destruct (_ <? _)%nat; [by intros [= <- <-]|].
  generalize (S (grow (length (array_of m s)))) as k. intros k [= <- <-]. split; [|done].
  intros j p Hj. unfold array_of at 1. simpl.
  rewrite lookup_app_r, Nat.sub_diag by done. cbn. intros Hp.
  apply lookup_app_Some in Hp as [Hp|[_ [Hp _]%lookup_replicate]]; [by eapply Hb|done].
Qed.

(** Decoding into an element that has no record yet. *)
Lemma decode_element_fresh m s n o :
  points_to m s (seq 0 n) → length (m_records m) = n → blank m s n →
  ∃ m' s', decode_element grow m s n o = (m', s') ∧ points_to m' s' (seq 0 (S n)) ∧
    m_records m' = m_records m ++ [decode_object o zeroIbRecord] ∧ blank m' s' (S n).
Proof.
  intros Hs Hr Hb. unfold decode_element.
  assert ((if (n <? length (array_of m s))%nat then (m, s) else grow_slice grow m s) =
    grow_slice grow m s) as ->.
  { unfold grow_slice. rewrite (proj1 Hs), length_seq. by destruct (_ <? _)%nat. }
  destruct (grow_slice grow m s) as [m1 s1] eqn:Hg.
  destruct (grow_slice_spec m s _ m1 s1 Hs Hg) as (Hs1 & Hlen & _).
  destruct (grow_slice_blank m s m1 s1 n Hb Hg) as [Hb1 Hr1].
  rewrite (proj1 Hs1), !length_seq, Nat.max_r by lia.
  change (array_of m1 (mkSlice (s_array s1) (S n))) with (array_of m1 s1).
  set (m2 := mkMemory _ _).
  assert (points_to m2 s1 (seq 0 n)) as Hs2 by exact Hs1.
  destruct (set_element_spec m2 s1 n _ Hs2) as [Hs3 _]; [done|].
  rewrite length_seq in Hs3. rewrite <-seq_S in Hs3.
  destruct (array_of m1 s1 !! n) as [[p|]|] eqn:Hn; [by apply Hb1 in Hn|..];
    rewrite Hr1, Hr; eexists _, _; split_and!; [done|done|by rewrite <-Hr1| |done|done|by rewrite <-Hr1|];
    intros j p Hj; unfold array_of, set_element; simpl;
    rewrite list_lookup_insert_eq by apply (proj2 Hs1); simpl;
    rewrite list_lookup_insert_ne by lia; apply Hb1; lia.
Qed.

Lemma decode_elements_fresh objects m s n :
  points_to m s (seq 0 n) → length (m_records m) = n → blank m s n →
  ∃ m' s', decode_elements grow m s n objects = (m', s') ∧
    points_to m' s' (seq 0 (n + length objects)) ∧
    m_records m' = m_records m ++ ((λ o, decode_object o zeroIbRecord) <$> objects).
Proof.
  revert m s n. induction objects as [|o objects IH]; intros m s n Hs Hr Hb; cbn [decode_elements].
  - eexists _, _. split; [done|]. rewrite app_nil_r, Nat.add_0_r. split; [|done].
    destruct Hs as [Hl Hh]. split; [by rewrite length_seq|done].
  - destruct (decode_element_fresh m s n o Hs Hr Hb) as (m1 & s1 & -> & Hs1 & Hr1 & Hb1).
    destruct (IH m1 s1 (S n) Hs1) as (m' & s' & -> & Hs' & Hr'); [|done|].
    + rewrite Hr1, length_app. simpl. lia.
    + eexists _, _. split; [done|]. rewrite Hr', Hr1, <-app_assoc. split; [|done].
      simpl. by rewrite <-Nat.add_succ_comm.
Qed.

Lemma lookup_range {A} (l : list A) (n : nat) :
  omap (λ i, l !! i) (seq 0 n) = take n l.
Proof.
  induction n as [|n IH]; [done|]. rewrite seq_S, list.omap_app, IH. simpl.
  destruct (l !! n) as [x|] eqn:Hx.
  - by rewrite (take_S_r _ _ _ Hx).
  - apply lookup_ge_None in Hx. rewrite !take_ge by lia. by rewrite app_nil_r.
Qed.
End pages.

Section paging.
Context {V : Type} `{InfobloxApi V} (client : ib_Client) (url body : string) (head : bool).
Notation W := (InfobloxProvider * V)%type.

(** The service answers with these pages when it is asked for the page named,
    and then for the next pages; an answer without a next page is the last. *)
Inductive served : string → V → list (list ib_object) → V → Prop :=
  | served_end v : served "" v [] v
  | served_page id v page objects rest v1 v2 :
      id ≠ "" →
      ib_Send client "GET" (url +:+ "&_page_id=" +:+ id) body head v = (Returns (Ok (Ok page)), v1) →
      p_result page = Some objects →
      served (default "" (p_next page)) v1 rest v2 →
      served id v (objects :: rest) v2.

(** The records after all pages: each page was decoded over the ones before. *)
Definition cells (first : list ib_object) (rest : list (list ib_object)) : list ib_Record :=
  foldl overwrite ((λ o, decode_object o zeroIbRecord) <$> first) rest.

(** The loop over the pages, from any page on. *)
Lemma ib_pages_spec d id v pages v' fuel m result records idx :
  ib_client d = Some client → served id v pages v' → (length pages ≤ fuel)%nat →
  points_to m records idx → (length (m_records m) ≤ length idx)%nat →
  holds m (s_array result) (seq 0 (length (m_records m))) →
  Forall (λ p, (0 < length p ≤ length (m_records m))%nat) pages →
  let cs := foldl overwrite (m_records m) pages in
  ib_pages fuel url body head id m result records (d, v) =
  (Returns (Ok (omap (λ i, cs !! i) idx ++ (pages ≫= λ p, take (length p) cs))), (d, v')).
Proof.
  intros Hd Hserved. revert fuel m result records idx.
  induction Hserved as [v|id v page objects rest v1 v2 Hid Hsend Hres Hrest IH];
    intros fuel m result records idx Hfuel Hrec Hidx Hh Hall cs.
  - assert (ib_pages fuel url body head "" m result records = mret (Ok (contents m records))) as ->
      by by destruct fuel.
    rewrite (contents_idx _ _ idx) by done. simpl. by rewrite app_nil_r.
  - destruct fuel as [|fuel]; [simpl in Hfuel; lia|]. cbn [ib_pages].
    rewrite bool_decide_eq_false_2 by done. rewrite try_bind_eq.
    unfold ib_call. rewrite prog_bind_eq. unfold get_state. cbn [fst]. rewrite Hd. cbn [deref].
    unfold outer. cbn [snd]. rewrite Hsend. cbn [fst]. rewrite Hres.
    apply list.Forall_cons in Hall as [[Hpos Hle] Hall].
    assert (decode_array json_grow m result objects =
      (mkMemory (overwrite (m_records m) objects) (m_arrays m),
       mkSlice (s_array result) (length objects))) as ->.
    { destruct objects as [|o objects]; [simpl in Hpos; lia|].
      apply (decode_elements_over _ (o :: objects) m result [] (m_records m)); done. }
    set (m1 := mkMemory _ _). set (r1 := mkSlice _ _).
    destruct (append_all json_grow m1 records r1 0 (s_len r1)) as [m2 records2] eqn:Happ.
    destruct (append_all_spec json_grow (length objects) 0 m1 records r1 idx
      (length (m_records m)) m2 records2) as (Hrec2 & Hr2 & Hh2); [exact Hrec|exact Hh|lia|lia|done|].
    assert (length (m_records m2) = length (m_records m)) as Hlen
      by (rewrite Hr2; apply length_overwrite).
    rewrite (IH fuel m2 r1 records2 (idx ++ seq 0 (length objects))).
    + rewrite Hr2. unfold cs. cbn [foldl]. simpl m_records.
      rewrite list.omap_app, lookup_range, <-app_assoc. done.
    + simpl in Hfuel. lia.
    + exact Hrec2.
    + rewrite length_app. lia.
    + rewrite Hlen. exact Hh2.
    + by rewrite Hlen.
Qed.
End paging.

(** [C20] The pages of an answer.  The request follows the names of the next
    pages until an answer has none.  With a single page the records are the
    decoded objects.  With more, each page is decoded into the records of the
    pages before it: the answer begins with the records of the first page as
    the later pages have overwritten them, so that the first records of all
    pages are those of the last one that is long enough, and the records that
    stood there are lost. *)
Theorem ib_SendRequest_pages {V : Type} `{InfobloxApi V} (client : ib_Client)
    (urlStr body : string) (head : bool) (d : InfobloxProvider) (page : ib_page)
    (first : list ib_object) (rest : list (list ib_object)) (v v1 v' : V) :
  let url := urlStr +:+ (if Contains urlStr "?" then "&" else "?") +:+ firstPage in
  ib_client d = Some client → urlStr ≠ "" →
  ib_Send client "GET" url body head v = (Returns (Ok (Ok page)), v1) →
  p_result page = Some first → first ≠ [] →
  served client url body head (default "" (p_next page)) v1 rest v' →
  Forall (λ p, 0 < length p ≤ length first)%nat rest → (length rest ≤ ib_fuel v1)%nat →
  let decoded := (λ o, decode_object o zeroIbRecord) <$> first in
  let cells := foldl overwrite decoded rest in
  ib_SendRequest "GET" urlStr body head (d, v) =
  (Returns (Ok (cells ++ (rest ≫= λ p, take (length p) cells))), (d, v')).
Proof.
  intros url Hd Hurl Hsend Hres Hne Hserved Hall Hfuel decoded cs.
  unfold ib_SendRequest. rewrite bool_decide_eq_false_2, bool_decide_eq_true_2 by done.
  unfold ib_get.
  assert ((if Contains urlStr "?" then urlStr +:+ "&" +:+ firstPage
    else urlStr +:+ "?" +:+ firstPage) = url) as -> by (unfold url; by destruct (Contains _ _)).
  rewrite try_bind_eq. unfold ib_call. rewrite prog_bind_eq. unfold get_state. cbn [fst].
  rewrite Hd. cbn [deref]. unfold outer. cbn [fst snd]. rewrite Hsend. cbn [fst]. rewrite Hres.
  assert (∃ m s, decode_array json_grow empty_memory nil_slice first = (m, s) ∧
    points_to m s (seq 0 (length first)) ∧ m_records m = decoded) as (m & s & -> & Hs & Hm).
  { destruct first as [|o first]; [done|].
    destruct (decode_elements_fresh json_grow (o :: first) empty_memory nil_slice 0)
      as (m & s & Hrun & Hs & Hm); [|done|by intros j p _|by eauto].
    split; [done|]. split; [simpl; lia|by intros j p]. }
  rewrite prog_bind_eq. cbn [fst snd].
  assert (length (m_records m) = length first) as Hlen by (rewrite Hm; apply length_fmap).
  rewrite (ib_pages_spec client url body head d _ v1 rest v' _ m s s (seq 0 (length first)));
    rewrite ?Hlen, ?length_seq; try done; [|by destruct Hs].
  rewrite Hm, lookup_range. fold cs. rewrite take_ge; [done|].
  assert (length cs = length decoded) as ->; [|unfold decoded; by rewrite length_fmap].
  unfold cs. clear. generalize decoded as rs. induction rest as [|p rest IH]; intros rs; [done|].
  simpl. by rewrite IH, length_overwrite.
Qed.

(** ** An example: a service with two pages of two records and one *)
Module Example_infoblox.

Definition object (ref name addr : string) : ib_object :=
  mkIbObject (Some ref) None (Some name) (Some "example.com") (Some 60) (Some false)
    (Some addr) None.

Definition page_1 : list ib_object := [object "r1" "a.example.com" "192.0.2.1";
                                       object "r2" "b.example.com" "192.0.2.2"].
Definition page_2 : list ib_object := [object "r3" "c.example.com" "192.0.2.3"].

#[export] Instance calls : InfobloxApi unit := {|
  ib_Client := unit;
  ib_NewClient := λ _ _ _ _ _, tt;
  ib_RecordHosts := λ _, mret (Ok tt);
  ib_Send := λ _ method path _ _,
    mret (Ok (Ok (if bool_decide (method ≠ "GET") then mkIbPage None None
                  else if Contains path "_page_id=2" then mkIbPage None (Some page_2)
                  else mkIbPage (Some "2") (Some page_1))));
  ib_Marshal := λ body, Ok (ibb_value body);
  os_OpenInRoot := λ root path,
    mret (if bool_decide (path = "infoblox/password")
          then Ok (mkFile (Ok true) (mkBody "geheim" None)) else Err "no such file");
  json_grow := λ n, n;
  ib_fuel := λ _, 8%nat;
|}.

Definition provider : InfobloxProvider := mkInfoblox (Some tt) "example.com".

Definition decoded (ref name addr : string) : ib_Record :=
  mkIbRecord ref "" name "example.com" 60 false addr "" "" "".

(** The first record of the first page is lost, that of the second one is
    there twice. *)
Lemma ib_SendRequest_pages_witness :
  ib_SendRequest "GET" recordAURL "" true (provider, tt) =
  (Returns (Ok [decoded "r3" "c.example.com" "192.0.2.3"; decoded "r2" "b.example.com" "192.0.2.2";
                decoded "r3" "c.example.com" "192.0.2.3"]), (provider, tt)).
Proof.
  refine (ib_SendRequest_pages tt recordAURL "" true provider (mkIbPage (Some "2") (Some page_1))
    page_1 [page_2] tt tt tt _ _ _ _ _ _ _ _); try done.
  - eapply served_page with (page := mkIbPage None (Some page_2)); [done..|]. apply served_end.
  - repeat constructor; simpl; lia.
  - simpl. lia.
Defined.

Lemma readSecretFile_contained_witness :
  (∃ e, readSecretFileFromRoot "/run/secrets" " /run/secrets/./infoblox/password " (provider, tt) =
     (Returns (Err e), (provider, tt))) ∨
  ∃ path, Forall is_name (Split path slash) ∧ Split path slash ≠ [] ∧
    match os_OpenInRoot (Clean "/run/secrets") path tt with
    | (Returns r, v') => ∃ res,
        readSecretFileFromRoot "/run/secrets" " /run/secrets/./infoblox/password " (provider, tt) =
          (Returns res, (provider, v')) ∧
        (∀ payload, res = Ok payload → ∃ f, r = Ok f ∧ file_regular f = Ok true ∧
           payload = body_data (file_body f) ∧ body_error (file_body f) = None ∧
           1 ≤ Z.of_nat (String.length payload) ≤ 65536)
    | (Panics e, v') =>
        readSecretFileFromRoot "/run/secrets" " /run/secrets/./infoblox/password " (provider, tt) =
          (Panics e, (provider, v'))
    | (Exits e, v') =>
        readSecretFileFromRoot "/run/secrets" " /run/secrets/./infoblox/password " (provider, tt) =
          (Exits e, (provider, v'))
    end.
Proof.
  exact (readSecretFile_contained "/run/secrets" " /run/secrets/./infoblox/password "
    (provider, tt) eq_refl).
Defined.

(** What it reads and refuses. *)
Example secrets_read :
  readSecretFile " /run/secrets/./infoblox/password " (provider, tt) =
    (Returns (Ok "geheim"), (provider, tt)) ∧
  readSecretFile "/run/secrets/../passwd" (provider, tt) =
    (Returns (Err "secret path is outside the mounted secret directory"), (provider, tt)).
Proof. by vm_compute. Qed.
End Example_infoblox.
